(* ===== verification/_CoqProject ===== *)
-Q . S2P
Prelude.v
PyStr.v
PyStrFacts.v
Device.v
DeviceFacts.v
Toy.v
PyVal.v
PyValFacts.v
JsonFacts.v
Worker.v
CliParse.v
Cli.v
CliFacts.v
CliFrame.v
ConfigGuard.v
Gcu.v
Sentinel.v
Profile.v
Dut.v
Topology.v
Boot.v
Loopback.v
Obj.v
LoopbackFacts.v
PmonFault.v
MockBmc.v
MockHttp.v
FieldReport.v
FieldReportFacts.v
FieldHtml.v
Verify.v
Qos.v
Acl.v
ConfigStore.v
Hygiene.v
Dlb.v
DlbFacts.v
LtParse.v
Bytes.v
Bgp.v
BgpFacts.v
BgpHold.v
Breakout.v
BufAudit.v
Lossless.v
Sflow.v
Servers.v
PfcPkt.v
Counters.v
Traffic.v
L3.v
L3Facts.v
QMeasure.v
Links.v
Fixtures.v
FixturesFacts.v
SentinelReport.v
SentinelFile.v
Session.v
Responders.v
VlanChk.v
Catalog.v
Tools.v
LoopChip.v
BgpServe.v
NetnsRoutes.v
Experiments.v
ExperimentsFacts.v
TrapSweep.v
Lifecycle.v
Transfer.v
Probes.v
