(* ===== verification/Prelude.v ===== *)
(** * Verification of the sonic-onbox-fvt on-device test framework

    The program is a functional-verification framework that runs on the switch
    it tests.  Tests (src/tests) drive one device by shell commands: SONiC's
    CLI, redis through [sonic-db-cli], the chip's diagnostic shell inside the
    syncd container, and frames sent on the kernel's network devices of ports
    that are put in loopback.  The framework must put the device back: the
    hard parts are the undo paths, the guards between tests, parsing what the
    commands print, waiting with a limit, and parallel workers on one device.
    The development translates the framework into executable functions and
    proves what those parts promise.

    ** The parts and how they interact

    Every effect goes through one parameter, the class [Device] (Device.v): a
    state, what a command does to it and answers, the passing of time, and a
    clock.  [M A] is the monad of the session: it threads the device, the trace
    of the commands and the two long-lived Python objects (the CLI adapter's
    caches and the loopback manager's tables); an outcome is a value, an
    exception or [Hang].  [OM S A] (Obj.v) adds an object whose state survives
    exceptions.  Times are milliseconds.

    - Base: Prelude (Python dictionaries as association lists in insertion
      order, automation), PyStr and PyStrFacts ([str] methods on ASCII),
      PyVal, PyValFacts and JsonFacts (JSON, [repr], [literal_eval]), Bytes
      ([struct]), Device, DeviceFacts (compositional reasoning: [steps] for any
      preorder on worlds, [total], exceptions), Obj, Toy (devices for the
      examples).
    - Identity and discovery: Worker (framework/worker.py), Profile
      (profile.py), Dut (dut.py, ports.py), Topology (topology.py), Boot (the
      session's objects: the first fixtures of conftest.py and [Shell.__init__]).
    - The adapters: CliParse, Cli, CliFacts, CliFrame (framework/cli.py on
      shell.py), Gcu (gcu.py), Verify (verify.py), ConfigStore (what redis
      promises of CONFIG_DB, with an executable instance).
    - Putting things back: ConfigGuard (config_guard.py), Loopback and
      LoopbackFacts (loopback.py), Hygiene (hygiene.py), Sentinel,
      SentinelReport and SentinelFile (sentinel.py, its report file and
      tools/analyze_sentinel.py), Fixtures and FixturesFacts (conftest.py),
      Session (the hooks of conftest.py over a session of tests), LoopChip
      (what the manager's record says of the chip, from one test to the next).
    - Features under test: Qos (qos.py), Acl (acl.py), Dlb, DlbFacts and
      LtParse (dlb.py), Breakout (breakout.py), BufAudit (bufaudit.py), Lossless
      (lossless.py), VlanChk (vlanchk.py), PfcPkt (pfcpkt.py), Counters
      (counters.py and the readers of pfcpkt.py and qmeasure.py), QMeasure
      (qmeasure.py).
    - Traffic and topologies: Traffic (traffic.py, collector.py), L3 and
      L3Facts (l3probe.py, vrfhairpin.py), Links (topo/).
    - Peers: Bgp, BgpFacts and BgpHold (servers/bgp_speaker.py), BgpServe (its
      [--serve] process), NetnsRoutes (that process and its parent in
      topo/netns_peer.py, the two ends of a pipe), Servers (servers/base.py,
      dhcp_server.py, mock_aaa.py, collectors.py), Lifecycle (start, stop and
      the thread of these servers; the packet collectors), Sflow and
      Responders (responders/; the child processes of servers/).
    - Fault injection: PmonFault (framework/pmon_fault.py), MockBmc and
      MockHttp (servers/mock_bmc.py, its data and its replies), FieldReport, FieldReportFacts and FieldHtml
      (tools/pmon_field_report.py, field_report_to_html.py).
    - Tools: Catalog (tools/gen_catalog.py, catalog/coverage.py), Tools and
      Transfer (tools/dutssh.py, cli_inventory.py, bcm_sock.py, bcmsh_run.py),
      Experiments and ExperimentsFacts (the hardware experiments under tools/),
      TrapSweep (tools/trap_sweep.py), Probes (tools/hw_loopback_probe.py,
      bcmsh_probe.py).

    A Python method [x] of a class is the definition [x], or the class's short
    prefix and [x] where the name is taken; constructors are the records.  An
    f-string is a concatenation; log messages are left out.

    ** Interfaces

    Code that is not in the repository is a class whose fields are the model's
    parameters: [Device]; the environment variables ([ShellEnv], [CliEnv],
    [WorkerEnv], [DutEnv], [ProfileEnv], [SentinelEnv], [SnapEnv], [LaneEnv],
    [LbEnv], [BootEnv]); the packet library and the kernel's network devices ([Nic],
    [L3Nic], [ArpNic], [Sniffer], [FrameLib]); processes ([Procs], [Daemons], [Programs], [Jobs], [Pty],
    [Expect]); the HTTP
    library and the real BMC ([FieldEnv]); the chip's table shell ([ChipTab]).
    What the code relies on is stated as laws of documented behaviour:
    [ConfigStore] (rows of CONFIG_DB under HSET, HGETALL, KEYS, DEL),
    [ChipLaws] and [PvidLine] (the chip's PVID line reads back what was set),
    [LoopLaws] (which command loops a port), [SpeakerProc] (a child process
    runs the modelled speaker, and its lines come through the pipe),
    [Iptables] (-A, -D and -S on a chain), [KeyStore] (KEYS lists the rows of
    a device), [TxEcho] (a tap hears what is sent), [TimeLaws] and [Punctual] (the
    clock), [LiveShell] and [NativeShell] (neither dry run nor klish),
    [Steady] and [CalmFirewall].  Each class of laws has an instance on a
    concrete device, and every theorem with a hypothesis is applied to one.
    Between components: [DatagramServer] and [Handler] are what a subclass
    owes its server loop or responder, [Listener] what both kinds of server owe
    the thread that serves them, [UndoLaws] what undo commands owe the guard.

    ** What the theorems show

    - Two programs agree: the process of the speaker refines an abstract
      server of routes, and its parent's calls are exactly what it does; a
      server over its life does what its sequential loop does; the leak map a
      session's analyzer reads from the report file is the one computed from
      what each test left on the device.
    - State is put back: no chip loopback outlives its test; the rollback resolves undo commands that block each
      other, and is left by an exception exactly when one of them raises it; the loopback manager's clear leaves exactly the held ports; the
      per-test guard leaves a clean record and has told the chip exactly what
      undoes it; the VRF hairpin and the forwarding probe leave no loopback,
      whatever raised; the firewall redirection is a lease; the field report
      gives the firewall back; the mock BMC's reset restores its baseline;
      lossless undo removes exactly what was read back; a finished hardware
      experiment leaves no loopback, VLAN or static address of its own, and the
      rest of the chip as stated.
    - Nothing else is touched: the sweep of orphan rows deletes exactly the
      orphans; nothing is injected into syncd before its guards; two workers
      share no port and no VLAN id; the L3 fixtures loop a port only behind
      their gate, stated as what was seen in ASIC_DB (the last look of the gate
      never holds a port back: [gate_blind]); a port is cached as L2 only after it was seen to be.
    - Verdicts are right: the leak map of the sentinel, the sFlow sample
      count, the trap sweep, the bounds of a queue measurement, the report of
      an established session, the PVID read-back (with what it confirms
      wrongly), a file copy's user, whose scp ended well with the right source
      and destination as bash reads its line; and, as lemmas, the pause-frame fields, the VLAN bitmap, the
      headroom audit, the recovery verdict.
    - Encodings round-trip: the mock BMC's replies read back as the data it
      holds, chip tables in every
      layout, BGP messages from any segmentation, DHCP; every message the
      speaker sends is well formed, and it sends often enough for the peer's
      hold timer; as lemmas, JSON and the redis hashes.
    - Loops end: the adapter's mutual recursion, the polls, the waits.

    ** Bounds and fuel

    [config_depth] is 3: [config] and [_fixup] call each other at most that
    deep, and CliFacts.v proves that the fuel never runs out ([Hang]).  A poll of limit [t] and interval [i] has [t / i + 2] rounds
    of fuel; under [TimeLaws] each round advances the clock by the interval, so
    the limit is met first ([total_while] and its users).  Loops of the code
    with a fixed number of tries recurse on that number (16 queue readings,
    20 PVID read-backs, four attempts of ssh, four levels of the command
    tree, 50 rounds of the flood experiment).  A file copy answers every
    password prompt; its fuel is the number of prompts, and [copy_result]
    asks that a child stops within it.  Parsers recurse on the text or on its length plus one.  Integers
    are unbounded in Python and are [Z]; the fields of frames are packed at
    their width, with [StructError] outside it.

    ** Not modelled

    Sockets, threads and HTTP themselves: what they do is an argument of a step
    or a parameter.  framework/log.py, argument parsing and console output; the
    post-mortem texts of the lossless builder; a packet helper of
    tools/duallb158.py that nothing calls; constructors and context managers
    that only store or forward.  The test cases of src/tests, which are uses of
    the framework.  Characters beyond ASCII in the [str] methods. *)

From Stdlib Require Export ZArith Lia Bool List String Ascii.
From stdpp Require Export base tactics option list gmap strings.

#[global] Open Scope string_scope.
#[global] Open Scope list_scope.
#[global] Open Scope Z_scope.

(** ** Automation shared by every component *)

Create HintDb fvt discriminated.
Create Rewrite HintDb fvt.

(** Split every hypothesis that is a conjunction, an existential or a
    boolean conjunction. *)
Ltac break_hyp :=
  match goal with
  | H : _ /\ _ |- _ => destruct H
  | H : exists _, _ |- _ => destruct H
  | H : andb _ _ = true |- _ => apply andb_true_iff in H
  | H : orb _ _ = false |- _ => apply orb_false_iff in H
  | H : negb _ = true |- _ => apply negb_true_iff in H
  | H : negb _ = false |- _ => apply negb_false_iff in H
  end.
Ltac break_hyps := repeat break_hyp.

(** Case analysis on the innermost match of the goal, remembering it. *)
Ltac case_goal :=
  match goal with
  | |- context [match ?x with _ => _ end] =>
      lazymatch x with
      | context [match _ with _ => _ end] => fail
      | _ => let E := fresh "E" in destruct x eqn:E
      end
  end.

(** Case analysis on the innermost match of a hypothesis. *)
Ltac case_hyp H :=
  match type of H with
  | context [match ?x with _ => _ end] =>
      lazymatch x with
      | context [match _ with _ => _ end] => fail
      | _ => let E := fresh "E" in destruct x eqn:E
      end
  end.

(** Turn the boolean comparisons of the context into propositions. *)
Ltac bool_prop :=
  repeat match goal with
  | H : (_ <? _)%Z = true |- _ => apply Z.ltb_lt in H
  | H : (_ <? _)%Z = false |- _ => apply Z.ltb_ge in H
  | H : (_ <=? _)%Z = true |- _ => apply Z.leb_le in H
  | H : (_ <=? _)%Z = false |- _ => apply Z.leb_gt in H
  | H : (_ =? _)%Z = true |- _ => apply Z.eqb_eq in H
  | H : (_ =? _)%Z = false |- _ => apply Z.eqb_neq in H
  | H : String.eqb _ _ = true |- _ => apply String.eqb_eq in H
  | H : String.eqb _ _ = false |- _ => apply String.eqb_neq in H
  | H : Ascii.eqb _ _ = true |- _ => apply Ascii.eqb_eq in H
  | H : Ascii.eqb _ _ = false |- _ => apply Ascii.eqb_neq in H
  end.

(** ** Python dictionaries

    A Python [dict] keeps insertion order, and several loops of the
    framework iterate over one, so a dictionary is an association list with
    Python's update rules: assigning an existing key keeps its place,
    assigning a new one appends. *)

Definition pydict (K V : Type) := list (K * V).

Section Pydict.
Context {K V : Type} `{EqDecision K}.
Implicit Types (d : pydict K V) (k : K) (v : V).

(** [d.get(k)] *)
Fixpoint dget k d : option V :=
  match d with
  | [] => None
  | (k', v) :: d' => if decide (k = k') then Some v else dget k d'
  end.

(** [d[k] = v] *)
Fixpoint dset k v d : pydict K V :=
  match d with
  | [] => [(k, v)]
  | (k', v') :: d' => if decide (k = k') then (k, v) :: d' else (k', v') :: dset k v d'
  end.

(** [d.pop(k, None)], the dictionary part *)
Fixpoint ddel k d : pydict K V :=
  match d with
  | [] => []
  | (k', v') :: d' => if decide (k = k') then d' else (k', v') :: ddel k d'
  end.

(** [k in d] *)
Definition dmem k d : bool := match dget k d with Some _ => true | None => false end.

(** [d.keys()] *)
Definition dkeys d : list K := map fst d.

(** the dictionary a sequence of assignments builds: [dict(pairs)] *)
Definition dict_of (l : list (K * V)) : pydict K V :=
  fold_left (fun d p => dset (fst p) (snd p) d) l [].

(** A dictionary has no duplicate key. *)
Definition dwf d : Prop := NoDup (dkeys d).

Lemma dget_dset_eq k v d : dget k (dset k v d) = Some v.
Proof. induction d as [|[k' v'] d IH]; simpl; repeat (case_decide; simpl); congruence. Qed.

Lemma dget_dset_ne k k' v d : k' <> k -> dget k' (dset k v d) = dget k' d.
Proof.
  intros Hne. induction d as [|[k2 v2] d IH]; simpl; repeat (case_decide; simpl);
    subst; try congruence; try (rewrite IH; reflexivity).
Qed.

Lemma dget_dset k k' v d :
  dget k' (dset k v d) = if decide (k' = k) then Some v else dget k' d.
Proof. case_decide; subst; [apply dget_dset_eq | by apply dget_dset_ne]. Qed.

Lemma dget_None_keys k d : dget k d = None <-> k ∉ dkeys d.
Proof.
  induction d as [|[k' v'] d IH]; simpl.
  - split; [intros _; apply not_elem_of_nil | done].
  - rewrite not_elem_of_cons. case_decide; subst; [naive_solver | rewrite IH; naive_solver].
Qed.

Lemma dget_Some_elem k v d : dget k d = Some v -> (k, v) ∈ d.
Proof.
  induction d as [|[k' v'] d IH]; simpl; [done|]. case_decide; intros; simplify_eq.
  - left.
  - right. auto.
Qed.

Lemma elem_dget k v d : dwf d -> (k, v) ∈ d -> dget k d = Some v.
Proof.
  unfold dwf. induction d as [|[k' v'] d IH]; simpl; intros Hnd Hin.
  - by apply not_elem_of_nil in Hin.
  - apply NoDup_cons in Hnd as [Hni Hnd]. apply elem_of_cons in Hin as [Heq|Hin].
    + simplify_eq. case_decide; [done | congruence].
    + case_decide; subst; [|auto]. exfalso. apply Hni.
      change k' with (fst (k', v)). by apply list_elem_of_fmap_2.
Qed.

Lemma dkeys_dset_in k v d : k ∈ dkeys d -> dkeys (dset k v d) = dkeys d.
Proof.
  induction d as [|[k' v'] d IH]; simpl; [by intros ?%not_elem_of_nil|].
  rewrite elem_of_cons. intros Hin. case_decide; subst; simpl; [done|].
  f_equal. apply IH. naive_solver.
Qed.

Lemma dset_notin k v d : k ∉ dkeys d -> dset k v d = d ++ [(k, v)].
Proof.
  induction d as [|[k' v'] d IH]; simpl; [done|].
  rewrite not_elem_of_cons. intros [Hne Hin]. case_decide; [done|]. f_equal. auto.
Qed.

Lemma dkeys_dset_notin k v d : k ∉ dkeys d -> dkeys (dset k v d) = dkeys d ++ [k].
Proof. intros Hin. rewrite dset_notin by done. unfold dkeys. by rewrite map_app. Qed.

Lemma dwf_nil : dwf [].
Proof. apply NoDup_nil_2. Qed.

Lemma dwf_dset k v d : dwf d -> dwf (dset k v d).
Proof.
  unfold dwf. destruct (decide (k ∈ dkeys d)).
  - by rewrite dkeys_dset_in.
  - rewrite dkeys_dset_notin by done. intros Hd.
    apply NoDup_app; repeat split; [done| |apply NoDup_singleton]. set_solver.
Qed.

Lemma dkeys_ddel_subset k k' d : k' ∈ dkeys (ddel k d) -> k' ∈ dkeys d.
Proof.
  induction d as [|[k2 v2] d IH]; simpl; [done|]. case_decide; simpl; set_solver.
Qed.

Lemma dwf_ddel k d : dwf d -> dwf (ddel k d).
Proof.
  unfold dwf. induction d as [|[k' v'] d IH]; simpl; [done|].
  intros [Hni Hnd]%NoDup_cons. case_decide; [done|]. simpl. apply NoDup_cons. split; [|auto].
  intros Hin. by apply Hni, (dkeys_ddel_subset k).
Qed.

Lemma dget_ddel_eq k d : dwf d -> dget k (ddel k d) = None.
Proof.
  unfold dwf. induction d as [|[k' v'] d IH]; simpl; [done|].
  intros [Hni Hnd]%NoDup_cons. case_decide; subst; [by apply dget_None_keys|].
  simpl. rewrite decide_False by done. auto.
Qed.

Lemma dget_ddel_ne k k' d : k' <> k -> dget k' (ddel k d) = dget k' d.
Proof.
  intros Hne. induction d as [|[k2 v2] d IH]; simpl; [done|]. case_decide; subst; simpl.
  - by rewrite decide_False by done.
  - case_decide; [done | apply IH].
Qed.

Lemma dwf_dict_of l : dwf (dict_of l).
Proof.
  unfold dict_of. assert (forall d, dwf d ->
    dwf (fold_left (fun d p => dset (fst p) (snd p) d) l d)) as H.
  { induction l as [|p l IH]; simpl; intros d Hd; [done|]. apply IH. by apply dwf_dset. }
  apply H, dwf_nil.
Qed.

(** Building a dictionary from pairs with distinct keys keeps the pairs. *)
Lemma dict_of_nodup l : NoDup (map fst l) -> dict_of l = l.
Proof.
  unfold dict_of. assert (forall l2 d, NoDup (map fst (d ++ l2)) ->
    fold_left (fun d p => dset (fst p) (snd p) d) l2 d = d ++ l2) as H.
  { induction l2 as [|[k v] l2 IH]; simpl; intros d Hd; [by rewrite app_nil_r|].
    assert (dset k v d = d ++ [(k, v)]) as ->.
    { apply dset_notin. rewrite map_app in Hd. apply NoDup_app in Hd as (_ & Hdis & _).
      intros Hin. apply (Hdis _ Hin). left. }
    rewrite IH; rewrite <- app_assoc; done. }
  intros Hl. by rewrite H.
Qed.
End Pydict.

#[export] Hint Resolve dwf_nil dwf_dset dwf_ddel dwf_dict_of : fvt.
#[export] Hint Rewrite @dget_dset_eq : fvt.

(** ** Lists *)

Section Lists.
Context {A B : Type}.

(** [any(p(x) for x in l)] keeps a witness; [all] its dual. *)
Lemma existsb_false_iff (p : A -> bool) l :
  existsb p l = false <-> forall x, x ∈ l -> p x = false.
Proof.
  induction l as [|a l IH]; simpl.
  - split; [intros _ x Hx; by apply not_elem_of_nil in Hx | done].
  - rewrite orb_false_iff, IH. split.
    + intros [Ha Hl] x Hx%elem_of_cons. naive_solver.
    + intros H. split; [apply H; left | intros x Hx; apply H; by right].
Qed.

Lemma existsb_true_iff (p : A -> bool) l :
  existsb p l = true <-> exists x, x ∈ l /\ p x = true.
Proof.
  rewrite List.existsb_exists. split; intros (x & Hx & Hp); exists x;
    (split; [by apply list_elem_of_In | done]).
Qed.

Lemma forallb_true_iff (p : A -> bool) l :
  forallb p l = true <-> forall x, x ∈ l -> p x = true.
Proof.
  rewrite List.forallb_forall. split; intros H x Hx; apply H; by apply list_elem_of_In.
Qed.

(** the last element, [l[-1]] *)
Definition last_opt (l : list A) : option A := last l.
End Lists.

(** [l[-n:]] and [l[:n]] for lists *)
Definition tail_n {A} (n : nat) (l : list A) : list A := drop (length l - n) l.

(** ** Integers *)

(** a boolean fact about the integers of [0, n), by enumeration *)
Lemma Z_below_all (n : nat) (p : Z -> bool) :
  forallb (fun k => p (Z.of_nat k)) (List.seq 0 n) = true ->
  forall z, 0 <= z < Z.of_nat n -> p z = true.
Proof.
  intros H z Hz. rewrite List.forallb_forall in H. rewrite <- (Z2Nat.id z) by lia.
  apply H, List.in_seq. lia.
Qed.
