(* ===== verification/PyStr.v ===== *)
(** * Python's [str] operations

    The framework is string processing over the text of shell commands.  A
    Python [str] is a Rocq [string]; the texts the framework handles (CLI
    output, redis keys, chip diagnostics) are ASCII, so a character is one
    code point below 128 and [isdigit], [lower], [strip] and [splitlines] have
    their ASCII behaviour.  Every function is executable. *)

From Stdlib Require Import Numbers.DecimalString Numbers.DecimalZ Numbers.DecimalN.
From S2P Require Import Prelude.

(** ** Characters *)

Definition code (c : ascii) : nat := nat_of_ascii c.

(** [c.isdigit()] *)
Definition is_digit (c : ascii) : bool := (48 <=? code c)%nat && (code c <=? 57)%nat.

(** the characters [str.split()] and [str.strip()] treat as white space:
    tab, line feed, VT, FF, CR, FS, GS, RS, US and space *)
Definition is_space (c : ascii) : bool :=
  ((9 <=? code c)%nat && (code c <=? 13)%nat)
  || ((28 <=? code c)%nat && (code c <=? 32)%nat).

(** the ASCII line boundaries of [str.splitlines] *)
Definition is_linebreak (c : ascii) : bool :=
  ((10 <=? code c)%nat && (code c <=? 13)%nat)
  || ((28 <=? code c)%nat && (code c <=? 30)%nat).

Definition is_upper (c : ascii) : bool := (65 <=? code c)%nat && (code c <=? 90)%nat.
Definition is_lower (c : ascii) : bool := (97 <=? code c)%nat && (code c <=? 122)%nat.
Definition is_alpha (c : ascii) : bool := is_upper c || is_lower c.
(** [\w] of a regular expression *)
Definition is_word (c : ascii) : bool :=
  is_alpha c || is_digit c || Ascii.eqb c "_"%char.

Definition lower_char (c : ascii) : ascii :=
  if is_upper c then ascii_of_nat (code c + 32) else c.
Definition upper_char (c : ascii) : ascii :=
  if is_lower c then ascii_of_nat (code c - 32) else c.

Definition lf : ascii := "010"%char.
Definition cr : ascii := "013"%char.
Definition tab : ascii := "009"%char.
Definition squote : ascii := "039"%char.
Definition dquote : ascii := "034"%char.
Definition bslash : ascii := "092"%char.

(** one-character string *)
Definition s1 (c : ascii) : string := String c "".

(** ** Whole-string predicates and maps *)

Fixpoint str_forall (p : ascii -> bool) (s : string) : bool :=
  match s with
  | "" => true
  | String c s' => p c && str_forall p s'
  end.

Fixpoint str_map (f : ascii -> ascii) (s : string) : string :=
  match s with
  | "" => ""
  | String c s' => String (f c) (str_map f s')
  end.

Definition nonempty (s : string) : bool := match s with "" => false | _ => true end.

(** [s.isdigit()] *)
Definition isdigit (s : string) : bool := nonempty s && str_forall is_digit s.

(** [s.lower()], [s.upper()] *)
Definition lower : string -> string := str_map lower_char.
Definition upper : string -> string := str_map upper_char.

(** [s.startswith(p)] *)
Fixpoint starts (p s : string) : bool :=
  match p with
  | "" => true
  | String c p' => match s with
                   | "" => false
                   | String d s' => Ascii.eqb c d && starts p' s'
                   end
  end.

(** [sub in s] *)
Fixpoint contains (sub s : string) : bool :=
  starts sub s || match s with "" => false | String _ s' => contains sub s' end.

Fixpoint str_drop (n : nat) (s : string) : string :=
  match n, s with
  | O, _ => s
  | S n', String _ s' => str_drop n' s'
  | S _, "" => ""
  end.

Fixpoint str_take (n : nat) (s : string) : string :=
  match n, s with
  | O, _ => ""
  | S n', String c s' => String c (str_take n' s')
  | S _, "" => ""
  end.

Fixpoint slen (s : string) : nat := match s with "" => O | String _ s' => S (slen s') end.

(** [s[-n:]] for a positive [n] *)
Definition last_chars (n : nat) (s : string) : string := str_drop (slen s - n) s.

Fixpoint str_rev_app (s acc : string) : string :=
  match s with "" => acc | String c s' => str_rev_app s' (String c acc) end.
Definition str_rev (s : string) : string := str_rev_app s "".

(** ** Stripping *)

Fixpoint lstrip_by (p : ascii -> bool) (s : string) : string :=
  match s with
  | "" => ""
  | String c s' => if p c then lstrip_by p s' else s
  end.

Fixpoint rstrip_by (p : ascii -> bool) (s : string) : string :=
  match s with
  | "" => ""
  | String c s' => match rstrip_by p s' with
                   | "" => if p c then "" else s1 c
                   | r => String c r
                   end
  end.

Definition strip_by (p : ascii -> bool) (s : string) : string := rstrip_by p (lstrip_by p s).

(** [s.strip()], [s.lstrip()] and, for a set of characters given as a string,
    [s.strip(chars)], [s.lstrip(chars)], [s.rstrip(chars)] *)
Definition strip : string -> string := strip_by is_space.
Definition lstrip : string -> string := lstrip_by is_space.

Fixpoint char_in (c : ascii) (s : string) : bool :=
  match s with "" => false | String d s' => Ascii.eqb c d || char_in c s' end.

Definition strip_chars (cs s : string) : string := strip_by (fun c => char_in c cs) s.
Definition lstrip_chars (cs s : string) : string := lstrip_by (fun c => char_in c cs) s.
Definition rstrip_chars (cs s : string) : string := rstrip_by (fun c => char_in c cs) s.

(** ** Splitting and joining *)

Definition cons_head (c : ascii) (l : list string) : list string :=
  match l with [] => [s1 c] | h :: t => String c h :: t end.

(** [s.split(c)] for a one-character separator *)
Fixpoint split_on (c : ascii) (s : string) : list string :=
  match s with
  | "" => [""]
  | String d s' => if Ascii.eqb d c then "" :: split_on c s' else cons_head d (split_on c s')
  end.

(** [s.split(sep)] for any non-empty separator: [skip] characters of a
    separator just recognised are still to be consumed *)
Fixpoint split_sep_go (sep : string) (skip : nat) (s : string) : list string :=
  match s with
  | "" => [""]
  | String d s' =>
      match skip with
      | S k => split_sep_go sep k s'
      | O => if starts sep s then "" :: split_sep_go sep (slen sep - 1) s'
             else cons_head d (split_sep_go sep O s')
      end
  end.
Definition split_sep (sep s : string) : list string := split_sep_go sep O s.

(** [s.split()]: maximal runs of non-space characters *)
Fixpoint split_ws_go (s : string) (cur : string) : list string :=
  match s with
  | "" => if nonempty cur then [cur] else []
  | String c s' =>
      if is_space c then (if nonempty cur then cur :: split_ws_go s' "" else split_ws_go s' "")
      else split_ws_go s' (cur +:+ s1 c)
  end.
Definition split_ws (s : string) : list string := split_ws_go s "".

(** [s.split(c, 1)]: the part before the first [c] and the part after it,
    [None] when [c] does not occur *)
Fixpoint cut (c : ascii) (s : string) : option (string * string) :=
  match s with
  | "" => None
  | String d s' =>
      if Ascii.eqb d c then Some ("", s')
      else match cut c s' with Some (a, b) => Some (String d a, b) | None => None end
  end.

(** [s.rsplit(c, 1)] likewise at the last [c] *)
Fixpoint rcut (c : ascii) (s : string) : option (string * string) :=
  match s with
  | "" => None
  | String d s' =>
      match rcut c s' with
      | Some (a, b) => Some (String d a, b)
      | None => if Ascii.eqb d c then Some ("", s') else None
      end
  end.

(** [s.partition(c)] *)
Definition partition (c : ascii) (s : string) : string * string * string :=
  match cut c s with Some (a, b) => (a, s1 c, b) | None => (s, "", "") end.

(** [sep.join(l)] *)
Fixpoint join (sep : string) (l : list string) : string :=
  match l with
  | [] => ""
  | [x] => x
  | x :: l' => x +:+ sep +:+ join sep l'
  end.

(** [s.splitlines()]: a CR LF pair is one boundary and a final boundary adds
    no empty line *)
Fixpoint splitlines_go (s : string) (cur : string) : list string :=
  match s with
  | "" => if nonempty cur then [cur] else []
  | String c s' =>
      if is_linebreak c then
        match s' with
        | String d s'' =>
            if Ascii.eqb c cr && Ascii.eqb d lf then cur :: splitlines_go s'' ""
            else cur :: splitlines_go s' ""
        | "" => [cur]
        end
      else splitlines_go s' (cur +:+ s1 c)
  end.
Definition splitlines (s : string) : list string := splitlines_go s "".

(** ** Replacing *)

(** [s.replace(old, new)] and [s.replace(old, new, 1)] for a non-empty [old] *)
Fixpoint replace_go (old new : string) (skip : nat) (s : string) : string :=
  match s with
  | "" => ""
  | String d s' =>
      match skip with
      | S k => replace_go old new k s'
      | O => if starts old s then new +:+ replace_go old new (slen old - 1) s'
             else String d (replace_go old new O s')
      end
  end.
Definition replace_all (old new s : string) : string := replace_go old new O s.

Fixpoint replace1 (old new s : string) : string :=
  if starts old s then new +:+ str_drop (slen old) s
  else match s with "" => "" | String d s' => String d (replace1 old new s') end.

(** [s.replace(c, d)] for single characters given as a string to insert *)
Fixpoint replace_char (c : ascii) (new : string) (s : string) : string :=
  match s with
  | "" => ""
  | String d s' => if Ascii.eqb d c then new +:+ replace_char c new s'
                   else String d (replace_char c new s')
  end.

(** ** Integers *)

(** [str(z)] and f-string interpolation of an integer *)
Definition zs (z : Z) : string := NilZero.string_of_int (Z.to_int z).
Definition ns (n : nat) : string := zs (Z.of_nat n).

(** value of a non-empty digit string *)
Definition uint_of (s : string) : option Z :=
  option_map (fun d => Z.of_N (N.of_uint d)) (NilZero.uint_of_string s).

(** underscores are allowed between two digits *)
Fixpoint underscores_ok (prev_digit : bool) (s : string) : bool :=
  match s with
  | "" => true
  | String c s' =>
      if Ascii.eqb c "_"%char
      then prev_digit && (match s' with String d _ => is_word d && negb (Ascii.eqb d "_"%char) | "" => false end)
           && underscores_ok false s'
      else underscores_ok true s'
  end.

(** [int(s)], [None] for ValueError *)
Definition py_int (s : string) : option Z :=
  let t := strip s in
  let body u := if underscores_ok false u then uint_of (replace_char "_"%char "" u) else None in
  match t with
  | String c t' =>
      if Ascii.eqb c "-"%char then option_map Z.opp (body t')
      else if Ascii.eqb c "+"%char then body t' else body t
  | "" => None
  end.

(** hexadecimal digits, [format(n, "x")] and [int(s, 16)] *)
Definition hex_digit (n : Z) : ascii :=
  ascii_of_nat (Z.to_nat (if n <? 10 then 48 + n else 87 + n)).
Fixpoint hex_go (fuel : nat) (n : Z) (acc : string) : string :=
  match fuel with
  | O => acc
  | S f => let acc' := String (hex_digit (n mod 16)) acc in
           if n / 16 =? 0 then acc' else hex_go f (n / 16) acc'
  end.
(** [format(n, "x")] of a non-negative integer: the loop divides by 16, so
    [log2 n + 1] rounds are enough *)
Definition hex (n : Z) : string := hex_go (S (Z.to_nat (Z.log2 n))) n "".

(** [format(n, "x")] of any integer *)
Definition hexz (n : Z) : string := if n <? 0 then "-" +:+ hex (- n) else hex n.

Definition hex_val (c : ascii) : option Z :=
  let n := Z.of_nat (code c) in
  if is_digit c then Some (n - 48)
  else if (97 <=? n) && (n <=? 102) then Some (n - 87)
  else if (65 <=? n) && (n <=? 70) then Some (n - 55) else None.

Fixpoint hex_of_go (acc : Z) (s : string) : option Z :=
  match s with
  | "" => Some acc
  | String c s' => match hex_val c with Some d => hex_of_go (16 * acc + d) s' | None => None end
  end.
(** value of a non-empty string of hexadecimal digits *)
Definition hex_of (s : string) : option Z := if nonempty s then hex_of_go 0 s else None.

(** [int(s, 16)], [None] for ValueError: sign, optional [0x], digits *)
Definition py_int16 (s : string) : option Z :=
  let body u :=
    let '(pre, v) := if starts "0x" u || starts "0X" u then (true, str_drop 2 u) else (false, u) in
    if underscores_ok pre v then hex_of (replace_char "_"%char "" v) else None in
  match strip s with
  | String c t' as t =>
      if Ascii.eqb c "-"%char then option_map Z.opp (body t')
      else if Ascii.eqb c "+"%char then body t' else body t
  | "" => None
  end.

(** the longest prefix of digits, and what follows it *)
Fixpoint span (p : ascii -> bool) (s : string) : string * string :=
  match s with
  | "" => ("", "")
  | String c s' => if p c then let '(a, b) := span p s' in (String c a, b) else ("", s)
  end.

(** the longest suffix of digits: the group of [re.search(r"(\d+)$", s)],
    [None] when the last character is not a digit *)
Definition trailing_digits (s : string) : option string :=
  let r := fst (span is_digit (str_rev s)) in
  if nonempty r then Some (str_rev r) else None.

(** [repr] of a list of strings is only used in messages; a Python truth test *)
Definition truthy (o : option string) : bool :=
  match o with Some s => nonempty s | None => false end.
(** [(o or "")] *)
Definition or_empty (o : option string) : string := match o with Some s => s | None => "" end.

Example split_ws_ex : split_ws "  vlan  add 10 " = ["vlan"; "add"; "10"].
Proof. reflexivity. Qed.
Example split_on_ex : split_on "|"%char "A|b||" = ["A"; "b"; ""; ""].
Proof. reflexivity. Qed.
Example split_sep_ex : split_sep "oid:" "xoid:0x1oid:" = ["x"; "0x1"; ""].
Proof. reflexivity. Qed.
Example splitlines_ex : splitlines ("a" +:+ s1 cr +:+ s1 lf +:+ "b" +:+ s1 lf) = ["a"; "b"].
Proof. reflexivity. Qed.
Example py_int_ex : map py_int ["12"; " -7 "; "+3"; "1_0"; "x"; ""; "-"; "_1"] =
  [Some 12; Some (-7); Some 3; Some 10; None; None; None; None].
Proof. reflexivity. Qed.
Example zs_ex : map zs [0; 12; -5] = ["0"; "12"; "-5"].
Proof. reflexivity. Qed.
Example hex_ex : (hex 0, hex 387, py_int16 "0x183", py_int16 "183", py_int16 "zz") =
  ("0", "183", Some 387, Some 387, None).
Proof. reflexivity. Qed.
Example replace_ex : (replace_all "ab" "X" "ababab", replace1 "ab" "X" "cabab") = ("XXX", "cXab").
Proof. reflexivity. Qed.
Example trailing_digits_ex : map trailing_digits ["Ethernet12"; "lo"; "7"] = [Some "12"; None; Some "7"].
Proof. reflexivity. Qed.

(** ** Sorting strings: [sorted(l)] orders by code points *)

Fixpoint insert_str (x : string) (l : list string) : list string :=
  match l with
  | [] => [x]
  | y :: l' => if String.leb x y then x :: l else y :: insert_str x l'
  end.
Definition sorted_strs (l : list string) : list string := fold_right insert_str [] l.

(** the group of [re.search(lit + r"(\d+)", s)]: the digits after the first
    occurrence of [lit] that is followed by a digit *)
Fixpoint digits_after (lit s : string) : option string :=
  let here := if starts lit s then fst (span is_digit (str_drop (slen lit) s)) else "" in
  if nonempty here then Some here
  else match s with "" => None | String _ s' => digits_after lit s' end.

(** a text written with a backquote for each double quote *)
Definition with_quotes (s : string) : string := replace_char "`"%char (s1 dquote) s.

Example digits_after_ex :
  map (digits_after "VLAN is ") ["Port cd3 default VLAN is 1000."; "VLAN is x VLAN is 7"; "none"] =
  [Some "1000"; Some "7"; None].
Proof. reflexivity. Qed.

(** ** [int(s, 0)] and upper-case hexadecimal *)

Fixpoint digits_base (b acc : Z) (s : string) : option Z :=
  match s with
  | "" => Some acc
  | String c s' => match hex_val c with
                   | Some d => if d <? b then digits_base b (b * acc + d) s' else None
                   | None => None
                   end
  end.

(** the value of an unsigned literal whose prefix gives the base; a decimal
    literal has no leading zero *)
Definition int0_body (u : string) : option Z :=
  let pre := lower (str_take 2 u) in
  let v := replace_char "_"%char "" (str_drop 2 u) in
  if bool_decide (pre ∈ ["0x"; "0o"; "0b"]) then
    if nonempty v && underscores_ok true (str_drop 2 u)
    then digits_base (if String.eqb pre "0x" then 16 else if String.eqb pre "0o" then 8 else 2) 0 v
    else None
  else if underscores_ok false u then
    let d := replace_char "_"%char "" u in
    if isdigit d && (negb (starts "0" d) || str_forall (Ascii.eqb "0"%char) d) then digits_base 10 0 d else None
  else None.

Definition py_int0 (s : string) : option Z :=
  match strip s with
  | String c t' as t =>
      if Ascii.eqb c "-"%char then option_map Z.opp (int0_body t')
      else if Ascii.eqb c "+"%char then int0_body t' else int0_body t
  | "" => None
  end.

(** [f"{n:04X}"]: the sign counts in the width *)
Definition pad_to (n : nat) (s : string) : string := Nat.iter (n - slen s) (String "0"%char) s.
(** a text filled with spaces on the right: [format(s, "<n")] *)
Definition ljust (n : nat) (s : string) : string := s +:+ Nat.iter (n - slen s) (String " "%char) "".
Definition hex4_upper (n : Z) : string :=
  if n <? 0 then "-" +:+ pad_to 3 (upper (hex (- n))) else pad_to 4 (upper (hex n)).

Example py_int0_ex : map py_int0 ["0x10"; "2048"; "0b11"; "010"; "00"; "x"; "-0x1"] =
  [Some 16; Some 2048; Some 3; None; Some 0; None; Some (-1)].
Proof. reflexivity. Qed.
Example hex4_upper_ex : map hex4_upper [2048; 35020; 1] = ["0800"; "88CC"; "0001"].
Proof. reflexivity. Qed.
