(* ===== verification/PyStrFacts.v ===== *)
(** * Facts about Python's string operations

    The lemmas the components share: concatenation, prefixes and substrings,
    the round trips of [split]/[join], [strip] and [splitlines] on clean text,
    and the round trips of decimal and hexadecimal formatting. *)

From Stdlib Require Import Numbers.DecimalString Numbers.DecimalZ Numbers.DecimalN Numbers.DecimalFacts.
From S2P Require Import Prelude PyStr.

#[local] Arguments String.append : simpl nomatch.

(** ** Concatenation *)

Lemma sapp_nil_r s : s +:+ "" = s.
Proof. induction s; simpl; congruence. Qed.

Lemma sapp_assoc a b c : (a +:+ b) +:+ c = a +:+ (b +:+ c).
Proof. induction a; simpl; congruence. Qed.

Lemma slen_app a b : slen (a +:+ b) = (slen a + slen b)%nat.
Proof. induction a; simpl; congruence. Qed.

Lemma sapp_inv_head a b c : a +:+ b = a +:+ c -> b = c.
Proof. induction a; simpl; intros H; [done|]. inversion H. auto. Qed.

Lemma str_drop_app a b : str_drop (slen a) (a +:+ b) = b.
Proof. induction a; simpl; [by destruct b | done]. Qed.

Lemma str_take_app a b : str_take (slen a) (a +:+ b) = a.
Proof. induction a; simpl; [by destruct b | congruence]. Qed.

Lemma slen_0 s : slen s = 0%nat -> s = "".
Proof. by destruct s. Qed.

#[export] Hint Rewrite sapp_nil_r sapp_assoc : fvt.

(** ** Whole-string predicates *)

Lemma str_forall_app p a b : str_forall p (a +:+ b) = str_forall p a && str_forall p b.
Proof. induction a as [|c a IH]; simpl; [done|]. by rewrite IH, andb_assoc. Qed.

Lemma str_forall_impl (p q : ascii -> bool) s :
  (forall c, p c = true -> q c = true) -> str_forall p s = true -> str_forall q s = true.
Proof.
  intros Hpq. induction s as [|c s IH]; simpl; [done|].
  rewrite !andb_true_iff. naive_solver.
Qed.

Definition is_nospace (c : ascii) : bool := negb (is_space c).
Definition not_char (d c : ascii) : bool := negb (Ascii.eqb c d).
Definition not_break (c : ascii) : bool := negb (is_linebreak c).

(** a token: non-empty and without white space *)
Definition token (s : string) : bool := nonempty s && str_forall is_nospace s.

(** a boolean fact about every character, by enumeration *)
Lemma ascii_all (p : ascii -> bool) :
  forallb (fun n => p (ascii_of_nat n)) (List.seq 0 256) = true -> forall c, p c = true.
Proof.
  intros H c. rewrite List.forallb_forall in H. rewrite <- (ascii_nat_embedding c).
  apply H. apply List.in_seq. pose proof (nat_ascii_bounded c). lia.
Qed.

Lemma digit_nospace c : is_digit c = true -> is_nospace c = true.
Proof.
  intros H. enough (negb (is_digit c) || is_nospace c = true) as [Hn|Hs]%orb_true_iff.
  - by rewrite H in Hn.
  - done.
  - revert c H. intros c _. revert c. apply ascii_all. by vm_compute.
Qed.

Lemma digit_not_break c : is_digit c = true -> not_break c = true.
Proof.
  intros H. enough (negb (is_digit c) || not_break c = true) as [Hn|Hs]%orb_true_iff.
  - by rewrite H in Hn.
  - done.
  - clear H. revert c. apply ascii_all. by vm_compute.
Qed.

(** ** Prefixes and substrings *)

Lemma starts_spec p s : starts p s = true <-> exists t, s = p +:+ t.
Proof.
  revert s. induction p as [|c p IH]; intros s; simpl; [naive_solver|].
  destruct s as [|d s]; [naive_solver|].
  rewrite andb_true_iff, Ascii.eqb_eq, IH. split.
  - intros [-> [t ->]]. by exists t.
  - intros [t Ht]. inversion Ht. naive_solver.
Qed.

Lemma starts_app p t : starts p (p +:+ t) = true.
Proof. apply starts_spec. by exists t. Qed.

Lemma starts_drop p s : starts p s = true -> s = p +:+ str_drop (slen p) s.
Proof. intros [t ->]%starts_spec. by rewrite str_drop_app. Qed.

Lemma contains_spec sub s : contains sub s = true <-> exists a b, s = a +:+ sub +:+ b.
Proof.
  split.
  - induction s as [|c s IH]; cbn [contains]; rewrite orb_true_iff.
    + intros [Hs|]; [|done]. apply starts_spec in Hs as [t Ht]. by exists "", t.
    + intros [Hs|Hs].
      * apply starts_spec in Hs as [t Ht]. by exists "", t.
      * destruct (IH Hs) as (a & b & ->). by exists (String c a), b.
  - intros (a & b & ->). induction a as [|c a IH]; simpl.
    + destruct (sub +:+ b) eqn:E; cbn [contains]; rewrite <- E, starts_app; done.
    + cbn [contains]. rewrite IH. apply orb_true_r.
Qed.

Lemma contains_refl s : contains s s = true.
Proof. apply contains_spec. exists "", "". simpl. by rewrite sapp_nil_r. Qed.

Lemma contains_app_l sub a b : contains sub a = true -> contains sub (a +:+ b) = true.
Proof.
  rewrite !contains_spec. intros (x & y & ->). exists x, (y +:+ b). by rewrite !sapp_assoc.
Qed.

Lemma contains_app_r sub a b : contains sub b = true -> contains sub (a +:+ b) = true.
Proof.
  rewrite !contains_spec. intros (x & y & ->). exists (a +:+ x), y. by rewrite !sapp_assoc.
Qed.

#[export] Hint Resolve starts_app contains_refl contains_app_l contains_app_r : fvt.

(** ** [split] on one character and [join] *)

Lemma split_on_nonnil c s : split_on c s <> [].
Proof.
  induction s as [|d s IH]; simpl; [done|]. case_match; [done|].
  by destruct (split_on c s).
Qed.

Lemma split_on_none c s : str_forall (not_char c) s = true -> split_on c s = [s].
Proof.
  unfold not_char. induction s as [|d s IH]; simpl; [done|].
  rewrite andb_true_iff, negb_true_iff. intros [Hd Hs]. by rewrite Hd, IH.
Qed.

Lemma split_on_app c a b :
  str_forall (not_char c) a = true -> split_on c (a +:+ String c b) = a :: split_on c b.
Proof.
  unfold not_char. induction a as [|d a IH]; simpl; [by rewrite Ascii.eqb_refl|].
  rewrite andb_true_iff, negb_true_iff. intros [Hd Ha]. by rewrite Hd, IH.
Qed.

Lemma split_on_app2 c a b : split_on c (a +:+ String c b) = split_on c a ++ split_on c b.
Proof.
  induction a as [|d a IH]; cbn [String.append split_on]; [by rewrite Ascii.eqb_refl|].
  rewrite IH. destruct (Ascii.eqb d c); [done|]. pose proof (split_on_nonnil c a).
  by destruct (split_on c a).
Qed.

Lemma split_on_join c l :
  l <> [] -> Forall (fun s => str_forall (not_char c) s = true) l ->
  split_on c (join (s1 c) l) = l.
Proof.
  intros Hl Hall. induction Hall as [|x l Hx Hall IH]; [done|].
  destruct l as [|y l]; [by apply split_on_none|].
  cbn [join]. change (s1 c +:+ ?t) with (String c t). rewrite split_on_app by done. f_equal. by apply IH.
Qed.

Lemma join_cons sep x l : l <> [] -> join sep (x :: l) = x +:+ sep +:+ join sep l.
Proof. by destruct l. Qed.

Lemma join_split_on c s : join (s1 c) (split_on c s) = s.
Proof.
  induction s as [|d s IH]; [done|]. cbn [split_on]. pose proof (split_on_nonnil c s) as Hn.
  destruct (Ascii.eqb d c) eqn:E.
  - rewrite join_cons by done. bool_prop. subst. rewrite IH. reflexivity.
  - destruct (split_on c s) as [|x l] eqn:Es; [done|]. cbn [cons_head]. rewrite <- IH.
    destruct l; [done|]. by rewrite !(join_cons _ _ (_ :: _)).
Qed.

Lemma cut_app c a b : str_forall (not_char c) a = true -> cut c (a +:+ String c b) = Some (a, b).
Proof.
  unfold not_char. induction a as [|d a IH]; simpl; [by rewrite Ascii.eqb_refl|].
  rewrite andb_true_iff, negb_true_iff. intros [Hd Ha]. by rewrite Hd, IH.
Qed.

Lemma cut_spec c s a b :
  cut c s = Some (a, b) -> s = a +:+ String c b /\ str_forall (not_char c) a = true.
Proof.
  unfold not_char. revert a b. induction s as [|d s IH]; simpl; [done|]. intros a b.
  destruct (Ascii.eqb d c) eqn:E.
  - intros [= <- <-]. bool_prop. by subst.
  - destruct (cut c s) as [[x y]|] eqn:Ec; [|done]. intros [= <- <-].
    destruct (IH _ _ eq_refl) as [-> Hx]. simpl. by rewrite E.
Qed.

Lemma rcut_app c a b : str_forall (not_char c) b = true -> rcut c (a +:+ String c b) = Some (a, b).
Proof.
  intros Hb. assert (rcut c b = None) as Hn.
  { unfold not_char in Hb. induction b as [|d b IH]; simpl in *; [done|].
    rewrite andb_true_iff, negb_true_iff in Hb. destruct Hb as [Hd Hb]. by rewrite IH, Hd. }
  induction a as [|d a IH]; simpl; [by rewrite Hn, Ascii.eqb_refl | by rewrite IH].
Qed.

(** ** [split()] on white space *)

Lemma split_ws_go_token t cur s :
  str_forall is_nospace t = true -> split_ws_go (t +:+ s) cur = split_ws_go s (cur +:+ t).
Proof.
  revert cur. induction t as [|c t IH]; intros cur; simpl; [by rewrite sapp_nil_r|].
  unfold is_nospace at 1. rewrite andb_true_iff, negb_true_iff. intros [Hc Ht].
  rewrite Hc, IH by done. by rewrite sapp_assoc.
Qed.

Lemma split_ws_join l : Forall (fun s => token s = true) l -> split_ws (join " " l) = l.
Proof.
  unfold split_ws. induction 1 as [|x l Hx Hall IH]; [done|].
  unfold token in Hx. rewrite andb_true_iff in Hx. destruct Hx as [Hne Hx].
  destruct l as [|y l].
  - cbn [join]. rewrite <- (sapp_nil_r x) at 1. rewrite split_ws_go_token by done. simpl.
    by rewrite Hne.
  - cbn [join]. rewrite split_ws_go_token by done. cbn [String.append split_ws_go].
    change (is_space " "%char) with true. cbn match. rewrite Hne. f_equal. exact IH.
Qed.

(** ** [strip] *)

Lemma lstrip_by_id p c s : p c = false -> lstrip_by p (String c s) = String c s.
Proof. simpl. by intros ->. Qed.

Lemma rstrip_by_id p s : str_forall (fun c => negb (p c)) s = true -> rstrip_by p s = s.
Proof.
  induction s as [|c s IH]; simpl; [done|]. rewrite andb_true_iff, negb_true_iff.
  intros [Hc Hs]. rewrite IH by done. rewrite Hc. by destruct s.
Qed.

Lemma strip_by_id p s : str_forall (fun c => negb (p c)) s = true -> strip_by p s = s.
Proof.
  intros H. unfold strip_by. rewrite <- (rstrip_by_id p s) at 2 by done. f_equal.
  destruct s as [|c s]; [done|]. simpl in *. rewrite andb_true_iff, negb_true_iff in H.
  by destruct H as [-> _].
Qed.

Lemma strip_id s : str_forall is_nospace s = true -> strip s = s.
Proof. apply strip_by_id. Qed.

(** ** Decimal integers *)

Lemma str_of_uint_digits d : str_forall is_digit (NilEmpty.string_of_uint d) = true.
Proof. induction d; simpl; auto. Qed.

Lemma str_of_uint0_digits d : isdigit (NilZero.string_of_uint d) = true.
Proof.
  unfold isdigit. destruct d; try done; unfold NilZero.string_of_uint;
    simpl; apply str_of_uint_digits.
Qed.

Lemma uint_of_to n : uint_of (NilZero.string_of_uint (N.to_uint n)) = Some (Z.of_N n).
Proof.
  unfold uint_of. rewrite NilZero.usu.
  - simpl. by rewrite DecimalN.Unsigned.of_to.
  - destruct n; [done|]. apply DecimalPos.Unsigned.to_uint_nonnil.
Qed.

Lemma zs_nonneg z : 0 <= z -> zs z = NilZero.string_of_uint (N.to_uint (Z.to_N z)).
Proof. by destruct z. Qed.

Lemma zs_neg p : zs (Zneg p) = String "-" (NilZero.string_of_uint (N.to_uint (Npos p))).
Proof. done. Qed.

(** [str(z)] of a non-negative integer is a digit string *)
Lemma zs_isdigit z : 0 <= z -> isdigit (zs z) = true.
Proof. intros Hz. rewrite zs_nonneg by done. apply str_of_uint0_digits. Qed.

Lemma zs_digits z : 0 <= z -> str_forall is_digit (zs z) = true.
Proof. intros Hz. pose proof (zs_isdigit z Hz) as H. by apply andb_true_iff in H as [_ H]. Qed.

Lemma digits_no_char d s :
  is_digit d = false -> str_forall is_digit s = true -> str_forall (not_char d) s = true.
Proof.
  intros Hd. apply str_forall_impl. intros c Hc. unfold not_char.
  destruct (Ascii.eqb c d) eqn:E; [|done]. bool_prop. congruence.
Qed.

Lemma replace_char_none c new s : str_forall (not_char c) s = true -> replace_char c new s = s.
Proof.
  unfold not_char. induction s as [|d s IH]; simpl; [done|].
  rewrite andb_true_iff, negb_true_iff. intros [Hd Hs]. by rewrite Hd, IH.
Qed.

Lemma underscores_ok_none b s : str_forall (not_char "_"%char) s = true -> underscores_ok b s = true.
Proof.
  unfold not_char. revert b. induction s as [|d s IH]; intros b; simpl; [done|].
  rewrite andb_true_iff, negb_true_iff. intros [Hd Hs]. by rewrite Hd, IH.
Qed.

Lemma digits_nospace s : str_forall is_digit s = true -> str_forall is_nospace s = true.
Proof. apply str_forall_impl, digit_nospace. Qed.

Lemma py_int_digits s : isdigit s = true -> py_int s = uint_of s.
Proof.
  unfold isdigit. rewrite andb_true_iff. intros [Hne Hs]. unfold py_int.
  rewrite strip_id by by apply digits_nospace.
  assert (str_forall (not_char "_"%char) s = true) as Hu by by apply digits_no_char.
  cbv zeta. rewrite underscores_ok_none, replace_char_none by done.
  destruct s as [|c s]; [done|]. simpl in Hs. rewrite andb_true_iff in Hs. destruct Hs as [Hc _].
  destruct (Ascii.eqb c "-"%char) eqn:E1; [bool_prop; subst; done|].
  destruct (Ascii.eqb c "+"%char) eqn:E2; [bool_prop; subst; done|]. done.
Qed.

Lemma zs_nospace z : str_forall is_nospace (zs z) = true.
Proof.
  destruct (Z_lt_le_dec z 0) as [Hz|Hz].
  - destruct z; try lia. rewrite zs_neg. simpl. apply digits_nospace.
    pose proof (str_of_uint0_digits (N.to_uint (Npos p))) as H. unfold isdigit in H.
    by apply andb_true_iff in H as [_ H].
  - pose proof (zs_isdigit z Hz) as H. unfold isdigit in H. apply andb_true_iff in H as [_ H].
    by apply digits_nospace.
Qed.

(** parsing what [str] printed gives the integer back *)
Lemma py_int_zs z : py_int (zs z) = Some z.
Proof.
  destruct (Z_lt_le_dec z 0) as [Hz|Hz].
  - unfold py_int. rewrite strip_id by apply zs_nospace.
    destruct z; try lia. rewrite zs_neg. cbv zeta. change (Ascii.eqb "-" "-") with true. cbn match.
    pose proof (str_of_uint0_digits (N.to_uint (Npos p))) as H. unfold isdigit in H.
    apply andb_true_iff in H as [_ H].
    assert (str_forall (not_char "_"%char) (NilZero.string_of_uint (N.to_uint (Npos p))) = true)
      as Hu by by apply digits_no_char.
    rewrite underscores_ok_none, replace_char_none, uint_of_to by done. done.
  - rewrite py_int_digits by by apply zs_isdigit. rewrite zs_nonneg, uint_of_to by done.
    by rewrite Z2N.id.
Qed.

Lemma zs_inj a b : zs a = zs b -> a = b.
Proof. intros H. apply (f_equal py_int) in H. rewrite !py_int_zs in H. congruence. Qed.

#[export] Instance zs_Inj : Inj (=) (=) zs.
Proof. intros a b. apply zs_inj. Qed.

Lemma zs_token z : token (zs z) = true.
Proof.
  unfold token. rewrite zs_nospace, andb_true_r.
  destruct (zs z) eqn:E; [|done]. pose proof (py_int_zs z) as H. by rewrite E in H.
Qed.

Lemma zs_no_char d z :
  is_digit d = false -> d <> "-"%char -> str_forall (not_char d) (zs z) = true.
Proof.
  intros Hd Hm. destruct (Z_lt_le_dec z 0) as [Hz|Hz].
  - destruct z; try lia. rewrite zs_neg. cbn [str_forall]. apply andb_true_iff; split.
    + unfold not_char. apply negb_true_iff, Ascii.eqb_neq. congruence.
    + pose proof (str_of_uint0_digits (N.to_uint (Npos p))) as H. unfold isdigit in H.
      apply andb_true_iff in H as [_ H]. by apply digits_no_char.
  - pose proof (zs_isdigit z Hz) as H. unfold isdigit in H. apply andb_true_iff in H as [_ H].
    by apply digits_no_char.
Qed.

#[export] Hint Resolve zs_isdigit zs_nospace zs_token py_int_zs : fvt.

(** ** Hexadecimal integers *)

Lemma hex_val_digit n : 0 <= n < 16 -> hex_val (hex_digit n) = Some n.
Proof.
  intros Hn. apply (bool_decide_eq_true_1 _). revert n Hn.
  by apply (Z_below_all 16 (fun n => bool_decide (hex_val (hex_digit n) = Some n))).
Qed.

Lemma hex_of_go_app acc a b :
  hex_of_go acc (a +:+ b) =
  match hex_of_go acc a with Some m => hex_of_go m b | None => None end.
Proof.
  revert acc. induction a as [|c a IH]; intros acc; simpl; [done|].
  destruct (hex_val c); [apply IH | done].
Qed.

(** the digits produced in [hex_go] denote [n], whatever follows *)
Lemma hex_go_spec fuel n tl :
  0 <= n -> n < 16 ^ Z.of_nat fuel -> (0 < fuel)%nat ->
  hex_of_go 0 (hex_go fuel n tl) = hex_of_go n tl.
Proof.
  revert n tl. induction fuel as [|f IH]; intros n tl Hn Hlt Hf; [lia|].
  pose proof (Z.div_mod n 16 ltac:(lia)) as Hdm.
  pose proof (Z.mod_pos_bound n 16 ltac:(lia)) as Hm.
  cbn [hex_go]. destruct (n / 16 =? 0) eqn:E; bool_prop.
  - cbn [hex_of_go]. rewrite hex_val_digit by lia. f_equal. lia.
  - assert (0 <= n / 16) by (apply Z.div_pos; lia).
    rewrite Nat2Z.inj_succ, Z.pow_succ_r in Hlt by lia.
    assert (n / 16 < 16 ^ Z.of_nat f) by (apply Z.div_lt_upper_bound; lia).
    destruct f as [|f]; [simpl in *; lia|].
    rewrite IH by lia. cbn [hex_of_go]. rewrite hex_val_digit by lia. f_equal. lia.
Qed.

Lemma hex_go_nonempty fuel n tl : (0 < fuel)%nat -> nonempty (hex_go fuel n tl) = true.
Proof.
  revert n tl. induction fuel as [|f IH]; intros n tl Hf; [lia|]. cbn [hex_go].
  case_match; [done|]. destruct f; [done|]. apply IH. lia.
Qed.

(** [int(format(n, "x"), 16) == n] on the digits *)
Lemma hex_of_hex n : 0 <= n -> hex_of (hex n) = Some n.
Proof.
  intros Hn. unfold hex_of, hex. rewrite hex_go_nonempty by lia. rewrite hex_go_spec; [done|done| |lia].
  rewrite Nat2Z.inj_succ, Z2Nat.id by apply Z.log2_nonneg.
  destruct (Z.eq_dec n 0) as [->|]; [done|].
  pose proof (Z.log2_spec n ltac:(lia)) as [_ H].
  eapply Z.lt_le_trans; [exact H|]. apply Z.pow_le_mono; [lia|]. pose proof (Z.log2_nonneg n). lia.
Qed.

(** the lower-case hexadecimal digits [format(n, "x")] prints *)
Definition is_hexdig (c : ascii) : bool :=
  is_digit c || ((97 <=? code c)%nat && (code c <=? 102)%nat).

Lemma hex_digit_hexdig n : 0 <= n < 16 -> is_hexdig (hex_digit n) = true.
Proof.
  revert n. by apply (Z_below_all 16 (fun n => is_hexdig (hex_digit n))).
Qed.

Lemma hex_go_digits fuel n acc :
  str_forall is_hexdig acc = true -> str_forall is_hexdig (hex_go fuel n acc) = true.
Proof.
  revert n acc. induction fuel as [|f IH]; intros n acc Hacc; [done|]. cbn [hex_go].
  assert (str_forall is_hexdig (String (hex_digit (n mod 16)) acc) = true) as H1.
  { cbn [str_forall]. rewrite hex_digit_hexdig, Hacc; [done | apply Z.mod_pos_bound; lia]. }
  case_match; [done | by apply IH].
Qed.

Lemma hex_digits n : str_forall is_hexdig (hex n) = true.
Proof. by apply hex_go_digits. Qed.

Lemma hex_nonempty n : nonempty (hex n) = true.
Proof. apply hex_go_nonempty. lia. Qed.

(** A string of hexadecimal digits has none of the characters below. *)
Lemma hexdig_no (d : ascii) s :
  is_hexdig d = false -> str_forall is_hexdig s = true -> str_forall (not_char d) s = true.
Proof.
  intros Hd. apply str_forall_impl. intros c Hc. unfold not_char.
  destruct (Ascii.eqb c d) eqn:E; [|done]. bool_prop. congruence.
Qed.

Lemma hexdig_nospace s : str_forall is_hexdig s = true -> str_forall is_nospace s = true.
Proof.
  apply str_forall_impl. intros c Hc.
  enough (negb (is_hexdig c) || is_nospace c = true) as Ho by by rewrite Hc in Ho.
  revert c Hc. intros c _. revert c. by apply ascii_all.
Qed.

Lemma py_int16_hex n : 0 <= n -> py_int16 (hex n) = Some n.
Proof.
  intros Hn. pose proof (hex_digits n) as Hd. pose proof (hex_of_hex n Hn) as Hv.
  unfold py_int16. rewrite strip_id by by apply hexdig_nospace.
  assert (str_forall (not_char "_"%char) (hex n) = true) as Hu by by apply hexdig_no.
  assert (str_forall (not_char "x"%char) (hex n) = true) as Hx by by apply hexdig_no.
  assert (str_forall (not_char "X"%char) (hex n) = true) as HX by by apply hexdig_no.
  assert (str_forall (not_char "-"%char) (hex n) = true) as Hm by by apply hexdig_no.
  assert (str_forall (not_char "+"%char) (hex n) = true) as Hp by by apply hexdig_no.
  destruct (hex n) as [|c s] eqn:E; [done|].
  cbn [str_forall] in Hm, Hp. unfold not_char in Hm at 1, Hp at 1.
  apply andb_true_iff in Hm as [Hm _], Hp as [Hp _]. apply negb_true_iff in Hm, Hp. rewrite Hm, Hp.
  assert (forall x, is_hexdig x = false -> starts (String "0" (s1 x)) (String c s) = false) as Hs.
  { intros x Hx0. destruct s as [|d s]; [by unfold s1; cbn [starts]; rewrite andb_false_r|].
    assert (Ascii.eqb x d = false) as Hxd.
    { apply Ascii.eqb_neq. intros ->. cbn [str_forall] in Hd. rewrite Hx0 in Hd.
      by rewrite andb_false_r in Hd. }
    unfold s1. cbn [starts]. rewrite Hxd. by rewrite andb_false_r. }
  change "0x" with (String "0" (s1 "x")). change "0X" with (String "0" (s1 "X")).
  rewrite !Hs by done. cbn [orb]. rewrite underscores_ok_none by done.
  by rewrite replace_char_none.
Qed.

(** ** Trailing characters and lines *)

Lemma rstrip_by_snoc p s c :
  rstrip_by p (s +:+ s1 c) = if p c then rstrip_by p s else s +:+ s1 c.
Proof.
  induction s as [|d s IH]; simpl; [by destruct (p c)|]. rewrite IH.
  destruct (p c) eqn:E; [done|]. by destruct s.
Qed.

Lemma rstrip_by_app p a b : rstrip_by p b <> "" -> rstrip_by p (a +:+ b) = a +:+ rstrip_by p b.
Proof.
  intros Hb. induction a as [|c a IH]; [done|]. cbn [String.append rstrip_by]. rewrite IH.
  by destruct a, (rstrip_by p b).
Qed.

Lemma lstrip_rstrip p s : lstrip_by p s = s -> rstrip_by p s = s -> strip_by p s = s.
Proof. unfold strip_by. by intros ->. Qed.

(** stripping twice changes nothing on a text that starts and ends with other
    characters *)
Lemma strip_by_framed p a s b : p a = false -> p b = false ->
  strip_by p (String a (s +:+ s1 b)) = String a (s +:+ s1 b).
Proof.
  intros Ha Hb. apply lstrip_rstrip; [by apply lstrip_by_id|].
  change (String a (s +:+ s1 b)) with ((String a s) +:+ s1 b). by rewrite rstrip_by_snoc, Hb.
Qed.

Lemma slen_rstrip p s : (slen (rstrip_by p s) <= slen s)%nat.
Proof.
  induction s as [|x s IH]; simpl; [lia|].
  destruct (rstrip_by p s); [case_match; simpl; lia | simpl in *; lia].
Qed.

Lemma slen_lstrip p s : (slen (lstrip_by p s) <= slen s)%nat.
Proof. induction s as [|x s IH]; simpl; [lia|]. case_match; simpl; lia. Qed.

(** a stripped text starts with no white space *)
Lemma stripped_head e s : strip (String e s) = String e s -> is_space e = false.
Proof.
  intros Hs. destruct (is_space e) eqn:Ee; [|done]. exfalso. apply (f_equal slen) in Hs.
  unfold strip, strip_by in Hs. cbn [lstrip_by] in Hs. rewrite Ee in Hs.
  pose proof (slen_rstrip is_space (lstrip_by is_space s)). pose proof (slen_lstrip is_space s).
  cbn [slen] in *. lia.
Qed.

Lemma strip_padded c s : is_space c = true -> strip s = s -> strip (String c (s +:+ s1 c)) = s.
Proof.
  intros Hc Hs. unfold strip, strip_by. cbn [lstrip_by]. rewrite Hc.
  destruct s as [|e s]; [simpl; by rewrite Hc|].
  pose proof (stripped_head _ _ Hs) as He. change (String e s +:+ s1 c) with (String e (s +:+ s1 c)).
  rewrite lstrip_by_id by done. change (String e (s +:+ s1 c)) with (String e s +:+ s1 c).
  rewrite rstrip_by_snoc, Hc. unfold strip, strip_by in Hs. by rewrite lstrip_by_id in Hs.
Qed.

(** ** [splitlines] of joined lines *)

Definition line (s : string) : bool := nonempty s && str_forall not_break s.

Lemma splitlines_go_line l cur r :
  str_forall not_break l = true -> splitlines_go (l +:+ r) cur = splitlines_go r (cur +:+ l).
Proof.
  revert cur. induction l as [|c l IH]; intros cur; simpl; [by rewrite sapp_nil_r|].
  unfold not_break at 1. rewrite andb_true_iff, negb_true_iff. intros [Hc Hl]. rewrite Hc, IH by done.
  by rewrite sapp_assoc.
Qed.

Lemma splitlines_join l :
  Forall (fun s => line s = true) l -> splitlines (join (s1 lf) l) = l.
Proof.
  unfold splitlines. induction 1 as [|x l Hx Hall IH]; [done|].
  unfold line in Hx. apply andb_true_iff in Hx as [Hne Hx]. destruct l as [|y l].
  - cbn [join]. rewrite <- (sapp_nil_r x) at 1. rewrite splitlines_go_line by done.
    simpl. by rewrite Hne.
  - rewrite join_cons by done. rewrite splitlines_go_line by done.
    change (s1 lf +:+ ?z) with (String lf z). cbn [splitlines_go].
    change (is_linebreak lf) with true. cbn iota.
    assert (exists d t, join (s1 lf) (y :: l) = String d t) as (d & t & Ej).
    { apply Forall_inv in Hall. unfold line in Hall. destruct y as [|d y]; [done|].
      destruct l; cbn [join]; eauto. }
    rewrite Ej in *. change (Ascii.eqb lf cr) with false. cbn [andb]. rewrite IH. done.
Qed.

(** ** Sorted lists have the same elements *)

Lemma insert_str_elem x y l : y ∈ insert_str x l <-> y = x \/ y ∈ l.
Proof.
  induction l as [|z l IH]; simpl; [by rewrite list_elem_of_singleton, elem_of_nil; tauto|].
  destruct (String.leb x z); rewrite ?elem_of_cons; rewrite ?IH, ?elem_of_cons; tauto.
Qed.

Lemma sorted_strs_elem y l : y ∈ sorted_strs l <-> y ∈ l.
Proof.
  induction l as [|x l IH]; simpl; [done|]. by rewrite insert_str_elem, IH, elem_of_cons.
Qed.

Lemma sorted_strs_nil l : sorted_strs l = [] <-> l = [].
Proof.
  destruct l as [|x l]; [done|]. split; [|done]. intros E. exfalso.
  assert (x ∈ sorted_strs (x :: l)) as Hx by (apply sorted_strs_elem; left).
  rewrite E in Hx. by apply not_elem_of_nil in Hx.
Qed.

Lemma span_all p s : str_forall p s = true -> span p s = (s, "").
Proof.
  induction s as [|c s IH]; [done|]. cbn [str_forall span]. intros [-> Hs]%andb_true_iff. by rewrite IH.
Qed.

Lemma span_stop p a c b : str_forall p a = true -> p c = false -> span p (a +:+ String c b) = (a, String c b).
Proof.
  intros Ha Hc. induction a as [|d a IH]; cbn [String.append span]; [by rewrite Hc|].
  cbn [str_forall] in Ha. apply andb_true_iff in Ha as [-> Ha]. by rewrite IH.
Qed.

(** class inclusions, checked on all characters *)
Lemma class_incl (p q : ascii -> bool) :
  (forall c, implb (p c) (q c) = true) -> forall s, str_forall p s = true -> str_forall q s = true.
Proof. intros Hi s. apply str_forall_impl. intros c Hc. specialize (Hi c). by rewrite Hc in Hi. Qed.

Lemma lstrip_digits s : isdigit s = true -> lstrip_chars "-" s = s.
Proof.
  unfold isdigit, lstrip_chars. destruct s as [|c s]; [done|]. cbn [nonempty str_forall andb].
  intros [Hc _]%andb_true_iff. apply lstrip_by_id.
  enough (implb (is_digit c) (negb (char_in c "-")) = true) as Hi
    by (rewrite Hc in Hi; by apply negb_true_iff).
  clear. revert c. by apply ascii_all.
Qed.

Lemma zs_unsigned z : isdigit (lstrip_chars "-" (zs z)) = true.
Proof.
  destruct (Z_lt_le_dec z 0) as [Hz|Hz].
  - destruct z as [| |p]; try lia. rewrite zs_neg. pose proof (str_of_uint0_digits (N.to_uint (Npos p))) as Hu.
    change (lstrip_chars "-" (String "-" ?s)) with (lstrip_chars "-" s). by rewrite lstrip_digits.
  - by rewrite lstrip_digits; apply zs_isdigit.
Qed.

Lemma digits_after_app lit v : isdigit v = true -> digits_after lit (lit +:+ v) = Some v.
Proof.
  unfold isdigit. intros [Hne Hv]%andb_true_iff. destruct (lit +:+ v) eqn:E.
  - destruct lit, v; done.
  - rewrite <- E. assert (digits_after lit (lit +:+ v) = if nonempty v then Some v else digits_after lit s) as ->.
    { rewrite E at 1. cbn [digits_after]. rewrite <- E, starts_app, str_drop_app, span_all by done. done. }
    by rewrite Hne.
Qed.

(** a prefix without the character [q] lies before the first [q] *)
Lemma starts_before p s q t :
  str_forall (not_char q) p = true -> starts p (s +:+ String q t) = true -> starts p s = true.
Proof.
  revert s. induction p as [|c p IH]; intros s; [done|]. cbn [str_forall]. intros [Hc Hp]%andb_true_iff.
  destruct s as [|d s].
  - change ("" +:+ String q t) with (String q t). cbn [starts]. unfold not_char in Hc.
    apply negb_true_iff in Hc. by rewrite Hc.
  - change (String d s +:+ String q t) with (String d (s +:+ String q t)). cbn [starts].
    rewrite !andb_true_iff. intros [H1 H2]. split; [done | by apply IH].
Qed.

Lemma starts_shorter p x s : starts (p +:+ x) s = true -> starts p s = true.
Proof. intros [t ->]%starts_spec. rewrite sapp_assoc. apply starts_app. Qed.

(** a text without the separator lies within one of the parts *)
Lemma contains_sep p s q t : str_forall (not_char q) p = true -> nonempty p = true ->
  contains p (s +:+ String q t) = contains p s || contains p t.
Proof.
  intros Hp Hne. assert (forall s, starts p (s +:+ String q t) = starts p s) as Hs.
  { intros u. destruct (starts p u) eqn:E.
    - apply starts_spec in E as [v ->]. rewrite sapp_assoc. apply starts_app.
    - apply not_true_iff_false. intros Hb. apply starts_before in Hb; [congruence | done]. }
  induction s as [|c s IH].
  - pose proof (Hs "") as H0. change ("" +:+ String q t) with (String q t) in *. cbn [contains]. by rewrite H0, orb_false_r.
  - pose proof (Hs (String c s)) as H0. change (String c s +:+ String q t) with (String c (s +:+ String q t)) in *.
    cbn [contains]. by rewrite H0, IH, orb_assoc.
Qed.
