(* ===== verification/Device.v ===== *)
(** * The device under test, the session state and the effect monad

    The framework is Python code that drives one switch by running shell
    commands.  What a command does to the switch is not code of this
    repository: a [Device] is a parameter, a state type with the effect of
    running a command, of letting time pass and of reading the clock.  The
    Python side of the session (the attributes of the single [Cli] and
    [LoopbackManager] objects, which conftest.py creates once per session) is a
    record.  An operation of the framework is a function of the monad [M]:
    explicit state passing with Python exceptions as values, and [Hang] for a
    loop whose fuel ran out (the theorems about time-bounded loops exclude it).

    [w_trace] is a ghost field: the commands executed so far, oldest first. *)

From S2P Require Import Prelude PyStr.

(** ** framework/ports.py *)

Record Port := mkPort {
  p_name : string;
  p_bcm : option string;
  p_alias : option string;
  p_admin_up : bool
}.

#[export] Instance Port_eq_dec : EqDecision Port.
Proof. solve_decision. Defined.

(** [Port(name=n)] *)
Definition port_named (n : string) : Port := mkPort n None None false.

(** ** framework/shell.py: results *)

(** [Result]: the constructor strips trailing line feeds *)
Record Result := mkResult { rc : Z; out : string; err : string }.
Definition result (rc : Z) (out err : string) : Result :=
  mkResult rc (rstrip_chars (s1 lf) out) (rstrip_chars (s1 lf) err).
Definition result_ok (r : Result) : bool := rc r =? 0.

(** ** Python exceptions *)

Inductive exn :=
| ShellError (cmd : string) (r : Result)
| RuntimeError (msg : string)
| AssertionError (msg : string)
| KeyError (key : string)
| ValueError (msg : string)
| TypeError (msg : string)
| IndexError
| AttributeError (msg : string)
| ZeroDivisionError
| OSError (msg : string)
| StructError
| OverflowError
| PytestSkip (msg : string)
| PytestFail (msg : string)
| PytestExit (msg : string).

(** [except Exception] does not catch pytest's outcome exceptions, which
    derive from [BaseException]; the one of [pytest.exit] is an [Exception]. *)
Definition caught (e : exn) : bool :=
  match e with PytestSkip _ | PytestFail _ => false | _ => true end.

Inductive outcome (A : Type) :=
| Val (a : A)
| Exc (e : exn)
| Hang.
Arguments Val {A} a.
Arguments Exc {A} e.
Arguments Hang {A}.

#[export] Instance Result_eq_dec : EqDecision Result.
Proof. solve_decision. Defined.
#[export] Instance exn_eq_dec : EqDecision exn.
Proof. solve_decision. Defined.
#[export] Instance outcome_eq_dec {A} `{EqDecision A} : EqDecision (outcome A).
Proof. solve_decision. Defined.

(** ** The device *)

Record call := Call {
  call_container : option string;
  call_cmd : string;
  call_timeout : Z;
  call_stdin : option string
}.

(** what [subprocess.run] reports: an exit with its streams, or the timeout
    (the partial output is a [str] or not) *)
Inductive raw := Exited (rc : Z) (out err : string) | TimedOut (out : option string).

Class Device := {
  dev : Type;
  dev_exec : call -> dev -> raw * dev;
  dev_sleep : Z -> dev -> dev;       (* milliseconds *)
  dev_now : dev -> Z                 (* [time.time()], milliseconds *)
}.

(** The klish translator of the private plugins package, [None] when the
    package is not installed: it returns the rewritten command, or [None] to
    run the command as it is, or fails with [UntranslatedCommand]/[ValueError]. *)
Class ShellEnv := {
  dry_run : bool;
  cli_flavor : option string;
  klish : option (string -> option string + string)
}.

(** ** The session state *)

(** the attributes of [Cli] (framework/cli.py) and the probe caches other
    modules keep on the same object *)
Record CliState := mkCli {
  c_bridged : gset string;
  c_stplock : option bool;
  c_acl_tbl : option bool;
  c_spandir : option bool;
  c_erspan : option bool;
  c_mirdel : option bool;
  c_ipdel : option bool;
  c_swp_os : option bool;
  c_vm_flag : option string;
  c_qos_cli : option bool;
  c_aclpoll_on : bool
}.

Definition cli_init : CliState := mkCli ∅ None None None None None None None None None false.

(** [_test_vlan]: the 3-tuple of the chip path or the 4-tuple of the config path *)
Inductive TestVlan :=
| TvChip (vid : Z) (bcms : list string) (restore_vid : Z)
| TvCfg (vid : Z) (bcms : list string) (restore_vid : Z) (names : list string).

(** the value kept for a flood-safe port: [(bcm, isolate_vid, orig_pvid)], or
    [(bcm, None, None)] for the discard mode of a switchport OS *)
Inductive FloodSafe :=
| FsPvid (bcm : string) (iso : Z) (orig : string)
| FsDiscard (bcm : string).

(** the attributes of [LoopbackManager] (framework/loopback.py) *)
Record LbState := mkLb {
  lb_on : pydict Port (string * bool);
  lb_flood_safe : pydict Port FloodSafe;
  lb_test_vlan : option TestVlan;
  lb_held : pydict Port string;
  lb_touched : bool
}.

Definition lb_init : LbState := mkLb [] [] None [] false.

Section Monad.
Context `{Device}.

Record World := mkWorld {
  w_dev : dev;
  w_trace : list call;
  w_cli : CliState;
  w_lb : LbState
}.

Definition M (A : Type) : Type := World -> outcome A * World.

Definition ret {A} (a : A) : M A := fun w => (Val a, w).
Definition raise {A} (e : exn) : M A := fun w => (Exc e, w).
Definition hang {A} : M A := fun w => (Hang, w).

Definition bind {A B} (m : M A) (k : A -> M B) : M B := fun w =>
  match m w with
  | (Val a, w') => k a w'
  | (Exc e, w') => (Exc e, w')
  | (Hang, w') => (Hang, w')
  end.

(** [try: m except Exception as e: h e] *)
Definition try_except {A} (m : M A) (h : exn -> M A) : M A := fun w =>
  match m w with
  | (Exc e, w') => if caught e then h e w' else (Exc e, w')
  | r => r
  end.

(** [try: m finally: f] *)
Definition try_finally {A} (m : M A) (f : M unit) : M A := fun w =>
  match m w with
  | (Hang, w') => (Hang, w')
  | (r, w') => match f w' with
               | (Val _, w'') => (r, w'')
               | (Exc e, w'') => (Exc e, w'')
               | (Hang, w'') => (Hang, w'')
               end
  end.

Definition get_cli : M CliState := fun w => (Val (w_cli w), w).
Definition set_cli (c : CliState) : M unit := fun w =>
  (Val tt, mkWorld (w_dev w) (w_trace w) c (w_lb w)).
Definition get_lb : M LbState := fun w => (Val (w_lb w), w).
Definition set_lb (l : LbState) : M unit := fun w =>
  (Val tt, mkWorld (w_dev w) (w_trace w) (w_cli w) l).

Definition modify_cli (f : CliState -> CliState) : M unit := fun w =>
  (Val tt, mkWorld (w_dev w) (w_trace w) (f (w_cli w)) (w_lb w)).
Definition modify_lb (f : LbState -> LbState) : M unit := fun w =>
  (Val tt, mkWorld (w_dev w) (w_trace w) (w_cli w) (f (w_lb w))).

(** [time.sleep] and [time.time] *)
Definition sleep (ms : Z) : M unit := fun w =>
  (Val tt, mkWorld (dev_sleep ms (w_dev w)) (w_trace w) (w_cli w) (w_lb w)).
Definition now : M Z := fun w => (Val (dev_now (w_dev w)), w).

(** the subprocess call itself *)
Definition subprocess (c : call) : M raw := fun w =>
  let '(r, d) := dev_exec c (w_dev w) in
  (Val r, mkWorld d (w_trace w ++ [c]) (w_cli w) (w_lb w)).
End Monad.

Declare Scope py_scope.
Delimit Scope py_scope with py.
Notation "'let*' x := e 'in' k" := (bind e (fun x => k))
  (at level 200, x name, e at level 100, k at level 200, right associativity) : py_scope.
Notation "'let*' ' p := e 'in' k" := (bind e (fun p => k))
  (at level 200, p strict pattern, e at level 100, k at level 200, right associativity) : py_scope.
Notation "e ;;; k" := (bind e (fun _ => k))
  (at level 100, k at level 200, right associativity) : py_scope.
#[global] Open Scope py_scope.

Section Control.
Context `{Device}.

(** [if c: m] *)
Definition when (c : bool) (m : M unit) : M unit := if c then m else ret tt.

(** [for x in l: f x] *)
Fixpoint for_each {A} (l : list A) (f : A -> M unit) : M unit :=
  match l with
  | [] => ret tt
  | x :: l' => f x ;;; for_each l' f
  end.

(** [[f(x) for x in l]] *)
Fixpoint map_m {A B} (f : A -> M B) (l : list A) : M (list B) :=
  match l with
  | [] => ret []
  | x :: l' => let* y := f x in let* ys := map_m f l' in ret (y :: ys)
  end.

(** [any(p(x) for x in l)] and [all(p(x) for x in l)], evaluated left to
    right with short circuit *)
Fixpoint any_m {A} (p : A -> M bool) (l : list A) : M bool :=
  match l with
  | [] => ret false
  | x :: l' => let* b := p x in if b then ret true else any_m p l'
  end.
Fixpoint all_m {A} (p : A -> M bool) (l : list A) : M bool :=
  match l with
  | [] => ret true
  | x :: l' => let* b := p x in if b then all_m p l' else ret false
  end.

(** the first [x] of [l] on which [f] gives a value *)
Fixpoint first_m {A B} (f : A -> M (option B)) (l : list A) : M (option B) :=
  match l with
  | [] => ret None
  | x :: l' => let* r := f x in
               match r with Some y => ret (Some y) | None => first_m f l' end
  end.

(** [for x in l: acc = f(acc, x)] *)
Fixpoint fold_m {A B} (f : B -> A -> M B) (l : list A) (b : B) : M B :=
  match l with
  | [] => ret b
  | x :: l' => let* b' := f b x in fold_m f l' b'
  end.

(** [for _ in range(n): if chk(): break; time.sleep(ms)]: true when the loop
    was left by [break] *)
Fixpoint poll_tries (n : nat) (ms : Z) (chk : M bool) : M bool :=
  match n with
  | O => ret false
  | S n' => let* b := chk in
            if b then ret true else sleep ms ;;; poll_tries n' ms chk
  end.

(** [while time.time() < deadline: ...]: the body continues with a new loop
    state ([inl]) or leaves the loop ([inr]).  The result is [inl] when the
    deadline ended the loop. *)
Fixpoint while_before {S A} (fuel : nat) (deadline : Z) (body : S -> M (S + A)) (s : S)
  : M (S + A) :=
  match fuel with
  | O => hang
  | Datatypes.S f =>
      let* t := now in
      if t <? deadline then
        let* r := body s in
        match r with
        | inl s' => while_before f deadline body s'
        | inr a => ret (inr a)
        end
      else ret (inl s)
  end.

(** A loop that lasts [timeout] and sleeps at least [ms] in every round runs
    at most [timeout/ms + 1] rounds. *)
Definition poll_fuel (timeout ms : Z) : nat := Z.to_nat (timeout / ms) + 2.

(** [end = time.time() + timeout; while time.time() < end: if chk(): return
    True; time.sleep(ms)] then [return False] *)
Definition poll_until (timeout ms : Z) (chk : M bool) : M bool :=
  let* t0 := now in
  let* r := while_before (poll_fuel timeout ms) (t0 + timeout)
              (fun _ : unit => let* b := chk in
                               if b then ret (inr tt) else sleep ms ;;; ret (inl tt)) tt in
  ret (match r with inl _ => false | inr _ => true end).
End Control.

(** ** framework/shell.py: [Shell.run] *)

Section Shell.
Context `{Device} `{ShellEnv}.

(** [Shell._klish_rewrite]: a new command, or an error result *)
Definition klish_rewrite (cmd : string) : option string * option Result :=
  match klish with
  | None => (None, None)
  | Some f =>
      match f cmd with
      | inl new => (new, None)
      | inr e => (None, Some (result 2 "" ("klish: untranslated command '" +:+ cmd +:+ "' (" +:+ e +:+ ")")))
      end
  end.

(** the part of [run] after the klish translation *)
Definition run_native (cmd : string) (container : option string) (check : bool)
    (timeout : Z) (stdin : option string) : M Result :=
  if dry_run then ret (result 0 "" "")
  else
    let* r := subprocess (Call container cmd timeout stdin) in
    match r with
    | TimedOut o =>
        let r := result 124 (or_empty o) ("timeout after " +:+ zs (timeout / 1000) +:+ "s") in
        if check then raise (ShellError cmd r) else ret r
    | Exited rc o e =>
        let r := result rc o e in
        if check && negb (result_ok r) then raise (ShellError cmd r) else ret r
    end.

Definition run_full (cmd : string) (container : option string) (check : bool)
    (timeout : Z) (stdin : option string) : M Result :=
  match container with
  | Some _ => run_native cmd container check timeout stdin
  | None =>
      if bool_decide (cli_flavor = Some "klish") then
        match klish_rewrite cmd with
        | (_, Some e) => if check then raise (ShellError cmd e) else ret e
        | (Some new, None) => run_native new container check timeout stdin
        | (None, None) => run_native cmd container check timeout stdin
        end
      else run_native cmd container check timeout stdin
  end.

(** [sh.run(cmd)], [sh.run(cmd, check=True)], [sh.run(cmd, timeout=t)],
    [sh.run(cmd, container=c)] and [sh.run(cmd, stdin=s)]; the default
    timeout is 30 s *)
Definition sh_run (cmd : string) : M Result := run_full cmd None false 30000 None.
Definition sh_run_check (cmd : string) : M Result := run_full cmd None true 30000 None.
Definition sh_run_timeout (t : Z) (cmd : string) : M Result := run_full cmd None false t None.
Definition sh_run_in (container cmd : string) : M Result :=
  run_full cmd (Some container) false 30000 None.
Definition sh_run_stdin (stdin cmd : string) : M Result := run_full cmd None false 30000 (Some stdin).
End Shell.
