(* ===== verification/DeviceFacts.v ===== *)
(** * Reasoning about operations of the session

    Three kinds of facts are proved compositionally: what an operation may do
    to the world ([steps R], for any preorder [R]: the commands it may issue,
    the state it leaves alone, time not going back), that it ends ([total]),
    and that it raises no exception it should not ([quiet]). *)

From S2P Require Import Prelude PyStr PyStrFacts Device.

Create HintDb steps discriminated.
Create HintDb total discriminated.

Section Steps.
Context `{Device}.

Definition steps {A} (R : World -> World -> Prop) (m : M A) : Prop :=
  forall w, R w (snd (m w)).

Section Preorder.
Context (R : World -> World -> Prop) `{!PreOrder R}.

Lemma steps_ret {A} (a : A) : steps R (ret a).
Proof. intros w. simpl. reflexivity. Qed.

Lemma steps_raise {A} e : steps R (raise (A := A) e).
Proof. intros w. simpl. reflexivity. Qed.

Lemma steps_hang {A} : steps R (hang (A := A)).
Proof. intros w. simpl. reflexivity. Qed.

Lemma steps_bind {A B} (m : M A) (k : A -> M B) :
  steps R m -> (forall a, steps R (k a)) -> steps R (bind m k).
Proof.
  intros Hm Hk w. unfold bind. specialize (Hm w). destruct (m w) as [[a|e|] w']; simpl in *;
    [etransitivity; [done | apply Hk] | done | done].
Qed.

Lemma steps_try {A} (m : M A) h :
  steps R m -> (forall e, steps R (h e)) -> steps R (try_except m h).
Proof.
  intros Hm Hh w. unfold try_except. specialize (Hm w). destruct (m w) as [[a|e|] w']; simpl in *;
    [done | case_match; [etransitivity; [done | apply Hh] | done] | done].
Qed.

Lemma steps_finally {A} (m : M A) f :
  steps R m -> steps R f -> steps R (try_finally m f).
Proof.
  intros Hm Hf w. unfold try_finally. specialize (Hm w).
  destruct (m w) as [[a|e|] w']; simpl in *; [| |done];
    specialize (Hf w'); destruct (f w') as [[]]; simpl in *; etransitivity; done.
Qed.

Lemma steps_get_cli : steps R get_cli.
Proof. intros w. simpl. reflexivity. Qed.
Lemma steps_get_lb : steps R get_lb.
Proof. intros w. simpl. reflexivity. Qed.
Lemma steps_now : steps R now.
Proof. intros w. simpl. reflexivity. Qed.

Lemma steps_when c m : steps R m -> steps R (when c m).
Proof. intros Hm. unfold when. destruct c; [done | apply steps_ret]. Qed.

Lemma steps_for_each {A} (l : list A) f : (forall x, steps R (f x)) -> steps R (for_each l f).
Proof.
  intros Hf. induction l; simpl; [apply steps_ret | apply steps_bind; auto].
Qed.

(** with membership, for loops whose body depends on the element *)
Lemma steps_for_each_in {A} (l : list A) f :
  (forall x, x ∈ l -> steps R (f x)) -> steps R (for_each l f).
Proof.
  induction l as [|x l IH]; simpl; intros Hf; [apply steps_ret|].
  apply steps_bind; [apply Hf; left | intros _; apply IH; intros y Hy; apply Hf; by right].
Qed.

Lemma steps_map_m {A B} (f : A -> M B) l : (forall x, steps R (f x)) -> steps R (map_m f l).
Proof.
  intros Hf. induction l; simpl; [apply steps_ret|].
  apply steps_bind; [done | intros y; apply steps_bind; [done | intros; apply steps_ret]].
Qed.

Lemma steps_any_m {A} (p : A -> M bool) l : (forall x, steps R (p x)) -> steps R (any_m p l).
Proof.
  intros Hp. induction l; simpl; [apply steps_ret|]. apply steps_bind; [done|].
  intros []; [apply steps_ret | done].
Qed.

Lemma steps_all_m {A} (p : A -> M bool) l : (forall x, steps R (p x)) -> steps R (all_m p l).
Proof.
  intros Hp. induction l; simpl; [apply steps_ret|]. apply steps_bind; [done|].
  intros []; [done | apply steps_ret].
Qed.

Lemma steps_first_m {A B} (f : A -> M (option B)) l :
  (forall x, steps R (f x)) -> steps R (first_m f l).
Proof.
  intros Hf. induction l; simpl; [apply steps_ret|]. apply steps_bind; [done|].
  intros []; [apply steps_ret | done].
Qed.

Lemma steps_fold_m {A B} (f : B -> A -> M B) l b :
  (forall b x, steps R (f b x)) -> steps R (fold_m f l b).
Proof.
  intros Hf. revert b. induction l as [|x l IH]; intros b; simpl; [apply steps_ret|].
  by apply steps_bind.
Qed.

Lemma steps_poll_tries n ms chk :
  steps R (sleep ms) -> steps R chk -> steps R (poll_tries n ms chk).
Proof.
  intros Hs Hc. induction n; simpl; [apply steps_ret|]. apply steps_bind; [done|].
  intros []; [apply steps_ret | apply steps_bind; auto].
Qed.

Lemma steps_while {S A} fuel dl (body : S -> M (S + A)) s :
  (forall s, steps R (body s)) -> steps R (while_before fuel dl body s).
Proof.
  intros Hb. revert s. induction fuel as [|f IH]; intros s; simpl; [apply steps_hang|].
  apply steps_bind; [apply steps_now|]. intros t. case_match; [|apply steps_ret].
  apply steps_bind; [apply Hb|]. intros []; [apply IH | apply steps_ret].
Qed.

Lemma steps_poll_until timeout ms chk :
  steps R (sleep ms) -> steps R chk -> steps R (poll_until timeout ms chk).
Proof.
  intros Hs Hc. unfold poll_until. apply steps_bind; [apply steps_now|]. intros t0.
  apply steps_bind; [|intros; apply steps_ret]. apply steps_while. intros _.
  apply steps_bind; [done|]. intros []; [apply steps_ret|].
  apply steps_bind; [done | intros; apply steps_ret].
Qed.

Lemma steps_run_native `{ShellEnv} cmd cont check t stdin :
  (forall c, call_cmd c = cmd -> call_container c = cont -> steps R (subprocess c)) ->
  steps R (run_native cmd cont check t stdin).
Proof.
  intros Hs. unfold run_native. destruct dry_run; [apply steps_ret|].
  apply steps_bind; [by apply Hs|]. intros []; case_match; apply steps_ret || apply steps_raise.
Qed.
End Preorder.

(** ** The preorders used *)

(** the loopback state is left alone *)
Definition same_lb (w w' : World) : Prop := w_lb w' = w_lb w.
(** the CLI adapter's state is left alone *)
Definition same_cli (w w' : World) : Prop := w_cli w' = w_cli w.
(** the clock does not go back *)
Definition time_mono (w w' : World) : Prop := dev_now (w_dev w) <= dev_now (w_dev w').
(** only commands satisfying [P] are executed *)
Definition emits (P : call -> Prop) (w w' : World) : Prop :=
  exists l, w_trace w' = w_trace w ++ l /\ Forall P l.

#[export] Instance same_lb_pre : PreOrder same_lb.
Proof. split; unfold same_lb; [intros ?; done | intros ???; congruence]. Qed.
#[export] Instance same_cli_pre : PreOrder same_cli.
Proof. split; unfold same_cli; [intros ?; done | intros ???; congruence]. Qed.
#[export] Instance time_mono_pre : PreOrder time_mono.
Proof. split; unfold time_mono; [intros ?; lia | intros ???; lia]. Qed.
#[export] Instance emits_pre P : PreOrder (emits P).
Proof.
  split; unfold emits.
  - intros w. exists []. by rewrite app_nil_r.
  - intros w1 w2 w3 (l1 & H1 & F1) (l2 & H2 & F2). exists (l1 ++ l2).
    rewrite H2, H1, app_assoc. split; [done | by apply Forall_app].
Qed.

Lemma emits_impl {A} (P Q : call -> Prop) (m : M A) :
  (forall c, P c -> Q c) -> steps (emits P) m -> steps (emits Q) m.
Proof.
  intros HPQ Hm w. destruct (Hm w) as (l & Hl & HF). exists l. split; [done|].
  eapply Forall_impl; done.
Qed.

Lemma same_lb_subprocess c : steps same_lb (subprocess c).
Proof. intros w. unfold subprocess. by destruct (dev_exec c (w_dev w)). Qed.
Lemma same_cli_subprocess c : steps same_cli (subprocess c).
Proof. intros w. unfold subprocess. by destruct (dev_exec c (w_dev w)). Qed.
Lemma same_lb_sleep t : steps same_lb (sleep t).
Proof. by intros w. Qed.
Lemma same_cli_sleep t : steps same_cli (sleep t).
Proof. by intros w. Qed.
Lemma same_lb_set_cli c : steps same_lb (set_cli c).
Proof. by intros w. Qed.
Lemma same_cli_set_lb l : steps same_cli (set_lb l).
Proof. by intros w. Qed.
Lemma same_lb_modify_cli f : steps same_lb (modify_cli f).
Proof. by intros w. Qed.
Lemma same_cli_modify_lb f : steps same_cli (modify_lb f).
Proof. by intros w. Qed.
Lemma emits_subprocess (P : call -> Prop) c : P c -> steps (emits P) (subprocess c).
Proof.
  intros HP w. unfold subprocess. destruct (dev_exec c (w_dev w)). exists [c]. by split; [|constructor].
Qed.
Lemma emits_sleep P t : steps (emits P) (sleep t).
Proof. intros w. exists []. by rewrite app_nil_r. Qed.
Lemma emits_set_cli P c : steps (emits P) (set_cli c).
Proof. intros w. exists []. by rewrite app_nil_r. Qed.
Lemma emits_set_lb P c : steps (emits P) (set_lb c).
Proof. intros w. exists []. by rewrite app_nil_r. Qed.
Lemma emits_modify_cli P f : steps (emits P) (modify_cli f).
Proof. intros w. exists []. by rewrite app_nil_r. Qed.
Lemma emits_modify_lb P f : steps (emits P) (modify_lb f).
Proof. intros w. exists []. by rewrite app_nil_r. Qed.
End Steps.

#[export] Hint Resolve steps_ret steps_raise steps_hang steps_get_cli steps_get_lb steps_now
  same_lb_subprocess same_cli_subprocess same_lb_sleep same_cli_sleep same_lb_set_cli
  same_cli_set_lb same_lb_modify_cli same_cli_modify_lb emits_modify_cli emits_modify_lb emits_sleep emits_set_cli emits_set_lb
  same_lb_pre same_cli_pre time_mono_pre emits_pre : steps.

(** ** The clock *)

(** What the loops rely on: [time.sleep(t)] suspends for at least [t], and no
    command sets the wall clock back. *)
Class TimeLaws `{Device} := {
  sleep_advances : forall t d, 0 <= t -> dev_now d + t <= dev_now (dev_sleep t d);
  exec_advances : forall c d, dev_now d <= dev_now (snd (dev_exec c d))
}.

(** What a wait with a deadline relies on to see a change in time: a command
    answers within [cmd_ms], and a sleep is late by at most [slack_ms]. *)
Class Punctual `{Device} (cmd_ms slack_ms : Z) := {
  exec_prompt : forall c d, dev_now (snd (dev_exec c d)) <= dev_now d + cmd_ms;
  sleep_prompt : forall t d, 0 <= t -> dev_now (dev_sleep t d) <= dev_now d + t + slack_ms
}.

Section Total.
Context `{Device} `{!TimeLaws}.

(** the operation ends, and the clock has not gone back *)
Definition total {A} (m : M A) : Prop :=
  (forall w, fst (m w) <> Hang) /\ steps time_mono m.

Lemma total_ret {A} (a : A) : total (ret a).
Proof. split; [done | auto with steps]. Qed.
Lemma total_raise {A} e : total (raise (A := A) e).
Proof. split; [done | auto with steps]. Qed.
Lemma total_get_cli : total get_cli.
Proof. split; [done | auto with steps]. Qed.
Lemma total_get_lb : total get_lb.
Proof. split; [done | auto with steps]. Qed.
Lemma total_now : total now.
Proof. split; [done | auto with steps]. Qed.
Lemma total_set_cli c : total (set_cli c).
Proof. split; [done|]. intros w. unfold time_mono. simpl. lia. Qed.
Lemma total_set_lb c : total (set_lb c).
Proof. split; [done|]. intros w. unfold time_mono. simpl. lia. Qed.
Lemma total_modify_cli f : total (modify_cli f).
Proof. split; [done|]. intros w. unfold time_mono. simpl. lia. Qed.
Lemma total_modify_lb f : total (modify_lb f).
Proof. split; [done|]. intros w. unfold time_mono. simpl. lia. Qed.
Lemma total_sleep t : 0 <= t -> total (sleep t).
Proof.
  intros Ht. split; [done|]. intros w. unfold time_mono. simpl.
  pose proof (sleep_advances t (w_dev w) Ht). lia.
Qed.
Lemma total_subprocess c : total (subprocess c).
Proof.
  split.
  - intros w. unfold subprocess. by destruct (dev_exec c (w_dev w)).
  - intros w. unfold subprocess, time_mono. pose proof (exec_advances c (w_dev w)) as Hx.
    destruct (dev_exec c (w_dev w)). done.
Qed.

Lemma total_bind {A B} (m : M A) (k : A -> M B) :
  total m -> (forall a, total (k a)) -> total (bind m k).
Proof.
  intros [Hm Hs] Hk. split.
  - intros w. unfold bind. specialize (Hm w). destruct (m w) as [[a|e|] w']; simpl in *; try done.
    apply Hk.
  - apply steps_bind; [apply _ | done | intros a; apply Hk].
Qed.

Lemma total_try {A} (m : M A) h : total m -> (forall e, total (h e)) -> total (try_except m h).
Proof.
  intros [Hm Hs] Hh. split.
  - intros w. unfold try_except. specialize (Hm w). destruct (m w) as [[a|e|] w']; simpl in *; try done.
    case_match; [apply Hh | done].
  - apply steps_try; [apply _ | done | intros e; apply Hh].
Qed.

Lemma total_finally {A} (m : M A) f : total m -> total f -> total (try_finally m f).
Proof.
  intros [Hm Hs] [Hf Hfs]. split.
  - intros w. unfold try_finally. specialize (Hm w). destruct (m w) as [[a|e|] w']; simpl in *; try done;
      specialize (Hf w'); destruct (f w') as [[]]; done.
  - by apply steps_finally; [apply _| |].
Qed.

Lemma total_when c m : total m -> total (when c m).
Proof. intros Hm. unfold when. destruct c; [done | apply total_ret]. Qed.

Lemma total_for_each {A} (l : list A) f : (forall x, total (f x)) -> total (for_each l f).
Proof. intros Hf. induction l; simpl; [apply total_ret | apply total_bind; auto]. Qed.

Lemma total_map_m {A B} (f : A -> M B) l : (forall x, total (f x)) -> total (map_m f l).
Proof.
  intros Hf. induction l; simpl; [apply total_ret|].
  apply total_bind; [done | intros y; apply total_bind; [done | intros; apply total_ret]].
Qed.

Lemma total_any_m {A} (p : A -> M bool) l : (forall x, total (p x)) -> total (any_m p l).
Proof.
  intros Hp. induction l; simpl; [apply total_ret|]. apply total_bind; [done|].
  intros []; [apply total_ret | done].
Qed.

Lemma total_all_m {A} (p : A -> M bool) l : (forall x, total (p x)) -> total (all_m p l).
Proof.
  intros Hp. induction l; simpl; [apply total_ret|]. apply total_bind; [done|].
  intros []; [done | apply total_ret].
Qed.

Lemma total_first_m {A B} (f : A -> M (option B)) l :
  (forall x, total (f x)) -> total (first_m f l).
Proof.
  intros Hf. induction l; simpl; [apply total_ret|]. apply total_bind; [done|].
  intros []; [apply total_ret | done].
Qed.

Lemma total_fold_m {A B} (f : B -> A -> M B) l b :
  (forall b x, total (f b x)) -> total (fold_m f l b).
Proof.
  intros Hf. revert b. induction l as [|x l IH]; intros b; simpl; [apply total_ret|].
  by apply total_bind.
Qed.

Lemma total_poll_tries n ms chk : 0 <= ms -> total chk -> total (poll_tries n ms chk).
Proof.
  intros Hms Hc. induction n; simpl; [apply total_ret|]. apply total_bind; [done|].
  intros []; [apply total_ret | apply total_bind; [by apply total_sleep | done]].
Qed.

(** A deadline loop ends when every round that continues takes at least [d]
    milliseconds and the fuel covers [deadline - now] at that pace. *)
Lemma while_ends {S A} d dl (body : S -> M (S + A)) :
  0 < d ->
  (forall s w, fst (body s w) <> Hang) ->
  (forall s w s', fst (body s w) = Val (inl s') ->
     dev_now (w_dev w) + d <= dev_now (w_dev (snd (body s w)))) ->
  forall fuel s w, dl - dev_now (w_dev w) <= (Z.of_nat fuel - 1) * d -> (0 < fuel)%nat ->
  fst (while_before fuel dl body s w) <> Hang.
Proof.
  intros Hd Hb Hadv. induction fuel as [|f IH]; intros s w Hf Hpos; [lia|].
  cbn [while_before]. unfold bind at 1, now. cbn iota beta.
  destruct (dev_now (w_dev w) <? dl) eqn:E; bool_prop; [|done].
  unfold bind. specialize (Hb s w). specialize (Hadv s w).
  destruct (body s w) as [[[s'|a]|e|] w'] eqn:Eb; simpl in *; try done.
  specialize (Hadv s' eq_refl). rewrite Nat2Z.inj_succ in Hf.
  destruct f as [|f]; [lia|]. apply IH; nia.
Qed.

(** A deadline loop leaves by its body when the body is bound to leave from
    time [T] on and a round, which takes between [d] and [dmax], still fits
    before the deadline. *)
Lemma while_finds {S A} (Inv : World -> Prop) d dmax T dl (body : S -> M (S + A)) :
  0 < d -> T + dmax <= dl ->
  (forall s w, Inv w -> match body s w with
     | (Val (inl _), w') => Inv w' /\ dev_now (w_dev w) < T /\
                            dev_now (w_dev w) + d <= dev_now (w_dev w') <= dev_now (w_dev w) + dmax
     | (Val (inr _), _) => True
     | _ => False
     end) ->
  forall fuel s w, Inv w -> dev_now (w_dev w) < dl ->
    dl - dev_now (w_dev w) <= (Z.of_nat fuel - 1) * d -> (0 < fuel)%nat ->
  exists s' a w1 w', Inv w1 /\ body s' w1 = (Val (inr a), w') /\
    while_before fuel dl body s w = (Val (inr a), w').
Proof.
  intros Hd HT Hb. induction fuel as [|f IH]; intros s w HI Hdl Hf Hpos; [lia|].
  cbn [while_before]. unfold bind at 1, now. cbn iota beta.
  rewrite (proj2 (Z.ltb_lt _ _)) by done. unfold bind. specialize (Hb s w HI).
  destruct (body s w) as [[[s'|a]|e|] w1] eqn:Eb; try done; [|by exists s, a, w, w1].
  destruct Hb as (HI1 & HwT & Hadv). rewrite Nat2Z.inj_succ in Hf. destruct f as [|f]; [nia|].
  apply IH; [done | lia | nia | lia].
Qed.

(** the fuel of a polling loop of [timeout] with steps of [ms] is enough *)
Lemma poll_fuel_enough timeout ms : 0 < ms -> timeout <= (Z.of_nat (poll_fuel timeout ms) - 1) * ms.
Proof.
  intros Hms. unfold poll_fuel. rewrite Nat2Z.inj_add. pose proof (Z.div_mod timeout ms ltac:(lia)).
  pose proof (Z.mod_pos_bound timeout ms ltac:(lia)).
  assert (timeout / ms <= Z.of_nat (Z.to_nat (timeout / ms))) as Hq by lia. nia.
Qed.

Lemma total_poll_until timeout ms chk :
  0 < ms -> total chk -> total (poll_until timeout ms chk).
Proof.
  intros Hms [Hc Hcs]. split.
  - intros w. unfold poll_until. unfold bind at 1, now. cbn iota beta. unfold bind at 1.
    match goal with |- context [while_before ?f ?dl ?b tt w] =>
      assert (fst (while_before f dl b tt w) <> Hang) as Hw end.
    { apply while_ends with (d := ms); [done | | | |].
      - intros _ w'. unfold bind. specialize (Hc w'). destruct (chk w') as [[[]|e|] w'']; done.
      - intros _ w' s' Hv. unfold bind in *. pose proof (Hcs w') as Ht. unfold time_mono in Ht.
        destruct (chk w') as [[[]|e|] w'']; simpl in *; try done.
        pose proof (sleep_advances ms (w_dev w'') ltac:(lia)). lia.
      - pose proof (poll_fuel_enough timeout ms Hms). lia.
      - unfold poll_fuel. lia. }
    match goal with |- context [while_before ?f ?dl ?b tt w] =>
      destruct (while_before f dl b tt w) as [[[]|e|] w'] end; done.
  - apply steps_poll_until; [apply _ | | done]. intros w. unfold time_mono. simpl.
    pose proof (sleep_advances ms (w_dev w) ltac:(lia)). lia.
Qed.

Lemma total_run_native `{ShellEnv} cmd cont check t stdin :
  total (run_native cmd cont check t stdin).
Proof.
  unfold run_native. destruct dry_run; [apply total_ret|].
  apply total_bind; [apply total_subprocess|]. intros []; case_match; apply total_ret || apply total_raise.
Qed.

Lemma total_run_full `{ShellEnv} cmd cont check t stdin : total (run_full cmd cont check t stdin).
Proof.
  unfold run_full. repeat case_match; auto using total_run_native, total_ret, total_raise.
Qed.

(** a deadline loop whose rounds sleep *)
Lemma total_while {S A} timeout ms (body : S -> M (S + A)) s :
  0 < ms -> (forall s, total (body s)) ->
  (forall s w s', fst (body s w) = Val (inl s') ->
     dev_now (w_dev w) + ms <= dev_now (w_dev (snd (body s w)))) ->
  total (let* t0 := now in while_before (poll_fuel timeout ms) (t0 + timeout) body s).
Proof.
  intros Hms Hb Hadv. split.
  - intros w. unfold bind, now. cbn iota beta. apply while_ends with (d := ms); [done | | done | |].
    + intros s' w'. apply (Hb s').
    + unfold poll_fuel. rewrite Nat2Z.inj_add. pose proof (Z.div_mod timeout ms ltac:(lia)).
      pose proof (Z.mod_pos_bound timeout ms ltac:(lia)).
      assert (timeout / ms <= Z.of_nat (Z.to_nat (timeout / ms))) as Hq by lia.
      enough (timeout <= (Z.of_nat (Z.to_nat (timeout / ms)) + 1) * ms) by lia. nia.
    + unfold poll_fuel. lia.
  - apply steps_bind; [apply _ | apply steps_now, _ | intros t]. apply steps_while; [apply _|].
    intros s'. apply (Hb s').
Qed.
Lemma total_ext {A} (m m' : M A) : (forall w, m w = m' w) -> total m -> total m'.
Proof. intros He [Hh Ht]. split; intros w; rewrite <-He; [apply Hh | apply Ht]. Qed.

Lemma bind_assoc {A B C} (m : M A) (f : A -> M B) (g : B -> M C) w :
  bind (bind m f) g w = bind m (fun a => bind (f a) g) w.
Proof. unfold bind. by destruct (m w) as [[]]. Qed.

End Total.

#[export] Hint Resolve total_ret total_raise total_get_cli total_get_lb total_now total_set_cli
  total_set_lb total_modify_cli total_modify_lb total_subprocess total_run_native total_run_full : total.

(** ** The shell *)

(** commands reach [bash] as they are written *)
Class NativeShell `{ShellEnv} := { native_flavor : cli_flavor <> Some "klish" }.
(** ... and are executed *)
Class LiveShell `{ShellEnv} := { live_flavor : cli_flavor <> Some "klish"; live : dry_run = false }.
#[export] Instance live_native `{LiveShell} : NativeShell.
Proof. split. apply live_flavor. Qed.

Section ShellFacts.
Context `{Device} `{ShellEnv}.

Lemma same_lb_run cmd cont check t stdin : steps same_lb (run_full cmd cont check t stdin).
Proof.
  unfold run_full. repeat case_match; auto with steps;
    apply steps_run_native; auto with steps; apply _.
Qed.

Lemma same_cli_run cmd cont check t stdin : steps same_cli (run_full cmd cont check t stdin).
Proof.
  unfold run_full. repeat case_match; auto with steps;
    apply steps_run_native; auto with steps; apply _.
Qed.

Lemma run_full_native `{!NativeShell} cmd cont check t stdin :
  run_full cmd cont check t stdin = run_native cmd cont check t stdin.
Proof. unfold run_full. case_match; [done|]. by rewrite bool_decide_false by apply native_flavor. Qed.

Lemma emits_run `{!NativeShell} (P : call -> Prop) cmd cont check t stdin :
  P (Call cont cmd t stdin) -> steps (emits P) (run_full cmd cont check t stdin).
Proof.
  intros HP. rewrite run_full_native. unfold run_native. case_match; [auto with steps|].
  apply steps_bind; [apply _ | by apply emits_subprocess|].
  intros []; case_match; auto with steps.
Qed.

(** an unchecked command never raises: it gives a result, or hangs never *)
Lemma run_nocheck_val cmd cont t stdin w :
  exists r w', run_full cmd cont false t stdin w = (Val r, w').
Proof.
  unfold run_full, run_native, bind, subprocess, klish_rewrite, ret.
  repeat (case_match; simplify_eq; eauto).
Qed.

(** a live shell executes exactly the command it is given *)
Lemma run_live `{!LiveShell} cmd cont t stdin w :
  exists r d, run_full cmd cont false t stdin w =
    (Val r, mkWorld d (w_trace w ++ [Call cont cmd t stdin]) (w_cli w) (w_lb w)).
Proof.
  rewrite run_full_native. unfold run_native. rewrite live. unfold bind, subprocess.
  destruct (dev_exec _ _) as [[] d]; eauto.
Qed.
End ShellFacts.

#[export] Hint Resolve same_lb_run same_cli_run : steps.
#[export] Hint Unfold sh_run sh_run_check sh_run_timeout sh_run_in sh_run_stdin : steps total.

(** Structural proof search for [steps R m]: it follows the shape of [m] and
    closes the leaves with the hints. *)
Ltac steps_go :=
  repeat first
    [ progress intros
    | solve [eauto with steps]
    | match goal with
      | |- steps _ (bind _ _) => apply steps_bind; [exact _ | |]
      | |- steps _ (try_except _ _) => apply steps_try; [exact _ | |]
      | |- steps _ (try_finally _ _) => apply steps_finally; [exact _ | |]
      | |- steps _ (when _ _) => apply steps_when; [exact _ |]
      | |- steps _ (for_each _ _) => apply steps_for_each; [exact _ |]
      | |- steps _ (map_m _ _) => apply steps_map_m; [exact _ |]
      | |- steps _ (any_m _ _) => apply steps_any_m; [exact _ |]
      | |- steps _ (all_m _ _) => apply steps_all_m; [exact _ |]
      | |- steps _ (first_m _ _) => apply steps_first_m; [exact _ |]
      | |- steps _ (fold_m _ _ _) => apply steps_fold_m; [exact _ |]
      | |- steps _ (poll_tries _ _ _) => apply steps_poll_tries; [exact _ | |]
      | |- steps _ (poll_until _ _ _) => apply steps_poll_until; [exact _ | |]
      | |- steps _ (while_before _ _ _ _) => apply steps_while; [exact _ |]
      | |- steps _ (match ?x with _ => _ end) => destruct x
      end ].

(** The same for [total]. *)
Ltac total_go :=
  repeat first
    [ progress intros
    | solve [eauto with total]
    | match goal with
      | |- total (bind _ _) => apply total_bind
      | |- total (try_except _ _) => apply total_try
      | |- total (try_finally _ _) => apply total_finally
      | |- total (when _ _) => apply total_when
      | |- total (for_each _ _) => apply total_for_each
      | |- total (map_m _ _) => apply total_map_m
      | |- total (any_m _ _) => apply total_any_m
      | |- total (all_m _ _) => apply total_all_m
      | |- total (first_m _ _) => apply total_first_m
      | |- total (fold_m _ _ _) => apply total_fold_m
      | |- total (poll_tries _ _ _) => apply total_poll_tries; [lia |]
      | |- total (poll_until _ _ _) => apply total_poll_until; [lia |]
      | |- total (sleep _) => apply total_sleep; lia
      | |- total (match ?x with _ => _ end) => destruct x
      end ].

(** ** Postconditions of the value an operation returns *)

Section Yields.
Context `{Device}.

Definition yields {A} (P : A -> Prop) (m : M A) : Prop :=
  forall w a w', m w = (Val a, w') -> P a.

Lemma yields_ret {A} (P : A -> Prop) a : P a -> yields P (ret a).
Proof. intros HP w b w1 E. injection E as -> _. done. Qed.

Lemma bind_ret {A B} (a : A) (k : A -> M B) : bind (ret a) k = k a.
Proof. reflexivity. Qed.

Lemma bind_val {A B} (m : M A) (k : A -> M B) w b w' :
  bind m k w = (Val b, w') -> exists a w1, m w = (Val a, w1) /\ k a w1 = (Val b, w').
Proof. unfold bind. destruct (m w) as [[]]; intros; simplify_eq; eauto. Qed.

Lemma yields_bind {A B} (Q : A -> Prop) (P : B -> Prop) (m : M A) (k : A -> M B) :
  yields Q m -> (forall a, Q a -> yields P (k a)) -> yields P (bind m k).
Proof. intros Hm Hk w b w' (a & w1 & E1 & E2)%bind_val. eapply Hk; eauto. Qed.

Lemma yields_any {A} (m : M A) : yields (fun _ => True) m.
Proof. intros w a w1 E. exact I. Qed.

Lemma total_bind_y `{!TimeLaws} {A B} (Q : A -> Prop) (m : M A) (k : A -> M B) :
  total m -> yields Q m -> (forall a, Q a -> total (k a)) -> total (bind m k).
Proof.
  intros [Hm Hs] Hy Hk. split; intros w; unfold bind; specialize (Hm w); specialize (Hs w);
    destruct (m w) as [[a|e|] w'] eqn:E; try done; destruct (Hk a (Hy _ _ _ E)) as [H1 H2].
  - apply H1.
  - etransitivity; [done | apply H2].
Qed.

Lemma poll_tries_true n ms chk w w' :
  poll_tries n ms chk w = (Val true, w') -> exists w1, chk w1 = (Val true, w').
Proof.
  revert w. induction n as [|n IH]; intros w E; cbn [poll_tries] in E; [done|].
  apply bind_val in E as ([] & w1 & E1 & E2).
  - unfold ret in E2. simplify_eq. eauto.
  - apply bind_val in E2 as (? & w2 & _ & E2). eauto.
Qed.
End Yields.

(** Break a successful run of a sequence into its steps. *)
Ltac run_inv :=
  repeat match goal with
  | H : bind _ _ _ = (Val _, _) |- _ =>
      let a := fresh "a" in let w := fresh "w" in
      let H1 := fresh "R" in let H2 := fresh "R" in
      apply bind_val in H as (a & w & H1 & H2)
  | H : ret _ _ = (Val _, _) |- _ => unfold ret in H; simplify_eq
  end.
