(* ===== verification/Toy.v ===== *)
(** * Concrete devices, for evaluating the model

    A theorem about every [Device] is applied to these in the examples:
    devices that answer each command from a table and whose clock is an
    integer of milliseconds, and a shell without dry run or klish. *)

From S2P Require Import Prelude PyStr Device DeviceFacts.

(** answers do not depend on the history *)
Definition table_device (f : string -> raw) : Device :=
  {| dev := Z; dev_exec c d := (f (call_cmd c), d); dev_sleep t d := d + t; dev_now d := d |}.

(** a device with a state of its own *)
Definition state_device {S} (f : call -> S -> raw * S) : Device :=
  {| dev := S * Z; dev_exec c d := let '(r, s) := f c (fst d) in (r, (s, snd d));
     dev_sleep t d := (fst d, snd d + t); dev_now d := snd d |}.

#[export] Instance table_time f : @TimeLaws (table_device f).
Proof. split; simpl; intros; lia. Qed.

#[export] Instance state_time {S} (f : call -> S -> raw * S) : @TimeLaws (state_device f).
Proof.
  split; simpl; intros; [lia|]. destruct (f c d.1) as [r s]. simpl. lia.
Qed.

(** a device whose answers depend on the time *)
Definition clock_device (f : call -> Z -> raw) : Device :=
  {| dev := Z; dev_exec c d := (f c d, d); dev_sleep t d := d + t; dev_now d := d |}.
#[export] Instance clock_time f : @TimeLaws (clock_device f).
Proof. split; simpl; intros; lia. Qed.
#[export] Instance clock_punctual f : @Punctual (clock_device f) 0 0.
Proof. split; simpl; intros; lia. Qed.

Definition plain_shell : ShellEnv := {| dry_run := false; cli_flavor := None; klish := None |}.

#[export] Instance plain_native : @NativeShell plain_shell.
Proof. split. done. Qed.
#[export] Instance plain_live : @LiveShell plain_shell.
Proof. split; done. Qed.

Definition ok_out (s : string) : raw := Exited 0 s "".

Definition world `{Device} (d : dev) (c : CliState) : World := mkWorld d [] c lb_init.
