(* ===== verification/PyVal.v ===== *)
(** * Dynamic Python values: the documents the framework reads and builds

    Profiles (YAML), JSON patches, the return values of the probes and the
    literals [sonic-db-cli HGETALL] prints are trees of [None], booleans,
    integers, strings, lists and dictionaries with string keys; a float is kept
    as its text.  [json_dumps] is [json.dumps(v, indent=2)], [json_loads] is
    [json.loads], and [literal_eval]/[py_repr] are [ast.literal_eval]/[repr] on
    the dictionaries of strings that [sonic-db-cli HGETALL] prints. *)

From S2P Require Import Prelude PyStr.

Inductive pyval :=
| VNone
| VBool (b : bool)
| VInt (z : Z)
| VFloat (text : string)
| VStr (s : string)
| VList (l : list pyval)
| VDict (d : pydict string pyval).

Section Induction.
Context (P : pyval -> Prop)
  (HNone : P VNone) (HBool : forall b, P (VBool b)) (HInt : forall z, P (VInt z))
  (HFloat : forall s, P (VFloat s))
  (HStr : forall s, P (VStr s))
  (HList : forall l, Forall P l -> P (VList l))
  (HDict : forall d, Forall (fun kv => P (snd kv)) d -> P (VDict d)).

(** induction with the hypotheses for the elements of lists and dictionaries *)
Fixpoint pyval_ind' (v : pyval) : P v :=
  match v with
  | VNone => HNone
  | VBool b => HBool b
  | VInt z => HInt z
  | VFloat t => HFloat t
  | VStr s => HStr s
  | VList l => HList l ((fix go l : Forall P l := match l with
                           | [] => List.Forall_nil _
                           | x :: l' => List.Forall_cons _ _ _ (pyval_ind' x) (go l')
                           end) l)
  | VDict d => HDict d ((fix go d : Forall (fun kv => P (snd kv)) d := match d with
                           | [] => List.Forall_nil _
                           | (k, x) :: d' => List.Forall_cons _ (k, x) _ (pyval_ind' x) (go d')
                           end) d)
  end.
End Induction.

#[export] Instance pyval_eq_dec : EqDecision pyval.
Proof.
  refine (fix go (x y : pyval) {struct x} : Decision (x = y) :=
    match x, y with
    | VNone, VNone => left eq_refl
    | VBool a, VBool b => cast_if (decide (a = b))
    | VInt a, VInt b => cast_if (decide (a = b))
    | VFloat a, VFloat b => cast_if (decide (a = b))
  | VStr a, VStr b => cast_if (decide (a = b))
    | VList a, VList b => cast_if (@list_eq_dec _ go a b)
    | VDict a, VDict b => cast_if (@list_eq_dec _ (@prod_eq_dec _ _ _ go) a b)
    | _, _ => right _
    end); abstract congruence.
Defined.

(** [bool(v)] *)
Definition py_bool (v : pyval) : bool :=
  match v with
  | VNone => false
  | VBool b => b
  | VInt z => negb (z =? 0)
  | VFloat t => negb (str_forall (fun c => char_in c "+-.0") (fst (span (fun c => negb (char_in c "eE")) t)))
  | VStr s => nonempty s
  | VList l => match l with [] => false | _ => true end
  | VDict d => match d with [] => false | _ => true end
  end.

(** [d.get(k)] of a dictionary, [None] for another value *)
Definition vget (k : string) (v : pyval) : option pyval :=
  match v with VDict d => dget k d | _ => None end.

(** [d.get(k, dflt)] *)
Definition vget_or (k : string) (dflt v : pyval) : pyval :=
  match vget k v with Some x => x | None => dflt end.

(** ** [json.dumps(v, indent=2)] *)

Definition hex4 (n : Z) : string :=
  let h := hex n in
  match slen h with 1%nat => "000" +:+ h | 2%nat => "00" +:+ h | 3%nat => "0" +:+ h | _ => h end.

Definition json_char (c : ascii) : string :=
  let n := code c in
  if Ascii.eqb c dquote then String bslash (s1 dquote)
  else if Ascii.eqb c bslash then String bslash (s1 bslash)
  else if Ascii.eqb c lf then String bslash "n"
  else if Ascii.eqb c cr then String bslash "r"
  else if Ascii.eqb c tab then String bslash "t"
  else if (n =? 8)%nat then String bslash "b"
  else if (n =? 12)%nat then String bslash "f"
  else if (n <? 32)%nat || (126 <? n)%nat then String bslash ("u" +:+ hex4 (Z.of_nat n))
  else s1 c.

Fixpoint json_body (s : string) : string :=
  match s with "" => "" | String c s' => json_char c +:+ json_body s' end.
Definition json_str (s : string) : string := String dquote (json_body s +:+ s1 dquote).

Definition spaces (n : nat) : string := Nat.iter n (String " "%char) "".
(** a line feed and the indentation *)
Definition nl (n : nat) : string := String lf (spaces n).

Fixpoint json_dumps_at (ind : nat) (v : pyval) : string :=
  match v with
  | VNone => "null"
  | VBool b => if b then "true" else "false"
  | VInt z => zs z
  | VFloat t => t
  | VStr s => json_str s
  | VList [] => "[]"
  | VList l =>
      "[" +:+ nl (ind + 2)
      +:+ join ("," +:+ nl (ind + 2)) (map (json_dumps_at (ind + 2)) l)
      +:+ nl ind +:+ "]"
  | VDict [] => "{}"
  | VDict d =>
      "{" +:+ nl (ind + 2)
      +:+ join ("," +:+ nl (ind + 2))
            (map (fun kv => json_str (fst kv) +:+ ": " +:+ json_dumps_at (ind + 2) (snd kv)) d)
      +:+ nl ind +:+ "}"
  end.
Definition json_dumps : pyval -> string := json_dumps_at 0.

Example json_ex : json_dumps (VList [VDict [("op", VStr "add"); ("value", VDict [])]]) =
  "[" +:+ nl 2 +:+ "{" +:+ nl 4 +:+ json_str "op" +:+ ": " +:+ json_str "add" +:+ "," +:+ nl 4
  +:+ json_str "value" +:+ ": {}" +:+ nl 2 +:+ "}" +:+ nl 0 +:+ "]".
Proof. vm_compute. reflexivity. Qed.

(** ** [json.loads] *)

Definition is_json_ws (c : ascii) : bool := char_in c (String " " (String tab (String lf (s1 cr)))).
Definition skip_json_ws : string -> string := lstrip_by is_json_ws.

(** the code point of a [\u] escape, when it is below 256 *)
Definition json_u (h : string) : option ascii :=
  match hex_of h with
  | Some n => if (slen h =? 4)%nat && (n <? 256) then Some (ascii_of_nat (Z.to_nat n)) else None
  | None => None
  end.

(** the characters of a string literal up to its closing quote *)
Fixpoint json_chars (s : string) (acc : string) : option (string * string) :=
  match s with
  | "" => None
  | String c s' =>
      if Ascii.eqb c dquote then Some (str_rev acc, s')
      else if Ascii.eqb c bslash then
        match s' with
        | String e s'' =>
            if Ascii.eqb e "n"%char then json_chars s'' (String lf acc)
            else if Ascii.eqb e "r"%char then json_chars s'' (String cr acc)
            else if Ascii.eqb e "t"%char then json_chars s'' (String tab acc)
            else if Ascii.eqb e "b"%char then json_chars s'' (String "008" acc)
            else if Ascii.eqb e "f"%char then json_chars s'' (String "012" acc)
            else if Ascii.eqb e dquote || Ascii.eqb e bslash || Ascii.eqb e "/"%char
            then json_chars s'' (String e acc)
            else if Ascii.eqb e "u"%char then
              match s'' with
              | String a (String b (String c (String d s3))) =>
                  match json_u (String a (String b (String c (s1 d)))) with
                  | Some u => json_chars s3 (String u acc)
                  | None => None
                  end
              | _ => None
              end
            else None
        | "" => None
        end
      else if (code c <? 32)%nat then None
      else json_chars s' (String c acc)
  end.

(** an integer or a float: [-?int(.digits)?([eE][+-]?digits)?] *)
Definition json_number (s : string) : option (pyval * string) :=
  let '(sign, s1_) := match s with String "-" t => ("-", t) | _ => ("", s) end in
  let '(ip, s2) := span is_digit s1_ in
  if negb (nonempty ip) || (starts "0" ip && (1 <? slen ip)%nat) then None
  else
    let '(frac, s3) := match s2 with
                       | String "." t => let '(d, t') := span is_digit t in
                                         if nonempty d then ("." +:+ d, t') else ("", s2)
                       | _ => ("", s2) end in
    let '(ex, s4) := match s3 with
                     | String e t =>
                         if char_in e "eE" then
                           let '(sg, t1) := match t with
                                            | String g t1 => if char_in g "+-" then (s1 g, t1) else ("", t)
                                            | "" => ("", t) end in
                           let '(d, t2) := span is_digit t1 in
                           if nonempty d then (String e (sg +:+ d), t2) else ("", s3)
                         else ("", s3)
                     | "" => ("", s3) end in
    if nonempty frac || nonempty ex then Some (VFloat (sign +:+ ip +:+ frac +:+ ex), s4)
    else match uint_of ip with
         | Some n => Some (VInt (if nonempty sign then - n else n), s4)
         | None => None
         end.

Section Json.
Context (value : string -> option (pyval * string)).

(** the elements after [[] (or a comma) up to the closing bracket *)
Fixpoint json_elems (fuel : nat) (s : string) (acc : list pyval) : option (pyval * string) :=
  match fuel with
  | O => None
  | S f =>
      match value (skip_json_ws s) with
      | None => None
      | Some (v, r) =>
          match skip_json_ws r with
          | String "," r' => json_elems f r' (v :: acc)
          | String "]" r' => Some (VList (rev (v :: acc)), r')
          | _ => None
          end
      end
  end.

Fixpoint json_members (fuel : nat) (s : string) (acc : pydict string pyval) : option (pyval * string) :=
  match fuel with
  | O => None
  | S f =>
      match skip_json_ws s with
      | String q s1_ =>
          if negb (Ascii.eqb q dquote) then None
          else
            match json_chars s1_ "" with
            | None => None
            | Some (k, s2) =>
                match skip_json_ws s2 with
                | String ":" s3 =>
                    match value (skip_json_ws s3) with
                    | None => None
                    | Some (v, r) =>
                        match skip_json_ws r with
                        | String "," r' => json_members f r' (dset k v acc)
                        | String "}" r' => Some (VDict (dset k v acc), r')
                        | _ => None
                        end
                    end
                | _ => None
                end
            end
      | "" => None
      end
  end.
End Json.

(** every nested value consumes a character, so the length of the text is
    enough fuel *)
Fixpoint json_value (fuel : nat) (s : string) : option (pyval * string) :=
  match fuel with
  | O => None
  | S f =>
      match s with
      | "" => None
      | String c r =>
          if Ascii.eqb c dquote then
            match json_chars r "" with Some (t, r') => Some (VStr t, r') | None => None end
          else if Ascii.eqb c "["%char then
            match skip_json_ws r with
            | String "]" r' => Some (VList [], r')
            | _ => json_elems (json_value f) (slen r) r []
            end
          else if Ascii.eqb c "{"%char then
            match skip_json_ws r with
            | String "}" r' => Some (VDict [], r')
            | _ => json_members (json_value f) (slen r) r []
            end
          else if starts "null" s then Some (VNone, str_drop 4 s)
          else if starts "true" s then Some (VBool true, str_drop 4 s)
          else if starts "false" s then Some (VBool false, str_drop 5 s)
          else json_number s
      end
  end.

(** [json.loads(s)], [None] for ValueError *)
Definition json_loads (s : string) : option pyval :=
  match json_value (S (slen s)) (skip_json_ws s) with
  | Some (v, r) => if nonempty (skip_json_ws r) then None else Some v
  | None => None
  end.

Example json_loads_ex :
  let v := VDict [("a", VList [VInt 1; VInt (-20); VStr (String lf "x"); VNone; VBool true]);
                  ("b", VDict []); ("c", VFloat "-0.5e+3")] in
  json_loads (json_dumps v) = Some v.
Proof. vm_compute. reflexivity. Qed.

(** ** [repr] and [ast.literal_eval] of a dictionary of strings *)

(** [repr(s)] of an ASCII string: double quotes only when the text has a
    single quote and no double quote *)
Definition repr_char (q c : ascii) : string :=
  let n := code c in
  if Ascii.eqb c q || Ascii.eqb c bslash then String bslash (s1 c)
  else if Ascii.eqb c lf then String bslash "n"
  else if Ascii.eqb c cr then String bslash "r"
  else if Ascii.eqb c tab then String bslash "t"
  else if (n <? 32)%nat || (126 <? n)%nat
  then String bslash ("x" +:+ String (hex_digit (Z.of_nat n / 16)) (s1 (hex_digit (Z.of_nat n mod 16))))
  else s1 c.
Fixpoint repr_body (q : ascii) (s : string) : string :=
  match s with "" => "" | String c s' => repr_char q c +:+ repr_body q s' end.
Definition repr_str (s : string) : string :=
  let q := if char_in squote s && negb (char_in dquote s) then dquote else squote in
  String q (repr_body q s +:+ s1 q).

Definition py_repr (d : pydict string string) : string :=
  "{" +:+ join ", " (map (fun kv => repr_str (fst kv) +:+ ": " +:+ repr_str (snd kv)) d) +:+ "}".

(** the characters of a literal quoted by [q], up to the closing quote *)
Fixpoint lit_chars (q : ascii) (s : string) (acc : string) : option (string * string) :=
  match s with
  | "" => None
  | String c s' =>
      if Ascii.eqb c q then Some (str_rev acc, s')
      else if Ascii.eqb c lf then None
      else if Ascii.eqb c bslash then
        match s' with
        | String e s'' =>
            if Ascii.eqb e "n"%char then lit_chars q s'' (String lf acc)
            else if Ascii.eqb e "r"%char then lit_chars q s'' (String cr acc)
            else if Ascii.eqb e "t"%char then lit_chars q s'' (String tab acc)
            else if Ascii.eqb e "b"%char then lit_chars q s'' (String "008" acc)
            else if Ascii.eqb e "f"%char then lit_chars q s'' (String "012" acc)
            else if Ascii.eqb e "a"%char then lit_chars q s'' (String "007" acc)
            else if Ascii.eqb e "v"%char then lit_chars q s'' (String "011" acc)
            else if Ascii.eqb e squote || Ascii.eqb e dquote || Ascii.eqb e bslash
            then lit_chars q s'' (String e acc)
            else if Ascii.eqb e lf then lit_chars q s'' acc
            else if Ascii.eqb e "x"%char then
              match s'' with
              | String a (String b s3) =>
                  match hex_val a, hex_val b with
                  | Some x, Some y => lit_chars q s3 (String (ascii_of_nat (Z.to_nat (16 * x + y))) acc)
                  | _, _ => None
                  end
              | _ => None
              end
            else lit_chars q s'' (String e (String bslash acc))
        | "" => None
        end
      else lit_chars q s' (String c acc)
  end.

Definition skip_ws : string -> string := lstrip.

Definition lit_str (s : string) : option (string * string) :=
  match s with
  | String q s' => if Ascii.eqb q squote || Ascii.eqb q dquote then lit_chars q s' "" else None
  | "" => None
  end.

(** [key: value] pairs separated by commas, then the closing brace *)
Fixpoint lit_members (fuel : nat) (s : string) (acc : pydict string string)
  : option (pydict string string * string) :=
  match fuel with
  | O => None
  | S f =>
      match skip_ws s with
      | String "}" r => Some (acc, r)
      | t =>
          match lit_str t with
          | None => None
          | Some (k, s2) =>
              match skip_ws s2 with
              | String ":" s3 =>
                  match lit_str (skip_ws s3) with
                  | None => None
                  | Some (v, r) =>
                      match skip_ws r with
                      | String "," r' => lit_members f r' (dset k v acc)
                      | String "}" r' => Some (dset k v acc, r')
                      | _ => None
                      end
                  end
              | _ => None
              end
          end
      end
  end.

(** [ast.literal_eval(s)] of a dictionary display of string literals, [None]
    for ValueError or SyntaxError *)
Definition literal_eval (s : string) : option (pydict string string) :=
  match skip_ws s with
  | String "{" r =>
      match lit_members (S (slen r)) r [] with
      | Some (d, r') => if nonempty (skip_ws r') then None else Some d
      | None => None
      end
  | _ => None
  end.

Example literal_eval_ex :
  let d := [("a", "x'y"); ("b", String lf (String bslash (s1 dquote))); ("c", "")] in
  literal_eval (py_repr d) = Some d.
Proof. vm_compute. reflexivity. Qed.

(** [str(v)] of a scalar *)
Definition py_str (v : pyval) : string :=
  match v with
  | VNone => "None"
  | VBool b => if b then "True" else "False"
  | VInt z => zs z
  | VFloat t => t
  | VStr s => s
  | _ => json_dumps v
  end.
