(* ===== verification/PyValFacts.v ===== *)
(** * Round trips of the printed dictionaries

    [ast.literal_eval(repr(d)) == d] for a dictionary of strings: what lets
    [Cli.db_hgetall] recover a redis hash from the text [sonic-db-cli] prints. *)

From S2P Require Import Prelude PyStr PyStrFacts PyVal.

#[local] Arguments String.append : simpl nomatch.

Lemma str_rev_app_app s acc t : str_rev_app (str_rev_app s acc) t = str_rev_app acc (s +:+ t).
Proof. revert acc t. induction s as [|c s IH]; intros acc t; simpl; [done | apply IH]. Qed.

(** one printed character is read back as itself *)
Lemma lit_chars_repr_char q c t acc :
  q = squote \/ q = dquote ->
  lit_chars q (repr_char q c +:+ t) acc = lit_chars q t (String c acc).
Proof.
  intros [-> | ->]; destruct c as [[] [] [] [] [] [] [] []]; reflexivity.
Qed.

Lemma lit_chars_repr q s rest acc :
  q = squote \/ q = dquote ->
  lit_chars q (repr_body q s +:+ String q rest) acc = Some (str_rev (str_rev_app s acc), rest).
Proof.
  intros Hq. revert acc. induction s as [|c s IH]; intros acc; cbn [repr_body].
  - simpl. by rewrite Ascii.eqb_refl.
  - rewrite sapp_assoc, lit_chars_repr_char by done. rewrite IH. done.
Qed.

Lemma lit_str_repr s rest : lit_str (repr_str s +:+ rest) = Some (s, rest).
Proof.
  unfold repr_str. set (q := if char_in squote s && negb (char_in dquote s) then dquote else squote).
  assert (q = squote \/ q = dquote) as Hq by (unfold q; destruct (_ && _); auto).
  simpl. replace (Ascii.eqb q squote || Ascii.eqb q dquote) with true
    by (destruct Hq as [-> | ->]; done).
  rewrite sapp_assoc. unfold s1. simpl. rewrite lit_chars_repr by done.
  unfold str_rev. rewrite str_rev_app_app. simpl. by rewrite sapp_nil_r.
Qed.

(** printed strings start with a quote, which no white space skipping drops *)
Lemma skip_ws_repr s rest : skip_ws (repr_str s +:+ rest) = repr_str s +:+ rest.
Proof. unfold repr_str, skip_ws, lstrip. by destruct (_ && _). Qed.

Definition repr_pair (kv : string * string) : string := repr_str (fst kv) +:+ ": " +:+ repr_str (snd kv).

Lemma py_repr_cons kv kv' d :
  join ", " (map repr_pair (kv :: kv' :: d)) =
  repr_str (fst kv) +:+ ": " +:+ repr_str (snd kv) +:+ ", " +:+ join ", " (map repr_pair (kv' :: d)).
Proof. cbn [map]. rewrite join_cons by done. unfold repr_pair at 1. by rewrite !sapp_assoc. Qed.

Lemma lit_members_step f k v r acc (c : ascii) :
  c = ","%char \/ c = "}"%char ->
  lit_members (S f) (repr_str k +:+ ": " +:+ repr_str v +:+ String c r) acc =
  if Ascii.eqb c ","%char then lit_members f r (dset k v acc) else Some (dset k v acc, r).
Proof.
  intros Hc. cbn [lit_members]. rewrite skip_ws_repr.
  destruct (repr_str k +:+ ": " +:+ repr_str v +:+ String c r) as [|q s] eqn:E.
  { exfalso. revert E. unfold repr_str at 1. by destruct (_ && _). }
  assert (q = squote \/ q = dquote) as Hq.
  { revert E. unfold repr_str at 1. destruct (_ && _); simpl; intros E; injection E; auto. }
  assert (lit_str (String q s) = Some (k, ": " +:+ repr_str v +:+ String c r)) as Hl.
  { rewrite <- E. apply lit_str_repr. }
  destruct Hq as [-> | ->]; unfold squote, dquote in *; cbn iota beta; rewrite Hl;
    change (skip_ws (": " +:+ ?x)) with (String ":" (String " " x)); cbn iota beta;
    change (skip_ws (String " " ?x)) with (skip_ws x); rewrite skip_ws_repr, lit_str_repr;
    destruct Hc as [-> | ->]; done.
Qed.

Lemma lit_members_repr d acc fuel r :
  d <> [] -> (length d <= fuel)%nat -> NoDup (map fst (acc ++ d)) ->
  lit_members fuel (join ", " (map repr_pair d) +:+ String "}" r) acc = Some (acc ++ d, r).
Proof.
  revert acc fuel. induction d as [|[k v] d IH]; intros acc fuel Hne Hf Hnd; [done|].
  destruct fuel as [|f]; [simpl in Hf; lia|].
  assert (dset k v acc = acc ++ [(k, v)]) as Hset.
  { apply dset_notin. rewrite map_app in Hnd. apply NoDup_app in Hnd as (_ & Hdis & _).
    intros Hin. apply (Hdis _ Hin). left. }
  destruct d as [|kv d].
  - cbn [map join]. unfold repr_pair. rewrite !sapp_assoc.
    rewrite lit_members_step by auto. simpl. by rewrite Hset.
  - rewrite py_repr_cons, !sapp_assoc. cbn [fst snd].
    change (", " +:+ ?x) with (String "," (String " " x)).
    rewrite lit_members_step by auto. cbn [Ascii.eqb Bool.eqb]. rewrite Hset.
    assert (forall n s a, lit_members n (String " " s) a = lit_members n s a) as Hsp.
    { by intros [|n] s a. }
    change (Ascii.eqb "," ",") with true. cbn iota.
    rewrite Hsp, IH; [by rewrite <- app_assoc | done | simpl in *; lia | by rewrite <- app_assoc].
Qed.

Theorem literal_eval_repr_dict d : dwf d -> literal_eval (py_repr d) = Some d.
Proof.
  intros Hd. unfold literal_eval, py_repr. change (map _ d) with (map repr_pair d).
  destruct d as [|kv d]; [done|].
  change ("{" +:+ ?x) with (String "{" x). change (skip_ws (String "{" ?x)) with (String "{" x).
  cbn iota beta.
  change (join ", " (map repr_pair (kv :: d)) +:+ "}")
    with (join ", " (map repr_pair (kv :: d)) +:+ String "}" "").
  rewrite lit_members_repr; [done | done | | done].
  assert (forall l : pydict string string, (length l <= slen (join ", " (map repr_pair l)))%nat) as Hlen.
  { induction l as [|x l IHl]; [done|]. destruct l as [|y l].
    - cbn. unfold repr_pair. rewrite !slen_app. simpl. lia.
    - rewrite py_repr_cons, !slen_app. cbn [slen length] in *. lia. }
  specialize (Hlen (kv :: d)). rewrite slen_app. lia.
Qed.
