(* ===== verification/JsonFacts.v ===== *)
(** * [json.loads(json.dumps(v)) == v]

    The two printers of the repository, with [indent=2] and in one line, are
    one printer over the white space between the items; the parser reads back
    what it prints. *)

From S2P Require Import Prelude PyStr PyStrFacts PyVal.
From Stdlib Require Import DecimalString DecimalN DecimalFacts.

#[local] Arguments String.append : simpl nomatch.

(** ** One printer *)

Section Printer.
(** the white space after a bracket (and before the closing one) and after a
    comma, by the indentation *)
Context (brk aft : nat -> string).

Fixpoint json_print (ind : nat) (v : pyval) : string :=
  match v with
  | VNone => "null"
  | VBool b => if b then "true" else "false"
  | VInt z => zs z
  | VFloat t => t
  | VStr s => json_str s
  | VList [] => "[]"
  | VList l => "[" +:+ brk (ind + 2) +:+ join ("," +:+ aft (ind + 2)) (map (json_print (ind + 2)) l) +:+ brk ind +:+ "]"
  | VDict [] => "{}"
  | VDict d =>
      "{" +:+ brk (ind + 2)
      +:+ join ("," +:+ aft (ind + 2)) (map (fun kv => json_str (fst kv) +:+ ": " +:+ json_print (ind + 2) (snd kv)) d)
      +:+ brk ind +:+ "}"
  end.
End Printer.

(** [json.dumps(v)] in one line *)
Definition json_line : pyval -> string := json_print (fun _ => "") (fun _ => " ") 0.
Lemma json_dumps_print : json_dumps_at = json_print nl nl.
Proof. reflexivity. Qed.

(** ** Numbers *)

(** the text that follows a value: nothing, white space or punctuation *)
Definition is_delim (c : ascii) : bool := is_json_ws c || char_in c ",]}".
Definition delim (rest : string) : bool := match rest with "" => true | String c _ => is_delim c end.

Lemma delim_stop p rest : delim rest = true ->
  forallb (fun n => implb (is_delim (ascii_of_nat n)) (negb (p (ascii_of_nat n)))) (List.seq 0 256) = true ->
  match rest with "" => True | String c _ => p c = false end.
Proof.
  intros Hd Hp. destruct rest as [|c r]; [done|]. cbn [delim] in Hd.
  pose proof (ascii_all (fun c => implb (is_delim c) (negb (p c))) Hp c) as Ha. cbn beta in Ha. rewrite Hd in Ha. by apply negb_true_iff in Ha.
Qed.

Lemma span_app_stop p rest : match rest with "" => True | String c _ => p c = false end ->
  forall t, span p (t +:+ rest) = (fst (span p t), snd (span p t) +:+ rest).
Proof.
  intros Hr. induction t as [|c t IH]; cbn [span String.append].
  - destruct rest as [|c r]; [done|]. simpl. by rewrite Hr.
  - destruct (p c); [|done]. rewrite IH. by destruct (span p t).
Qed.

(** matching on a literal character is a test for it *)
Lemma match_dot {A} (f : string -> A) d s :
  match s with String "." t => f t | _ => d end = match s with String c t => if Ascii.eqb c "." then f t else d | "" => d end.
Proof. by destruct s as [|[[] [] [] [] [] [] [] []] ?]. Qed.
Lemma match_minus {A} (f : string -> A) d s :
  match s with String "-" t => f t | _ => d end = match s with String c t => if Ascii.eqb c "-" then f t else d | "" => d end.
Proof. by destruct s as [|[[] [] [] [] [] [] [] []] ?]. Qed.

(** the parts of a number *)
Definition num_sign (s : string) : string * string :=
  match s with String c t => if Ascii.eqb c "-" then ("-", t) else ("", s) | "" => ("", s) end.
Definition num_frac (s2 : string) : string * string :=
  match s2 with
  | String c t => if Ascii.eqb c "." then let '(d, t') := span is_digit t in if nonempty d then ("." +:+ d, t') else ("", s2) else ("", s2)
  | "" => ("", s2)
  end.
Definition num_exp (s3 : string) : string * string :=
  match s3 with
  | String e t =>
      if char_in e "eE" then
        let '(sg, t1) := match t with String g t1 => if char_in g "+-" then (s1 g, t1) else ("", t) | "" => ("", t) end in
        let '(d, t2) := span is_digit t1 in
        if nonempty d then (String e (sg +:+ d), t2) else ("", s3)
      else ("", s3)
  | "" => ("", s3)
  end.

Lemma json_number_parts s : json_number s =
  let '(sign, s1_) := num_sign s in
  let '(ip, s2) := span is_digit s1_ in
  if negb (nonempty ip) || (starts "0" ip && (1 <? slen ip)%nat) then None
  else
    let '(frac, s3) := num_frac s2 in
    let '(ex, s4) := num_exp s3 in
    if nonempty frac || nonempty ex then Some (VFloat (sign +:+ ip +:+ frac +:+ ex), s4)
    else match uint_of ip with
         | Some n => Some (VInt (if nonempty sign then - n else n), s4)
         | None => None
         end.
Proof. unfold json_number, num_sign, num_frac, num_exp. rewrite match_minus. destruct (match s with "" => _ | _ => _ end) as [sign t].
  destruct (span is_digit t) as [ip s2]. by rewrite match_dot. Qed.

Section Stop.
Context (rest : string) (Hd : delim rest = true).

Lemma span_digits_app t : span is_digit (t +:+ rest) = (fst (span is_digit t), snd (span is_digit t) +:+ rest).
Proof. apply span_app_stop. by apply delim_stop. Qed.

Lemma num_frac_app s2 : num_frac (s2 +:+ rest) = (fst (num_frac s2), snd (num_frac s2) +:+ rest).
Proof.
  destruct s2 as [|c t]; cbn [num_frac num_exp String.append].
  - pose proof (delim_stop (fun c => Ascii.eqb c ".") rest Hd eq_refl) as Hn. destruct rest as [|c r]; [done|]. cbn [num_frac fst snd]. by rewrite Hn.
  - destruct (Ascii.eqb c "."); [|done]. rewrite span_digits_app. destruct (span is_digit t) as [d t']. cbn [fst snd]. by destruct (nonempty d).
Qed.

Lemma num_exp_app s3 : num_exp (s3 +:+ rest) = (fst (num_exp s3), snd (num_exp s3) +:+ rest).
Proof.
  destruct s3 as [|e t]; cbn [num_frac num_exp String.append].
  - pose proof (delim_stop (fun c => char_in c "eE") rest Hd eq_refl) as Hn. destruct rest as [|c r]; [done|]. cbn [num_exp]. by rewrite Hn.
  - destruct (char_in e "eE"); [|done]. destruct t as [|g t1]; cbn [num_frac num_exp String.append].
    + pose proof (delim_stop (fun c => char_in c "+-") rest Hd eq_refl) as Hn.
      pose proof (delim_stop is_digit rest Hd eq_refl) as Hg. destruct rest as [|c r]; [done|]. rewrite Hn. cbn [span]. by rewrite Hg.
    + destruct (char_in g "+-").
      * rewrite span_digits_app. destruct (span is_digit t1) as [d t']. cbn [fst snd]. by destruct (nonempty d).
      * change (String g (t1 +:+ rest)) with (String g t1 +:+ rest). rewrite span_digits_app.
        destruct (span is_digit (String g t1)) as [d t']. cbn [fst snd]. by destruct (nonempty d).
Qed.

(** a number that fills its text is read up to what follows it *)
Lemma json_number_app t v : json_number t = Some (v, "") -> json_number (t +:+ rest) = Some (v, rest).
Proof.
  rewrite !json_number_parts. destruct t as [|c t].
  { done. }
  replace (num_sign (String c t +:+ rest)) with (fst (num_sign (String c t)), snd (num_sign (String c t)) +:+ rest)
    by (simpl; by destruct (Ascii.eqb c "-")).
  destruct (num_sign (String c t)) as [sign u]. cbn [fst snd]. rewrite span_digits_app.
  destruct (span is_digit u) as [ip s2]. cbn [fst snd]. destruct (_ || _); [done|].
  rewrite num_frac_app. destruct (num_frac s2) as [frac s3]. cbn [fst snd].
  rewrite num_exp_app. destruct (num_exp s3) as [ex s4]. cbn [fst snd].
  destruct (nonempty frac || nonempty ex); [by intros [= <- ->]|]. destruct (uint_of ip); [by intros [= <- ->] | done].
Qed.
End Stop.

(** the digits of an integer have no leading zero *)
Lemma digits_no_zero n : let t := NilZero.string_of_uint (N.to_uint n) in starts "0" t && (1 <? slen t)%nat = false.
Proof.
  intros t. unfold t. destruct n as [|p]; [done|].
  assert (Decimal.unorm (N.to_uint (N.pos p)) = N.to_uint (N.pos p)) as Hu
    by (rewrite <- DecimalN.Unsigned.to_of, DecimalN.Unsigned.of_to; reflexivity).
  assert (N.to_uint (N.pos p) <> Decimal.zero) as Hz.
  { intros E. apply (f_equal N.of_uint) in E. rewrite DecimalN.Unsigned.of_to in E. done. }
  destruct (N.to_uint (N.pos p)) as [|u|u|u|u|u|u|u|u|u|u] eqn:E; try done.
  exfalso. unfold Decimal.unorm in Hu. pose proof (nzhead_nonzero (Decimal.D0 u)) as Hn.
  destruct (Decimal.nzhead (Decimal.D0 u)) eqn:En; try done; first [by apply (Hn _ eq_refl) | by rewrite <- Hu in Hz].
Qed.

Lemma json_number_zs z : json_number (zs z) = Some (VInt z, "").
Proof.
  assert (forall n sg, num_sign (sg +:+ NilZero.string_of_uint (N.to_uint n)) = (sg, NilZero.string_of_uint (N.to_uint n)) ->
    json_number (sg +:+ NilZero.string_of_uint (N.to_uint n)) = Some (VInt (if nonempty sg then - Z.of_N n else Z.of_N n), "")) as Hn.
  { intros n sg Hs. rewrite json_number_parts, Hs.
    pose proof (str_of_uint0_digits (N.to_uint n)) as Hd. unfold isdigit in Hd. apply andb_true_iff in Hd as [Hne Hd].
    rewrite (span_all _ _ Hd), Hne, digits_no_zero. cbn [negb orb num_frac num_exp nonempty]. by rewrite uint_of_to. }
  destruct (Z_lt_le_dec z 0) as [Hz|Hz].
  - destruct z as [| |p]; try lia. rewrite zs_neg. exact (Hn (N.pos p) "-" eq_refl).
  - rewrite zs_nonneg by done. pose proof (Hn (Z.to_N z) "") as H0. cbn [nonempty String.append] in H0. rewrite Z2N.id in H0 by done. apply H0.
    pose proof (str_of_uint0_digits (N.to_uint (Z.to_N z))) as Hd. unfold isdigit in Hd. apply andb_true_iff in Hd as [Hne Hd].
    destruct (NilZero.string_of_uint _) as [|c t]; [done|]. cbn [str_forall] in Hd. apply andb_true_iff in Hd as [Hc _].
    cbn [num_sign]. destruct (Ascii.eqb c "-") eqn:E; [|done]. by apply Ascii.eqb_eq in E as ->.
Qed.

(** ** Strings and white space *)

Lemma json_chars_char c t acc : json_chars (json_char c +:+ t) acc = json_chars t (String c acc).
Proof. destruct c as [[] [] [] [] [] [] [] []]; reflexivity. Qed.

Lemma json_chars_body s rest : forall acc, json_chars (json_body s +:+ String dquote rest) acc = Some (str_rev (str_rev_app s acc), rest).
Proof.
  induction s as [|c s IH]; intros acc; cbn [json_body]; [done|]. rewrite sapp_assoc, json_chars_char, IH. done.
Qed.

Lemma json_str_read s rest : json_chars (json_body s +:+ s1 dquote +:+ rest) "" = Some (s, rest).
Proof.
  unfold s1. cbn [String.append]. rewrite json_chars_body. unfold str_rev.
  assert (forall s acc t, str_rev_app (str_rev_app s acc) t = str_rev_app acc (s +:+ t)) as Hr.
  { clear. intros s. induction s as [|c s IH]; intros acc t; simpl; [done | apply IH]. }
  rewrite Hr. simpl. by rewrite sapp_nil_r.
Qed.

Definition white (w : string) : bool := str_forall is_json_ws w.
Lemma skip_white w t : white w = true -> skip_json_ws (w +:+ t) = skip_json_ws t.
Proof.
  unfold white, skip_json_ws. induction w as [|c w IH]; [done|]. cbn [str_forall]. intros [Hc Hw]%andb_true_iff.
  cbn [String.append lstrip_by]. rewrite Hc. by apply IH.
Qed.

(** the first character of a value: no white space and no closing bracket *)
Definition opens (s : string) : bool :=
  match s with String c _ => negb (is_json_ws c) && negb (char_in c "]}") | "" => false end.
Lemma skip_opens s t : opens s = true -> skip_json_ws (s +:+ t) = s +:+ t.
Proof.
  destruct s as [|c s]; [done|]. cbn [opens]. intros [Hc _]%andb_true_iff. unfold skip_json_ws. cbn [String.append].
  apply lstrip_by_id. by apply negb_true_iff in Hc.
Qed.
Lemma white_delim w c t : white w = true -> is_delim c = true -> delim (w +:+ String c t) = true.
Proof. destruct w as [|d w]; [done|]. unfold white. cbn [str_forall String.append delim]. intros [Hd _]%andb_true_iff _. unfold is_delim. by rewrite Hd. Qed.

(** ** The items of a list and of a dictionary *)

Section Items.
Context (value : string -> option (pyval * string)) (P : pyval -> string).

Definition reads (v : pyval) : Prop :=
  opens (P v) = true /\ forall rest, delim rest = true -> value (P v +:+ rest) = Some (v, rest).

Lemma elems_read w1 w2 l : white w1 = true -> white w2 = true -> Forall reads l -> l <> [] ->
  forall w0 f acc rest, white w0 = true -> (length l <= f)%nat ->
  json_elems value f (w0 +:+ join (String "," w1) (map P l) +:+ w2 +:+ String "]" rest) acc = Some (VList (rev acc ++ l), rest).
Proof.
  intros Hw1 Hw2. induction 1 as [|v l [Ho Hv] Hl IH]; [done|]. intros _ w0 f acc rest Hw0 Hf.
  destruct f as [|f]; [cbn in Hf; lia|]. cbn [json_elems]. rewrite skip_white by done. destruct l as [|v' l].
  - cbn [map join]. rewrite skip_opens, Hv by (done || by apply white_delim). rewrite skip_white by done. done.
  - change (map P (v :: v' :: l)) with (P v :: map P (v' :: l)). rewrite join_cons by done. rewrite !sapp_assoc.
    rewrite skip_opens, Hv by done. cbn [String.append]. change (skip_json_ws (String "," ?x)) with (String "," x). cbn match.
    rewrite (IH ltac:(done) w1 f (v :: acc) rest Hw1) by (cbn in Hf |- *; lia). cbn [rev]. by rewrite <- app_assoc.
Qed.

Definition member (kv : string * pyval) : string := json_str (fst kv) +:+ ": " +:+ P (snd kv).

Lemma members_step f k v t acc : reads v -> delim t = true ->
  json_members value (S f) (member (k, v) +:+ t) acc =
  match skip_json_ws t with
  | String "," r' => json_members value f r' (dset k v acc)
  | String "}" r' => Some (VDict (dset k v acc), r')
  | _ => None
  end.
Proof.
  intros [Ho Hv] Ht. unfold member. cbn [fst snd json_members]. unfold json_str at 1. rewrite !sapp_assoc.
  change (skip_json_ws (String dquote ?x +:+ ?y)) with (String dquote (x +:+ y)). cbn match. rewrite Ascii.eqb_refl. cbn [negb].
  rewrite sapp_assoc, json_str_read. cbn [String.append]. change (skip_json_ws (String ":" ?x)) with (String ":" x). cbn match.
  change (skip_json_ws (String " " ?x)) with (skip_json_ws x). rewrite skip_opens, Hv by done. done.
Qed.

Lemma members_read w1 w2 d : white w1 = true -> white w2 = true -> Forall (fun kv => reads (snd kv)) d -> d <> [] ->
  forall w0 f acc rest, white w0 = true -> (length d <= f)%nat -> NoDup (map fst (acc ++ d)) ->
  json_members value f (w0 +:+ join (String "," w1) (map member d) +:+ w2 +:+ String "}" rest) acc = Some (VDict (acc ++ d), rest).
Proof.
  intros Hw1 Hw2. induction 1 as [|[k v] d Hv Hd IH]; [done|]. intros _ w0 f acc rest Hw0 Hf Hnd. cbn [snd] in Hv.
  destruct f as [|f]; [cbn in Hf; lia|].
  assert (dset k v acc = acc ++ [(k, v)]) as Hset.
  { apply dset_notin. rewrite map_app in Hnd. apply NoDup_app in Hnd as (_ & Hdis & _). intros Hin. apply (Hdis _ Hin). left. }
  assert (forall s a, json_members value (S f) (w0 +:+ s) a = json_members value (S f) s a) as Hsk.
  { intros s a. cbn [json_members]. by rewrite skip_white. }
  rewrite Hsk. destruct d as [|kv d].
  - cbn [map join]. rewrite members_step by (done || by apply white_delim). rewrite skip_white by done. cbn. by rewrite Hset.
  - change (map member ((k, v) :: kv :: d)) with (member (k, v) :: map member (kv :: d)). rewrite join_cons by done. rewrite !sapp_assoc.
    rewrite members_step by done. cbn [String.append]. change (skip_json_ws (String "," ?x)) with (String "," x). cbn match.
    rewrite Hset. rewrite (IH ltac:(done) w1 f (acc ++ [(k, v)]) rest Hw1); [by rewrite <- app_assoc | cbn in Hf |- *; lia | by rewrite <- app_assoc].
Qed.
End Items.

(** ** Values *)

(** the text of a float is a literal of its own *)
Definition float_text (t : string) : bool :=
  match json_number t with Some (VFloat u, "") => String.eqb u t | _ => false end.
(** values as Python has them: the keys of a dictionary are distinct *)
Fixpoint json_ok (v : pyval) : bool :=
  match v with
  | VFloat t => float_text t
  | VList l => forallb json_ok l
  | VDict d => bool_decide (NoDup (map fst d)) && forallb (fun kv => json_ok (snd kv)) d
  | _ => true
  end.
Fixpoint depth (v : pyval) : nat :=
  match v with
  | VList l => S (list_max (map depth l))
  | VDict d => S (list_max (map (fun kv => depth (snd kv)) d))
  | _ => 0
  end.

Lemma max_under {A} (f : A -> nat) l n : (list_max (map f l) < n)%nat -> Forall (fun x => (f x < n)%nat) l.
Proof.
  induction l as [|x l IH]; [constructor|]. change (list_max (map f (x :: l))) with (Nat.max (f x) (list_max (map f l))).
  intros Hn. constructor; [lia|]. apply IH. lia.
Qed.

(** numbers are told from the other values by their first character *)
Definition num_head (c : ascii) : bool := is_digit c || Ascii.eqb c "-".
Lemma num_dispatch f c s : num_head c = true -> json_value (S f) (String c s) = json_number (String c s).
Proof. destruct c as [[] [] [] [] [] [] [] []]; try discriminate; reflexivity. Qed.
Lemma number_head s v r : json_number s = Some (v, r) -> exists c t, s = String c t /\ num_head c = true.
Proof.
  rewrite json_number_parts. destruct s as [|c t]; [done|]. intros E. exists c, t. split; [done|]. unfold num_head.
  revert E. cbn [num_sign]. destruct (Ascii.eqb c "-") eqn:Ec; [intros _; apply orb_true_r|].
  cbn [span]. destruct (is_digit c); [done|]. done.
Qed.
Lemma number_reads f P v s : P v = s -> json_number s = Some (v, "") -> reads (json_value (S f)) P v.
Proof.
  intros HP Hn. destruct (number_head _ _ _ Hn) as (c & t & Hs & Hc). split; rewrite HP.
  - rewrite Hs. cbn [opens]. revert c Hc Hs. intros c Hc _. revert Hc.
    assert (forall c, implb (num_head c) (negb (is_json_ws c) && negb (char_in c "]}")) = true) as Ha by by apply ascii_all.
    intros Hc. specialize (Ha c). rewrite Hc in Ha. exact Ha.
  - intros rest Hd. pose proof (json_number_app rest Hd s v Hn) as Ha. rewrite Hs in *. cbn [String.append] in *. by rewrite num_dispatch.
Qed.

Section Reading.
Context (brk aft : nat -> string) (Hbrk : forall n, white (brk n) = true) (Haft : forall n, white (aft n) = true).

Lemma not_bracket {A} s t (f : string -> A) d c : opens s = true -> char_in c "]}" = true ->
  match skip_json_ws (s +:+ t) with String x r => if Ascii.eqb x c then f r else d | "" => d end = d.
Proof.
  intros Ho Hc. rewrite skip_opens by done. destruct s as [|x s]; [done|]. cbn [opens] in Ho. apply andb_true_iff in Ho as [_ Ho].
  cbn [String.append]. destruct (Ascii.eqb x c) eqn:E; [|done]. apply Ascii.eqb_eq in E as ->. by rewrite Hc in Ho.
Qed.
Lemma match_square {A} (f : string -> A) d s :
  match s with String "]" t => f t | _ => d end = match s with String c t => if Ascii.eqb c "]" then f t else d | "" => d end.
Proof. by destruct s as [|[[] [] [] [] [] [] [] []] ?]. Qed.
Lemma match_brace {A} (f : string -> A) d s :
  match s with String "}" t => f t | _ => d end = match s with String c t => if Ascii.eqb c "}" then f t else d | "" => d end.
Proof. by destruct s as [|[[] [] [] [] [] [] [] []] ?]. Qed.

Lemma items_long {A} (P : A -> string) w l : (forall x, x ∈ l -> (1 <= slen (P x))%nat) -> (length l <= slen (join w (map P l)))%nat.
Proof.
  induction l as [|x l IH]; intros Hp; [cbn; lia|]. pose proof (Hp x ltac:(left)) as Hx.
  destruct l as [|y l]; [cbn [map join length]; lia|]. change (map P (x :: y :: l)) with (P x :: map P (y :: l)).
  rewrite join_cons by done. rewrite !slen_app. specialize (IH ltac:(intros z Hz; apply Hp; by right)). cbn [length] in *. lia.
Qed.
Lemma opens_long s : opens s = true -> (1 <= slen s)%nat.
Proof. destruct s; cbn; [done | lia]. Qed.

Lemma json_value_list f X : json_value (S f) (String "[" X) =
  match skip_json_ws X with String "]" r' => Some (VList [], r') | _ => json_elems (json_value f) (slen X) X [] end.
Proof. reflexivity. Qed.
Lemma json_value_dict f X : json_value (S f) (String "{" X) =
  match skip_json_ws X with String "}" r' => Some (VDict [], r') | _ => json_members (json_value f) (slen X) X [] end.
Proof. reflexivity. Qed.

Lemma list_reads f P v l n rest : Forall (reads (json_value f) P) (v :: l) ->
  json_value (S f) (String "[" (brk (n + 2)%nat +:+ join (String "," (aft (n + 2)%nat)) (map P (v :: l)) +:+ brk n +:+ String "]" rest)) = Some (VList (v :: l), rest).
Proof.
  intros Hr. rewrite json_value_list, match_square, skip_white by done.
  assert (opens (P v) = true) as Ho by (apply Forall_inv in Hr; apply Hr).
  assert (forall w t, exists u, join w (map P (v :: l)) +:+ t = P v +:+ u) as Hj.
  { intros w t. destruct l as [|y l]; [by exists t|]. change (map P (v :: y :: l)) with (P v :: map P (y :: l)).
    rewrite join_cons by done. rewrite !sapp_assoc. by eexists. }
  destruct (Hj (String "," (aft (n + 2)%nat)) (brk n +:+ String "]" rest)) as [u Hu]. rewrite Hu at 1. rewrite not_bracket by done.
  rewrite (elems_read (json_value f) P (aft (n + 2)%nat) (brk n) (v :: l)); [done.. | ].
  rewrite !slen_app. pose proof (items_long P (String "," (aft (n + 2)%nat)) (v :: l)) as Hl.
  enough (length (v :: l) <= slen (join (String "," (aft (n + 2)%nat)) (map P (v :: l))))%nat by lia. apply Hl.
  intros x Hx. apply opens_long. rewrite Forall_forall in Hr. by apply Hr.
Qed.

Lemma member_opens P kv : opens (member P kv) = true.
Proof. done. Qed.
Lemma dict_reads f P kv d n rest : Forall (fun kv => reads (json_value f) P (snd kv)) (kv :: d) -> NoDup (map fst (kv :: d)) ->
  json_value (S f) (String "{" (brk (n + 2)%nat +:+ join (String "," (aft (n + 2)%nat)) (map (member P) (kv :: d)) +:+ brk n +:+ String "}" rest)) = Some (VDict (kv :: d), rest).
Proof.
  intros Hr Hnd. rewrite json_value_dict, match_brace, skip_white by done.
  assert (forall w t, exists u, join w (map (member P) (kv :: d)) +:+ t = member P kv +:+ u) as Hj.
  { intros w t. destruct d as [|y d]; [by exists t|]. change (map (member P) (kv :: y :: d)) with (member P kv :: map (member P) (y :: d)).
    rewrite join_cons by done. rewrite !sapp_assoc. by eexists. }
  destruct (Hj (String "," (aft (n + 2)%nat)) (brk n +:+ String "}" rest)) as [u Hu]. rewrite Hu at 1. rewrite not_bracket by done.
  rewrite (members_read (json_value f) P (aft (n + 2)%nat) (brk n) (kv :: d)); [done.. | | done].
  rewrite !slen_app. pose proof (items_long (member P) (String "," (aft (n + 2)%nat)) (kv :: d)) as Hl.
  enough (length (kv :: d) <= slen (join (String "," (aft (n + 2)%nat)) (map (member P) (kv :: d))))%nat by lia. apply Hl.
  intros x _. by apply opens_long.
Qed.

(** a value is read back, whatever follows it *)
Lemma json_value_reads v : json_ok v = true -> forall n f, (depth v < f)%nat -> reads (json_value f) (json_print brk aft n) v.
Proof.
  induction v as [| b | z | t | s | l IH | d IH] using pyval_ind'; intros Hok n f Hf; (destruct f as [|f]; [lia|]).
  - by split.
  - by destruct b.
  - apply (number_reads f _ _ (zs z)); [done | apply json_number_zs].
  - apply (number_reads f _ _ t); [done|]. cbn [json_ok] in Hok. unfold float_text in Hok.
    destruct (json_number t) as [[[ |? |? |u |? |? |? ] r] | ]; try done. destruct r; [|done]. by apply String.eqb_eq in Hok as ->.
  - split; [done|]. intros rest _. change (json_print brk aft n (VStr s)) with (String dquote (json_body s +:+ s1 dquote)).
    cbn [String.append json_value]. rewrite Ascii.eqb_refl, sapp_assoc, json_str_read. done.
  - destruct l as [|v l]; [by split|]. split; [done|]. intros rest _.
    set (Q := json_print brk aft (n + 2)).
    assert (Forall (reads (json_value f) Q) (v :: l)) as Hr.
    { rewrite Forall_forall in IH |- *. intros x Hx. apply IH; [done| |].
      - cbn [json_ok] in Hok. rewrite forallb_forall in Hok. apply Hok. by apply list_elem_of_In.
      - cbn [depth] in Hf. pose proof (max_under depth (v :: l) f ltac:(lia)) as Hm. rewrite Forall_forall in Hm. by apply Hm. }
    rewrite <- (list_reads f Q v l n rest Hr). f_equal.
    change (json_print brk aft n (VList (v :: l))) with
      (String "[" (brk (n + 2)%nat +:+ join (String "," (aft (n + 2)%nat)) (map Q (v :: l)) +:+ brk n +:+ "]")).
    cbn [String.append]. by rewrite !sapp_assoc.
  - destruct d as [|kv d]; [by split|]. split; [done|]. intros rest _.
    set (Q := json_print brk aft (n + 2)). cbn [json_ok] in Hok. apply andb_true_iff in Hok as [Hnd Hok].
    apply bool_decide_eq_true in Hnd.
    assert (Forall (fun kv => reads (json_value f) Q (snd kv)) (kv :: d)) as Hr.
    { rewrite Forall_forall in IH |- *. intros x Hx. apply IH; [done| |].
      - rewrite forallb_forall in Hok. apply Hok. by apply list_elem_of_In.
      - cbn [depth] in Hf. pose proof (max_under (fun kv => depth (snd kv)) (kv :: d) f ltac:(lia)) as Hm. rewrite Forall_forall in Hm. by apply Hm. }
    rewrite <- (dict_reads f Q kv d n rest Hr Hnd). f_equal.
    change (json_print brk aft n (VDict (kv :: d))) with
      (String "{" (brk (n + 2)%nat +:+ join (String "," (aft (n + 2)%nat)) (map (member Q) (kv :: d)) +:+ brk n +:+ "}")).
    cbn [String.append]. by rewrite !sapp_assoc.
Qed.

(** nested values nest their texts *)
Lemma item_in {A} (P : A -> string) w l x : x ∈ l -> (slen (P x) <= slen (join w (map P l)))%nat.
Proof.
  induction l as [|y l IH]; [by intros ?%not_elem_of_nil|]. intros Hx.
  destruct l as [|z l]; [apply list_elem_of_singleton in Hx as ->; cbn [map join]; lia|].
  change (map P (y :: z :: l)) with (P y :: map P (z :: l)). rewrite join_cons by done. rewrite !slen_app.
  apply elem_of_cons in Hx as [->|Hx]; [lia|]. specialize (IH Hx). lia.
Qed.
Lemma depth_items {A} (g : A -> nat) (P : A -> string) w l : Forall (fun x => (g x < slen (P x))%nat) l ->
  (list_max (map g l) <= slen (join w (map P l)))%nat.
Proof.
  intros Hl. apply list_max_le, Forall_forall. intros k Hk. apply list_elem_of_fmap in Hk as (x & -> & Hx).
  rewrite Forall_forall in Hl. specialize (Hl x Hx). pose proof (item_in P w l x Hx). lia.
Qed.
Lemma depth_under v : forall n, json_ok v = true -> (depth v < slen (json_print brk aft n v))%nat.
Proof.
  induction v as [| b | z | t | s | l IH | d IH] using pyval_ind'; intros n Hok;
    try (apply opens_long; by apply (json_value_reads _ Hok n 1%nat ltac:(cbn; lia))).
  - destruct l as [|v l]; [cbn; lia|]. set (Q := json_print brk aft (n + 2)).
    change (json_print brk aft n (VList (v :: l))) with
      (String "[" (brk (n + 2)%nat +:+ join (String "," (aft (n + 2)%nat)) (map Q (v :: l)) +:+ brk n +:+ "]")).
    cbn [slen]. rewrite !slen_app. cbn [depth slen].
    enough (list_max (map depth (v :: l)) <= slen (join (String "," (aft (n + 2)%nat)) (map Q (v :: l))))%nat by (cbn [map] in *; lia).
    apply depth_items. rewrite Forall_forall in IH |- *. intros x Hx. apply IH; [done|].
    cbn [json_ok] in Hok. rewrite forallb_forall in Hok. apply Hok. by apply list_elem_of_In.
  - destruct d as [|kv d]; [cbn; lia|]. set (Q := json_print brk aft (n + 2)).
    change (json_print brk aft n (VDict (kv :: d))) with
      (String "{" (brk (n + 2)%nat +:+ join (String "," (aft (n + 2)%nat)) (map (member Q) (kv :: d)) +:+ brk n +:+ "}")).
    cbn [slen]. rewrite !slen_app. cbn [depth slen].
    enough (list_max (map (fun kv => depth (snd kv)) (kv :: d)) <= slen (join (String "," (aft (n + 2)%nat)) (map (member Q) (kv :: d))))%nat by (cbn [map] in *; lia).
    apply depth_items. cbn [json_ok] in Hok. apply andb_true_iff in Hok as [_ Hok].
    rewrite Forall_forall in IH |- *. intros x Hx. unfold member. rewrite !slen_app.
    specialize (IH x Hx (n + 2)%nat). fold Q in IH. enough (depth (snd x) < slen (Q (snd x)))%nat by lia. apply IH.
    rewrite forallb_forall in Hok. apply Hok. by apply list_elem_of_In.
Qed.

Theorem json_roundtrip v n : json_ok v = true -> json_loads (json_print brk aft n v) = Some v.
Proof.
  intros Hok. pose proof (depth_under v n Hok) as Hd.
  destruct (json_value_reads v Hok n (S (slen (json_print brk aft n v))) ltac:(lia)) as [Ho Hr]. unfold json_loads.
  pose proof (skip_opens _ "" Ho) as Hs. rewrite sapp_nil_r in Hs. rewrite Hs.
  specialize (Hr "" eq_refl). rewrite sapp_nil_r in Hr. by rewrite Hr.
Qed.
End Reading.

Lemma nl_white n : white (nl n) = true.
Proof. unfold white, nl, spaces. cbn [str_forall]. induction n as [|n IH]; [done|]. cbn [Nat.iter str_forall] in *. done. Qed.

(** both printers of the repository *)
Corollary json_dumps_roundtrip v : json_ok v = true -> json_loads (json_dumps v) = Some v.
Proof. unfold json_dumps. rewrite json_dumps_print. apply json_roundtrip; intros; apply nl_white. Qed.
Corollary json_line_roundtrip v : json_ok v = true -> json_loads (json_line v) = Some v.
Proof. by apply json_roundtrip. Qed.

Example json_line_ex :
  let v := VDict [("status", VStr "OK"); ("data", VDict [("PSU1", VDict [("Voltage", VFloat "12.1"); ("Alarms", VList [])])])] in
  json_line v = String.concat (s1 dquote) ["{"; "status"; ": "; "OK"; ", "; "data"; ": {"; "PSU1"; ": {"; "Voltage"; ": 12.1, "; "Alarms"; ": []}}}"]
  /\ json_loads (json_line v) = Some v.
Proof. vm_compute. done. Qed.

(** a value without floats is printed on one line *)
Definition not_newline (c : ascii) : bool := negb (Ascii.eqb c lf) && negb (Ascii.eqb c cr).
Fixpoint no_floats (v : pyval) : bool :=
  match v with
  | VFloat _ => false
  | VList l => forallb no_floats l
  | VDict d => forallb (fun kv => no_floats (snd kv)) d
  | _ => true
  end.
Lemma str_forall_join_all p sep l : str_forall p sep = true -> Forall (fun s => str_forall p s = true) l -> str_forall p (join sep l) = true.
Proof.
  intros Hs. induction 1 as [|x l Hx Hl IH]; [done|]. destruct l as [|y l]; [done|]. rewrite join_cons by done.
  by rewrite !str_forall_app, Hx, Hs, IH.
Qed.
Lemma json_str_newline s : str_forall not_newline (json_str s) = true.
Proof.
  unfold json_str. change (String dquote ?x) with (s1 dquote +:+ x). rewrite !str_forall_app, andb_true_l, andb_true_r.
  induction s as [|c s IH]; [done|]. cbn [json_body]. rewrite str_forall_app, IH, andb_true_r. revert c. by apply ascii_all.
Qed.
Lemma json_line_newline v : no_floats v = true -> forall n, str_forall not_newline (json_print (fun _ => "") (fun _ => " ") n v) = true.
Proof.
  induction v as [| b | z | t | s | l IH | d IH] using pyval_ind'; intros Hv n; try done.
  - by destruct b.
  - cbn [json_print]. eapply str_forall_impl; [|apply zs_nospace]. intros c Hc.
    assert (forall c, implb (is_nospace c) (not_newline c) = true) as Ha by by apply ascii_all. specialize (Ha c). by rewrite Hc in Ha.
  - apply json_str_newline.
  - destruct l as [|v l]; [done|]. set (Q := json_print (fun _ => "") (fun _ => " ") (n + 2)).
    change (str_forall not_newline ("[" +:+ join ", " (map Q (v :: l)) +:+ "]") = true).
    rewrite !str_forall_app. apply andb_true_iff. split; [done|]. rewrite andb_true_r.
    apply str_forall_join_all; [done|]. apply Forall_forall. intros x (y & -> & Hy)%list_elem_of_fmap.
    rewrite Forall_forall in IH. apply IH; [done|]. cbn [no_floats] in Hv. rewrite forallb_forall in Hv. apply Hv. by apply list_elem_of_In.
  - destruct d as [|kv d]; [done|]. set (Q := json_print (fun _ => "") (fun _ => " ") (n + 2)).
    change (str_forall not_newline ("{" +:+ join ", " (map (member Q) (kv :: d)) +:+ "}") = true).
    rewrite !str_forall_app. apply andb_true_iff. split; [done|]. rewrite andb_true_r.
    apply str_forall_join_all; [done|]. apply Forall_forall. intros x (y & -> & Hy)%list_elem_of_fmap.
    unfold member. rewrite !str_forall_app, json_str_newline. cbn [andb].
    rewrite Forall_forall in IH. specialize (IH y Hy). unfold Q. rewrite IH; [done|].
    cbn [no_floats] in Hv. rewrite forallb_forall in Hv. apply Hv. by apply list_elem_of_In.
Qed.
