(* ===== verification/Worker.v ===== *)
(** * Worker identity (framework/worker.py)

    [FVT_WORKER] numbers the parallel pytest processes; the resolution layer
    offsets VLAN ids, addresses and AS numbers by it.  The environment is a
    parameter ([WorkerEnv]).  [remap_ip4] and [remap_cidr] can raise: the
    second octet is converted with [int]. *)

From S2P Require Import Prelude PyStr PyStrFacts Device PyVal.

(** [os.environ.get("FVT_WORKER")] *)
Class WorkerEnv := { fvt_worker : option string }.

Section Worker.
Context `{WorkerEnv}.

Definition wid : Z :=
  match py_int (default "0" fvt_worker) with Some n => n | None => 0 end.

Definition is_parallel : bool := 0 <? wid.

Definition suffix : string := if 2 <=? wid then "-w" +:+ zs wid else "".

Definition remap_vid (v : Z) : Z :=
  let w := wid in
  if w <=? 1 then v
  else if 3900 <=? v then v - 10 * (w - 1)
  else v + 430 * (w - 1).

Definition remap_default_vlan (dv : Z) : Z :=
  if wid <=? 1 then dv else dv + 430 * (wid - 1).

(** addresses may be [None]; a falsy one is returned unchanged *)
Definition remap_ip4 (ip : option string) : outcome (option string) :=
  match ip with
  | None => Val None
  | Some s =>
      if (wid <=? 1) || negb (nonempty s) || contains ":" s then Val ip
      else
        match split_on "."%char s with
        | [p0; p1; p2; p3] =>
            if negb (String.eqb p0 "10") then Val ip
            else
              match py_int p1 with
              | None => Exc (ValueError p1)
              | Some n =>
                  let o2 := n + 100 * (wid - 1) in
                  let o2 := if 255 <? o2 then n - 100 * (wid - 1) else o2 in
                  Val (Some (join "." [p0; zs o2; p2; p3]))
              end
        | _ => Val ip
        end
  end.

Definition remap_ip6 (ip : option string) : option string :=
  match ip with
  | None => None
  | Some s =>
      if (wid <=? 1) || negb (nonempty s) || negb (contains ":" s) then ip
      else if negb (starts "2001:db8:" (lower s)) then ip
      else
        match split_on ":"%char s with
        | p0 :: p1 :: p2 :: rest =>
            if negb (nonempty p2) then ip
            else
              match py_int16 p2 with
              | None => ip
              | Some n => Some (join ":" (p0 :: p1 :: hexz (n + 256 * (wid - 1)) :: rest))
              end
        | _ => ip
        end
  end.

Definition remap_ip (addr : string) : outcome (option string) :=
  if contains ":" addr then Val (remap_ip6 (Some addr)) else remap_ip4 (Some addr).

Definition remap_cidr (cidr : option string) : outcome (option string) :=
  match cidr with
  | None => Val None
  | Some s =>
      if (wid <=? 1) || negb (nonempty s) then Val cidr
      else
        match rcut "/"%char s with
        | Some (addr, plen) =>
            match remap_ip addr with
            | Val a => Val (Some (or_empty a +:+ "/" +:+ plen))
            | Exc e => Exc e
            | Hang => Hang
            end
        | None => remap_ip s
        end
  end.

(** [int(asn)] of an integer, a boolean or a string *)
Definition vint (v : pyval) : option Z :=
  match v with
  | VInt z => Some z
  | VBool b => Some (if b then 1 else 0)
  | VStr s => py_int s
  | _ => None
  end.

Definition remap_asn (asn : pyval) : pyval :=
  if 2 <=? wid then
    match vint asn with Some n => VInt (n + 10 * (wid - 1)) | None => asn end
  else asn.
End Worker.

(** ** Facts *)

(** The VLAN ids the profiles use: hairpin, roles, mcast, erspan, default,
    test, l2fwd, coppl3 and the four isolation ids. *)
Definition profile_vids : list Z :=
  [110; 120; 320; 321; 322; 323; 324; 325; 360; 361; 1000; 2000; 2510; 3960; 3990; 3991; 3992; 3993].

(** the ids the docstring of [remap_vid] lists as worker 1's occupied set *)
Definition audited_vids : list Z :=
  [110; 120; 320; 321; 322; 323; 324; 325; 360; 361; 1000; 2000; 3990; 3991; 3992; 3993].

Definition env_of (w : Z) : WorkerEnv := {| fvt_worker := Some (zs w) |}.

Lemma wid_env_of w : @wid (env_of w) = w.
Proof. unfold wid, env_of. simpl. by rewrite py_int_zs. Qed.

Section WorkerFacts.
Context `{WorkerEnv}.

Lemma serial_identity (v : Z) (s : option string) :
  wid <= 1 ->
  remap_vid v = v /\ remap_default_vlan v = v /\ remap_ip4 s = Val s /\ remap_ip6 s = s
  /\ remap_cidr s = Val s /\ remap_asn (VInt v) = VInt v /\ suffix = "".
Proof.
  intros Hw. unfold remap_vid, remap_default_vlan, remap_ip4, remap_ip6, remap_cidr, remap_asn, suffix.
  rewrite (proj2 (Z.leb_le wid 1)) by done. rewrite (proj2 (Z.leb_gt 2 wid)) by lia.
  by destruct s.
Qed.

Lemma wid_le_false : 2 <= wid -> (wid <=? 1) = false.
Proof. intros. apply Z.leb_gt. lia. Qed.

(** the second octet of a test-owned address *)
Definition shift_octet (w o : Z) : Z :=
  if 255 <? o + 100 * (w - 1) then o - 100 * (w - 1) else o + 100 * (w - 1).

Definition dotted (a b c d : string) : string := join "." [a; b; c; d].

Definition octet_ok (s : string) : bool :=
  nonempty s && str_forall (not_char "."%char) s && str_forall (not_char ":"%char) s
  && str_forall (not_char "/"%char) s.

Lemma octet_zs n : 0 <= n -> octet_ok (zs n) = true.
Proof.
  intros Hn. pose proof (zs_isdigit n Hn) as Hd. unfold isdigit in Hd.
  apply andb_true_iff in Hd as [Hne Hd]. unfold octet_ok. rewrite Hne.
  by rewrite !digits_no_char.
Qed.

Lemma contains_char_none (c : ascii) s :
  str_forall (not_char c) s = true -> contains (s1 c) s = false.
Proof.
  unfold not_char, s1. induction s as [|d s IH]; [done|]. cbn [str_forall contains starts].
  rewrite andb_true_iff, negb_true_iff. intros [Hd Hs]. rewrite IH by done.
  rewrite Ascii.eqb_sym, Hd. done.
Qed.

Lemma dotted_no_colon a b c d :
  octet_ok a = true -> octet_ok b = true -> octet_ok c = true -> octet_ok d = true ->
  str_forall (not_char ":"%char) (dotted a b c d) = true
  /\ str_forall (not_char "/"%char) (dotted a b c d) = true
  /\ split_on "."%char (dotted a b c d) = [a; b; c; d].
Proof.
  unfold octet_ok, dotted. intros Ha Hb Hc Hd. break_hyps. break_hyps.
  repeat match goal with H : _ && _ = true |- _ => apply andb_true_iff in H; destruct H end.
  cbn [join]. rewrite !str_forall_app. repeat split.
  - repeat (apply andb_true_iff; split); done.
  - repeat (apply andb_true_iff; split); done.
  - change (split_on "."%char (join (s1 "."%char) [a; b; c; d]) = [a; b; c; d]).
    apply split_on_join; [done|]. repeat (constructor; [done|]). constructor.
Qed.

Lemma remap_ip4_dotted o c d :
  2 <= wid -> 0 <= o -> octet_ok c = true -> octet_ok d = true ->
  remap_ip4 (Some (dotted "10" (zs o) c d)) =
  Val (Some (dotted "10" (zs (shift_octet wid o)) c d)).
Proof.
  intros Hw Ho Hc Hd.
  destruct (dotted_no_colon "10" (zs o) c d ltac:(done) (octet_zs o Ho) Hc Hd) as (Hcol & _ & Hsp).
  unfold remap_ip4. rewrite wid_le_false by done.
  rewrite (contains_char_none ":"%char) by done. rewrite Hsp. simpl orb.
  replace (nonempty (dotted "10" (zs o) c d)) with true by done. simpl.
  rewrite py_int_zs. unfold shift_octet. reflexivity.
Qed.

Lemma remap_cidr_v4 o c d plen :
  2 <= wid -> 0 <= o -> octet_ok c = true -> octet_ok d = true ->
  str_forall (not_char "/"%char) plen = true ->
  remap_cidr (Some (dotted "10" (zs o) c d +:+ "/" +:+ plen)) =
  Val (Some (dotted "10" (zs (shift_octet wid o)) c d +:+ "/" +:+ plen)).
Proof.
  intros Hw Ho Hc Hd Hp.
  destruct (dotted_no_colon "10" (zs o) c d ltac:(done) (octet_zs o Ho) Hc Hd) as (Hcol & _ & _).
  unfold remap_cidr. rewrite wid_le_false by done.
  change ("/" +:+ plen) with (String "/" plen). rewrite rcut_app by done.
  unfold remap_ip. rewrite (contains_char_none ":"%char) by done.
  rewrite remap_ip4_dotted by done. done.
Qed.

Lemma remap_ip6_hextet n rest :
  2 <= wid -> 0 <= n ->
  remap_ip6 (Some ("2001:db8:" +:+ hex n +:+ ":" +:+ rest)) =
  Some ("2001:db8:" +:+ hex (n + 256 * (wid - 1)) +:+ ":" +:+ rest).
Proof.
  intros Hw Hn. pose proof (hex_digits n) as Hd.
  set (s := "2001:db8:" +:+ hex n +:+ ":" +:+ rest).
  assert (split_on ":"%char s = "2001" :: "db8" :: hex n :: split_on ":"%char rest) as Hsp.
  { unfold s. change (":" +:+ rest) with (String ":" rest).
    change ("2001:db8:" +:+ hex n +:+ String ":" rest)
      with ("2001" +:+ String ":" ("db8" +:+ String ":" (hex n +:+ String ":" rest))).
    rewrite !split_on_app; [done | by apply hexdig_no | done | done]. }
  unfold remap_ip6. rewrite wid_le_false by done.
  replace (nonempty s) with true by done.
  replace (contains ":" s) with true by done.
  replace (starts "2001:db8:" (lower s)) with true by done. cbn [orb negb].
  rewrite Hsp, hex_nonempty. cbn [negb]. rewrite py_int16_hex by done.
  unfold hexz. rewrite (proj2 (Z.ltb_ge _ 0)) by lia. do 2 f_equal.
  rewrite !join_cons by (done || apply split_on_nonnil).
  change (join ":" (split_on ":"%char rest)) with (join (s1 ":"%char) (split_on ":"%char rest)).
  by rewrite join_split_on.
Qed.
End WorkerFacts.

(** ** Properties *)

(** C38: the VLAN ids of two parallel workers never collide.  For workers 1 to
    3, whatever two ids of the profiles they use, the offset ids differ, and
    every offset id is a legal VLAN id. *)
Theorem worker_vids_disjoint (w1 w2 v1 v2 : Z) :
  1 <= w1 <= 3 -> 1 <= w2 <= 3 -> w1 <> w2 -> v1 ∈ profile_vids -> v2 ∈ profile_vids ->
  @remap_vid (env_of w1) v1 <> @remap_vid (env_of w2) v2
  /\ 1 <= @remap_vid (env_of w1) v1 <= 4094.
Proof.
  intros H1 H2 Hne Hv1 Hv2.
  set (ok a b := forallb (fun u => let x := @remap_vid (env_of a) u in
         (1 <=? x) && (x <=? 4094) &&
         forallb (fun v => negb (x =? @remap_vid (env_of b) v)) profile_vids) profile_vids).
  assert (ok w1 w2 = true) as Hok.
  { assert (w1 = 1 \/ w1 = 2 \/ w1 = 3) as D1 by lia. assert (w2 = 1 \/ w2 = 2 \/ w2 = 3) as D2 by lia.
    destruct D1 as [->|[->| ->]], D2 as [->|[->| ->]]; (congruence || by vm_compute). }
  apply (proj1 (forallb_true_iff _ _)) with (x := v1) in Hok; [|done]. cbv zeta in Hok.
  apply andb_true_iff in Hok as [Hr Hd]. apply andb_true_iff in Hr as [Hlo Hhi].
  apply (proj1 (forallb_true_iff _ _)) with (x := v2) in Hd; [|done].
  apply negb_true_iff in Hd. bool_prop. done.
Qed.

Lemma worker_vids_disjoint_witness :
  @remap_vid (env_of 1) 2000 <> @remap_vid (env_of 2) 2510
  /\ 1 <= @remap_vid (env_of 1) 2000 <= 4094.
Proof.
  apply worker_vids_disjoint; [lia | lia | lia | |]; apply (bool_decide_unpack _); vm_compute; exact I.
Defined.

(** The offsets do not stay disjoint and legal for every "w2+" worker the
    module documents: worker 4's first isolation VLAN is the VLAN worker 1 uses
    for coppl3, and worker 6's test VLAN is no VLAN id. *)
Theorem worker_vids_limit :
  @remap_vid (env_of 4) 3990 = @remap_vid (env_of 1) 3960
  /\ 4094 < @remap_vid (env_of 6) 2000.
Proof. unfold remap_vid. rewrite !wid_env_of. simpl. lia. Qed.

(** For worker 2, [remap_cidr] moves a test-owned IPv4 prefix by exactly
    its second octet: the other octets and the prefix length are kept, the new
    octet is an octet, and it differs from the old one. *)
Theorem remap_cidr_worker2 (o : Z) (c d plen : string) :
  0 <= o <= 255 -> octet_ok c = true -> octet_ok d = true ->
  str_forall (not_char "/"%char) plen = true ->
  exists o', @remap_cidr (env_of 2) (Some (dotted "10" (zs o) c d +:+ "/" +:+ plen))
      = Val (Some (dotted "10" (zs o') c d +:+ "/" +:+ plen))
    /\ 0 <= o' <= 255 /\ (o' = o + 100 \/ o' = o - 100).
Proof.
  intros Ho Hc Hd Hp. exists (shift_octet 2 o).
  rewrite remap_cidr_v4 by (rewrite ?wid_env_of; (done || lia)). rewrite wid_env_of.
  split; [done|]. unfold shift_octet. case_match; bool_prop; lia.
Qed.

Lemma remap_cidr_worker2_witness :
  exists o', @remap_cidr (env_of 2) (Some (dotted "10" (zs 80) "1" "1" +:+ "/" +:+ "24"))
      = Val (Some (dotted "10" (zs o') "1" "1" +:+ "/" +:+ "24"))
    /\ 0 <= o' <= 255 /\ (o' = 80 + 100 \/ o' = 80 - 100).
Proof. apply remap_cidr_worker2; [lia | reflexivity | reflexivity | reflexivity]. Defined.

(** Worker 3's IPv4 offset leaves the octet range: the overflow branch
    subtracts 200 from the profile's 10.80 and 10.99 subnets. *)
Theorem remap_ip4_worker3_negative :
  @remap_ip4 (env_of 3) (Some "10.80.1.1") = Val (Some "10.-120.1.1").
Proof. vm_compute. reflexivity. Qed.

(** The IPv6 offset moves the third hextet of a documentation address by
    [0x100] per worker and keeps the rest, so two workers of the same address
    never share it. *)
Theorem remap_ip6_workers (w1 w2 n : Z) (rest : string) :
  2 <= w1 -> 2 <= w2 -> 0 <= n ->
  let a := "2001:db8:" +:+ hex n +:+ ":" +:+ rest in
  @remap_ip6 (env_of w1) (Some a) =
    Some ("2001:db8:" +:+ hex (n + 256 * (w1 - 1)) +:+ ":" +:+ rest)
  /\ (w1 <> w2 -> @remap_ip6 (env_of w1) (Some a) <> @remap_ip6 (env_of w2) (Some a)).
Proof.
  intros H1 H2 Hn a. unfold a. rewrite !remap_ip6_hextet by (rewrite ?wid_env_of; done).
  rewrite !wid_env_of. split; [done|]. intros Hne Heq. apply (f_equal or_empty) in Heq.
  apply (sapp_inv_head "2001:db8:") in Heq.
  change (":" +:+ rest) with (String ":" rest) in Heq.
  apply (f_equal (fun s => hd "" (split_on ":"%char s))) in Heq.
  rewrite !split_on_app in Heq by (apply hexdig_no; [done | apply hex_digits]). cbn [hd] in Heq.
  apply (f_equal py_int16) in Heq. rewrite !py_int16_hex in Heq by lia. injection Heq. lia.
Qed.

Lemma remap_ip6_workers_witness :
  let a := "2001:db8:" +:+ hex 131 +:+ ":" +:+ ":1" in
  @remap_ip6 (env_of 2) (Some a) =
    Some ("2001:db8:" +:+ hex (131 + 256 * (2 - 1)) +:+ ":" +:+ ":1")
  /\ (2 <> 3 -> @remap_ip6 (env_of 2) (Some a) <> @remap_ip6 (env_of 3) (Some a)).
Proof. apply (remap_ip6_workers 2 3 131 ":1"); lia. Defined.
