(* ===== verification/CliParse.v ===== *)
(** * Text parsing of the CLI adapter (framework/cli.py)

    [Cli.parse_table], the parser of the tables [show] prints (boxed grids,
    dash-ruled fixed columns, columns separated by two spaces), and
    [_rewrite_acl_add], the translation of the community ACL command. *)

From S2P Require Import Prelude PyStr PyStrFacts.

(** ** [parse_table] *)

Definition all_in (cs : string) (s : string) : bool := str_forall (fun c => char_in c cs) s.

(** [[c.strip() for c in l.strip().strip("|").split("|")]] *)
Definition cells (l : string) : list string :=
  map strip (split_on "|"%char (strip_chars "|" (strip l))).

(** [dict(zip(header, cols))] *)
Definition row_of (header cols : list string) : pydict string string :=
  dict_of (combine header cols).

(** one pass of [re.split(r"\s{2,}", s)]: [pend] is the white space read since
    the last other character *)
Fixpoint split2_go (s cur pend : string) : list string :=
  match s with
  | "" => if (2 <=? slen pend)%nat then [cur; ""] else [cur +:+ pend]
  | String c s' =>
      if is_space c then split2_go s' cur (pend +:+ s1 c)
      else if (2 <=? slen pend)%nat then cur :: split2_go s' (s1 c) ""
      else split2_go s' (cur +:+ pend +:+ s1 c) ""
  end.
Definition split2 (s : string) : list string := split2_go s "" "".

(** the start positions of the maximal runs of dashes *)
Fixpoint dash_starts_go (s : string) (i : nat) (in_run : bool) : list nat :=
  match s with
  | "" => []
  | String c s' =>
      if Ascii.eqb c "-"%char
      then if in_run then dash_starts_go s' (S i) true else i :: dash_starts_go s' (S i) true
      else dash_starts_go s' (S i) false
  end.
Definition dash_starts (s : string) : list nat := dash_starts_go s 0 false.

(** the index of the first element satisfying [p] *)
Fixpoint find_idx {A} (p : A -> bool) (l : list A) : option nat :=
  match l with
  | [] => None
  | x :: l' => if p x then Some O else option_map S (find_idx p l')
  end.

Definition is_rule (l : string) : bool :=
  nonempty (strip l) && all_in "- " (strip l) && (2 <=? length (dash_starts l))%nat.

(** the last line before [sep] that is not blank *)
Definition header_before (raw : list string) (sep : nat) : option string :=
  last (List.filter (fun l => nonempty (strip l)) (take sep raw)).

(** [[l[bounds[i]:bounds[i+1]].strip() for i in range(len(starts))]], where the
    last bound is beyond every line *)
Fixpoint cut_cols (starts : list nat) (l : string) : list string :=
  match starts with
  | [] => []
  | [a] => [strip (str_drop a l)]
  | a :: ((b :: _) as rest) => strip (str_take (b - a) (str_drop a l)) :: cut_cols rest l
  end.

Definition parse_grid (lines : list string) : list (pydict string string) :=
  let rowlines := List.filter (fun l => starts "|" (lstrip l) && negb (all_in "|+-= " l)) lines in
  match rowlines with
  | [] => []
  | h :: rows =>
      let header := cells h in
      map (row_of header) (List.filter (fun cols => (length cols =? length header)%nat) (map cells rows))
  end.

Definition parse_ruled (raw : list string) (sep : nat) (hdr : string) : list (pydict string string) :=
  let starts := dash_starts (nth sep raw "") in
  let header := cut_cols starts hdr in
  let body := List.filter (fun l => nonempty (strip l) && negb (all_in "-+ " (strip l))) (drop (S sep) raw) in
  map (row_of header) (List.filter (fun cols => existsb nonempty cols) (map (cut_cols starts) body)).

Definition parse_plain (lines : list string) : list (pydict string string) :=
  match lines with
  | [] => []
  | h :: rows =>
      let header := split2 (strip h) in
      let body := List.filter (fun l => negb (all_in "-+ " (strip l))) rows in
      map (row_of header)
        (List.filter (fun cols => (length cols =? length header)%nat) (map (fun l => split2 (strip l)) body))
  end.

Definition parse_table (text : string) : list (pydict string string) :=
  let lines := List.filter (fun l => nonempty (strip l)) (splitlines text) in
  match lines with
  | [] => []
  | _ =>
      if existsb (fun l => starts "|" (lstrip l)) lines then parse_grid lines
      else
        let raw := splitlines text in
        match find_idx is_rule raw with
        | Some sep =>
            match header_before raw sep with
            | Some hdr => parse_ruled raw sep hdr
            | None => parse_plain lines
            end
        | None => parse_plain lines
        end
  end.

Definition text_of (ls : list string) : string := join (s1 lf) ls.

Example parse_grid_ex :
  parse_table (text_of ["+----+------+"; "| Id | Name |"; "+====+======+"; "| 1  | a b  |"; "| 2  |      |"])
  = [[("Id", "1"); ("Name", "a b")]; [("Id", "2"); ("Name", "")]].
Proof. vm_compute. reflexivity. Qed.
Example parse_ruled_ex :
  parse_table (text_of ["PSU    Model   Volt"; "-----  ------  ----"; "PSU 1  N/A"; ""; "PSU 2  X       12"])
  = [[("PSU", "PSU 1"); ("Model", "N/A"); ("Volt", "")]; [("PSU", "PSU 2"); ("Model", "X"); ("Volt", "12")]].
Proof. vm_compute. reflexivity. Qed.
Example parse_plain_ex :
  parse_table (text_of ["A   B b"; "1   2"; "x"]) = [[("A", "1"); ("B b", "2")]].
Proof. vm_compute. reflexivity. Qed.

(** ** [_rewrite_acl_add] *)

Definition ACL_TYPE_MAP : pydict string string :=
  [("L3", "L3V4"); ("L3V4", "L3V4"); ("L3V6", "L3V6"); ("L2", "L2"); ("L2L3MIX", "L2L3MIX")].

(** the option loop over the tokens after the type *)
Fixpoint acl_opts (rest : list string) (stage : string) (ports : option string)
  : string * option string :=
  match rest with
  | [] => (stage, ports)
  | t :: rest1 =>
      if String.eqb t "-s" || String.eqb t "--stage" then
        match rest1 with v :: rest2 => acl_opts rest2 v ports | [] => (stage, ports) end
      else if String.eqb t "-p" || String.eqb t "--ports" then
        match rest1 with v :: rest2 => acl_opts rest2 stage (Some v) | [] => (stage, ports) end
      else acl_opts rest1 stage ports
  end.

Definition rewrite_acl_add (args : string) : string :=
  match drop 3 (split_ws args) with
  | name :: typ :: rest =>
      let '(stage, ports) := acl_opts rest "ingress" None in
      let out := "acl-table add " +:+ name +:+ " -s " +:+ stage +:+ " -t "
                 +:+ default typ (dget typ ACL_TYPE_MAP) in
      if truthy ports then out +:+ " -p " +:+ or_empty ports else out
  | _ => args
  end.

Example rewrite_acl_ex :
  rewrite_acl_add "acl add table T1 L3 -p Ethernet0,Ethernet1" =
  "acl-table add T1 -s ingress -t L3V4 -p Ethernet0,Ethernet1".
Proof. reflexivity. Qed.

(** ** The grid printer of [tabulate] and its parser *)

Definition bar : ascii := "|"%char.
Definition pad (c : string) : string := " " +:+ c +:+ " ".
Definition grid_row (cols : list string) : string := "|" +:+ join "|" (map pad cols) +:+ "|".

(** a printable cell: one line, no bar, no outer white space *)
Definition cell_ok (c : string) : bool :=
  str_forall (not_char bar) c && str_forall not_break c && String.eqb (strip c) c.
(** a row some cell of which has a character that is not part of a border *)
Definition row_ok (cols : list string) : bool :=
  forallb cell_ok cols && existsb (fun c => negb (all_in "|+-= " c)) cols.
Definition border_ok (b : string) : bool := starts "+" b && all_in "+-=" b.

Lemma pad_no_bar c : cell_ok c = true -> str_forall (not_char bar) (pad c) = true.
Proof.
  unfold cell_ok, pad. intros Hc. break_hyps. rewrite !str_forall_app.
  repeat (apply andb_true_iff; split); done.
Qed.

Lemma strip_pad c : cell_ok c = true -> strip (pad c) = c.
Proof.
  unfold cell_ok. intros Hc. break_hyps. bool_prop. unfold pad.
  change (" " +:+ c +:+ " ") with (String " " (c +:+ s1 " ")). by apply strip_padded.
Qed.

(** a joined row of padded cells starts and ends with a space *)
Lemma join_pad cols : cols <> [] -> exists m, join "|" (map pad cols) = " " +:+ m +:+ " ".
Proof.
  induction cols as [|c cols IH]; [done|]. intros _. destruct cols as [|d cols].
  - by exists c.
  - destruct IH as [m Hm]; [done|]. cbn [map]. rewrite join_cons by done.
    cbn [map] in Hm. rewrite Hm. exists (c +:+ " " +:+ "|" +:+ " " +:+ m).
    unfold pad. by rewrite !sapp_assoc.
Qed.

Lemma cells_grid_row cols :
  cols <> [] -> forallb cell_ok cols = true -> cells (grid_row cols) = cols.
Proof.
  intros Hne Hok. unfold cells, grid_row. destruct (join_pad cols Hne) as [m Hm]. 
  assert (strip ("|" +:+ join "|" (map pad cols) +:+ "|") = "|" +:+ join "|" (map pad cols) +:+ "|") as ->.
  { apply strip_by_framed; done. }
  assert (strip_chars "|" ("|" +:+ join "|" (map pad cols) +:+ "|") = join "|" (map pad cols)) as ->.
  { rewrite Hm. unfold strip_chars, strip_by.
    change ("|" +:+ (" " +:+ m +:+ " ") +:+ "|") with (String "|" (String " " ((m +:+ " ") +:+ "|"))).
    cbn [lstrip_by]. change (char_in "|" "|") with true. change (char_in " " "|") with false. cbn iota.
    change (String " " ((m +:+ " ") +:+ "|")) with ((" " +:+ m +:+ " ") +:+ s1 "|").
    rewrite rstrip_by_snoc. change (char_in "|" "|") with true. cbn iota.
    change (" " +:+ m +:+ " ") with ((" " +:+ m) +:+ s1 " ") at 1.
    rewrite rstrip_by_snoc. done. }
  change "|" with (s1 bar) at 1. rewrite split_on_join.
  - rewrite map_map. rewrite <- (map_id cols) at 2. apply map_ext_in. intros c Hc.
    apply strip_pad. by eapply forallb_forall in Hok; [|exact Hc].
  - by destruct cols.
  - apply Forall_forall. intros x Hx%list_elem_of_In. apply in_map_iff in Hx as (c & <- & Hc).
    apply pad_no_bar. by eapply forallb_forall in Hok; [|exact Hc].
Qed.

Lemma str_forall_join p sep l x :
  str_forall p (join sep l) = true -> x ∈ l -> str_forall p x = true.
Proof.
  induction l as [|y l IH]; [by intros _ ?%not_elem_of_nil|]. intros Hj Hx.
  destruct l as [|z l].
  - cbn [join] in Hj. apply elem_of_cons in Hx as [->|Hx]; [done | by apply not_elem_of_nil in Hx].
  - rewrite join_cons, !str_forall_app in Hj by done. break_hyps.
    apply elem_of_cons in Hx as [->|Hx]; auto.
Qed.

Lemma grid_row_text cols :
  row_ok cols = true -> starts "|" (lstrip (grid_row cols)) && negb (all_in "|+-= " (grid_row cols)) = true.
Proof.
  unfold row_ok, grid_row. intros [Hok Hex]%andb_true_iff. apply andb_true_iff; split; [done|].
  apply negb_true_iff, not_true_iff_false. intros Hall. unfold all_in in Hall.
  rewrite !str_forall_app in Hall. apply andb_true_iff in Hall as [_ Hall].
  apply andb_true_iff in Hall as [Hj _].
  apply existsb_true_iff in Hex as (c & Hc & Hn). apply negb_true_iff in Hn.
  eapply str_forall_join in Hj; [|by apply (list_elem_of_fmap_2 pad)]. unfold pad in Hj.
  rewrite !str_forall_app in Hj. apply andb_true_iff in Hj as [_ Hj].
  apply andb_true_iff in Hj as [Hc' _].
  unfold all_in in Hn. congruence.
Qed.

Lemma grid_row_line cols : forallb cell_ok cols = true -> line (grid_row cols) = true.
Proof.
  unfold line, grid_row. intros Hok. apply andb_true_iff; split; [done|].
  rewrite !str_forall_app. repeat (apply andb_true_iff; split; [done|]). apply andb_true_iff; split; [|done].
  induction cols as [|c cols IH]; [done|]. cbn [forallb] in Hok. apply andb_true_iff in Hok as [Hc Hok].
  assert (str_forall not_break (pad c) = true) as Hp.
  { unfold cell_ok in Hc. break_hyps. unfold pad. rewrite !str_forall_app.
    repeat (apply andb_true_iff; split); done. }
  destruct cols as [|d cols]; [done|]. cbn [map]. rewrite join_cons by done. cbn [map] in IH.
  rewrite !str_forall_app, Hp, IH by done. done.
Qed.

Lemma border_facts b : border_ok b = true ->
  line b = true /\ nonempty (strip b) = true /\ starts "|" (lstrip b) = false.
Proof.
  unfold border_ok. intros [Hs Ha]%andb_true_iff. destruct b as [|c b]; [done|].
  cbn [starts] in Hs. apply andb_true_iff in Hs as [Hc _]. bool_prop. subst c.
  assert (str_forall not_break (String "+" b) = true) as Hb.
  { eapply str_forall_impl; [|exact Ha]. intros c.
    intros Hc. enough (negb (char_in c "+-=") || not_break c = true) as Ho by by rewrite Hc in Ho.
    revert c Hc. intros c _. revert c. by apply ascii_all. }
  split; [done|]. split; [|done]. unfold strip, strip_by. rewrite lstrip_by_id by done.
  cbn [rstrip_by]. by destruct (rstrip_by is_space b).
Qed.

Lemma grid_row_nonblank cols : nonempty (strip (grid_row cols)) = true.
Proof.
  unfold grid_row, strip. change ("|" +:+ ?x +:+ "|") with (String "|" (x +:+ s1 "|")).
  by rewrite strip_by_framed.
Qed.

(** [tabulate(rows, header, tablefmt="grid")]: borders around every row *)
Definition grid_lines (border : string) (header : list string) (rows : list (list string)) : list string :=
  border :: flat_map (fun r => [grid_row r; border]) (header :: rows).

Lemma filter_app_true {A} (p : A -> bool) l : Forall (fun x => p x = true) l -> List.filter p l = l.
Proof. induction 1 as [|x l Hx Hl IH]; simpl; [done|]. by rewrite Hx, IH. Qed.

Lemma grid_lines_nonblank border rows :
  border_ok border = true -> Forall (fun r => forallb cell_ok r = true) rows ->
  Forall (fun l => line l = true /\ nonempty (strip l) = true)
    (flat_map (fun r => [grid_row r; border]) rows).
Proof.
  intros Hb. pose proof (border_facts _ Hb) as (Hl & Hn & _).
  induction 1 as [|r rows Hr Hrows IH]; [constructor|]. cbn [flat_map app].
  repeat constructor; auto using grid_row_line, grid_row_nonblank.
Qed.

(** only the rows survive the border filter *)
Lemma grid_rowlines border rows :
  border_ok border = true -> Forall (fun r => row_ok r = true) rows ->
  List.filter (fun l => starts "|" (lstrip l) && negb (all_in "|+-= " l))
    (flat_map (fun r => [grid_row r; border]) rows) = map grid_row rows.
Proof.
  intros Hb. pose proof (border_facts _ Hb) as (_ & _ & Hs).
  induction 1 as [|r rows Hr Hrows IH]; [done|]. cbn [flat_map app List.filter map].
  by rewrite grid_row_text, Hs, IH.
Qed.

(** [parse_table] inverts the boxed-grid printer: parsing the printed grid
    gives one dictionary per row, keyed by the header, for cells that are
    single lines without bars or outer white space and rows that are not made
    of border characters only. *)
Theorem parse_grid_roundtrip (border : string) (header : list string) (rows : list (list string)) :
  border_ok border = true ->
  Forall (fun r => row_ok r = true /\ r <> [] /\ length r = length header) (header :: rows) ->
  parse_table (text_of (grid_lines border header rows)) = map (row_of header) rows.
Proof.
  intros Hb Hall.
  assert (Forall (fun r => row_ok r = true) (header :: rows)) as Hrow by (eapply Forall_impl; naive_solver).
  assert (Forall (fun r => forallb cell_ok r = true) (header :: rows)) as Hcell.
  { eapply Forall_impl; [exact Hrow|]. unfold row_ok. intros r Hr. by apply andb_true_iff in Hr as [? _]. }
  pose proof (border_facts _ Hb) as (Hbl & Hbn & Hbs).
  pose proof (grid_lines_nonblank _ _ Hb Hcell) as Hlines.
  unfold parse_table, text_of, grid_lines. set (body := flat_map _ _) in *.
  rewrite splitlines_join by (constructor; [done | eapply Forall_impl; [exact Hlines | naive_solver]]).
  rewrite filter_app_true by (constructor; [done | eapply Forall_impl; [exact Hlines | naive_solver]]).
  assert (existsb (fun l => starts "|" (lstrip l)) (border :: body) = true) as ->.
  { unfold body. cbn [flat_map app existsb]. by rewrite orb_true_r. }
  unfold parse_grid. cbn [List.filter]. rewrite Hbs. cbn [andb]. unfold body.
  rewrite grid_rowlines by done. cbn [map]. apply Forall_cons in Hall as [(_ & Hne & _) Hall].
  apply Forall_cons in Hcell as [Hhc Hcell]. rewrite cells_grid_row by done.
  assert (map cells (map grid_row rows) = rows) as ->.
  { rewrite map_map. rewrite <- (map_id rows) at 2. apply map_ext_in. intros r Hr%list_elem_of_In.
    rewrite Forall_forall in Hall, Hcell. apply cells_grid_row; naive_solver. }
  f_equal. apply filter_app_true. eapply Forall_impl; [exact Hall|].
  intros r (_ & _ & Hlen). by apply Nat.eqb_eq.
Qed.

Lemma parse_grid_roundtrip_witness :
  parse_table (text_of (grid_lines "+---+" ["Id"; "Name"] [["1"; ""]; ["2"; "x y"]])) =
  [[("Id", "1"); ("Name", "")]; [("Id", "2"); ("Name", "x y")]].
Proof.
  apply (parse_grid_roundtrip "+---+" ["Id"; "Name"] [["1"; ""]; ["2"; "x y"]]); [reflexivity|].
  repeat constructor; discriminate.
Defined.

(** ** The ACL translation *)

Definition flag_opt (f : string) (o : option string) : list string :=
  match o with Some v => [f; v] | None => [] end.
Definition token_opt (o : option string) : bool :=
  match o with Some v => token v | None => true end.

(** The community command [acl add table <name> <type> [-s <stage>]
    [-p <ports>]] becomes the product's [acl-table add] with the same name, the
    mapped type, the given stage or [ingress], and the port list when there is
    one. *)
Theorem rewrite_acl_add_correct (name typ : string) (stage ports : option string) :
  token name = true -> token typ = true -> token_opt stage = true -> token_opt ports = true ->
  rewrite_acl_add (join " " (["acl"; "add"; "table"; name; typ] ++ flag_opt "-s" stage ++ flag_opt "-p" ports))
  = "acl-table add " +:+ name +:+ " -s " +:+ default "ingress" stage
    +:+ " -t " +:+ default typ (dget typ ACL_TYPE_MAP)
    +:+ match ports with Some p => " -p " +:+ p | None => "" end.
Proof.
  intros Hn Ht Hs Hp. unfold rewrite_acl_add. rewrite split_ws_join.
  - cbn [drop app]. destruct stage as [st|], ports as [p|]; cbn [flag_opt app acl_opts String.eqb];
      simpl orb; cbn iota; simpl truthy; cbn [default or_empty];
      try (unfold token_opt, token in Hp; apply andb_true_iff in Hp as [Hp _]; rewrite Hp);
      rewrite ?sapp_assoc, ?sapp_nil_r; done.
  - rewrite !Forall_app. repeat split; [repeat (constructor; [done|]); constructor | |];
      [destruct stage | destruct ports]; repeat (constructor; [done|]); constructor.
Qed.

Lemma rewrite_acl_add_correct_witness :
  rewrite_acl_add (join " " (["acl"; "add"; "table"; "T"; "L3"] ++ flag_opt "-s" None ++ flag_opt "-p" (Some "Ethernet0")))
  = "acl-table add " +:+ "T" +:+ " -s " +:+ "ingress" +:+ " -t " +:+ "L3V4" +:+ " -p " +:+ "Ethernet0".
Proof. apply (rewrite_acl_add_correct "T" "L3" None (Some "Ethernet0")); reflexivity. Defined.
