(* ===== verification/Cli.v ===== *)
(** * The CLI adapter (framework/cli.py)

    Every [config] command is first adapted to the image: [_fixup] rewrites it
    and, on the customized ("switchport") OS, moves the port between its L2 and
    L3 states before.  [_fixup] calls [config] again (probes and port moves),
    so the adapter is recursive: the operations below take [config] itself as
    an argument, [config_n] ties the knot with fuel, and [config] uses the
    depth that CliFacts.v proves sufficient.  Waits are in milliseconds. *)

From S2P Require Import Prelude PyStr PyVal CliParse Device.

(** the container [Cli] was built with (the default is [syncd]) *)
Class CliEnv := { cli_syncd : string }.

(** ** Attribute updates *)

Definition bridged_add (p : string) (c : CliState) : CliState :=
  mkCli ({[p]} ∪ c_bridged c) (c_stplock c) (c_acl_tbl c) (c_spandir c) (c_erspan c) (c_mirdel c)
    (c_ipdel c) (c_swp_os c) (c_vm_flag c) (c_qos_cli c) (c_aclpoll_on c).
Definition bridged_discard (p : string) (c : CliState) : CliState :=
  mkCli (c_bridged c ∖ {[p]}) (c_stplock c) (c_acl_tbl c) (c_spandir c) (c_erspan c) (c_mirdel c)
    (c_ipdel c) (c_swp_os c) (c_vm_flag c) (c_qos_cli c) (c_aclpoll_on c).
Definition put_stplock (b : bool) (c : CliState) : CliState :=
  mkCli (c_bridged c) (Some b) (c_acl_tbl c) (c_spandir c) (c_erspan c) (c_mirdel c)
    (c_ipdel c) (c_swp_os c) (c_vm_flag c) (c_qos_cli c) (c_aclpoll_on c).
Definition put_acl_tbl (b : bool) (c : CliState) : CliState :=
  mkCli (c_bridged c) (c_stplock c) (Some b) (c_spandir c) (c_erspan c) (c_mirdel c)
    (c_ipdel c) (c_swp_os c) (c_vm_flag c) (c_qos_cli c) (c_aclpoll_on c).
Definition put_spandir (b : bool) (c : CliState) : CliState :=
  mkCli (c_bridged c) (c_stplock c) (c_acl_tbl c) (Some b) (c_erspan c) (c_mirdel c)
    (c_ipdel c) (c_swp_os c) (c_vm_flag c) (c_qos_cli c) (c_aclpoll_on c).
Definition put_erspan (b : bool) (c : CliState) : CliState :=
  mkCli (c_bridged c) (c_stplock c) (c_acl_tbl c) (c_spandir c) (Some b) (c_mirdel c)
    (c_ipdel c) (c_swp_os c) (c_vm_flag c) (c_qos_cli c) (c_aclpoll_on c).
Definition put_mirdel (b : bool) (c : CliState) : CliState :=
  mkCli (c_bridged c) (c_stplock c) (c_acl_tbl c) (c_spandir c) (c_erspan c) (Some b)
    (c_ipdel c) (c_swp_os c) (c_vm_flag c) (c_qos_cli c) (c_aclpoll_on c).
Definition put_ipdel (b : bool) (c : CliState) : CliState :=
  mkCli (c_bridged c) (c_stplock c) (c_acl_tbl c) (c_spandir c) (c_erspan c) (c_mirdel c)
    (Some b) (c_swp_os c) (c_vm_flag c) (c_qos_cli c) (c_aclpoll_on c).
Definition put_swp_os (b : bool) (c : CliState) : CliState :=
  mkCli (c_bridged c) (c_stplock c) (c_acl_tbl c) (c_spandir c) (c_erspan c) (c_mirdel c)
    (c_ipdel c) (Some b) (c_vm_flag c) (c_qos_cli c) (c_aclpoll_on c).
Definition put_vm_flag (s : string) (c : CliState) : CliState :=
  mkCli (c_bridged c) (c_stplock c) (c_acl_tbl c) (c_spandir c) (c_erspan c) (c_mirdel c)
    (c_ipdel c) (c_swp_os c) (Some s) (c_qos_cli c) (c_aclpoll_on c).

(** ** Databases *)

Section Db.
Context `{Device} `{ShellEnv}.

Definition db (db cmd : string) : M string :=
  let* r := sh_run_check ("sonic-db-cli " +:+ db +:+ " " +:+ cmd) in
  ret (strip (out r)).

(** [dict(zip(toks[0::2], toks[1::2]))] *)
Fixpoint pair_up (toks : list string) : list (string * string) :=
  match toks with
  | k :: v :: toks' => (k, v) :: pair_up toks'
  | _ => []
  end.

(** the dictionary of a JSON object whose values are strings *)
Fixpoint all_strs (d : pydict string pyval) : option (pydict string string) :=
  match d with
  | [] => Some []
  | (k, VStr s) :: d' => option_map (cons (k, s)) (all_strs d')
  | _ => None
  end.
Definition as_strdict (v : pyval) : option (pydict string string) :=
  match v with VDict d => all_strs d | _ => None end.

(** [_q] *)
Definition shell_quote (s : string) : string :=
  "'" +:+ replace_char squote ("'" +:+ s1 bslash +:+ "''") s +:+ "'".

Definition hgetall_script : string :=
  "import json,sys" +:+ s1 lf
  +:+ "try:" +:+ s1 lf
  +:+ "    from swsscommon.swsscommon import SonicV2Connector" +:+ s1 lf
  +:+ "except Exception:" +:+ s1 lf
  +:+ "    from swsssdk import SonicV2Connector" +:+ s1 lf
  +:+ "c=SonicV2Connector(); c.connect(sys.argv[1])" +:+ s1 lf
  +:+ "sys.stdout.write(json.dumps(c.get_all(sys.argv[1], sys.argv[2]) or {}))" +:+ s1 lf.

(** the script prints an object of strings; [None] when it printed no JSON *)
Definition db_hgetall_json (db key : string) : M (option (pydict string string)) :=
  let* r := sh_run ("python3 -c " +:+ shell_quote hgetall_script +:+ " " +:+ shell_quote db
                    +:+ " " +:+ shell_quote key) in
  let t := strip (out r) in
  ret (match json_loads (if nonempty t then t else "{}") with
       | Some v => as_strdict v
       | None => None
       end).

Definition db_hgetall (db key : string) : M (pydict string string) :=
  let* r := sh_run_check ("sonic-db-cli " +:+ db +:+ " HGETALL '" +:+ key +:+ "'") in
  let o := strip (out r) in
  if negb (nonempty o) then ret []
  else if starts "{" o then
    match literal_eval o with
    | Some d => ret d
    | None => let* robust := db_hgetall_json db key in
              ret (match robust with Some d => d | None => [] end)
    end
  else ret (dict_of (pair_up (List.filter nonempty (splitlines o)))).

Definition db_keys (db pattern : string) : M (list string) :=
  let* r := sh_run_check ("sonic-db-cli " +:+ db +:+ " KEYS '" +:+ pattern +:+ "'") in
  ret (List.filter nonempty (splitlines (out r))).

Definition db_hset (db key field value : string) : M Result :=
  sh_run_check ("sonic-db-cli " +:+ db +:+ " HSET '" +:+ key +:+ "' " +:+ field +:+ " " +:+ value).

Definition crm_set_polling (interval : string) : M Result :=
  db_hset "CONFIG_DB" "CRM|Config" "polling_interval" interval.

Definition hset_opt (field : string) (v : option string) : M unit :=
  match v with
  | None => ret tt
  | Some x => db_hset "CONFIG_DB" "CRM|Config" field x ;;; ret tt
  end.
Definition crm_set_threshold (res_key : string) (ttype low high : option string) : M unit :=
  hset_opt (res_key +:+ "_threshold_type") ttype ;;;
  hset_opt (res_key +:+ "_low_threshold") low ;;;
  hset_opt (res_key +:+ "_high_threshold") high.

(** [(db_hgetall(db, key) or {}).get(field)] and [... .get(field, "")] *)
Definition hget (db key field : string) : M (option string) :=
  let* d := db_hgetall db key in ret (dget field d).

(** [k.split("|")[i]] *)
Definition key_part (i : nat) (k : string) : M string :=
  match nth_error (split_on "|"%char k) i with Some p => ret p | None => raise IndexError end.
Definition key_last (k : string) : string := List.last (split_on "|"%char k) "".

(** [bool(db_keys(db, pattern))] *)
Definition has_keys (db pattern : string) : M bool :=
  let* ks := db_keys db pattern in ret (match ks with [] => false | _ => true end).

Definition show (args : string) : M string :=
  let* r := sh_run_check ("show " +:+ args) in ret (out r).

Definition cli_run (cmd : string) (timeout : Z) : M Result := sh_run_timeout timeout cmd.

Definition vtysh (cmd : string) (config : bool) : M string :=
  let body := if config then "configure terminal" +:+ s1 lf +:+ cmd else cmd in
  let inner := join (s1 lf) (map (fun l => "-c '" +:+ l +:+ "'") (splitlines body)) in
  let* r := sh_run_check ("vtysh " +:+ replace_char lf " " inner) in
  ret (out r).

Definition bcm `{CliEnv} (c : string) : M string :=
  let* r := sh_run_in cli_syncd c in ret (out r).

(** ** Cached probes that run a help command directly *)

Definition acl_table_cli : M bool :=
  let* c := get_cli in
  match c_acl_tbl c with
  | Some b => ret b
  | None =>
      let* r := sh_run "config acl-table add --help" in
      let b := result_ok r && contains "acl" (lower (out r)) in
      modify_cli (put_acl_tbl b) ;;; ret b
  end.

Definition span_dir_opt : M bool :=
  let* c := get_cli in
  match c_spandir c with
  | Some b => ret b
  | None =>
      let* r := sh_run "config mirror_session span add --help" in
      let b := contains "--direction" (out r) in
      modify_cli (put_spandir b) ;;; ret b
  end.

Definition has_erspan_cli : M bool :=
  let* c := get_cli in
  match c_erspan c with
  | Some b => ret b
  | None =>
      let* r := sh_run "config mirror_session erspan --help" in
      modify_cli (put_erspan (result_ok r)) ;;; ret (result_ok r)
  end.

Definition mirror_del_cli : M bool :=
  let* c := get_cli in
  match c_mirdel c with
  | Some b => ret b
  | None =>
      let* d := sh_run "config mirror_session del --help" in
      let* rm := sh_run "config mirror_session remove --help" in
      let b := result_ok d && negb (result_ok rm) in
      modify_cli (put_mirdel b) ;;; ret b
  end.

Definition ip_del_cli : M bool :=
  let* c := get_cli in
  match c_ipdel c with
  | Some b => ret b
  | None =>
      let* d := sh_run "config interface ip del --help" in
      let* rm := sh_run "config interface ip remove --help" in
      let b := result_ok d && negb (result_ok rm) in
      modify_cli (put_ipdel b) ;;; ret b
  end.

Definition stp_locked : M bool :=
  let* c := get_cli in
  match c_stplock c with
  | Some b => ret b
  | None =>
      let* e := hget "CONFIG_DB" "STP|GLOBAL" "enabled" in
      let b := bool_decide (e = Some "enable") in
      modify_cli (put_stplock b) ;;; ret b
  end.

(** ** The hybrid ladder of the STP-gated models *)

Definition hybrid_ladder_add (vid pname : string) : M bool :=
  sh_run ("config switchport mode hybrid " +:+ pname) ;;;
  modify_cli (bridged_discard pname) ;;;
  sh_run ("config vlan member add -m untagged " +:+ vid +:+ " " +:+ pname) ;;;
  let* ok := poll_tries 5 500 (has_keys "CONFIG_DB" ("VLAN_MEMBER|Vlan" +:+ vid +:+ "|" +:+ pname)) in
  if negb ok then ret false
  else
    sh_run ("config interface pvid " +:+ pname +:+ " " +:+ vid) ;;;
    poll_tries 5 400 (let* p := hget "CONFIG_DB" ("PORT|" +:+ pname) "pvid" in
                      ret (bool_decide (p = Some vid))).

Definition hybrid_ladder_del (vid pname : string) : M unit :=
  let* ks := db_keys "CONFIG_DB" ("VLAN_MEMBER|*|" +:+ pname) in
  let* vlans := map_m (key_part 1) ks in
  let others := map (replace_all "Vlan" "")
                  (List.filter (fun v => negb (String.eqb v ("Vlan" +:+ vid))) vlans) in
  match others with
  | o :: _ => sh_run ("config interface pvid " +:+ pname +:+ " " +:+ o) ;;; ret tt
  | [] => ret tt
  end ;;;
  sh_run ("config vlan member del " +:+ vid +:+ " " +:+ pname) ;;;
  poll_tries 5 500 (let* b := has_keys "CONFIG_DB" ("VLAN_MEMBER|Vlan" +:+ vid +:+ "|" +:+ pname) in
                    ret (negb b)) ;;;
  sh_run ("config switchport mode access " +:+ pname) ;;;
  modify_cli (bridged_discard pname).

(** whether the port is home in an L2 state *)
Definition is_port_l2 (name : string) : M bool :=
  let* home := has_keys "CONFIG_DB" ("VLAN_MEMBER|Vlan1|" +:+ name) in
  if home then ret true
  else
    let* lm := hget "CONFIG_DB" ("PORT|" +:+ name) "link_mode" in
    if bool_decide (lm ∈ [Some "access"; Some "trunk"; Some "hybrid"]) then
      let* intf := has_keys "CONFIG_DB" ("INTERFACE|" +:+ name) in
      ret (negb intf)
    else ret false.
End Db.

(** ** Tokens of a command *)

(** [[t for t in args.split()[3:] if not t.startswith("-")]] *)
Definition member_toks (args : string) : list string :=
  List.filter (fun t => negb (starts "-" t)) (drop 3 (split_ws args)).

Definition in_words (sub args : string) : bool := contains sub (" " +:+ args +:+ " ").

(** the positional arguments of [vlan member add [-m mode] <vid> <port>] *)
Fixpoint positional (toks : list string) (skip : bool) : list string :=
  match toks with
  | [] => []
  | t :: toks' =>
      if skip then positional toks' false
      else if String.eqb t "-m" || String.eqb t "--mode" then positional toks' true
      else if starts "-" t then positional toks' false
      else t :: positional toks' false
  end.

Definition is_mode (lm : option string) : bool :=
  bool_decide (lm ∈ [Some "hybrid"; Some "trunk"]).

(** the harmless command issued when the work was done as a side effect *)
Definition harmless : string := "switchport mode -h".

(** ** The recursive part: [config] as an argument *)

Section Recursive.
Context `{Device} `{ShellEnv}.
Context (cfg : bool -> string -> M Result).

Definition config_raw_r (args : string) : M (Z * Result) :=
  let* r := cfg false args in ret (rc r, r).

Definition is_switchport_os_r : M bool :=
  let* c := get_cli in
  match c_swp_os c with
  | Some b => ret b
  | None =>
      let* r := cfg false "interface link-mode --help" in
      let b := contains "bridge" (out r) && contains "route" (out r) in
      modify_cli (put_swp_os b) ;;; ret b
  end.

Definition restore_bridge_home_r (name : string) : M bool :=
  let* members := db_keys "CONFIG_DB" ("VLAN_MEMBER|*|" +:+ name) in
  for_each members (fun k =>
    match split_on "|"%char k with
    | [_; v; _] => config_raw_r ("vlan member del " +:+ replace_all "Vlan" "" v +:+ " " +:+ name) ;;; ret tt
    | _ => ret tt
    end) ;;;
  let* neighs := db_keys "CONFIG_DB" ("NEIGH|" +:+ name +:+ "|*") in
  for_each neighs (fun k =>
    config_raw_r ("arp static del " +:+ name +:+ " " +:+ key_last k) ;;; ret tt) ;;;
  let* ips := db_keys "CONFIG_DB" ("INTERFACE|" +:+ name +:+ "|*") in
  for_each ips (fun k =>
    config_raw_r ("interface ip remove " +:+ name +:+ " " +:+ key_last k) ;;; ret tt) ;;;
  let* vrf := hget "CONFIG_DB" ("INTERFACE|" +:+ name) "vrf_name" in
  when (truthy vrf) (config_raw_r ("interface vrf unbind " +:+ name) ;;; ret tt) ;;;
  let* lm := hget "CONFIG_DB" ("PORT|" +:+ name) "link_mode" in
  let* early :=
    if is_mode lm then
      config_raw_r ("switchport mode access " +:+ name) ;;; poll_tries 6 400 (is_port_l2 name)
    else ret false in
  if early then ret true
  else
    config_raw_r ("interface link-mode " +:+ name +:+ " route") ;;;
    config_raw_r ("interface link-mode " +:+ name +:+ " bridge") ;;;
    poll_tries 8 400 (is_port_l2 name).

Definition ensure_port_l2_r (name : string) : M unit :=
  let* swp := is_switchport_os_r in
  if negb swp then ret tt
  else
    let* c := get_cli in
    if bool_decide (name ∈ c_bridged c) then ret tt
    else
      let* ok := restore_bridge_home_r name in
      if ok then modify_cli (bridged_add name) else ret tt.

Definition restore_port_l3_r (name : string) : M unit :=
  let* swp := is_switchport_os_r in
  if negb swp then ret tt
  else
    let* members := db_keys "CONFIG_DB" ("VLAN_MEMBER|*|" +:+ name) in
    let* vlan1_del_refused := fold_m (fun refused k =>
      match split_on "|"%char k with
      | [_; v; _] =>
          let vid := replace_all "Vlan" "" v in
          let* '(c, _) := config_raw_r ("vlan member del " +:+ vid +:+ " " +:+ name) in
          ret (if String.eqb vid "1" && negb (c =? 0) then true else refused)
      | _ => ret refused
      end) members false in
    config_raw_r ("interface link-mode " +:+ name +:+ " route") ;;;
    when vlan1_del_refused
      (let* left := poll_tries 6 500
         (let* b := has_keys "CONFIG_DB" ("VLAN_MEMBER|Vlan1|" +:+ name) in ret (negb b)) in
       when (negb left)
         (let* marker := has_keys "CONFIG_DB" ("INTERFACE|" +:+ name) in
          when marker
            (sh_run ("sonic-db-cli CONFIG_DB DEL 'INTERFACE|" +:+ name +:+ "'") ;;;
             config_raw_r ("interface link-mode " +:+ name +:+ " route") ;;; ret tt))) ;;;
    modify_cli (bridged_discard name).

Definition vlan_untagged_flag_r : M string :=
  let* swp := is_switchport_os_r in
  if swp then ret "-u"
  else
    let* c := get_cli in
    match c_vm_flag c with
    | Some f => ret f
    | None =>
        let* r := cfg false "vlan member add --help" in
        let f := if contains "--untagged" (out r) then "-u"
                 else if contains "--mode" (out r) then "-m untagged" else "" in
        modify_cli (put_vm_flag f) ;;; ret f
    end.

Definition ensure_l2_for_member_add_r (args : string) : M unit :=
  match rev (positional (drop 3 (split_ws args)) false) with
  | p :: _ :: _ => ensure_port_l2_r p
  | _ => ret tt
  end.

(** (3): an Ethernet port is switched to route before an L3 command *)
Definition fixup_l3 (args : string) : M unit :=
  when (starts "interface ip add" args || starts "interface vrf bind" args)
    (match nth_error (split_ws args) 3 with
     | Some p => if starts "Ethernet" p then
                   let* swp := is_switchport_os_r in when swp (restore_port_l3_r p)
                 else ret tt
     | None => ret tt
     end).

(** (5), (6), (7), (4): the probe-gated rewrites *)
Definition fixup_names (args : string) : M string :=
  let* args := (if starts "interface ip remove" args
                then let* b := ip_del_cli in
                     ret (if b then replace1 "interface ip remove" "interface ip del" args else args)
                else ret args) in
  let* args := (if starts "mirror_session remove" args
                then let* b := mirror_del_cli in
                     ret (if b then replace1 "mirror_session remove" "mirror_session del" args else args)
                else ret args) in
  let* args := (if starts "mirror_session span add" args
                then let* b := span_dir_opt in
                     ret (if b then
                            match rev (split_ws args) with
                            | t :: front => if bool_decide (t ∈ ["rx"; "tx"; "both"])
                                            then join " " (rev front) +:+ " -d " +:+ t else args
                            | [] => args
                            end
                          else args)
                else ret args) in
  if starts "acl add table" args then
    let* b := acl_table_cli in ret (if b then rewrite_acl_add args else args)
  else if starts "acl remove table" args then
    let* b := acl_table_cli in
    ret (if b then match nth_error (split_ws args) 3 with
                   | Some t => "acl-table del " +:+ t
                   | None => args
                   end
         else args)
  else ret args.

(** (8): the way back to the default VLAN; [true] when the command is done *)
Definition fixup_vlan1 (args : string) : M bool :=
  match List.filter isdigit (split_ws args) with
  | n :: _ =>
      if String.eqb n "1" then
        let* swp := is_switchport_os_r in
        if swp then
          let pname := List.last (member_toks args) "" in
          if starts "Ethernet" pname then
            let* lm := hget "CONFIG_DB" ("PORT|" +:+ pname) "link_mode" in
            let* home := db_keys "CONFIG_DB" ("VLAN_MEMBER|Vlan1|" +:+ pname) in
            if bool_decide (lm = Some "access") && (match home with [] => false | _ => true end)
            then ret true
            else restore_bridge_home_r pname ;;; ret true
          else ret false
        else ret false
      else ret false
  | [] => ret false
  end.

(** (1)(2): the tagged or untagged flag; [inl] is a finished command *)
Definition fixup_tagged (args : string) : M string :=
  let untagged_intent := in_words " -u " args || contains "untagged" args in
  let* swp := is_switchport_os_r in
  if swp then
    ensure_l2_for_member_add_r args ;;;
    if untagged_intent then ret args
    else
      match rev (member_toks args) with
      | p :: _ :: _ => config_raw_r ("switchport mode hybrid " +:+ p) ;;; modify_cli (bridged_discard p)
      | _ => ret tt
      end ;;;
      ret (replace1 "vlan member add " "vlan member add -m tagged " args)
  else ret args.

Definition fixup_untagged (args : string) : M (string + string) :=
  if negb (in_words " -u " args) then ret (inr args)
  else
    let* swp := is_switchport_os_r in
    if swp then
      let toks := member_toks args in
      let pname := match toks with _ :: _ :: _ => List.last toks "" | _ => "" end in
      let* lm := hget "CONFIG_DB" ("PORT|" +:+ pname) "link_mode" in
      if is_mode lm then ret (inr (replace1 " -u " " -m untagged " args))
      else
        let* locked := stp_locked in
        match toks with
        | v :: _ =>
            if locked && isdigit v then hybrid_ladder_add v pname ;;; ret (inl harmless)
            else ret (inr (replace1 " -u " " " args))
        | [] => ret (inr (replace1 " -u " " " args))
        end
    else
      let* flag := vlan_untagged_flag_r in
      ret (inr (if String.eqb flag "-m untagged" then replace1 " -u " " -m untagged " args else args)).

Definition fixup_member_add (args : string) : M (string + string) :=
  if negb (starts "vlan member add" args) then ret (inr args)
  else
    let* done := fixup_vlan1 args in
    if done then ret (inl harmless)
    else let* args := fixup_tagged args in fixup_untagged args.

(** (9): leaving a VLAN on an STP-gated model *)
Definition fixup_member_del (args : string) : M string :=
  if negb (starts "vlan member del" args) then ret args
  else
    let* swp := is_switchport_os_r in
    if negb swp then ret args
    else
      let* locked := stp_locked in
      if negb locked then ret args
      else
        match member_toks args with
        | v :: (_ :: _) as toks =>
            let p := List.last toks "" in
            if isdigit v && negb (String.eqb v "1") && starts "Ethernet" p then
              let* lm := hget "CONFIG_DB" ("PORT|" +:+ p) "link_mode" in
              if is_mode lm then hybrid_ladder_del v p ;;; ret harmless else ret args
            else ret args
        | _ => ret args
        end.

(** [_fixup] *)
Definition fixup_r (args : string) : M string :=
  fixup_l3 args ;;;
  let* args := fixup_names args in
  let* r := fixup_member_add args in
  match r with
  | inl final => ret final
  | inr args => fixup_member_del args
  end.

(** [_cmdline] *)
Definition cmdline_r (args : string) : M string :=
  if starts "__toplevel__ " args then ret (str_drop 13 args)
  else
    let* a := fixup_r args in
    let cmd := "config " +:+ a in
    ret (if starts "interface ip add" args then "echo y | " +:+ cmd else cmd).
End Recursive.

(** ** The adapter *)

Section Adapter.
Context `{Device} `{ShellEnv}.

Fixpoint config_n (n : nat) (check : bool) (args : string) : M Result :=
  match n with
  | O => hang
  | S n' => let* cmd := cmdline_r (config_n n') args in run_full cmd None check 30000 None
  end.

(** an L2/L3 command moves ports with [vlan member del], which probes the OS
    with a help command, which recurses no further *)
Definition config_depth : nat := 3.

Definition config_check (args : string) : M Result := config_n config_depth true args.
Definition config_raw (args : string) : M (Z * Result) := config_raw_r (config_n config_depth) args.
Definition fixup (args : string) : M string := fixup_r (config_n config_depth) args.
Definition is_switchport_os : M bool := is_switchport_os_r (config_n config_depth).
Definition restore_bridge_home : string -> M bool := restore_bridge_home_r (config_n config_depth).
Definition ensure_port_l2 : string -> M unit := ensure_port_l2_r (config_n config_depth).
Definition restore_port_l3 : string -> M unit := restore_port_l3_r (config_n config_depth).
Definition vlan_untagged_flag : M string := vlan_untagged_flag_r (config_n config_depth).

(** ** Provisioning helpers *)

Definition b64_char (n : Z) : ascii :=
  ascii_of_nat (Z.to_nat (if n <? 26 then 65 + n else if n <? 52 then 71 + n
                          else if n <? 62 then n - 4 else if n =? 62 then 43 else 47)).
(** [base64.b64encode(s.encode()).decode()] of an ASCII string *)
Fixpoint b64encode (s : string) : string :=
  match s with
  | "" => ""
  | String a "" =>
      let x := Z.of_nat (code a) in
      String (b64_char (x / 4)) (String (b64_char (x mod 4 * 16)) "==")
  | String a (String b "") =>
      let x := Z.of_nat (code a) in let y := Z.of_nat (code b) in
      String (b64_char (x / 4)) (String (b64_char (x mod 4 * 16 + y / 16))
        (String (b64_char (y mod 16 * 4)) "="))
  | String a (String b (String c s')) =>
      let x := Z.of_nat (code a) in let y := Z.of_nat (code b) in let z := Z.of_nat (code c) in
      String (b64_char (x / 4)) (String (b64_char (x mod 4 * 16 + y / 16))
        (String (b64_char (y mod 16 * 4 + z / 64)) (String (b64_char (z mod 64)) (b64encode s'))))
  end.

Context `{CliEnv}.

Definition swssconfig (json_str : string) : M Result :=
  sh_run ("docker exec " +:+ replace_all "syncd" "swss" cli_syncd +:+ " bash -c "
          +:+ "'echo " +:+ b64encode json_str
          +:+ " | base64 -d > /tmp/swsscfg.json && swssconfig /tmp/swsscfg.json'").

Definition dq (s : string) : string := String dquote (s +:+ s1 dquote).

Definition fdb_set_json (vlan mac port : string) : string :=
  "[{" +:+ dq ("FDB_TABLE:Vlan" +:+ vlan +:+ ":" +:+ mac) +:+ ": {" +:+ dq "port" +:+ ": " +:+ dq port
  +:+ ", " +:+ dq "type" +:+ ": " +:+ dq "static" +:+ "}, " +:+ dq "OP" +:+ ": " +:+ dq "SET" +:+ "}]".
Definition fdb_del_json (vlan mac : string) : string :=
  "[{" +:+ dq ("FDB_TABLE:Vlan" +:+ vlan +:+ ":" +:+ mac) +:+ ": {}, " +:+ dq "OP" +:+ ": " +:+ dq "DEL" +:+ "}]".

Definition fdb_static_add (vlan mac port : string) (wait : bool) : M string :=
  let* swp := is_switchport_os in
  let* used_cli :=
    if swp && negb (String.eqb vlan "1") then
      let* '(c, _) := config_raw ("mac static add " +:+ mac +:+ " " +:+ port +:+ " " +:+ vlan) in
      ret (c =? 0)
    else ret false in
  when (negb used_cli) (swssconfig (fdb_set_json vlan mac port) ;;; ret tt) ;;;
  when wait
    (poll_until 20000 300
       (let* ks := db_keys "ASIC_DB" "ASIC_STATE:SAI_OBJECT_TYPE_FDB_ENTRY:*" in
        ret (existsb (fun k => contains (upper mac) (upper k)) ks)) ;;; ret tt) ;;;
  ret ("FDB_TABLE:Vlan" +:+ vlan +:+ ":" +:+ mac).

Definition fdb_static_del (vlan mac : string) : M Result :=
  let* swp := is_switchport_os in
  when swp
    (config_raw ("mac static del " +:+ vlan +:+ " " +:+ mac) ;;;
     let* gone := poll_tries 6 300
       (let* ks := db_keys "CONFIG_DB" ("FDB|Vlan" +:+ vlan +:+ "|*") in
        ret (negb (existsb (fun k => contains (lower mac) (lower k)) ks))) in
     when (negb gone)
       (sh_run ("sonic-db-cli CONFIG_DB DEL 'FDB|Vlan" +:+ vlan +:+ "|" +:+ lower mac +:+ "'") ;;; ret tt)) ;;;
  swssconfig (fdb_del_json vlan mac).

Definition neigh_set (ip mac dev : string) : M Result :=
  sh_run ("ip neigh replace " +:+ ip +:+ " lladdr " +:+ mac +:+ " dev " +:+ dev).
Definition neigh_del (ip dev : string) : M unit :=
  sh_run ("ip neigh del " +:+ ip +:+ " dev " +:+ dev) ;;; ret tt.
Definition vlan_add (vid : string) : M Result := config_check ("vlan add " +:+ vid).
Definition vlan_member_add (vid port : string) (tagged : bool) : M Result :=
  let* f := vlan_untagged_flag in
  let flag := if tagged then (if starts "-m" f then "-m tagged" else "") else f in
  config_check ("vlan member add " +:+ flag +:+ " " +:+ vid +:+ " " +:+ port).
Definition intf_ip_add (port cidr : string) : M Result :=
  config_check ("interface ip add " +:+ port +:+ " " +:+ cidr).
Definition intf_startup (port : string) : M Result :=
  let* r := sh_run ("sonic-db-cli CONFIG_DB HGET 'PORT|" +:+ port +:+ "' admin_status") in
  if String.eqb (strip (out r)) "up" then ret r
  else config_check ("interface startup " +:+ port).
Definition route_add (prefix nexthop : string) : M Result :=
  config_check ("route add prefix " +:+ prefix +:+ " nexthop " +:+ nexthop).
Definition neigh_add (ip mac dev : string) : M Result :=
  sh_run_check ("ip neigh replace " +:+ ip +:+ " lladdr " +:+ mac +:+ " dev " +:+ dev).
End Adapter.
