(* ===== verification/CliFacts.v ===== *)
(** * Facts about the CLI adapter

    The recursion of [config] through [_fixup] ends at the depth chosen, the
    rewriting is the identity on a community image, the L2 cache is only
    written after a verification, a hash printed by [sonic-db-cli] is
    recovered, and the table parser and the ACL translation are right. *)

From S2P Require Import Prelude PyStr PyStrFacts PyVal PyValFacts CliParse Device DeviceFacts Toy Cli.

(** ** Termination of the adapter *)

Section Termination.
Context `{Device} `{ShellEnv} `{!TimeLaws}.

Lemma total_sh_run_check c : total (sh_run_check c).
Proof. apply total_run_full. Qed.
Lemma total_sh_run c : total (sh_run c).
Proof. apply total_run_full. Qed.
Hint Resolve total_sh_run total_sh_run_check : total.

Lemma total_db_hgetall_json db k : total (db_hgetall_json db k).
Proof. unfold db_hgetall_json. total_go. Qed.
Hint Resolve total_db_hgetall_json : total.
Lemma total_db_hgetall db k : total (db_hgetall db k).
Proof. unfold db_hgetall. total_go. Qed.
Hint Resolve total_db_hgetall : total.
Lemma total_hget db k f : total (hget db k f).
Proof. unfold hget. total_go. Qed.
Lemma total_db_keys db p : total (db_keys db p).
Proof. unfold db_keys. total_go. Qed.
Hint Resolve total_hget total_db_keys : total.
Lemma total_has_keys db p : total (has_keys db p).
Proof. unfold has_keys. total_go. Qed.
Lemma total_key_part i k : total (key_part i k).
Proof. unfold key_part. total_go. Qed.
Hint Resolve total_has_keys total_key_part : total.
Lemma total_is_port_l2 n : total (is_port_l2 n).
Proof. unfold is_port_l2. total_go. Qed.
Lemma total_hybrid_ladder_add v p : total (hybrid_ladder_add v p).
Proof. unfold hybrid_ladder_add. total_go. Qed.
Lemma total_hybrid_ladder_del v p : total (hybrid_ladder_del v p).
Proof. unfold hybrid_ladder_del. total_go. Qed.
Lemma total_stp_locked : total stp_locked.
Proof. unfold stp_locked. total_go. Qed.
Lemma total_ip_del_cli : total ip_del_cli.
Proof. unfold ip_del_cli. total_go. Qed.
Lemma total_mirror_del_cli : total mirror_del_cli.
Proof. unfold mirror_del_cli. total_go. Qed.
Lemma total_span_dir_opt : total span_dir_opt.
Proof. unfold span_dir_opt. total_go. Qed.
Lemma total_acl_table_cli : total acl_table_cli.
Proof. unfold acl_table_cli. total_go. Qed.
Hint Resolve total_is_port_l2 total_hybrid_ladder_add total_hybrid_ladder_del total_stp_locked
  total_ip_del_cli total_mirror_del_cli total_span_dir_opt total_acl_table_cli : total.
Lemma total_fixup_names args : total (fixup_names args).
Proof. unfold fixup_names. total_go. Qed.
Hint Resolve total_fixup_names : total.

(** The rewritten command is the original, or none of the [vlan] family. *)
Definition not_v (s : string) : Prop := starts "v" s = false.

Lemma not_v_app (p s : string) : nonempty p = true -> not_v p -> not_v (p +:+ s).
Proof. unfold not_v. destruct p as [|c p]; [done|]. done. Qed.

Lemma starts_v p s : starts p s = true -> starts "v" p = true -> starts "v" s = true.
Proof.
  intros [t ->]%starts_spec Hp. destruct p as [|c p]; [done|]. done.
Qed.

Lemma replace1_starts old new s :
  starts old s = true -> replace1 old new s = new +:+ str_drop (slen old) s.
Proof. intros Hs. destruct s; cbn [replace1]; by rewrite Hs. Qed.

Lemma not_v_starts p s : starts p s = true -> nonempty p = true -> not_v p -> not_v s.
Proof. intros [t ->]%starts_spec Hne Hp. by apply not_v_app. Qed.

(** the first token of a command starts like the command *)
Lemma split_ws_go_head s cur :
  nonempty cur = true -> exists t l, split_ws_go s cur = t :: l /\ starts cur t = true.
Proof.
  revert cur. induction s as [|c s IH]; intros cur Hc; cbn [split_ws_go].
  - rewrite Hc. exists cur, []. split; [done|]. apply starts_spec. exists "". by rewrite sapp_nil_r.
  - destruct (is_space c).
    + rewrite Hc. exists cur. eexists. split; [done|]. apply starts_spec. exists "". by rewrite sapp_nil_r.
    + destruct (IH (cur +:+ s1 c)) as (t & l & -> & [u ->]%starts_spec).
      { by destruct cur. }
      exists ((cur +:+ s1 c) +:+ u), l. split; [done|]. rewrite sapp_assoc. apply starts_app.
Qed.

Lemma split_ws_head c s :
  is_space c = false -> exists t l, split_ws (String c s) = String c t :: l.
Proof.
  intros Hc. unfold split_ws. cbn [split_ws_go]. rewrite Hc.
  destruct (split_ws_go_head s ("" +:+ s1 c) ltac:(done)) as (t & l & -> & [u Hu]%starts_spec).
  exists u, l. by rewrite Hu.
Qed.

Lemma rewrite_acl_add_not_v args : not_v args -> not_v (rewrite_acl_add args).
Proof.
  intros Ha. unfold rewrite_acl_add. repeat case_match; try done; simplify_eq;
    rewrite ?sapp_assoc; by apply not_v_app.
Qed.

Lemma join_head_not_v c t l : not_v (s1 c) -> not_v (join " " (String c t :: l)).
Proof.
  unfold not_v, s1. cbn [starts]. intros Hc. destruct l; cbn [join]; [done|].
  change (String c t +:+ ?x) with (String c (t +:+ x)). by cbn [starts].
Qed.

Lemma yields_fixup_names args : yields (fun s => s = args \/ not_v s) (fixup_names args).
Proof.
  unfold fixup_names.
  apply (yields_bind (fun s => s = args \/ not_v s)).
  { destruct (starts "interface ip remove" args) eqn:E; [|apply yields_ret; auto].
    eapply yields_bind; [apply yields_any|]. intros b _. apply yields_ret. destruct b; [|auto].
    right. rewrite replace1_starts by done. by apply not_v_app. }
  intros s1 Hs1. apply (yields_bind (fun s => s = args \/ not_v s)).
  { destruct (starts "mirror_session remove" s1) eqn:E; [|apply yields_ret; auto].
    eapply yields_bind; [apply yields_any|]. intros b _. apply yields_ret. destruct b; [|auto].
    right. rewrite replace1_starts by done. by apply not_v_app. }
  intros s2 Hs2. apply (yields_bind (fun s => s = args \/ not_v s)).
  { destruct (starts "mirror_session span add" s2) eqn:E; [|apply yields_ret; auto].
    eapply yields_bind; [apply yields_any|]. intros b _. apply yields_ret. destruct b; [|auto].
    assert (not_v s2) as Hv by by eapply not_v_starts.
    apply starts_spec in E as [t ->].
    destruct (split_ws_head "m" ("irror_session span add" +:+ t)) as (u & l & Hsp); [done|].
    change (String "m" ("irror_session span add" +:+ t)) with ("mirror_session span add" +:+ t) in Hsp.
    rewrite Hsp. destruct (rev (String "m" u :: l)) as [|x front] eqn:Er; [auto|].
    case_match; [|auto]. right. destruct (rev front) as [|y fr] eqn:Ef; [done|].
    apply (f_equal (@rev _)) in Er. rewrite rev_involutive in Er. cbn [rev] in Er. rewrite Ef in Er.
    simplify_eq/=. destruct fr; simpl; done. }
  intros s3 Hs3. repeat case_match; try (apply yields_ret; auto);
    (eapply yields_bind; [apply yields_any|]); intros b _; apply yields_ret;
    destruct b; auto; right.
  all: first [apply rewrite_acl_add_not_v; by eapply not_v_starts | by apply not_v_app
    | by eapply not_v_starts].
Qed.

(** the commands whose adaptation calls [config] *)
Definition l3_cmd (a : string) : bool := starts "interface ip add" a || starts "interface vrf bind" a.
Definition recursive_cmd (a : string) : bool := l3_cmd a || starts "vlan member add" a.
Definition leaf_cmd (a : string) : bool := negb (recursive_cmd a || starts "vlan member del" a).

Section WithConfig.
Context (cfg : bool -> string -> M Result).

Lemma not_v_member s : not_v s -> starts "vlan member add" s = false /\ starts "vlan member del" s = false.
Proof.
  unfold not_v. intros Hs. split; apply not_true_iff_false; intros Ht;
    eapply starts_v in Ht; (done || congruence).
Qed.

Lemma total_fixup_gen args :
  total (fixup_l3 cfg args) ->
  (starts "vlan member add" args = true -> total (fixup_member_add cfg args)) ->
  (starts "vlan member del" args = true \/ starts "vlan member add" args = true ->
   total (is_switchport_os_r cfg)) ->
  total (fixup_r cfg args).
Proof.
  intros H3 Ha Hd. unfold fixup_r. apply total_bind; [done | intros _].
  eapply total_bind_y; [apply total_fixup_names | apply yields_fixup_names|]. intros s Hs.
  assert (forall a, starts "vlan member del" a = false \/ total (is_switchport_os_r cfg) ->
    total (fixup_member_del cfg a)) as Hdel.
  { intros a Hor. unfold fixup_member_del. destruct Hor as [-> | Hsw]; [apply total_ret|]. total_go. }
  destruct (starts "vlan member add" s) eqn:Ea.
  - destruct Hs as [-> | Hs]; [|apply not_v_member in Hs as [? _]; congruence].
    apply total_bind; [auto|]. intros []; [apply total_ret | apply Hdel; auto].
  - unfold fixup_member_add. rewrite Ea. cbn [negb]. rewrite bind_ret. apply Hdel.
    destruct (starts "vlan member del" s) eqn:Ed; [|auto]. right.
    destruct Hs as [-> | Hs]; [auto | apply not_v_member in Hs as [_ ?]; congruence].
Qed.

Lemma fixup_l3_no args : l3_cmd args = false -> fixup_l3 cfg args = ret tt.
Proof. unfold l3_cmd, fixup_l3. by intros ->. Qed.

(** level 0: no recursive call *)
Lemma total_fixup_leaf args : leaf_cmd args = true -> total (fixup_r cfg args).
Proof.
  unfold leaf_cmd, recursive_cmd. intros Hl. break_hyps. apply total_fixup_gen.
  - by rewrite fixup_l3_no; [apply total_ret|].
  - congruence.
  - intros [?|?]; congruence.
Qed.

Hypothesis probe : total (cfg false "interface link-mode --help").

Lemma total_is_switchport_os_r : total (is_switchport_os_r cfg).
Proof. unfold is_switchport_os_r. total_go. Qed.
Hint Resolve total_is_switchport_os_r : total.

(** level 1: only the help probe is called *)
Lemma total_fixup_del args : recursive_cmd args = false -> total (fixup_r cfg args).
Proof.
  unfold recursive_cmd. intros Hl. break_hyps. apply total_fixup_gen.
  - by rewrite fixup_l3_no; [apply total_ret|].
  - congruence.
  - auto with total.
Qed.

(** the help page of [vlan member add] names no port *)
Lemma total_fixup_help : total (fixup_r cfg "vlan member add --help").
Proof.
  apply total_fixup_gen; [by rewrite fixup_l3_no; [apply total_ret|] | intros _ | auto with total].
  set (a := "vlan member add --help").
  assert (split_ws a = ["vlan"; "member"; "add"; "--help"]) as Hs by reflexivity.
  unfold fixup_member_add. replace (starts "vlan member add" a) with true by done. cbn [negb].
  replace (fixup_vlan1 cfg a) with (ret (H := H) false) by (unfold fixup_vlan1; by rewrite Hs).
  rewrite bind_ret.
  eapply (total_bind_y (fun s => in_words " -u " s = false)).
  - unfold fixup_tagged, ensure_l2_for_member_add_r.
    assert (member_toks a = []) as -> by reflexivity.
    rewrite Hs. change (rev (positional (drop 3 ["vlan"; "member"; "add"; "--help"]) false)) with (@nil string).
    cbn [rev]. total_go.
  - unfold fixup_tagged. eapply yields_bind; [apply yields_any|]. intros [] _.
    + eapply yields_bind; [apply yields_any|]. intros _ _. case_match; [by apply yields_ret|].
      eapply yields_bind; [apply yields_any|]. intros _ _. by apply yields_ret.
    + by apply yields_ret.
  - intros s Hw. unfold fixup_untagged. rewrite Hw. apply total_ret.
Qed.

Hypothesis calls : forall a, recursive_cmd a = false -> total (cfg false a).
Hypothesis help : total (cfg false "vlan member add --help").

Lemma total_config_raw_r a : recursive_cmd a = false -> total (config_raw_r cfg a).
Proof. intros Ha. unfold config_raw_r. apply total_bind; [auto | intros; apply total_ret]. Qed.

Lemma total_restore_bridge_home_r n : total (restore_bridge_home_r cfg n).
Proof.
  unfold restore_bridge_home_r. total_go; auto with total; try (by apply total_config_raw_r).
Qed.
Hint Resolve total_restore_bridge_home_r : total.

Lemma total_ensure_port_l2_r n : total (ensure_port_l2_r cfg n).
Proof. unfold ensure_port_l2_r. total_go. Qed.
Hint Resolve total_ensure_port_l2_r : total.

Lemma total_restore_port_l3_r n : total (restore_port_l3_r cfg n).
Proof. unfold restore_port_l3_r. total_go; try (by apply total_config_raw_r). Qed.
Hint Resolve total_restore_port_l3_r : total.

Lemma total_vlan_untagged_flag_r : total (vlan_untagged_flag_r cfg).
Proof. unfold vlan_untagged_flag_r. total_go. Qed.
Hint Resolve total_vlan_untagged_flag_r : total.

Lemma total_fixup_member_add args : total (fixup_member_add cfg args).
Proof.
  unfold fixup_member_add, fixup_vlan1, fixup_tagged, fixup_untagged, ensure_l2_for_member_add_r.
  total_go; try (by apply total_config_raw_r).
Qed.

(** level 2: any command *)
Lemma total_fixup_any args : total (fixup_r cfg args).
Proof.
  apply total_fixup_gen; intros; [|apply total_fixup_member_add | auto with total].
  unfold fixup_l3. total_go.
Qed.
End WithConfig.

Lemma total_config_n_leaf n check a : leaf_cmd a = true -> total (config_n (S n) check a).
Proof.
  intros Ha. cbn [config_n]. unfold cmdline_r. total_go; auto with total. by apply total_fixup_leaf.
Qed.

Lemma total_config_n_del n check a : recursive_cmd a = false -> total (config_n (S (S n)) check a).
Proof.
  intros Ha. cbn [config_n]. unfold cmdline_r. total_go; auto with total.
  apply total_fixup_del; [by apply (total_config_n_leaf n) | done].
Qed.

Lemma total_config_n_help n check : total (config_n (S (S n)) check "vlan member add --help").
Proof.
  unfold config_n. fold config_n. unfold cmdline_r.
  apply total_bind; [|intros; apply total_run_full].
  apply total_bind; [|intros; apply total_ret].
  apply total_fixup_help. by apply (total_config_n_leaf n).
Qed.

Lemma total_config_n_any n check a : total (config_n (S (S (S n))) check a).
Proof.
  cbn [config_n]. unfold cmdline_r. total_go; auto with total.
  apply total_fixup_any.
  - by apply (total_config_n_leaf (S n)).
  - intros b Hb. by apply (total_config_n_del n).
  - apply total_config_n_help.
Qed.
End Termination.

(** ** Rewriting *)

Section Rewriting.
Context `{Device} `{ShellEnv}.

(** the probe caches of a community image whose [member add] takes [-u] *)
Definition community (c : CliState) : Prop :=
  c_swp_os c = Some false /\ c_ipdel c = Some false /\ c_mirdel c = Some false /\
  c_spandir c = Some false /\ c_acl_tbl c = Some false /\ c_vm_flag c = Some "-u".

(** a step whose value is known *)
Lemma bind_step {A B} (m : M A) (k : A -> M B) a w w' :
  m w = (Val a, w') -> bind m k w = k a w'.
Proof. unfold bind. by intros ->. Qed.

Lemma fixup_names_community args w :
  community (w_cli w) -> fixup_names args w = (Val args, w).
Proof.
  intros (Hs & Hi & Hm & Hd & Ha & _).
  assert (ip_del_cli w = (Val false, w)) as Pi by (unfold ip_del_cli, bind, get_cli; by rewrite Hi).
  assert (mirror_del_cli w = (Val false, w)) as Pm by (unfold mirror_del_cli, bind, get_cli; by rewrite Hm).
  assert (span_dir_opt w = (Val false, w)) as Pd by (unfold span_dir_opt, bind, get_cli; by rewrite Hd).
  assert (acl_table_cli w = (Val false, w)) as Pa by (unfold acl_table_cli, bind, get_cli; by rewrite Ha).
  unfold fixup_names.
  do 3 (rewrite (bind_step _ _ args w w); [|match goal with |- (if ?c then _ else _) _ = _ => destruct c end;
     [by rewrite (bind_step _ _ _ _ _ Pi) || by rewrite (bind_step _ _ _ _ _ Pm)
        || by rewrite (bind_step _ _ _ _ _ Pd) | done]]).
  destruct (starts "acl add table" args); [by rewrite (bind_step _ _ _ _ _ Pa)|].
  destruct (starts "acl remove table" args); [by rewrite (bind_step _ _ _ _ _ Pa) | done].
Qed.

Lemma is_switchport_cached cfg b w :
  c_swp_os (w_cli w) = Some b -> is_switchport_os_r cfg w = (Val b, w).
Proof. intros Hb. unfold is_switchport_os_r, bind, get_cli. by rewrite Hb. Qed.

Lemma fixup_community cfg args w :
  community (w_cli w) -> fixup_r cfg args w = (Val args, w).
Proof.
  intros Hc. pose proof Hc as (Hs & _ & _ & _ & _ & Hf).
  assert (forall B (k : bool -> M B), bind (is_switchport_os_r cfg) k w = k false w) as Hswp.
  { intros B k. apply bind_step. by apply is_switchport_cached. }
  unfold fixup_r. rewrite (bind_step _ _ tt w w).
  2:{ unfold fixup_l3, when. destruct (_ || _); [|done]. destruct (nth_error _ _) as [p|]; [|done].
      destruct (starts "Ethernet" p); [by rewrite Hswp | done]. }
  rewrite (bind_step _ _ args w w) by by apply fixup_names_community.
  assert (fixup_member_del cfg args w = (Val args, w)) as Hdel.
  { unfold fixup_member_del. destruct (negb (starts "vlan member del" args)); [done | by rewrite Hswp]. }
  rewrite (bind_step _ _ (inr args) w w); [done|].
  unfold fixup_member_add. destruct (negb (starts "vlan member add" args)); [done|].
  rewrite (bind_step _ _ false w w).
  2:{ unfold fixup_vlan1. destruct (List.filter isdigit (split_ws args)) as [|n l]; [done|].
      destruct (String.eqb n "1"); [by rewrite Hswp | done]. }
  rewrite (bind_step _ _ args w w) by (unfold fixup_tagged; by rewrite Hswp).
  unfold fixup_untagged. destruct (negb (in_words " -u " args)); [done|]. rewrite Hswp.
  rewrite (bind_step _ _ "-u" w w); [done|].
  unfold vlan_untagged_flag_r. rewrite Hswp. unfold bind, get_cli. by rewrite Hf.
Qed.

(** [ensure_port_l2] caches a port only behind a positive verification: a name
    that enters the cache was seen in an L2 state by [is_port_l2] last. *)
Lemma restore_bridge_home_true cfg n w w' :
  restore_bridge_home_r cfg n w = (Val true, w') ->
  exists w1, is_port_l2 n w1 = (Val true, w').
Proof.
  unfold restore_bridge_home_r. intros E. run_inv.
  match goal with H : (if ?b then ret true else _) _ = _ |- _ => destruct b end; run_inv.
  - match goal with H : (if ?c then _ else ret false) _ = _ |- _ => destruct c end; run_inv.
    eauto using poll_tries_true.
  - eauto using poll_tries_true.
Qed.
End Rewriting.

(** ** Properties *)

Section Properties.
Context `{Device} `{ShellEnv}.

Lemma run_ok `{!LiveShell} cmd cont check t stdin w d o e :
  dev_exec (Call cont cmd t stdin) (w_dev w) = (Exited 0 o e, d) ->
  run_full cmd cont check t stdin w =
    (Val (result 0 o e), mkWorld d (w_trace w ++ [Call cont cmd t stdin]) (w_cli w) (w_lb w)).
Proof.
  intros He. rewrite run_full_native. unfold run_native. rewrite live. unfold bind, subprocess.
  rewrite He. by rewrite andb_false_r.
Qed.

Lemma py_repr_framed d : exists m, py_repr d = String "{" (m +:+ s1 "}").
Proof. unfold py_repr. eauto. Qed.

Lemma strip_py_repr d :
  strip (rstrip_chars (s1 lf) (py_repr d +:+ s1 lf)) = py_repr d.
Proof.
  destruct (py_repr_framed d) as [m ->]. unfold rstrip_chars. rewrite rstrip_by_snoc.
  change (char_in lf (s1 lf)) with true. cbn iota.
  change (String "{" (m +:+ s1 "}")) with ((String "{" m) +:+ s1 "}") at 1.
  rewrite rstrip_by_snoc. change (char_in "}" (s1 lf)) with false. cbn iota.
  by apply strip_by_framed.
Qed.
End Properties.

(** C10: the adapter's mutual recursion ends.  Adapting a command may probe the
    OS or move a port, which issues further [config] commands that are adapted
    in turn; the depth chosen is never exhausted and every polling loop ends,
    so [config] returns or raises on any command and any device. *)
Theorem config_terminates `{Device} `{ShellEnv} `{!TimeLaws} (check : bool) (args : string) (w : World) :
  fst (config_n config_depth check args w) <> Hang.
Proof. apply (total_config_n_any 0 check args). Qed.

Lemma config_terminates_witness :
  fst (@config_n (table_device (fun _ => ok_out "bridge route")) plain_shell config_depth true
         "vlan member add -u 10 Ethernet4" (@world (table_device _) 0 cli_init)) <> Hang.
Proof. apply config_terminates. Defined.

(** On a community image the adapter is transparent: the command it is
    given is run unchanged (an [interface ip add] is only fed its
    confirmation), nothing else is run and no adapter state changes. *)
Theorem config_community_transparent `{Device} `{ShellEnv} `{!LiveShell} (args : string) (w : World) :
  community (w_cli w) -> starts "__toplevel__ " args = false ->
  exists r d, config_raw args w =
    (Val r, mkWorld d
       (w_trace w ++ [Call None ((if starts "interface ip add" args then "echo y | " else "") +:+ "config " +:+ args)
                        30000 None]) (w_cli w) (w_lb w)).
Proof.
  intros Hc Ht. unfold config_raw, config_raw_r, config_depth. set (n := 2%nat).
  destruct (run_live ((if starts "interface ip add" args then "echo y | " else "") +:+ "config " +:+ args)
              None 30000 None w) as (r & d & Hr).
  exists (rc r, r), d. refine (bind_step _ _ r w _ _).
  etransitivity; [|exact Hr].
  refine (bind_step _ _ ((if starts "interface ip add" args then "echo y | " else "") +:+ "config " +:+ args)
            w w _).
  unfold cmdline_r. rewrite Ht.
  rewrite (bind_step _ _ args w w) by by apply fixup_community.
  unfold ret. by destruct (starts "interface ip add" args).
Qed.

Definition community_cli : CliState :=
  mkCli ∅ None (Some false) (Some false) None (Some false) (Some false) (Some false) (Some "-u") None false.

Lemma config_community_transparent_witness :
  let D := table_device (fun _ => ok_out "") in
  let w := @world D 0 community_cli in
  exists r d, @config_raw D plain_shell "vlan member add -u 10 Ethernet4" w =
    (Val r, mkWorld d (w_trace w ++ [Call None ("" +:+ "config " +:+ "vlan member add -u 10 Ethernet4") 30000 None])
              (w_cli w) (w_lb w)).
Proof.
  intros D w.
  apply (@config_community_transparent D plain_shell plain_live "vlan member add -u 10 Ethernet4" w);
    [repeat split | reflexivity].
Defined.

(** the run of [db_hgetall] on a hash printed as a Python dictionary *)
Lemma db_hgetall_repr `{Device} `{ShellEnv} `{!LiveShell} (db key : string)
    (h : pydict string string) (w : World) (d' : dev) (e : string) (o : string) :
  dwf h -> o = py_repr h +:+ s1 lf ->
  dev_exec (Call None ("sonic-db-cli " +:+ db +:+ " HGETALL '" +:+ key +:+ "'") 30000 None) (w_dev w)
    = (Exited 0 o e, d') ->
  db_hgetall db key w = (Val h, mkWorld d' (w_trace w ++
     [Call None ("sonic-db-cli " +:+ db +:+ " HGETALL '" +:+ key +:+ "'") 30000 None]) (w_cli w) (w_lb w)).
Proof.
  intros Hh -> He. unfold db_hgetall, sh_run_check.
  rewrite (bind_step _ _ _ _ _ (run_ok _ _ true _ _ _ _ _ _ He)).
  change (out (result 0 (py_repr h +:+ s1 lf) e)) with (rstrip_chars (s1 lf) (py_repr h +:+ s1 lf)).
  cbv zeta. rewrite strip_py_repr. destruct (py_repr_framed h) as [m Hm].
  replace (nonempty (py_repr h)) with true by by rewrite Hm.
  replace (starts "{" (py_repr h)) with true by by rewrite Hm. cbn [negb].
  by rewrite literal_eval_repr_dict.
Qed.

(** [db_hgetall] recovers the redis hash: when [sonic-db-cli] prints the
    hash as a Python dictionary (whatever its keys and values, quotes, line
    feeds and backslashes included), the dictionary returned is the hash. *)
Theorem db_hgetall_recovers `{Device} `{ShellEnv} `{!LiveShell} (db key : string)
    (h : pydict string string) (w : World) (d' : dev) :
  dwf h ->
  dev_exec (Call None ("sonic-db-cli " +:+ db +:+ " HGETALL '" +:+ key +:+ "'") 30000 None) (w_dev w)
    = (Exited 0 (py_repr h +:+ s1 lf) "", d') ->
  fst (db_hgetall db key w) = Val h.
Proof. intros Hh He. by rewrite (db_hgetall_repr _ _ _ _ _ _ _ Hh eq_refl He). Qed.

Lemma db_hgetall_recovers_witness :
  let h := [("oper", "it's"); ("a", String lf "x")] in
  let D := table_device (fun _ => ok_out (py_repr h +:+ s1 lf)) in
  fst (@db_hgetall D plain_shell "STATE_DB" "T|k" (@world D 0 cli_init)) = Val h.
Proof.
  intros h D. apply (@db_hgetall_recovers D plain_shell plain_live "STATE_DB" "T|k" h _ 0).
  - apply (bool_decide_unpack _). vm_compute. exact I.
  - reflexivity.
Defined.

(** C34: [ensure_port_l2] writes the L2 cache only behind a verification: a port
    that was not cached either ends with the restoration reporting failure and
    the cache as it left it, or it is added to the cache right after
    [is_port_l2] answered true on the state the switch is left in. *)
Theorem ensure_port_l2_verified `{Device} `{ShellEnv} (n : string) (w w' : World) :
  c_swp_os (w_cli w) = Some true -> n ∉ c_bridged (w_cli w) ->
  ensure_port_l2 n w = (Val tt, w') ->
  restore_bridge_home n w = (Val false, w')
  \/ exists w1 w2, is_port_l2 n w1 = (Val true, w2)
       /\ w' = mkWorld (w_dev w2) (w_trace w2) (bridged_add n (w_cli w2)) (w_lb w2).
Proof.
  intros Hs Hn. unfold ensure_port_l2, ensure_port_l2_r.
  rewrite (bind_step _ _ true w w) by by apply is_switchport_cached. cbn [negb].
  rewrite (bind_step _ _ (w_cli w) w w) by done. rewrite bool_decide_false by done.
  intros E. run_inv. unfold restore_bridge_home. match goal with H : restore_bridge_home_r _ _ _ = (Val ?a, _) |- _ =>
    destruct a end.
  - right. match goal with H : restore_bridge_home_r _ _ _ = _ |- _ =>
      apply restore_bridge_home_true in H as [w1 Hw1] end.
    unfold modify_cli in *. simplify_eq. eauto.
  - left. by run_inv.
Qed.

Lemma ensure_port_l2_verified_witness :
  let D := table_device (fun _ => ok_out "x") in
  let w := @world D 0 (put_swp_os true cli_init) in
  let w' := snd (@ensure_port_l2 D plain_shell "Ethernet0" w) in
  @restore_bridge_home D plain_shell "Ethernet0" w = (Val false, w')
  \/ exists w1 w2, @is_port_l2 D plain_shell "Ethernet0" w1 = (Val true, w2)
       /\ w' = mkWorld (w_dev w2) (w_trace w2) (bridged_add "Ethernet0" (w_cli w2)) (w_lb w2).
Proof.
  intros D w w'.
  apply (@ensure_port_l2_verified D plain_shell "Ethernet0" w w').
  - reflexivity.
  - apply (bool_decide_unpack _). vm_compute. exact I.
  - vm_compute. reflexivity.
Defined.
