(* ===== verification/CliFrame.v ===== *)
(** * What the CLI adapter leaves alone

    However deep its rewrites recurse, an adapter command touches nothing but
    the device and the adapter's own caches.  The lemma is proved once for any
    preorder on the worlds that the shell, the sleeps and the caches respect,
    then used for the loopback record. *)

From S2P Require Import Prelude PyStr Device DeviceFacts CliParse Cli.

(** follow a program made of adapter operations down to the shell *)
Ltac frame_step :=
  first [ progress steps_go
        | progress unfold config_raw_r, is_switchport_os_r, restore_bridge_home_r, ensure_port_l2_r, restore_port_l3_r,
            vlan_untagged_flag_r, ensure_l2_for_member_add_r, fixup_l3, fixup_names, fixup_vlan1, fixup_tagged,
            fixup_untagged, fixup_member_add, fixup_member_del, fixup_r, cmdline_r, is_port_l2, hybrid_ladder_add,
            hybrid_ladder_del, stp_locked, ip_del_cli, mirror_del_cli, span_dir_opt, acl_table_cli, has_keys, hget,
            key_part, db_keys, db_hgetall, db_hgetall_json, sh_run, sh_run_check, sh_run_in, sh_run_timeout,
            intf_startup, neigh_set, neigh_del, swssconfig, fdb_static_add, fdb_static_del, config_raw, config_check,
            is_switchport_os ].
Ltac frame_go := repeat frame_step.

Section Frame.
Context `{Device} `{ShellEnv} `{CliEnv} (R : World -> World -> Prop) `{!PreOrder R}.
Context (R_run : forall cmd cont check t stdin, steps R (run_full cmd cont check t stdin)).
Context (R_sleep : forall t, steps R (sleep t)).
Context (R_cli : forall f, steps R (modify_cli f)).
#[local] Hint Resolve R_run R_sleep R_cli : steps.

Lemma frame_config n check a : steps R (config_n n check a).
Proof.
  revert check a. induction n as [|n IH]; intros check a; cbn [config_n]; [auto with steps|].
  frame_go.
Qed.
#[local] Hint Resolve frame_config : steps.
Lemma frame_config_raw a : steps R (config_raw a).
Proof. frame_go. Qed.
Lemma frame_intf_startup p : steps R (intf_startup p).
Proof. frame_go. Qed.
Lemma frame_neigh_set a b c : steps R (neigh_set a b c).
Proof. frame_go. Qed.
Lemma frame_neigh_del a b : steps R (neigh_del a b).
Proof. frame_go. Qed.
Lemma frame_fdb_static_add a b c d : steps R (fdb_static_add a b c d).
Proof. frame_go. Qed.
Lemma frame_fdb_static_del a b : steps R (fdb_static_del a b).
Proof. frame_go. Qed.
End Frame.
