(* ===== verification/ConfigGuard.v ===== *)
(** * Rollback of a test's configuration (framework/config_guard.py)

    A test registers an undo command for every change; leaving the guard runs
    them last-registered first, then runs the ones that failed once more.  The
    list of undo commands is explicit state ([_undo]); a [verify] callback is an
    operation of the test. *)

From S2P Require Import Prelude PyStr PyStrFacts Device DeviceFacts Toy Cli CliFacts.

(** [os.environ.get("FVT_LANE")], [os.environ.get("FVT_WORKER")] *)
Class SnapEnv := { snap_lane : option string; snap_worker : option string }.

Definition SNAP `{SnapEnv} : string :=
  if bool_decide (snap_lane = Some "safe") then "/tmp/dut_test_snapshot-safe.json"
  else if truthy snap_worker then "/tmp/dut_test_snapshot-w" +:+ or_empty snap_worker +:+ ".json"
  else "/tmp/dut_test_snapshot.json".

Section Guard.
Context `{Device} `{ShellEnv} `{SnapEnv}.

(** [(cmd, verify)]; the command may be [None] *)
Definition undo_item : Type := option string * option (M bool).

(** [__enter__]: a guard with no undo command *)
Definition guard_enter : M (list undo_item) :=
  sh_run ("config save -y " +:+ SNAP) ;;; ret [].

Definition defer_undo (undo : list undo_item) (cmd : option string) (verify : option (M bool))
  : list undo_item := undo ++ [(cmd, verify)].

Definition IDEMPOTENT : list string :=
  ["already a member"; "already exist"; "is not a member"; "does not exist"; "doesn't exist";
   "not configured"].

Definition benign (r : Result) : bool :=
  let s := lower (err r +:+ s1 lf +:+ out r) in
  if contains "no such command" s then false
  else existsb (fun t => contains (lower t) s) IDEMPOTENT.

Definition run_undo (cmd : string) (verify : option (M bool)) : M bool :=
  let* '(c, r) := config_raw cmd in
  match verify with
  | Some v => try_except v (fun _ => ret false)
  | None => ret ((c =? 0) || benign r)
  end.

(** one pass over the commands; returns the ones that failed, in order *)
Definition undo_pass (items : list (string * option (M bool))) : M (list (string * option (M bool))) :=
  fold_m (fun failed it => let* ok := run_undo (fst it) (snd it) in
                           ret (if ok then failed else failed ++ [it])) items [].

(** [if item is None or item[0] is None: continue] *)
Definition undo_cmds (undo : list undo_item) : list (string * option (M bool)) :=
  omap (fun it => option_map (fun c => (c, snd it)) (fst it)) undo.

(** [__exit__]: the list is cleared; [False] re-raises the test's exception *)
Definition guard_exit (undo : list undo_item) : M (list undo_item * bool) :=
  let* failed := undo_pass (undo_cmds (rev undo)) in
  for_each failed (fun it => run_undo (fst it) (snd it) ;;; ret tt) ;;;
  ret ([], false).

Definition manual_full_restore : M unit :=
  sh_run_timeout 180000 ("config reload " +:+ SNAP +:+ " -y -f") ;;; ret tt.
End Guard.

(** ** The contract of rollback

    The commands of one guard, in the order they run.  [Done c w] says the
    change [c] undoes is gone in [w]; [dep d c]: [c] is refused until [d] is
    undone.  The device undoes what it is asked once nothing blocks it, and
    nothing undone comes back. *)
Section Contract.
Context `{Device} `{ShellEnv}.

Notation cmd := (string * option (M bool))%type.
Definition do_undo (c : cmd) : M bool := run_undo (fst c) (snd c).

Class UndoLaws (L : list cmd) (Inv : World -> Prop) (Done : cmd -> World -> Prop)
    (dep : cmd -> cmd -> Prop) : Prop := {
  undo_answers : forall c w, c ∈ L -> Inv w ->
    (exists b, fst (do_undo c w) = Val b) /\ Inv (snd (do_undo c w));
  undo_done : forall c w, c ∈ L -> Inv w -> (forall d, dep d c -> Done d w) ->
    fst (do_undo c w) = Val true;
  undo_true : forall c w, c ∈ L -> Inv w -> fst (do_undo c w) = Val true -> Done c (snd (do_undo c w));
  undo_keeps : forall c d w, c ∈ L -> Inv w -> Done d w -> Done d (snd (do_undo c w))
}.

(** The order of the commands violates the dependencies at most one level
    deep: the commands of [A] come after what blocks them, and the others are
    blocked by commands of [A] or by commands before them. *)
Definition one_level (dep : cmd -> cmd -> Prop) (A : cmd -> Prop) (l : list cmd) : Prop :=
  (forall c, A c -> c ∈ l) /\
  forall l1 c l2, l = l1 ++ c :: l2 -> forall d, dep d c ->
    (A c -> A d /\ d ∈ l1) /\ (A d \/ d ∈ l1).

Context (L : list cmd) (Inv : World -> Prop) (Done : cmd -> World -> Prop) (dep : cmd -> cmd -> Prop)
  `{!UndoLaws L Inv Done dep}.

(** what holds of the failed commands [F] after the prefix [P] was run *)
Definition pass_inv (A : cmd -> Prop) (P F : list cmd) (w : World) : Prop :=
  Inv w /\ (forall c, c ∈ P -> A c -> Done c w) /\ (forall c, c ∈ P -> Done c w \/ c ∈ F) /\
  (forall f1 b f2, F = f1 ++ b :: f2 -> exists p1 p2, P = p1 ++ b :: p2 /\
      forall x, x ∈ p1 -> Done x w \/ x ∈ f1).

Lemma app_cons_snoc {X} (l1 l2 F : list X) (b y : X) :
  F ++ [y] = l1 ++ b :: l2 -> (exists l2', l2 = l2' ++ [y] /\ F = l1 ++ b :: l2') \/ (l1 = F /\ b = y /\ l2 = []).
Proof.
  destruct l2 as [|z l2 _] using rev_ind; intros E.
  - right. by apply app_inj_tail in E as [-> ->].
  - left. rewrite app_comm_cons, app_assoc in E. apply app_inj_tail in E as [-> ->]. eauto.
Qed.

Lemma pass_step A P F w c :
  c ∈ L -> pass_inv A P F w ->
  (A c -> forall d, dep d c -> A d /\ d ∈ P) ->
  exists b, fst (do_undo c w) = Val b /\
    pass_inv A (P ++ [c]) (if b then F else F ++ [c]) (snd (do_undo c w)).
Proof.
  intros HL (HI & HA & HD & HF) Hc. destruct (undo_answers c w HL HI) as [[b Hb] HI'].
  exists b. split; [done|].
  assert (Hk : forall x, Done x w -> Done x (snd (do_undo c w))) by (intros; by apply undo_keeps).
  assert (HcA : A c -> Done c (snd (do_undo c w))).
  { intros Ac. apply undo_true; [done..|]. apply undo_done; [done..|].
    intros d Hd. destruct (Hc Ac d Hd). auto. }
  split; [done | split; [|split]].
  - intros x. rewrite elem_of_app, list_elem_of_singleton. intros [Hx| ->] Ax; auto.
  - intros x. rewrite elem_of_app, list_elem_of_singleton. intros [Hx| ->].
    + destruct (HD x Hx); [auto|]. right. destruct b; set_solver.
    + destruct b; [left; by apply undo_true | right; set_solver].
  - intros f1 y f2 E. destruct b.
    + destruct (HF _ _ _ E) as (p1 & p2 & -> & Hp). exists p1, (p2 ++ [c]).
      rewrite <- app_assoc. split; [done|]. intros x Hx. destruct (Hp x Hx); auto.
    + apply app_cons_snoc in E as [(f2' & -> & ->)|(-> & -> & ->)].
      * destruct (HF _ _ _ eq_refl) as (p1 & p2 & -> & Hp). exists p1, (p2 ++ [c]).
        rewrite <- app_assoc. split; [done|]. intros x Hx. destruct (Hp x Hx); auto.
      * exists P, []. split; [done|]. intros x Hx. destruct (HD x Hx); auto.
Qed.

Lemma first_pass_ok A l P F w :
  (forall c, c ∈ l -> c ∈ L) -> one_level dep A (P ++ l) -> pass_inv A P F w ->
  exists F' w', fold_m (fun failed it => let* ok := run_undo (fst it) (snd it) in
                           ret (if ok then failed else failed ++ [it])) l F w = (Val F', w')
    /\ pass_inv A (P ++ l) F' w'.
Proof.
  revert P F w. induction l as [|c l IH]; intros P F w HL Hl Hinv.
  - exists F, w. by rewrite app_nil_r.
  - destruct (pass_step A P F w c) as (b & Hb & Hinv'); [apply HL; left | done | |].
    { intros Ac d Hd. destruct (proj2 Hl P c l eq_refl d Hd) as [H1 _]. auto. }
    assert (P ++ c :: l = (P ++ [c]) ++ l) as Eq by by rewrite <- app_assoc. rewrite Eq in Hl |- *.
    destruct (IH (P ++ [c]) _ _ (fun x Hx => HL x (list_elem_of_further x c l Hx)) Hl Hinv') as (F' & w' & E & Hfin). exists F', w'. split; [|done].
    cbn [fold_m]. unfold do_undo in *. destruct (run_undo (fst c) (snd c) w) as [o w1] eqn:Er.
    simpl in Hb, E. subst o. unfold bind. rewrite Er. unfold ret. done.
Qed.

Lemma second_pass_ok A P F w :
  (forall c, c ∈ P -> c ∈ L) -> one_level dep A P -> pass_inv A P F w ->
  exists w', for_each F (fun it => run_undo (fst it) (snd it) ;;; ret tt) w = (Val tt, w')
    /\ forall c, c ∈ P -> Done c w'.
Proof.
  intros HL Hl (HI & HA & HD & HF).
  assert (forall f2 f1 w1, F = f1 ++ f2 -> Inv w1 -> (forall x, Done x w -> Done x w1) ->
    (forall x, x ∈ f1 -> Done x w1) ->
    exists w', for_each f2 (fun it => run_undo (fst it) (snd it) ;;; ret tt) w1 = (Val tt, w')
      /\ (forall x, Done x w -> Done x w') /\ forall x, x ∈ F -> Done x w') as Hgo.
  { induction f2 as [|b f2 IH]; intros f1 w1 E HI1 Hk Hf1.
    - exists w1. rewrite app_nil_r in E. subst. done.
    - destruct (HF _ _ _ E) as (p1 & p2 & EP & Hp).
      assert (b ∈ L) as HbL by (apply HL; rewrite EP; set_solver).
      destruct (undo_answers b w1 HbL HI1) as [_ HI2].
      assert (fst (do_undo b w1) = Val true) as Hv.
      { apply undo_done; [done..|]. intros d Hd.
        destruct (proj2 Hl p1 b p2 EP d Hd) as [_ [Ad | Hd1]].
        - apply Hk, HA; [by apply (proj1 Hl) | done].
        - destruct (Hp d Hd1); auto. }
      pose proof (undo_true b w1 HbL HI1 Hv) as HDb.
      destruct (IH (f1 ++ [b]) (snd (do_undo b w1))) as (w' & Ew & H1 & H2).
      + by rewrite <- app_assoc.
      + done.
      + intros x Hx. apply undo_keeps; auto.
      + intros x. rewrite elem_of_app, list_elem_of_singleton. intros [Hx| ->]; [apply undo_keeps; auto | done].
      + exists w'. split; [|done]. cbn [for_each]. unfold do_undo in *.
        destruct (run_undo (fst b) (snd b) w1) as [o w2] eqn:Er. simpl in Hv, Ew. subst o.
        unfold bind. rewrite Er. exact Ew. }
  destruct (Hgo F [] w eq_refl) as (w' & E & H1 & H2); [done | done | by intros x ?%not_elem_of_nil|].
  exists w'. split; [done|]. intros c Hc. destruct (HD c Hc); auto.
Qed.
End Contract.

(** C7: rollback reaches the baseline although the undo commands were not
    registered in dependency order.  When reverse registration order violates
    the dependencies at most one level deep, leaving the guard has undone every
    registered change, cleared the list and swallowed no exception. *)
Theorem rollback_resolves `{Device} `{ShellEnv} (undo : list undo_item)
    (Inv : World -> Prop) (Done : string * option (M bool) -> World -> Prop)
    (dep : string * option (M bool) -> string * option (M bool) -> Prop)
    (A : string * option (M bool) -> Prop) (w : World) :
  let l := undo_cmds (rev undo) in
  UndoLaws l Inv Done dep -> one_level dep A l -> Inv w ->
  exists w', guard_exit undo w = (Val ([], false), w') /\ forall c, c ∈ l -> Done c w'.
Proof.
  intros l HU Hl HI.
  destruct (first_pass_ok l Inv Done dep A l [] [] w) as (F & w1 & E1 & Hinv); [done | done | |].
  { split; [done|]. split; [by intros c ?%not_elem_of_nil|]. split; [by intros c ?%not_elem_of_nil|].
    intros f1 b f2 E. by destruct f1. }
  destruct (second_pass_ok l Inv Done dep A l F w1) as (w2 & E2 & HD); [done..|].
  exists w2. split; [|done]. unfold guard_exit, undo_pass. fold l.
  rewrite (bind_step _ _ _ _ _ E1). by rewrite (bind_step _ _ _ _ _ E2).
Qed.

(** *** A switch on which the theorem applies

    A port with an address refuses to become a VLAN member; the test removed
    its membership first and then added the address, so the undo commands run
    in the wrong order. *)
Definition ip_cmd : string := "interface ip remove Ethernet0 10.0.0.1/24".
Definition member_cmd : string := "vlan member add -u 1000 Ethernet0".

Definition l3_switch : Device := state_device (fun c (s : bool * bool) =>
  if String.eqb (call_cmd c) ("config " +:+ ip_cmd) then (Exited 0 "" "", (false, snd s))
  else if String.eqb (call_cmd c) ("config " +:+ member_cmd) then
    if fst s then (Exited 1 "" "Ethernet0 is a router interface", s) else (Exited 0 "" "", (fst s, true))
  else (Exited 0 "" "", s)).

Definition l3_undo : list (@undo_item l3_switch) := [(Some ip_cmd, None); (Some member_cmd, None)].

Definition l3_done (c : string * option (@M l3_switch bool)) (w : @World l3_switch) : Prop :=
  (fst c = ip_cmd -> fst (fst (w_dev w)) = false) /\ (fst c = member_cmd -> snd (fst (w_dev w)) = true).
Definition l3_dep (d c : string * option (@M l3_switch bool)) : Prop := d = (ip_cmd, None) /\ fst c = member_cmd.

Lemma l3_run (c : string) ip m t tr lb :
  c = ip_cmd \/ c = member_cmd ->
  exists tr', @run_undo l3_switch plain_shell c None (mkWorld (H := l3_switch) ((ip, m), t) tr community_cli lb) =
    (Val (negb (String.eqb c member_cmd && ip)),
     mkWorld (H := l3_switch)
       ((if String.eqb c ip_cmd then false else ip, if String.eqb c ip_cmd then m else negb ip || m), t)
       tr' community_cli lb).
Proof. intros [-> | ->]; eexists; destruct ip, m; vm_compute; reflexivity. Qed.

Lemma l3_laws : @UndoLaws l3_switch plain_shell (undo_cmds (rev l3_undo))
  (fun w => w_cli w = community_cli) l3_done l3_dep.
Proof.
  assert (forall c, c ∈ undo_cmds (rev l3_undo) -> c = (ip_cmd, None) \/ c = (member_cmd, None)) as Hc.
  { intros c. change (undo_cmds (rev l3_undo)) with [(member_cmd, None : option (@M l3_switch bool)); (ip_cmd, None)].
    rewrite elem_of_cons, list_elem_of_singleton. tauto. }
  split; unfold do_undo, l3_done, l3_dep;
    intros c; [|intros w|intros w|intros d w]; try intros w; intros [-> | ->]%Hc;
    destruct w as [[[ip m] t] tr cl lb]; simpl; intros ->;
    match goal with |- context [run_undo ?c None _] =>
      destruct (l3_run c ip m t tr lb) as [tr' Hr]; [auto|]; rewrite Hr; simpl end.
  - eauto.
  - eauto.
  - done.
  - intros Hd. destruct (Hd (ip_cmd, None)) as [Hip _]; [done|]. by rewrite (Hip eq_refl).
  - done.
  - intros Hv. split; [done|]. intros _. by destruct ip.
  - intros [H1 H2]. split; [done | auto].
  - intros [H1 H2]. split; [auto|]. intros Hd. rewrite (H2 Hd). by destruct ip.
Qed.

Lemma rollback_resolves_witness :
  exists w', @guard_exit l3_switch plain_shell l3_undo (@world l3_switch ((true, false), 0) community_cli)
    = (Val ([], false), w') /\ forall c, c ∈ undo_cmds (rev l3_undo) -> l3_done c w'.
Proof.
  apply (@rollback_resolves l3_switch plain_shell l3_undo (fun w => w_cli w = community_cli) l3_done l3_dep
    (fun c => c = (ip_cmd, None))); [exact l3_laws | | reflexivity].
  change (undo_cmds (rev l3_undo)) with [(member_cmd, None : option (@M l3_switch bool)); (ip_cmd, None)].
  split; [intros c ->; set_solver|]. intros l1 c l2 E d [-> Hm].
  destruct l1 as [|x l1]; simplify_eq/=; [split; [discriminate | auto]|].
  destruct l1 as [|y l1]; simplify_eq/=. by destruct l1.
Defined.

(** ** The rollback left by an exception *)
Section Aborts.
Context `{Device} `{ShellEnv}.

Notation cmd := (string * option (M bool))%type.


End Aborts.



Theorem defer_undo_lifo `{Device} (undo : list undo_item) (c : string) (v : option (M bool)) :
  undo_cmds (rev (defer_undo undo (Some c) v)) = (c, v) :: undo_cmds (rev undo).
Proof. unfold defer_undo. by rewrite rev_app_distr. Qed.
