(* ===== verification/Gcu.v ===== *)
(** * JSON-patch edits of CONFIG_DB (framework/gcu.py)

    [Gcu] builds RFC 6902 patches and runs them through [config apply-patch].
    The operations are those of the class; the semantics of a patch on a
    configuration (tables of entries, no empty table) is the reference the
    builders are proved against. *)

From S2P Require Import Prelude PyStr PyStrFacts PyVal Device DeviceFacts Toy Cli CliFacts.

#[local] Arguments String.append : simpl nomatch.

Definition PATCH_FILE : string := "/tmp/gcu_patch.json".

(** [str(t).replace("~", "~0").replace("/", "~1")] *)
Definition escape (t : string) : string := replace_char "/"%char "~1" (replace_char "~"%char "~0" t).

(** [Gcu.path] *)
Definition path (tokens : list string) : string :=
  fold_left (fun out t => out +:+ "/" +:+ escape t) tokens "".

Section Gcu.
Context `{Device} `{ShellEnv}.

Definition apply_patch (json_data : pyval) : M Result :=
  let content := json_dumps json_data in
  sh_run_stdin content ("cat > " +:+ PATCH_FILE) ;;;
  sh_run_timeout 120000 ("config apply-patch " +:+ PATCH_FILE).

Definition APPLIED : string := "Patch applied successfully".

Definition apply_patch_ok (json_data : pyval) : M Result :=
  let* r := apply_patch json_data in
  if result_ok r && contains APPLIED (out r) then ret r
  else raise (AssertionError "apply-patch should succeed").

Definition apply_patch_fail (json_data : pyval) (absent_keys : list string) : M Result :=
  let* r := apply_patch json_data in
  let text := out r +:+ err r in
  if contains APPLIED text then raise (AssertionError "apply-patch should be rejected")
  else
    for_each absent_keys (fun k =>
      let* d := db_hgetall "CONFIG_DB" k in
      match d with
      | [] => ret tt
      | _ => raise (AssertionError ("rejected patch still landed in CONFIG_DB: " +:+ k))
      end) ;;;
    ret r.

Definition checkpoint (cp : string) : M string :=
  let* r := sh_run ("config checkpoint " +:+ cp) in
  if result_ok r && contains "Checkpoint created successfully" (out r) then ret cp
  else raise (AssertionError "checkpoint failed").
Definition rollback (cp : string) : M Result := sh_run_timeout 120000 ("config rollback " +:+ cp).
Definition delete_checkpoint (cp : string) : M Result := sh_run ("config delete-checkpoint " +:+ cp).

(** one operation of a patch *)
Definition op_add (p : string) (v : pyval) : pyval :=
  VDict [("op", VStr "add"); ("path", VStr p); ("value", v)].
Definition op_remove (p : string) : pyval := VDict [("op", VStr "remove"); ("path", VStr p)].

Definition add_entry (table key : string) (value : pyval) : M pyval :=
  let* ks := db_keys "CONFIG_DB" (table +:+ "|*") in
  ret (match ks with
       | [] => VList [op_add (path [table]) (VDict [(key, value)])]
       | _ => VList [op_add (path [table; key]) value]
       end).

Definition remove_entry (table key : string) : M pyval :=
  let* ks := db_keys "CONFIG_DB" (table +:+ "|*") in
  ret (if (length ks <=? 1)%nat then VList [op_remove (path [table])]
       else VList [op_remove (path [table; key])]).
End Gcu.

(** ** JSON pointers *)

(** RFC 6901: split on the slashes, then [~1] and then [~0] are decoded *)
Definition unescape (t : string) : string := replace_all "~0" "~" (replace_all "~1" "/" t).
Definition unpath (p : string) : list string := map unescape (drop 1 (split_on "/"%char p)).

Lemma escape_no_slash t : str_forall (not_char "/"%char) (escape t) = true.
Proof.
  unfold escape. induction t as [|c t IH]; [done|]. cbn [replace_char].
  destruct (Ascii.eqb c "~") eqn:E; [exact IH|]. cbn [replace_char].
  destruct (Ascii.eqb c "/") eqn:E2; [exact IH|]. cbn [str_forall]. unfold not_char at 1. by rewrite E2.
Qed.

Lemma unescape1 t : replace_all "~1" "/" (escape t) = replace_char "~"%char "~0" t.
Proof.
  unfold escape, replace_all. induction t as [|c t IH]; [done|]. cbn [replace_char].
  destruct (Ascii.eqb c "~") eqn:E.
  - simpl. by rewrite IH.
  - cbn [replace_char]. destruct (Ascii.eqb c "/") eqn:E2.
    + bool_prop. subst. simpl. by rewrite IH.
    + cbn [replace_go starts]. rewrite (Ascii.eqb_sym "~" c), E. cbn [andb]. by rewrite IH.
Qed.

Lemma unescape_escape t : unescape (escape t) = t.
Proof.
  unfold unescape. rewrite unescape1. unfold replace_all. induction t as [|c t IH]; [done|].
  cbn [replace_char]. destruct (Ascii.eqb c "~") eqn:E.
  - bool_prop. subst. simpl. by rewrite IH.
  - cbn [replace_go starts]. rewrite (Ascii.eqb_sym "~" c), E. cbn [andb]. by rewrite IH.
Qed.

Lemma path_app tokens acc :
  fold_left (fun out t => out +:+ "/" +:+ escape t) tokens acc = acc +:+ path tokens.
Proof.
  unfold path. revert acc. induction tokens as [|t l IH]; intros acc; cbn [fold_left]; [by rewrite sapp_nil_r|].
  rewrite IH, (IH ("" +:+ "/" +:+ escape t)). by rewrite !sapp_assoc.
Qed.

Lemma path_cons t l : path (t :: l) = String "/" (escape t +:+ path l).
Proof. unfold path at 1. cbn [fold_left]. by rewrite path_app. Qed.

Lemma split_path t l :
  split_on "/"%char (escape t +:+ path l) = escape t :: drop 1 (split_on "/"%char (path l)).
Proof.
  destruct l as [|u l].
  - unfold path. simpl. rewrite sapp_nil_r. rewrite split_on_none by apply escape_no_slash. done.
  - rewrite path_cons, split_on_app by apply escape_no_slash. by simpl.
Qed.

Lemma unpath_path_tokens l : unpath (path l) = l.
Proof.
  unfold unpath. induction l as [|t l IH]; [done|].
  rewrite path_cons. cbn [split_on]. change (Ascii.eqb "/" "/") with true. cbn iota.
  change (drop 1 ("" :: ?x)) with x. rewrite split_path. cbn [map]. by rewrite unescape_escape, IH.
Qed.

(** A JSON pointer built by [Gcu.path] is read back as the tokens it was
    built from, slashes and tildes included, so two token lists never give the
    same pointer. *)
Theorem path_roundtrip (l : list string) :
  unpath (path l) = l /\ forall l', path l = path l' -> l = l'.
Proof.
  split; [apply unpath_path_tokens|]. intros l' E.
  by rewrite <- (unpath_path_tokens l), E, unpath_path_tokens.
Qed.

(** ** The effect of a patch *)

(** a configuration: tables of entries *)
Notation cfg := (gmap string (gmap string pyval)).
(** ConfigDb has no empty table *)
Definition cfg_wf (c : cfg) : Prop := forall t m, c !! t = Some m -> m <> ∅.

Definition table_of (v : pyval) : option (gmap string pyval) :=
  match v with VDict d => Some (list_to_map d) | _ => None end.

(** RFC 6902 [add] and [remove] on a two-level document: adding a member needs
    its parent, removing needs the target *)
Definition patch_add (p : list string) (v : pyval) (c : cfg) : option cfg :=
  match p with
  | [t] => match table_of v with Some m => Some (<[t := m]> c) | None => None end
  | [t; k] => match c !! t with Some m => Some (<[t := <[k := v]> m]> c) | None => None end
  | _ => None
  end.
Definition patch_remove (p : list string) (c : cfg) : option cfg :=
  match p with
  | [t] => match c !! t with Some _ => Some (delete t c) | None => None end
  | [t; k] => match c !! t with
              | Some m => match m !! k with Some _ => Some (<[t := delete k m]> c) | None => None end
              | None => None
              end
  | _ => None
  end.
Definition patch_op (o : pyval) (c : cfg) : option cfg :=
  match vget "op" o, vget "path" o, vget "value" o with
  | Some (VStr "add"), Some (VStr p), Some v => patch_add (unpath p) v c
  | Some (VStr "remove"), Some (VStr p), _ => patch_remove (unpath p) c
  | _, _, _ => None
  end.
Fixpoint patch_ops (l : list pyval) (c : cfg) : option cfg :=
  match l with
  | [] => Some c
  | o :: l' => match patch_op o c with Some c' => patch_ops l' c' | None => None end
  end.
Definition patch (v : pyval) (c : cfg) : option cfg :=
  match v with VList l => patch_ops l c | _ => None end.

Lemma patch_single_add p v c : patch (VList [op_add (path p) v]) c = patch_add p v c.
Proof.
  rewrite <- (unpath_path_tokens p) at 2. unfold patch, patch_ops.
  change (patch_op (op_add (path p) v) c) with (patch_add (unpath (path p)) v c). by destruct patch_add.
Qed.

Lemma patch_single_remove p c : patch (VList [op_remove (path p)]) c = patch_remove p c.
Proof.
  rewrite <- (unpath_path_tokens p) at 2. unfold patch, patch_ops.
  change (patch_op (op_remove (path p)) c) with (patch_remove (unpath (path p)) c). by destruct patch_remove.
Qed.

(** the entries of a table, none when it does not exist *)
Definition entries (t : string) (c : cfg) : gmap string pyval := default ∅ (c !! t).

(** what redis [KEYS 'T|*'] reports of table [t]: one key per entry *)
Definition keys_report (t : string) (c : cfg) (ks : list string) : Prop := length ks = size (entries t c).

(** The patch [add_entry] builds applies to any well-formed configuration,
    whether or not the table exists, and its effect is to set the entry and
    nothing else. *)
Theorem add_entry_correct `{Device} `{ShellEnv} (table key : string) (value : pyval)
    (c : cfg) (ks : list string) (w w' : World) :
  db_keys "CONFIG_DB" (table +:+ "|*") w = (Val ks, w') -> keys_report table c ks -> cfg_wf c ->
  exists p, add_entry table key value w = (Val p, w') /\
    patch p c = Some (<[table := <[key := value]> (entries table c)]> c).
Proof.
  intros Hk Hr Hw. unfold add_entry. rewrite (bind_step _ _ _ _ _ Hk). unfold ret, keys_report, entries in *.
  destruct ks as [|k ks]; eexists; (split; [done|]); rewrite patch_single_add; simpl.
  - assert (default ∅ (c !! table) = ∅) as -> by by apply map_size_empty_inv.
    by rewrite insert_empty.
  - destruct (c !! table) as [m|] eqn:E; [done|]. exfalso. simpl in Hr.
    rewrite map_size_empty in Hr. simpl in Hr. lia.
Qed.

Definition route_cfg : cfg := {["STATIC_ROUTE" := {["10.0.0.0/24" := VDict []]}]}.

Lemma add_entry_correct_witness :
  let D := table_device (fun _ => ok_out "STATIC_ROUTE|10.0.0.0/24") in
  let w := @world D 0 cli_init in
  exists p, @add_entry D plain_shell "STATIC_ROUTE" "10.1.0.0/24" (VDict []) w
      = (Val p, snd (@db_keys D plain_shell "CONFIG_DB" ("STATIC_ROUTE" +:+ "|*") w)) /\
    patch p route_cfg = Some (<["STATIC_ROUTE" := <["10.1.0.0/24" := VDict []]> (entries "STATIC_ROUTE" route_cfg)]>
                                route_cfg).
Proof.
  intros D w.
  apply (@add_entry_correct D plain_shell "STATIC_ROUTE" "10.1.0.0/24" (VDict []) route_cfg
           ["STATIC_ROUTE|10.0.0.0/24"] w).
  - vm_compute. reflexivity.
  - vm_compute. reflexivity.
  - intros t m Ht. unfold route_cfg in Ht. apply lookup_singleton_Some in Ht as [_ <-]. done.
Defined.

(** C32: the patch [remove_entry] builds for an existing entry applies, removes
    that entry and nothing else, and leaves no empty table behind: the last
    entry takes its table with it. *)
Theorem remove_entry_correct `{Device} `{ShellEnv} (table key : string)
    (c : cfg) (ks : list string) (w w' : World) :
  db_keys "CONFIG_DB" (table +:+ "|*") w = (Val ks, w') -> keys_report table c ks -> cfg_wf c ->
  is_Some (entries table c !! key) ->
  exists p c', remove_entry table key w = (Val p, w') /\ patch p c = Some c' /\ cfg_wf c' /\
    entries table c' = delete key (entries table c) /\
    forall t, t <> table -> c' !! t = c !! t.
Proof.
  intros Hk Hr Hw [v Hv]. unfold remove_entry. rewrite (bind_step _ _ _ _ _ Hk).
  unfold ret, keys_report, entries in *. destruct (c !! table) as [m|] eqn:Em; simpl in *; [|by rewrite lookup_empty in Hv].
  destruct (length ks <=? 1)%nat eqn:El.
  - assert (m = {[key := v]}) as ->.
    { apply Nat.leb_le in El. rewrite <- (insert_delete_id _ _ _ Hv).
      assert (delete key m = ∅) as ->; [|by rewrite insert_empty].
      apply map_size_empty_inv. rewrite map_size_delete, Hv. lia. }
    eexists _, (delete table c). split; [done|]. split.
    { rewrite patch_single_remove. simpl. by rewrite Em. }
    split; [|split].
    + intros t m Ht. apply lookup_delete_Some in Ht as [_ Ht]. eauto.
    + rewrite lookup_delete_eq. simpl. by rewrite delete_singleton_eq.
    + intros t Ht. by rewrite lookup_delete_ne.
  - eexists _, (<[table := delete key m]> c). split; [done|]. split.
    { rewrite patch_single_remove. simpl. by rewrite Em, Hv. }
    split; [|split].
    + intros t m' Ht. apply lookup_insert_Some in Ht as [[_ <-]|[_ Ht]]; [|eauto].
      intros E. apply (f_equal size) in E. rewrite map_size_delete, Hv, map_size_empty in E.
      apply Nat.leb_gt in El. simpl in *. lia.
    + by rewrite lookup_insert_eq.
    + intros t Ht. by rewrite lookup_insert_ne.
Qed.

Lemma remove_entry_correct_witness :
  let D := table_device (fun _ => ok_out "STATIC_ROUTE|10.0.0.0/24") in
  let w := @world D 0 cli_init in
  exists p c', @remove_entry D plain_shell "STATIC_ROUTE" "10.0.0.0/24" w
      = (Val p, snd (@db_keys D plain_shell "CONFIG_DB" ("STATIC_ROUTE" +:+ "|*") w)) /\
    patch p route_cfg = Some c' /\ cfg_wf c' /\
    entries "STATIC_ROUTE" c' = delete "10.0.0.0/24" (entries "STATIC_ROUTE" route_cfg) /\
    forall t, t <> "STATIC_ROUTE" -> c' !! t = route_cfg !! t.
Proof.
  intros D w.
  apply (@remove_entry_correct D plain_shell "STATIC_ROUTE" "10.0.0.0/24" route_cfg
           ["STATIC_ROUTE|10.0.0.0/24"] w).
  - vm_compute. reflexivity.
  - vm_compute. reflexivity.
  - intros t m Ht. unfold route_cfg in Ht. apply lookup_singleton_Some in Ht as [_ <-]. done.
  - unfold route_cfg, entries. rewrite lookup_singleton_eq. simpl. rewrite lookup_singleton_eq. eauto.
Defined.

(** [apply_patch_fail] never accepts a patch that took effect: it returns
    only when the success marker was printed on neither stream and none of the
    listed keys is in CONFIG_DB. *)
Theorem apply_patch_fail_sound `{Device} `{ShellEnv} (data : pyval) (absent : list string) (w w' : World) (r : Result) :
  apply_patch_fail data absent w = (Val r, w') ->
  contains APPLIED (out r +:+ err r) = false /\
  forall k, k ∈ absent -> exists w1 w2, db_hgetall "CONFIG_DB" k w1 = (Val [], w2).
Proof.
  unfold apply_patch_fail. intros E. apply bind_val in E as (r' & w1 & E1 & E2).
  destruct (contains APPLIED (out r' +:+ err r')) eqn:Ec; [done|]. apply bind_val in E2 as (u & w2 & E2 & E3).
  unfold ret in E3. simplify_eq. split; [done|]. intros k Hk. clear Ec E1. revert w1 E2.
  induction absent as [|x l IH]; [by apply not_elem_of_nil in Hk|]. intros w1 E2. cbn [for_each] in E2.
  apply bind_val in E2 as (u' & w3 & E2 & E4). apply elem_of_cons in Hk as [->|Hk]; [|by eapply IH].
  apply bind_val in E2 as (d & w4 & E2 & E5). destruct d; [eauto | done].
Qed.

Lemma apply_patch_fail_sound_witness :
  let D := table_device (fun c => if starts "config" c then Exited 2 "" "rejected" else ok_out "") in
  let w := @world D 0 cli_init in
  let r := result 2 "" "rejected" in
  contains APPLIED (out r +:+ err r) = false /\
  forall k, k ∈ ["VLAN|Vlan9"] -> exists w1 w2, @db_hgetall D plain_shell "CONFIG_DB" k w1 = (Val [], w2).
Proof.
  intros D w r.
  apply (@apply_patch_fail_sound D plain_shell (VList []) ["VLAN|Vlan9"] w
           (snd (@apply_patch_fail D plain_shell (VList []) ["VLAN|Vlan9"] w)) r).
  vm_compute. reflexivity.
Defined.
