(* ===== verification/Sentinel.v ===== *)
(** * The contamination sentinel (framework/sentinel.py, tools/analyze_sentinel.py)

    After every test the sentinel compares the CONFIG_DB key set with a rolling
    baseline and records what the test added and removed; the analyzer replays
    the records and classifies the leaks.  The module dictionary [_STATE] is a
    record passed explicitly; the report file is the list of the records
    written to it.  [_FDB_DELTA] and [_NEIGH_DELTA] are 4. *)

From S2P Require Import Prelude PyStr PyStrFacts PyVal Device DeviceFacts.

(** [FVT_SENTINEL], [FVT_SENTINEL_REPORT] *)
Class SentinelEnv := { fvt_sentinel : string; sentinel_report : string }.

Definition sentinel_on `{SentinelEnv} : bool :=
  negb (bool_decide (fvt_sentinel ∈ [""; "0"; "false"; "no"])).

Definition FDB_DELTA : Z := 4.
Definition NEIGH_DELTA : Z := 4.
Definition VOLATILE_PREFIXES : list string := ["MGMT_VRF_CONFIG|vrf_global"].
Definition WATCHED_KEYS : list string :=
  ["NTP|global"; "STP|GLOBAL"; "DEVICE_METADATA|localhost"; "MGMT_VRF_CONFIG|vrf_global";
   "AAA|authentication"].

Record Snap := mkSnap {
  sn_cfg : gset string;
  sn_fdb : Z;
  sn_neigh : Z;
  sn_watched : pydict string string
}.

(** a record of [check_after_test]; [r_watched] holds (key, was, now) *)
Record LeakRec := mkLeak {
  r_node : string;
  r_added : list string;
  r_removed : list string;
  r_fdb : Z;
  r_dfdb : Z;
  r_neigh : Z;
  r_dneigh : Z;
  r_watched : list (string * (string * string))
}.

Inductive ReportLine :=
| RBaseline (cfg_keys fdb neigh : Z)
| RLeak (r : LeakRec)
| RHeal (node : string) (ports : list string).

(** [_STATE]; [s_sh] says whether a shell was stored *)
Record SentState := mkSent {
  s_sh : bool;
  s_clean : option (gset string);
  s_base_fdb : Z;
  s_base_neigh : Z;
  s_watch : pydict string string;
  s_records : list LeakRec;
  s_heals : list (string * list string);
  s_report : list ReportLine
}.
Definition sent_init : SentState := mkSent false None 0 0 [] [] [] [].

Section Sentinel.
Context `{Device} `{ShellEnv} `{SentinelEnv}.

Definition sent_keys (db pat : string) : M (gset string) :=
  let* r := sh_run ("sonic-db-cli " +:+ db +:+ " KEYS '" +:+ pat +:+ "'") in
  ret (list_to_set (List.filter
         (fun l => nonempty l && negb (existsb (fun p => starts p l) VOLATILE_PREFIXES))
         (splitlines (out r)))).

Definition watched : M (pydict string string) :=
  map_m (fun k => let* r := sh_run ("sonic-db-cli CONFIG_DB HGETALL '" +:+ k +:+ "'") in
                  ret (k, strip (out r))) WATCHED_KEYS.

Definition snapshot : M Snap :=
  let* cfg := sent_keys "CONFIG_DB" "*" in
  let* fdb := sent_keys "ASIC_DB" "ASIC_STATE:SAI_OBJECT_TYPE_FDB_ENTRY:*" in
  let* neigh := sent_keys "ASIC_DB" "ASIC_STATE:SAI_OBJECT_TYPE_NEIGHBOR_ENTRY:*" in
  let* w := watched in
  ret (mkSnap cfg (Z.of_nat (size fdb)) (Z.of_nat (size neigh)) w).

(** the baseline file is opened for writing, so earlier lines are lost *)
Definition set_baseline (st : SentState) (snap : Snap) : SentState :=
  mkSent true (Some (sn_cfg snap)) (sn_fdb snap) (sn_neigh snap) (sn_watched snap)
    (s_records st) (s_heals st)
    [RBaseline (Z.of_nat (size (sn_cfg snap))) (sn_fdb snap) (sn_neigh snap)].

Definition capture_baseline (st : SentState) : M SentState :=
  if negb sentinel_on then ret st
  else let* snap := snapshot in ret (set_baseline st snap).

(** [{k: {"was": ..., "now": v} for k, v in cur.items() if v != prev.get(k, v)}] *)
Definition watched_changes (prev cur : pydict string string) : list (string * (string * string)) :=
  omap (fun kv => let '(k, v) := kv in
          if String.eqb v (default v (dget k prev)) then None
          else Some (k, (default "" (dget k prev), v))) cur.

(** the comparison of [check_after_test] with a snapshot taken *)
Definition attribute (st : SentState) (clean : gset string) (nodeid : string) (cur : Snap) : SentState :=
  let added := sorted_strs (elements (sn_cfg cur ∖ clean)) in
  let removed := sorted_strs (elements (clean ∖ sn_cfg cur)) in
  let dfdb := sn_fdb cur - s_base_fdb st in
  let dneigh := sn_neigh cur - s_base_neigh st in
  let wchanged := watched_changes (s_watch st) (sn_watched cur) in
  let dirty := (match added, removed with [], [] => false | _, _ => true end)
               || (FDB_DELTA <? dfdb) || (NEIGH_DELTA <? dneigh)
               || (match wchanged with [] => false | _ => true end) in
  let rec := mkLeak nodeid added removed (sn_fdb cur) dfdb (sn_neigh cur) dneigh wchanged in
  mkSent (s_sh st) (Some (sn_cfg cur)) (s_base_fdb st) (s_base_neigh st) (sn_watched cur)
    (if dirty then s_records st ++ [rec] else s_records st) (s_heals st)
    (if dirty then s_report st ++ [RLeak rec] else s_report st).

Definition check_after_test (st : SentState) (nodeid : string) : M SentState :=
  if negb sentinel_on || negb (s_sh st) then ret st
  else
    match s_clean st with
    | None => ret st
    | Some clean => let* cur := snapshot in ret (attribute st clean nodeid cur)
    end.

Definition record_heal (st : SentState) (nodeid : string) (ports : list string) : SentState :=
  mkSent (s_sh st) (s_clean st) (s_base_fdb st) (s_base_neigh st) (s_watch st) (s_records st)
    (s_heals st ++ [(nodeid, ports)]) (s_report st ++ [RHeal nodeid ports]).

(** [repr] of a list of strings *)
Definition repr_list (l : list string) : string := "[" +:+ join ", " (map repr_str l) +:+ "]".

Definition leak_bits (r : LeakRec) : list string :=
  (match r_added r with [] => [] | l => ["+cfg" +:+ repr_list l] end)
  ++ (match r_removed r with [] => [] | l => ["-cfg" +:+ repr_list l] end)
  ++ (if FDB_DELTA <? r_dfdb r then ["fdb+" +:+ zs (r_dfdb r)] else [])
  ++ (if NEIGH_DELTA <? r_dneigh r then ["neigh+" +:+ zs (r_dneigh r)] else []).

Definition summary_lines (st : SentState) : list string :=
  (match s_heals st with
   | [] => []
   | hs => ("[sentinel] self-heal guard restored drifted ports in " +:+ ns (length hs) +:+ " test(s):")
           :: map (fun h => "  " +:+ fst h +:+ "  ::  reset->L2 " +:+ repr_list (snd h)) hs
   end)
  ++ (if negb sentinel_on then []
      else match s_records st with
           | [] => ["[sentinel] no cross-test state leaks detected (CONFIG_DB / dynamic FDB / neigh clean)"]
           | rs => ("[sentinel] " +:+ ns (length rs) +:+ " test(s) left residual state (see "
                    +:+ sentinel_report +:+ "):")
                   :: map (fun r => "  " +:+ r_node r +:+ "  ::  " +:+ join "; " (leak_bits r)) rs
           end).
End Sentinel.

(** ** tools/analyze_sentinel.py *)

(** [nodeid.split("::", 1)[0]] *)
Fixpoint mod_of (nodeid : string) : string :=
  match nodeid with
  | "" => ""
  | String c s' => if starts "::" nodeid then "" else String c (mod_of s')
  end.

Inductive Cross :=
| CrossModule (k creator remover : string)
| RemovedBaseline (k remover : string).

Record Replay := mkReplay {
  a_out : pydict string string;       (* [outstanding2]: key -> creator *)
  a_cross : list Cross;
  a_benign : list (string * (string * string))
}.

Definition event : Type := string * list string * list string.

(** [for k in added: outstanding2[k] = nid] *)
Definition replay_added (nid : string) (a : Replay) (k : string) : Replay :=
  mkReplay (dset k nid (a_out a)) (a_cross a) (a_benign a).

(** [for k in removed: ...pop(k, None)...] *)
Definition replay_removed (nid : string) (a : Replay) (k : string) : Replay :=
  match dget k (a_out a) with
  | None => mkReplay (a_out a) (a_cross a ++ [RemovedBaseline k nid]) (a_benign a)
  | Some creator =>
      if String.eqb (mod_of creator) (mod_of nid)
      then mkReplay (ddel k (a_out a)) (a_cross a) (a_benign a ++ [(k, (creator, nid))])
      else mkReplay (ddel k (a_out a)) (a_cross a ++ [CrossModule k creator nid]) (a_benign a)
  end.

Definition replay_event (a : Replay) (ev : event) : Replay :=
  let '(nid, added, removed) := ev in
  fold_left (replay_removed nid) removed (fold_left (replay_added nid) added a).

Definition replay (evs : list event) : Replay := fold_left replay_event evs (mkReplay [] [] []).

Definition true_leak (evs : list event) : list (string * string) := a_out (replay evs).

(** the events of a report: baseline lines are skipped, a heal line has
    neither [added] nor [removed] *)
Definition event_of (l : ReportLine) : option event :=
  match l with
  | RBaseline _ _ _ => None
  | RLeak r => Some (r_node r, r_added r, r_removed r)
  | RHeal n _ => Some (n, [], [])
  end.
Definition events (report : list ReportLine) : list event := omap event_of report.

(** (node, dfdb, dneigh) of the tests over a threshold *)
Definition storms (report : list ReportLine) : list (string * Z * Z) :=
  omap (fun l => match l with
        | RLeak r => if (4 <? r_dfdb r) || (4 <? r_dneigh r) then Some (r_node r, r_dfdb r, r_dneigh r) else None
        | _ => None
        end) report.

(** ** The leak map of a session *)

(** the snapshots taken after the tests, in order *)
Definition run_tests (st : SentState) (l : list (string * Snap)) : SentState :=
  fold_left (fun st p => match s_clean st with
                         | Some clean => attribute st clean (fst p) (snd p)
                         | None => st
                         end) l st.

Lemma run_tests_snoc st l p :
  run_tests st (l ++ [p]) =
  match s_clean (run_tests st l) with
  | Some clean => attribute (run_tests st l) clean (fst p) (snd p)
  | None => run_tests st l
  end.
Proof. unfold run_tests. by rewrite fold_left_app. Qed.

Definition last_cfg (c0 : gset string) (l : list (string * Snap)) : gset string :=
  match last l with Some p => sn_cfg (snd p) | None => c0 end.

Lemma last_cfg_snoc c0 l p : last_cfg c0 (l ++ [p]) = sn_cfg (snd p).
Proof. unfold last_cfg. by rewrite last_snoc. Qed.

(** the baseline rolls: it is the key set of the last snapshot *)
Lemma run_tests_clean st c0 l :
  s_clean st = Some c0 -> s_clean (run_tests st l) = Some (last_cfg c0 l).
Proof.
  intros Hc. induction l as [|p l IH] using rev_ind; [done|].
  by rewrite run_tests_snoc, IH, last_cfg_snoc.
Qed.

Lemma added_elem k (a b : gset string) : k ∈ sorted_strs (elements (a ∖ b)) <-> k ∈ a /\ k ∉ b.
Proof. rewrite sorted_strs_elem, elem_of_elements. set_solver. Qed.

Lemma no_added (a b : gset string) :
  sorted_strs (elements (a ∖ b)) = [] -> a ⊆ b.
Proof.
  rewrite sorted_strs_nil. intros E k Hk. destruct (decide (k ∈ b)) as [?|Hb]; [done|].
  exfalso. assert (k ∈ elements (a ∖ b)) as Hin by (apply elem_of_elements; set_solver).
  rewrite E in Hin. by apply not_elem_of_nil in Hin.
Qed.

(** what replaying the added and the removed keys does to the creators *)
Lemma replay_added_keys nid l a k :
  is_Some (dget k (a_out (fold_left (replay_added nid) l a))) <-> k ∈ l \/ is_Some (dget k (a_out a)).
Proof.
  revert a. induction l as [|x l IH]; intros a; simpl; [rewrite elem_of_nil; tauto|].
  rewrite IH. simpl. rewrite dget_dset, elem_of_cons. case_decide; subst; [|tauto].
  split; [auto | intros _; right; eauto].
Qed.

Lemma replay_added_wf nid l a : dwf (a_out a) -> dwf (a_out (fold_left (replay_added nid) l a)).
Proof. revert a. induction l as [|x l IH]; intros a Ha; simpl; [done|]. apply IH. by apply dwf_dset. Qed.

Lemma replay_removed_out nid a k : a_out (replay_removed nid a k) =
  match dget k (a_out a) with Some _ => ddel k (a_out a) | None => a_out a end.
Proof. unfold replay_removed. by destruct (dget k (a_out a)); [case_match|]. Qed.

Lemma replay_removed_keys nid l a k :
  dwf (a_out a) ->
  dwf (a_out (fold_left (replay_removed nid) l a)) /\
  (is_Some (dget k (a_out (fold_left (replay_removed nid) l a))) <-> k ∉ l /\ is_Some (dget k (a_out a))).
Proof.
  revert a. induction l as [|x l IH]; intros a Ha; simpl.
  { split; [done|]. pose proof (not_elem_of_nil k). tauto. }
  destruct (IH (replay_removed nid a x)) as [Hwf Hk].
  { rewrite replay_removed_out. case_match; [by apply dwf_ddel | done]. }
  split; [done|]. rewrite Hk, replay_removed_out, not_elem_of_cons.
  destruct (decide (k = x)) as [->|Hne].
  - destruct (dget x (a_out a)) as [v|] eqn:E.
    + rewrite dget_ddel_eq by done. split; [intros [_ [? ?]]; done | tauto].
    + rewrite E. split; [intros [_ [? ?]]; done | tauto].
  - destruct (dget x (a_out a)); [rewrite dget_ddel_ne by done|]; tauto.
Qed.

(** a key was missing at the baseline or at some snapshot *)
Definition was_absent (k : string) (c0 : gset string) (l : list (string * Snap)) : Prop :=
  k ∉ c0 \/ exists p, p ∈ l /\ k ∉ sn_cfg (snd p).

Lemma events_app l1 l2 : events (l1 ++ l2) = events l1 ++ events l2.
Proof. unfold events. apply omap_app. Qed.

Lemma replay_snoc evs ev : replay (evs ++ [ev]) = replay_event (replay evs) ev.
Proof. unfold replay. by rewrite fold_left_app. Qed.

(** the record a snapshot gives, when it is dirty *)
Definition leak_of (st : SentState) (clean : gset string) (nodeid : string) (cur : Snap) : LeakRec :=
  mkLeak nodeid (sorted_strs (elements (sn_cfg cur ∖ clean))) (sorted_strs (elements (clean ∖ sn_cfg cur)))
    (sn_fdb cur) (sn_fdb cur - s_base_fdb st) (sn_neigh cur) (sn_neigh cur - s_base_neigh st)
    (watched_changes (s_watch st) (sn_watched cur)).

(** Either the record is appended to the records and to the report, or the key
    sets are equal and both are left alone. *)
Lemma attribute_cases st clean nodeid cur :
  let r := leak_of st clean nodeid cur in
  let st' := attribute st clean nodeid cur in
  (s_records st' = s_records st ++ [r] /\ s_report st' = s_report st ++ [RLeak r]) \/
  (s_records st' = s_records st /\ s_report st' = s_report st /\ sn_cfg cur = clean).
Proof.
  intros r st'. unfold st', attribute. fold (leak_of st clean nodeid cur).
  match goal with |- context [if ?d then _ else _] => destruct d eqn:E end; simpl; [by left|].
  right. split; [done|]. split; [done|].
  destruct (sorted_strs (elements (sn_cfg cur ∖ clean))) as [|x la] eqn:Ea; [|done].
  destruct (sorted_strs (elements (clean ∖ sn_cfg cur))) as [|x lr] eqn:Er; [|done].
  apply no_added in Ea, Er. by apply leibniz_equiv, set_equiv_subseteq.
Qed.

Lemma absent_clean k c0 l : k ∉ last_cfg c0 l -> was_absent k c0 l.
Proof.
  unfold last_cfg, was_absent. destruct (last l) as [p|] eqn:E; [|auto]. intros Hk. right.
  exists p. split; [|done]. by apply last_Some_elem_of.
Qed.

Lemma was_absent_snoc k c0 l p :
  was_absent k c0 (l ++ [p]) <-> was_absent k c0 l \/ k ∉ sn_cfg (snd p).
Proof. unfold was_absent. setoid_rewrite elem_of_app. setoid_rewrite list_elem_of_singleton. naive_solver. Qed.

(** what the report says at any time: the baseline is the key set of the last
    snapshot, and the analyzer's leaks are the keys that are in it and were
    missing before *)
Definition leaks_inv (c0 : gset string) (l : list (string * Snap)) (st : SentState) : Prop :=
  s_clean st = Some (last_cfg c0 l) /\ dwf (true_leak (events (s_report st))) /\
  forall k, is_Some (dget k (true_leak (events (s_report st)))) <-> k ∈ last_cfg c0 l /\ was_absent k c0 l.

Lemma leaks_base st0 base : leaks_inv (sn_cfg base) [] (set_baseline st0 base).
Proof.
  split; [done|]. split; [apply dwf_nil|]. intros k. unfold last_cfg, was_absent. simpl. split.
  - by intros [? ?].
  - intros [Hk [?|(q & Hq & _)]]; [done | by apply not_elem_of_nil in Hq].
Qed.

(** a snapshot is attributed *)
Lemma leaks_attribute c0 l st n s : leaks_inv c0 l st -> leaks_inv c0 (l ++ [(n, s)]) (attribute st (last_cfg c0 l) n s).
Proof.
  intros (_ & IHw & IH). set (clean := last_cfg c0 l) in *. unfold leaks_inv. rewrite last_cfg_snoc. cbn [snd].
  split; [done|].
  enough (forall k, dwf (true_leak (events (s_report (attribute st clean n s)))) /\
    (is_Some (dget k (true_leak (events (s_report (attribute st clean n s)))))
     <-> k ∈ sn_cfg s /\ was_absent k c0 (l ++ [(n, s)]))) as Ha
    by (split; [apply (Ha "") | apply Ha]).
  intros k. specialize (IH k). rewrite was_absent_snoc. pose proof (absent_clean k c0 l) as Hab. fold clean in Hab. cbn [snd].
  destruct (attribute_cases st clean n s) as [[_ ->]|(_ & -> & Hc)]; [|split; [done|]; rewrite IH, Hc; tauto].
  unfold true_leak in *. rewrite events_app. change (events [RLeak ?r]) with [(r_node r, r_added r, r_removed r)].
  rewrite replay_snoc. unfold replay_event, leak_of. cbn [r_node r_added r_removed].
  set (a1 := fold_left (replay_added n) _ _).
  destruct (replay_removed_keys n (sorted_strs (elements (clean ∖ sn_cfg s))) a1 k) as [Hw Hk].
  { by apply replay_added_wf. }
  split; [done|]. rewrite Hk. unfold a1. rewrite replay_added_keys, IH, !added_elem.
  destruct (decide (k ∈ clean)), (decide (k ∈ sn_cfg s)); tauto.
Qed.

(** a line of the self-heal guard says nothing of the keys *)
Lemma leaks_heal c0 l st n ps : leaks_inv c0 l st -> leaks_inv c0 l (record_heal st n ps).
Proof.
  unfold leaks_inv, record_heal. cbn [s_clean s_report]. unfold true_leak. rewrite events_app.
  change (events [RHeal n ps]) with [(n, @nil string, @nil string)]. rewrite replay_snoc. done.
Qed.

(** The leak map is exact.  After any sequence of tests, the analyzer
    reports a key as TRUE-LEAK if and only if the key is in CONFIG_DB at the end
    of the run and was missing at the baseline or after some test. *)
Lemma leak_map_exact (st0 : SentState) (base : Snap) (l : list (string * Snap)) (k : string) :
  let st := set_baseline st0 base in
  is_Some (dget k (true_leak (events (s_report (run_tests st l)))))
  <-> k ∈ last_cfg (sn_cfg base) l /\ was_absent k (sn_cfg base) l.
Proof.
  intros st. enough (leaks_inv (sn_cfg base) l (run_tests st l)) as (_ & _ & Hk) by apply Hk.
  induction l as [|[n s] l IH] using rev_ind; [apply leaks_base|].
  rewrite run_tests_snoc, (run_tests_clean _ (sn_cfg base)) by done. by apply leaks_attribute.
Qed.

(** the tests blamed for adding [k] *)
Definition blamed (k : string) (rs : list LeakRec) : list string :=
  map r_node (List.filter (fun r => bool_decide (k ∈ r_added r)) rs).

Lemma blamed_snoc k st c0 l p :
  s_clean st = Some c0 ->
  blamed k (s_records (run_tests st (l ++ [p]))) =
  blamed k (s_records (run_tests st l)) ++
  (if decide (k ∈ sn_cfg (snd p) /\ k ∉ last_cfg c0 l) then [fst p] else []).
Proof.
  intros Hc. rewrite run_tests_snoc, (run_tests_clean _ _ _ Hc).
  destruct (attribute_cases (run_tests st l) (last_cfg c0 l) (fst p) (snd p)) as [[-> _]|(-> & _ & He)].
  - unfold blamed. rewrite List.filter_app, map_app. f_equal. cbn [List.filter leak_of r_added].
    case_decide as Hd; [rewrite bool_decide_true | rewrite bool_decide_false]; rewrite ?added_elem; done.
  - rewrite decide_False by (rewrite He; tauto). by rewrite app_nil_r.
Qed.

(** A leak is attributed exactly once, to the test that caused it: a key
    that appears after a test and stays is in the [added] list of that test's
    record and of no other, however many tests follow. *)
Theorem leak_attributed_once (st : SentState) (c0 : gset string) (k n : string) (s : Snap)
    (l1 l2 : list (string * Snap)) :
  s_clean st = Some c0 -> s_records st = [] ->
  k ∉ c0 -> (forall p, p ∈ l1 -> k ∉ sn_cfg (snd p)) -> k ∈ sn_cfg s ->
  (forall p, p ∈ l2 -> k ∈ sn_cfg (snd p)) ->
  blamed k (s_records (run_tests st (l1 ++ (n, s) :: l2))) = [n].
Proof.
  intros Hc Hr H0 H1 Hs H2.
  assert (blamed k (s_records (run_tests st l1)) = [] /\ k ∉ last_cfg c0 l1) as [Hb1 Hl1].
  { induction l1 as [|p l1 IH] using rev_ind; [by unfold run_tests, blamed; simpl; rewrite Hr|].
    destruct IH as [IH _]; [intros q Hq; apply H1; set_solver|].
    assert (k ∉ sn_cfg (snd p)) as Hp by (apply H1; set_solver).
    rewrite (blamed_snoc _ _ c0), IH, last_cfg_snoc by done. rewrite decide_False by tauto. done. }
  enough (blamed k (s_records (run_tests st (l1 ++ (n, s) :: l2))) = [n]
          /\ k ∈ last_cfg c0 (l1 ++ (n, s) :: l2)) by tauto.
  induction l2 as [|p l2 IH] using rev_ind.
  - rewrite (blamed_snoc _ _ c0), Hb1, last_cfg_snoc by done. rewrite decide_True by done. done.
  - destruct IH as [IHb IHl]; [intros q Hq; apply H2; set_solver|].
    assert (k ∈ sn_cfg (snd p)) as Hp by (apply H2; set_solver).
    change (l1 ++ (n, s) :: l2 ++ [p]) with (l1 ++ ((n, s) :: l2) ++ [p]). rewrite app_assoc.
    rewrite (blamed_snoc _ _ c0), IHb, last_cfg_snoc by done. rewrite decide_False by tauto. done.
Qed.

Lemma leak_attributed_once_witness :
  let c := mkSnap ∅ 0 0 [] in
  let d := mkSnap {["VLAN|Vlan9"]} 0 0 [] in
  blamed "VLAN|Vlan9" (s_records (run_tests (set_baseline sent_init c)
    ([("t1", c)] ++ ("t2", d) :: [("t3", d)]))) = ["t2"].
Proof.
  intros c d. apply (leak_attributed_once (set_baseline sent_init c) ∅ "VLAN|Vlan9" "t2" d);
    [reflexivity | reflexivity | set_solver | | set_solver |].
  - intros p Hp. apply list_elem_of_singleton in Hp as ->. set_solver.
  - intros p Hp. apply list_elem_of_singleton in Hp as ->. set_solver.
Defined.
