(* ===== verification/Profile.v ===== *)
(** * Device profiles (framework/profile.py)

    topology/profiles.yaml is parsed by the third-party YAML library: the
    parsed document is a parameter.  Dictionary keys are strings here; an
    integer key of the document is represented by its decimal text. *)

From S2P Require Import Prelude PyStr PyStrFacts PyVal Device.

(** the parsed document, [DUT_PLATFORM], [DUT_HWSKU] and the lines of
    /host/machine.conf ([None] when it cannot be read) *)
Class ProfileEnv := {
  profiles_doc : pydict string pyval;
  dut_platform : option string;
  dut_hwsku : option string;
  machine_conf : option (list string)
}.

(** [_deep_merge(base, over)]; a falsy [over] changes nothing *)
Fixpoint deep_merge (base : pydict string pyval) (over : pyval) {struct over} : pydict string pyval :=
  match over with
  | VDict d =>
      (fix go (d : pydict string pyval) (base : pydict string pyval) : pydict string pyval :=
         match d with
         | [] => base
         | (k, v) :: d' =>
             go d' (match dget k base, v with
                    | Some (VDict b), VDict _ => dset k (VDict (deep_merge b v)) base
                    | _, _ => dset k v base
                    end)
         end) d base
  | _ => base
  end.

Section Profile.
Context `{ProfileEnv}.

(** [d.get(k, {})] of a dictionary of dictionaries *)
Definition sub_dict (k : string) (d : pydict string pyval) : pydict string pyval :=
  match dget k d with Some (VDict s) => s | _ => [] end.

(** [devs.get(k)] for an optional key *)
Definition get_opt (k : option string) (d : pydict string pyval) : pyval :=
  match k with Some s => default VNone (dget s d) | None => VNone end.

Definition load (platform hwsku : option string) : pydict string pyval :=
  let prof := sub_dict "defaults" profiles_doc in
  let devs := sub_dict "devices" profiles_doc in
  let d1 := get_opt platform devs in
  let dev := if py_bool d1 then d1 else get_opt hwsku devs in
  if py_bool dev then deep_merge prof dev else prof.

(** the value of the first [onie_platform=] line *)
Fixpoint onie_platform (lines : list string) : option string :=
  match lines with
  | [] => None
  | l :: lines' =>
      if starts "onie_platform=" l then Some (strip (str_drop 14 l)) else onie_platform lines'
  end.

Definition detect_platform : option string :=
  match dut_platform with
  | Some p => if nonempty p && negb (String.eqb p "unknown-platform") then Some p
              else match machine_conf with Some ls => onie_platform ls | None => None end
  | None => match machine_conf with Some ls => onie_platform ls | None => None end
  end.

Definition load_current : pydict string pyval := load detect_platform dut_hwsku.
End Profile.

(** ** Facts *)

(** one entry of [over] *)
Definition merge_entry (base : pydict string pyval) (k : string) (v : pyval) : pydict string pyval :=
  match dget k base, v with
  | Some (VDict b), VDict _ => dset k (VDict (deep_merge b v)) base
  | _, _ => dset k v base
  end.

Lemma deep_merge_cons base k v d :
  deep_merge base (VDict ((k, v) :: d)) = deep_merge (merge_entry base k v) (VDict d).
Proof. reflexivity. Qed.

Lemma merge_entry_ne base k k' v : k' <> k -> dget k' (merge_entry base k v) = dget k' base.
Proof. intros Hne. unfold merge_entry. repeat case_match; by rewrite dget_dset_ne. Qed.

(** what the merged dictionary holds at a key *)
Definition merged (b o : option pyval) : option pyval :=
  match b, o with
  | Some (VDict bd), Some (VDict od) => Some (VDict (deep_merge bd (VDict od)))
  | _, Some v => Some v
  | b, None => b
  end.

Lemma merge_entry_eq base k v : dget k (merge_entry base k v) = merged (dget k base) (Some v).
Proof.
  unfold merge_entry, merged. destruct (dget k base) as [[]|]; destruct v; by rewrite dget_dset_eq.
Qed.

(** C33: merging a device section over the defaults is a recursive override: at
    every key the merged profile holds the device's value, or the default when
    the device has none, or the merge of the two when both are sections. *)
Theorem deep_merge_spec (base over : pydict string pyval) (k : string) :
  dwf over -> dget k (deep_merge base (VDict over)) = merged (dget k base) (dget k over).
Proof.
  revert base. induction over as [|[k' v] d IH]; intros base Hw.
  - unfold merged. simpl. by destruct (dget k base) as [[]|].
  - apply NoDup_cons in Hw as [Hni Hw]. rewrite deep_merge_cons, IH by done. cbn [dget].
    case_decide as Hd; subst.
    + rewrite merge_entry_eq. rewrite (proj2 (dget_None_keys k' d)) by done.
      unfold merged. repeat (case_match; simplify_eq); done.
    + by rewrite merge_entry_ne.
Qed.

Lemma deep_merge_spec_witness :
  dget "vlans" (deep_merge [("vlans", VDict [("a", VInt 1); ("b", VInt 2)])]
                           (VDict [("vlans", VDict [("a", VInt 7)])]))
  = merged (Some (VDict [("a", VInt 1); ("b", VInt 2)])) (Some (VDict [("a", VInt 7)])).
Proof.
  apply (deep_merge_spec [("vlans", VDict [("a", VInt 1); ("b", VInt 2)])] [("vlans", VDict [("a", VInt 7)])]
           "vlans").
  apply (bool_decide_unpack _). vm_compute. exact I.
Defined.
