(* ===== verification/Dut.v ===== *)
(** * The device under test: discovery and port selection (framework/dut.py) *)

From S2P Require Import Prelude PyStr PyStrFacts PyVal Device Worker Profile.

(** [DUT_SYNCD], [DUT_SDK] and the [DUT_BCM_PORT_*] overrides *)
Class DutEnv := {
  dut_syncd : option string;
  dut_sdk : option string;
  bcm_prefix : option string;
  bcm_offset : option string;
  bcm_divisor : option string
}.

Record Dut := mkDut {
  d_platform : string;
  d_hwsku : string;
  d_syncd : string;
  d_profile : pydict string pyval;
  d_sdk : string;
  d_ports : list Port
}.

(** [_eth_key] *)
Definition eth_key (name : string) : Z :=
  match trailing_digits name with Some d => default 0 (py_int d) | None => 0 end.

(** [sorted(l, key=f)]: a stable sort *)
Fixpoint insert_by {A} (f : A -> Z) (x : A) (l : list A) : list A :=
  match l with
  | [] => [x]
  | y :: l' => if f x <=? f y then x :: l else y :: insert_by f x l'
  end.
Definition sort_by {A} (f : A -> Z) (l : list A) : list A := fold_right (insert_by f) [] l.

(** the first truthy of two strings *)
Definition or_str (a b : string) : string := if nonempty a then a else b.

Section Discovery.
Context `{Device} `{ShellEnv} `{ProfileEnv} `{DutEnv}.

Definition machine_var (key : string) : M (option string) :=
  let* r := sh_run ("grep -m1 '^" +:+ key +:+ "=' /host/machine.conf 2>/dev/null | cut -d= -f2") in
  ret (if nonempty (strip (out r)) then Some (strip (out r)) else None).

Definition discover_hwsku : M string :=
  let* r := sh_run "sonic-cfggen -d -v DEVICE_METADATA.localhost.hwsku 2>/dev/null" in
  ret (or_str (strip (out r)) (default "unknown-hwsku" dut_hwsku)).

Definition detect_sdk (syncd : string) : M string :=
  let* r := sh_run_in syncd "bcmcmd 'version'" in
  let o := lower (out r) in
  ret (if contains "sdklt" o || contains "lt version" o then "sdklt"
       else if contains "sdk-6." o || contains "sdk version 6" o || contains "drivshell" o then "sdk6"
       else default "sdk6" dut_sdk).

Definition port_names : M (list string) :=
  let* r := sh_run "sonic-cfggen -d --var-json PORT 2>/dev/null" in
  if negb (nonempty (strip (out r))) then ret []
  else match json_loads (out r) with
       | Some (VDict d) => ret (sort_by eth_key (dkeys d))
       | Some _ => raise (AttributeError "keys")
       | None => ret []
       end.

(** [_bcm_portmap] is empty *)
Definition discover_ports : M (list Port) :=
  let* names := port_names in
  let ports := map port_named names in
  ret (match ports with
       | [] => map (fun i => mkPort ("Ethernet" +:+ zs i) (Some (zs i)) None false) [0; 4; 8; 12]
       | _ => ports
       end).

Definition dut_discover : M Dut :=
  let* mv := machine_var "onie_platform" in
  let platform := match mv with
                  | Some p => p
                  | None => let e := or_empty dut_platform in
                            match dut_platform with Some _ => e | None => "unknown-platform" end
                  end in
  let* hwsku := discover_hwsku in
  let syncd := default "syncd" dut_syncd in
  let prof := load (Some platform) (Some hwsku) in
  let* sdk := (if truthy dut_sdk then ret (or_empty dut_sdk)
               else match dget "sdk" prof with
                    | Some (VStr s) => if nonempty s then ret s else detect_sdk syncd
                    | _ => detect_sdk syncd
                    end) in
  let* ports := discover_ports in
  ret (mkDut platform hwsku syncd prof sdk ports).
End Discovery.

Section Ports.
Context `{WorkerEnv} `{DutEnv} (d : Dut).

(** the names of [blk["ports"]] *)
Definition str_list (v : pyval) : list string :=
  match v with VList l => omap (fun x => match x with VStr s => Some s | _ => None end) l | _ => [] end.

Definition find_port (n : string) : option Port :=
  find (fun p => String.eqb (p_name p) n) (rev (d_ports d)).

(** an element that is no port name is missing from the device *)
Definition all_names (v : pyval) : bool :=
  match v with VList l => forallb (fun x => match x with VStr _ => true | _ => false end) l | _ => false end.

(** the integer key and its text are the same key of the document *)
Definition worker_block : outcome (option (list Port)) :=
  if negb is_parallel then Val None
  else
    let blk := default VNone (dget (zs wid) (sub_dict "workers" (d_profile d))) in
    let names := str_list (vget_or "ports" VNone blk) in
    if negb (py_bool blk) || negb (py_bool (vget_or "ports" VNone blk))
    then Exc (RuntimeError ("FVT_WORKER=" +:+ zs wid +:+ " but no workers ports declared"))
    else if negb (all_names (vget_or "ports" VNone blk))
    then Exc (RuntimeError "worker port block members not present on device")
    else
      match List.filter (fun n => match find_port n with Some _ => false | None => true end) names with
      | [] => Val (Some (omap find_port names))
      | missing => Exc (RuntimeError "worker port block members not present on device")
      end.

(** an integer from the environment (text) or the profile (a value) *)
Definition int_setting (env : option string) (bp : pydict string pyval) (key : string) (dflt : Z) : outcome Z :=
  match env with
  | Some s => match py_int s with Some n => Val n | None => Exc (ValueError s) end
  | None => match vint (default (VInt dflt) (dget key bp)) with
            | Some n => Val n
            | None => Exc (ValueError key)
            end
  end.

Definition bcm_of (p : Port) : outcome string :=
  if truthy (p_bcm p) then Val (or_empty (p_bcm p))
  else
    let bp := sub_dict "bcm_port" (d_profile d) in
    let prefix := match bcm_prefix with
                  | Some s => s
                  | None => match dget "prefix" bp with Some (VStr s) => s | _ => "cd" end
                  end in
    match int_setting bcm_offset bp "offset" (-1), int_setting bcm_divisor bp "divisor" 1 with
    | Val offset, Val divisor =>
        match trailing_digits (p_name p) with
        | None => Val (p_name p)
        | Some ds =>
            if divisor =? 0 then Exc ZeroDivisionError
            else Val (prefix +:+ zs (default 0 (py_int ds) / divisor + offset))
        end
    | Exc e, _ => Exc e
    | _, Exc e => Exc e
    | _, _ => Hang
    end.

(** [[f(x) for x in l]] for a pure function that can raise *)
Fixpoint map_outcome {A B} (f : A -> outcome B) (l : list A) : outcome (list B) :=
  match l with
  | [] => Val []
  | x :: l' => match f x with
               | Val y => match map_outcome f l' with Val ys => Val (y :: ys) | Exc e => Exc e | Hang => Hang end
               | Exc e => Exc e
               | Hang => Hang
               end
  end.

(** the number at the end of a bcm port name *)
Definition bcm_num (p : Port) : outcome (Z * string) :=
  match bcm_of p with
  | Val b => match trailing_digits b with
             | Some ds => Val (default 0 (py_int ds), b)
             | None => Exc (AttributeError "group")
             end
  | Exc e => Exc e
  | Hang => Hang
  end.

Fixpoint consecutive (n : Z) (l : list Z) : bool :=
  match l with [] => true | x :: l' => (x =? n) && consecutive (n + 1) l' end.

(** the pbm string of a block given as (number, bcm name) pairs; two equal
    numbers would compare [Port] objects, which are not ordered *)
Definition pbm_of (block : list (Z * string)) : outcome (option string) :=
  let pairs := sort_by fst block in
  if negb (bool_decide (NoDup (map fst block))) then Exc (TypeError "'<' not supported between Port")
  else
    match pairs with
    | [] => Val None
    | (n0, b0) :: _ =>
        let prefix := fst (span is_alpha b0) in
        if negb (nonempty prefix) then Exc (AttributeError "group")
        else if consecutive n0 (map fst pairs)
        then Val (Some (prefix +:+ zs n0 +:+ "-" +:+ prefix +:+ zs (List.last (map fst pairs) n0)))
        else Val (Some (join "," (map snd pairs)))
    end.

Definition worker_pbm : outcome (option string) :=
  match worker_block with
  | Val (Some ((_ :: _) as blk)) =>
      match map_outcome bcm_num blk with
      | Val pairs => pbm_of pairs
      | Exc e => Exc e
      | Hang => Hang
      end
  | Val _ => Val None
  | Exc e => Exc e
  | Hang => Hang
  end.

(** [re.match(r"Ethernet\d+$", name)] *)
Definition is_ethernet (name : string) : bool := starts "Ethernet" name && isdigit (str_drop 8 name).

Definition pick_test_ports (n : nat) : outcome (list Port) :=
  match worker_block with
  | Val blk =>
      let cand := match blk with
                  | Some ((_ :: _) as b) => b
                  | _ => List.filter (fun p => is_ethernet (p_name p)) (d_ports d)
                  end in
      if (length cand <? n)%nat then Exc (RuntimeError "not enough usable test ports")
      else Val (take n cand)
  | Exc e => Exc e
  | Hang => Hang
  end.
End Ports.

(** ** Facts: the pbm string denotes the block *)

(** the ports a pbm string names: a range [<p>a-<p>b] or a comma list *)
Fixpoint range_names (prefix : string) (n : Z) (k : nat) : list string :=
  match k with O => [] | S k' => (prefix +:+ zs n) :: range_names prefix (n + 1) k' end.
Definition pbm_names (s : string) : list string :=
  match cut "-"%char s with
  | Some (a, b) =>
      let prefix := fst (span is_alpha a) in
      match uint_of (snd (span is_alpha a)), uint_of (snd (span is_alpha b)) with
      | Some x, Some y => range_names prefix x (Z.to_nat (y - x + 1))
      | _, _ => []
      end
  | None => split_on ","%char s
  end.

Lemma insert_by_elem {A} (f : A -> Z) x y l : y ∈ insert_by f x l <-> y = x \/ y ∈ l.
Proof.
  induction l as [|z l IH]; simpl; [by rewrite list_elem_of_singleton, elem_of_nil; tauto|].
  destruct (f x <=? f z); rewrite ?elem_of_cons; rewrite ?IH, ?elem_of_cons; tauto.
Qed.

Lemma sort_by_elem {A} (f : A -> Z) y l : y ∈ sort_by f l <-> y ∈ l.
Proof.
  induction l as [|x l IH]; simpl; [done|]. by rewrite insert_by_elem, IH, elem_of_cons.
Qed.

Lemma span_alpha_app p s :
  str_forall is_alpha p = true -> (match s with String c _ => is_alpha c = false | "" => True end) ->
  span is_alpha (p +:+ s) = (p, s).
Proof.
  induction p as [|c p IH]; intros Hp Hs.
  - destruct s as [|c s]; [done|]. cbn [span]. change ("" +:+ String c s) with (String c s). cbn [span].
    by rewrite Hs.
  - cbn [str_forall] in Hp. apply andb_true_iff in Hp as [Hc Hp].
    change (String c p +:+ s) with (String c (p +:+ s)). cbn [span]. by rewrite Hc, IH.
Qed.

Lemma digit_not_alpha c : is_digit c = true -> is_alpha c = false.
Proof.
  intros Hc. enough (negb (is_digit c) || negb (is_alpha c) = true) as Ho.
  { rewrite Hc in Ho. by apply negb_true_iff in Ho. }
  revert c Hc. intros c _. revert c. by apply ascii_all.
Qed.

Lemma zs_head_digit n : 0 <= n -> match zs n with String c _ => is_alpha c = false | "" => True end.
Proof.
  intros Hn. pose proof (zs_isdigit n Hn) as Hd. destruct (zs n) as [|c s]; [done|].
  unfold isdigit in Hd. cbn in Hd. apply andb_true_iff in Hd as [Hd _]. by apply digit_not_alpha.
Qed.

Lemma uint_of_zs n : 0 <= n -> uint_of (zs n) = Some n.
Proof. intros Hn. by rewrite <- py_int_digits, py_int_zs by by apply zs_isdigit. Qed.

(** a bcm port of the block: letters and a number *)
Definition bcm_wf (prefix : string) (p : Z * string) : Prop := 0 <= fst p /\ snd p = prefix +:+ zs (fst p).

Lemma range_names_consecutive prefix n l :
  consecutive n (map fst l) = true -> Forall (bcm_wf prefix) l ->
  map snd l = range_names prefix n (length l).
Proof.
  revert n. induction l as [|[x b] l IH]; intros n Hc Hl; [done|]. cbn [map consecutive] in Hc.
  apply andb_true_iff in Hc as [Hx Hc]. bool_prop. apply Forall_cons in Hl as [[_ Hb] Hl]. simpl in *.
  subst. f_equal. by apply IH.
Qed.

Lemma consecutive_last n l d : consecutive n l = true -> l <> [] -> List.last l d = n + Z.of_nat (length l) - 1.
Proof.
  revert n. induction l as [|x l IH]; intros n Hc Hne; [done|]. cbn [consecutive] in Hc.
  apply andb_true_iff in Hc as [Hx Hc]. bool_prop. subst x. destruct l as [|y l]; [simpl; lia|].
  change (List.last (n :: y :: l) d) with (List.last (y :: l) d). rewrite (IH (n + 1)) by done.
  cbn [length]. lia.
Qed.

Lemma alpha_no c prefix : is_alpha c = false -> str_forall is_alpha prefix = true ->
  str_forall (not_char c) prefix = true.
Proof.
  intros Hc. apply str_forall_impl. intros d Hd. unfold not_char.
  destruct (Ascii.eqb d c) eqn:E; [|done]. bool_prop. congruence.
Qed.

(** The port-range string of a worker denotes exactly its ports: for a block
    of bcm ports [<letters><number>] with one prefix and distinct numbers, the
    range or comma list [worker_pbm] builds names the ports of the block and no
    other, in number order. *)
Theorem worker_pbm_exact (prefix : string) (block : list (Z * string)) :
  nonempty prefix = true -> str_forall is_alpha prefix = true ->
  block <> [] -> Forall (bcm_wf prefix) block -> NoDup (map fst block) ->
  exists s, pbm_of block = Val (Some s) /\ pbm_names s = map snd (sort_by fst block)
    /\ forall b, b ∈ pbm_names s <-> b ∈ map snd block.
Proof.
  intros Hp Ha Hne Hwf Hnd. set (pairs := sort_by fst block).
  assert (Forall (bcm_wf prefix) pairs) as Hpw.
  { rewrite Forall_forall in *. intros x Hx%sort_by_elem. auto. }
  assert (exists s, pbm_of block = Val (Some s) /\ pbm_names s = map snd pairs) as (s & Hs & Hn).
  2:{ exists s. split; [done|]. split; [done|]. intros b. rewrite Hn, !list_elem_of_fmap.
      unfold pairs. by setoid_rewrite sort_by_elem. }
  unfold pbm_of. fold pairs. rewrite bool_decide_true by done. cbn [negb].
  destruct pairs as [|[n0 b0] rest] eqn:Ep.
  { destruct block as [|x l]; [done|]. exfalso. assert (x ∈ pairs) as Hx by (apply sort_by_elem; left).
    rewrite Ep in Hx. by apply not_elem_of_nil in Hx. }
  pose proof (Forall_inv Hpw) as [Hn0 Hb0]. simpl in Hn0, Hb0. subst b0.
  rewrite span_alpha_app by (done || by apply zs_head_digit). cbn [fst]. rewrite Hp. cbn [negb].
  destruct (consecutive n0 (map fst ((n0, prefix +:+ zs n0) :: rest))) eqn:Ec; eexists; (split; [done|]).
  - rewrite (consecutive_last n0) by done. rewrite length_map.
    set (m := n0 + Z.of_nat _ - 1). assert (0 <= m) as Hm by (unfold m; simpl; lia).
    unfold pbm_names. rewrite <- sapp_assoc. change ("-" +:+ ?x) with (String "-" x).
    rewrite cut_app.
    2:{ rewrite str_forall_app, alpha_no by done. apply digits_no_char; [done | by apply zs_digits]. }
    rewrite !span_alpha_app by (done || by apply zs_head_digit). cbn [fst snd]. rewrite !uint_of_zs by done.
    rewrite (range_names_consecutive prefix n0) by done. f_equal. unfold m. lia.
  - unfold pbm_names. 
    assert (Forall (fun b => str_forall (not_char "-"%char) b = true /\ str_forall (not_char ","%char) b = true)
              (map snd ((n0, prefix +:+ zs n0) :: rest))) as Hall.
    { apply Forall_forall. intros b (x & -> & Hx)%list_elem_of_fmap. rewrite Forall_forall in Hpw.
      destruct (Hpw x Hx) as [Hx0 ->]. pose proof (zs_digits _ Hx0) as Hd.
      rewrite !str_forall_app. split; (apply andb_true_iff; split; [by apply alpha_no | by apply digits_no_char]). }
    destruct (cut "-" (join "," (map snd ((n0, prefix +:+ zs n0) :: rest)))) as [[u v]|] eqn:E.
    + exfalso. apply cut_spec in E as [E _].
      assert (str_forall (not_char "-"%char) (join "," (map snd ((n0, prefix +:+ zs n0) :: rest))) = true) as Hj.
      { clear -Hall. induction Hall as [|b l [Hb _] Hl IH]; [done|]. destruct l; [done|].
        rewrite join_cons, !str_forall_app, Hb, IH by done. done. }
      rewrite E, str_forall_app in Hj. apply andb_true_iff in Hj as [_ Hj]. done.
    + change "," with (s1 ","%char) at 1. rewrite split_on_join; [done | done|].
      eapply Forall_impl; [exact Hall | naive_solver].
Qed.

Lemma worker_pbm_exact_witness :
  exists s, pbm_of [(9, "cd" +:+ zs 9); (8, "cd" +:+ zs 8)] = Val (Some s)
    /\ pbm_names s = map snd (sort_by fst [(9, "cd" +:+ zs 9); (8, "cd" +:+ zs 8)])
    /\ forall b, b ∈ pbm_names s <-> b ∈ map snd [(9, "cd" +:+ zs 9); (8, "cd" +:+ zs 8)].
Proof.
  apply (worker_pbm_exact "cd"); [reflexivity | reflexivity | discriminate | |].
  - repeat constructor; simpl; lia.
  - apply (bool_decide_unpack _). vm_compute. exact I.
Defined.
