(* ===== verification/Topology.v ===== *)
(** * The test topology: roles resolved to this worker's resources
    (framework/topology.py) *)

From S2P Require Import Prelude PyStr PyStrFacts PyVal Device Worker Profile Dut.

(** [Caps] *)
Definition caps_has (caps : pydict string pyval) (name : string) : bool :=
  match dget name caps with Some v => py_bool v | None => false end.

Section Caps.
Context `{Device}.
Definition caps_require (caps : pydict string pyval) (name : string) : M unit :=
  if caps_has caps name then ret tt
  else raise (PytestSkip ("device capability not available: " +:+ name +:+ " (see topology/profiles.yaml)")).
End Caps.

Record Topology := mkTopo {
  t_vlans : pydict string pyval;
  t_subnets : pydict string pyval;
  t_macs : pydict string pyval;
  t_dscp : pydict string pyval;
  t_routes : pydict string pyval;
  t_servers : pydict string pyval;
  t_loopbacks : pydict string pyval;
  t_base_default_vlan : Z;
  t_default_vlan : Z;
  t_hairpin : pydict string pyval;
  t_caps : pydict string pyval;
  t_ports : pydict string Port
}.

Definition obind {A B} (o : outcome A) (k : A -> outcome B) : outcome B :=
  match o with Val a => k a | Exc e => Exc e | Hang => Hang end.

Section Topo.
Context `{WorkerEnv} `{DutEnv} `{ProfileEnv}.

(** [{k: f(v) for k, v in d.items()}] *)
Definition map_vals (f : pyval -> outcome pyval) (d : pydict string pyval) : outcome (pydict string pyval) :=
  map_outcome (fun kv => obind (f (snd kv)) (fun v => Val (fst kv, v))) d.

(** [W.remap_vid(v)]: arithmetic on an integer *)
Definition remap_vid_v (v : pyval) : outcome pyval :=
  match v with
  | VInt z => Val (VInt (remap_vid z))
  | _ => if wid <=? 1 then Val v else Exc (TypeError "remap_vid")
  end.

(** [W.remap_cidr(v)]: only texts hold an address *)
Definition remap_cidr_v (v : pyval) : outcome pyval :=
  match v with
  | VStr s => obind (remap_cidr (Some s)) (fun r => Val (VStr (or_empty r)))
  | _ => Val v
  end.

Definition ends_with (suf s : string) : bool := String.eqb (last_chars (slen suf) s) suf.

Definition remap_subnet_field (kv : string * pyval) : outcome (string * pyval) :=
  let '(k, v) := kv in
  if ends_with "_as" k then Val (k, remap_asn v)
  else if bool_decide (k ∈ ["dut"; "peer"; "peer2"]) then obind (remap_cidr_v v) (fun v' => Val (k, v'))
  else Val (k, v).

Definition remap_subnet (sub : pyval) : outcome pyval :=
  match sub with
  | VDict d => obind (map_outcome remap_subnet_field d) (fun d' => Val (VDict d'))
  | _ => Exc (AttributeError "items")
  end.

(** the hairpin parameters of this worker *)
Definition remap_hairpin (hp : pydict string pyval) : outcome (pydict string pyval) :=
  match hp with
  | [] => Val hp
  | _ =>
      obind (remap_vid_v (default (VInt 110) (dget "vlan_a" hp))) (fun a =>
      let hp := dset "vlan_a" a hp in
      obind (remap_vid_v (default (VInt 120) (dget "vlan_b" hp))) (fun b =>
      let hp := dset "vlan_b" b hp in
      let svi := default VNone (dget "svi" hp) in
      if py_bool svi then obind (remap_cidr_v svi) (fun s => Val (dset "svi" s hp)) else Val hp))
  end.

Definition vint_or (dflt : Z) (v : option pyval) : Z := match v with Some (VInt z) => z | _ => dflt end.

(** the ports of the roles: without worker processes a failed selection falls
    back to placeholder ports *)
Definition role_ports (d : Dut) (roles : list string) : outcome (list Port) :=
  match pick_test_ports d (length roles) with
  | Val ps => Val ps
  | Exc e => if is_parallel then Exc e
             else Val (map (fun i => port_named ("Ethernet" +:+ ns i)) (List.seq 0 (length roles)))
  | Hang => Hang
  end.

(** [Topology.__init__] *)
Definition topology (d : Dut) : outcome Topology :=
  let prof := load (Some (d_platform d)) (Some (d_hwsku d)) in
  obind (map_vals remap_vid_v (sub_dict "vlans" prof)) (fun vlans =>
  obind (map_vals remap_subnet (sub_dict "subnets" prof)) (fun subnets =>
  obind (map_vals remap_cidr_v (sub_dict "routes" prof)) (fun routes =>
  obind (map_vals remap_cidr_v (sub_dict "servers" prof)) (fun servers =>
  obind (map_vals remap_cidr_v (sub_dict "loopbacks" prof)) (fun loopbacks =>
  let base := vint_or 1000 (dget "default_vlan" prof) in
  obind (remap_hairpin (sub_dict "hairpin" prof)) (fun hp =>
  let roles := match dget "port_roles" prof with Some v => str_list v | None => ["a"; "b"] end in
  obind (role_ports d roles) (fun ports =>
  Val (mkTopo vlans subnets (sub_dict "macs" prof) (sub_dict "dscp" prof) routes servers loopbacks
         base (remap_default_vlan base) hp (sub_dict "caps" prof) (dict_of (combine roles ports)))))))))).
End Topo.

(** ** References: a missing role is a [KeyError] *)

Definition role_of {A} (d : pydict string A) (role : string) : outcome A :=
  match dget role d with Some v => Val v | None => Exc (KeyError role) end.

Section Roles.
Context (t : Topology).

Definition topo_port (role : string) : outcome Port := role_of (t_ports t) role.
Definition topo_port_name (role : string) : outcome string :=
  obind (topo_port role) (fun p => Val (p_name p)).

Definition L3_ROLES : list string := ["c"; "d"].
Definition L2_ROLES : list string := ["e"; "f"].
Definition MISC_ROLES : list string := ["g"; "h"].

Definition domain_port (roles : list string) (i : nat) : outcome Port :=
  match nth_error roles i with Some r => topo_port r | None => Exc IndexError end.
Definition l3_port (i : nat) : outcome Port := domain_port L3_ROLES i.
Definition l2_port (i : nat) : outcome Port := domain_port L2_ROLES i.
Definition misc_port (i : nat) : outcome Port := domain_port MISC_ROLES i.

Definition topo_vlan (role : string) : outcome pyval := role_of (t_vlans t) role.
Definition topo_subnet (role : string) : outcome pyval := role_of (t_subnets t) role.
Definition topo_mac (role : string) : pyval := default (VStr "00:de:ad:be:ef:01") (dget role (t_macs t)).
Definition topo_dscp (name : string) : outcome pyval := role_of (t_dscp t) name.
Definition topo_route (role : string) : outcome pyval := role_of (t_routes t) role.
Definition topo_server (name : string) : outcome pyval := role_of (t_servers t) name.
Definition topo_loopback (role : string) : outcome pyval := role_of (t_loopbacks t) role.

Definition hp_vlan_a : pyval := default (VInt 110) (dget "vlan_a" (t_hairpin t)).
Definition hp_vlan_b : pyval := default (VInt 120) (dget "vlan_b" (t_hairpin t)).
Definition hp_svi : pyval := default VNone (dget "svi" (t_hairpin t)).
Definition hp_probe_dst : pyval := default (VStr "00:11:22:33:44:55") (dget "probe_dst" (t_hairpin t)).
End Roles.

(** ** Facts *)

Lemma obind_val {A B} (o : outcome A) (k : A -> outcome B) b :
  obind o k = Val b -> exists a, o = Val a /\ k a = Val b.
Proof. destruct o; simpl; [eauto | done | done]. Qed.

(** values of a dictionary built by assignments come from the assignments *)
Lemma dget_dict_of {K V} `{EqDecision K} (l : list (K * V)) k v :
  dget k (dict_of l) = Some v -> (k, v) ∈ l.
Proof.
  unfold dict_of.
  assert (forall d, dget k (fold_left (fun d p => dset (fst p) (snd p) d) l d) = Some v ->
    (k, v) ∈ l \/ dget k d = Some v) as Hgo.
  { induction l as [|[k' v'] l IH]; intros d Hd; [auto|]. cbn [fold_left] in Hd.
    apply IH in Hd as [Hin|Hd]; [left; by right|]. simpl in Hd. rewrite dget_dset in Hd.
    case_decide; [simplify_eq; left; left | auto]. }
  intros Hd. apply Hgo in Hd as [?|?]; done.
Qed.

Lemma combine_elem {A B} (l1 : list A) (l2 : list B) a b : (a, b) ∈ combine l1 l2 -> b ∈ l2.
Proof. rewrite !list_elem_of_In. apply in_combine_r. Qed.

(** the port names declared for a worker *)
Definition declared_ports `{WorkerEnv} (d : Dut) : list string :=
  str_list (vget_or "ports" VNone (default VNone (dget (zs wid) (sub_dict "workers" (d_profile d))))).

(** a parallel worker has a block that is not empty, and its ports are the
    device's ports of the declared names *)
Lemma worker_block_ports `{WorkerEnv} d :
  1 <= wid -> forall blk, worker_block d = Val blk ->
  exists b l, blk = Some (b :: l) /\
    forall p, p ∈ b :: l -> p ∈ d_ports d /\ p_name p ∈ declared_ports d.
Proof.
  intros Hw blk. unfold worker_block, declared_ports, is_parallel.
  rewrite (proj2 (Z.ltb_lt 0 wid)) by lia. cbn [negb].
  set (blkv := default VNone _). set (pv := vget_or "ports" VNone blkv).
  destruct (negb (py_bool blkv)); [done|]. destruct (negb (py_bool pv)) eqn:Ep; [done|]. cbn [orb].
  destruct (negb (all_names pv)) eqn:Ea; [done|]. destruct (List.filter _ _) eqn:Em; [|done].
  intros [= <-]. apply negb_false_iff in Ep, Ea.
  assert (forall p, p ∈ omap (find_port d) (str_list pv) -> p ∈ d_ports d /\ p_name p ∈ str_list pv) as Hin.
  { intros p (n & Hn & Hf)%list_elem_of_omap. unfold find_port in Hf.
    apply find_some in Hf as [Hin Hname]. bool_prop. subst n. split; [|done]. by apply list_elem_of_In, in_rev. }
  destruct (omap (find_port d) (str_list pv)) as [|b l] eqn:Eo; [|eauto].
  exfalso. destruct pv as [| | | | |vl|]; try done. destruct vl as [|[] vl]; try done.
  cbn [str_list omap list_omap] in Eo, Em. simpl in Eo, Em. by destruct (find_port d s).
Qed.

Lemma topology_ports `{WorkerEnv} `{ProfileEnv} d t role p :
  1 <= wid -> topology d = Val t -> topo_port t role = Val p ->
  p ∈ d_ports d /\ p_name p ∈ declared_ports d.
Proof.
  intros Hw Ht Hp. unfold topology in Ht.
  do 6 (apply obind_val in Ht as (? & _ & Ht)). apply obind_val in Ht as (ports & Hr & Ht).
  assert (t_ports t = dict_of (combine (match dget "port_roles" (load (Some (d_platform d)) (Some (d_hwsku d)))
            with Some v => str_list v | None => ["a"; "b"] end) ports)) as Et by by simplify_eq.
  unfold topo_port, role_of in Hp. rewrite Et in Hp. destruct (dget role _) as [q|] eqn:E; [|done].
  simplify_eq. apply dget_dict_of, combine_elem in E. unfold role_ports, pick_test_ports in Hr.
  destruct (worker_block d) as [blk|e|] eqn:Eb.
  - destruct (worker_block_ports d Hw blk Eb) as (b & l & -> & Hall). apply Hall.
    destruct (_ <? _)%nat.
    + destruct is_parallel eqn:Epar; [done|]. unfold is_parallel in Epar. bool_prop. lia.
    + injection Hr as <-. apply (subseteq_take (length
        match dget "port_roles" (load (Some (d_platform d)) (Some (d_hwsku d))) with
        | Some v => str_list v
        | None => ["a"; "b"]
        end)). exact E.
  - destruct is_parallel eqn:Epar; [done|]. unfold is_parallel in Epar. bool_prop. lia.
  - done.
Qed.

(** C9: the traffic lanes are disjoint.  Two worker processes of one device whose
    declared port blocks share no name never hand the same port to a test,
    whatever roles are asked for. *)
Theorem lanes_disjoint `{ProfileEnv} (w1 w2 : Z) (d : Dut) (t1 t2 : Topology)
    (r1 r2 : string) (p : Port) :
  1 <= w1 -> 1 <= w2 ->
  (forall n, n ∈ @declared_ports (env_of w1) d -> n ∉ @declared_ports (env_of w2) d) ->
  @topology (env_of w1) _ d = Val t1 -> @topology (env_of w2) _ d = Val t2 ->
  topo_port t1 r1 = Val p -> topo_port t2 r2 <> Val p.
Proof.
  intros H1 H2 Hd Ht1 Ht2 Hp1 Hp2.
  destruct (@topology_ports (env_of w1) _ d t1 r1 p) as [_ Hn1]; [by rewrite wid_env_of | done | done |].
  destruct (@topology_ports (env_of w2) _ d t2 r2 p) as [_ Hn2]; [by rewrite wid_env_of | done | done |].
  by apply (Hd _ Hn1).
Qed.

Definition lane_dut : Dut := mkDut "p" "h" "syncd"
  [("workers", VDict [("1", VDict [("ports", VList [VStr "Ethernet1"; VStr "Ethernet2"])]);
                      ("2", VDict [("ports", VList [VStr "Ethernet3"; VStr "Ethernet4"])])])] "sdk6"
  (map port_named ["Ethernet1"; "Ethernet2"; "Ethernet3"; "Ethernet4"]).
Definition lane_env : ProfileEnv :=
  {| profiles_doc := [("defaults", VDict [("port_roles", VList [VStr "a"; VStr "b"])])];
     dut_platform := None; dut_hwsku := None; machine_conf := None |}.
Definition lane_topo (w : Z) : Topology :=
  match @topology (env_of w) lane_env lane_dut with
  | Val t => t
  | _ => mkTopo [] [] [] [] [] [] [] 0 0 [] [] []
  end.

Lemma lanes_disjoint_witness :
  topo_port (lane_topo 1) "a" = Val (port_named "Ethernet1") /\
  topo_port (lane_topo 2) "a" <> Val (port_named "Ethernet1").
Proof.
  split; [vm_compute; reflexivity|].
  apply (@lanes_disjoint lane_env 1 2 lane_dut (lane_topo 1) (lane_topo 2) "a" "a"); [lia | lia | | | |];
    try (vm_compute; reflexivity).
  intros n. change (@declared_ports (env_of 1) lane_dut) with ["Ethernet1"; "Ethernet2"].
  change (@declared_ports (env_of 2) lane_dut) with ["Ethernet3"; "Ethernet4"]. set_solver.
Defined.
