(* ===== verification/Boot.v ===== *)
(** * The session's objects (src/conftest.py, framework/shell.py)

    The fixtures every test starts from: the shell, the device it discovers,
    the CLI and the topology over both, and the routing of host commands that
    the device's profile can opt into. *)

From S2P Require Import Prelude PyStr PyStrFacts PyVal Device DeviceFacts Toy Worker Profile Dut Topology CliParse Cli.

(** [DUT_DRY_RUN] and [KLISH_FLAVOR] *)
Class BootEnv := { dut_dry_run : option string; klish_flavor : option string }.

Section Boot.
Context `{Device} `{ProfileEnv} `{DutEnv} `{WorkerEnv} `{BootEnv}.
(** the plugin, when it is installed *)
Variable plugin : option (string -> option string + string).

(** [Shell.__init__] *)
Definition dry_run_text : bool := negb (bool_decide (or_empty dut_dry_run ∈ [""; "0"; "false"])).
Definition opt_or (a b : option string) : option string := if truthy a then a else if truthy b then b else None.
Definition shell_init (dry : option bool) (flavor : option string) : ShellEnv := {|
  dry_run := default dry_run_text dry;
  cli_flavor := opt_or flavor klish_flavor;
  klish := plugin
|}.

(** [caps.get("cli_flavor")]; a value that is no string is no flavour *)
Definition caps_flavor (caps : pydict string pyval) : option string :=
  match dget "cli_flavor" caps with Some (VStr s) => Some s | _ => None end.
Definition set_flavor (S : ShellEnv) (f : option string) : ShellEnv :=
  {| dry_run := @dry_run S; cli_flavor := f; klish := @klish S |}.

(** the fixtures [dut], [cli] and [topo]: the discovery goes through the shell
    as it was made *)
Definition dut_fixture (S : ShellEnv) : M (Dut * ShellEnv) :=
  let* d := @dut_discover _ S _ _ in
  ret (d, if truthy (@cli_flavor S) then S else set_flavor S (caps_flavor (sub_dict "caps" (d_profile d)))).
Definition cli_fixture (d : Dut) : CliEnv := {| cli_syncd := d_syncd d |}.
Record Boot := mkBoot { bo_shell : ShellEnv; bo_dut : Dut; bo_cli : CliEnv; bo_topo : Topology }.
Definition boot : M Boot :=
  let* ds := dut_fixture (shell_init None None) in
  let '(d, sh) := ds in
  let* topo := (fun w => (topology d, w)) in
  ret (mkBoot sh d (cli_fixture d) topo).

(** ** What a session starts with *)

(** the profile a discovered device carries is the one its topology loads *)
Lemma discovered_profile (S : ShellEnv) w d w' : @dut_discover _ S _ _ w = (Val d, w') ->
  d_profile d = load (Some (d_platform d)) (Some (d_hwsku d)).
Proof.
  unfold dut_discover, bind, ret. intros E.
  repeat match type of E with context [match ?x with _ => _ end] => destruct x; try discriminate E end; by injection E as <- _.
Qed.
Lemma topology_caps d t : topology d = Val t -> t_caps t = sub_dict "caps" (load (Some (d_platform d)) (Some (d_hwsku d))).
Proof.
  unfold topology, obind. intros E.
  repeat match type of E with match ?x with _ => _ end = _ => destruct x; try discriminate E end; by injection E as <-.
Qed.

(** without [KLISH_FLAVOR] the discovery runs native, whatever the profile says *)
Lemma boot_native : truthy klish_flavor = false -> @NativeShell (shell_init None None).
Proof. intros Hf. constructor. cbn. unfold opt_or. cbn. by rewrite Hf. Qed.

(** The routing of a session.  A session that starts routes its commands as
    [KLISH_FLAVOR] says, and otherwise as the capabilities of its own topology
    do; the CLI talks to the container the device was discovered with. *)
Theorem boot_routing w b w' : boot w = (Val b, w') ->
  @cli_flavor (bo_shell b) = (if truthy klish_flavor then klish_flavor else caps_flavor (t_caps (bo_topo b)))
  /\ @dry_run (bo_shell b) = dry_run_text /\ @cli_syncd (bo_cli b) = d_syncd (bo_dut b).
Proof.
  unfold boot, dut_fixture. unfold bind at 1 2, ret at 1. destruct (dut_discover w) as [[d|e|] w1] eqn:Ed; try done.
  cbn [bind]. unfold bind, ret. destruct (topology d) as [t|e|] eqn:Et; try done. intros [= <- <-]. cbn [bo_shell bo_topo bo_cli bo_dut].
  rewrite (topology_caps d t Et), <-(discovered_profile _ _ _ _ Ed). unfold shell_init, opt_or. cbn [cli_flavor truthy].
  destruct (truthy klish_flavor) eqn:Ek; cbn; by rewrite ?Ek.
Qed.
End Boot.

(** ** A device that opted in *)

Definition opted_doc : pydict string pyval :=
  [("defaults", VDict [("caps", VDict [("cli_flavor", VStr "klish")])])].
#[local] Instance opted_profile : ProfileEnv := {| profiles_doc := opted_doc; dut_platform := Some "p"; dut_hwsku := Some "h"; machine_conf := None |}.
#[local] Instance bare_dut : DutEnv := {| dut_syncd := None; dut_sdk := Some "sdk6"; bcm_prefix := None; bcm_offset := None; bcm_divisor := None |}.
#[local] Instance first_worker : WorkerEnv := {| fvt_worker := None |}.
#[local] Instance no_flavor : BootEnv := {| dut_dry_run := None; klish_flavor := None |}.
(** a device that answers with the command it was given *)
#[local] Instance echo_device : Device := table_device ok_out.
Definition toy_plugin (cmd : string) : option string + string := inl (if starts "show" cmd then Some ("klish: " +:+ cmd) else None).

(** the same command before and after the fixtures: the discovery ran native,
    the session's commands go through the translator *)
Example ex_opted :
  let w := @world echo_device 0 cli_init in
  let o c := match c with (Val r, _) => Some (out r) | _ => None end in
  o (@sh_run _ (@shell_init no_flavor (Some toy_plugin) None None) "show vlan" w) = Some "show vlan"
  /\ match boot (Some toy_plugin) w with
     | (Val b, w') => o (@sh_run _ (bo_shell b) "show vlan" w') = Some "klish: show vlan"
     | _ => False
     end.
Proof. vm_compute. done. Qed.
