(* ===== verification/Loopback.v ===== *)
(** * Port loopback management (framework/loopback.py)

    [BcmShell] sends chip diagnostics into the syncd container;
    [LoopbackManager] keeps the tables of the ports it looped, isolated or
    holds, and a dedicated test VLAN.  The tables are the [w_lb] field of the
    world.  Times are milliseconds. *)

From S2P Require Import Prelude PyStr PyStrFacts PyVal Device DeviceFacts Toy CliParse Cli CliFacts Worker Profile Dut.

Section Lift.
Context `{Device}.
(** a pure computation that can raise *)
Definition lift {A} (o : outcome A) : M A := fun w => (o, w).
End Lift.

(** ** [BcmShell] *)

Record BcmShell := mkBsh { b_syncd : string; b_access : string; b_pbm : option string }.

(** [str(d.get(k, dflt))] for a text *)
Definition prof_str (prof : pydict string pyval) (k dflt : string) : string :=
  match dget k prof with Some v => py_str v | None => dflt end.

(** an exception while computing the port range means "no range" *)
Definition bcm_shell `{WorkerEnv} `{DutEnv} (d : Dut) : BcmShell :=
  mkBsh (d_syncd d) (prof_str (d_profile d) "diag_access" "bcmcmd")
    (match worker_pbm d with Val p => p | _ => None end).

(** the socket client, a line feed before and after every line *)
Definition SOCK_CLIENT : string :=
  with_quotes (s1 lf +:+ join (s1 lf) [
"import socket, sys, time";
"SOCK = `/var/run/sswsyncd/sswsyncd.socket`";
"PROMPTS = (b`BCM.0>`, b`drivshell>`, b`BCMLT.0>`)";
"cmd = sys.argv[1] if len(sys.argv) > 1 else `version`";
"s = socket.socket(socket.AF_UNIX, socket.SOCK_STREAM)";
"s.setblocking(True); s.settimeout(6)";
"s.connect(SOCK)";
"try:";
"    s.sendall(cmd.encode() + b`\n`)";
"    buf = b``; end = time.time() + 6";
"    while time.time() < end:";
"        try: c = s.recv(8192)";
"        except socket.timeout: break";
"        if not c: break";
"        buf += c";
"        if any(p in buf for p in PROMPTS): break";
"    sys.stdout.write(buf.decode(errors=`replace`))";
"finally:";
"    s.close()"; ""]).

(** [shlex.quote(s)] *)
Definition shell_safe (c : ascii) : bool := is_word c || char_in c "@%+=:,./-".
Definition shlex_quote (s : string) : string :=
  if negb (nonempty s) then "''"
  else if str_forall shell_safe s then s
  else "'" +:+ replace_char squote (with_quotes "'`'`'") s +:+ "'".

Section Bsh.
Context `{Device} `{ShellEnv}.

Definition sock_cmd (b : BcmShell) (c : string) : M string :=
  let boot := with_quotes ("import base64; exec(base64.b64decode(`" +:+ b64encode SOCK_CLIENT +:+ "`))") in
  let* r := sh_run ("docker exec -i " +:+ b_syncd b +:+ " python3 -c " +:+ shlex_quote boot
                    +:+ " " +:+ shlex_quote c) in
  ret (out r).

Definition bsh_cmd (b : BcmShell) (c : string) : M string :=
  let c := if truthy (b_pbm b) && String.eqb (strip c) "clear c"
           then "clear c " +:+ or_empty (b_pbm b) else c in
  if String.eqb (b_access b) "socket" then sock_cmd b c
  else let* r := sh_run_in (b_syncd b) ("bcmcmd '" +:+ c +:+ "'") in ret (out r).
End Bsh.

(** ** Attribute updates *)

Definition put_on (f : pydict Port (string * bool) -> pydict Port (string * bool)) (l : LbState) : LbState :=
  mkLb (f (lb_on l)) (lb_flood_safe l) (lb_test_vlan l) (lb_held l) (lb_touched l).
Definition put_flood (f : pydict Port FloodSafe -> pydict Port FloodSafe) (l : LbState) : LbState :=
  mkLb (lb_on l) (f (lb_flood_safe l)) (lb_test_vlan l) (lb_held l) (lb_touched l).
Definition put_test_vlan (v : option TestVlan) (l : LbState) : LbState :=
  mkLb (lb_on l) (lb_flood_safe l) v (lb_held l) (lb_touched l).
Definition put_held (f : pydict Port string -> pydict Port string) (l : LbState) : LbState :=
  mkLb (lb_on l) (lb_flood_safe l) (lb_test_vlan l) (f (lb_held l)) (lb_touched l).
Definition put_touched (l : LbState) : LbState :=
  mkLb (lb_on l) (lb_flood_safe l) (lb_test_vlan l) (lb_held l) true.

(** ** [LoopbackManager]: the device and whether a [Cli] was given *)

Class LbEnv := { lb_dut : Dut; lb_has_cli : bool }.

Section Manager.
Context `{Device} `{ShellEnv} `{CliEnv} `{WorkerEnv} `{DutEnv} `{LbEnv}.

Definition lb_bsh : BcmShell := bcm_shell lb_dut.
Definition chip (c : string) : M string := bsh_cmd lb_bsh c.
(** a command whose output is not used *)
Definition chip_ (c : string) : M unit := chip c ;;; ret tt.
Definition lb_mode : string := prof_str (d_profile lb_dut) "loopback_mode" "mac".
Definition lb_bcm (p : Port) : M string := lift (bcm_of lb_dut p).

Definition lb_swp : M bool := if lb_has_cli then is_switchport_os else ret false.

Definition hold (p : Port) (mode : option string) : M unit :=
  modify_lb (put_held (dset p (if truthy mode then or_empty mode else lb_mode))).
Definition release (p : Port) : M unit := modify_lb (put_held (ddel p)).

(** [_set] *)
Definition lb_set (p : Port) (val : string) : M string :=
  let* b := lb_bcm p in
  chip_ ("port " +:+ b +:+ " lb=" +:+ val) ;;; ret b.

Definition oper_up_cmd (name : string) : string :=
  "sonic-db-cli APPL_DB hget 'PORT_TABLE:" +:+ name +:+ "' oper_status".
Definition is_oper_up (name : string) : M bool :=
  let* r := sh_run (oper_up_cmd name) in ret (String.eqb (strip (out r)) "up").
Definition wait_oper_up (p : Port) : M bool := poll_until 15000 500 (is_oper_up (p_name p)).

Definition wait_learn_ready (p : Port) (timeout : Z) : M bool :=
  let* b := lb_bcm p in
  let arl := (let* o := chip ("port " +:+ b) in ret (contains "ARL" o)) in
  let* ok := poll_until timeout 500 arl in
  if ok then ret true
  else chip_ ("port " +:+ b +:+ " LeaRN=5") ;;; arl.

Definition enable (p : Port) (mode : option string) (discard wait_up : bool) : M unit :=
  let mode := if truthy mode then or_empty mode else lb_mode in
  let* b := lb_set p mode in
  when discard (chip_ ("port " +:+ b +:+ " discard=all")) ;;;
  when wait_up (wait_oper_up p ;;; ret tt) ;;;
  modify_lb (put_on (dset p (mode, discard))) ;;;
  modify_lb put_touched.

Definition disable (p : Port) : M unit :=
  let* b := lb_bcm p in
  let* l := get_lb in
  let discard := match dget p (lb_on l) with Some (_, d) => d | None => false end in
  when discard (chip_ ("port " +:+ b +:+ " discard=none")) ;;;
  chip_ ("port " +:+ b +:+ " lb=none") ;;;
  modify_lb (put_on (ddel p)).

Definition use_test_vlan_cfg (vid : Z) (ports : list Port) (restore_vid : Z) : M Z :=
  let names := map p_name ports in
  config_n config_depth false ("vlan add " +:+ zs vid) ;;;
  for_each ports (fun p =>
    ensure_port_l2 (p_name p) ;;;
    intf_startup (p_name p) ;;;
    vlan_member_add (zs vid) (p_name p) false ;;; ret tt) ;;;
  for_each ports (fun p => wait_learn_ready p 4000 ;;; ret tt) ;;;
  let* bcms := map_m lb_bcm ports in
  modify_lb (put_test_vlan (Some (TvCfg vid bcms restore_vid names))) ;;;
  modify_lb put_touched ;;;
  ret vid.

Definition use_test_vlan (vid : Z) (ports : list Port) (restore_vid : Z) : M Z :=
  let vid := remap_vid vid in
  let* swp := lb_swp in
  if swp then use_test_vlan_cfg vid ports restore_vid
  else
    let* bcms := map_m lb_bcm ports in
    let v := zs vid in
    chip_ ("vlan create " +:+ v) ;;;
    chip_ ("vlan add " +:+ v +:+ " pbm=" +:+ join "," bcms +:+ " ubm=" +:+ join "," bcms) ;;;
    for_each bcms (fun b =>
      poll_tries 10 300
        (chip_ ("pvlan set " +:+ b +:+ " " +:+ v) ;;;
         let* o := chip ("pvlan show " +:+ b) in
         ret (contains ("default VLAN is " +:+ v) o)) ;;; ret tt) ;;;
    modify_lb (put_test_vlan (Some (TvChip vid bcms restore_vid))) ;;;
    modify_lb put_touched ;;;
    ret vid.

(** [try: m except Exception: pass] *)
Definition quietly (m : M unit) : M unit := try_except m (fun _ => ret tt).

Definition drop_test_vlan : M unit :=
  let* l := get_lb in
  modify_lb (put_test_vlan None) ;;;
  match lb_test_vlan l with
  | None => ret tt
  | Some (TvCfg vid _ _ _) =>
      let v := zs vid in
      let* cur := db_keys "CONFIG_DB" ("VLAN_MEMBER|Vlan" +:+ v +:+ "|*") in
      for_each cur (fun k =>
        quietly (config_n config_depth false ("vlan member del " +:+ v +:+ " " +:+ key_last k) ;;; ret tt)) ;;;
      poll_tries 20 300 (let* b := has_keys "CONFIG_DB" ("VLAN_MEMBER|Vlan" +:+ v +:+ "|*") in ret (negb b)) ;;;
      (** the deletion is part of every round that does not break *)
      poll_tries 6 400
        (let* b := has_keys "CONFIG_DB" ("VLAN|Vlan" +:+ v) in
         when b (quietly (config_n config_depth false ("vlan del " +:+ v) ;;; ret tt)) ;;; ret (negb b)) ;;;
      ret tt
  | Some (TvChip vid bcms restore_vid) =>
      for_each bcms (fun b => quietly (chip_ ("pvlan set " +:+ b +:+ " " +:+ zs restore_vid))) ;;;
      quietly (chip_ ("vlan destroy " +:+ zs vid))
  end.

Definition chip_fdb_add (vid : Z) (mac : string) (p : Port) : M unit :=
  let* swp := lb_swp in
  if swp then fdb_static_add (zs vid) mac (p_name p) true ;;; ret tt
  else let* b := lb_bcm p in
       chip_ ("l2 add mac=" +:+ mac +:+ " vlan=" +:+ zs vid +:+ " port=" +:+ b +:+ " static=1").
Definition chip_fdb_del (vid : Z) (mac : string) : M unit :=
  chip_ ("l2 del mac=" +:+ mac +:+ " vlan=" +:+ zs vid).

(** the ingress PVID the chip reports, or the profile's default VLAN *)
Definition current_pvid (b : string) : M string :=
  let* o := chip ("pvlan show " +:+ b) in
  ret (match digits_after "default VLAN is " o with
       | Some v => v
       | None => prof_str (d_profile lb_dut) "default_vlan" "1000"
       end).

Definition enable_flood_safe (p : Port) (isolate_vid : Z) : M unit :=
  let iso := remap_vid isolate_vid in
  let* b := lb_bcm p in
  let* orig := current_pvid b in
  chip_ ("vlan create " +:+ zs iso) ;;;
  chip_ ("port " +:+ b +:+ " lb=" +:+ lb_mode) ;;;
  chip_ ("pvlan set " +:+ b +:+ " " +:+ zs iso) ;;;
  wait_oper_up p ;;;
  modify_lb (put_on (dset p ("mac", false))) ;;;
  modify_lb put_touched ;;;
  modify_lb (put_flood (dset p (FsPvid b iso orig))).

Definition isolate_pvid (p : Port) (isolate_vid : Z) : M unit :=
  let iso := remap_vid isolate_vid in
  let* b := lb_bcm p in
  let* swp := lb_swp in
  if swp then
    chip_ ("port " +:+ b +:+ " discard=all") ;;;
    modify_lb (put_flood (dset p (FsDiscard b)))
  else
    let* orig := current_pvid b in
    chip_ ("vlan create " +:+ zs iso) ;;;
    chip_ ("pvlan set " +:+ b +:+ " " +:+ zs iso) ;;;
    modify_lb (put_flood (dset p (FsPvid b iso orig))).

(** [self._flood_safe.pop(port, None)] *)
Definition pop_flood (p : Port) : M (option FloodSafe) :=
  let* l := get_lb in
  modify_lb (put_flood (ddel p)) ;;; ret (dget p (lb_flood_safe l)).

Definition restore_pvid (p : Port) : M unit :=
  let* info := pop_flood p in
  match info with
  | None => ret tt
  | Some (FsDiscard b) => quietly (chip_ ("port " +:+ b +:+ " discard=none"))
  | Some (FsPvid b iso orig) =>
      quietly (chip_ ("pvlan set " +:+ b +:+ " " +:+ orig) ;;; chip_ ("vlan destroy " +:+ zs iso))
  end.

(** the tuple [(bcm, iso, orig)]; [None] is printed as it is *)
Definition fs_bcm (f : FloodSafe) : string := match f with FsPvid b _ _ => b | FsDiscard b => b end.
Definition fs_iso (f : FloodSafe) : string := match f with FsPvid _ i _ => zs i | FsDiscard _ => "None" end.
Definition fs_orig (f : FloodSafe) : string := match f with FsPvid _ _ o => o | FsDiscard _ => "None" end.

(** the restoration [disable_flood_safe] and [force_clear_all] share *)
Definition undo_flood (f : FloodSafe) : M unit :=
  quietly (chip_ ("pvlan set " +:+ fs_bcm f +:+ " " +:+ fs_orig f) ;;; chip_ ("vlan destroy " +:+ fs_iso f)).

Definition disable_flood_safe (p : Port) : M unit :=
  let* info := pop_flood p in
  match info with Some f => undo_flood f | None => ret tt end ;;;
  disable p.

Definition cleanup : M unit :=
  let* l := get_lb in
  for_each (dkeys (lb_flood_safe l)) (fun p => quietly (disable_flood_safe p)) ;;;
  let* l := get_lb in
  for_each (dkeys (lb_on l)) (fun p => quietly (disable p)).

(** the tracked ports that are not held, each once; the order of a Python set
    is unspecified *)
Definition to_clear (l : LbState) : list Port :=
  List.filter (fun p => negb (dmem p (lb_held l)))
    (remove_dups (dkeys (lb_on l) ++ dkeys (lb_flood_safe l))).

Definition clear_range : string := if truthy (b_pbm lb_bsh) then or_empty (b_pbm lb_bsh) else "all".

Definition force_clear_all : M (list Port) :=
  let* l := get_lb in
  for_each (lb_flood_safe l) (fun pf => undo_flood (snd pf)) ;;;
  modify_lb (put_flood (fun _ => [])) ;;;
  quietly (chip_ ("port " +:+ clear_range +:+ " lb=none")) ;;;
  modify_lb (put_on (fun _ => [])) ;;;
  let* l' := get_lb in
  for_each (lb_held l') (fun pm =>
    quietly (lb_set (fst pm) (snd pm) ;;; modify_lb (put_on (dset (fst pm) (snd pm, false))))) ;;;
  ret (to_clear l).

(** one round of [wait_cleared_down]: the names still up *)
Definition still_up (names : list string) : M (list string) :=
  fold_m (fun acc n => let* up := is_oper_up n in ret (if up then acc ++ [n] else acc)) names [].

Definition wait_cleared_down (ports : list Port) (timeout : Z) : M (list string) :=
  let* t0 := now in
  let* r := while_before (poll_fuel timeout 300) (t0 + timeout)
    (fun pending =>
       match pending with
       | [] => ret (inr [])
       | _ => let* left := still_up pending in
              match left with [] => ret (inr []) | _ => sleep 300 ;;; ret (inl left) end
       end) (remove_dups (map p_name ports)) in
  ret (match r with inl p => p | inr p => p end).
End Manager.
