(* ===== verification/Obj.v ===== *)
(** * Objects whose state survives an exception

    A method of a Python object can change the object and then raise; the
    changes stay.  An operation of an object with state [S] therefore gives its
    outcome and the new state, also when the outcome is an exception. *)

From S2P Require Import Prelude PyStr Device DeviceFacts Dut Topology Loopback.

Section Obj.
Context `{Device} {S : Type}.

Definition OM (A : Type) : Type := S -> M (outcome A * S).

Definition oret {A} (a : A) : OM A := fun s => ret (Val a, s).
Definition oraise {A} (e : exn) : OM A := fun s => ret (Exc e, s).
Definition obnd {A B} (m : OM A) (k : A -> OM B) : OM B := fun s =>
  let* r := m s in
  match r with
  | (Val a, s') => k a s'
  | (Exc e, s') => ret (Exc e, s')
  | (Hang, _) => hang
  end.

(** an operation on the device: its exceptions leave the object alone *)
Definition olift {A} (m : M A) : OM A := fun s w =>
  match m w with
  | (Val a, w') => (Val (Val a, s), w')
  | (Exc e, w') => (Val (Exc e, s), w')
  | (Hang, w') => (Hang, w')
  end.

Definition oget : OM S := fun s => ret (Val s, s).
Definition omod (f : S -> S) : OM unit := fun s => ret (Val tt, f s).

(** [try: m except Exception as e: h e] *)
Definition otry {A} (m : OM A) (h : exn -> OM A) : OM A := fun s =>
  let* r := m s in
  match r with
  | (Exc e, s') => if caught e then h e s' else ret r
  | _ => ret r
  end.
(** [try: m finally: f] *)
Definition ofinally {A} (m : OM A) (f : OM unit) : OM A := fun s =>
  let* r := m s in
  match r with
  | (Hang, _) => hang
  | (r, s') => let* r2 := f s' in
               match r2 with
               | (Val _, s'') => ret (r, s'')
               | (Exc e, s'') => ret (Exc e, s'')
               | (Hang, _) => hang
               end
  end.

Definition owhen (c : bool) (m : OM unit) : OM unit := if c then m else oret tt.
Fixpoint ofor {A} (l : list A) (f : A -> OM unit) : OM unit :=
  match l with
  | [] => oret tt
  | x :: l' => obnd (f x) (fun _ => ofor l' f)
  end.
(** [try: m except Exception: pass] *)
Definition oquietly (m : OM unit) : OM unit := otry m (fun _ => oret tt).

(** the operation seen by a caller that drops the object *)
Definition orun {A} (m : OM A) (s : S) : M A := let* r := m s in lift (fst r).
End Obj.
Arguments OM {_} S A.

Notation "'let!' x := e 'in' k" := (obnd e (fun x => k))
  (at level 200, x name, e at level 100, k at level 200, right associativity) : py_scope.
Notation "e ;!; k" := (obnd e (fun _ => k))
  (at level 100, k at level 200, right associativity) : py_scope.

(** ** Facts *)

Section Facts.
Context `{Device} {S : Type}.

(** every run of [m] from a state satisfying [P] ends in a state satisfying
    [Q], whatever the outcome *)
Definition okeeps {A} (P Q : S -> Prop) (m : OM S A) : Prop :=
  forall s w r s' w', P s -> m s w = (Val (r, s'), w') -> Q s'.

(** one step of a run *)
Lemma obnd_val {A B} (m : OM S A) (k : A -> OM S B) s w a s' w' :
  m s w = (Val (Val a, s'), w') -> obnd m k s w = k a s' w'.
Proof. intros E. unfold obnd, bind. by rewrite E. Qed.
Lemma obnd_exc {A B} (m : OM S A) (k : A -> OM S B) s w e s' w' :
  m s w = (Val (Exc e, s'), w') -> obnd m k s w = (Val (Exc e, s'), w').
Proof. intros E. unfold obnd, bind. by rewrite E. Qed.
Lemma obnd_lift {A B} (m : M A) (k : A -> OM S B) s w a w' :
  m w = (Val a, w') -> obnd (olift m) k s w = k a s w'.
Proof. intros E. unfold obnd, olift, bind. by rewrite E. Qed.
Lemma obnd_lift_exc {A B} (m : M A) (k : A -> OM S B) s w e w' :
  m w = (Exc e, w') -> obnd (olift m) k s w = (Val (Exc e, s), w').
Proof. intros E. unfold obnd, olift, bind. by rewrite E. Qed.

Lemma okeeps_ret {A} (P : S -> Prop) (a : A) : okeeps P P (oret a).
Proof. intros s w r s' w' HP E. unfold oret, ret in E. by simplify_eq. Qed.
Lemma okeeps_raise {A} (P : S -> Prop) e : okeeps P P (oraise (A := A) e).
Proof. intros s w r s' w' HP E. unfold oraise, ret in E. by simplify_eq. Qed.
Lemma okeeps_lift {A} (P : S -> Prop) (m : M A) : okeeps P P (olift m).
Proof. intros s w r s' w' HP E. unfold olift in E. destruct (m w) as [[]]; by simplify_eq. Qed.
Lemma okeeps_get (P : S -> Prop) : okeeps P P oget.
Proof. intros s w r s' w' HP E. unfold oget, ret in E. by simplify_eq. Qed.
Lemma okeeps_mod (P Q : S -> Prop) f : (forall s, P s -> Q (f s)) -> okeeps P Q (omod f).
Proof. intros Hf s w r s' w' HP E. unfold omod, ret in E. simplify_eq. auto. Qed.

Lemma okeeps_bind {A B} (P : S -> Prop) (m : OM S A) (k : A -> OM S B) :
  okeeps P P m -> (forall a, okeeps P P (k a)) -> okeeps P P (obnd m k).
Proof.
  intros Hm Hk s w r s' w' HP E. unfold obnd in E. apply bind_val in E as ([r1 s1] & w1 & E1 & E2).
  assert (P s1) as HP1 by (eapply Hm; eauto).
  destruct r1; [by eapply Hk | unfold ret in E2; by simplify_eq | done].
Qed.
Lemma okeeps_try {A} (P : S -> Prop) (m : OM S A) h :
  okeeps P P m -> (forall e, okeeps P P (h e)) -> okeeps P P (otry m h).
Proof.
  intros Hm Hh s w r s' w' HP E. unfold otry in E. apply bind_val in E as ([r1 s1] & w1 & E1 & E2).
  assert (P s1) as HP1 by (eapply Hm; eauto). unfold ret in E2.
  repeat case_match; simplify_eq; try done. by eapply Hh.
Qed.
Lemma okeeps_for {A} (P : S -> Prop) (l : list A) f : (forall x, okeeps P P (f x)) -> okeeps P P (ofor l f).
Proof. intros Hf. induction l; simpl; [apply okeeps_ret | apply okeeps_bind; auto]. Qed.
End Facts.

(** inversion of a successful sequence *)
Lemma obnd_inv `{Device} {S A B} (m : OM S A) (k : A -> OM S B) s w b s' w' :
  obnd m k s w = (Val (Val b, s'), w') ->
  exists a s1 w1, m s w = (Val (Val a, s1), w1) /\ k a s1 w1 = (Val (Val b, s'), w').
Proof.
  unfold obnd. intros ([r s1] & w1 & E1 & E2)%bind_val. destruct r; unfold ret in E2; simplify_eq; eauto.
Qed.
Lemma olift_inv `{Device} {S A} (m : M A) (s : S) w a s' w' :
  olift m s w = (Val (Val a, s'), w') -> m w = (Val a, w') /\ s' = s.
Proof. unfold olift. destruct (m w) as [[]]; intros; by simplify_eq. Qed.

(** [while time.time() < deadline] in a method *)
Fixpoint owhile_before `{Device} {S L A} (fuel : nat) (deadline : Z) (body : L -> OM S (L + A)) (l : L) : OM S (L + A) :=
  match fuel with
  | O => fun _ => hang
  | Datatypes.S f =>
      let! t := olift now in
      if t <? deadline then
        let! r := body l in
        match r with
        | inl l' => owhile_before f deadline body l'
        | inr a => oret (inr a)
        end
      else oret (inl l)
  end.

(** ** Operations that always end

    [okay v P Q m]: from every object and world satisfying [P], [m] ends (it
    never waits for ever), leaves [Q], does not turn the clock back, and
    raises nothing ([v = true]) or only what [except Exception] catches. *)

Definition fine {A} (v : bool) (r : outcome A) : Prop :=
  match r with Val _ => True | Exc e => v = false /\ caught e = true | Hang => False end.

Section Okay.
Context `{Device} {S : Type}.
Implicit Types P Q R I : S -> World -> Prop.

Definition later (w w' : World) : Prop := dev_now (w_dev w) <= dev_now (w_dev w').
Definition okay {A} (v : bool) P Q (m : OM S A) : Prop := forall s w, P s w ->
  exists r s' w', m s w = (Val (r, s'), w') /\ fine v r /\ Q s' w' /\ later w w'.

Lemma fine_weaken {A} v (r : outcome A) : fine true r -> fine v r.
Proof. destruct r; simpl; naive_solver. Qed.
Lemma okay_weaken {A} v P P' Q Q' (m : OM S A) :
  okay true P Q m -> (forall s w, P' s w -> P s w) -> (forall s w, Q s w -> Q' s w) -> okay v P' Q' m.
Proof.
  intros Hm HP HQ s w Hs. destruct (Hm s w) as (r & s' & w' & E & Hr & HQ' & Hl); [auto|].
  exists r, s', w'. repeat split; [done | by apply fine_weaken | auto | done].
Qed.
Lemma okay_conseq {A} v P P' Q Q' (m : OM S A) :
  okay v P Q m -> (forall s w, P' s w -> P s w) -> (forall s w, Q s w -> Q' s w) -> okay v P' Q' m.
Proof.
  intros Hm HP HQ s w Hs. destruct (Hm s w) as (r & s' & w' & E & Hr & HQ' & Hl); [auto|].
  exists r, s', w'. repeat split; auto.
Qed.

Lemma okay_ret {A} v I (a : A) : okay v I I (oret a).
Proof. intros s w Hs. do 3 eexists. split; [reflexivity|]. unfold later. repeat split; [done | lia]. Qed.
Lemma okay_raise {A} I e : caught e = true -> okay false I I (oraise (A := A) e).
Proof. intros He s w Hs. do 3 eexists. split; [reflexivity|]. unfold later. repeat split; [done | done | lia]. Qed.
Lemma okay_get v I : okay v I I oget.
Proof. intros s w Hs. do 3 eexists. split; [reflexivity|]. unfold later. repeat split; [done | lia]. Qed.
Lemma okay_mod v P Q f : (forall s w, P s w -> Q (f s) w) -> okay v P Q (omod f).
Proof. intros Hf s w Hs. do 3 eexists. split; [reflexivity|]. unfold later. repeat split; [auto | lia]. Qed.

Lemma okay_bind {A B} v I (m : OM S A) (k : A -> OM S B) :
  okay v I I m -> (forall a, okay v I I (k a)) -> okay v I I (obnd m k).
Proof.
  intros Hm Hk s w Hs. destruct (Hm s w Hs) as (r & s1 & w1 & E & Hr & H1 & Hl).
  destruct r as [a|e|]; [|by rewrite (obnd_exc _ _ _ _ _ _ _ E); eauto 10 | done].
  rewrite (obnd_val _ _ _ _ _ _ _ E). destruct (Hk a s1 w1 H1) as (r & s2 & w2 & E2 & Hr2 & H2 & Hl2).
  exists r, s2, w2. unfold later in *. repeat split; [done | done | done | lia].
Qed.
(** nothing raised, so the state in between can be another one *)
Lemma okay_seq {A B} P R Q (m : OM S A) (k : A -> OM S B) :
  okay true P R m -> (forall a, okay true R Q (k a)) -> okay true P Q (obnd m k).
Proof.
  intros Hm Hk s w Hs. destruct (Hm s w Hs) as (r & s1 & w1 & E & Hr & H1 & Hl).
  destruct r as [a|e|]; [|destruct Hr as [? _]; discriminate | done].
  rewrite (obnd_val _ _ _ _ _ _ _ E). destruct (Hk a s1 w1 H1) as (r & s2 & w2 & E2 & Hr2 & H2 & Hl2).
  exists r, s2, w2. unfold later in *. repeat split; [done | done | done | lia].
Qed.

Lemma okay_try {A} v P Q (m : OM S A) h :
  okay false P Q m -> (forall e, okay v Q Q (h e)) -> okay v P Q (otry m h).
Proof.
  intros Hm Hh s w Hs. destruct (Hm s w Hs) as (r & s1 & w1 & E & Hr & H1 & Hl).
  unfold otry, bind. rewrite E. destruct r as [a|e|]; [by do 3 eexists; eauto | | done].
  destruct Hr as [_ ->]. destruct (Hh e s1 w1 H1) as (r & s2 & w2 & E2 & Hr2 & H2 & Hl2).
  exists r, s2, w2. unfold later in *. repeat split; [done | done | done | lia].
Qed.
Lemma okay_quietly P Q (m : OM S unit) : okay false P Q m -> okay true P Q (oquietly m).
Proof. intros Hm. apply okay_try; [done|]. intros e. apply okay_ret. Qed.
Lemma okay_finally {A} v I (m : OM S A) f : okay v I I m -> okay v I I f -> okay v I I (ofinally m f).
Proof.
  intros Hm Hf s w Hs. destruct (Hm s w Hs) as (r & s1 & w1 & E & Hr & H1 & Hl).
  unfold ofinally, bind. rewrite E. destruct (Hf s1 w1 H1) as (r2 & s2 & w2 & E2 & Hr2 & H2 & Hl2).
  assert (later w w2) as Hl3 by (unfold later in *; lia).
  destruct r as [a|e|]; [| |done]; rewrite E2; destruct r2; try done; do 3 eexists; eauto.
Qed.

Lemma okay_when v I c m : okay v I I m -> okay v I I (owhen c m).
Proof. destruct c; [done | intros _; apply okay_ret]. Qed.
Lemma okay_for {A} v I (l : list A) f : (forall x, okay v I I (f x)) -> okay v I I (ofor l f).
Proof. intros Hf. induction l; simpl; [apply okay_ret | apply okay_bind; auto]. Qed.

(** what the operation does on the device only *)
Lemma okay_lift {A} v I (m : M A) :
  (forall s w, I s w -> exists r w', m w = (r, w') /\ fine v r /\ I s w' /\ later w w') -> okay v I I (olift m).
Proof.
  intros Hm s w Hs. destruct (Hm s w Hs) as (r & w' & E & Hr & H1 & Hl). unfold olift. rewrite E.
  destruct r; [by do 3 eexists | by do 3 eexists | done].
Qed.
Lemma okay_now v I : okay v I I (olift now).
Proof. apply okay_lift. intros s w Hs. do 2 eexists. split; [reflexivity|]. unfold later. repeat split; [done | lia]. Qed.
Lemma okay_pure {A} v I (o : outcome A) : fine v o -> okay v I I (olift (lift o)).
Proof. intros Ho. apply okay_lift. intros s w Hs. do 2 eexists. split; [reflexivity|]. unfold later. repeat split; [done | done | lia]. Qed.

(** a loop with a deadline whose rounds take at least [d] *)
Lemma okay_while {L A} v I d dl (body : L -> OM S (L + A)) :
  0 < d -> (forall l, okay v I I (body l)) ->
  (forall l s w l' s' w', I s w -> body l s w = (Val (Val (inl l'), s'), w') ->
     dev_now (w_dev w) + d <= dev_now (w_dev w')) ->
  forall fuel l s w, I s w -> dl - dev_now (w_dev w) <= (Z.of_nat fuel - 1) * d -> (0 < fuel)%nat ->
  exists r s' w', owhile_before fuel dl body l s w = (Val (r, s'), w') /\ fine v r /\ I s' w' /\ later w w'.
Proof.
  intros Hd Hb Hadv. induction fuel as [|f IH]; intros l s w Hs Hf Hpos; [lia|].
  cbn [owhile_before]. erewrite obnd_lift by reflexivity.
  destruct (Z.ltb_spec (dev_now (w_dev w)) dl); [|by apply okay_ret].
  destruct (Hb l s w Hs) as (r & s1 & w1 & E & Hr & H2 & Hl).
  destruct r as [[l'|a]|e|]; [| | by rewrite (obnd_exc _ _ _ _ _ _ _ E); eauto 10 | done];
    rewrite (obnd_val _ _ _ _ _ _ _ E); [|by do 3 eexists].
  specialize (Hadv _ _ _ _ _ _ Hs E). rewrite Nat2Z.inj_succ in Hf. destruct f as [|f]; [nia|].
  destruct (IH l' s1 w1) as (r & s2 & w2 & E2 & Hr2 & H3 & Hl2); [done | nia | lia|].
  exists r, s2, w2. unfold later in *. repeat split; [done | done | done | lia].
Qed.
End Okay.

(** The same for operations on the device alone; [K] is about the device. *)
Section Tame.
Context `{Device} `{!TimeLaws} `{ShellEnv} `{!LiveShell} (K : dev -> Prop).

Definition tame {A} (v : bool) (m : M A) : Prop := forall w, K (w_dev w) ->
  exists r w', m w = (r, w') /\ fine v r /\ K (w_dev w') /\ later w w'.

Lemma tame_ret {A} v (a : A) : tame v (ret a).
Proof. intros w Hw. do 2 eexists. split; [reflexivity|]. unfold later. repeat split; [done | lia]. Qed.
Lemma tame_bind {A B} v (m : M A) (k : A -> M B) : tame v m -> (forall a, tame v (k a)) -> tame v (bind m k).
Proof.
  intros Hm Hk w Hw. destruct (Hm w Hw) as (r & w1 & E & Hr & HK1 & Hl). unfold bind. rewrite E.
  destruct r as [a|e|]; [|by do 2 eexists | done].
  destruct (Hk a w1 HK1) as (r2 & w2 & E2 & Hr2 & HK2 & Hl2).
  exists r2, w2. unfold later in *. repeat split; [done | done | done | lia].
Qed.
Lemma tame_map_m {A B} v (f : A -> M B) l : (forall x, tame v (f x)) -> tame v (map_m f l).
Proof.
  intros Hf. induction l; simpl; [apply tame_ret|].
  apply tame_bind; [done | intros y; apply tame_bind; [done | intros ys; apply tame_ret]].
Qed.
Lemma tame_sleep v t : 0 <= t -> (forall d, K d -> K (dev_sleep t d)) -> tame v (sleep t).
Proof.
  intros Ht HK w Hw. do 2 eexists. split; [reflexivity|]. unfold later. cbn [w_dev].
  pose proof (sleep_advances t (w_dev w) Ht). repeat split; [by apply HK | lia].
Qed.
(** a command without [check=True] gives a result *)
Lemma tame_run v cmd cont t stdin :
  (forall d, K d -> K (snd (dev_exec (Call cont cmd t stdin) d))) -> tame v (run_full cmd cont false t stdin).
Proof.
  intros HK w Hw. rewrite run_full_native. unfold run_native. rewrite live. unfold bind, subprocess.
  pose proof (exec_advances (Call cont cmd t stdin) (w_dev w)) as Ha. specialize (HK _ Hw).
  destruct (dev_exec _ _) as [[] d]; do 2 eexists; (split; [reflexivity|]); unfold later; repeat split; done.
Qed.

Lemma okay_tame {S A} v (I : S -> World -> Prop) (m : M A) :
  tame v m -> (forall s w, I s w -> K (w_dev w)) ->
  (forall s w w', I s w -> K (w_dev w') -> I s w') -> okay v I I (olift m).
Proof.
  intros Hm HI HK. apply okay_lift. intros s w Hs. destruct (Hm w (HI _ _ Hs)) as (r & w' & E & Hr & HK' & Hl).
  exists r, w'. eauto.
Qed.
End Tame.
