(* ===== verification/LoopbackFacts.v ===== *)
(** * Facts about the loopback manager

    What the safety nets leave behind ([force_clear_all], [cleanup]), the
    isolation of a port's ingress VLAN and its restoration against a
    specification of the chip, and what the discard mode leaves behind. *)

From S2P Require Import Prelude PyStr PyStrFacts PyVal Device DeviceFacts Toy CliParse Cli CliFacts Worker Profile Dut Loopback.

Section Facts.
Context `{Device} `{ShellEnv} `{CliEnv} `{WorkerEnv} `{DutEnv} `{LbEnv}.

(** an operation that gives [a] and leaves the tables alone *)
Definition keeps_lb {A} (m : M A) : Prop := forall w, exists a w', m w = (Val a, w') /\ w_lb w' = w_lb w.

Lemma keeps_ret {A} (a : A) : keeps_lb (ret a).
Proof. intros w. by exists a, w. Qed.

Lemma keeps_bind {A B} (m : M A) (k : A -> M B) :
  keeps_lb m -> (forall a, keeps_lb (k a)) -> keeps_lb (bind m k).
Proof.
  intros Hm Hk w. destruct (Hm w) as (a & w1 & E & Hl). destruct (Hk a w1) as (b & w2 & E2 & Hl2).
  exists b, w2. rewrite (bind_step _ _ _ _ _ E). split; [done | congruence].
Qed.

Lemma keeps_run cmd cont t stdin : keeps_lb (run_full cmd cont false t stdin).
Proof.
  intros w. destruct (run_nocheck_val cmd cont t stdin w) as (r & w' & E). exists r, w'. split; [done|].
  pose proof (same_lb_run cmd cont false t stdin w) as Hl. by rewrite E in Hl.
Qed.

(** a chip command never raises and does not touch the tables *)
Lemma keeps_chip c : keeps_lb (chip c).
Proof.
  unfold chip, bsh_cmd, sock_cmd. destruct (String.eqb (b_access lb_bsh) "socket");
    (apply keeps_bind; [apply keeps_run | intros r; apply keeps_ret]).
Qed.

Lemma keeps_chip_ c : keeps_lb (chip_ c).
Proof. apply keeps_bind; [apply keeps_chip | intros _; apply keeps_ret]. Qed.

Lemma keeps_quietly m : keeps_lb m -> keeps_lb (quietly m).
Proof. intros Hm w. destruct (Hm w) as (a & w1 & E & Hl). exists a, w1. unfold quietly, try_except. by rewrite E. Qed.

Lemma keeps_undo_flood f : keeps_lb (undo_flood f).
Proof. unfold undo_flood. apply keeps_quietly, keeps_bind; [apply keeps_chip_ | intros _; apply keeps_chip_]. Qed.

Lemma keeps_for_each {A} (l : list A) f : (forall x, keeps_lb (f x)) -> keeps_lb (for_each l f).
Proof.
  intros Hf. induction l as [|x l IH]; simpl; [intros w; by exists tt, w | by apply keeps_bind].
Qed.

Lemma keeps_unit (m : M unit) w : keeps_lb m -> exists w', m w = (Val tt, w') /\ w_lb w' = w_lb w.
Proof. intros Hm. destruct (Hm w) as ([] & w' & E). by exists w'. Qed.

(** the re-opening of the held loopbacks *)
Lemma reopen_held held : forall w,
  (forall p, p ∈ dkeys held -> exists b, bcm_of lb_dut p = Val b) ->
  exists w', for_each held (fun pm =>
    quietly (lb_set (fst pm) (snd pm) ;;; modify_lb (put_on (dset (fst pm) (snd pm, false))))) w = (Val tt, w')
  /\ w_lb w' = put_on (fun on => fold_left (fun on pm => dset (fst pm) (snd pm, false) on) held on) (w_lb w).
Proof.
  induction held as [|[p m] held IH]; intros w Hb.
  { exists w. split; [done|]. by destruct (w_lb w). }
  destruct (Hb p) as [b Hbp]; [left|].
  destruct (keeps_unit (chip_ ("port " +:+ b +:+ " lb=" +:+ m)) w (keeps_chip_ _)) as (w1 & E1 & Hl1).
  set (w2 := mkWorld (w_dev w1) (w_trace w1) (w_cli w1) (put_on (dset p (m, false)) (w_lb w1))).
  destruct (IH w2) as (w' & E' & Hl'); [intros q Hq; apply Hb; by right|].
  exists w'. split.
  - cbn [for_each fst snd]. rewrite (bind_step _ _ tt w w2); [exact E'|].
    unfold quietly, try_except, lb_set, lb_bcm, lift, bind. rewrite Hbp, E1. done.
  - rewrite Hl'. unfold w2. cbn [w_lb fold_left]. rewrite Hl1. by destruct (w_lb w).
Qed.

Lemma fold_dset_get (held : pydict Port string) on p :
  dwf held -> (forall q, q ∈ dkeys on -> q ∉ dkeys held) ->
  dget p (fold_left (fun on pm => dset (fst pm) (snd pm, false) on) held on) =
  match dget p held with Some m => Some (m, false) | None => dget p on end.
Proof.
  revert on. induction held as [|[q m] held IH]; intros on Hw Hd; [done|].
  apply NoDup_cons in Hw as [Hni Hw]. cbn [fold_left fst snd dget].
  assert (dget q held = None) as Hq by by apply dget_None_keys.
  rewrite IH; [|done|].
  - destruct (decide (p = q)) as [->|Hne]; [by rewrite Hq, dget_dset_eq | by rewrite dget_dset_ne].
  - intros x Hx Hin. destruct (decide (x = q)) as [->|Hne]; [done|].
    apply (Hd x); [|by right]. destruct (dget x on) eqn:E.
    + apply dget_Some_elem in E. change x with (fst (x, p0)). by apply list_elem_of_fmap_2.
    + exfalso. assert (dget x (dset q (m, false) on) = None) as Hn by by rewrite dget_dset_ne.
      by apply dget_None_keys in Hn.
Qed.
End Facts.

(** C11: the per-test safety net leaves exactly the held loopbacks.  Whatever was
    looped or isolated before, [force_clear_all] ends with no isolation on
    record, with a loopback on record for each held port in its held mode and
    for no other port, and reports the tracked ports that are not held. *)
Theorem force_clear_all_post `{Device} `{ShellEnv} `{WorkerEnv} `{DutEnv} `{LbEnv} (w : World) :
  dwf (lb_held (w_lb w)) ->
  (forall p, p ∈ dkeys (lb_held (w_lb w)) -> exists b, bcm_of lb_dut p = Val b) ->
  exists w', force_clear_all w = (Val (to_clear (w_lb w)), w') /\
    lb_flood_safe (w_lb w') = [] /\
    (forall p, dget p (lb_on (w_lb w')) = option_map (fun m => (m, false)) (dget p (lb_held (w_lb w)))) /\
    lb_held (w_lb w') = lb_held (w_lb w) /\ lb_test_vlan (w_lb w') = lb_test_vlan (w_lb w).
Proof.
  intros Hw Hb. unfold force_clear_all. rewrite (bind_step _ _ (w_lb w) w w) by done.
  destruct (keeps_unit _ w (keeps_for_each (lb_flood_safe (w_lb w)) _ (fun pf => keeps_undo_flood (snd pf))))
    as (w1 & E1 & L1).
  rewrite (bind_step _ _ _ _ _ E1).
  set (w2 := mkWorld (w_dev w1) (w_trace w1) (w_cli w1) (put_flood (fun _ => []) (w_lb w1))).
  rewrite (bind_step _ _ tt w1 w2) by done.
  destruct (keeps_unit _ w2 (keeps_quietly _ (keeps_chip_ ("port " +:+ clear_range +:+ " lb=none")))) as (w3 & E3 & L3).
  rewrite (bind_step _ _ _ _ _ E3).
  set (w4 := mkWorld (w_dev w3) (w_trace w3) (w_cli w3) (put_on (fun _ => []) (w_lb w3))).
  rewrite (bind_step _ _ tt w3 w4) by done. rewrite (bind_step _ _ (w_lb w4) w4 w4) by done.
  assert (lb_held (w_lb w4) = lb_held (w_lb w)) as Hheld.
  { unfold w4. simpl. rewrite L3. unfold w2. simpl. by rewrite L1. }
  destruct (reopen_held (lb_held (w_lb w4)) w4) as (w5 & E5 & L5); [by rewrite Hheld|].
  rewrite (bind_step _ _ _ _ _ E5). exists w5. split; [done|]. rewrite L5, Hheld.
  unfold w4. cbn [w_lb put_on lb_flood_safe lb_on lb_held lb_test_vlan]. rewrite L3. unfold w2.
  cbn [w_lb put_flood lb_flood_safe lb_on lb_held lb_test_vlan]. rewrite L1. split; [done|]. split; [|done].
  intros p. rewrite fold_dset_get; [|done | by intros q ?%not_elem_of_nil]. by destruct (dget p _).
Qed.

(** ** A chip that keeps its ingress VLANs *)

(** [bcmcmd] answers for a chip with one ingress PVID per port: [pvlan show]
    reports it, [pvlan set] sets it and every other command leaves it *)
Class ChipLaws `{Device} (b : BcmShell) (pvid : dev -> string -> string) : Prop := {
  chip_bcmcmd : b_access b = "bcmcmd";
  chip_digits : forall p d, isdigit (pvid d p) = true;
  chip_show : forall p d, token p = true -> exists o d',
    dev_exec (Call (Some (b_syncd b)) ("bcmcmd 'pvlan show " +:+ p +:+ "'") 30000 None) d = (Exited 0 o "", d') /\
    digits_after "default VLAN is " (rstrip_chars (s1 lf) o) = Some (pvid d p) /\ pvid d' = pvid d;
  chip_set : forall p v d, token p = true -> isdigit v = true -> exists r d',
    dev_exec (Call (Some (b_syncd b)) ("bcmcmd 'pvlan set " +:+ p +:+ " " +:+ v +:+ "'") 30000 None) d = (r, d') /\
    pvid d' p = v /\ forall q, q <> p -> pvid d' q = pvid d q;
  chip_other : forall c d, starts "pvlan set" c = false ->
    pvid (snd (dev_exec (Call (Some (b_syncd b)) ("bcmcmd '" +:+ c +:+ "'") 30000 None) d)) = pvid d
}.

Section Chip.
Context `{Device} `{ShellEnv} `{!LiveShell} `{CliEnv} `{WorkerEnv} `{DutEnv} `{LbEnv}.
Context (pvid : dev -> string -> string) `{!ChipLaws lb_bsh pvid}.

(** the call a chip command makes (it is not the bare [clear c]) *)
Definition chip_call (c : string) : call := Call (Some (b_syncd lb_bsh)) ("bcmcmd '" +:+ c +:+ "'") 30000 None.

Lemma chip_run c w :
  String.eqb (strip c) "clear c" = false -> b_access lb_bsh = "bcmcmd" ->
  exists o, chip c w =
    (Val o, mkWorld (snd (dev_exec (chip_call c) (w_dev w))) (w_trace w ++ [chip_call c]) (w_cli w) (w_lb w)).
Proof.
  intros Hc Ha. unfold chip, bsh_cmd. rewrite Hc, andb_false_r, Ha.
  change (String.eqb "bcmcmd" "socket") with false. cbn iota. fold (chip_call c).
  unfold sh_run_in. rewrite run_full_native. unfold run_native. rewrite live. unfold bind, subprocess.
  fold (chip_call c). destruct (dev_exec (chip_call c) (w_dev w)) as [[] d]; eexists; reflexivity.
Qed.

Lemma starts_strip (c : ascii) s t :
  is_space c = false -> c <> "c"%char -> String.eqb (strip (String c s)) ("clear c" +:+ t) = false.
Proof.
  intros Hc Hne. unfold strip, strip_by. rewrite lstrip_by_id by done. cbn [rstrip_by].
  apply String.eqb_neq. destruct (rstrip_by is_space s); [rewrite Hc|]; intros [= E]; done.
Qed.

Lemma chip_keep_pvid c w :
  starts "pvlan set" c = false -> (exists a s, c = String a s /\ is_space a = false /\ a <> "c"%char) ->
  exists o w', chip c w = (Val o, w') /\ pvid (w_dev w') = pvid (w_dev w) /\ w_lb w' = w_lb w /\ w_cli w' = w_cli w.
Proof.
  intros Hs (a & s & -> & Ha & Hc).
  destruct (chip_run (String a s) w (starts_strip a s "" Ha Hc) (chip_bcmcmd (b := lb_bsh))) as [o E].
  eexists _, _. split; [exact E|]. split; [|done]. by apply chip_other.
Qed.

Lemma chip_set_pvid b v w :
  token b = true -> isdigit v = true ->
  exists o w', chip ("pvlan set " +:+ b +:+ " " +:+ v) w = (Val o, w') /\
    pvid (w_dev w') b = v /\ (forall q, q <> b -> pvid (w_dev w') q = pvid (w_dev w) q) /\
    w_lb w' = w_lb w /\ w_cli w' = w_cli w.
Proof.
  intros Hb Hv. destruct (chip_run ("pvlan set " +:+ b +:+ " " +:+ v) w) as [o E];
    [by apply (starts_strip "p" _ "") | by apply chip_bcmcmd|].
  eexists _, _. split; [exact E|]. cbn [w_dev w_lb w_cli].
  destruct (chip_set (b := lb_bsh) b v (w_dev w) Hb Hv) as (r & d1 & Ex & HS & HSq).
  assert (dev_exec (chip_call ("pvlan set " +:+ b +:+ " " +:+ v)) (w_dev w) = (r, d1)) as ->.
  { rewrite <- Ex. unfold chip_call. do 2 f_equal. by rewrite !sapp_assoc. }
  done.
Qed.

Lemma current_pvid_spec b w :
  token b = true -> exists w', current_pvid b w = (Val (pvid (w_dev w) b), w') /\ pvid (w_dev w') = pvid (w_dev w) /\
    w_lb w' = w_lb w /\ w_cli w' = w_cli w.
Proof.
  intros Hb. destruct (chip_show (b := lb_bsh) b (w_dev w) Hb) as (o & d' & Ex & Hd & Hp).
  exists (mkWorld d' (w_trace w ++ [chip_call ("pvlan show " +:+ b)]) (w_cli w) (w_lb w)).
  split; [|done]. unfold current_pvid. 
  assert (chip ("pvlan show " +:+ b) w = (Val (rstrip_chars (s1 lf) o),
            mkWorld d' (w_trace w ++ [chip_call ("pvlan show " +:+ b)]) (w_cli w) (w_lb w))) as Ec.
  { unfold chip, bsh_cmd.
    replace (String.eqb (strip ("pvlan show " +:+ b)) "clear c") with false
      by (symmetry; by apply (starts_strip "p" ("vlan show " +:+ b) "")).
    rewrite andb_false_r, (chip_bcmcmd (b := lb_bsh)). change (String.eqb "bcmcmd" "socket") with false. cbn iota.
    unfold sh_run_in. refine (bind_step _ _ _ _ _ (run_ok _ _ false _ _ _ _ _ _ _)). exact Ex. }
  rewrite (bind_step _ _ _ _ _ Ec). by rewrite Hd.
Qed.
End Chip.

(** Isolating a port's ingress VLAN and restoring it is the identity on the
    chip.  On any chip that keeps its PVIDs, [isolate_pvid] moves only that port
    into the isolation VLAN, and [restore_pvid] then puts every port's PVID back
    and forgets the isolation. *)
Theorem isolate_restore_pvid `{Device} `{ShellEnv} `{!LiveShell} `{WorkerEnv} `{DutEnv} `{LbEnv}
    (pvid : dev -> string -> string) `{!ChipLaws lb_bsh pvid} (p : Port) (b : string) (vid : Z) (w : World) :
  lb_has_cli = false -> bcm_of lb_dut p = Val b -> token b = true -> 0 <= remap_vid vid -> dwf (lb_flood_safe (w_lb w)) ->
  exists w1 w2, isolate_pvid p vid w = (Val tt, w1) /\ restore_pvid p w1 = (Val tt, w2) /\
    pvid (w_dev w1) b = zs (remap_vid vid) /\
    (forall q, pvid (w_dev w2) q = pvid (w_dev w) q) /\ dget p (lb_flood_safe (w_lb w2)) = None.
Proof.
  intros Hcli Hb Ht Hv Hwf. destruct (current_pvid_spec pvid b w Ht) as (wa & Ea & Pa & La & _).
  destruct (chip_keep_pvid pvid ("vlan create " +:+ zs (remap_vid vid)) wa) as (o1 & wb & Eb & Pb & Lb & _);
    [done | by eexists _, _|].
  destruct (chip_set_pvid pvid b (zs (remap_vid vid)) wb Ht (zs_isdigit _ Hv)) as (o2 & wc & Ec & Pc & Pcq & Lc & _).
  set (fs := FsPvid b (remap_vid vid) (pvid (w_dev w) b)).
  set (w1 := mkWorld (w_dev wc) (w_trace wc) (w_cli wc) (put_flood (dset p fs) (w_lb wc))).
  set (wd := mkWorld (w_dev wc) (w_trace wc) (w_cli wc) (put_flood (ddel p) (w_lb w1))).
  destruct (chip_set_pvid pvid b (pvid (w_dev w) b) wd Ht (chip_digits (b := lb_bsh) b (w_dev w))) as (o3 & we & Ee & Pe & Peq & Le & _).
  destruct (chip_keep_pvid pvid ("vlan destroy " +:+ zs (remap_vid vid)) we) as (o4 & w2 & E2 & P2 & L2 & _);
    [done | by eexists _, _|].
  exists w1, w2. split; [|split; [|split; [|split]]].
  - unfold isolate_pvid, lb_bcm, lift, lb_swp. rewrite Hcli, Hb.
    rewrite (bind_step _ _ b w w) by done. rewrite (bind_step _ _ false w w) by done.
    rewrite (bind_step _ _ _ _ _ Ea). unfold chip_.
    rewrite (bind_step _ _ tt wa wb) by by rewrite (bind_step _ _ _ _ _ Eb).
    rewrite (bind_step _ _ tt wb wc) by by rewrite (bind_step _ _ _ _ _ Ec). done.
  - unfold restore_pvid. rewrite (bind_step _ _ (Some fs) w1 wd).
    + unfold quietly, try_except, chip_, fs. cbn iota beta.
      rewrite (bind_step _ _ tt wd we) by by rewrite (bind_step _ _ _ _ _ Ee).
      by rewrite (bind_step _ _ _ _ _ E2).
    + unfold pop_flood, bind, get_lb, modify_lb, ret. unfold w1 at 1. cbn [w_lb put_flood lb_flood_safe].
      by rewrite dget_dset_eq.
  - done.
  - intros q. rewrite P2. destruct (decide (q = b)) as [->|Hq]; [done|].
    rewrite Peq by done. change (w_dev wd) with (w_dev wc). rewrite Pcq by done. by rewrite Pb, Pa.
  - rewrite L2, Le. unfold wd, w1. cbn [w_lb put_flood lb_flood_safe]. rewrite dget_ddel_eq; [done|].
    apply dwf_dset. by rewrite Lc, Lb, La.
Qed.

(** *** A chip on which the theorem applies *)
Definition toy_pvid (s : gmap string string) (p : string) : string :=
  let v := default "1000" (s !! p) in if isdigit v then v else "1000".
Definition toy_chip_step (c : call) (s : gmap string string) : raw * gmap string string :=
  if starts "bcmcmd 'pvlan show " (call_cmd c) then
    let p := str_drop 19 (call_cmd c) in
    (ok_out ("Port default VLAN is " +:+ toy_pvid s (str_take (slen p - 1) p)), s)
  else if starts "bcmcmd 'pvlan set " (call_cmd c) then
    let a := str_drop 18 (call_cmd c) in
    match cut " "%char (str_take (slen a - 1) a) with
    | Some (p, v) => (ok_out "", <[p := v]> s)
    | None => (ok_out "", s)
    end
  else (ok_out "", s).
Definition toy_chip : Device := state_device toy_chip_step.
Definition toy_dut : Dut := mkDut "p" "h" "syncd" [] "sdk6" [].
Definition toy_lb : LbEnv := {| lb_dut := toy_dut; lb_has_cli := false |}.
Definition serial : WorkerEnv := {| fvt_worker := None |}.
Definition no_bcm_env : DutEnv := {| dut_syncd := None; dut_sdk := None; bcm_prefix := None;
  bcm_offset := None; bcm_divisor := None |}.

Lemma take_quote p : str_take (slen (p +:+ "'") - 1) (p +:+ "'") = p.
Proof.
  rewrite slen_app. change (slen "'") with 1%nat. rewrite Nat.add_sub. apply str_take_app.
Qed.

Lemma toy_pvid_digits s p : isdigit (toy_pvid s p) = true.
Proof. unfold toy_pvid. destruct (isdigit (default "1000" (s !! p))) eqn:E; [exact E | reflexivity]. Qed.

Lemma toy_chip_laws :
  @ChipLaws toy_chip (@lb_bsh serial no_bcm_env toy_lb) (fun d => toy_pvid (fst d)).
Proof.
  split.
  - reflexivity.
  - intros p d. apply toy_pvid_digits.
  - intros p [s t] Ht. exists ("Port default VLAN is " +:+ toy_pvid s p), (s, t).
    split; [|split; [|done]].
    + cbn [dev_exec toy_chip state_device fst snd]. unfold toy_chip_step. cbn [call_cmd].
      change ("bcmcmd 'pvlan show " +:+ p +:+ "'") with ("bcmcmd 'pvlan show " +:+ (p +:+ "'")).
      rewrite starts_app. change (str_drop 19 ("bcmcmd 'pvlan show " +:+ ?x)) with x.
      cbv zeta. by rewrite take_quote.
    + unfold rstrip_chars. rewrite rstrip_by_id.
      * change (digits_after "default VLAN is " ("Port default VLAN is " +:+ toy_pvid s p))
          with (digits_after "default VLAN is " ("default VLAN is " +:+ toy_pvid s p)).
        apply digits_after_app, toy_pvid_digits.
      * rewrite str_forall_app. apply andb_true_iff. split; [done|].
        pose proof (toy_pvid_digits s p) as Hd. apply andb_true_iff in Hd as [_ Hd].
        eapply str_forall_impl; [|exact Hd]. intros c Hc.
        enough (negb (is_digit c) || negb (char_in c (s1 lf)) = true) as Ho by by rewrite Hc in Ho.
        revert c Hc. intros c _. revert c. by apply ascii_all.
  - intros p v [s t] Ht Hv. eexists _, _. split; [apply surjective_pairing|].
    cbn [dev_exec toy_chip state_device fst snd]. unfold toy_chip_step. cbn [call_cmd].
    change (starts "bcmcmd 'pvlan show " ("bcmcmd 'pvlan set " +:+ p +:+ " " +:+ v +:+ "'")) with false.
    rewrite starts_app. cbn iota.
    change (str_drop 18 ("bcmcmd 'pvlan set " +:+ ?x)) with x. cbv zeta.
    replace (p +:+ " " +:+ v +:+ "'") with ((p +:+ String " " v) +:+ "'")
      by (rewrite sapp_assoc; reflexivity).
    rewrite take_quote, cut_app.
    2:{ unfold token in Ht. apply andb_true_iff in Ht as [_ Ht]. eapply str_forall_impl; [|exact Ht].
        intros c Hc. enough (negb (is_nospace c) || not_char " " c = true) as Ho by by rewrite Hc in Ho.
        revert c Hc. intros c _. revert c. by apply ascii_all. }
    cbn [fst snd]. unfold toy_pvid. rewrite lookup_insert_eq. cbn [default from_option id]. rewrite Hv.
    split; [done|]. intros q Hq. by rewrite lookup_insert_ne.
  - intros c [s t] Hc. cbn [dev_exec toy_chip state_device fst snd]. unfold toy_chip_step. cbn [call_cmd].
    destruct (starts "bcmcmd 'pvlan show " ("bcmcmd '" +:+ c +:+ "'")); [done|].
    destruct (starts "bcmcmd 'pvlan set " ("bcmcmd '" +:+ c +:+ "'")) eqn:E; [|done].
    exfalso. change (starts "pvlan set " (c +:+ String squote "") = true) in E.
    apply starts_before in E; [|done]. by apply (starts_shorter "pvlan set" " ") in E; rewrite E in Hc.
Qed.

Lemma isolate_restore_pvid_witness :
  let w := @world toy_chip (∅, 0) cli_init in
  let p := mkPort "Ethernet4" (Some "cd3") None true in
  exists w1 w2, @isolate_pvid toy_chip plain_shell serial no_bcm_env toy_lb p 3990 w = (Val tt, w1) /\
    @restore_pvid toy_chip plain_shell serial no_bcm_env toy_lb p w1 = (Val tt, w2) /\
    toy_pvid (fst (w_dev w1)) "cd3" = zs (@remap_vid serial 3990) /\
    (forall q, toy_pvid (fst (w_dev w2)) q = toy_pvid (fst (w_dev w)) q) /\
    dget p (lb_flood_safe (w_lb w2)) = None.
Proof.
  intros w p.
  apply (@isolate_restore_pvid toy_chip plain_shell plain_live serial no_bcm_env toy_lb
    (fun d => toy_pvid (fst d)) toy_chip_laws p "cd3" 3990 w);
    [reflexivity | reflexivity | reflexivity | vm_compute; discriminate | apply dwf_nil].
Defined.

Lemma force_clear_all_post_witness :
  let p := mkPort "Ethernet4" (Some "cd3") None true in
  let q := mkPort "Ethernet8" (Some "cd7") None true in
  let w := @mkWorld toy_chip (∅, 0) [] cli_init (mkLb [(p, ("mac", false)); (q, ("mac", true))] [] None [(p, "phy")] true) in
  exists w', @force_clear_all toy_chip plain_shell serial no_bcm_env toy_lb w = (Val (to_clear (w_lb w)), w') /\
    lb_flood_safe (w_lb w') = [] /\
    (forall r, dget r (lb_on (w_lb w')) = option_map (fun m => (m, false)) (dget r (lb_held (w_lb w)))) /\
    lb_held (w_lb w') = lb_held (w_lb w) /\ lb_test_vlan (w_lb w') = lb_test_vlan (w_lb w).
Proof.
  intros p q w. apply (@force_clear_all_post toy_chip plain_shell serial no_bcm_env toy_lb w).
  - apply (bool_decide_unpack _). vm_compute. exact I.
  - intros r Hr. apply list_elem_of_singleton in Hr as ->. exists "cd3". reflexivity.
Defined.

(** Turning off an isolation made in discard mode leaves the discard on.  On
    a switchport OS [isolate_pvid] sets [discard=all] on the port; the commands
    [disable_flood_safe] then runs are the PVID restoration with the text
    [None] and [lb=none], never [discard=none], and the record is gone. *)
Theorem discard_isolation_leaks `{Device} `{ShellEnv} `{!LiveShell} `{WorkerEnv} `{DutEnv} `{LbEnv}
    (p : Port) (b : string) (w : World) :
  b_access lb_bsh = "bcmcmd" -> bcm_of lb_dut p = Val b -> dwf (lb_flood_safe (w_lb w)) ->
  dget p (lb_flood_safe (w_lb w)) = Some (FsDiscard b) ->
  (forall m, dget p (lb_on (w_lb w)) <> Some (m, true)) ->
  exists w', disable_flood_safe p w = (Val tt, w') /\
    w_trace w' = w_trace w ++ map chip_call ["pvlan set " +:+ b +:+ " None"; "vlan destroy None"; "port " +:+ b +:+ " lb=none"]
    /\ dget p (lb_flood_safe (w_lb w')) = None.
Proof.
  intros Ha Hb Hwf Hf Hon.
  set (w0 := mkWorld (w_dev w) (w_trace w) (w_cli w) (put_flood (ddel p) (w_lb w))).
  destruct (chip_run ("pvlan set " +:+ b +:+ " None") w0) as [o1 E1]; [by apply (starts_strip "p" _ "") | done|].
  match type of E1 with _ = (_, ?x) => set (wa := x) in * end.
  destruct (chip_run "vlan destroy None" wa) as [o2 E2]; [done | done|].
  match type of E2 with _ = (_, ?x) => set (wb := x) in * end.
  destruct (chip_run ("port " +:+ b +:+ " lb=none") wb) as [o3 E3]; [by apply (starts_strip "p" _ "") | done|].
  match type of E3 with _ = (_, ?x) => set (wc := x) in * end.
  exists (mkWorld (w_dev wc) (w_trace wc) (w_cli wc) (put_on (ddel p) (w_lb wc))). split; [|split].
  - unfold disable_flood_safe. rewrite (bind_step _ _ (Some (FsDiscard b)) w w0).
    2:{ unfold pop_flood, bind, get_lb, modify_lb, ret. by rewrite Hf. }
    rewrite (bind_step _ _ tt w0 wb).
    2:{ unfold undo_flood, quietly, try_except, chip_. cbn [fs_bcm fs_orig fs_iso].
        rewrite (bind_step _ _ tt w0 wa) by by rewrite (bind_step _ _ _ _ _ E1).
        by rewrite (bind_step _ _ _ _ _ E2). }
    unfold disable, lb_bcm, lift. rewrite (bind_step _ _ b wb wb) by by rewrite Hb.
    rewrite (bind_step _ _ (w_lb wb) wb wb) by done.
    assert (match dget p (lb_on (w_lb wb)) with Some (_, d) => d | None => false end = false) as ->.
    { change (lb_on (w_lb wb)) with (lb_on (w_lb w)). destruct (dget p (lb_on (w_lb w))) as [[m []]|] eqn:E; try done.
      by destruct (Hon m). }
    rewrite (bind_step _ _ tt wb wb) by done. unfold chip_.
    rewrite (bind_step _ _ tt wb wc) by by rewrite (bind_step _ _ _ _ _ E3). done.
  - unfold wc, wb, wa. cbn [w_trace map]. by rewrite <- !app_assoc.
  - cbn [w_lb put_on lb_flood_safe]. change (w_lb wc) with (put_flood (ddel p) (w_lb w)).
    cbn [put_flood lb_flood_safe]. by apply dget_ddel_eq.
Qed.

Lemma discard_isolation_leaks_witness :
  let p := mkPort "Ethernet4" (Some "cd3") None true in
  let w := @mkWorld toy_chip (∅, 0) [] cli_init (mkLb [(p, ("mac", false))] [(p, FsDiscard "cd3")] None [] true) in
  exists w', @disable_flood_safe toy_chip plain_shell serial no_bcm_env toy_lb p w = (Val tt, w') /\
    w_trace w' = w_trace w ++ map (@chip_call serial no_bcm_env toy_lb)
      ["pvlan set " +:+ "cd3" +:+ " None"; "vlan destroy None"; "port " +:+ "cd3" +:+ " lb=none"]
    /\ dget p (lb_flood_safe (w_lb w')) = None.
Proof.
  intros p w.
  apply (@discard_isolation_leaks toy_chip plain_shell plain_live serial no_bcm_env toy_lb p "cd3" w);
    [reflexivity | reflexivity | | reflexivity |].
  - apply (bool_decide_unpack _). vm_compute. exact I.
  - intros m. vm_compute. discriminate.
Defined.
