(* ===== verification/PmonFault.v ===== *)
(** * Platform fault injection (framework/pmon_fault.py)

    [BmcRedirect] books every firewall rule it adds and deletes exactly those
    rules; [PmonCtl] controls the cache daemon and the platform monitor
    container; [PlatformState] observes the cache file and STATE_DB.  What a
    firewall promises about [-A], [-D] and [-S] is the class [Iptables]. *)

From S2P Require Import Prelude PyStr PyStrFacts PyVal Device DeviceFacts Toy Cli Dut Topology Loopback Obj.

Definition BMC_IP : string := "240.1.1.1".
Definition BMC_PORT : Z := 8080.
Definition SYNC_UNIT : string := "vendor-vendor-b-bmc2cpu_cache_sync.service".
Definition SYNC_PROC : string := "bmc2cpu_cache_sync".
Definition PMON_DAEMONS : list string := ["psud"; "thermalctld"; "syseepromd"; "xcvrd"].
Definition STATE_DB_ID : Z := 6.

Section PmonFault.
Context `{Device} `{ShellEnv}.

(** ** [BmcRedirect] *)

(** a table ([None] is the filter table) and the arguments of a rule *)
Definition fw_rule := (option string * string)%type.

Record BmcRedirect := mkRedirect { rd_port : Z; rd_applied : list fw_rule }.
Definition bmc_redirect (mock_port : Z) : BmcRedirect := mkRedirect mock_port [].
Definition set_applied (l : list fw_rule) (r : BmcRedirect) : BmcRedirect := mkRedirect (rd_port r) l.

(** ["iptables %s -A %s" % (("-t %s" % table) if table else "", rule)] *)
Definition ipt_cmd (op : string) (fr : fw_rule) : string :=
  "sudo iptables " +:+ (match fst fr with
                        | Some t => if nonempty t then "-t " +:+ t else ""
                        | None => ""
                        end) +:+ " " +:+ op +:+ " " +:+ snd fr.

Definition rd_add (fr : fw_rule) : OM BmcRedirect unit :=
  let! _ := olift (sh_run_check (ipt_cmd "-A" fr)) in
  omod (fun r => set_applied (rd_applied r ++ [fr]) r).

Definition rule_to_mock (port : Z) : fw_rule :=
  (Some "nat", "OUTPUT -d " +:+ BMC_IP +:+ " -p tcp --dport " +:+ zs BMC_PORT +:+ " -j REDIRECT --to-ports " +:+ zs port).
Definition rule_refuse : fw_rule :=
  (None, "OUTPUT -d " +:+ BMC_IP +:+ " -p tcp --dport " +:+ zs BMC_PORT +:+ " -j REJECT --reject-with tcp-reset").
Definition rule_blackhole : fw_rule :=
  (None, "OUTPUT -d " +:+ BMC_IP +:+ " -p tcp --dport " +:+ zs BMC_PORT +:+ " -j DROP").

Definition to_mock : OM BmcRedirect unit := let! r := oget in rd_add (rule_to_mock (rd_port r)).
Definition refuse : OM BmcRedirect unit := rd_add rule_refuse.
Definition blackhole : OM BmcRedirect unit := rd_add rule_blackhole.

Definition ipt_list_cmd : string := "sudo iptables -S OUTPUT; sudo iptables -t nat -S OUTPUT".

Definition rd_restore : OM BmcRedirect unit :=
  let! r := oget in
  olift (for_each (rev (rd_applied r)) (fun fr => sh_run (ipt_cmd "-D" fr) ;;; ret tt)) ;!;
  omod (set_applied []) ;!;
  let! l := olift (sh_run ipt_list_cmd) in
  if contains BMC_IP (out l)
  then oraise (AssertionError ("iptables cleanup incomplete, manual check required: " +:+ out l))
  else oret tt.

(** ** [PmonCtl] *)

Definition has_sync_unit : M bool :=
  let* r := sh_run ("systemctl list-unit-files " +:+ SYNC_UNIT) in
  ret (match List.find (contains SYNC_UNIT) (splitlines (out r)) with
       | Some line => match split_ws line with
                      | _ :: st :: _ => String.eqb st "enabled"
                      | _ => false
                      end
       | None => false
       end).

(** [dict(line.split("=", 1) for line in text.splitlines() if "=" in line)] *)
Definition props_of (text : string) : pydict string string :=
  dict_of (omap (cut "="%char) (splitlines text)).
Definition sync_props : M (pydict string string) :=
  let* r := sh_run ("systemctl show " +:+ SYNC_UNIT +:+ " -p ActiveState,SubState,ExecMainStatus,NRestarts") in
  ret (props_of (out r)).

Definition sync_proc_alive : M bool :=
  let* r := sh_run ("pgrep -f " +:+ SYNC_PROC) in ret (result_ok r).
Definition stop_sync : M unit := sh_run_check ("sudo systemctl stop " +:+ SYNC_UNIT) ;;; ret tt.
Definition start_sync : M unit := sh_run_check ("sudo systemctl restart " +:+ SYNC_UNIT) ;;; ret tt.
Definition crash_sync : M unit := sh_run ("sudo pkill -9 -f " +:+ SYNC_PROC) ;;; ret tt.

(** the first two columns of every line that has them *)
Definition states_of (text : string) : pydict string string :=
  dict_of (omap (fun line => match split_ws line with a :: b :: _ => Some (a, b) | _ => None end) (splitlines text)).
Definition supervisor_states : M (pydict string string) :=
  let* r := run_full "supervisorctl status" (Some "pmon") false 60000 None in
  ret (states_of (out r)).

Definition SETTLED : list string := ["RUNNING"; "FATAL"; "EXITED"; "BACKOFF"].
Definition WATCHED : list string := ["psud"; "thermalctld"].
Definition settled_in (states : pydict string string) : bool :=
  forallb (fun d => match dget d states with
                    | Some s => nonempty s && bool_decide (s ∈ SETTLED)
                    | None => false
                    end) WATCHED.

(** one round of [wait_pmon_ready] *)
Definition pmon_round (_ : pydict string string) : M (pydict string string + pydict string string) :=
  let* states := supervisor_states in
  if settled_in states then ret (inr states) else sleep 5000 ;;; ret (inl states).
Definition wait_pmon_ready (timeout : Z) : M (pydict string string) :=
  let* t0 := now in
  let* r := while_before (poll_fuel timeout 5000) (t0 + timeout) pmon_round [] in
  ret (match r with inl states => states | inr states => states end).

Definition restart_pmon (wait : Z) : M (pydict string string) :=
  sh_run "sudo systemctl reset-failed pmon 2>/dev/null" ;;;
  sh_run_timeout 180000 "sudo systemctl restart pmon" ;;;
  wait_pmon_ready wait.

Definition journal_tail (unit : string) (lines : Z) : M string :=
  let* r := sh_run ("sudo journalctl -u " +:+ unit +:+ " -b --no-pager -n " +:+ zs lines) in ret (out r).

(** ** [PlatformState] *)

(** [_platform], the attribute that caches the platform's name *)
Definition PlatformState := option string.

Definition PLATFORM_CMD : string :=
  "sonic-cfggen -d -v DEVICE_METADATA.localhost.platform 2>/dev/null || grep onie_platform /host/machine.conf | cut -d= -f2".

Definition first_line (s : string) : outcome string :=
  if nonempty (strip s) then
    match splitlines (strip s) with
    | l :: _ => Val (strip l)
    | [] => Exc IndexError
    end
  else Val "".

Definition platform : OM PlatformState string :=
  let! p := oget in
  match p with
  | Some p => oret p
  | None =>
      let! r := olift (sh_run PLATFORM_CMD) in
      let! p := olift (lift (first_line (out r))) in
      omod (fun _ => Some p) ;!; oret p
  end.

Definition cache_path : OM PlatformState string :=
  let! p := platform in oret ("/usr/share/sonic/device/" +:+ p +:+ "/bmc_cache").

Definition has_cache_arch : OM PlatformState bool :=
  let! p := cache_path in
  let! r := olift (sh_run ("test -f " +:+ p)) in oret (result_ok r).

Definition read_cache : OM PlatformState (option pyval) :=
  let! p := cache_path in
  let! r := olift (sh_run ("sudo cat " +:+ p)) in oret (json_loads (out r)).

Definition cache_age_s : OM PlatformState (option Z) :=
  let! p := cache_path in
  let! r := olift (sh_run ("echo $(( $(date +%s) - $(stat -c %Y " +:+ p +:+ ") ))")) in
  oret (py_int (strip (out r))).

Definition is_fresh (fresh_s : Z) (age : option Z) : bool :=
  match age with Some a => a <=? fresh_s | None => false end.

Definition wait_cache_fresh (max_wait fresh_s : Z) : OM PlatformState (option Z) :=
  let! t0 := olift now in
  let! age := cache_age_s in
  let! r := owhile_before (poll_fuel max_wait 5000) (t0 + max_wait)
              (fun _ => let! age := cache_age_s in
                        if is_fresh fresh_s age then oret (inr age)
                        else olift (sleep 5000) ;!; oret (inl age)) age in
  oret (match r with inl age => age | inr age => age end).

Definition db_keys (pattern : string) : M (list string) :=
  let* r := sh_run ("redis-cli -n " +:+ zs STATE_DB_ID +:+ " --raw keys '" +:+ pattern +:+ "'") in
  ret (filter (fun k => nonempty (strip k)) (splitlines (out r))).
Definition db_row (key : string) : M (pydict string string) :=
  let* r := sh_run ("redis-cli -n " +:+ zs STATE_DB_ID +:+ " --raw hgetall " +:+ s1 dquote +:+ key +:+ s1 dquote) in
  ret (dict_of (pair_up (splitlines (out r)))).
Definition db_table (table : string) : M (pydict string (pydict string string)) :=
  let* ks := db_keys (table +:+ "|*") in
  let* rows := map_m (fun k => let* r := db_row k in ret (k, r)) ks in
  ret (dict_of rows).

Definition pmon_show (what : string) : M string :=
  let* r := sh_run_timeout 60000 ("show platform " +:+ what) in ret (out r).

Definition blank_row (row : pydict string string) : bool :=
  bool_decide (dget "presence" row = Some "true") && (negb (dmem "model" row) || negb (dmem "voltage" row)).
Definition psu_detail_blank : M (list string) :=
  let* t := db_table "PSU_INFO" in
  ret (map fst (filter (fun p => blank_row (snd p)) t)).

Definition opt_z (o : option Z) : string := match o with Some z => zs z | None => "None" end.

(** the problems, in the order of the checks; a check that finds nothing adds none *)
Definition state_problems (states : pydict string string) : list string :=
  omap (fun d => match dget d states with
                 | Some s => if String.eqb s "RUNNING" then None else Some ("pmon " +:+ d +:+ " state=" +:+ s)
                 | None => None
                 end) WATCHED.
Definition baseline_problems (stale_s : Z) : OM PlatformState (list string) :=
  let! states := olift supervisor_states in
  let! psu := olift (pmon_show "psustatus") in
  let! blanks := olift psu_detail_blank in
  let! arch := has_cache_arch in
  let! stale := (if arch : bool then
                   let! age := cache_age_s in
                   oret (if is_fresh stale_s age then [] else ["bmc_cache stale (age=" +:+ opt_z age +:+ "s)"])
                 else oret []) in
  oret (state_problems states
        ++ (if contains "Error" psu then ["psustatus reports error"] else [])
        ++ (if negb (bool_decide (blanks = [])) then ["PSU detail fields missing (1.0 fallback signature)"] else [])
        ++ stale).

Definition wait_s (seconds : Z) : M unit := sleep (seconds * 1000).
End PmonFault.

(** ** The redirection as a lease on the firewall *)

(** delete the first rule that matches *)
Fixpoint rm1 (x : string) (l : list string) : list string :=
  match l with
  | [] => []
  | y :: l' => if String.eqb x y then l' else y :: rm1 x l'
  end.

Definition known_table (t : option string) : Prop := t = None \/ t = Some "nat".

(** what the code relies on (iptables(8)): [-A] appends the rule or fails
    without effect, [-D] of a rule that exists deletes its first occurrence,
    [-S] prints every rule and changes nothing *)
Class Iptables `{Device} := {
  fw : option string -> dev -> list string;
  fw_append fr d : known_table (fst fr) ->
    exists rc o e d', dev_exec (Call None (ipt_cmd "-A" fr) 30000 None) d = (Exited rc o e, d') /\
      forall t, known_table t ->
        fw t d' = if decide (rc = 0 /\ t = fst fr) then fw t d ++ [snd fr] else fw t d;
  fw_delete fr d : known_table (fst fr) -> snd fr ∈ fw (fst fr) d ->
    exists o e d', dev_exec (Call None (ipt_cmd "-D" fr) 30000 None) d = (Exited 0 o e, d') /\
      forall t, known_table t -> fw t d' = if decide (t = fst fr) then rm1 (snd fr) (fw t d) else fw t d;
  fw_list d :
    exists rc o e d', dev_exec (Call None ipt_list_cmd 30000 None) d = (Exited rc o e, d') /\
      (forall t, known_table t -> fw t d' = fw t d) /\
      contains BMC_IP (rstrip_chars (s1 lf) o) = existsb (contains BMC_IP) (fw None d ++ fw (Some "nat") d)
}.

Section Lease.
Context `{Device} `{ShellEnv} `{!LiveShell} `{!Iptables}.

Definition redirect_rules (port : Z) : list fw_rule := [rule_to_mock port; rule_refuse; rule_blackhole].
(** the booked rules of a table *)
Definition booked (t : option string) (l : list fw_rule) : list string :=
  omap (fun fr => if decide (fst fr = t) then Some (snd fr) else None) l.

(** the abstraction relation: every table is the one the lease began with,
    followed by the rules on the books, and the books hold only rules of a
    kind [P] that were not there before *)
Record leased (P : fw_rule -> Prop) (base : option string -> list string) (s : BmcRedirect) (d : dev) : Prop := {
  leased_fw t : known_table t -> fw t d = base t ++ booked t (rd_applied s);
  leased_own fr : fr ∈ rd_applied s -> P fr;
  leased_known fr : P fr -> known_table (fst fr);
  leased_fresh fr : P fr -> snd fr ∉ base (fst fr)
}.

Lemma redirect_rules_known port fr : fr ∈ redirect_rules port -> known_table (fst fr).
Proof.
  unfold redirect_rules, known_table. rewrite !elem_of_cons, elem_of_nil.
  intros [->|[->|[->|[]]]]; [by right | by left | by left].
Qed.

Lemma booked_app t l l' : booked t (l ++ l') = booked t l ++ booked t l'.
Proof. apply omap_app. Qed.

Lemma booked_cons t fr l : booked t (fr :: l) = (if decide (fst fr = t) then [snd fr] else []) ++ booked t l.
Proof. unfold booked. cbn [omap list_omap]. by case_decide. Qed.

Lemma rm1_app_r x l l' : x ∉ l -> rm1 x (l ++ l') = l ++ rm1 x l'.
Proof.
  induction l as [|y l IH]; intros Hx; [done|]. apply not_elem_of_cons in Hx as [Hne Hx]. simpl.
  rewrite (proj2 (String.eqb_neq x y)) by done. by rewrite IH.
Qed.
Lemma rm1_perm x l : x ∈ l -> l ≡ₚ x :: rm1 x l.
Proof.
  induction l as [|y l IH]; intros Hx; [by apply not_elem_of_nil in Hx|]. simpl.
  destruct (String.eqb_spec x y); [by subst|]. apply elem_of_cons in Hx as [?|Hx]; [done|].
  rewrite Permutation_swap. by rewrite <-IH.
Qed.

(** one shell command of a live shell *)
Lemma sh_run_exited cmd w rc o e d' :
  dev_exec (Call None cmd 30000 None) (w_dev w) = (Exited rc o e, d') ->
  exists w', sh_run cmd w = (Val (result rc o e), w') /\ w_dev w' = d'.
Proof.
  intros E. unfold sh_run. rewrite run_full_native. unfold run_native. rewrite live. unfold bind, subprocess. rewrite E.
  cbn [andb]. eexists. split; reflexivity.
Qed.
Lemma sh_run_check_exited cmd w n o e d' :
  dev_exec (Call None cmd 30000 None) (w_dev w) = (Exited n o e, d') ->
  exists w', sh_run_check cmd w =
    (if decide (n = 0) then Val (result n o e) else Exc (ShellError cmd (result n o e)), w') /\ w_dev w' = d'.
Proof.
  intros E. unfold sh_run_check. rewrite run_full_native. unfold run_native. rewrite live. unfold bind, subprocess. rewrite E.
  unfold result_ok. cbn [andb rc result]. eexists.
  case_decide; [subst; by split | rewrite (proj2 (Z.eqb_neq n 0)) by done; by split].
Qed.

(** adding a rule books it, or raises and changes nothing *)
Lemma add_step P base fr s w : leased P base s (w_dev w) -> P fr ->
  exists r s' w', rd_add fr s w = (Val (r, s'), w') /\ leased P base s' (w_dev w') /\ rd_port s' = rd_port s /\
    ((r = Val tt /\ rd_applied s' = rd_applied s ++ [fr]) \/
     ((exists e, r = Exc e /\ caught e = true) /\ s' = s)).
Proof.
  intros [Hfw Hown Hkn Hfresh] Hfr. pose proof (Hkn _ Hfr) as Hk.
  destruct (fw_append fr (w_dev w) Hk) as (rc & o & e & d' & E & Hd').
  destruct (sh_run_check_exited _ _ _ _ _ _ E) as (w1 & R & Hw1).
  unfold rd_add, obnd, olift, bind. rewrite R. subst d'. case_decide as Hrc.
  - subst. do 3 eexists. split; [reflexivity|]. cbn [set_applied rd_port rd_applied].
    split; [|split; [done | by left]]. split; cbn [set_applied rd_port rd_applied].
    + intros t Ht. rewrite Hd', booked_app, booked_cons, app_nil_r, Hfw by done.
      destruct (decide (fst fr = t)) as [<-|Hne].
      * rewrite decide_True by done. by rewrite app_assoc.
      * rewrite decide_False by naive_solver. by rewrite app_nil_r.
    + intros fr' [Hin|Hin%list_elem_of_singleton]%elem_of_app; [auto | by subst].
    + done.
    + done.
  - do 3 eexists. split; [reflexivity|]. split; [|split; [done | right; split; [by eexists | done]]].
    split; [|done..]. intros t Ht. rewrite Hd', decide_False by naive_solver. auto.
Qed.

Lemma del_loop (P : fw_rule -> Prop) base todo : forall w,
  (forall fr, fr ∈ todo -> P fr) -> (forall fr, P fr -> known_table (fst fr)) ->
  (forall fr, P fr -> snd fr ∉ base (fst fr)) ->
  (forall t, known_table t -> exists m, fw t (w_dev w) = base t ++ m /\ m ≡ₚ booked t todo) ->
  exists w', for_each todo (fun fr => sh_run (ipt_cmd "-D" fr) ;;; ret tt) w = (Val tt, w') /\
    forall t, known_table t -> fw t (w_dev w') = base t.
Proof.
  induction todo as [|fr todo IH]; intros w Hown Hkn Hfresh Hm.
  - exists w. split; [done|]. intros t Ht. destruct (Hm t Ht) as (m & -> & ->%Permutation_nil_r). by rewrite app_nil_r.
  - assert (P fr) as Hfr by (apply Hown; left). pose proof (Hkn _ Hfr) as Hk. destruct (Hm _ Hk) as (m & Hfw & Hp).
    assert (snd fr ∈ m) as Hin.
    { rewrite Hp, booked_cons, decide_True by done. left. }
    destruct (fw_delete fr (w_dev w) Hk) as (o & e & d' & E & Hd'); [rewrite Hfw; apply elem_of_app; by right|].
    destruct (sh_run_exited _ _ _ _ _ _ E) as (w1 & R & Hw1).
    destruct (IH w1) as (w' & R' & Hw'); [intros; apply Hown; by right | done | done | |].
    + intros t Ht. subst d'. rewrite Hd' by done. case_decide as Hc.
      * subst t. exists (rm1 (snd fr) m). rewrite Hfw, rm1_app_r by auto. split; [done|].
        apply Permutation_cons_inv with (snd fr). rewrite <-rm1_perm, Hp by done.
        by rewrite booked_cons, decide_True by done.
      * destruct (Hm t Ht) as (m' & Hfw' & Hp'). exists m'. split; [done|]. rewrite Hp'.
        by rewrite booked_cons, decide_False by congruence.
    + exists w'. split; [|done]. cbn [for_each]. unfold bind in *. by rewrite R.
Qed.

(** restoring gives the tables back; the assertion fails only for a rule of
    someone else *)
Lemma restore_step P base s w : leased P base s (w_dev w) ->
  exists r s' w', rd_restore s w = (Val (r, s'), w') /\ s' = set_applied [] s /\ leased P base s' (w_dev w') /\
    (forall t, known_table t -> fw t (w_dev w') = base t) /\
    (if existsb (contains BMC_IP) (base None ++ base (Some "nat"))
     then exists msg, r = Exc (AssertionError msg) else r = Val tt).
Proof.
  intros [Hfw Hown Hkn Hfresh].
  destruct (del_loop P base (rev (rd_applied s)) w) as (w1 & R1 & Hw1); [| done | done | |].
  - intros fr Hin. apply Hown. by rewrite (Permutation_rev (rd_applied s)).
  - intros t Ht. exists (booked t (rd_applied s)). split; [auto|]. apply omap_Permutation. by rewrite <-Permutation_rev.
  - destruct (fw_list (w_dev w1)) as (rc & o & e & d2 & E2 & Hd2 & Hl).
    destruct (sh_run_exited _ _ _ _ _ _ E2) as (w2 & R2 & Hw2).
    rewrite (Hw1 None), (Hw1 (Some "nat")) in Hl by (unfold known_table; auto). subst d2.
    unfold rd_restore. erewrite obnd_val by reflexivity. erewrite obnd_lift by exact R1.
    erewrite obnd_val by reflexivity. erewrite obnd_lift by exact R2. cbn [out result]. rewrite Hl.
    assert (forall t, known_table t -> fw t (w_dev w2) = base t) as Hb by (intros t Ht; rewrite Hd2; auto).
    assert (leased P base (set_applied [] s) (w_dev w2)) as Hle.
    { split; cbn; [|intros ? []%elem_of_nil | done..]. intros t Ht. by rewrite app_nil_r, Hb. }
    destruct (existsb _ _); do 3 eexists; (split; [reflexivity|]); split_and!; eauto.
Qed.

(** what happens during a test: the injections, a restore, or anything else
    that leaves the firewall alone *)
Inductive redirect_op := ToMock | Refuse | Blackhole | Restore | Other (f : dev -> dev).

Definition op_wf (op : redirect_op) : Prop :=
  match op with Other f => forall t d, known_table t -> fw t (f d) = fw t d | _ => True end.

(** a run of an operation; a test goes on after an exception *)
Definition op_run (op : redirect_op) (s : BmcRedirect) (w : World) : BmcRedirect * World :=
  let go (m : OM BmcRedirect unit) := match m s w with (Val (_, s'), w') => (s', w') | (_, w') => (s, w') end in
  match op with
  | ToMock => go to_mock
  | Refuse => go refuse
  | Blackhole => go blackhole
  | Restore => go rd_restore
  | Other f => (s, mkWorld (f (w_dev w)) (w_trace w) (w_cli w) (w_lb w))
  end.
Definition ops_run (ops : list redirect_op) (s : BmcRedirect) (w : World) : BmcRedirect * World :=
  fold_left (fun p op => op_run op (fst p) (snd p)) ops (s, w).

(** the specification: a lease that takes or refuses a rule, and gives all
    of them back *)
Inductive lease_step (port : Z) : redirect_op -> list fw_rule -> list fw_rule -> Prop :=
| lease_take op fr own :
    (op, fr) ∈ [(ToMock, rule_to_mock port); (Refuse, rule_refuse); (Blackhole, rule_blackhole)] ->
    lease_step port op own (own ++ [fr])
| lease_refused op own : op <> Restore -> lease_step port op own own
| lease_return own : lease_step port Restore own [].
Inductive lease_steps (port : Z) : list redirect_op -> list fw_rule -> list fw_rule -> Prop :=
| lease_nil own : lease_steps port [] own own
| lease_cons op ops own1 own2 own3 :
    lease_step port op own1 own2 -> lease_steps port ops own2 own3 -> lease_steps port (op :: ops) own1 own3.

Definition own_rules (port : Z) : fw_rule -> Prop := fun fr => fr ∈ redirect_rules port.
Lemma op_simulates base op s w : op_wf op -> leased (own_rules (rd_port s)) base s (w_dev w) ->
  let '(s', w') := op_run op s w in
  lease_step (rd_port s) op (rd_applied s) (rd_applied s') /\
  leased (own_rules (rd_port s)) base s' (w_dev w') /\ rd_port s' = rd_port s.
Proof.
  intros Hop Hl.
  assert (forall op' fr, (op', fr) ∈ [(ToMock, rule_to_mock (rd_port s)); (Refuse, rule_refuse); (Blackhole, rule_blackhole)] ->
    let '(s', w') := match rd_add fr s w with (Val (_, s'), w') => (s', w') | (_, w') => (s, w') end in
    lease_step (rd_port s) op' (rd_applied s) (rd_applied s') /\
    leased (own_rules (rd_port s)) base s' (w_dev w') /\ rd_port s' = rd_port s) as Hadd.
  { intros op' fr Hin. assert (own_rules (rd_port s) fr) as Hfr.
    { unfold own_rules. change (redirect_rules (rd_port s)) with
        (map snd [(ToMock, rule_to_mock (rd_port s)); (Refuse, rule_refuse); (Blackhole, rule_blackhole)]).
      apply list_elem_of_fmap. by exists (op', fr). }
    destruct (add_step _ base fr s w Hl Hfr) as (r & s' & w' & -> & Hl' & Hp & Hr).
    split; [|done]. destruct Hr as [[_ ->]|[_ ->]]; [by constructor|].
    constructor. rewrite !elem_of_cons, elem_of_nil in Hin. intros ->. naive_solver. }
  destruct op as [| | | |f].
  - apply (Hadd ToMock (rule_to_mock (rd_port s))). set_solver.
  - apply (Hadd Refuse rule_refuse). set_solver.
  - apply (Hadd Blackhole rule_blackhole). set_solver.
  - destruct (restore_step _ base s w Hl) as (r & s' & w' & E & -> & Hl' & _). cbn [op_run]. rewrite E.
    split; [constructor | done].
  - cbn [op_run w_dev]. split; [by constructor|]. split; [|done]. destruct Hl as [Hfw Hown Hkn Hfresh].
    split; [|done..]. intros t Ht. rewrite Hop; auto.
Qed.

Lemma ops_simulate base ops : forall s w, Forall op_wf ops -> leased (own_rules (rd_port s)) base s (w_dev w) ->
  let '(s', w') := ops_run ops s w in
  lease_steps (rd_port s) ops (rd_applied s) (rd_applied s') /\
  leased (own_rules (rd_port s)) base s' (w_dev w') /\ rd_port s' = rd_port s.
Proof.
  unfold ops_run. induction ops as [|op ops IH]; intros s w Hops Hl; cbn [fold_left]; [split; [constructor | done]|].
  apply Forall_cons in Hops as [Hop Hops]. pose proof (op_simulates base op s w Hop Hl) as Hs. cbn [fst snd].
  destruct (op_run op s w) as [s1 w1]. destruct Hs as (Hst & Hl1 & Hp1).
  rewrite <-Hp1 in Hl1. specialize (IH s1 w1 Hops Hl1). destruct (fold_left _ ops (s1, w1)) as [s2 w2]. destruct IH as (Hst2 & Hl2 & Hp2).
  rewrite Hp1 in Hst2, Hl2. split; [by econstructor | split; [done | congruence]].
Qed.

(** C17: [BmcRedirect] implements a lease on the firewall.  A redirection
    object of a test starts on tables that hold none of its rules.  Whatever
    injections and restores the test makes, with whatever else happens on the
    device meanwhile, each of them is a step of the lease (a rule is taken, or
    the operation raises and nothing changes, or everything is given back) and
    the tables are always those of the beginning followed by the rules on the
    books.  A final restore makes them the tables of the beginning again, rule
    by rule, and raises exactly when a rule of someone else names the BMC. *)
Theorem redirect_refines port ops w :
  Forall op_wf ops ->
  (forall fr, fr ∈ redirect_rules port -> snd fr ∉ fw (fst fr) (w_dev w)) ->
  let base t := fw t (w_dev w) in
  let '(s1, w1) := ops_run ops (bmc_redirect port) w in
  lease_steps port ops [] (rd_applied s1) /\
  (forall t, known_table t -> fw t (w_dev w1) = base t ++ booked t (rd_applied s1)) /\
  exists r w2, rd_restore s1 w1 = (Val (r, bmc_redirect port), w2) /\
    (forall t, known_table t -> fw t (w_dev w2) = base t) /\
    (if existsb (contains BMC_IP) (base None ++ base (Some "nat"))
     then exists msg, r = Exc (AssertionError msg) else r = Val tt).
Proof.
  intros Hops Hfresh base.
  assert (leased (own_rules port) base (bmc_redirect port) (w_dev w)) as Hl.
  { split; cbn; [intros t Ht; by rewrite app_nil_r | by intros ? []%elem_of_nil | apply redirect_rules_known | done]. }
  pose proof (ops_simulate base ops (bmc_redirect port) w Hops Hl) as Hs. destruct (ops_run ops (bmc_redirect port) w) as [s1 w1].
  destruct Hs as (Hst & Hl1 & Hp). cbn [rd_port bmc_redirect rd_applied] in Hst, Hp.
  split; [done|]. split; [apply Hl1|].
  destruct (restore_step _ base s1 w1 Hl1) as (r & s2 & w2 & E & -> & _ & Hfw & Hr).
  exists r, w2. unfold set_applied in E. rewrite Hp in E. done.
Qed.
End Lease.

(** a firewall with two tables that lists the addresses it knows *)
Definition toy_fw_exec (c : call) (s : list string * list string) : raw * (list string * list string) :=
  let cmd := call_cmd c in
  if String.eqb cmd ipt_list_cmd then (ok_out (if existsb (contains BMC_IP) (fst s ++ snd s) then BMC_IP else ""), s)
  else if starts "sudo iptables  -A " cmd then (ok_out "", (fst s ++ [str_drop 18 cmd], snd s))
  else if starts "sudo iptables -t nat -A " cmd then (ok_out "", (fst s, snd s ++ [str_drop 24 cmd]))
  else if starts "sudo iptables  -D " cmd then (ok_out "", (rm1 (str_drop 18 cmd) (fst s), snd s))
  else if starts "sudo iptables -t nat -D " cmd then (ok_out "", (fst s, rm1 (str_drop 24 cmd) (snd s)))
  else (ok_out "", s).
Definition toy_fw_device : Device := state_device toy_fw_exec.
#[export] Instance toy_iptables : @Iptables toy_fw_device.
Proof.
  refine (@Build_Iptables toy_fw_device (fun t d => match t with None => fst (fst d) | Some _ => snd (fst d) end) _ _ _).
  - intros [t r] [[l n] c] [Ht|Ht]; cbn [fst] in Ht; subst t; do 4 eexists; (split; [reflexivity|]);
      intros t [->| ->]; simpl; repeat (case_decide; try naive_solver); done.
  - intros [t r] [[l n] c] [Ht|Ht] Hin; cbn [fst snd] in Ht, Hin; subst t; do 3 eexists; (split; [reflexivity|]);
      intros t [->| ->]; simpl; repeat (case_decide; try naive_solver); done.
  - intros [[l n] c]. do 4 eexists. split; [reflexivity|]. split; [done|]. simpl. destruct (existsb _ _); reflexivity.
Defined.

(** ** Waiting for the daemons *)

Section Ready.
Context `{Device} `{ShellEnv} `{!TimeLaws} `{!LiveShell}.

Definition SUPERVISOR : call := Call (Some "pmon") "supervisorctl status" 60000 None.
(** the daemon states an answer of supervisord stands for *)
Definition states_in (r : raw) : pydict string string :=
  match r with
  | Exited n o e => states_of (out (result n o e))
  | TimedOut o => states_of (out (result 124 (or_empty o) ""))
  end.

Lemma supervisor_states_run w :
  supervisor_states w =
    (Val (states_in (fst (dev_exec SUPERVISOR (w_dev w)))),
     mkWorld (snd (dev_exec SUPERVISOR (w_dev w))) (w_trace w ++ [SUPERVISOR]) (w_cli w) (w_lb w)).
Proof.
  unfold supervisor_states, bind, run_full, run_native. rewrite live. unfold bind, subprocess. fold SUPERVISOR.
  by destruct (dev_exec SUPERVISOR (w_dev w)) as [[] d].
Qed.

(** C18: waiting for the platform monitor is live.  [Inv] describes the device
    while nothing but the wait touches it.  If from time [T] on supervisord
    reports psud and thermalctld in a settled state, and a round of the wait
    (one command and a sleep of five seconds) that begins before [T] ends
    before the deadline, then the wait returns such a state; it does not give
    up. *)
Theorem wait_pmon_ready_live (Inv : dev -> Prop) cmd_ms slack_ms T timeout w :
  Punctual cmd_ms slack_ms ->
  (forall d, Inv d -> Inv (dev_sleep 5000 (snd (dev_exec SUPERVISOR d)))) ->
  (forall d, Inv d -> T <= dev_now d -> settled_in (states_in (fst (dev_exec SUPERVISOR d))) = true) ->
  Inv (w_dev w) -> 0 < timeout -> T + (cmd_ms + 5000 + slack_ms) <= dev_now (w_dev w) + timeout ->
  exists states w', wait_pmon_ready timeout w = (Val states, w') /\ settled_in states = true.
Proof.
  intros HP HInv Hsettled HI Ht HT. unfold wait_pmon_ready, bind at 1, now.
  set (dl := dev_now (w_dev w) + timeout) in *.
  destruct (while_finds (fun w => Inv (w_dev w)) 5000 (cmd_ms + 5000 + slack_ms) T dl pmon_round)
    with (fuel := poll_fuel timeout 5000) (s := @nil (string * string)) (w := w)
    as (s' & states & w1 & w' & HI1 & Hb & E); try done; try lia.
  - intros s w1 HI1. unfold pmon_round, bind. rewrite supervisor_states_run. specialize (Hsettled _ HI1). specialize (HInv _ HI1).
    pose proof (exec_advances SUPERVISOR (w_dev w1)). pose proof (exec_prompt SUPERVISOR (w_dev w1)).
    pose proof (sleep_advances 5000 (snd (dev_exec SUPERVISOR (w_dev w1)))).
    pose proof (sleep_prompt 5000 (snd (dev_exec SUPERVISOR (w_dev w1)))).
    destruct (settled_in _); [done|]. unfold sleep, ret. cbn [w_dev].
    split; [done|]. destruct (Z.ltb_spec (dev_now (w_dev w1)) T); [lia | by discriminate Hsettled].
  - pose proof (poll_fuel_enough timeout 5000 ltac:(lia)). unfold dl. lia.
  - unfold poll_fuel. lia.
  - unfold bind. rewrite E. exists states, w'. split; [done|]. unfold pmon_round, bind in Hb.
    rewrite supervisor_states_run in Hb. unfold ret in Hb.
    destruct (settled_in _) eqn:Es; [|done]. by simplify_eq.
Qed.
End Ready.

(** ** Examples *)

Example ex_to_mock :
  ipt_cmd "-A" (rule_to_mock 18080) =
  "sudo iptables -t nat -A OUTPUT -d 240.1.1.1 -p tcp --dport 8080 -j REDIRECT --to-ports 18080".
Proof. reflexivity. Qed.
Example ex_states :
  states_of ("psud RUNNING pid 31" +:+ s1 lf +:+ "thermalctld FATAL Exited too quickly" +:+ s1 lf +:+ "junk")
  = [("psud", "RUNNING"); ("thermalctld", "FATAL")].
Proof. reflexivity. Qed.

Lemma redirect_refines_witness :
  let w := @world toy_fw_device (["OUTPUT -p icmp -j ACCEPT"], [], 0) cli_init in
  exists s1 w1 r w2,
  @ops_run toy_fw_device plain_shell [ToMock; Blackhole; Restore; Refuse; ToMock] (bmc_redirect 18080) w = (s1, w1) /\
  rd_applied s1 = [rule_refuse; rule_to_mock 18080] /\
  @rd_restore toy_fw_device plain_shell s1 w1 = (Val (r, bmc_redirect 18080), w2) /\ r = Val tt /\
  forall t, known_table t -> @fw toy_fw_device toy_iptables t (w_dev w2) = @fw toy_fw_device toy_iptables t (w_dev w).
Proof.
  pose proof (@redirect_refines toy_fw_device plain_shell _ toy_iptables 18080
    [ToMock; Blackhole; Restore; Refuse; ToMock]
    (@world toy_fw_device (["OUTPUT -p icmp -j ACCEPT"], [], 0) cli_init)
    ltac:(repeat constructor)) as Ht.
  assert (forall fr, fr ∈ redirect_rules 18080 ->
    snd fr ∉ @fw toy_fw_device toy_iptables (fst fr) (["OUTPUT -p icmp -j ACCEPT"], [], 0)) as Hf.
  { unfold redirect_rules. intros fr. rewrite !elem_of_cons, elem_of_nil.
    intros [->|[->|[->|[]]]]; apply (bool_decide_unpack _); vm_compute; exact I. }
  specialize (Ht Hf). cbv zeta in Ht |- *.
  destruct (ops_run _ _ _) as [s1 w1] eqn:E. destruct Ht as (_ & _ & r & w2 & Er & Hfw & Hr).
  exists s1, w1, r, w2. split; [done|]. split; [vm_compute in E; by simplify_eq|]. done.
Defined.

(** the daemons come up after twelve seconds *)
Definition slow_pmon (_ : call) (t : Z) : raw :=
  ok_out (if t <? 12000 then "psud STARTING" else "psud RUNNING pid 7" +:+ s1 lf +:+ "thermalctld FATAL").
Lemma wait_pmon_ready_live_witness :
  exists states w', @wait_pmon_ready (clock_device slow_pmon) plain_shell 20000
    (@world (clock_device slow_pmon) 0 cli_init) = (Val states, w') /\ settled_in states = true.
Proof.
  apply (@wait_pmon_ready_live (clock_device slow_pmon) plain_shell _ _ (fun _ => True) 0 0 12000); try done.
  - apply _.
  - simpl. intros d _ Hd. unfold slow_pmon. rewrite (proj2 (Z.ltb_ge d 12000)) by done. reflexivity.
Defined.
