(* ===== verification/MockBmc.v ===== *)
(** * The mock BMC (servers/mock_bmc.py)

    The endpoint dictionaries are mutable objects that the mock, its baseline
    and the caller's cache can share, so they live in a store: a reference is
    an index, allocation appends a cell, and a mutation is seen through every
    reference to the cell.  A cell is one endpoint dictionary, whose nested
    values are reached through it only.  HTTP and the thread of the server are
    the library's; a request is the call of its handler. *)

From S2P Require Import Prelude PyStr PyStrFacts PyVal Device Dut Topology.

(** ** The store *)

Notation loc := nat (only parsing).
Definition cell := pydict string pyval.
Notation heap := (list cell) (only parsing).
Definition deref (h : heap) (l : loc) : cell := nth l h [].
Definition alloc (c : cell) (h : heap) : loc * heap := (length h, h ++ [c]).
Definition write (l : loc) (c : cell) (h : heap) : heap := <[l := c]> h.

(** a dictionary of endpoint dictionaries *)
Definition table := pydict string loc.

(** [copy.deepcopy] of a table: an object met before is copied once *)
Fixpoint copy_go (t : table) (memo : list (loc * loc)) (h : heap) : table * heap :=
  match t with
  | [] => ([], h)
  | (k, l) :: t' =>
      match dget l memo with
      | Some l' => let '(r, h) := copy_go t' memo h in ((k, l') :: r, h)
      | None => let '(l', h) := alloc (deref h l) h in
                let '(r, h) := copy_go t' ((l, l') :: memo) h in ((k, l') :: r, h)
      end
  end.
Definition deepcopy (t : table) (h : heap) : table * heap := copy_go t [] h.

(** ** The mock *)

Definition ENDPOINTS : list string := ["sensor/info"; "fan/info"; "psu/info"; "psu/number"; "firmware/cpldversion"].

Record MockBmc := mkMock {
  mb_data : table;
  mb_baseline : option table;
  mb_mode : string;
  mb_delay : Z;                       (* milliseconds *)
  mb_posts : list (string * pyval);
  mb_requests : list (string * string)
}.
Definition put_data (d : table) (m : MockBmc) : MockBmc :=
  mkMock d (mb_baseline m) (mb_mode m) (mb_delay m) (mb_posts m) (mb_requests m).
Definition put_baseline (b : option table) (m : MockBmc) : MockBmc :=
  mkMock (mb_data m) b (mb_mode m) (mb_delay m) (mb_posts m) (mb_requests m).
Definition put_mode (s : string) (d : Z) (m : MockBmc) : MockBmc :=
  mkMock (mb_data m) (mb_baseline m) s d (mb_posts m) (mb_requests m).

(** the objects of the program: the store and the mock *)
Definition state := (heap * MockBmc)%type.

Fixpoint alloc_all (keys : list string) (h : heap) : table * heap :=
  match keys with
  | [] => ([], h)
  | k :: ks => let '(l, h) := alloc [] h in let '(t, h) := alloc_all ks h in ((k, l) :: t, h)
  end.
Definition mock_init (h : heap) : state :=
  let '(t, h) := alloc_all ENDPOINTS h in (h, mkMock t None "ok" 0 [] []).

(** [d.get(k) or {}]: a missing or empty dictionary is replaced by a new one *)
Definition get_or_new (k : string) (t : table) (h : heap) : loc * heap :=
  match dget k t with
  | Some l => match deref h l with [] => alloc [] h | _ => (l, h) end
  | None => alloc [] h
  end.

Definition install (snap : table) (s : state) : state :=
  let '(base, h) := deepcopy snap (fst s) in (h, put_baseline (Some base) (put_data snap (snd s))).

Definition snapshot_from_cache (cache : table) (s : state) : bool * state :=
  let '(h, m) := s in
  match cache with
  | [] => (false, s)
  | _ =>
      let '(psu, h) := get_or_new "psu_info" cache h in
      let n := Z.of_nat (length (List.filter (starts "PSU") (dkeys (deref h psu)))) in
      let '(sensor, h) := get_or_new "thermal_info" cache h in
      let '(fan, h) := get_or_new "fan_info" cache h in
      let '(cpld, h) := get_or_new "fan_cpld_info" cache h in
      let '(num, h) := alloc [("Number", VInt n)] h in
      let snap := [("sensor/info", sensor); ("fan/info", fan); ("psu/info", psu);
                   ("firmware/cpldversion", cpld); ("psu/number", num)] in
      match deref h psu, deref h sensor with
      | [], [] => (false, (h, m))
      | _, _ => (true, install snap (h, m))
      end
  end.

(** one answer of the real BMC, [None] when the request or the parsing failed;
    the endpoints' data are dictionaries *)
Definition usable (j : pyval) : option cell :=
  match j with
  | VDict d => if bool_decide (dget "status" d = Some (VStr "OK")) then
                 match dget "data" d with Some (VDict c) => Some c | _ => Some [] end
               else None
  | _ => None
  end.
(** at most [retries] answers are used for an endpoint *)
Fixpoint fetch (retries : nat) (net : list (option pyval)) : option cell * list (option pyval) :=
  match retries, net with
  | S r, Some j :: net' => match usable j with Some c => (Some c, net') | None => fetch r net' end
  | S r, None :: net' => fetch r net'
  | _, _ => (None, net)
  end.
Fixpoint fetch_all (retries : nat) (eps : list string) (net : list (option pyval)) (h : heap) : option table * heap :=
  match eps with
  | [] => (Some [], h)
  | ep :: eps' =>
      match fetch retries net with
      | (Some c, net') => let '(l, h) := alloc c h in
                          let '(t, h) := fetch_all retries eps' net' h in (option_map (cons (ep, l)) t, h)
      | (None, _) => (None, h)
      end
  end.
Definition snapshot_from_real (retries : nat) (net : list (option pyval)) (s : state) : bool * state :=
  match fetch_all retries ENDPOINTS net (fst s) with
  | (Some snap, h) => (true, install snap (h, snd s))
  | (None, h) => (false, (h, snd s))
  end.

Definition load_profile (profile : table) (s : state) : state :=
  let '(d, h) := deepcopy profile (fst s) in
  let '(b, h) := deepcopy profile h in
  (h, put_baseline (Some b) (put_data d (snd s))).

Definition reset (s : state) : state :=
  let '(h, m) := s in
  match mb_baseline m with
  | Some b => let '(d, h) := deepcopy b h in (h, put_mode "ok" 0 (put_data d m))
  | None => (h, put_mode "ok" 0 m)
  end.

(** ** Mutations *)

Definition data_ref (ep : string) (m : MockBmc) : outcome loc :=
  match dget ep (mb_data m) with Some l => Val l | None => Exc (KeyError ep) end.

(** [self.data[ep].pop(name, None)] *)
Definition drop_key (ep name : string) (s : state) : outcome state :=
  let '(h, m) := s in
  obind (data_ref ep m) (fun l => Val (write l (ddel name (deref h l)) h, m)).
Definition drop_sensor : string -> state -> outcome state := drop_key "sensor/info".
Definition drop_fan : string -> state -> outcome state := drop_key "fan/info".

(** a new dictionary replaces the old one *)
Definition keep_only_sensors (names : list string) (s : state) : outcome state :=
  let '(h, m) := s in
  obind (data_ref "sensor/info" m) (fun l =>
  let '(l', h) := alloc (List.filter (fun kv => bool_decide (fst kv ∈ names)) (deref h l)) h in
  Val (h, put_data (dset "sensor/info" l' (mb_data m)) m)).

(** the assignment at the end of a path *)
Fixpoint set_path (path : list string) (v : pyval) (node : pyval) : outcome pyval :=
  match path with
  | [] => Exc IndexError
  | k :: path' =>
      match node with
      | VDict d =>
          match path' with
          | [] => Val (VDict (dset k v d))
          | _ => match dget k d with
                 | Some x => obind (set_path path' v x) (fun y => Val (VDict (dset k y d)))
                 | None => Exc (KeyError k)
                 end
          end
      | _ => Exc (TypeError "indices")
      end
  end.
Definition set_field (ep name : string) (path : list string) (v : pyval) (s : state) : outcome state :=
  let '(h, m) := s in
  obind (data_ref ep m) (fun l =>
  match dget name (deref h l) with
  | None => Exc (KeyError name)
  | Some node => obind (set_path path v node) (fun n => Val (write l (dset name n (deref h l)) h, m))
  end).
Definition set_psu_field : string -> list string -> pyval -> state -> outcome state := set_field "psu/info".
Definition set_fan_field : string -> list string -> pyval -> state -> outcome state := set_field "fan/info".

Definition set_mode (mode : string) (s : state) : outcome state :=
  if bool_decide (mode ∈ ["ok"; "malformed"; "status_error"; "empty_data"])
  then Val (fst s, put_mode mode (mb_delay (snd s)) (snd s)) else Exc (AssertionError "").
Definition set_delay (ms : Z) (s : state) : state := (fst s, put_mode (mb_mode (snd s)) ms (snd s)).

(** ** Requests *)

(** a reply: text that is no JSON, or the value that is sent as JSON *)
Inductive reply := Malformed | Json (v : pyval).

Definition endpoint_of (path : string) : string :=
  let ep := lstrip_chars "/" path in if starts "api/" ep then str_drop 4 ep else ep.

Definition do_GET (path : string) (s : state) : reply * state :=
  let '(h, m) := s in
  let m' := mkMock (mb_data m) (mb_baseline m) (mb_mode m) (mb_delay m) (mb_posts m) (mb_requests m ++ [("GET", path)]) in
  let r := if String.eqb (mb_mode m) "malformed" then Malformed
           else if String.eqb (mb_mode m) "status_error" then Json (VDict [("status", VStr "ERROR"); ("data", VDict [])])
           else if String.eqb (mb_mode m) "empty_data" then Json (VDict [("status", VStr "OK")])
           else Json (VDict [("status", VStr "OK");
                             ("data", VDict (match dget (endpoint_of path) (mb_data m) with Some l => deref h l | None => [] end))]) in
  (r, (h, m')).

(** a body that is no JSON is recorded as text *)
Definition do_POST (path body : string) (s : state) : reply * state :=
  let '(h, m) := s in
  let v := match json_loads (if nonempty body then body else "{}") with
           | Some v => v
           | None => VDict [("_raw", VStr body)]
           end in
  (Json (VDict [("status", VStr "OK"); ("data", VDict [])]),
   (h, mkMock (mb_data m) (mb_baseline m) (mb_mode m) (mb_delay m) (mb_posts m ++ [(path, v)])
         (mb_requests m ++ [("POST", path)]))).

(** ** What a test can do between a snapshot and a reset *)

(** the caller of [snapshot_from_cache] keeps the references [ext] *)
Inductive test_step (ext : list loc) : state -> state -> Prop :=
| TsDrop ep name s s' : drop_key ep name s = Val s' -> test_step ext s s'
| TsKeep names s s' : keep_only_sensors names s = Val s' -> test_step ext s s'
| TsField ep name path v s s' : set_field ep name path v s = Val s' -> test_step ext s s'
| TsMode mode s s' : set_mode mode s = Val s' -> test_step ext s s'
| TsDelay ms s : test_step ext s (set_delay ms s)
| TsGet path s : test_step ext s (snd (do_GET path s))
| TsPost path body s : test_step ext s (snd (do_POST path body s))
| TsReset s : test_step ext s (reset s)
| TsCaller l c h m : l ∈ ext -> test_step ext (h, m) (write l c h, m).

(** what the endpoints serve *)
Definition view (h : heap) (t : table) : pydict string cell := map (fun kl => (fst kl, deref h (snd kl))) t.
Definition served (s : state) : pydict string cell := view (fst s) (mb_data (snd s)).

(** ** Facts about the store *)

Definition locs (t : table) : list loc := map snd t.
Definition valid (h : heap) (ls : list loc) : Prop := Forall (fun l => (l < length h)%nat) ls.

Lemma deref_app h e l : (l < length h)%nat -> deref (h ++ e) l = deref h l.
Proof. intros Hl. unfold deref. by apply app_nth1. Qed.

Lemma deref_new h c : deref (h ++ [c]) (length h) = c.
Proof. unfold deref. rewrite app_nth2, Nat.sub_diag by lia. done. Qed.

Lemma deref_write_ne h l l' c : l <> l' -> deref (write l c h) l' = deref h l'.
Proof. intros Hne. unfold deref, write. rewrite !nth_lookup. by rewrite list_lookup_insert_ne. Qed.

Lemma deref_write_eq h l c : (l < length h)%nat -> deref (write l c h) l = c.
Proof. intros Hl. unfold deref, write. rewrite nth_lookup. by rewrite list_lookup_insert_eq. Qed.

Lemma valid_app h e ls : valid h ls -> valid (h ++ e) ls.
Proof. intros Hv. eapply Forall_impl; [exact Hv|]. intros l Hl. rewrite length_app. cbn beta in *. lia. Qed.

Lemma valid_write h l c ls : valid h ls -> valid (write l c h) ls.
Proof. intros Hv. eapply Forall_impl; [exact Hv|]. intros x Hx. unfold write. by rewrite length_insert. Qed.

Lemma view_app h e t : valid h (locs t) -> view (h ++ e) t = view h t.
Proof.
  induction t as [|[k l] t IH]; intros Hv; [done|]. apply Forall_cons in Hv as [Hl Hv]. simpl in Hl.
  unfold view in *. cbn [map fst snd]. by rewrite deref_app, IH.
Qed.

Lemma view_write h l c t : l ∉ locs t -> view (write l c h) t = view h t.
Proof.
  induction t as [|[k l'] t IH]; intros Hn; [done|]. unfold locs in Hn. cbn [map snd] in Hn.
  apply not_elem_of_cons in Hn as [Hne Hn]. unfold view in *. cbn [map fst snd]. by rewrite deref_write_ne, IH by done.
Qed.

(** a copy denotes the same table, and all its cells are new *)
Lemma copy_go_spec n0 t : forall memo h t' h',
  valid h (locs t) -> (n0 <= length h)%nat ->
  (forall l l', dget l memo = Some l' -> (n0 <= l' < length h)%nat /\ deref h l' = deref h l /\ (l < length h)%nat) ->
  copy_go t memo h = (t', h') ->
  (exists e, h' = h ++ e) /\ view h' t' = view h t /\ Forall (fun l => (n0 <= l < length h')%nat) (locs t').
Proof.
  induction t as [|[k l] t IH]; intros memo h t' h' Hv Hn Hm E; cbn [copy_go] in E.
  - simplify_eq. split; [exists []; by rewrite app_nil_r|]. split; [done | constructor].
  - apply Forall_cons in Hv as [Hl Hv]. simpl in Hl. destruct (dget l memo) as [l'|] eqn:Em.
    + destruct (copy_go t memo h) as [r h1] eqn:Ec. simplify_eq.
      destruct (IH _ _ _ _ Hv Hn Hm Ec) as ((e & ->) & Hview & Hf). destruct (Hm _ _ Em) as (Hr & Hd & _).
      split; [by exists e|]. unfold view in *. cbn [map fst snd locs]. split.
      * rewrite Hview, deref_app by lia. by rewrite Hd.
      * constructor; [rewrite length_app; lia | exact Hf].
    + unfold alloc in E. destruct (copy_go t _ _) as [r h1] eqn:Ec. simplify_eq.
      destruct (IH ((l, length h) :: memo) (h ++ [deref h l]) r h') as ((e & ->) & Hview & Hf);
        [by apply valid_app | rewrite length_app; lia | | done |].
      * intros x y Hx. cbn [dget] in Hx. case_decide; simplify_eq.
        -- rewrite deref_new, deref_app, length_app by lia. split_and!; [lia | simpl; lia | done | lia].
        -- destruct (Hm _ _ Hx) as (? & ? & ?). rewrite !deref_app, length_app by lia. split_and!; [lia | simpl; lia | done | lia].
      * split; [exists ([deref h l] ++ e); by rewrite app_assoc|]. unfold view in *. cbn [map fst snd locs]. split.
        -- rewrite Hview, deref_app, deref_new by (rewrite length_app; simpl; lia). f_equal.
           by apply view_app.
        -- constructor; [rewrite !length_app; simpl; lia | exact Hf].
Qed.

Lemma deepcopy_spec t h t' h' : valid h (locs t) -> deepcopy t h = (t', h') ->
  (exists e, h' = h ++ e) /\ view h' t' = view h t /\ Forall (fun l => (length h <= l < length h')%nat) (locs t').
Proof. intros Hv E. by apply (copy_go_spec (length h) t [] h). Qed.

(** ** The baseline is out of reach *)

(** the baseline denotes [base], and neither the endpoints nor the caller share
    a cell with it *)
Definition safe (ext : list loc) (base : pydict string cell) (s : state) : Prop :=
  exists b, mb_baseline (snd s) = Some b /\ view (fst s) b = base /\ valid (fst s) (locs b) /\
    valid (fst s) (locs (mb_data (snd s))) /\ valid (fst s) ext /\
    (forall l, l ∈ locs b -> l ∉ locs (mb_data (snd s)) /\ l ∉ ext).

Lemma fresh_not_in h n e ls : valid h ls -> (length h <= n)%nat -> Forall (fun l => (n <= l < e)%nat) ls -> ls = [].
Proof.
  intros Hv Hn Hf. destruct ls as [|l ls]; [done|]. apply Forall_inv in Hv, Hf. lia.
Qed.

Lemma safe_reset ext base s : safe ext base s ->
  safe ext base (reset s) /\ served (reset s) = base /\ mb_mode (snd (reset s)) = "ok" /\ mb_delay (snd (reset s)) = 0.
Proof.
  destruct s as [h m]. intros (b & Hb & Hview & Hvb & Hvd & Hve & Hdis). unfold reset. simpl in Hb. rewrite Hb.
  destruct (deepcopy b h) as [d h1] eqn:E. destruct (deepcopy_spec b h d h1 Hvb E) as ((e & ->) & Hv' & Hf).
  split; [|split; [|done]].
  - exists b. simpl in *. split_and!; [done | | by apply valid_app | | by apply valid_app |].
    + by rewrite view_app.
    + eapply Forall_impl; [exact Hf|]. simpl. lia.
    + intros l Hl. split; [|by apply Hdis]. intros Hin.
      unfold valid in Hvb. rewrite Forall_forall in Hf, Hvb. specialize (Hf _ Hin). specialize (Hvb _ Hl). simpl in *. lia.
  - unfold served. cbn [fst snd mb_data put_mode put_data]. cbn [fst] in Hview. congruence.
Qed.

Lemma safe_write ext base h m l c :
  safe ext base (h, m) -> (l ∈ locs (mb_data m) \/ l ∈ ext) -> safe ext base (write l c h, m).
Proof.
  intros (b & Hb & Hview & Hvb & Hvd & Hve & Hdis) Hl. exists b. simpl in *.
  assert (l ∉ locs b) as Hn by (intros Hin; destruct (Hdis _ Hin); tauto).
  split_and!; try done; try by apply valid_write. by rewrite view_write.
Qed.

Lemma dget_locs ep (t : table) l : dget ep t = Some l -> l ∈ locs t.
Proof. intros E%dget_Some_elem. unfold locs. apply list_elem_of_fmap. by exists (ep, l). Qed.

Lemma locs_dset ep l (t : table) x : x ∈ locs (dset ep l t) -> x = l \/ x ∈ locs t.
Proof.
  induction t as [|[k y] t IH]; cbn [dset locs map snd].
  - rewrite elem_of_cons, elem_of_nil. tauto.
  - case_decide; cbn [map snd]; rewrite !elem_of_cons; [tauto|]. unfold locs in IH. tauto.
Qed.

Lemma safe_step ext base s s' : safe ext base s -> test_step ext s s' -> safe ext base s'.
Proof.
  intros Hs Hst. inversion Hst as [ep name s0 s1 E|names s0 s1 E|ep name path v s0 s1 E|mode s0 s1 E|ms s0|path s0|path body s0|s0|l c h m Hl]; subst.
  - destruct s as [h m]. unfold drop_key, data_ref in E. destruct (dget ep (mb_data m)) as [l|] eqn:El; [|done].
    injection E as <-. apply safe_write; [done|]. left. by eapply dget_locs.
  - destruct s as [h m]. unfold keep_only_sensors, data_ref in E.
    destruct (dget "sensor/info" (mb_data m)) as [l|] eqn:El; [|done]. simpl in E. injection E as <-.
    destruct Hs as (b & Hb & Hview & Hvb & Hvd & Hve & Hdis). exists b. simpl in *.
    split_and!; [done | by rewrite view_app | by apply valid_app | | by apply valid_app |].
    + apply Forall_forall. intros x [->|Hx]%locs_dset; [rewrite length_app; simpl; lia|].
      unfold valid in Hvd. rewrite Forall_forall in Hvd. specialize (Hvd _ Hx). rewrite length_app. simpl in *. lia.
    + intros x Hx. destruct (Hdis _ Hx) as [Hd He]. split; [|done]. intros [->|Hin]%locs_dset; [|done].
      unfold valid in Hvb. rewrite Forall_forall in Hvb. specialize (Hvb _ Hx). simpl in Hvb. lia.
  - destruct s as [h m]. unfold set_field, data_ref in E. destruct (dget ep (mb_data m)) as [l|] eqn:El; [|done].
    simpl in E. destruct (dget name (deref h l)) as [node|]; [|done]. destruct (set_path path v node); try done.
    simpl in E. injection E as <-. apply safe_write; [done|]. left. by eapply dget_locs.
  - unfold set_mode in E. case_match; [|done]. injection E as <-. exact Hs.
  - exact Hs.
  - destruct s as [h m]. exact Hs.
  - destruct s as [h m]. exact Hs.
  - by apply safe_reset.
  - apply safe_write; [done | by right].
Qed.

Lemma safe_steps ext base s s' : safe ext base s -> rtc (test_step ext) s s' -> safe ext base s'.
Proof. intros Hs Hr. induction Hr; [done|]. by eapply IHHr, safe_step. Qed.

(** ** The three ways to load a baseline *)

Lemma get_or_new_spec k t h l h' : valid h (locs t) -> get_or_new k t h = (l, h') ->
  (exists e, h' = h ++ e) /\ (l < length h')%nat.
Proof.
  intros Hv E. unfold get_or_new, alloc in E.
  assert (forall l0, dget k t = Some l0 -> (l0 < length h)%nat) as Hd.
  { intros l0 Hl0%dget_locs. unfold valid in Hv. rewrite Forall_forall in Hv. by apply Hv. }
  destruct (dget k t) as [l0|] eqn:El; [destruct (deref h l0)|]; simplify_eq;
    first [split; [by eexists | rewrite length_app; simpl; lia] | (split; [exists []; by rewrite app_nil_r | auto])].
Qed.

Lemma install_safe ext snap h m : valid h (locs snap) -> valid h ext ->
  safe ext (served (install snap (h, m))) (install snap (h, m)).
Proof.
  intros Hs He. unfold install. cbn [fst snd]. destruct (deepcopy snap h) as [b h1] eqn:E.
  destruct (deepcopy_spec snap h b h1 Hs E) as ((e & ->) & Hview & Hf). exists b. unfold served. cbn -[view].
  split_and!; [done | by rewrite Hview, view_app | | by apply valid_app | by apply valid_app |].
  - eapply Forall_impl; [exact Hf|]. simpl. lia.
  - intros l Hl. rewrite Forall_forall in Hf. specialize (Hf _ Hl). unfold valid in Hs, He. rewrite Forall_forall in Hs, He.
    split; intros Hin; [specialize (Hs _ Hin) | specialize (He _ Hin)]; simpl in *; lia.
Qed.

Lemma fetch_all_spec retries eps : forall net h t h',
  fetch_all retries eps net h = (Some t, h') -> (exists e, h' = h ++ e) /\ valid h' (locs t).
Proof.
  induction eps as [|ep eps IH]; intros net h t h' E; cbn [fetch_all] in E.
  - simplify_eq. split; [exists []; by rewrite app_nil_r | constructor].
  - destruct (fetch retries net) as [[c|] net']; [|done]. unfold alloc in E.
    destruct (fetch_all retries eps net' (h ++ [c])) as [[r|] h1] eqn:Ef; [|done]. simplify_eq.
    destruct (IH _ _ _ _ Ef) as ((e & ->) & Hv). split; [exists ([c] ++ e); by rewrite app_assoc|].
    constructor; [rewrite !length_app; simpl; lia | exact Hv].
Qed.

(** a state in which a baseline was just loaded, and the references its caller keeps *)
Inductive loaded : list loc -> state -> Prop :=
| LdCache cache h m s : valid h (locs cache) -> snapshot_from_cache cache (h, m) = (true, s) -> loaded (locs cache) s
| LdReal retries net h m s : snapshot_from_real retries net (h, m) = (true, s) -> loaded [] s
| LdProfile profile h m : valid h (locs profile) -> loaded (locs profile) (load_profile profile (h, m)).

Lemma snapshot_from_cache_install cache h m s : valid h (locs cache) -> snapshot_from_cache cache (h, m) = (true, s) ->
  exists snap h', s = install snap (h', m) /\ valid h' (locs snap) /\ valid h' (locs cache) /\
    forall l, dget "thermal_info" cache = Some l -> deref h l <> [] ->
      dget "sensor/info" snap = Some l /\ deref h' l = deref h l.
Proof.
  intros Hv E. unfold snapshot_from_cache in E. destruct cache as [|kv cache]; [done|].
  set (t := kv :: cache) in *.
  destruct (get_or_new "psu_info" t h) as [psu h1] eqn:E1. destruct (get_or_new_spec _ _ _ _ _ Hv E1) as ((e1 & ->) & L1).
  pose proof (valid_app _ e1 _ Hv) as Hv1.
  destruct (get_or_new "thermal_info" t _) as [sen h2] eqn:E2. destruct (get_or_new_spec _ _ _ _ _ Hv1 E2) as ((e2 & ->) & L2).
  pose proof (valid_app _ e2 _ Hv1) as Hv2.
  destruct (get_or_new "fan_info" t _) as [fan h3] eqn:E3. destruct (get_or_new_spec _ _ _ _ _ Hv2 E3) as ((e3 & ->) & L3).
  pose proof (valid_app _ e3 _ Hv2) as Hv3.
  destruct (get_or_new "fan_cpld_info" t _) as [cpld h4] eqn:E4. destruct (get_or_new_spec _ _ _ _ _ Hv3 E4) as ((e4 & ->) & L4).
  pose proof (valid_app _ e4 _ Hv3) as Hv4.
  unfold alloc in E. rewrite !length_app in *.
  eexists _, _. split; [repeat case_match; simplify_eq; reflexivity|]. split; [|split; [by apply valid_app|]].
  - repeat (constructor; [rewrite !length_app; simpl; lia|]). constructor.
  - intros l Hl Hne. cbn [dget]. rewrite decide_True by done.
    assert (l < length h)%nat as Hlt by (apply dget_locs in Hl; unfold valid in Hv; rewrite Forall_forall in Hv; by apply Hv).
    unfold get_or_new in E2. rewrite Hl, deref_app in E2 by done. split.
    + destruct (deref h l); [done | congruence].
    + by rewrite !deref_app by (rewrite ?length_app; lia).
Qed.

Lemma loaded_safe ext s : loaded ext s -> safe ext (served s) s.
Proof.
  intros Hl. inversion Hl as [cache h m s' Hv E|retries net h m s' E|profile h m Hv]; subst.
  - destruct (snapshot_from_cache_install _ _ _ _ Hv E) as (snap & h' & -> & Hs & He & _). by apply install_safe.
  - unfold snapshot_from_real in E. cbn [fst snd] in E.
    destruct (fetch_all retries ENDPOINTS net h) as [[snap|] h'] eqn:Ef; [|done].
    injection E as <-. apply fetch_all_spec in Ef as [_ Hv]. apply install_safe; [done | constructor].
  - unfold load_profile. cbn [fst snd]. destruct (deepcopy profile h) as [d h1] eqn:E1.
    destruct (deepcopy_spec _ _ _ _ Hv E1) as ((e1 & ->) & V1 & F1).
    destruct (deepcopy profile (h ++ e1)) as [b h2] eqn:E2.
    destruct (deepcopy_spec _ _ _ _ (valid_app _ e1 _ Hv) E2) as ((e2 & ->) & V2 & F2).
    assert (valid (h ++ e1) (locs d)) as Hd by (eapply Forall_impl; [exact F1|]; simpl; lia).
    exists b. unfold served. cbn -[view]. split_and!; [done | | | by apply valid_app | by apply valid_app, valid_app |].
    + rewrite V2, (view_app _ e2) by done. rewrite V1. by apply view_app.
    + eapply Forall_impl; [exact F2|]. simpl. lia.
    + intros l Hl'. rewrite Forall_forall in F2. specialize (F2 _ Hl'). unfold valid in Hd, Hv. rewrite Forall_forall in Hd, Hv.
      split; intros Hin; [specialize (Hd _ Hin) | specialize (Hv _ Hin)]; rewrite ?length_app in *; simpl in *; lia.
Qed.

(** C14: [reset] restores the baseline whatever happened since.  After any of the
    three ways to load a baseline and any sequence of mutations (dropped
    sensors and fans, replaced dictionaries, changed fields), mode changes,
    delays, requests, earlier resets and changes the caller makes to its own
    cache, [reset] makes the endpoints serve exactly what they served right
    after loading, in mode [ok] and without delay.  The baseline shares no
    dictionary with the endpoints or with the caller, although after
    [snapshot_from_cache] the endpoints themselves share theirs. *)
Theorem reset_restores ext s0 s : loaded ext s0 -> rtc (test_step ext) s0 s ->
  served (reset s) = served s0 /\ mb_mode (snd (reset s)) = "ok" /\ mb_delay (snd (reset s)) = 0.
Proof. intros Hl Hr. apply (safe_reset ext). eapply safe_steps; [by apply loaded_safe | done]. Qed.

(** the heap of a caller with a cache of two sensors, and the mock *)
Definition toy_state : state :=
  mock_init [[("T1", VInt 30); ("T2", VInt 40)]; [("PSU1", VDict [("V", VInt 12)])]].
Definition toy_cache : table := [("thermal_info", 0%nat); ("psu_info", 1%nat)].

Lemma reset_restores_witness :
  exists s, snapshot_from_cache toy_cache toy_state = (true, s) /\
  forall s1 s2, drop_sensor "T1" s = Val s1 -> set_psu_field "PSU1" ["V"] (VInt 0) s1 = Val s2 ->
  served (reset s2) = served s.
Proof.
  eexists. split; [reflexivity|]. intros s1 s2 E1 E2.
  refine (proj1 (reset_restores (locs toy_cache) _ s2 _ _)).
  - apply (LdCache toy_cache (fst toy_state) (snd toy_state)); [repeat constructor | reflexivity].
  - eapply rtc_l; [exact (TsDrop _ _ _ _ _ E1)|]. eapply rtc_once. exact (TsField _ _ _ _ _ _ _ E2).
Defined.

(** [snapshot_from_cache] serves the caller's own dictionaries: a sensor
    dropped right after it disappears from the caller's cache too, while after
    a [reset] (which copies the baseline) the same mutation leaves every
    dictionary of the caller as it was. *)
Theorem snapshot_aliases_cache cache h m s l name s1 :
  valid h (locs cache) -> snapshot_from_cache cache (h, m) = (true, s) ->
  dget "thermal_info" cache = Some l -> deref h l <> [] -> NoDup (dkeys (deref h l)) ->
  drop_sensor name s = Val s1 ->
  dget name (deref (fst s1) l) = None /\
  (forall s2, drop_sensor name (reset s) = Val s2 -> forall x, x ∈ locs cache -> deref (fst s2) x = deref (fst (reset s)) x).
Proof.
  intros Hv Hsnap Hl Hne Hnd E1. split.
  - destruct (snapshot_from_cache_install _ _ _ _ Hv Hsnap) as (snap & h' & -> & Hs & He & Hsen).
    destruct (Hsen l Hl Hne) as [Hd Hc]. unfold drop_sensor, drop_key, install, data_ref in E1. cbn [fst snd] in E1.
    destruct (deepcopy snap h') as [b h1] eqn:Ec. destruct (deepcopy_spec _ _ _ _ Hs Ec) as ((e & ->) & _ & _).
    cbn [mb_data put_baseline put_data] in E1. rewrite Hd in E1. injection E1 as <-. cbn [fst].
    assert (l < length h')%nat as Hlt by (apply dget_locs in Hd; unfold valid in Hs; rewrite Forall_forall in Hs; by apply Hs).
    rewrite deref_write_eq by (rewrite length_app; lia). rewrite deref_app, Hc by done. by apply dget_ddel_eq.
  - intros s2 E2 x Hx. assert (safe (locs cache) (served s) s) as Hsafe by (eapply loaded_safe, LdCache; eauto).
    destruct s as [h1 m1]. destruct Hsafe as (b & Hb & _ & Hvb & _ & Hve & _). unfold reset in *. cbn [fst snd] in *.
    rewrite Hb in *. destruct (deepcopy b h1) as [d h2] eqn:Ec. destruct (deepcopy_spec _ _ _ _ Hvb Ec) as ((e & ->) & _ & Hf).
    unfold drop_sensor, drop_key, data_ref in E2. cbn [mb_data put_mode put_data] in E2.
    destruct (dget "sensor/info" d) as [l'|] eqn:El; [|done]. injection E2 as <-. cbn [fst].
    apply deref_write_ne. intros ->. apply dget_locs in El. unfold valid in Hve. rewrite Forall_forall in Hf, Hve.
    specialize (Hf _ El). specialize (Hve _ Hx). simpl in *. lia.
Qed.

Lemma snapshot_aliases_cache_witness :
  exists s s1, snapshot_from_cache toy_cache toy_state = (true, s) /\ drop_sensor "T1" s = Val s1 /\
  dget "T1" (deref (fst s1) 0) = None.
Proof.
  eexists _, _. split; [reflexivity|]. split; [reflexivity|].
  refine (proj1 (snapshot_aliases_cache toy_cache (fst toy_state) (snd toy_state) _ 0%nat "T1" _ _ _ _ _ _ _));
    [repeat constructor | reflexivity | reflexivity | discriminate | | reflexivity].
  apply (bool_decide_unpack _). vm_compute. exact I.
Defined.
