(* ===== verification/MockHttp.v ===== *)
(** * The mock BMC over HTTP (servers/mock_bmc.py)

    What the handlers write to the connection, and a reader of the same
    protocol at the other end: [snapshot_from_real], which a mock can run
    against another mock. *)

From S2P Require Import Prelude PyStr PyStrFacts PyVal JsonFacts Device Dut Topology MockBmc.

(** a reply on the wire *)
Record HttpReply := mkHttp { hr_code : Z; hr_headers : list (string * string); hr_body : string }.
(** [_reply] *)
Definition http_reply (payload : string) (code : Z) : HttpReply :=
  mkHttp code [("Content-Type", "application/json"); ("Content-Length", ns (slen payload))] payload.
Definition payload_of (r : reply) : string := match r with Malformed => "{not json !!" | Json v => json_line v end.

(** a request: how long the handler sleeps, what it writes, the mock after it *)
Definition serve_GET (path : string) (s : state) : Z * HttpReply * state :=
  let '(r, s') := do_GET path s in (mb_delay (snd s), http_reply (payload_of r) 200, s').
(** the body of a POST is as long as its header says; a negative length reads
    to the end of the stream *)
Definition post_body (content_length : option string) (stream : string) : outcome string :=
  let text := if truthy content_length then or_empty content_length else "0" in
  match py_int text with
  | None => Exc (ValueError text)
  | Some n => Val (if n =? 0 then "" else if n <? 0 then stream else str_take (Z.to_nat n) stream)
  end.
(** a length that is no number raises after the request was noted: no reply is
    written and nothing is recorded as posted *)
Definition note_request (verb path : string) (s : state) : state :=
  let '(h, m) := s in
  (h, mkMock (mb_data m) (mb_baseline m) (mb_mode m) (mb_delay m) (mb_posts m) (mb_requests m ++ [(verb, path)])).
Definition serve_POST (path : string) (content_length : option string) (stream : string) (s : state) : outcome HttpReply * state :=
  match post_body content_length stream with
  | Exc e => (Exc e, note_request "POST" path s)
  | Hang => (Hang, s)
  | Val body => let '(r, s') := do_POST path body s in (Val (http_reply (payload_of r) 200), s')
  end.

(** the answers a reader gets for endpoints it asks for in turn:
    [json.loads(body)] of each *)
Definition answer (r : HttpReply) : option pyval := json_loads (hr_body r).
Fixpoint ask (eps : list string) (s : state) : list (option pyval) * state :=
  match eps with
  | [] => ([], s)
  | ep :: eps' =>
      let '(_, r, s') := serve_GET ("/api/" +:+ ep) s in
      let '(net, s'') := ask eps' s' in (answer r :: net, s'')
  end.

Lemma py_int_nonempty s z : py_int s = Some z -> nonempty s = true.
Proof. by destruct s. Qed.
(** a JSON body sent with its length is recorded as the value it was printed
    from, and anything sent behind it is left on the connection *)
Lemma post_recorded path v rest s : json_ok v = true ->
  exists s', serve_POST path (Some (ns (slen (json_line v)))) (json_line v +:+ rest) s
      = (Val (http_reply (json_line (VDict [("status", VStr "OK"); ("data", VDict [])])) 200), s')
    /\ mb_posts (snd s') = mb_posts (snd s) ++ [(path, v)].
Proof.
  intros Hv. pose proof (json_line_roundtrip v Hv) as Hj. destruct s as [h m].
  assert (nonempty (json_line v) = true) as Hne by (destruct (json_line v); [by vm_compute in Hj | done]).
  assert (post_body (Some (ns (slen (json_line v)))) (json_line v +:+ rest) = Val (json_line v)) as Hb.
  { pose proof (py_int_zs (Z.of_nat (slen (json_line v)))) as Hi. fold (ns (slen (json_line v))) in Hi. unfold post_body, truthy, or_empty.
    rewrite (py_int_nonempty _ _ Hi), Hi. assert (0 < Z.of_nat (slen (json_line v))) by (destruct (json_line v); [done | cbn [slen]; lia]).
    destruct (Z.eqb_spec (Z.of_nat (slen (json_line v))) 0); [lia|]. destruct (Z.ltb_spec (Z.of_nat (slen (json_line v))) 0); [lia|].
    by rewrite Nat2Z.id, str_take_app. }
  unfold serve_POST. rewrite Hb. unfold do_POST. rewrite Hne, Hj. eexists. split; reflexivity.
Qed.
Example ex_bad_length : post_body (Some "many") "{}" = Exc (ValueError "many").
Proof. reflexivity. Qed.

(** ** What a reader sees *)

(** what an endpoint holds *)
Definition cell_at (ep : string) (s : state) : cell :=
  match dget ep (mb_data (snd s)) with Some l => deref (fst s) l | None => [] end.

Lemma ask_cons ep eps s : endpoint_of ("/api/" +:+ ep) = ep ->
  exists s', ask (ep :: eps) s =
    (json_loads (payload_of (if String.eqb (mb_mode (snd s)) "malformed" then Malformed
           else if String.eqb (mb_mode (snd s)) "status_error" then Json (VDict [("status", VStr "ERROR"); ("data", VDict [])])
           else if String.eqb (mb_mode (snd s)) "empty_data" then Json (VDict [("status", VStr "OK")])
           else Json (VDict [("status", VStr "OK"); ("data", VDict (cell_at ep s))]))) :: fst (ask eps s'), snd (ask eps s'))
    /\ fst s' = fst s /\ mb_data (snd s') = mb_data (snd s) /\ mb_mode (snd s') = mb_mode (snd s).
Proof.
  intros He. destruct s as [h m]. cbn [ask]. unfold serve_GET, do_GET. rewrite He. exists (snd (do_GET ("/api/" +:+ ep) (h, m))). split; [|done]. unfold do_GET.
  cbn [fst snd]. rewrite (surjective_pairing (ask eps _)) at 1. reflexivity.
Qed.

(** an endpoint's reply parses back to what the endpoint holds *)
Lemma ok_reply c : json_ok (VDict c) = true ->
  json_loads (json_line (VDict [("status", VStr "OK"); ("data", VDict c)])) = Some (VDict [("status", VStr "OK"); ("data", VDict c)]).
Proof.
  intros Hc. apply json_line_roundtrip. cbn [json_ok map fst forallb snd] in *. rewrite Hc. by vm_compute.
Qed.
Lemma usable_ok c : usable (VDict [("status", VStr "OK"); ("data", VDict c)]) = Some c.
Proof. reflexivity. Qed.

Lemma snapshot_ok r eps : forall s h,
  (0 < r)%nat -> mb_mode (snd s) = "ok" ->
  Forall (fun ep => endpoint_of ("/api/" +:+ ep) = ep /\ json_ok (VDict (cell_at ep s)) = true) eps ->
  exists t e, fetch_all r eps (fst (ask eps s)) h = (Some t, h ++ e) /\ valid (h ++ e) (locs t)
    /\ view (h ++ e) t = map (fun ep => (ep, cell_at ep s)) eps.
Proof.
  destruct r as [|r]; [intros; lia|]. induction eps as [|ep eps IH]; intros s h Hr Hm Hok.
  { exists [], []. rewrite app_nil_r. by repeat constructor. }
  apply Forall_cons in Hok as [[He Hj] Hok]. destruct (ask_cons ep eps s He) as (s' & Ea & Hh & Hd & Hm').
  rewrite Hm in Ea, Hm'. change (String.eqb "ok" ?x) with false in Ea. cbn iota in Ea.
  rewrite Ea. cbn [fst payload_of fetch_all fetch]. rewrite ok_reply, usable_ok by done. unfold alloc.
  assert (forall ep, cell_at ep s' = cell_at ep s) as Hcell by (intros; unfold cell_at; by rewrite Hh, Hd).
  destruct (IH s' (h ++ [cell_at ep s]) Hr Hm') as (t & e & Ef & Hv & Hview).
  { eapply Forall_impl; [exact Hok|]. intros x [? ?]. by rewrite Hcell. }
  rewrite Ef. cbn [option_map]. exists ((ep, length h) :: t), (cell_at ep s :: e). rewrite <- app_assoc in *. cbn [app] in *.
  split; [done|]. split; [constructor; [rewrite length_app; cbn; lia | exact Hv]|].
  unfold view in *. cbn [map fst snd]. rewrite Hview. f_equal.
  - f_equal. unfold deref. rewrite app_nth2, Nat.sub_diag by lia. done.
  - apply map_ext. intros x. by rewrite Hcell.
Qed.

(** answers that a reader refuses *)
Definition refused (a : option pyval) : Prop := match a with Some j => usable j = None | None => True end.
Lemma fetch_refused r : forall net, Forall refused net -> fst (fetch r net) = None.
Proof.
  induction r as [|r IH]; intros net Hn; [by destruct net|]. destruct net as [|[j|] net]; [done| |]; apply Forall_cons in Hn as [Ha Hn]; cbn [fetch].
  - cbn [refused] in Ha. rewrite Ha. by apply IH.
  - by apply IH.
Qed.
Lemma broken_refused eps : forall s, mb_mode (snd s) = "malformed" \/ mb_mode (snd s) = "status_error" -> Forall refused (fst (ask eps s)).
Proof.
  induction eps as [|ep eps IH]; intros [h m] Hm; [constructor|]. cbn [ask]. unfold serve_GET, do_GET.
  rewrite (surjective_pairing (ask eps _)). cbn [fst snd] in *. constructor; [|by apply IH].
  destruct Hm as [-> | ->]; vm_compute; done.
Qed.

(** C15: a mock's replies carry its data.  A reader that asks a mock in mode [ok]
    for the five endpoints over HTTP, as [snapshot_from_real] does, parses from
    the replies exactly the dictionaries the mock holds: a second mock that
    takes its baseline from the first serves the same data, at once and after
    any [reset].  From a mock in mode [malformed] or [status_error] no baseline
    is taken, however often it is asked, and the reader keeps what it had. *)
Theorem mock_of_mock (retries : nat) (s : state) (h : list cell) (m : MockBmc) :
  (0 < retries)%nat ->
  (mb_mode (snd s) = "ok" -> Forall (fun ep => json_ok (VDict (cell_at ep s)) = true) ENDPOINTS ->
   exists s2, snapshot_from_real retries (fst (ask ENDPOINTS s)) (h, m) = (true, s2)
     /\ served s2 = map (fun ep => (ep, cell_at ep s)) ENDPOINTS /\ served (reset s2) = served s2)
  /\ (mb_mode (snd s) = "malformed" \/ mb_mode (snd s) = "status_error" ->
      forall eps, snapshot_from_real retries (fst (ask eps s)) (h, m) = (false, (h, m))).
Proof.
  intros Hr. split.
  - intros Hm Hok. destruct (snapshot_ok retries ENDPOINTS s h Hr Hm) as (t & e & Ef & Hv & Hview).
    { rewrite Forall_forall in Hok |- *. intros ep Hep. split; [|by apply Hok].
      revert ep Hep. apply Forall_forall. by repeat constructor. }
    unfold snapshot_from_real. cbn [fst snd]. rewrite Ef. eexists. split; [done|].
    assert (served (install t (h ++ e, m)) = view (h ++ e) t) as Hs.
    { unfold install. cbn [fst snd]. destruct (deepcopy t (h ++ e)) as [b h1] eqn:E.
      destruct (deepcopy_spec t (h ++ e) b h1 Hv E) as ((e' & ->) & _). unfold served. cbn [fst snd mb_data put_baseline put_data]. by apply view_app. }
    split; [by rewrite Hs, Hview|].
    apply (reset_restores [] _ _); [|apply rtc_refl]. eapply (LdReal retries (fst (ask ENDPOINTS s)) h m).
    unfold snapshot_from_real. cbn [fst snd]. by rewrite Ef.
  - intros Hm eps. unfold snapshot_from_real. cbn [fst snd fetch_all ENDPOINTS].
    pose proof (fetch_refused retries _ (broken_refused eps s Hm)) as Hf. destruct (fetch retries _) as [[c|] net']; done.
Qed.

(** a mock with the readings of two sensors and a power supply, its mode as it
    starts, read by a mock that has nothing *)
Lemma mock_of_mock_witness :
  exists s s2, snapshot_from_cache toy_cache toy_state = (true, s) /\
    snapshot_from_real 3 (fst (ask ENDPOINTS s)) (mock_init []) = (true, s2) /\
    dget "sensor/info" (served s2) = Some [("T1", VInt 30); ("T2", VInt 40)].
Proof.
  eexists. destruct (proj1 (mock_of_mock 3 (snd (snapshot_from_cache toy_cache toy_state)) (fst (mock_init [])) (snd (mock_init []))
    ltac:(lia)) eq_refl) as (s2 & E & Hs & _).
  - apply Forall_forall. intros ep Hep. revert ep Hep. apply Forall_forall. repeat constructor.
  - exists s2. split; [reflexivity|]. split; [exact E|]. rewrite Hs. reflexivity.
Defined.
