(* ===== verification/FieldReport.v ===== *)
(** * The field report of the platform monitor (tools/pmon_field_report.py)

    [main] runs the scenarios on the device: each injects a fault through the
    mock BMC, samples the device, revokes the fault and samples again.  The
    context object owns the mock, the redirection and the platform observer;
    the real BMC, the port the HTTP server gets and the texts Python makes of
    times and exceptions are parameters. *)

From S2P Require Import Prelude PyStr PyStrFacts PyVal Device DeviceFacts Toy Cli Dut Topology Loopback Obj PmonFault MockBmc.

(** [bmc_net t] is what the requests of a snapshot begun at [t] are answered,
    [http_bind port] the outcome of binding the server's socket *)
Class FieldEnv := {
  bmc_net : Z -> list (option pyval);
  http_bind : Z -> outcome Z;
  hms : Z -> string;
  ymd_hm : Z -> string;
  exn_repr : exn -> string;
  gethostname : string
}.

Definition DEFAULT_PORT : Z := 18080.
(** labels and seconds *)
Definition OBSERVE : list (string * Z) := [("T+30s", 30); ("T+60s", 60); ("T+300s", 300)].
Definition OBSERVE_QUICK : list (string * Z) := [("T+30s", 30); ("T+60s", 60)].

Record Ctx := mkCtx {
  cx_state : PlatformState;
  cx_mock : MockBmc.state;
  cx_port : Z;                        (* [mock.port] *)
  cx_httpd : bool;                    (* the HTTP server runs *)
  cx_redirect : BmcRedirect;
  cx_observe : list (string * Z);
  cx_baselined : bool
}.
Definition ctx_init (quick : bool) : Ctx :=
  mkCtx None (mock_init []) DEFAULT_PORT false (bmc_redirect DEFAULT_PORT)
    (if quick then OBSERVE_QUICK else OBSERVE) false.

Definition put_state (p : PlatformState) (c : Ctx) : Ctx :=
  mkCtx p (cx_mock c) (cx_port c) (cx_httpd c) (cx_redirect c) (cx_observe c) (cx_baselined c).
Definition put_mock (m : MockBmc.state) (c : Ctx) : Ctx :=
  mkCtx (cx_state c) m (cx_port c) (cx_httpd c) (cx_redirect c) (cx_observe c) (cx_baselined c).
Definition put_httpd (port : Z) (b : bool) (c : Ctx) : Ctx :=
  mkCtx (cx_state c) (cx_mock c) port b (cx_redirect c) (cx_observe c) (cx_baselined c).
Definition put_redirect (r : BmcRedirect) (c : Ctx) : Ctx :=
  mkCtx (cx_state c) (cx_mock c) (cx_port c) (cx_httpd c) r (cx_observe c) (cx_baselined c).
Definition put_baselined (b : bool) (c : Ctx) : Ctx :=
  mkCtx (cx_state c) (cx_mock c) (cx_port c) (cx_httpd c) (cx_redirect c) (cx_observe c) b.

(** one observation *)
Record Snap := mkSnap {
  fs_clock : string;
  fs_daemons : string;
  fs_cache_age : option Z;
  fs_sync_alive : bool;
  fs_psustatus : string;
  fs_fan : string;
  fs_temperature : string;
  fs_psu_blank : list string
}.

(** what a scenario returns; [main] stores an error as a skip *)
Inductive ScResult :=
| Skip (reason : string)
| Ran (inject : option string) (base : Snap) (inj rec : pydict string Snap) (auto : option bool) (note : string).

(** the sections of the cache the mock reads, as objects; a section that is
    neither a dictionary nor empty is outside the model *)
Definition CACHE_SECTIONS : list string := ["psu_info"; "thermal_info"; "fan_info"; "fan_cpld_info"].
Fixpoint load_sections (keys : list string) (d : pydict string pyval) (h : list cell) : outcome (table * list cell) :=
  match keys with
  | [] => Val ([], h)
  | k :: keys' =>
      match dget k d with
      | Some (VDict c) =>
          let '(l, h) := alloc c h in
          obind (load_sections keys' d h) (fun r => Val ((k, l) :: fst r, snd r))
      | Some v => if py_bool v then Exc (AttributeError k) else load_sections keys' d h
      | None => load_sections keys' d h
      end
  end.
(** a dictionary without these sections is not empty, but gives no baseline either *)
Definition load_cache (v : option pyval) (h : list cell) : outcome (table * list cell) :=
  match v with
  | Some (VDict d) => load_sections CACHE_SECTIONS d h
  | Some v => if py_bool v then Exc (AttributeError "get") else Val ([], h)
  | None => Val ([], h)
  end.

Section FieldReport.
Context `{Device} `{ShellEnv} `{FieldEnv}.

(** an operation of a part of the context *)
Definition in_state {A} (m : OM PlatformState A) : OM Ctx A := fun c =>
  let* r := m (cx_state c) in ret (fst r, put_state (snd r) c).
Definition in_redirect {A} (m : OM BmcRedirect A) : OM Ctx A := fun c =>
  let* r := m (cx_redirect c) in ret (fst r, put_redirect (snd r) c).
(** an operation of the mock that can raise *)
Definition mock_op (f : MockBmc.state -> outcome MockBmc.state) : OM Ctx unit :=
  let! c := oget in
  match f (cx_mock c) with
  | Val m => omod (put_mock m)
  | Exc e => oraise e
  | Hang => fun _ => hang
  end.

Definition mock_start : OM Ctx unit :=
  let! c := oget in
  let! port := olift (lift (http_bind (cx_port c))) in
  omod (put_httpd port true).
Definition mock_stop : OM Ctx unit := let! c := oget in omod (put_httpd (cx_port c) false).

(** the baseline of the mock: the cache, or else the real BMC *)
Definition take_baseline : OM Ctx bool :=
  let! v := in_state read_cache in
  let! c := oget in
  let! th := olift (lift (load_cache v (fst (cx_mock c)))) in
  let '(ok, s) := snapshot_from_cache (fst th) (snd th, snd (cx_mock c)) in
  omod (put_mock s) ;!;
  if ok : bool then oret true
  else
    let! t := olift now in
    let '(ok, s) := snapshot_from_real 3 (bmc_net t) s in
    omod (put_mock s) ;!; oret ok.

Definition ensure_mock : OM Ctx bool :=
  let! c := oget in
  if cx_baselined c then oret true
  else
    let! ok := take_baseline in
    if negb ok then oret false
    else
      mock_start ;!;
      omod (fun c => put_baselined true (put_redirect (mkRedirect (cx_port c) (rd_applied (cx_redirect c))) c)) ;!;
      oret true.

(** ** Observation *)

Definition daemons_text (states : pydict string string) : string :=
  join " " (map (fun d => d +:+ "=" +:+ default "?" (dget d states)) PMON_DAEMONS).

Definition snapshot : OM Ctx Snap :=
  let! states := olift supervisor_states in
  let! arch := in_state has_cache_arch in
  let! age := (if arch : bool then in_state cache_age_s else oret None) in
  let! t := olift now in
  let! alive := olift sync_proc_alive in
  let! psu := olift (pmon_show "psustatus") in
  let! fan := olift (pmon_show "fan") in
  let! temp := olift (pmon_show "temperature") in
  let! blank := olift psu_detail_blank in
  oret (mkSnap (hms t) (daemons_text states) age alive psu fan temp blank).

(** one observation point, [t] seconds after [start] *)
Definition observe_at (start t : Z) : OM Ctx Snap :=
  let! n := olift now in
  let wait := t * 1000 - (n - start) in
  owhen (0 <? wait) (olift (sleep wait)) ;!; snapshot.
Fixpoint observe_go (start : Z) (points : list (string * Z)) (series : pydict string Snap) : OM Ctx (pydict string Snap) :=
  match points with
  | [] => oret series
  | (label, t) :: points' =>
      let! s := observe_at start t in observe_go start points' (dset label s series)
  end.
Definition observe_series (points : list (string * Z)) : OM Ctx (pydict string Snap) :=
  let! start := olift now in observe_go start points [].

Definition says (d st text : string) : bool := contains (d +:+ "=" +:+ st) text.
Definition recovered (base snap : Snap) : bool :=
  if negb (bool_decide (fs_psu_blank snap = [])) && bool_decide (fs_psu_blank base = []) then false
  else if match fs_cache_age snap with Some a => 120 <? a | None => false end then false
  else if negb (fs_sync_alive snap) && fs_sync_alive base then false
  else forallb (fun d => negb ((says d "FATAL" (fs_daemons snap) || says d "EXITED" (fs_daemons snap))
                               && negb (says d "FATAL" (fs_daemons base)))) PMON_DAEMONS.

(** ** Scenarios *)

Definition restart_sync_unit : M unit := sh_run ("sudo systemctl restart " +:+ SYNC_UNIT) ;;; ret tt.

Definition sc_baseline : OM Ctx ScResult :=
  let! base := snapshot in
  oret (Ran None base [] [] None "field baseline snapshot (no injection)").

(** [rec[ctx.observe[-1][0]]] *)
Definition last_sample (series : pydict string Snap) : OM Ctx Snap :=
  let! c := oget in
  olift (lift (match last (cx_observe c) with
               | None => Exc IndexError
               | Some (label, _) => match dget label series with
                                    | Some s => Val s
                                    | None => Exc (KeyError label)
                                    end
               end)).

(** injection, samples, revocation, samples, verdict *)
Definition run_injected (base : Snap) (inject revoke : OM Ctx unit) (desc note : string) : OM Ctx ScResult :=
  inject ;!;
  let! c := oget in
  let! inj := observe_series (cx_observe c) in
  revoke ;!;
  olift restart_sync_unit ;!;
  let! rec := observe_series (cx_observe c) in
  let! s := last_sample rec in
  oret (Ran (Some desc) base inj rec (Some (recovered base s)) note).

Definition fresh_base : OM Ctx Snap :=
  olift restart_sync_unit ;!;
  in_state (wait_cache_fresh 180000 45) ;!; snapshot.
Definition reset_restore : OM Ctx unit :=
  mock_op (fun s => Val (reset s)) ;!; in_redirect rd_restore.

Definition run_bmc_behavior (mode_setter : OM Ctx unit) (desc : string) : OM Ctx ScResult :=
  let! base := fresh_base in
  run_injected base (mode_setter ;!; in_redirect to_mock) reset_restore desc
    "whether it auto-recovers after revoking the injection and restarting the sync daemon".

Definition sc_b1_refuse : OM Ctx ScResult :=
  let! base := fresh_base in
  run_injected base (in_redirect refuse) (in_redirect rd_restore)
    "BMC connection refused (iptables REJECT 240.1.1.1:8080)"
    "whether the sync daemon survives BMC connection refusal, and self-heals after revocation".

Definition with_mock (k : OM Ctx ScResult) : OM Ctx ScResult :=
  let! ok := ensure_mock in
  if negb ok then oret (Skip "cannot baseline mock BMC") else k.

Definition sc_b2_malformed : OM Ctx ScResult :=
  with_mock (run_bmc_behavior (mock_op (set_mode "malformed")) "BMC returns bad JSON (mock malformed)").

Definition sc_s5_sentinel : OM Ctx ScResult :=
  with_mock (
    let! blank := olift psu_detail_blank in
    if negb (bool_decide (blank = []))
    then oret (Skip "psud is already in the 1.0 fallback state (pre-existing field defect); cannot isolate the sentinel injection")
    else
      let! base := snapshot in
      run_injected base
        (mock_op (set_psu_field "PSU1" ["Outputs"; "Voltage"; "Value"] (VInt (-99999))) ;!; in_redirect to_mock)
        reset_restore "PSU1 voltage sentinel -99999 (mock)"
        "whether the sentinel value displays as 0.0 (should be N/A), and self-heals after revocation").

Definition sc_s9_sensor_vanish : OM Ctx ScResult :=
  with_mock (
    let! s := snapshot in
    if contains "thermalctld=FATAL" (fs_daemons s)
    then oret (Skip "thermalctld is already FATAL (pre-existing field defect); cannot isolate the runtime key-drop injection")
    else
      let! base := snapshot in
      run_injected base (mock_op (drop_sensor "OcmBoard") ;!; in_redirect to_mock) reset_restore
        "stop reporting the OcmBoard sensor at runtime (mock)"
        "whether that temperature row freezes into stale data, and self-heals after revocation").

Definition SCENARIOS : list (string * string * OM Ctx ScResult) := [
  ("baseline", "field baseline (no injection)", sc_baseline);
  ("b1", "BMC connection refused -> sync daemon survival", sc_b1_refuse);
  ("b2", "BMC bad JSON -> sync daemon survival", sc_b2_malformed);
  ("s5", "PSU sentinel voltage -> displays 0.0 vs N/A", sc_s5_sentinel);
  ("s9", "runtime sensor key-drop -> temperature row freezes", sc_s9_sensor_vanish)].

(** ** Rendering *)

Definition lines_of (l : list string) : string := join (s1 lf) l.
Definition fence (s : Snap) : string :=
  lines_of ["```"; "$ show platform psustatus"; rstrip_by is_space (fs_psustatus s); "";
            "$ show platform fan"; rstrip_by is_space (fs_fan s); "";
            "$ show platform temperature"; rstrip_by is_space (fs_temperature s); "```"].

Definition list_repr (l : list string) : string := "[" +:+ join ", " (map repr_str l) +:+ "]".
Definition status_line (s : Snap) : string :=
  "daemons: " +:+ fs_daemons s +:+ " | sync daemon alive: " +:+ (if fs_sync_alive s then "yes" else "no")
  +:+ " | cache age: " +:+ opt_z (fs_cache_age s) +:+ "s | PSU detail blank: "
  +:+ (if bool_decide (fs_psu_blank s = []) then "none" else list_repr (fs_psu_blank s)).

(** the position of a label in [OBSERVE], 99 for another one *)
Fixpoint index_of (label : string) (l : list (string * Z)) (i : Z) : Z :=
  match l with
  | [] => 99
  | (x, _) :: l' => if String.eqb label x then i else index_of label l' (i + 1)
  end.
Definition in_order (series : pydict string Snap) : list (string * Snap) :=
  sort_by (fun p => index_of (fst p) OBSERVE 0) series.

Definition nl1 (s : string) : string := s +:+ s1 lf.
Definition render_sample (phase : string) (p : string * Snap) : list string :=
  [nl1 ("### " +:+ phase +:+ " " +:+ fst p +:+ " (" +:+ fs_clock (snd p) +:+ ")");
   nl1 ("- " +:+ status_line (snd p)); nl1 (fence (snd p))].
Definition verdict_line (auto : option bool) : list string :=
  match auto with
  | None => []
  | Some b => ["- **Auto-recovers**: " +:+
      (if b : bool then "✅ yes (back to baseline without restarting pmon after revocation)"
       else "🔴 no (still not back to baseline after revocation, pmon restart required)")]
  end.
Definition render_result (title : string) (r : ScResult) : list string :=
  nl1 ("## " +:+ title) ::
  match r with
  | Skip reason => [nl1 ("- **Result**: skipped -- " +:+ reason)]
  | Ran inject base inj rec auto note =>
      (if truthy inject then ["- **Injection method**: " +:+ or_empty inject] else [])
      ++ (if nonempty note then ["- **Observation goal**: " +:+ note] else [])
      ++ verdict_line auto ++ [""]
      ++ [nl1 "### Baseline (pre-injection)"; nl1 ("- " +:+ status_line base); nl1 (fence base)]
      ++ concat (map (render_sample "After injection") (in_order inj))
      ++ concat (map (render_sample "After revocation") (in_order rec))
  end.
Definition render_head (host now : string) : list string :=
  [nl1 ("# pmon fault device field-test report (" +:+ host +:+ ")");
   lines_of ["> Generated: " +:+ now +:+ " | Method: `sudo python3 tools/pmon_field_report.py`";
     "> Scope: on-device real mock BMC injection -> real sync daemon -> real cache -> real psud/" +:+
     "thermalctld -> real `show platform`. Each scenario is sampled repeatedly at " +:+
     "T+30s/T+60s/T+300s after injection and after revocation; the last sample decides whether it can " +:+
     "**auto-recover** (back to baseline without restarting pmon)."; ""]].
Definition render (host now : string) (results : pydict string ScResult) : string :=
  lines_of (render_head host now ++
    concat (omap (fun sc => let '(key, title, _) := sc in
                            option_map (render_result title) (dget key results)) SCENARIOS)).

(** ** [main] *)

(** [set(x.strip() for x in only.split(",") if x.strip())] *)
Definition only_set (only : string) : list string :=
  filter (fun x => nonempty x) (map strip (split_on ","%char only)).
Definition selected (only : string) : list (string * string * OM Ctx ScResult) :=
  filter (fun sc => bool_decide (only_set only = []) || bool_decide (fst (fst sc) ∈ only_set only)) SCENARIOS.

(** one scenario, and the redirection undone whatever it did *)
Definition run_scenario (fn : OM Ctx ScResult) : OM Ctx ScResult :=
  let! r := otry fn (fun e => oret (Skip ("execution error: " +:+ exn_repr e))) in
  oquietly (in_redirect rd_restore) ;!; oret r.
Fixpoint run_scenarios (l : list (string * string * OM Ctx ScResult)) (results : pydict string ScResult)
  : OM Ctx (pydict string ScResult) :=
  match l with
  | [] => oret results
  | (key, _, fn) :: l' => let! r := run_scenario fn in run_scenarios l' (dset key r results)
  end.

Record Report := mkReport { rp_path : string; rp_text : string; rp_results : pydict string ScResult; rp_left : list string }.

Definition report_main (only : string) : OM Ctx Report :=
  let! entry := in_state (baseline_problems 120) in
  let! results := ofinally (run_scenarios (selected only) [])
                    (oquietly mock_stop ;!; olift restart_sync_unit) in
  let! t := olift now in
  let text := render gethostname (ymd_hm t) results in
  let! after := in_state (baseline_problems 120) in
  oret (mkReport ("/tmp/PMON_FIELD_REPORT_" +:+ gethostname +:+ ".md") text results
         (filter (fun p => bool_decide (p ∉ entry)) after)).
Definition main (only : string) (quick : bool) : M (outcome Report * Ctx) := report_main only (ctx_init quick).
End FieldReport.
