(* ===== verification/FieldReportFacts.v ===== *)
(** * Facts about the field report

    [recovered] in terms of the daemons' states, and: whatever the device does,
    the tool writes its report and gives the firewall back. *)

From S2P Require Import Prelude PyStr PyStrFacts PyVal Device DeviceFacts Toy Cli Dut Topology Loopback Obj PmonFault MockBmc FieldReport.

(** ** The platform observer always ends *)

(** the commands that are not the firewall's *)
Definition harmless (c : call) : Prop := starts "sudo iptables " (call_cmd c) = false.

(** a fact about the device that only the firewall's commands can change *)
Class Steady `{Device} (K : dev -> Prop) : Prop := {
  steady_exec c d : harmless c -> K d -> K (snd (dev_exec c d));
  steady_sleep t d : 0 <= t -> K d -> K (dev_sleep t d)
}.

Section Observer.
Context `{Device} `{ShellEnv} `{!TimeLaws} `{!LiveShell} (K : dev -> Prop) `{!Steady K}.

Lemma tame_cmd v cmd cont t stdin : starts "sudo iptables " cmd = false -> tame K v (run_full cmd cont false t stdin).
Proof. intros Hc. apply tame_run. intros d. by apply steady_exec. Qed.

(** every object operation that only looks at the device keeps [K] *)
Definition keeps_dev {S A} (v : bool) (m : OM S A) : Prop :=
  okay v (fun (_ : S) w => K (w_dev w)) (fun _ w => K (w_dev w)) m.

Lemma keeps_tame {S A} v (m : M A) : tame K v m -> keeps_dev (S := S) v (olift m).
Proof. intros Hm. by apply (okay_tame K). Qed.
End Observer.

#[export] Hint Extern 1 (tame _ _ (ret _)) => apply tame_ret : okay.
#[export] Hint Extern 1 (tame _ _ (sh_run _)) => apply tame_cmd; [exact _ | reflexivity] : okay.
#[export] Hint Extern 1 (tame _ _ (sh_run_timeout _ _)) => apply tame_cmd; [exact _ | reflexivity] : okay.
#[export] Hint Extern 1 (tame _ _ (run_full _ _ _ _ _)) => apply tame_cmd; [exact _ | reflexivity] : okay.

(** structural search for [tame], closing the commands with the hints *)
Ltac tame_go :=
  repeat first
    [ progress intros
    | solve [auto with okay]
    | match goal with
      | |- tame _ _ (bind _ _) => apply tame_bind
      | |- tame _ _ (map_m _ _) => apply tame_map_m
      | |- tame _ _ (match ?x with _ => _ end) => destruct x
      end ].

(** the same for [okay] and [keeps_dev] *)
Ltac okay_go :=
  repeat first
    [ progress intros
    | solve [auto with okay]
    | match goal with
      | |- keeps_dev _ _ (obnd _ _) => apply okay_bind
      | |- okay _ _ _ (obnd _ _) => apply okay_bind
      | |- okay _ _ _ (oret _) => apply okay_ret
      | |- okay _ _ _ oget => apply okay_get
      | |- okay _ _ _ (olift now) => apply okay_now
      | |- okay _ _ _ (owhen _ _) => apply okay_when
      | |- okay _ _ _ (match ?x with _ => _ end) => destruct x
      | |- keeps_dev _ _ (match ?x with _ => _ end) => destruct x
      | |- keeps_dev _ _ (oret _) => apply okay_ret
      end ].

Section Observer2.
Context `{Device} `{ShellEnv} `{!TimeLaws} `{!LiveShell} (K : dev -> Prop) `{!Steady K}.

Lemma tame_supervisor v : tame K v supervisor_states.
Proof. unfold supervisor_states. tame_go. Qed.
Lemma tame_alive v : tame K v sync_proc_alive.
Proof. unfold sync_proc_alive. tame_go. Qed.
Lemma tame_show v what : tame K v (pmon_show what).
Proof. unfold pmon_show. tame_go. Qed.
Lemma tame_blank v : tame K v psu_detail_blank.
Proof. unfold psu_detail_blank, db_table, PmonFault.db_keys, db_row. tame_go. Qed.
Lemma tame_restart v : tame K v restart_sync_unit.
Proof. unfold restart_sync_unit. tame_go. Qed.

Lemma first_line_fine v s : fine v (first_line s).
Proof.
  unfold first_line. destruct (nonempty (strip s)) eqn:E; [|done].
  destruct (strip s) as [|c t]; [done|]. unfold splitlines.
  enough (forall t cur, cur <> "" \/ t <> "" -> splitlines_go t cur <> []) as Hs.
  { specialize (Hs (String c t) "" ltac:(by right)). by destruct (splitlines_go (String c t) ""). }
  clear. induction t as [|c t IH]; intros cur Hc.
  - simpl. destruct cur; [naive_solver | done].
  - cbn [splitlines_go]. repeat case_match; try done; apply IH; left; by destruct cur.
Qed.

Lemma keeps_cmd {S} v cmd : starts "sudo iptables " cmd = false -> keeps_dev K (S := S) v (olift (sh_run cmd)).
Proof. intros Hc. by apply keeps_tame, tame_cmd. Qed.

Lemma keeps_cache_path v : keeps_dev K v cache_path.
Proof.
  unfold cache_path, platform. apply okay_bind; [|intros p; apply okay_ret].
  apply okay_bind; [apply okay_get|]. intros [p|]; [apply okay_ret|].
  apply okay_bind; [by apply keeps_cmd|]. intros r. apply okay_bind; [apply okay_pure, first_line_fine|].
  intros p. apply okay_bind; [by apply okay_mod | intros _; apply okay_ret].
Qed.
(** one command with the path of the cache *)
Lemma keeps_with_path {A} v (cmd : string -> string) (f : Result -> A) :
  (forall p, starts "sudo iptables " (cmd p) = false) ->
  keeps_dev K v (let! p := cache_path in let! r := olift (sh_run (cmd p)) in oret (f r)).
Proof.
  intros Hc. apply okay_bind; [apply keeps_cache_path|]. intros p.
  apply okay_bind; [by apply keeps_cmd | intros r; apply okay_ret].
Qed.
Lemma keeps_has_cache v : keeps_dev K v has_cache_arch.
Proof. by apply keeps_with_path with (cmd := fun p => "test -f " +:+ p). Qed.
Lemma keeps_read_cache v : keeps_dev K v read_cache.
Proof. by apply keeps_with_path with (cmd := fun p => "sudo cat " +:+ p). Qed.
Lemma keeps_cache_age v : keeps_dev K v cache_age_s.
Proof. by apply keeps_with_path with (cmd := fun p => "echo $(( $(date +%s) - $(stat -c %Y " +:+ p +:+ ") ))"). Qed.

Lemma keeps_wait_fresh v max_wait fresh_s : keeps_dev K v (wait_cache_fresh max_wait fresh_s).
Proof.
  intros s w Hw. unfold wait_cache_fresh. erewrite obnd_lift by reflexivity.
  set (dl := dev_now (w_dev w) + max_wait).
  set (body := fun _ : option Z => let! age := cache_age_s in
                 if is_fresh fresh_s age then oret (inr age) else olift (sleep 5000) ;!; oret (inl age)).
  destruct (keeps_cache_age v s w Hw) as (r & s1 & w1 & E & Hr & HK1 & Hl).
  destruct r as [age|e|]; [|rewrite (obnd_exc _ _ _ _ _ _ _ E); eauto 10 | done].
  rewrite (obnd_val _ _ _ _ _ _ _ E).
  destruct (okay_while v (fun _ w => K (w_dev w)) 5000 dl body) with
    (fuel := poll_fuel max_wait 5000) (l := age) (s := s1) (w := w1)
    as (r & s2 & w2 & E2 & Hr2 & HK2 & Hl2); try done.
  - intros l. unfold body. apply okay_bind; [apply keeps_cache_age|]. intros a.
    case_match; [apply okay_ret|]. apply okay_bind; [|intros _; apply okay_ret].
    apply keeps_tame, tame_sleep; [lia | intros d; apply steady_sleep; lia].
  - intros l s0 w0 l' s' w' Hw0 Hb. unfold body in Hb. apply obnd_inv in Hb as (a & s3 & w3 & E3 & Hb).
    destruct (keeps_cache_age true s0 w0 Hw0) as (r3 & s4 & w4 & E4 & _ & _ & Hl4). rewrite E3 in E4. simplify_eq.
    case_match; [unfold oret, ret in Hb; by simplify_eq|].
    apply obnd_inv in Hb as ([] & s5 & w5 & [E5 ->]%olift_inv & Hb). unfold oret, ret in Hb. simplify_eq.
    unfold sleep in E5. simplify_eq. unfold later in Hl4. cbn [w_dev].
    pose proof (sleep_advances 5000 (w_dev w4)). lia.
  - pose proof (poll_fuel_enough max_wait 5000 ltac:(lia)). unfold dl, later in *. lia.
  - unfold poll_fuel. lia.
  - unfold body in E2. assert (later w w2) as Hl3 by (unfold later in *; lia).
    destruct r as [r|e|]; [|rewrite (obnd_exc _ _ _ _ _ _ _ E2); eauto 10 | done].
    rewrite (obnd_val _ _ _ _ _ _ _ E2). do 3 eexists. split; [reflexivity|]. by case_match.
Qed.

Lemma keeps_problems v stale_s : keeps_dev K v (baseline_problems stale_s).
Proof.
  unfold baseline_problems. apply okay_bind; [by apply keeps_tame, tame_supervisor|]. intros st.
  apply okay_bind; [by apply keeps_tame, tame_show|]. intros psu.
  apply okay_bind; [by apply keeps_tame, tame_blank|]. intros blanks.
  apply okay_bind; [apply keeps_has_cache|]. intros arch.
  apply okay_bind; [|intros; apply okay_ret]. destruct arch; [|apply okay_ret].
  apply okay_bind; [apply keeps_cache_age | intros; apply okay_ret].
Qed.
End Observer2.

(** ** The scenarios keep the lease *)

(** nothing but the firewall's own commands touches the firewall *)
Class CalmFirewall `{Device} `{!Iptables} := {
  calm_exec c d t : harmless c -> known_table t -> fw t (snd (dev_exec c d)) = fw t d;
  calm_sleep ms d t : 0 <= ms -> known_table t -> fw t (dev_sleep ms d) = fw t d
}.
(** binding the server's socket ends, at worst with an error *)
Class BindEnds `{FieldEnv} := bind_ends : forall port, fine false (http_bind port).

Section Main.
Context `{Device} `{ShellEnv} `{FieldEnv} `{!TimeLaws} `{!LiveShell} `{!Iptables} `{!CalmFirewall} `{!BindEnds}.
Variable base : option string -> list string.

(** a rule of the tool, for whatever port the mock listens on *)
Definition any_rule (fr : fw_rule) : Prop := exists port, fr ∈ redirect_rules port.

#[export] Instance leased_steady r : Steady (leased any_rule base r).
Proof.
  split; intros ? d Hc [Hfw Hown Hk Hf]; (split; [|done..]); intros tb Ht; rewrite <-Hfw by done;
    [by apply calm_exec | by apply calm_sleep].
Qed.

Definition held (c : Ctx) (w : World) : Prop := leased any_rule base (cx_redirect c) (w_dev w).
(** no rule is on the books *)
Definition clear (c : Ctx) (w : World) : Prop := held c w /\ rd_applied (cx_redirect c) = [].

Lemma held_dev {A} v (m : M A) : (forall r, tame (leased any_rule base r) v m) -> okay v held held (olift m).
Proof.
  intros Hm. apply okay_lift. intros c w Hc. destruct (Hm _ w Hc) as (r & w' & ? & ? & ? & ?). by exists r, w'.
Qed.
Lemma held_state {A} v (m : OM PlatformState A) :
  (forall r, keeps_dev (leased any_rule base r) v m) -> okay v held held (in_state m).
Proof.
  intros Hm c w Hc. destruct (Hm (cx_redirect c) (cx_state c) w Hc) as (r & p & w' & E & Hr & Hl & Ht).
  unfold in_state, bind. rewrite E. do 3 eexists. split; [reflexivity|]. done.
Qed.
Lemma clear_state {A} v (m : OM PlatformState A) :
  (forall r, keeps_dev (leased any_rule base r) v m) -> okay v clear clear (in_state m).
Proof.
  intros Hm c w [Hc Hb]. destruct (Hm (cx_redirect c) (cx_state c) w Hc) as (r & p & w' & E & Hr & Hl & Ht).
  unfold in_state, bind. rewrite E. do 3 eexists. split; [reflexivity|]. done.
Qed.
Lemma held_mod v f : (forall c, cx_redirect (f c) = cx_redirect c) -> okay v held held (omod f).
Proof. intros Hf. apply okay_mod. intros c w Hc. unfold held. by rewrite Hf. Qed.

Lemma held_mock f : (forall s, fine false (f s)) -> okay false held held (mock_op f).
Proof.
  intros Hf. apply okay_bind; [apply okay_get|]. intros c. specialize (Hf (cx_mock c)).
  destruct (f (cx_mock c)) as [m|e|]; [by apply held_mod | by apply okay_raise; destruct Hf | done].
Qed.
(** the firewall's operations do not turn the clock back *)
Definition aged {S A} (m : OM S A) : Prop := forall s w r s' w', m s w = (Val (r, s'), w') -> later w w'.
Lemma aged_bind {S A B} (m : OM S A) (k : A -> OM S B) : aged m -> (forall a, aged (k a)) -> aged (obnd m k).
Proof.
  intros Hm Hk s w r s' w' E. unfold obnd in E. apply bind_val in E as ([r1 s1] & w1 & E1 & E2). apply Hm in E1.
  destruct r1; [apply Hk in E2; unfold later in *; lia | unfold ret in E2; by simplify_eq | done].
Qed.
Lemma aged_lift {S A} (m : M A) : total m -> aged (S := S) (olift m).
Proof.
  intros [_ Hs] s w r s' w' E. specialize (Hs w). unfold time_mono in Hs. unfold later, olift in *.
  destruct (m w) as [[] w1]; by simplify_eq.
Qed.
Lemma aged_pure {S A} (f : S -> outcome A * S) : aged (fun s => ret (f s)).
Proof. intros s w r s' w' E. unfold ret in E. simplify_eq. unfold later. lia. Qed.
Lemma aged_add fr : aged (rd_add fr).
Proof.
  apply aged_bind; [apply aged_lift, total_run_full|]. intros _.
  apply (aged_pure (fun r => (Val tt, set_applied (rd_applied r ++ [fr]) r))).
Qed.
Lemma aged_restore : aged rd_restore.
Proof.
  apply aged_bind; [apply (aged_pure (fun r => (Val r, r)))|]. intros r.
  apply aged_bind; [apply aged_lift, total_for_each; intros fr; apply total_bind;
    [apply total_run_full | intros; apply total_ret]|]. intros _.
  apply aged_bind; [apply (aged_pure (fun r => (Val tt, set_applied [] r)))|]. intros _.
  apply aged_bind; [apply aged_lift, total_run_full|]. intros l.
  case_match; [by apply (aged_pure (fun r => (Exc _, r))) | by apply (aged_pure (fun r => (Val tt, r)))].
Qed.

Lemma held_add fr : any_rule fr -> okay false held held (in_redirect (rd_add fr)).
Proof.
  intros Hfr c w Hc. destruct (add_step _ _ fr _ w Hc Hfr) as (r & s' & w' & E & Hl & _ & Hr).
  unfold in_redirect, bind. pose proof E as E'. rewrite E. do 3 eexists. split; [reflexivity|].
  split; [destruct Hr as [[-> _]|[(e & -> & He) _]]; done|]. split; [done|].
  eapply aged_add; exact E'.
Qed.
(** restoring takes everything off the books, also when it then complains *)
Lemma held_restore : okay false held clear (in_redirect rd_restore).
Proof.
  intros c w Hc. destruct (restore_step _ _ _ w Hc) as (r & s' & w' & E & Hs & Hl & _ & Hr).
  unfold in_redirect, bind. pose proof E as E'. rewrite E. do 3 eexists. split; [reflexivity|].
  split; [destruct (existsb _ _); [destruct Hr as [msg ->]; done | by rewrite Hr]|].
  split; [split; [done | cbn; by rewrite Hs]|]. eapply aged_restore; exact E'.
Qed.
Lemma held_restore_in : okay false held held (in_redirect rd_restore).
Proof. eapply okay_conseq; [apply held_restore | done | by intros c w []]. Qed.

Lemma held_snapshot v : okay v held held snapshot.
Proof.
  unfold snapshot. apply okay_bind; [apply held_dev; intros r; refine (tame_supervisor _ _)|]. intros st.
  apply okay_bind; [apply held_state; intros r; refine (keeps_has_cache _ _)|]. intros arch.
  apply okay_bind; [destruct arch; [apply held_state; intros r; refine (keeps_cache_age _ _) | apply okay_ret]|]. intros age.
  apply okay_bind; [apply okay_now|]. intros t.
  apply okay_bind; [apply held_dev; intros r; refine (tame_alive _ _)|]. intros alive.
  apply okay_bind; [apply held_dev; intros r; refine (tame_show _ _ _)|]. intros psu.
  apply okay_bind; [apply held_dev; intros r; refine (tame_show _ _ _)|]. intros fan.
  apply okay_bind; [apply held_dev; intros r; refine (tame_show _ _ _)|]. intros temp.
  apply okay_bind; [apply held_dev; intros r; refine (tame_blank _ _) | intros b; apply okay_ret].
Qed.
Lemma held_observe v points : okay v held held (observe_series points).
Proof.
  unfold observe_series. apply okay_bind; [apply okay_now|]. intros start.
  generalize (@nil (string * Snap)). induction points as [|[label t] points IH]; intros series; cbn [observe_go];
    [apply okay_ret|]. apply okay_bind; [|intros s; apply IH].
  unfold observe_at. apply okay_bind; [apply okay_now|]. intros n.
  apply okay_bind; [|intros _; apply held_snapshot].
  destruct (Z.ltb_spec 0 (t * 1000 - (n - start))); cbn [owhen]; [|apply okay_ret].
  apply held_dev. intros r. apply tame_sleep; [lia | intros d; apply steady_sleep; lia].
Qed.
Lemma held_last series : okay false held held (last_sample series).
Proof.
  apply okay_bind; [apply okay_get|]. intros c. apply okay_pure. by repeat case_match.
Qed.
Lemma held_restart v : okay v held held (olift restart_sync_unit).
Proof. apply held_dev. intros r. refine (tame_restart _ _). Qed.

Lemma held_injected b inject revoke desc note :
  okay false held held inject -> okay false held held revoke -> okay false held held (run_injected b inject revoke desc note).
Proof.
  intros Hi Hr. unfold run_injected. apply okay_bind; [done|]. intros _. apply okay_bind; [apply okay_get|]. intros c.
  apply okay_bind; [apply held_observe|]. intros inj. apply okay_bind; [done|]. intros _.
  apply okay_bind; [apply held_restart|]. intros _. apply okay_bind; [apply held_observe|]. intros rec.
  apply okay_bind; [apply held_last | intros x; apply okay_ret].
Qed.
Lemma held_fresh_base v : okay v held held fresh_base.
Proof.
  apply okay_bind; [apply held_restart|]. intros _. apply okay_bind; [|intros _; apply held_snapshot].
  apply held_state. intros r. refine (keeps_wait_fresh _ _ _ _).
Qed.
Lemma held_reset_restore : okay false held held reset_restore.
Proof. apply okay_bind; [by apply held_mock | intros _; apply held_restore_in]. Qed.

Lemma load_sections_fine ks d h : fine false (load_sections ks d h).
Proof.
  revert h. induction ks as [|k ks IH]; intros h; cbn [load_sections]; [done|].
  destruct (dget k d) as [v|]; [|apply IH]. destruct v; try (destruct (py_bool _); [done | apply IH]).
  cbn [alloc]. match goal with |- context [load_sections ks d ?h'] => specialize (IH h'); by destruct (load_sections ks d h') end.
Qed.
Lemma load_cache_fine v h : fine false (load_cache v h).
Proof. destruct v as [[]|]; cbn [load_cache]; try done; try (by case_match); apply load_sections_fine. Qed.

Lemma set_path_fine path v node : fine false (set_path path v node).
Proof.
  revert node. induction path as [|k path IH]; intros node; [done|]. cbn [set_path].
  destruct node; try done. destruct path as [|k2 path]; [done|]. destruct (dget k d) as [x|]; [|done].
  specialize (IH x). destruct (set_path (k2 :: path) v x); done.
Qed.
Lemma set_field_fine ep name path v s : fine false (set_field ep name path v s).
Proof.
  destruct s as [h m]. unfold set_field, data_ref. destruct (dget ep (mb_data m)) as [l|]; [|done]. cbn [obind].
  destruct (dget name (deref h l)) as [node|]; [|done]. pose proof (set_path_fine path v node).
  by destruct (set_path path v node).
Qed.
Lemma drop_key_fine ep name s : fine false (drop_key ep name s).
Proof. destruct s as [h m]. unfold drop_key, data_ref. by destruct (dget ep (mb_data m)). Qed.

Lemma held_ensure : okay false held held ensure_mock.
Proof.
  unfold ensure_mock, take_baseline. apply okay_bind; [apply okay_get|]. intros c.
  destruct (cx_baselined c); [apply okay_ret|]. apply okay_bind.
  - apply okay_bind; [apply held_state; intros r; refine (keeps_read_cache _ _)|]. intros v.
    apply okay_bind; [apply okay_get|]. intros c1. apply okay_bind; [apply okay_pure, load_cache_fine|]. intros th.
    destruct (snapshot_from_cache _ _) as [ok s]. apply okay_bind; [by apply held_mod|]. intros _.
    destruct ok; [apply okay_ret|]. apply okay_bind; [apply okay_now|]. intros t.
    destruct (snapshot_from_real _ _ _) as [ok s2]. apply okay_bind; [by apply held_mod | intros _; apply okay_ret].
  - intros []; [|apply okay_ret]. apply okay_bind.
    + apply okay_bind; [apply okay_get|]. intros c1.
      apply okay_bind; [apply okay_pure, bind_ends | intros port; by apply held_mod].
    + intros _. apply okay_bind; [|intros _; apply okay_ret]. apply okay_mod. intros c1 w [Hfw Hown Hk Hf]. by split.
Qed.
Lemma held_with_mock k : okay false held held k -> okay false held held (with_mock k).
Proof.
  intros Hk. apply okay_bind; [apply held_ensure|]. intros []; [done | apply okay_ret].
Qed.

Lemma any_rule_to_mock port : any_rule (rule_to_mock port).
Proof. exists port. left. Qed.
Lemma any_rule_refuse : any_rule rule_refuse.
Proof. exists 0. right. left. Qed.
Lemma held_to_mock : okay false held held (in_redirect to_mock).
Proof.
  intros c w Hc. destruct (held_add _ (any_rule_to_mock (rd_port (cx_redirect c))) c w Hc) as (r & s' & w' & E & Hr).
  by exists r, s', w'.
Qed.

Lemma scenarios_held sc : sc ∈ SCENARIOS -> okay false held held (snd sc).
Proof.
  unfold SCENARIOS. rewrite !elem_of_cons, elem_of_nil. intros [->|[->|[->|[->|[->|[]]]]]]; cbn [snd].
  - apply okay_bind; [apply held_snapshot | intros x; apply okay_ret].
  - apply okay_bind; [apply held_fresh_base|]. intros x. apply held_injected; [|apply held_restore_in].
    apply held_add, any_rule_refuse.
  - apply held_with_mock. apply okay_bind; [apply held_fresh_base|]. intros x.
    apply held_injected; [|apply held_reset_restore]. apply okay_bind; [|intros _; apply held_to_mock].
    apply held_mock. intros s. unfold set_mode. by case_match.
  - apply held_with_mock. apply okay_bind; [apply held_dev; intros r; refine (tame_blank _ _)|]. intros blank.
    case_match; [apply okay_ret|]. apply okay_bind; [apply held_snapshot|]. intros x.
    apply held_injected; [|apply held_reset_restore]. apply okay_bind; [|intros _; apply held_to_mock].
    apply held_mock. intros s. apply set_field_fine.
  - apply held_with_mock. apply okay_bind; [apply held_snapshot|]. intros y.
    case_match; [apply okay_ret|]. apply okay_bind; [apply held_snapshot|]. intros x.
    apply held_injected; [|apply held_reset_restore]. apply okay_bind; [|intros _; apply held_to_mock].
    apply held_mock. intros s. apply drop_key_fine.
Qed.

(** ** [main] *)

Lemma clear_held v P {A} (m : OM Ctx A) : okay v held P m -> okay v clear P m.
Proof. intros Hm. eapply okay_conseq; [exact Hm | by intros c w [] | done]. Qed.
Lemma clear_dev {A} v (m : M A) : (forall r, tame (leased any_rule base r) v m) -> okay v clear clear (olift m).
Proof.
  intros Hm. apply okay_lift. intros c w [Hc Hb]. destruct (Hm _ w Hc) as (r & w' & ? & ? & ? & ?). by exists r, w'.
Qed.

Lemma run_scenario_clear fn : okay false held held fn -> okay true clear clear (run_scenario fn).
Proof.
  intros Hf. apply (okay_seq _ held).
  - apply clear_held, okay_try; [done|]. intros e. apply okay_ret.
  - intros r. apply (okay_seq _ clear); [|intros _; apply okay_ret]. apply okay_quietly, held_restore.
Qed.
Lemma run_scenarios_clear l : forall results, (forall sc, sc ∈ l -> sc ∈ SCENARIOS) ->
  okay true clear clear (run_scenarios l results).
Proof.
  induction l as [|[[key title] fn] l IH]; intros results Hl; cbn [run_scenarios]; [apply okay_ret|].
  apply okay_bind; [|intros r; apply IH; intros; apply Hl; by right].
  apply run_scenario_clear. apply (scenarios_held (key, title, fn)), Hl. left.
Qed.
Lemma selected_scenarios only sc : sc ∈ selected only -> sc ∈ SCENARIOS.
Proof. unfold selected. intros [_ Hin]%list_elem_of_filter. done. Qed.

Lemma report_main_clear only : okay true clear clear (report_main only).
Proof.
  unfold report_main. apply okay_bind; [apply clear_state; intros r; refine (keeps_problems _ _ _)|]. intros entry.
  apply okay_bind.
  - apply okay_finally; [apply run_scenarios_clear, selected_scenarios|]. apply okay_bind.
    + apply okay_quietly. apply okay_bind; [apply okay_get|]. intros c. by apply okay_mod.
    + intros _. apply clear_dev. intros r. refine (tame_restart _ _).
  - intros results. apply okay_bind; [apply okay_now|]. intros t.
    apply okay_bind; [apply clear_state; intros r; refine (keeps_problems _ _ _) | intros after; apply okay_ret].
Qed.
End Main.

(** every scenario that runs gets an entry *)
Lemma run_scenarios_keys `{Device} `{ShellEnv} `{FieldEnv} l : forall results c w results' c' w',
  NoDup (dkeys results ++ map (fun sc => fst (fst sc)) l) ->
  run_scenarios l results c w = (Val (Val results', c'), w') ->
  dkeys results' = dkeys results ++ map (fun sc => fst (fst sc)) l.
Proof.
  induction l as [|[[key title] fn] l IH]; intros results c w results' c' w' Hnd E; cbn [run_scenarios map] in *.
  - unfold oret, ret in E. simplify_eq. by rewrite app_nil_r.
  - apply obnd_inv in E as (r & c1 & w1 & _ & E). cbn [fst] in *.
    assert (key ∉ dkeys results) as Hk.
    { apply NoDup_app in Hnd as (_ & Hd & _). intros Hin. apply (Hd _ Hin). left. }
    rewrite (IH _ _ _ _ _ _) with (2 := E); rewrite dkeys_dset_notin, <-app_assoc by done; done.
Qed.

Lemma selected_nodup `{Device} `{ShellEnv} `{FieldEnv} only : NoDup (map (fun sc => fst (fst sc)) (selected only)).
Proof.
  apply (sublist_NoDup _ (map (fun sc => fst (fst sc)) SCENARIOS)).
  - apply (bool_decide_unpack _). vm_compute. exact I.
  - unfold selected. apply (fmap_sublist (fun sc => fst (fst sc))), sublist_filter.
Qed.

Section MainTheorem.
Context `{Device} `{ShellEnv} `{FieldEnv} `{!TimeLaws} `{!LiveShell} `{!Iptables} `{!CalmFirewall} `{!BindEnds}.

(** C16: the field report is written and the device is given back.  On every
    device whose firewall keeps its contract and holds none of the tool's
    rules, whatever the commands, the mock and the samples do, [main] comes to
    an end without an exception; the report has exactly one entry for every
    selected scenario, in the order of the list (an entry of a scenario that
    raised says so); and the firewall's tables are, rule by rule, those of the
    beginning, with nothing left on the books. *)
Theorem report_gives_back only quick w :
  (forall fr, any_rule fr -> snd fr ∉ fw (fst fr) (w_dev w)) ->
  exists rep c w', main only quick w = (Val (Val rep, c), w') /\
    dkeys (rp_results rep) = map (fun sc => fst (fst sc)) (selected only) /\
    rd_applied (cx_redirect c) = [] /\
    (forall t, known_table t -> fw t (w_dev w') = fw t (w_dev w)).
Proof.
  intros Hfresh. set (base t := fw t (w_dev w)).
  assert (clear base (ctx_init quick) w) as Hc.
  { split; [|done]. split; cbn; [intros t Ht; by rewrite app_nil_r | by intros ? []%elem_of_nil | | done].
    intros fr [port Hp]. by eapply redirect_rules_known. }
  destruct (report_main_clear base only _ w Hc) as (r & c & w' & E & Hr & [Hh Hb] & _).
  destruct r as [rep|e|]; [|by destruct Hr | done].
  exists rep, c, w'. split; [done|]. split; [|split; [done|]].
  - unfold report_main in E. apply obnd_inv in E as (entry & c1 & w1 & _ & E).
    apply obnd_inv in E as (results & c2 & w2 & E2 & E).
    apply obnd_inv in E as (t & c3 & w3 & _ & E). apply obnd_inv in E as (after & c4 & w4 & _ & E).
    unfold oret, ret in E. simplify_eq. cbn [rp_results].
    unfold ofinally in E2. apply bind_val in E2 as ([[res|e|] c5] & w5 & E5 & E2); [| |done].
    + apply bind_val in E2 as ([[u|e|] c6] & w6 & _ & E2); unfold ret in E2; simplify_eq; try done.
      apply run_scenarios_keys in E5; [done | apply selected_nodup].
    + apply bind_val in E2 as ([[u|e'|] c6] & w6 & _ & E2); unfold ret in E2; by simplify_eq.
  - intros t Ht. destruct Hh as [Hfw _ _ _]. rewrite Hfw, Hb by done. by rewrite app_nil_r.
Qed.
End MainTheorem.

(** ** The verdict *)

(** the states supervisord prints, and the tool's mark for a missing daemon *)
Definition SUP_STATES : list string :=
  ["?"; "STOPPED"; "STARTING"; "RUNNING"; "BACKOFF"; "STOPPING"; "EXITED"; "FATAL"; "UNKNOWN"].
Definition st_of (states : pydict string string) (d : string) : string := default "?" (dget d states).
Definition sup_wf (states : pydict string string) : Prop := forall d, d ∈ PMON_DAEMONS -> st_of states d ∈ SUP_STATES.

(** the text of one daemon says only its own state *)
Lemma says_one d d' st x : d ∈ PMON_DAEMONS -> d' ∈ PMON_DAEMONS -> x ∈ SUP_STATES -> st ∈ ["FATAL"; "EXITED"] ->
  says d st (d' +:+ "=" +:+ x) = String.eqb d d' && String.eqb x st.
Proof.
  intros Hd Hd' Hx Hst.
  assert (forallb (fun d => forallb (fun d' => forallb (fun x => forallb (fun st =>
    Bool.eqb (says d st (d' +:+ "=" +:+ x)) (String.eqb d d' && String.eqb x st)) ["FATAL"; "EXITED"])
    SUP_STATES) PMON_DAEMONS) PMON_DAEMONS = true) as Ha by (vm_compute; reflexivity).
  rewrite forallb_true_iff in Ha. specialize (Ha d Hd). rewrite forallb_true_iff in Ha. specialize (Ha d' Hd').
  rewrite forallb_true_iff in Ha. specialize (Ha x Hx). rewrite forallb_true_iff in Ha. by apply eqb_prop, Ha.
Qed.

(** the substring tests of the verdict read a daemon's own state *)
Lemma says_state states d st : sup_wf states -> d ∈ PMON_DAEMONS -> st ∈ ["FATAL"; "EXITED"] ->
  says d st (daemons_text states) = String.eqb (st_of states d) st.
Proof.
  intros Hwf Hd Hst. unfold daemons_text, PMON_DAEMONS. cbn [map join]. fold (st_of states "psud")
    (st_of states "thermalctld") (st_of states "syseepromd") (st_of states "xcvrd").
  assert (str_forall (not_char " "%char) (d +:+ "=" +:+ st) = true /\ nonempty (d +:+ "=" +:+ st) = true) as [Hc Hn].
  { apply list_elem_of_In in Hd, Hst. cbn [In PMON_DAEMONS] in Hd, Hst.
    destruct Hd as [<-|[<-|[<-|[<-|[]]]]], Hst as [<-|[<-|[]]]; done. }
  unfold says. repeat match goal with |- context [" " +:+ ?x] => change (" " +:+ x) with (String " " x) end.
  rewrite !(contains_sep _ _ " "%char) by done.
  fold (says d st ("psud" +:+ "=" +:+ st_of states "psud")) (says d st ("thermalctld" +:+ "=" +:+ st_of states "thermalctld"))
    (says d st ("syseepromd" +:+ "=" +:+ st_of states "syseepromd")) (says d st ("xcvrd" +:+ "=" +:+ st_of states "xcvrd")).
  rewrite !says_one by first
    [done | apply (bool_decide_unpack _); vm_compute; exact I | apply Hwf, (bool_decide_unpack _); vm_compute; exact I].
  apply list_elem_of_In in Hd. destruct Hd as [<-|[<-|[<-|[<-|[]]]]]; cbn [String.eqb Ascii.eqb Bool.eqb andb orb]; by rewrite ?orb_false_r.
Qed.

Lemma recovered_iff base snap states0 states :
  sup_wf states0 -> sup_wf states ->
  fs_daemons base = daemons_text states0 -> fs_daemons snap = daemons_text states ->
  recovered base snap = true <->
    (fs_psu_blank base = [] -> fs_psu_blank snap = []) /\
    (forall a, fs_cache_age snap = Some a -> a <= 120) /\
    (fs_sync_alive base = true -> fs_sync_alive snap = true) /\
    (forall d, d ∈ PMON_DAEMONS -> st_of states d = "FATAL" \/ st_of states d = "EXITED" -> st_of states0 d = "FATAL").
Proof.
  intros Hw0 Hw E0 E. unfold recovered. rewrite E0, E.
  assert (forall a b c d : bool, (if a then false else if b then false else if c then false else d) = true <->
    a = false /\ b = false /\ c = false /\ d = true) as -> by (intros [] [] [] []; naive_solver).
  assert (forall A A' B B' C C' D D' : Prop, (A <-> A') -> (B <-> B') -> (C <-> C') -> (D <-> D') ->
    (A /\ B /\ C /\ D <-> A' /\ B' /\ C' /\ D')) as Hiff by tauto.
  apply Hiff; clear Hiff.
  - clear. repeat case_bool_decide; simpl; naive_solver.
  - destruct (fs_cache_age snap) as [a|]; [|naive_solver]. rewrite Z.ltb_ge. naive_solver.
  - destruct (fs_sync_alive snap), (fs_sync_alive base); simpl; split; auto; intros Ha; discriminate (Ha eq_refl).
  - rewrite forallb_true_iff. apply forall_proper. intros d. split; intros Hd Hin; specialize (Hd Hin); revert Hd;
      rewrite !says_state by (done || apply (bool_decide_unpack _); vm_compute; exact I);
      destruct (String.eqb_spec (st_of states d) "FATAL"), (String.eqb_spec (st_of states d) "EXITED"),
        (String.eqb_spec (st_of states0 d) "FATAL"); simpl; clear Hw0 Hw E0 E; intuition congruence.
Qed.

(** What "recovered" means.  For observations whose daemon texts were made
    from supervisord's states, the verdict is true iff no PSU row became
    blank, the cache is missing or at most two minutes old, the cache daemon
    lives if it did before, and every daemon that is now FATAL or EXITED was
    FATAL at the baseline.  In particular a daemon that had EXITED before the
    injection and is unchanged makes the verdict false: the device is not
    compared with its baseline "equally alive". *)
Theorem recovered_exact base snap states0 states :
  sup_wf states0 -> sup_wf states ->
  fs_daemons base = daemons_text states0 -> fs_daemons snap = daemons_text states ->
  (recovered base snap = true <->
    (fs_psu_blank base = [] -> fs_psu_blank snap = []) /\
    (forall a, fs_cache_age snap = Some a -> a <= 120) /\
    (fs_sync_alive base = true -> fs_sync_alive snap = true) /\
    (forall d, d ∈ PMON_DAEMONS -> st_of states d = "FATAL" \/ st_of states d = "EXITED" -> st_of states0 d = "FATAL")) /\
  (forall d, d ∈ PMON_DAEMONS -> st_of states0 d = "EXITED" -> recovered base base = false).
Proof.
  intros Hw0 Hw E0 E.
  split; [by apply recovered_iff|]. intros d Hd Hx. destruct (recovered base base) eqn:Er; [|done].
  apply (recovered_iff _ _ states0 states0) in Er as (_ & _ & _ & Hr); try done.
  specialize (Hr d Hd (or_intror Hx)). congruence.
Qed.

(** ** Examples *)

#[export] Instance toy_calm : @CalmFirewall toy_fw_device toy_iptables.
Proof.
  split; [|done]. intros c [[l n] t] tb Hc Hk. unfold harmless in Hc. simpl. unfold toy_fw_exec.
  destruct (String.eqb_spec (call_cmd c) ipt_list_cmd) as [E|_]; [rewrite E in Hc; discriminate|].
  assert (forall x, starts ("sudo iptables " +:+ x) (call_cmd c) = false) as Hx.
  { intros x. apply not_true_iff_false. intros Hs%starts_shorter. congruence. }
  change "sudo iptables  -A " with ("sudo iptables " +:+ " -A "). change "sudo iptables  -D " with ("sudo iptables " +:+ " -D ").
  change "sudo iptables -t nat -A " with ("sudo iptables " +:+ "-t nat -A ").
  change "sudo iptables -t nat -D " with ("sudo iptables " +:+ "-t nat -D ").
  by rewrite !Hx.
Qed.
Definition toy_field : FieldEnv :=
  {| bmc_net _ := []; http_bind p := Val p; hms _ := "00:00:00"; ymd_hm _ := "2024-01-01 00:00"; exn_repr _ := "error"; gethostname := "dut" |}.
#[export] Instance toy_bind : @BindEnds toy_field.
Proof. intros p. exact I. Defined.

Lemma report_gives_back_witness :
  let w := @world toy_fw_device (["OUTPUT -p icmp -j ACCEPT"], [], 0) cli_init in
  exists rep c w', @main toy_fw_device plain_shell toy_field " b1,s5," true w = (Val (Val rep, c), w') /\
    dkeys (rp_results rep) = ["b1"; "s5"] /\ rd_applied (cx_redirect c) = [] /\
    (forall t, known_table t -> @fw toy_fw_device toy_iptables t (w_dev w') = @fw toy_fw_device toy_iptables t (w_dev w)).
Proof.
  intros w. apply (@report_gives_back toy_fw_device plain_shell toy_field _ _ toy_iptables _ _ " b1,s5," true w).
  intros fr [port Hfr]. unfold redirect_rules in Hfr. apply list_elem_of_In in Hfr.
  destruct Hfr as [<-|[<-|[<-|[]]]]; intros Hin; apply list_elem_of_In in Hin; cbn in Hin; destruct Hin as [Hin|[]] || destruct Hin;
    discriminate.
Defined.

Lemma recovered_exact_witness :
  let st := [("psud", "EXITED"); ("thermalctld", "RUNNING"); ("syseepromd", "RUNNING"); ("xcvrd", "RUNNING")] in
  let s := mkSnap "10:00:00" (daemons_text st) None true "" "" "" [] in
  recovered s s = false.
Proof.
  intros st s.
  assert (sup_wf st) as Hwf.
  { intros d Hd. apply list_elem_of_In in Hd. destruct Hd as [<-|[<-|[<-|[<-|[]]]]]; apply (bool_decide_unpack _); vm_compute; exact I. }
  apply (recovered_exact s s st st Hwf Hwf eq_refl eq_refl) with (d := "psud");
    [apply (bool_decide_unpack _); vm_compute; exact I | reflexivity].
Defined.
