(* ===== verification/FieldHtml.v ===== *)
(** * The HTML page of the field report (tools/field_report_to_html.py)

    [convert] reads the Markdown of the report line by line.  The loop of the
    code moves an index; here it recurses over the lines and skips those a
    block quote has taken already. *)

From S2P Require Import Prelude PyStr PyStrFacts Device.

Definition CSS : string := with_quotes (s1 lf +:+ join (s1 lf) [
":root{--page:#e9ebee;--sheet:#fff;--ink:#22272e;--muted:#5b6470;--line:#d7dce2;";
"--line-soft:#e7eaee;--accent:#2f5d8f;--red:#b13a30;--green:#2f7d4a;";
"--term-bg:#16191e;--term-ink:#cfd7e0;--term-cmd:#8fbbe8;}";
"@media (prefers-color-scheme:dark){:root{--page:#101216;--sheet:#191d23;";
"--ink:#d5dae1;--muted:#8b94a0;--line:#333a43;--line-soft:#272d35;--accent:#7aaad8;";
"--red:#e0705f;--green:#67b083;--term-bg:#0d0f12;--term-ink:#c4ccd6;--term-cmd:#82b3e6;}}";
"*{box-sizing:border-box}";
"body{margin:0;background:var(--page);color:var(--ink);";
"font:15px/1.75 -apple-system,`Segoe UI`,`PingFang SC`,`Microsoft YaHei`,`Noto Sans CJK SC`,sans-serif;}";
".sheet{max-width:960px;margin:24px auto 64px;background:var(--sheet);";
"border:1px solid var(--line);padding:48px 56px 64px;}";
"@media (max-width:720px){.sheet{margin:0;padding:24px 16px}}";
"h1{font-size:25px;line-height:1.4;margin:0 0 4px;text-wrap:balance}";
".subtitle{color:var(--muted);margin:0 0 24px}";
"h2{font-size:19px;margin:52px 0 12px;padding-bottom:8px;border-bottom:2px solid var(--ink)}";
"h3{font-size:15px;margin:26px 0 8px;color:var(--accent);";
"font-family:ui-monospace,Consolas,monospace}";
"p,li{margin:8px 0;max-width:52em}";
"ul{margin:8px 0}";
"b.bad{color:var(--red)}b.ok{color:var(--green)}";
".tag{display:inline-block;font-size:12px;font-weight:600;padding:1px 8px;";
"margin-left:6px;border-radius:2px;letter-spacing:.03em}";
".tag.red{color:var(--red);border:1px solid var(--red)}";
".tag.green{color:var(--green);border:1px solid var(--green)}";
".tag.gray{color:var(--muted);border:1px solid var(--muted)}";
".status{font-size:13px;color:var(--muted);margin:4px 0 8px}";
".mono,code,pre{font-family:ui-monospace,SFMono-Regular,Consolas,monospace}";
"pre.term{background:var(--term-bg);color:var(--term-ink);font-size:12.5px;";
"line-height:1.55;padding:14px 16px;margin:0 0 18px;overflow-x:auto;border:1px solid var(--line)}";
"pre.term .cmd{color:var(--term-cmd);font-weight:600}";
".toc{border:1px solid var(--line);padding:14px 18px;margin:22px 0;font-size:14px}";
".toc a{color:var(--accent);text-decoration:none}.toc a:hover{text-decoration:underline}";
".note{border-left:3px solid var(--accent);background:var(--line-soft);";
"padding:10px 14px;margin:14px 0;font-size:14px;max-width:none}";
".footer{margin-top:48px;padding-top:12px;border-top:1px solid var(--line);";
"color:var(--muted);font-size:13px}";
EmptyString]).

(** [html.escape(s, quote=False)] *)
Definition esc (s : string) : string :=
  replace_char ">"%char "&gt;" (replace_char "<"%char "&lt;" (replace_char "&"%char "&amp;" s)).

Definition tag (t attrs body : string) : string := "<" +:+ t +:+ attrs +:+ ">" +:+ body +:+ "</" +:+ t +:+ ">".
Definition attr (name v : string) : string := " " +:+ name +:+ "=" +:+ s1 dquote +:+ v +:+ s1 dquote.

Definition term (lines : list string) : string :=
  tag "pre" (attr "class" "term")
    (join (s1 lf) (map (fun ln => if starts "$ " ln then tag "span" (attr "class" "cmd") (esc ln) else esc ln) lines)).

Definition verdict_tag (text : string) : string :=
  if contains "✅" text || (contains "Auto-recover" text && negb (contains "🔴" text))
  then tag "span" (attr "class" "tag green") "Auto-recoverable"
  else if contains "🔴" text then tag "span" (attr "class" "tag red") "Not auto-recoverable"
  else if contains "skipped" text then tag "span" (attr "class" "tag gray") "Skipped"
  else "".

(** the shortest group of one or more characters of a line before the mark [m] *)
Fixpoint close_at (m s : string) : option string :=
  match s with
  | "" => None
  | String c s' =>
      if Ascii.eqb c lf then None
      else if starts m s' then Some (s1 c) else option_map (String c) (close_at m s')
  end.
(** [re.sub(m + "(.+?)" + m, f, s)] for a literal mark [m] *)
Fixpoint sub_marked_go (m : string) (f : string -> string) (skip : nat) (s : string) : string :=
  match s with
  | "" => ""
  | String c s' =>
      match skip with
      | S k => sub_marked_go m f k s'
      | O =>
          match (if starts m s then close_at m (str_drop (slen m) s) else None) with
          | Some g => f g +:+ sub_marked_go m f (slen m + slen g + slen m - 1) s'
          | None => String c (sub_marked_go m f O s')
          end
      end
  end.
Definition sub_marked (m : string) (f : string -> string) (s : string) : string := sub_marked_go m f O s.

(** the control characters 0 to 3 stand for the tags while the text is escaped *)
Definition ctl (n : nat) : ascii := ascii_of_nat n.
Definition esc_inline (s : string) : string :=
  let s := sub_marked "**" (fun g => s1 (ctl 0) +:+ g +:+ s1 (ctl 1)) s in
  let s := sub_marked "`" (fun g => s1 (ctl 2) +:+ g +:+ s1 (ctl 3)) s in
  let s := esc s in
  let s := replace_char (ctl 1) "</b>" (replace_char (ctl 0) "<b>" s) in
  replace_char (ctl 3) "</code>" (replace_char (ctl 2) "<code>" s).

(** ** [convert] *)

Record Conv := mkConv {
  cv_body : list string;
  cv_toc : list string;
  cv_sec : Z;
  cv_in_code : bool;
  cv_code : list string
}.
Definition conv_init : Conv := mkConv [] [] 0 false [].
Definition emit (seg : string) (c : Conv) : Conv :=
  mkConv (cv_body c ++ [seg]) (cv_toc c) (cv_sec c) (cv_in_code c) (cv_code c).
Definition put_code (b : bool) (code : list string) (c : Conv) : Conv :=
  mkConv (cv_body c) (cv_toc c) (cv_sec c) b code.

(** the lines of a block quote that follow the first *)
Fixpoint quote_run (lines : list string) : list string :=
  match lines with
  | ln :: lines' => if starts "> " ln then str_drop 2 ln :: quote_run lines' else []
  | [] => []
  end.

Definition anchor (n : Z) : string := "s" +:+ zs n.
Definition toc_li (n : Z) (title : string) : string := tag "li" "" (tag "a" (attr "href" ("#" +:+ anchor n)) (esc title)).
Definition h2 (n : Z) (title : string) : string := tag "h2" (attr "id" (anchor n)) (esc title).
Definition section (title : string) (c : Conv) : Conv :=
  let n := cv_sec c + 1 in
  emit (h2 n title) (mkConv (cv_body c) (cv_toc c ++ [toc_li n title]) n (cv_in_code c) (cv_code c)).

Definition bullet (item : string) : string :=
  let t := if contains "Auto-recover" item || contains "Result" item then verdict_tag item else "" in
  let item := sub_marked "**" (fun g => tag "b" "" g) item in
  let cls := if starts "daemons" item then attr "class" "status" else "" in
  tag "p" cls (esc_inline item +:+ " " +:+ t).

(** one line outside a block quote *)
Definition conv_line (ln : string) (quote : list string) (c : Conv) : Conv :=
  if starts "```" (strip ln) then
    if cv_in_code c then put_code false [] (emit (term (cv_code c)) c) else put_code true (cv_code c) c
  else if cv_in_code c then put_code true (cv_code c ++ [ln]) c
  else if starts "# " ln then emit (tag "h1" "" (esc (str_drop 2 ln))) c
  else if starts "> " ln then emit (tag "p" (attr "class" "subtitle") (esc (join " " (str_drop 2 ln :: quote)))) c
  else if starts "## " ln then section (str_drop 3 ln) c
  else if starts "### " ln then emit (tag "h3" "" (esc (str_drop 4 ln))) c
  else if starts "- " ln then emit (bullet (str_drop 2 ln)) c
  else if nonempty (strip ln) then emit (tag "p" "" (esc_inline ln)) c
  else c.

(** whether the line begins a block quote that takes the lines after it *)
Definition takes_quote (ln : string) (c : Conv) : bool :=
  negb (starts "```" (strip ln)) && negb (cv_in_code c) && negb (starts "# " ln) && starts "> " ln.
Fixpoint conv_go (skip : nat) (lines : list string) (c : Conv) : Conv :=
  match lines with
  | [] => c
  | ln :: lines' =>
      match skip with
      | S k => conv_go k lines' c
      | O => if takes_quote ln c then conv_go (length (quote_run lines')) lines' (conv_line ln (quote_run lines') c)
             else conv_go O lines' (conv_line ln [] c)
      end
  end.

(** the contents go after the first heading *)
Fixpoint insert_toc (toc : string) (body : list string) : list string :=
  match body with
  | [] => []
  | seg :: body' => if starts "<h1" seg then seg :: toc :: body' else seg :: insert_toc toc body'
  end.
Definition toc_html (toc : list string) : string :=
  tag "div" (attr "class" "toc") ("<b>Contents</b><ul>" +:+ join "" toc +:+ "</ul>").
Definition page (body : list string) : string :=
  with_quotes "<!doctype html><html lang=`zh-CN`><head><meta charset=`utf-8`>" +:+
  with_quotes "<meta name=`viewport` content=`width=device-width,initial-scale=1`>" +:+
  "<title>pmon Faulty-Device Field Test Report</title><style>" +:+ CSS +:+ "</style></head><body>" +:+
  with_quotes "<div class=`sheet`>" +:+ join (s1 lf) body +:+
  with_quotes "<div class=`footer`>This report was generated by " +:+
  "tools/pmon_field_report.py from a live on-device test run, and " +:+
  "converted into this page by tools/field_report_to_html.py.</div></div></body></html>".
Definition convert (md : string) : string :=
  let c := conv_go O (splitlines md) conv_init in
  page (insert_toc (toc_html (cv_toc c)) (cv_body c)).

(** ** [main] *)

(** [inp.rsplit(".", 1)[0] + ".html"] *)
Definition html_path (inp : string) : string :=
  match rcut "."%char inp with Some (a, _) => a | None => inp end +:+ ".html".
(** the exit status and the file written; [read] opens the input *)
Definition html_main (argv : list string) (read : string -> outcome string) : outcome (Z * option (string * string)) :=
  match argv with
  | _ :: inp :: rest =>
      let out := match rest with o :: _ => o | [] => html_path inp end in
      match read inp with
      | Val md => Val (0, Some (out, convert md))
      | Exc e => Exc e
      | Hang => Hang
      end
  | _ => Val (1, None)
  end.

(** ** The table of contents *)

(** the headings of the text: the "## " lines outside the fences *)
Fixpoint headings (in_code : bool) (lines : list string) : list string :=
  match lines with
  | [] => []
  | ln :: lines' =>
      if starts "```" (strip ln) then headings (negb in_code) lines'
      else (if negb in_code && starts "## " ln then [str_drop 3 ln] else []) ++ headings in_code lines'
  end.

(** the numbered list of titles from [n] on *)
Fixpoint numbered (f : Z -> string -> string) (n : Z) (titles : list string) : list string :=
  match titles with
  | [] => []
  | t :: titles' => f n t :: numbered f (n + 1) titles'
  end.
Definition is_h2 (seg : string) : bool := starts "<h2" seg.

Lemma rstrip_head p c s : p c = false -> exists t, rstrip_by p (String c s) = String c t.
Proof.
  intros Hc. cbn [rstrip_by]. destruct (rstrip_by p s) as [|d t]; [rewrite Hc; by exists "" | by eexists].
Qed.
Lemma quote_no_fence ln : starts "> " ln = true -> starts "```" (strip ln) = false.
Proof.
  intros [t ->]%starts_spec. unfold strip, strip_by.
  change (lstrip_by is_space ("> " +:+ t)) with ("> " +:+ t).
  destruct (rstrip_head is_space ">"%char (" " +:+ t) eq_refl) as [u Hu].
  change ("> " +:+ t) with (String ">" (" " +:+ t)). by rewrite Hu.
Qed.
Lemma quote_no_heading ln : starts "> " ln = true -> starts "## " ln = false.
Proof. intros [t ->]%starts_spec. reflexivity. Qed.

(** a line adds its own heading, and switches the fence *)
Lemma conv_line_sections ln quote c :
  cv_in_code (conv_line ln quote c) = (if starts "```" (strip ln) then negb (cv_in_code c) else cv_in_code c) /\
  exists ts, ts = (if starts "```" (strip ln) then [] else if negb (cv_in_code c) && starts "## " ln then [str_drop 3 ln] else []) /\
    cv_sec (conv_line ln quote c) = cv_sec c + Z.of_nat (length ts) /\
    cv_toc (conv_line ln quote c) = cv_toc c ++ numbered toc_li (cv_sec c + 1) ts /\
    List.filter is_h2 (cv_body (conv_line ln quote c)) = List.filter is_h2 (cv_body c) ++ numbered h2 (cv_sec c + 1) ts.
Proof.
  assert (forall seg, is_h2 seg = false -> List.filter is_h2 (cv_body c ++ [seg]) = List.filter is_h2 (cv_body c)) as Hno.
  { intros seg Hs. rewrite List.filter_app. cbn [List.filter]. by rewrite Hs, app_nil_r. }
  unfold conv_line. destruct (starts "```" (strip ln)) eqn:E1.
  { split; [by destruct (cv_in_code c)|]. exists []. split; [done|]. destruct (cv_in_code c); cbn; rewrite ?app_nil_r, ?Hno by done;
      repeat split; lia. }
  destruct (cv_in_code c) eqn:E2; [split; [done|]; exists []; cbn; rewrite !app_nil_r; repeat split; lia|]. cbn [negb andb].
  destruct (starts "## " ln) eqn:E3.
  - apply starts_spec in E3 as [t ->].
    assert (starts "# " ("## " +:+ t) = false /\ starts "> " ("## " +:+ t) = false) as [-> ->] by done.
    split; [done|]. eexists. split; [reflexivity|].
    unfold section, emit. cbn [cv_body cv_toc cv_sec length numbered]. rewrite List.filter_app. repeat split; lia.
  - repeat case_match; (split; [done|]); exists []; cbn; rewrite ?app_nil_r, ?Hno by done; repeat split; lia.
Qed.

Lemma conv_go_sections lines : forall skip c, (skip <= length (quote_run lines))%nat ->
  (skip <> O -> cv_in_code c = false) ->
  let ts := headings (cv_in_code c) lines in
  cv_toc (conv_go skip lines c) = cv_toc c ++ numbered toc_li (cv_sec c + 1) ts /\
  List.filter is_h2 (cv_body (conv_go skip lines c)) = List.filter is_h2 (cv_body c) ++ numbered h2 (cv_sec c + 1) ts.
Proof.
  induction lines as [|ln lines IH]; intros skip c Hs Hin; cbn zeta; [by cbn; rewrite !app_nil_r|].
  destruct skip as [|k]; cbn [conv_go headings].
  - destruct (conv_line_sections ln (if takes_quote ln c then quote_run lines else []) c) as (Hc & ts & Hts & Hn & Ht & Hb).
    assert (forall c2 n, cv_in_code c2 = cv_in_code (conv_line ln (if takes_quote ln c then quote_run lines else []) c) ->
      c2 = conv_line ln (if takes_quote ln c then quote_run lines else []) c ->
      (n <= length (quote_run lines))%nat -> (n <> O -> cv_in_code c2 = false) ->
      let hs := if starts "```" (strip ln) then headings (negb (cv_in_code c)) lines
                else (if negb (cv_in_code c) && starts "## " ln then [str_drop 3 ln] else []) ++ headings (cv_in_code c) lines in
      cv_toc (conv_go n lines c2) = cv_toc c ++ numbered toc_li (cv_sec c + 1) hs /\
      List.filter is_h2 (cv_body (conv_go n lines c2)) = List.filter is_h2 (cv_body c) ++ numbered h2 (cv_sec c + 1) hs) as Hgo.
    { intros c2 n _ -> Hle Hz. cbn zeta. destruct (IH n _ Hle Hz) as [IHt IHb]. rewrite IHt, IHb, Ht, Hb, Hc, Hn, <-!app_assoc.
      rewrite Hts. destruct (starts "```" (strip ln)); cbn [numbered app length]; [by rewrite Z.add_0_r|].
      destruct (negb (cv_in_code c) && starts "## " ln); cbn [numbered app length]; [|by rewrite Z.add_0_r].
      by replace (cv_sec c + Z.of_nat 1 + 1) with (cv_sec c + 1 + 1) by lia. }
    destruct (takes_quote ln c) eqn:Eq; apply Hgo; try done; try lia.
    intros _. unfold takes_quote in Eq. rewrite !andb_true_iff, !negb_true_iff in Eq. destruct Eq as [[[E1 E2] E3] E4].
    by rewrite Hc, E1.
  - cbn [quote_run] in Hs. destruct (starts "> " ln) eqn:Eq; [|cbn in Hs; lia]. cbn [length] in Hs.
    rewrite (quote_no_fence _ Eq), (quote_no_heading _ Eq), andb_false_r. cbn [app].
    apply IH; [lia|]. intros _. by apply Hin.
Qed.

(** Every entry of the contents leads to its heading.  For every text the
    contents list exactly the "## " lines outside the code fences, in order and
    numbered from 1, and the page's section headings are exactly these titles
    with the same anchors; block quotes, code that looks like a heading and
    unclosed fences do not disturb the numbering. *)
Theorem contents_match md :
  let c := conv_go O (splitlines md) conv_init in
  let titles := headings false (splitlines md) in
  cv_toc c = numbered toc_li 1 titles /\
  List.filter is_h2 (cv_body c) = numbered h2 1 titles /\
  convert md = page (insert_toc (toc_html (numbered toc_li 1 titles)) (cv_body c)).
Proof.
  destruct (conv_go_sections (splitlines md) O conv_init) as [Ht Hb]; [lia | done|].
  cbn [cv_toc cv_body cv_sec cv_in_code conv_init app List.filter] in Ht, Hb.
  split; [exact Ht|]. split; [exact Hb|]. unfold convert. by rewrite Ht.
Qed.

(** ** Examples *)

Example ex_contents :
  cv_toc (conv_go O ["# r"; "> a"; "> ## b"; "## one"; "```"; "## no"; "```"; "## two"] conv_init) =
  [toc_li 1 "one"; toc_li 2 "two"].
Proof. reflexivity. Qed.

(** a bold text in an item is made bold twice: the tags of the first pass are
    escaped by the second and show up as text *)
Example ex_item_bold :
  bullet "**Injection method**: mock" = tag "p" "" "&lt;b&gt;Injection method&lt;/b&gt;: mock ".
Proof. reflexivity. Qed.
Example ex_text_bold : esc_inline "a **b** `c<d`" = "a <b>b</b> <code>c&lt;d</code>".
Proof. reflexivity. Qed.
Example ex_html_path : html_path "/tmp/r.2.md" = "/tmp/r.2.html".
Proof. reflexivity. Qed.
