(* ===== verification/Verify.v ===== *)
(** * Database assertions (framework/verify.py)

    Views of a database that poll for the programming of an object, and the
    queries on SAI objects.  The packet matchers of the same file are predicates
    on packets of the third-party library scapy; the parts of a packet they
    read are a record here. *)

From S2P Require Import Prelude PyStr PyVal Device Cli.

Section DbView.
Context `{Device} `{ShellEnv}.

Definition view_exists (db pattern : string) (timeout interval : Z) : M bool :=
  poll_until timeout interval (has_keys db pattern).
Definition view_count (db pattern : string) : M Z :=
  let* ks := db_keys db pattern in ret (Z.of_nat (length ks)).
Definition wait_count_gt (db pattern : string) (base timeout interval : Z) : M bool :=
  poll_until timeout interval (let* n := view_count db pattern in ret (base <? n)).
Definition view_field (db key field : string) : M (option string) := hget db key field.

(** ** [AsicDb] *)

Definition asic_objects (sai_type : string) : M (list string) :=
  db_keys "ASIC_DB" ("ASIC_STATE:" +:+ sai_type +:+ ":*").
Definition asic_has (sai_type : string) (timeout : Z) : M bool :=
  view_exists "ASIC_DB" ("ASIC_STATE:" +:+ sai_type +:+ ":*") timeout 300.

Definition has_route (prefix : string) (timeout interval : Z) : M bool :=
  poll_until timeout interval
    (let* ks := asic_objects "SAI_OBJECT_TYPE_ROUTE_ENTRY" in ret (existsb (contains prefix) ks)).

(** whether a route entry's attributes carry a forwarding intent *)
Definition forwarding_attrs (attrs : pydict string string) : bool :=
  negb (contains "DROP" (default "" (dget "SAI_ROUTE_ENTRY_ATTR_PACKET_ACTION" attrs)))
  && negb (bool_decide (default "oid:0x0" (dget "SAI_ROUTE_ENTRY_ATTR_NEXT_HOP_ID" attrs) ∈ [""; "oid:0x0"])).

Definition route_is_forwarding (prefix : string) (timeout interval : Z) : M bool :=
  poll_until timeout interval
    (let* ks := asic_objects "SAI_OBJECT_TYPE_ROUTE_ENTRY" in
     any_m (fun k => if contains prefix k
                     then let* a := db_hgetall "ASIC_DB" k in ret (forwarding_attrs a)
                     else ret false) ks).

(** [str(attrs.get(f)) == str(v)] *)
Definition matches (attrs : pydict string string) (m : list (string * string)) : bool :=
  forallb (fun fv => String.eqb (default "None" (dget (fst fv) attrs)) (snd fv)) m.

Definition filter_m {A} (p : A -> M bool) (l : list A) : M (list A) :=
  fold_m (fun acc x => let* b := p x in ret (if b then acc ++ [x] else acc)) l [].

Definition asic_find (sai_type : string) (m : list (string * string)) : M (list string) :=
  let* ks := asic_objects sai_type in
  filter_m (fun k => let* a := db_hgetall "ASIC_DB" k in ret (matches a m)) ks.

(** the SAI default trap group has neither queue nor policer *)
Definition default_trap_group (attrs : pydict string string) : bool :=
  let q := dget "SAI_HOSTIF_TRAP_GROUP_ATTR_QUEUE" attrs in
  let pol := dget "SAI_HOSTIF_TRAP_GROUP_ATTR_POLICER" attrs in
  negb (truthy q) && (negb (truthy pol) || bool_decide (pol = Some "oid:0x0")).

Definition hostif_trap_groups (exclude_default : bool) : M (list string) :=
  let* groups := asic_objects "SAI_OBJECT_TYPE_HOSTIF_TRAP_GROUP" in
  if negb exclude_default then ret groups
  else filter_m (fun g => let* a := db_hgetall "ASIC_DB" g in ret (negb (default_trap_group a))) groups.
End DbView.

(** ** Packet matchers *)

Record Packet := mkPacket {
  pk_vlan : option Z;
  pk_ip : option (Z * Z);            (* ttl, tos *)
  pk_eth_dst : option string;
  pk_bytes : string
}.

Definition has_vlan (vid : Z) (p : Packet) : bool := bool_decide (pk_vlan p = Some vid).
Definition no_vlan (p : Packet) : bool := match pk_vlan p with Some _ => false | None => true end.
Definition ttl_is (v : Z) (p : Packet) : bool :=
  match pk_ip p with Some (ttl, _) => ttl =? v | None => false end.
Definition dscp_is (v : Z) (p : Packet) : bool :=
  match pk_ip p with Some (_, tos) => Z.shiftr tos 2 =? v | None => false end.
Definition dst_mac_is (mac : string) (p : Packet) : bool :=
  match pk_eth_dst p with Some d => String.eqb (lower d) (lower mac) | None => false end.
Definition payload_has (magic : string) (p : Packet) : bool := contains magic (pk_bytes p).
