(* ===== verification/Qos.v ===== *)
(** * QoS maps across images (framework/qos.py)

    The undo callables [build_baseline] and [build_sched_baseline] return are
    operations of the session. *)

From S2P Require Import Prelude PyStr PyStrFacts PyVal Device Cli Worker Gcu.

Definition TC_NAMES : list string := ["BE"; "AF1"; "AF2"; "AF3"; "AF4"; "EF"; "CS6"; "CS7"].

Fixpoint index_of (x : string) (l : list string) (i : Z) : option Z :=
  match l with
  | [] => None
  | y :: l' => if String.eqb x y then Some i else index_of x l' (i + 1)
  end.

(** [tc_num]: the text is a number when only dashes precede its digits; several
    dashes make [int] raise *)
Definition tc_num (v : string) : outcome (option Z) :=
  let s := strip v in
  if isdigit (lstrip_chars "-" s) then
    match py_int s with Some n => Val (Some n) | None => Exc (ValueError s) end
  else Val (index_of (upper s) TC_NAMES 0).

(** [TC_NAMES[int(n)]]: a negative index counts from the end *)
Definition tc_name (n : Z) : outcome string :=
  let i := if n <? 0 then n + 8 else n in
  if (0 <=? i) && (i <? 8) then
    match nth_error TC_NAMES (Z.to_nat i) with Some s => Val s | None => Exc IndexError end
  else Exc IndexError.

(** one element of the serialized map; [None] when it is skipped *)
Definition map_pair (key_field val_field : string) (item : pyval) : option (Z * Z) :=
  match vget_or "key" (VDict []) item, vget_or "value" (VDict []) item with
  | VDict k, VDict v =>
      let vf := if dmem val_field v then val_field
                else if String.eqb val_field "queue_index" && dmem "qidx" v then "qidx" else val_field in
      match dget key_field k, dget vf v with
      | Some kv, Some vv => match vint kv, vint vv with Some a, Some b => Some (a, b) | _, _ => None end
      | _, _ => None
      end
  | _, _ => None
  end.

(** an element that is no dictionary has no [get] *)
Fixpoint map_pairs (key_field val_field : string) (items : list pyval) (acc : pydict Z Z)
  : outcome (pydict Z Z) :=
  match items with
  | [] => Val acc
  | (VDict _ as it) :: items' =>
      map_pairs key_field val_field items'
        (match map_pair key_field val_field it with Some (a, b) => dset a b acc | None => acc end)
  | _ => Exc (AttributeError "get")
  end.

Definition asic_qos_map_pairs (payload : option string) (key_field val_field : string)
  : outcome (pydict Z Z) :=
  match payload with
  | None => Val []
  | Some p =>
      if negb (nonempty p) then Val []
      else match json_loads p with
           | Some (VDict obj) =>
               match dget "list" obj with
               | None => Val []
               | Some (VList l) => map_pairs key_field val_field l []
               | Some (VDict []) | Some (VStr EmptyString) => Val []
               | Some (VDict _) | Some (VStr _) => Exc (AttributeError "get")
               | Some _ => Exc (TypeError "list")
               end
           | _ => Val []
           end
  end.

Section Qos.
Context `{Device} `{ShellEnv}.

Definition put_qos_cli (b : bool) (c : CliState) : CliState :=
  mkCli (c_bridged c) (c_stplock c) (c_acl_tbl c) (c_spandir c) (c_erspan c) (c_mirdel c)
    (c_ipdel c) (c_swp_os c) (c_vm_flag c) (Some b) (c_aclpoll_on c).

Definition has_qos_cli : M bool :=
  let* c := get_cli in
  match c_qos_cli c with
  | Some b => ret b
  | None =>
      let* r := sh_run "config dscp-to-tc-map add --help" in
      let b := result_ok r && contains "--dscp" (out r) in
      modify_cli (put_qos_cli b) ;;; ret b
  end.

Fixpoint enumerate {A} (i : Z) (l : list A) : list (Z * A) :=
  match l with [] => [] | x :: l' => (i, x) :: enumerate (i + 1) l' end.

(** the product's default maps *)
Definition tc_to_queue_args : string :=
  join " " (map (fun p => snd p +:+ " " +:+ zs (fst p)) (enumerate 0 TC_NAMES)).
Definition default_tc (d : Z) : string :=
  if d =? 46 then "EF" else if d =? 48 then "CS6" else if d =? 56 then "CS7" else "BE".
Definition dscp_args : string :=
  join " " (map (fun i => let d := Z.of_nat i in zs d +:+ " " +:+ default_tc d) (List.seq 0 64)).

Definition hset_if_empty (key args : string) : M unit :=
  let* d := db_hgetall "CONFIG_DB" key in
  match d with
  | [] => sh_run ("sonic-db-cli CONFIG_DB HSET '" +:+ key +:+ "' " +:+ args) ;;; ret tt
  | _ => ret tt
  end.

Definition ensure_default_qos_maps : M unit :=
  let* q := has_qos_cli in
  if negb q then ret tt
  else
    let* refs := has_keys "CONFIG_DB" "PORT_QOS_MAP|*" in
    if negb refs then ret tt
    else
      hset_if_empty "TC_TO_QUEUE_MAP|default" tc_to_queue_args ;;;
      hset_if_empty "DSCP_TO_TC_MAP|default" dscp_args.

Definition unbind_port_qos (port_name : string) : M unit :=
  let* keys := db_keys "CONFIG_DB" "PORT_QOS_MAP|*" in
  match keys with
  | [] => ret tt
  | _ =>
      let path := if (length keys <=? 1)%nat then "/PORT_QOS_MAP" else "/PORT_QOS_MAP/" +:+ port_name in
      let patch := with_quotes ("[{`op`:`remove`,`path`:`" +:+ path +:+ "`}]") in
      sh_run_timeout 60000 ("echo '" +:+ patch +:+ "' > /tmp/fvt_qos_unbind.json && "
                            +:+ "config apply-patch /tmp/fvt_qos_unbind.json") ;;;
      ret tt
  end.

(** [config_raw] whose result is not used *)
Definition cfg_ (args : string) : M unit := config_raw args ;;; ret tt.

Definition build_baseline (port_name prefix : string) : M (option (M unit)) :=
  let* q := has_qos_cli in
  if negb q then ret None
  else
    let d2t := prefix +:+ "_D2T" in
    let t2q := prefix +:+ "_T2Q" in
    cfg_ ("dscp-to-tc-map add " +:+ d2t +:+ " -d 46 -t EF") ;;;
    cfg_ ("tc-to-queue-map add " +:+ t2q +:+ " -t EF -q 5") ;;;
    let* orig := db_hgetall "CONFIG_DB" ("PORT_QOS_MAP|" +:+ port_name) in
    let sub := match orig with [] => "add" | _ => "update" end in
    cfg_ ("port-qos-map " +:+ sub +:+ " " +:+ port_name +:+ " -t trust_dscp -dscpt " +:+ d2t +:+ " -tq " +:+ t2q) ;;;
    poll_tries 5 1000 (let* t := hget "CONFIG_DB" ("PORT_QOS_MAP|" +:+ port_name) "trust_mode" in
                       ret (bool_decide (t = Some "trust_dscp"))) ;;;
    sleep 3000 ;;;
    ret (Some (
      match orig with
      | [] => unbind_port_qos port_name
      | _ => apply_patch (VList [VDict [("op", VStr "replace"); ("path", VStr (path ["PORT_QOS_MAP"; port_name]));
                                        ("value", VDict (map (fun kv => (fst kv, VStr (snd kv))) orig))]]) ;;; ret tt
      end ;;;
      sleep 1000 ;;;
      cfg_ ("tc-to-queue-map del " +:+ t2q) ;;;
      cfg_ ("dscp-to-tc-map del " +:+ d2t) ;;;
      sleep 1000)).

Definition build_sched_baseline (port_name prefix : string) : M (option (M unit)) :=
  let* q := has_qos_cli in
  if negb q then ret None
  else
    let sch := prefix +:+ "_SCH" in
    let sp := prefix +:+ "_SP" in
    let wred := prefix +:+ "_WRED" in
    cfg_ ("scheduler add " +:+ sch +:+ " -t DWRR -w 50") ;;;
    cfg_ ("scheduler add " +:+ sp +:+ " -t STRICT") ;;;
    cfg_ ("wred-profile add " +:+ wred +:+ " -en true -ecn ecn_all "
          +:+ "-gmin 100000 -gmax 200000 -ymin 100000 -ymax 200000 "
          +:+ "-rmin 100000 -rmax 200000") ;;;
    cfg_ ("port-queue add " +:+ port_name +:+ " 0 -s " +:+ sch +:+ " -w " +:+ wred) ;;;
    cfg_ ("port-queue add " +:+ port_name +:+ " 1 -s " +:+ sp) ;;;
    cfg_ ("buffer profile add " +:+ prefix +:+ "_BUF --dynamic-th 3") ;;;
    sleep 3000 ;;;
    ret (Some (
      cfg_ ("port-queue del " +:+ port_name +:+ " 1") ;;;
      cfg_ ("port-queue del " +:+ port_name +:+ " 0") ;;;
      sleep 1000 ;;;
      cfg_ ("buffer profile del " +:+ prefix +:+ "_BUF") ;;;
      cfg_ ("wred-profile del " +:+ wred) ;;;
      cfg_ ("scheduler del " +:+ sp) ;;;
      cfg_ ("scheduler del " +:+ sch) ;;;
      sleep 1000)).
End Qos.

(** The two spellings of a traffic class agree: every class number has a
    name that is read back as the number, in any letter case and as digits. *)
Theorem tc_roundtrip (n : Z) :
  0 <= n < 8 ->
  exists s, tc_name n = Val s /\ tc_num s = Val (Some n) /\ tc_num (lower s) = Val (Some n)
    /\ tc_num (zs n) = Val (Some n).
Proof.
  intros Hn.
  assert ((match tc_name n with
           | Val s => bool_decide (tc_num s = Val (Some n)) && bool_decide (tc_num (lower s) = Val (Some n))
                      && bool_decide (tc_num (zs n) = Val (Some n))
           | _ => false
           end) = true) as Hb.
  { revert n Hn. apply (Z_below_all 8 (fun n => match tc_name n with
           | Val s => bool_decide (tc_num s = Val (Some n)) && bool_decide (tc_num (lower s) = Val (Some n))
                      && bool_decide (tc_num (zs n) = Val (Some n))
           | _ => false
           end)). vm_compute. reflexivity. }
  destruct (tc_name n) as [s|e|]; [|done|done]. exists s. break_hyps.
  repeat match goal with H : bool_decide _ = true |- _ => apply bool_decide_eq_true_1 in H end. done.
Qed.

Lemma tc_roundtrip_witness :
  exists s, tc_name 5 = Val s /\ tc_num s = Val (Some 5) /\ tc_num (lower s) = Val (Some 5)
    /\ tc_num (zs 5) = Val (Some 5).
Proof. apply tc_roundtrip. lia. Defined.
