(* ===== verification/Acl.v ===== *)
(** * ACL tables and rules across images (framework/acl.py) *)

From S2P Require Import Prelude PyStr PyStrFacts PyVal Device DeviceFacts Toy CliParse Cli CliFacts.

Definition MAC_MATCHES : string := "SRC_MAC,DST_MAC,ETHER_TYPE,OUTER_VLAN_ID,OUTER_VLAN_PRI,IN_PORTS".

Definition MAC_FIELD_CLI : pydict string string :=
  [("SRC_MAC", "-sm"); ("DST_MAC", "-dm"); ("ETHER_TYPE", "-et"); ("VLAN_ID", "-vid"); ("PCP", "-vp")].

Definition L3_FIELD_CLI : pydict string string :=
  [("SRC_IP", "-si"); ("DST_IP", "-di"); ("SRC_IPV6", "-si6"); ("DST_IPV6", "-di6");
   ("IP_PROTOCOL", "-ip"); ("L4_SRC_PORT", "-sp"); ("L4_DST_PORT", "-dp");
   ("L4_SRC_PORT_RANGE", "-spr"); ("L4_DST_PORT_RANGE", "-dpr"); ("DSCP", "-d");
   ("ETHER_TYPE", "-et"); ("ICMP_TYPE", "-ict"); ("ICMP_CODE", "-icc"); ("TCP_FLAGS", "-tf")].

Definition TCP_FLAG_NAMES : list (Z * string) :=
  [(1, "TCP_FIN"); (2, "TCP_SYN"); (4, "TCP_RST"); (8, "TCP_PSH"); (16, "TCP_ACK"); (32, "TCP_URG")].

Definition tcp_flags_cli (value : string) : option string :=
  match py_int0 (hd "" (split_on "/"%char value)) with
  | None => None
  | Some bits =>
      match List.filter (fun bn => negb (Z.land bits (fst bn) =? 0)) TCP_FLAG_NAMES with
      | [] => None
      | l => Some (join "," (map snd l))
      end
  end.

Definition ethertype_cli (value : string) : string :=
  match py_int0 value with Some n => "0x" +:+ hex4_upper n | None => value end.

Section Acl.
Context `{Device} `{ShellEnv}.

Definition quoted_pair (kv : string * string) : string :=
  "'" +:+ fst kv +:+ "' '" +:+ snd kv +:+ "'".
Definition acl_hset (db key : string) (fields : list (string * string)) : M Result :=
  sh_run ("sonic-db-cli " +:+ db +:+ " HSET '" +:+ key +:+ "' " +:+ join " " (map quoted_pair fields)).
Definition acl_del (db key : string) : M Result :=
  sh_run ("sonic-db-cli " +:+ db +:+ " DEL '" +:+ key +:+ "'").
Definition acl_entry_count : M nat :=
  let* ks := db_keys "ASIC_DB" "ASIC_STATE:SAI_OBJECT_TYPE_ACL_ENTRY:*" in ret (length ks).

Definition add_mac_table (name port : string) : M (option string) :=
  let* b := acl_table_cli in
  if b then config_raw ("acl add table " +:+ name +:+ " L2 -p " +:+ port) ;;; ret None
  else
    let type_name := name +:+ "_TYPE" in
    acl_hset "CONFIG_DB" ("ACL_TABLE_TYPE|" +:+ type_name)
      [("MATCHES", MAC_MATCHES); ("BIND_POINTS", "PORT"); ("ACTIONS", "PACKET_ACTION,COUNTER")] ;;;
    sleep 1000 ;;;
    acl_hset "CONFIG_DB" ("ACL_TABLE|" +:+ name)
      [("policy_desc", "fvt-mac"); ("type", type_name); ("stage", "ingress"); ("ports", port)] ;;;
    ret (Some type_name).

Definition remove_mac_table (name : string) (type_name : option string) : M unit :=
  let* b := acl_table_cli in
  let* rules := db_keys "CONFIG_DB" ("ACL_RULE|" +:+ name +:+ "|*") in
  (if b then
     for_each rules (fun rk => config_raw ("acl-rule del " +:+ name +:+ " " +:+ key_last rk) ;;; ret tt) ;;;
     config_raw ("acl remove table " +:+ name) ;;; ret tt
   else for_each rules (fun rk => acl_del "CONFIG_DB" rk ;;; ret tt)) ;;;
  acl_del "CONFIG_DB" ("ACL_TABLE|" +:+ name) ;;;
  when (truthy type_name) (acl_del "CONFIG_DB" ("ACL_TABLE_TYPE|" +:+ or_empty type_name) ;;; ret tt).

(** the [acl-rule add] command; fields without an option are left out *)
Definition mac_rule_cmd (table rule priority action : string) (fields : list (string * string)) : string :=
  fold_left (fun cmd kv =>
      match dget (fst kv) MAC_FIELD_CLI with
      | Some flag => cmd +:+ " " +:+ flag +:+ " "
                     +:+ (if String.eqb (fst kv) "ETHER_TYPE" then ethertype_cli (snd kv) else snd kv)
      | None => cmd
      end) fields
    ("acl-rule add " +:+ table +:+ " " +:+ rule +:+ " -p " +:+ priority +:+ " -a " +:+ action).

Definition add_mac_rule (table rule priority action : string) (fields : list (string * string)) : M unit :=
  let* b := acl_table_cli in
  if b then config_raw (mac_rule_cmd table rule priority action fields) ;;; ret tt
  else acl_hset "CONFIG_DB" ("ACL_RULE|" +:+ table +:+ "|" +:+ rule)
         ([("PRIORITY", priority); ("PACKET_ACTION", action)] ++ fields) ;;; ret tt.

Definition l3_rule_expressible (fields : list string) : M bool :=
  let* b := acl_table_cli in
  ret (negb b || forallb (fun f => dmem f L3_FIELD_CLI) fields).

(** the option of one field, [None] when the CLI cannot express it *)
Definition l3_option (kv : string * string) : option string :=
  let '(k, v) := kv in
  match dget k L3_FIELD_CLI with
  | None => None
  | Some flag =>
      if String.eqb k "TCP_FLAGS" then option_map (fun t => " " +:+ flag +:+ " " +:+ t) (tcp_flags_cli v)
      else Some (" " +:+ flag +:+ " " +:+ (if String.eqb k "ETHER_TYPE" then ethertype_cli v else v))
  end.
Fixpoint l3_options (fields : list (string * string)) : option string :=
  match fields with
  | [] => Some ""
  | kv :: fields' => match l3_option kv with
                     | None => None
                     | Some o => option_map (fun r => o +:+ r) (l3_options fields')
                     end
  end.

Definition add_l3_rule (table rule priority action : string) (fields : list (string * string)) : M bool :=
  let* b := acl_table_cli in
  if b then
    match l3_options fields with
    | None => ret false
    | Some opts =>
        let* '(_, r) := config_raw ("acl-rule add " +:+ table +:+ " " +:+ rule +:+ " -p " +:+ priority
                                    +:+ " -a " +:+ action +:+ opts) in
        ret (negb (contains "does not support" (out r +:+ err r)))
    end
  else
    acl_hset "CONFIG_DB" ("ACL_RULE|" +:+ table +:+ "|" +:+ rule)
      ([("PRIORITY", priority); ("PACKET_ACTION", action)] ++ fields) ;;; ret true.

Definition put_aclpoll (c : CliState) : CliState :=
  mkCli (c_bridged c) (c_stplock c) (c_acl_tbl c) (c_spandir c) (c_erspan c) (c_mirdel c)
    (c_ipdel c) (c_swp_os c) (c_vm_flag c) (c_qos_cli c) true.

Definition ensure_acl_counterpoll : M unit :=
  let* c := get_cli in
  if c_aclpoll_on c then ret tt
  else
    let* r := sh_run "counterpoll show" in
    when (existsb (fun l => bool_decide (take 1 (split_ws l) = ["ACL"]) && contains "disable" l) (splitlines (out r)))
      (sh_run "counterpoll acl enable" ;;; sleep 2000) ;;;
    modify_cli put_aclpoll.

(** the count an [aclshow] line reports for the rule *)
Definition aclshow_count (rule : string) (line : string) : option Z :=
  let toks := split_ws line in
  match rev toks with
  | _ :: c :: _ => if bool_decide (rule ∈ toks) && (5 <=? length toks)%nat && isdigit c then py_int c else None
  | _ => None
  end.

Fixpoint first_some {A B} (f : A -> option B) (l : list A) : option B :=
  match l with [] => None | x :: l' => match f x with Some y => Some y | None => first_some f l' end end.

Definition rule_hit_count (table rule : string) : M (option Z) :=
  ensure_acl_counterpoll ;;;
  let* r := sh_run "aclshow -a" in
  match first_some (aclshow_count rule) (splitlines (out r)) with
  | Some n => ret (Some n)
  | None =>
      let* m := db_hgetall "COUNTERS_DB" "ACL_COUNTER_RULE_MAP" in
      first_m (fun ko =>
        if contains rule (fst ko) && contains table (fst ko) then
          let* h := db_hgetall "COUNTERS_DB" ("COUNTERS:" +:+ snd ko) in
          ret (first_some (fun f => match dget f h with
                                    | Some v => if isdigit v then py_int v else None
                                    | None => None
                                    end) ["SAI_ACL_COUNTER_ATTR_PACKETS"; "Packets"; "packets"])
        else ret None) m
  end.

Definition del_l3_rule (table rule : string) : M unit :=
  let* b := acl_table_cli in
  if b then config_raw ("acl-rule del " +:+ table +:+ " " +:+ rule) ;;; ret tt
  else acl_del "CONFIG_DB" ("ACL_RULE|" +:+ table +:+ "|" +:+ rule) ;;; ret tt.
Definition del_mac_rule (table rule : string) : M unit :=
  let* b := acl_table_cli in
  if b then config_raw ("acl-rule del " +:+ table +:+ " " +:+ rule) ;;; ret tt
  else acl_del "CONFIG_DB" ("ACL_RULE|" +:+ table +:+ "|" +:+ rule) ;;; ret tt.

Definition wait_mac_table_bound (table : string) (tries : nat) (interval : Z) : M bool :=
  let* base := acl_entry_count in
  add_mac_rule table "WARMUP" "9999" "DROP" [("SRC_MAC", "00:de:ad:be:ef:01")] ;;;
  let* ok := poll_tries tries interval (let* n := acl_entry_count in ret (base <? n)%nat) in
  del_mac_rule table "WARMUP" ;;;
  sleep 1500 ;;;
  ret ok.
End Acl.

(** ** Properties *)

Lemma l3_options_none fields k v :
  (k, v) ∈ fields -> l3_option (k, v) = None -> l3_options fields = None.
Proof.
  induction fields as [|kv fields IH]; [by intros ?%not_elem_of_nil|].
  intros [<-|Hin]%elem_of_cons Hn; cbn [l3_options]; [by rewrite Hn|].
  destruct (l3_option kv); [|done]. by rewrite IH.
Qed.

Lemma l3_options_some fields opts :
  l3_options fields = Some opts ->
  forall k v, (k, v) ∈ fields -> exists o, l3_option (k, v) = Some o /\ contains o opts = true.
Proof.
  revert opts. induction fields as [|kv fields IH]; intros opts Ho k v; [by intros ?%not_elem_of_nil|].
  cbn [l3_options] in Ho. destruct (l3_option kv) as [o|] eqn:Eo; [|done].
  destruct (l3_options fields) as [r|]; [|done]. simplify_eq/=. intros [<-|Hin]%elem_of_cons.
  - exists o. split; [done|]. apply contains_app_l, contains_refl.
  - destruct (IH r eq_refl k v Hin) as (o' & ? & ?). exists o'. split; [done|]. by apply contains_app_r.
Qed.

(** A rule is never pushed with a match field dropped.  On the product CLI,
    [add_l3_rule] with a field the CLI cannot express answers false without
    running a command, and otherwise every field's option is in the text of the
    rule command. *)
Theorem add_l3_rule_complete `{Device} `{ShellEnv} (table rule priority action : string)
    (fields : list (string * string)) (w : World) :
  c_acl_tbl (w_cli w) = Some true ->
  (forall k v, (k, v) ∈ fields -> l3_option (k, v) = None ->
     add_l3_rule table rule priority action fields w = (Val false, w))
  /\ ((forall kv, kv ∈ fields -> l3_option kv <> None) ->
      exists opts, (forall k v, (k, v) ∈ fields -> exists o, l3_option (k, v) = Some o /\ contains o opts = true) /\
        add_l3_rule table rule priority action fields w =
        (let* '(_, r) := config_raw ("acl-rule add " +:+ table +:+ " " +:+ rule +:+ " -p " +:+ priority
                                    +:+ " -a " +:+ action +:+ opts) in
         ret (negb (contains "does not support" (out r +:+ err r)))) w).
Proof.
  intros Hc. assert (acl_table_cli w = (Val true, w)) as Ha.
  { unfold acl_table_cli, bind, get_cli. by rewrite Hc. }
  split.
  - intros k v Hin Hn. unfold add_l3_rule. rewrite (bind_step _ _ _ _ _ Ha).
    by rewrite (l3_options_none _ _ _ Hin Hn).
  - intros Hall. destruct (l3_options fields) as [opts|] eqn:Eo.
    + exists opts. split; [by apply l3_options_some|].
      unfold add_l3_rule. rewrite (bind_step _ _ _ _ _ Ha). by rewrite Eo.
    + exfalso. clear Ha. induction fields as [|kv fields IH]; [done|]. cbn [l3_options] in Eo.
      destruct (l3_option kv) eqn:E; [|by apply (Hall kv); [left|]].
      destruct (l3_options fields); [done|]. apply IH; [|done]. intros x Hx. apply Hall. by right.
Qed.

Lemma add_l3_rule_complete_witness :
  let D := table_device (fun _ => ok_out "") in
  let w := @world D 0 (put_acl_tbl true cli_init) in
  @add_l3_rule D plain_shell "T" "R" "9000" "DROP" [("SRC_IP", "10.0.0.1/32"); ("IP_TYPE", "ANY")] w = (Val false, w).
Proof.
  intros D w.
  apply (proj1 (@add_l3_rule_complete D plain_shell "T" "R" "9000" "DROP"
           [("SRC_IP", "10.0.0.1/32"); ("IP_TYPE", "ANY")] w eq_refl) "IP_TYPE" "ANY"); [|reflexivity].
  apply (bool_decide_unpack _). vm_compute. exact I.
Defined.
