(* ===== verification/ConfigStore.v ===== *)
(** * CONFIG_DB as a table of rows

    An interface between the operations that read and delete rows through
    [sonic-db-cli] and the switch: what the client commands promise, as laws
    about the rows of the device.  Theorems about rows are proved against the
    class; a device that executes the client commands on a finite map is an
    instance. *)

From S2P Require Import Prelude PyStr PyStrFacts PyVal PyValFacts Device DeviceFacts Toy CliParse Cli CliFacts.

(** the characters of a key: none that the shell quotes, redis globs or
    line-based output would read differently *)
Definition key_char (c : ascii) : bool :=
  negb (is_linebreak c) && negb (char_in c (String squote (String lf (String cr "*?[]\")))).
Definition key_text (k : string) : bool := nonempty k && str_forall key_char k.

(** the rows are hashes under such keys *)
Definition cfg_wf (m : gmap string (pydict string string)) : Prop :=
  forall k row, m !! k = Some row -> key_text k = true /\ dwf row /\ row <> [].

Definition row_of (k : string) (m : gmap string (pydict string string)) : pydict string string :=
  default [] (m !! k).

Class ConfigStore `{Device} `{ShellEnv} := {
  cfg : dev -> gmap string (pydict string string);
  cfg_sleep : forall t d, cfg (dev_sleep t d) = cfg d;
  (** [KEYS 'stem*'] lists the keys that begin with the stem, in some order *)
  cfg_keys : forall stem w, key_text stem = true -> cfg_wf (cfg (w_dev w)) ->
    exists ks w', db_keys "CONFIG_DB" (stem +:+ "*") w = (Val ks, w') /\ cfg (w_dev w') = cfg (w_dev w)
      /\ NoDup ks /\ forall k, k ∈ ks <-> starts stem k = true /\ is_Some (cfg (w_dev w) !! k);
  cfg_hgetall : forall k w, key_text k = true -> cfg_wf (cfg (w_dev w)) ->
    exists w', db_hgetall "CONFIG_DB" k w = (Val (row_of k (cfg (w_dev w))), w')
      /\ cfg (w_dev w') = cfg (w_dev w);
  cfg_del : forall k w, key_text k = true -> cfg_wf (cfg (w_dev w)) ->
    exists r w', sh_run ("sonic-db-cli CONFIG_DB DEL '" +:+ k +:+ "'") w = (Val r, w')
      /\ cfg (w_dev w') = delete k (cfg (w_dev w));
  (** reading the ASIC database changes no row *)
  cfg_asic_keys : forall pat w, cfg_wf (cfg (w_dev w)) ->
    exists ks w', db_keys "ASIC_DB" pat w = (Val ks, w') /\ cfg (w_dev w') = cfg (w_dev w)
}.

(** ** A device that keeps the rows *)

(** the text between a prefix and a suffix *)
Definition between (p q s : string) : option string :=
  if starts p s then Some (str_take (slen s - slen p - slen q) (str_drop (slen p) s)) else None.

Lemma between_app p q x : between p q (p +:+ x +:+ q) = Some x.
Proof.
  unfold between. rewrite starts_app, str_drop_app, !slen_app.
  replace (slen p + (slen x + slen q) - slen p - slen q)%nat with (slen x) by lia. by rewrite str_take_app.
Qed.

Definition KEYS_CMD : string := "sonic-db-cli CONFIG_DB KEYS '".
Definition HGETALL_CMD : string := "sonic-db-cli CONFIG_DB HGETALL '".
Definition DEL_CMD : string := "sonic-db-cli CONFIG_DB DEL '".

Definition store_keys (stem : string) (m : gmap string (pydict string string)) : list string :=
  List.filter (fun k => starts stem k) (map fst (map_to_list m)).

Definition store_exec (c : call) (m : gmap string (pydict string string)) : raw * gmap string (pydict string string) :=
  match between KEYS_CMD "*'" (call_cmd c) with
  | Some stem => (ok_out (join (s1 lf) (store_keys stem m)), m)
  | None =>
      match between HGETALL_CMD "'" (call_cmd c) with
      | Some k => (ok_out (py_repr (row_of k m) +:+ s1 lf), m)
      | None => match between DEL_CMD "'" (call_cmd c) with
                | Some k => (ok_out "1", delete k m)
                | None => (ok_out "", m)
                end
      end
  end.

Definition store_device : Device := state_device store_exec.

Lemma key_line k : key_text k = true -> line k = true.
Proof.
  unfold key_text, line. intros ?. break_hyps. apply andb_true_iff. split; [done|].
  eapply str_forall_impl; [|done]. unfold key_char, not_break. intros c ?. break_hyps. by apply negb_true_iff.
Qed.

Lemma lines_no_trailing_lf l :
  Forall (fun s => line s = true) l -> rstrip_chars (s1 lf) (join (s1 lf) l) = join (s1 lf) l.
Proof.
  unfold rstrip_chars. induction 1 as [|x l Hx Hall IH]; [done|].
  unfold line in Hx. apply andb_true_iff in Hx as [Hne Hx]. destruct l as [|y l].
  - cbn [join]. apply rstrip_by_id. eapply str_forall_impl; [|done]. intros c Hc.
    enough (implb (not_break c) (negb (char_in c (s1 lf))) = true) as Ho by by rewrite Hc in Ho.
    clear. revert c. by apply ascii_all.
  - rewrite join_cons by done. rewrite <-sapp_assoc. rewrite rstrip_by_app; rewrite IH; [done|].
    apply Forall_inv in Hall. unfold line in Hall. destruct y as [|d y]; [done|]. by destruct l.
Qed.

Lemma store_keys_elem stem m k : k ∈ store_keys stem m <-> starts stem k = true /\ is_Some (m !! k).
Proof.
  unfold store_keys. rewrite list_elem_of_In, filter_In, <-list_elem_of_In, list_elem_of_fmap. split.
  - intros [([k' r] & -> & Hin%elem_of_map_to_list) Hs]. eauto.
  - intros [Hs [r Hr]]. split; [|done]. exists (k, r). split; [done|]. by apply elem_of_map_to_list.
Qed.

Lemma store_keys_nodup stem m : NoDup (store_keys stem m).
Proof. apply NoDup_ListNoDup, List.NoDup_filter, NoDup_ListNoDup, NoDup_fst_map_to_list. Qed.

(** the run of the commands *)
Section Store.
#[local] Existing Instance store_device.
#[local] Existing Instance plain_shell.

Lemma store_exec_run cmd check t stdin (w : World) o m :
  store_exec (Call None cmd t stdin) (fst (w_dev w)) = (ok_out o, m) ->
  exists w', run_full cmd None check t stdin w = (Val (result 0 o ""), w') /\ fst (w_dev w') = m.
Proof.
  intros E. eexists. split.
  - apply run_ok. cbn [dev_exec store_device state_device]. rewrite E. reflexivity.
  - done.
Qed.

Lemma store_keys_run stem (w : World) :
  cfg_wf (fst (w_dev w)) ->
  exists w', db_keys "CONFIG_DB" (stem +:+ "*") w = (Val (store_keys stem (fst (w_dev w))), w')
    /\ fst (w_dev w') = fst (w_dev w).
Proof.
  intros Hw. set (m := fst (w_dev w)).
  assert (Forall (fun s => line s = true) (store_keys stem m)) as Hl.
  { apply Forall_forall. intros k (_ & r & Hr)%store_keys_elem. by eapply key_line, Hw. }
  destruct (store_exec_run ("sonic-db-cli CONFIG_DB KEYS '" +:+ (stem +:+ "*") +:+ "'") true 30000 None w
              (join (s1 lf) (store_keys stem m)) m) as (w' & E & Hd).
  { unfold store_exec. cbn [call_cmd].
    replace ("sonic-db-cli CONFIG_DB KEYS '" +:+ (stem +:+ "*") +:+ "'") with (KEYS_CMD +:+ stem +:+ "*'")
      by (rewrite !sapp_assoc; reflexivity).
    by rewrite between_app. }
  exists w'. split; [|done]. unfold db_keys, sh_run_check. rewrite (bind_step _ _ _ _ _ E).
  unfold ret. do 2 f_equal. cbn [result out]. rewrite lines_no_trailing_lf, splitlines_join by done.
  clear -Hl. induction Hl as [|x l Hx Hl IH]; [done|]. cbn [List.filter]. unfold line in Hx.
  apply andb_true_iff in Hx as [-> _]. by rewrite IH.
Qed.

Lemma other_db_run pat (w : World) :
  exists ks w', db_keys "ASIC_DB" pat w = (Val ks, w') /\ fst (w_dev w') = fst (w_dev w).
Proof.
  destruct (store_exec_run ("sonic-db-cli ASIC_DB KEYS '" +:+ pat +:+ "'") true 30000 None w "" (fst (w_dev w)))
    as (w' & E & Hd); [reflexivity|].
  eexists _, w'. split; [|done]. unfold db_keys, sh_run_check. by rewrite (bind_step _ _ _ _ _ E).
Qed.

#[export] Program Instance store_config : ConfigStore := {| cfg := fst |}.
Next Obligation. done. Qed.
Next Obligation.
  intros stem w _ Hw. destruct (store_keys_run stem w Hw) as (w' & E & Hd).
  exists (store_keys stem (fst (w_dev w))), w'. split; [exact E|]. split; [exact Hd|].
  split; [apply store_keys_nodup | intros k; apply store_keys_elem].
Qed.
Next Obligation.
  intros k w Hk Hw.
  eexists. split; [|shelve]. eapply db_hgetall_repr; [|reflexivity|].
  - unfold row_of. destruct (fst (w_dev w) !! k) as [r|] eqn:E; [|constructor]. by apply Hw in E as (_ & ? & _).
  - cbn [dev_exec store_device state_device]. unfold store_exec. cbn [call_cmd].
    change ("sonic-db-cli " +:+ "CONFIG_DB" +:+ " HGETALL '" +:+ k +:+ "'") with (HGETALL_CMD +:+ k +:+ "'").
    change (between KEYS_CMD "*'" (HGETALL_CMD +:+ k +:+ "'")) with (@None string).
    rewrite between_app. reflexivity.
  Unshelve. done.
Qed.
Next Obligation.
  intros k w Hk Hw.
  destruct (store_exec_run ("sonic-db-cli CONFIG_DB DEL '" +:+ k +:+ "'") false 30000 None w "1"
              (delete k (fst (w_dev w)))) as (w' & E & Hd).
  { unfold store_exec. cbn [call_cmd].
    change ("sonic-db-cli CONFIG_DB DEL '" +:+ k +:+ "'") with (DEL_CMD +:+ k +:+ "'").
    change (between KEYS_CMD "*'" (DEL_CMD +:+ k +:+ "'")) with (@None string).
    change (between HGETALL_CMD "'" (DEL_CMD +:+ k +:+ "'")) with (@None string). by rewrite between_app. }
  eauto.
Qed.
Next Obligation. intros pat w _. apply other_db_run. Qed.
End Store.
