(* ===== verification/Hygiene.v ===== *)
(** * Test-isolation hygiene (framework/hygiene.py)

    The operations the three levels of teardown call to bring ports and global
    state back to a clean baseline, and what the sweep of orphan interface
    rows does to CONFIG_DB. *)

From S2P Require Import Prelude PyStr PyStrFacts PyVal Device DeviceFacts Toy CliParse Cli CliFacts Worker Profile Dut Topology Loopback Gcu Qos ConfigStore.

Section Hygiene.
Context `{Device} `{ShellEnv}.

Definition clean_frr_orphan_routemaps : M unit :=
  let* r := sh_run "vtysh -c 'show running-config'" in
  let run := out r in
  let* orphan := (if contains "RM_SET_SRC" run
                  then let* lo := has_keys "CONFIG_DB" "LOOPBACK_INTERFACE|Loopback0*" in ret (negb lo)
                  else ret false) in
  when orphan (sh_run ("vtysh -c 'conf t' -c 'no ip protocol bgp route-map RM_SET_SRC' "
                       +:+ "-c 'no route-map RM_SET_SRC permit 10'") ;;; ret tt) ;;;
  when (contains "route-map PBR1" run)
    (sh_run "vtysh -c 'conf t' -c 'no route-map PBR1 permit 10'" ;;; ret tt).

(** the bridge port of a port object *)
Definition bridge_port_of (oid : string) : M (option string) :=
  let* keys := db_keys "ASIC_DB" "ASIC_STATE:SAI_OBJECT_TYPE_BRIDGE_PORT:*" in
  first_m (fun k => let* p := hget "ASIC_DB" k "SAI_BRIDGE_PORT_ATTR_PORT_ID" in
                    ret (if bool_decide (p = Some oid) then Some k else None)) keys.

(** [_no_l2_membership]: no VLAN member refers to the bridge port *)
Definition no_l2_membership (bp_key : string) : M bool :=
  let bp_oid := List.last (split_on ":"%char bp_key) "" in
  let* members := db_keys "ASIC_DB" "ASIC_STATE:SAI_OBJECT_TYPE_VLAN_MEMBER:*" in
  all_m (fun m => let* b := hget "ASIC_DB" m "SAI_VLAN_MEMBER_ATTR_BRIDGE_PORT_ID" in
                  ret (negb (bool_decide (b = Some bp_oid)))) members.

Definition left_l2 (bp_key : string) : M bool :=
  let* there := has_keys "ASIC_DB" bp_key in
  if negb there then ret true else no_l2_membership bp_key.

Definition wait_port_unbridged (port_name : string) (timeout : Z) : M bool :=
  let* oid := db "COUNTERS_DB" ("HGET COUNTERS_PORT_NAME_MAP " +:+ port_name) in
  if negb (nonempty oid) then ret true
  else
    let* bp := bridge_port_of oid in
    match bp with
    | None => ret true
    | Some bp_key => poll_until timeout 300 (left_l2 bp_key)
    end.

(** [(db_hgetall(...).get("scheduler", "") or "").strip("[]").split("|")[-1]] *)
Definition scheduler_of (k : string) : M string :=
  let* s := hget "CONFIG_DB" k "scheduler" in ret (key_last (strip_chars "[]" (or_empty s))).

Definition sweep_objects (tbl cmd : string) : M unit :=
  let* keys := db_keys "CONFIG_DB" (tbl +:+ "|FVT*") in
  for_each keys (fun k =>
    let name := match cut "|"%char k with Some (_, n) => n | None => k end in
    poll_tries 4 300 (let* there := has_keys "CONFIG_DB" k in
                      if negb there then ret true
                      else config_raw (cmd +:+ " " +:+ name) ;;; ret false) ;;;
    has_keys "CONFIG_DB" k ;;; ret tt).

Definition sweep_test_qos_artifacts : M unit :=
  let* maps := db_keys "CONFIG_DB" "PORT_QOS_MAP|*" in
  for_each maps (fun k =>
    let* sch := scheduler_of k in
    when (starts "FVT" sch)
      (apply_patch (VList [op_remove (path ["PORT_QOS_MAP"; key_last k; "scheduler"])]) ;;; ret tt)) ;;;
  let* queues := db_keys "CONFIG_DB" "QUEUE|*" in
  for_each queues (fun k =>
    let* sch := scheduler_of k in
    match split_on "|"%char k with
    | [_; port; q] => when (starts "FVT" sch) (config_raw ("port-queue del " +:+ port +:+ " " +:+ q) ;;; ret tt)
    | _ => ret tt
    end) ;;;
  for_each [("SCHEDULER", "scheduler del"); ("WRED_PROFILE", "wred-profile del");
            ("BUFFER_PROFILE", "buffer profile del")] (fun tc => sweep_objects (fst tc) (snd tc)).

Definition count_rifs : M Z :=
  let* ks := db_keys "ASIC_DB" "ASIC_STATE:SAI_OBJECT_TYPE_ROUTER_INTERFACE:*" in ret (Z.of_nat (length ks)).

(** rows without an address, and router interfaces *)
Definition count_l3_rows : M (Z * Z) :=
  let* keys := db_keys "CONFIG_DB" "INTERFACE|*" in
  let* orphan := fold_m (fun n key =>
      match split_on "|"%char key with
      | [_; port] => let* addr := has_keys "CONFIG_DB" ("INTERFACE|" +:+ port +:+ "|*") in
                     ret (if addr then n else n + 1)
      | _ => ret n
      end) keys 0 in
  let* rifs := count_rifs in
  ret (orphan, rifs).

(** [want]: no list of ports, or an empty one, means every port *)
Definition wanted (ports : option (list string)) (name : string) : bool :=
  match ports with None | Some [] => true | Some l => bool_decide (name ∈ l) end.

(** one row of the table *)
Definition purge_row (ports : option (list string)) (purged : list string) (key : string) : M (list string) :=
  match split_on "|"%char key with
  | [_; name] =>
      if negb (wanted ports name) then ret purged
      else
        let* addr := has_keys "CONFIG_DB" ("INTERFACE|" +:+ name +:+ "|*") in
        if addr then ret purged
        else
          let* row := db_hgetall "CONFIG_DB" key in
          if truthy (dget "vrf_name" row) then ret purged
          else sh_run ("sonic-db-cli CONFIG_DB DEL 'INTERFACE|" +:+ name +:+ "'") ;;;
               ret (purged ++ [name])
  | _ => ret purged
  end.

Definition purge_orphan_l3_rows (ports : option (list string)) : M (Z * Z) :=
  let* keys := db_keys "CONFIG_DB" "INTERFACE|*" in
  let* purged := fold_m (purge_row ports) keys [] in
  when (0 <? length purged)%nat (sleep 2000) ;;;
  let* rifs := count_rifs in
  ret (Z.of_nat (length purged), rifs).

Section Ports.
Context `{CliEnv} `{WorkerEnv} `{DutEnv} `{LbEnv}.

Definition reset_port_to_l2 (dut : Dut) (p : Port) (default_vlan : string) (wait : bool) : M unit :=
  let name := p_name p in
  let member := "VLAN_MEMBER|Vlan" +:+ default_vlan +:+ "|" +:+ name in
  let* b := lift (bcm_of dut p) in
  let bsh := bcm_shell dut in
  quietly (disable p) ;;;
  bsh_cmd bsh ("pvlan set " +:+ b +:+ " " +:+ default_vlan) ;;;
  bsh_cmd bsh ("port " +:+ b +:+ " discard=none") ;;;
  let* swp := is_switchport_os in
  (if swp then ensure_port_l2 name
   else
     let* addrs := db_keys "CONFIG_DB" ("INTERFACE|" +:+ name +:+ "|*") in
     for_each addrs (fun k => config_raw ("interface ip remove " +:+ name +:+ " " +:+ key_last k) ;;; ret tt) ;;;
     let* bare := has_keys "CONFIG_DB" ("INTERFACE|" +:+ name) in
     when bare
       (config_raw ("interface vrf unbind " +:+ name) ;;;
        poll_tries 8 400 (let* there := has_keys "CONFIG_DB" ("INTERFACE|" +:+ name) in ret (negb there)) ;;;
        let* left := has_keys "CONFIG_DB" ("INTERFACE|" +:+ name) in
        when left (sh_run ("sonic-db-cli CONFIG_DB DEL 'INTERFACE|" +:+ name +:+ "'") ;;; sleep 1000))) ;;;
  let* home := has_keys "CONFIG_DB" member in
  when (negb home)
    (let* flag := vlan_untagged_flag in
     config_raw ("vlan member add " +:+ flag +:+ " " +:+ default_vlan +:+ " " +:+ name) ;;; ret tt) ;;;
  when wait
    (poll_tries 10 400
       (let* bare := has_keys "CONFIG_DB" ("INTERFACE|" +:+ name) in
        let* no_ip := (if bare then ret false
                       else let* addr := has_keys "CONFIG_DB" ("INTERFACE|" +:+ name +:+ "|*") in ret (negb addr)) in
        let* in_vlan := has_keys "CONFIG_DB" member in
        ret (no_ip && in_vlan)) ;;; ret tt).

Definition reset_ports (dut : Dut) (ports : list Port) (default_vlan : string) : M unit :=
  for_each ports (fun p => reset_port_to_l2 dut p default_vlan false) ;;;
  sleep 1000.

(** [sorted({default_vlan, remap_vid(2000), hp_vlan_a, hp_vlan_b})]: an id that
    is no integer cannot be ordered among integers *)
Definition flush_vids (topo : Topology) : outcome (list Z) :=
  match hp_vlan_a topo, hp_vlan_b topo with
  | VInt a, VInt b => Val (sort_by (fun v => v) (remove_dups [t_default_vlan topo; remap_vid 2000; a; b]))
  | _, _ => Exc (TypeError "<")
  end.

(** the narrowing to this worker's resources, when device and topology are given *)
Definition narrow (dut : option Dut) (topo : option Topology) : option (Dut * Topology) :=
  match dut, topo with Some d, Some t => if is_parallel then Some (d, t) else None | _, _ => None end.

Definition flush_worker_vlans (dut : Dut) (topo : Topology) : M unit :=
  let* vids := lift (flush_vids topo) in
  for_each vids (fun v => bsh_cmd (bcm_shell dut) ("l2 clear vlan=" +:+ zs v) ;;; ret tt).

Definition flush_fdb (dut : option Dut) (topo : option Topology) : M unit :=
  match narrow dut topo with
  | Some (d, t) => flush_worker_vlans d t
  | None => sh_run "sonic-clear fdb all" ;;; ret tt
  end.

Definition flush_dynamic (dut : option Dut) (topo : option Topology) : M unit :=
  match narrow dut topo with
  | Some (d, t) =>
      flush_worker_vlans d t ;;;
      let* block := lift (worker_block d) in
      for_each (default [] block) (fun p =>
        sh_run ("ip neigh flush dev " +:+ p_name p) ;;;
        sh_run ("ip -6 neigh flush dev " +:+ p_name p) ;;; ret tt)
  | None =>
      sh_run "sonic-clear fdb all" ;;;
      sh_run "sonic-clear arp" ;;;
      sh_run "ip -6 neigh flush all" ;;; ret tt
  end.

(** static MAC rows through the CLI, then whatever is left as rows *)
Definition clear_static_fdb : M unit :=
  let* rows := db_keys "CONFIG_DB" "FDB|Vlan*|*" in
  for_each rows (fun k =>
    match split_on "|"%char k with
    | [_; vlan; mac] => config_raw ("mac static del " +:+ replace_all "Vlan" "" vlan +:+ " " +:+ mac) ;;; ret tt
    | _ => ret tt
    end) ;;;
  let* left := db_keys "CONFIG_DB" "FDB|Vlan*|*" in
  for_each left (fun k => sh_run ("sonic-db-cli CONFIG_DB DEL '" +:+ k +:+ "'") ;;; ret tt).

Definition suite_reset (dut : Dut) (topo : Topology) : M unit :=
  quietly ensure_default_qos_maps ;;;
  quietly sweep_test_qos_artifacts ;;;
  let* swp := is_switchport_os in
  when swp clear_static_fdb ;;;
  let ports := omap (fun r => match topo_port topo r with Val p => Some p | _ => None end)
                    ["a"; "b"; "c"; "d"; "e"; "f"; "g"; "h"] in
  reset_ports dut ports (zs (t_default_vlan topo)) ;;;
  flush_dynamic (Some dut) (Some topo) ;;;
  let bsh := bcm_shell dut in
  when (negb is_parallel) (bsh_cmd bsh "l2 clear" ;;; ret tt) ;;;
  for_each [hp_vlan_a topo; hp_vlan_b topo] (fun v =>
    let* there := has_keys "CONFIG_DB" ("VLAN|Vlan" +:+ py_str v) in
    when there (config_raw ("vlan del " +:+ py_str v) ;;; ret tt)) ;;;
  for_each [200; 300; 2000; 3990; 3991; 3992; 3993] (fun v =>
    bsh_cmd bsh ("vlan destroy " +:+ zs (remap_vid v)) ;;; ret tt).
End Ports.
End Hygiene.

(** ** The sweep of orphan rows against CONFIG_DB *)

Section Purge.
Context `{ConfigStore}.

(** the keys of the addresses of an interface *)
Definition has_addr (name : string) (m : gmap string (pydict string string)) : bool :=
  bool_decide (Exists (fun kr => starts ("INTERFACE|" +:+ name +:+ "|") kr.1 = true) (map_to_list m)).

(** a row to purge: a wanted interface without an address and without a VRF *)
Definition orphan (ports : option (list string)) (m : gmap string (pydict string string)) (k : string) : bool :=
  match split_on "|"%char k with
  | [t; name] => String.eqb t "INTERFACE" && bool_decide (is_Some (m !! k)) && wanted ports name
                 && negb (has_addr name m) && negb (truthy (dget "vrf_name" (row_of k m)))
  | _ => false
  end.

Lemma has_addr_spec name m :
  has_addr name m = true <-> exists k, is_Some (m !! k) /\ starts ("INTERFACE|" +:+ name +:+ "|") k = true.
Proof.
  unfold has_addr. rewrite bool_decide_eq_true, list.Exists_exists. split.
  - intros ([k r] & Hin%elem_of_map_to_list & Hs). exists k. eauto.
  - intros (k & [r Hr] & Hs). exists (k, r). split; [by apply elem_of_map_to_list | done].
Qed.

Lemma orphan_key ports m k : orphan ports m k = true ->
  exists name, k = "INTERFACE|" +:+ name /\ split_on "|"%char k = ["INTERFACE"; name].
Proof.
  unfold orphan. destruct (split_on "|"%char k) as [|t [|name []]] eqn:E; try done. intros Ho. break_hyps.
  apply String.eqb_eq in H2. subst. exists name. split; [|done].
  by rewrite <-(join_split_on "|"%char k), E.
Qed.

(** the keys of addresses have a third part *)
Lemma addr_not_orphan ports m name k :
  starts ("INTERFACE|" +:+ name +:+ "|") k = true -> orphan ports m k = false.
Proof.
  intros [t ->]%starts_spec. destruct (orphan ports m _) eqn:E; [|done].
  apply orphan_key in E as (n & _ & Hs). rewrite !sapp_assoc in Hs.
  change ("INTERFACE|" +:+ ?x) with ("INTERFACE" +:+ String "|"%char x) in Hs.
  change ("|" +:+ t) with (String "|"%char t) in Hs. rewrite !split_on_app2 in Hs.
  pose proof (split_on_nonnil "|"%char name). pose proof (split_on_nonnil "|"%char t).
  destruct (split_on "|"%char name) as [|? []], (split_on "|"%char t); try done; simplify_eq/=.
Qed.

(** what holds while the sweep runs: rows are as they were, but for orphans *)
Definition swept (ports : option (list string)) (m0 m : gmap string (pydict string string)) : Prop :=
  forall k, m !! k = m0 !! k \/ (m !! k = None /\ orphan ports m0 k = true).

Lemma swept_wf ports m0 m : swept ports m0 m -> cfg_wf m0 -> cfg_wf m.
Proof. intros Hs Hw k r Hk. destruct (Hs k) as [E|[E _]]; [apply Hw; congruence | congruence]. Qed.

Lemma swept_addr ports m0 m name : swept ports m0 m -> has_addr name m = has_addr name m0.
Proof.
  intros Hs. apply eq_true_iff_eq. rewrite !has_addr_spec.
  split; intros (k & Hk & Hp); exists k; (split; [|done]); destruct (Hs k) as [E|[E Ho]];
    try rewrite (addr_not_orphan _ _ _ _ Hp) in Ho; congruence.
Qed.

Lemma key_text_app_inv a b : key_text (a +:+ b) = true -> str_forall key_char a = true /\ str_forall key_char b = true.
Proof. unfold key_text. rewrite str_forall_app. intros ?. break_hyps. done. Qed.

(** the answer of one existence test of addresses *)
Lemma addr_test name w :
  key_text ("INTERFACE|" +:+ name) = true -> cfg_wf (cfg (w_dev w)) ->
  exists w', has_keys "CONFIG_DB" ("INTERFACE|" +:+ name +:+ "|*") w = (Val (has_addr name (cfg (w_dev w))), w')
    /\ cfg (w_dev w') = cfg (w_dev w).
Proof.
  intros Hk Hw. apply key_text_app_inv in Hk as [_ Hn].
  destruct (cfg_keys ("INTERFACE|" +:+ name +:+ "|") w) as (ks & w' & E & Hc & _ & Hks); [|done|].
  { unfold key_text. by rewrite !str_forall_app, Hn. }
  exists w'. split; [|done]. unfold has_keys. rewrite !sapp_assoc in E. change ("|" +:+ "*") with "|*" in E.
  rewrite (bind_step _ _ _ _ _ E). unfold ret. do 2 f_equal.
  destruct ks as [|k ks].
  - symmetry. apply not_true_iff_false. rewrite has_addr_spec. intros (k & Hk & Hs).
    by destruct (proj1 (elem_of_nil k) (proj2 (Hks k) (conj Hs Hk))).
  - symmetry. apply has_addr_spec. exists k. destruct (proj1 (Hks k)); [left|done].
Qed.

(** one row *)
Lemma purge_row_step ports m0 key purged w :
  cfg_wf m0 -> swept ports m0 (cfg (w_dev w)) -> starts "INTERFACE|" key = true ->
  is_Some (m0 !! key) -> cfg (w_dev w) !! key = m0 !! key ->
  exists purged' w', purge_row ports purged key w = (Val purged', w')
    /\ length purged' = (length purged + (if orphan ports m0 key then 1 else 0))%nat
    /\ cfg (w_dev w') = if orphan ports m0 key then delete key (cfg (w_dev w)) else cfg (w_dev w).
Proof.
  intros Hw Hs Hst [row Hrow] Hkey. pose proof (swept_wf _ _ _ Hs Hw) as Hw'.
  destruct (Hw _ _ Hrow) as (Htext & _). apply starts_spec in Hst as [x Hst].
  unfold purge_row, orphan. rewrite (proj2 (bool_decide_eq_true _) (mk_is_Some _ _ Hrow)).
  destruct (split_on "|"%char key) as [|t [|name []]] eqn:E;
    try (exists purged, w; repeat split; [lia]).
  rewrite Hst in E.
  assert (t = "INTERFACE" /\ key = "INTERFACE|" +:+ name) as [-> Hname].
  { change ("INTERFACE|" +:+ x) with ("INTERFACE" +:+ String "|"%char x) in E.
    rewrite split_on_app2 in E. simpl in E. injection E as <- Ex. split; [done|]. subst key. f_equal.
    rewrite <-(join_split_on "|"%char x). by rewrite Ex. }
  rewrite String.eqb_refl. cbn [andb negb]. destruct (wanted ports name); cbn [andb negb];
    [|exists purged, w; repeat split; lia].
  rewrite Hname in Htext. destruct (addr_test name w Htext Hw') as (w1 & E1 & Hc1).
  rewrite (bind_step _ _ _ _ _ E1), (swept_addr _ _ _ _ Hs).
  destruct (has_addr name m0); cbn [andb negb]; [exists purged, w1; split; [done|]; split; [lia|done]|].
  rewrite <- Hname in Htext. destruct (cfg_hgetall key w1 Htext) as (w2 & E2 & Hc2); [by rewrite Hc1|].
  rewrite (bind_step _ _ _ _ _ E2), Hc1.
  assert (row_of key (cfg (w_dev w)) = row_of key m0) as -> by (unfold row_of; f_equal; exact Hkey).
  destruct (truthy (dget "vrf_name" (row_of key m0))); cbn [negb].
  { exists purged, w2. split; [done|]. split; [lia | congruence]. }
  destruct (cfg_del key w2 Htext) as (r & w3 & E3 & Hc3); [by rewrite Hc2, Hc1|].
  rewrite Hname, sapp_assoc in E3. rewrite (bind_step _ _ _ _ _ E3).
  exists (purged ++ [name]), w3. split; [done|]. split; [rewrite length_app; simpl; lia|].
  by rewrite Hc3, Hc2, Hc1.
Qed.

Lemma purge_rows ports m0 ks : forall purged w,
  cfg_wf m0 -> swept ports m0 (cfg (w_dev w)) -> NoDup ks ->
  (forall k, k ∈ ks -> starts "INTERFACE|" k = true /\ is_Some (m0 !! k) /\ cfg (w_dev w) !! k = m0 !! k) ->
  exists purged' w', fold_m (purge_row ports) ks purged w = (Val purged', w')
    /\ length purged' = (length purged + length (List.filter (orphan ports m0) ks))%nat
    /\ swept ports m0 (cfg (w_dev w'))
    /\ forall k, cfg (w_dev w') !! k = if bool_decide (k ∈ ks) && orphan ports m0 k then None else cfg (w_dev w) !! k.
Proof.
  induction ks as [|key ks IH]; intros purged w Hw Hs Hnd Hks.
  { exists purged, w. split; [done|]. split; [simpl; lia|]. split; [done|]. intros k.
    by rewrite bool_decide_false by apply not_elem_of_nil. }
  apply NoDup_cons in Hnd as [Hnin Hnd]. destruct (Hks key) as (Hst & Hrow & Hkey); [left|].
  destruct (purge_row_step ports m0 key purged w) as (p1 & w1 & E1 & Hl1 & Hc1); [done..|].
  destruct (IH p1 w1 Hw) as (p2 & w2 & E2 & Hl2 & Hs2 & Hc2); [|done| |].
  - intros k. rewrite Hc1. destruct (orphan ports m0 key) eqn:Ho; [|apply Hs].
    destruct (decide (k = key)) as [->|Hne]; [right; by rewrite lookup_delete_eq|].
    rewrite lookup_delete_ne by done. apply Hs.
  - intros k Hk. destruct (Hks k) as (? & ? & ?); [by right|]. repeat split; [done..|].
    rewrite Hc1. destruct (orphan ports m0 key); [|done].
    rewrite lookup_delete_ne; [done|]. intros ->. done.
  - exists p2, w2. cbn [fold_m]. rewrite (bind_step _ _ _ _ _ E1). split; [done|]. split; [|split; [done|]].
    + cbn [List.filter]. destruct (orphan ports m0 key); simpl; lia.
    + intros k. rewrite Hc2, Hc1. destruct (decide (k = key)) as [->|Hne].
      * rewrite (bool_decide_true (key ∈ key :: ks)) by left. rewrite bool_decide_false by done. cbn [andb].
        destruct (orphan ports m0 key); [apply lookup_delete_eq | done].
      * replace (bool_decide (k ∈ key :: ks)) with (bool_decide (k ∈ ks))
          by (apply bool_decide_ext; rewrite elem_of_cons; naive_solver).
        destruct (orphan ports m0 key); [|done]. by rewrite lookup_delete_ne.
Qed.

(** C6: the sweep deletes exactly the orphan rows.  Whatever rows CONFIG_DB
    holds, [purge_orphan_l3_rows] leaves every row as it was except the rows of
    the wanted interfaces that have no address and no VRF, which are gone, and
    its count is the number of those.  ([wanted] makes an empty list of ports
    mean every port.) *)
Theorem purge_exact (ports : option (list string)) (w : World) :
  let m := cfg (w_dev w) in
  cfg_wf m ->
  exists n rifs w', purge_orphan_l3_rows ports w = (Val (n, rifs), w')
    /\ (forall k, cfg (w_dev w') !! k = if orphan ports m k then None else m !! k)
    /\ n = Z.of_nat (length (List.filter (orphan ports m) (map fst (map_to_list m)))).
Proof.
  intros m Hw. destruct (cfg_keys "INTERFACE|" w eq_refl Hw) as (ks & w1 & E1 & Hc1 & Hnd & Hks).
  change ("INTERFACE|" +:+ "*") with "INTERFACE|*" in E1. fold m in Hc1, Hks.
  destruct (purge_rows ports m ks [] w1) as (purged & w2 & E2 & Hl & Hs & Hc2); [done| |done| |].
  { intros k. left. by rewrite Hc1. }
  { intros k [??]%Hks. by rewrite Hc1. }
  assert (exists w3, when (0 <? length purged)%nat (sleep 2000) w2 = (Val tt, w3) /\ cfg (w_dev w3) = cfg (w_dev w2)) as (w3 & E3 & Hc3).
  { destruct (0 <? length purged)%nat; cbn [when]; [|by exists w2].
    eexists. split; [reflexivity|]. apply cfg_sleep. }
  destruct (cfg_asic_keys "ASIC_STATE:SAI_OBJECT_TYPE_ROUTER_INTERFACE:*" w3) as (rs & w4 & E4 & Hc4).
  { rewrite Hc3. by eapply swept_wf. }
  exists (Z.of_nat (length purged)), (Z.of_nat (length rs)), w4.
  split; [|split].
  - unfold purge_orphan_l3_rows, count_rifs.
    rewrite (bind_step _ _ _ _ _ E1), (bind_step _ _ _ _ _ E2), (bind_step _ _ _ _ _ E3).
    by rewrite (bind_step _ _ (Z.of_nat (length rs)) w3 w4) by by rewrite (bind_step _ _ _ _ _ E4).
  - intros k. rewrite Hc4, Hc3, Hc2, Hc1. destruct (orphan ports m k) eqn:Ho; [|by rewrite andb_false_r].
    rewrite bool_decide_true; [done|]. apply Hks. pose proof (orphan_key _ _ _ Ho) as (n & -> & Hsp).
    unfold orphan in Ho. rewrite Hsp in Ho. break_hyps.
    split; [apply starts_app|]. by match goal with Hb : bool_decide _ = true |- _ => apply bool_decide_eq_true in Hb end.
  - rewrite Hl. simpl. f_equal. apply Permutation_length. apply NoDup_Permutation.
    + by apply NoDup_ListNoDup, List.NoDup_filter, NoDup_ListNoDup.
    + apply NoDup_ListNoDup, List.NoDup_filter, NoDup_ListNoDup, NoDup_fst_map_to_list.
    + intros k. rewrite !list_elem_of_In, !filter_In, <-!list_elem_of_In.
      rewrite Hks, list_elem_of_fmap. split.
      * intros [[_ [r Hr]] Ho]. split; [|done]. exists (k, r). split; [done|]. by apply elem_of_map_to_list.
      * intros [([k' r] & -> & Hin%elem_of_map_to_list) Ho]. split; [|done]. split; [|eauto].
        apply orphan_key in Ho as (n & E & _). cbn [fst] in E |- *. rewrite E. apply starts_app.
Qed.
End Purge.

(** three interfaces: one with an address, one bare, one bare in a VRF *)
Definition toy_rows : gmap string (pydict string string) :=
  list_to_map [("INTERFACE|Ethernet0", [("mtu", "9100")]); ("INTERFACE|Ethernet0|10.0.0.1/24", [("NULL", "NULL")]);
               ("INTERFACE|Ethernet4", [("mtu", "9100")]); ("INTERFACE|Ethernet8", [("vrf_name", "Vrf1")])].

Lemma purge_exact_witness :
  let w := @world store_device (toy_rows, 0) cli_init in
  exists n rifs w',
    @purge_orphan_l3_rows store_device plain_shell (Some ["Ethernet0"; "Ethernet4"; "Ethernet8"]) w = (Val (n, rifs), w')
    /\ (forall k, @cfg _ _ store_config (w_dev w') !! k =
          if orphan (Some ["Ethernet0"; "Ethernet4"; "Ethernet8"]) toy_rows k then None else toy_rows !! k)
    /\ n = 1.
Proof.
  intros w.
  destruct (@purge_exact store_device plain_shell store_config (Some ["Ethernet0"; "Ethernet4"; "Ethernet8"]) w)
    as (n & rifs & w' & E & Hk & Hn).
  - assert (bool_decide (map_Forall (fun k (r : pydict string string) => key_text k = true /\ NoDup (dkeys r) /\ r <> []) toy_rows) = true)
      as Hb by (vm_compute; reflexivity).
    apply bool_decide_eq_true in Hb. exact Hb.
  - exists n, rifs, w'. split; [exact E|]. split; [exact Hk|]. rewrite Hn. vm_compute. reflexivity.
Defined.
