(* ===== verification/Dlb.v ===== *)
(** * Dynamic load balancing groups (framework/dlb.py)

    Objects are created and removed by pushing operations on syncd's redis
    queue; the checks read chip tables, whose textual dump [parse_entries]
    parses.  A [Dlb] object is a value passed through its operations; the chip
    shell is an argument.  Times are milliseconds. *)

From S2P Require Import Prelude PyStr PyStrFacts PyVal Device DeviceFacts Toy CliParse Cli CliFacts Loopback.

Definition ASIC_Q : string := "ASIC_STATE_KEY_VALUE_OP_QUEUE".
Definition RESP_Q : string := "GETRESPONSE_KEY_VALUE_OP_QUEUE".
Definition VID_NHG : Z := 0x0500000000C000.
Definition VID_MBR : Z := 0x1F00000000C100.

Definition TYPE_ECMP : Z := 1.
Definition TYPE_RESILIENT : Z := 536870912.
Definition TYPE_DLB_ELIGIBLE : Z := 536870913.
Definition TYPE_DLB_FIXED : Z := 536870914.
Definition TYPE_DLB_SPRAY : Z := 536870915.
Definition DLB_TYPES : list (string * Z) :=
  [("eligible", TYPE_DLB_ELIGIBLE); ("fixed", TYPE_DLB_FIXED); ("spray", TYPE_DLB_SPRAY)].

(** ** Parsing the dump of a chip table *)

(** [[0-9a-fA-F]] *)
Definition is_hex (c : ascii) : bool := match hex_val c with Some _ => true | None => false end.
(** [_HEXDEC_RE]: a hexadecimal number with its decimal value in parentheses *)
Definition hexdec (s : string) : option Z :=
  if starts "0x" s then
    match span is_hex (str_drop 2 s) with
    | (String _ _, String "(" r) =>
        let '(sign, r) := match r with String "-" r' => (-1, r') | _ => (1, r) end in
        match span is_digit r with
        | (String _ _ as ds, ")") => option_map (Z.mul sign) (uint_of ds)
        | _ => None
        end
    | _ => None
    end
  else None.

(** [_val]: [int] raises on several minus signs *)
Definition lt_val (raw : string) : outcome pyval :=
  let raw := strip raw in
  match hexdec raw with
  | Some n => Val (VInt n)
  | None =>
      if isdigit (lstrip_chars "-" raw) then
        match py_int raw with Some n => Val (VInt n) | None => Exc (ValueError raw) end
      else if starts "0x" raw then
        match py_int16 raw with Some n => Val (VInt n) | None => Val (VStr raw) end
      else Val (VStr raw)
  end.

(** [_FIELD_RE]: the field's name and the text of its value *)
Definition field_re (tok : string) : option (string * string) :=
  match span is_word tok with
  | (String _ _ as base, String "=" v) => Some (base, v)
  | (String _ _ as base, String "[" r) =>
      match cut "]" r with
      | Some (_, String "=" v) => Some (base, v)
      | _ => None
      end
  | _ => None
  end.

(** the index between brackets; [None] for a plain field *)
Definition field_index (base tok : string) : option string :=
  let raw_name := match cut "=" tok with Some (n, _) => n | None => tok end in
  if String.eqb raw_name base then None
  else let i := strip_chars "[]" (str_drop (slen base) raw_name) in
       if nonempty i then Some i else None.

(** the entries closed so far and the current one *)
Definition Entry : Type := pydict string pyval.

Definition add_list (k : string) (v : pyval) (e : Entry) : Entry :=
  match dget k e with
  | Some (VList l) => dset k (VList (l ++ [v])) e
  | _ => dset k (VList [v]) e
  end.

Definition add_token (st : list Entry * Entry) (tok : string) : outcome (list Entry * Entry) :=
  let '(entries, cur) := st in
  let tok := strip tok in
  match field_re tok with
  | None => Val st
  | Some (base, text) =>
      match lt_val text with
      | Exc e => Exc e
      | Hang => Hang
      | Val v =>
          let idx := field_index base tok in
          let key := match idx with Some i => base +:+ "_" +:+ i | None => base end in
          let '(entries, cur) := if dmem key cur then (entries ++ [cur], []) else (entries, cur) in
          let cur := dset key v cur in
          Val (entries, match idx with Some _ => add_list (base +:+ "[]") v cur | None => cur end)
      end
  end.

Fixpoint fold_outcome {A B} (f : B -> A -> outcome B) (l : list A) (b : B) : outcome B :=
  match l with
  | [] => Val b
  | x :: l' => match f b x with Val b' => fold_outcome f l' b' | Exc e => Exc e | Hang => Hang end
  end.

Definition skip_line (s : string) : bool :=
  negb (nonempty s) || starts "Table " s || contains "traversed" s || starts "lt " s.

Definition add_line (st : list Entry * Entry) (l : string) : outcome (list Entry * Entry) :=
  let s := strip l in
  if skip_line s then Val st else fold_outcome add_token (split_on ","%char s) st.

Definition parse_entries (o : string) : outcome (list Entry) :=
  match fold_outcome add_line (splitlines o) ([], []) with
  | Val (entries, []) => Val entries
  | Val (entries, cur) => Val (entries ++ [cur])
  | Exc e => Exc e
  | Hang => Hang
  end.

(** whether the key of a span [name_lo-hi] covers the index *)
Definition span_covers (name : string) (index : Z) (k : string) : bool :=
  if starts (name +:+ "_") k then
    let sp := str_drop (slen name + 1) k in
    match cut "-" sp with
    | Some (lo, hi) =>
        isdigit lo && isdigit hi
        && match py_int lo, py_int hi with Some a, Some b => (a <=? index) && (index <=? b) | _, _ => false end
    | None => false
    end
  else false.

Definition field_at (entry : option Entry) (name : string) (index : Z) : option pyval :=
  match entry with
  | None => None
  | Some e =>
      match dget (name +:+ "_" +:+ zs index) e with
      | Some v => Some v
      | None =>
          match dget name e with
          | Some v => Some v
          | None => option_map snd (find (fun kv => span_covers name index (fst kv)) e)
          end
      end
  end.

(** ** The object *)

Record Dlb := mkDlb { dl_created : list (string * string); dl_slot : Z }.

(** [Dlb()] with the class counter, which it advances *)
Definition dlb_init (seq : Z) : Dlb * Z := (mkDlb [] ((seq + 1) * 0x100), seq + 1).

Definition group_vid (d : Dlb) (n : Z) : string := "0x" +:+ hexz (VID_NHG + dl_slot d + n).
Definition member_vid (d : Dlb) (n : Z) : string := "0x" +:+ hexz (VID_MBR + dl_slot d + n).

Definition dlb_push_created (vid t : string) (d : Dlb) : Dlb :=
  mkDlb (dl_created d ++ [(vid, t)]) (dl_slot d).
Definition dlb_drop_created (vid : string) (d : Dlb) : Dlb :=
  mkDlb (List.filter (fun vt => negb (String.eqb (fst vt) vid)) (dl_created d)) (dl_slot d).

Definition NHG : string := "SAI_OBJECT_TYPE_NEXT_HOP_GROUP".
Definition NHG_MEMBER : string := "SAI_OBJECT_TYPE_NEXT_HOP_GROUP_MEMBER".

(** [json.dumps] of a list of texts *)
Definition json_list (l : list string) : string := "[" +:+ join ", " (map json_str l) +:+ "]".

Section Dlb.
Context `{Device} `{ShellEnv}.

Definition llen (key : string) : M Z :=
  let* r := sh_run ("redis-cli -n 1 LLEN " +:+ key) in
  ret (match py_int (strip (out r)) with Some n => n | None => -1 end).

(** both queues empty in one look *)
Definition both_empty : M bool :=
  let* a := llen ASIC_Q in
  if a =? 0 then let* b := llen RESP_Q in ret (b =? 0) else ret false.

Definition quiesce (timeout stable : Z) : M bool :=
  let* t0 := now in
  let* r := while_before (poll_fuel timeout 400) (t0 + timeout)
    (fun seen : Z =>
       let* e := both_empty in
       if e && (stable <=? seen + 1) then ret (inr tt)
       else sleep 400 ;;; ret (inl (if e then seen + 1 else 0))) 0 in
  ret (match r with inl _ => false | inr _ => true end).

Definition RPOP3 : string :=
  "redis-cli -n 1 RPOP " +:+ RESP_Q +:+ " >/dev/null; redis-cli -n 1 RPOP " +:+ RESP_Q +:+ " >/dev/null; "
  +:+ "redis-cli -n 1 RPOP " +:+ RESP_Q +:+ " >/dev/null".

Definition reap_response (timeout : Z) : M bool :=
  poll_until timeout 100
    (let* n := llen RESP_Q in
     if 3 <=? n then sh_run RPOP3 ;;; llen RESP_Q ;;; ret true else ret false).

Definition push_cmd (key val op : string) : string :=
  "redis-cli -n 1 LPUSH " +:+ ASIC_Q +:+ " " +:+ shlex_quote key +:+ " " +:+ shlex_quote val +:+ " "
  +:+ shlex_quote op +:+ " >/dev/null && redis-cli -n 1 PUBLISH ASIC_STATE_CHANNEL@1 G >/dev/null".

Definition push (key : string) (fields : list string) (op : string) (settle : Z) : M unit :=
  let* q := quiesce 40000 3 in
  if negb q then
    llen ASIC_Q ;;; llen RESP_Q ;;; raise (RuntimeError "ASIC_DB queues never went quiet")
  else
    sh_run (push_cmd key (match fields with [] => "{}" | _ => json_list fields end) op) ;;;
    reap_response 20000 ;;;
    sleep settle.

(** [None] for an empty answer *)
Definition rid (vid : string) : M (option string) :=
  let* r := sh_run ("redis-cli -n 1 hget VIDTORID " +:+ shlex_quote ("oid:" +:+ vid)) in
  let o := strip (out r) in
  ret (if nonempty o then Some o else None).
Definition has_rid (vid : string) : M bool :=
  let* r := rid vid in ret (match r with Some _ => true | None => false end).
Definition wait_rid (vid : string) (timeout : Z) : M bool := poll_until timeout 500 (has_rid vid).

Definition create_group (d : Dlb) (gtype n settle : Z) : M (option string * Dlb) :=
  let vid := group_vid d n in
  push (NHG +:+ ":oid:" +:+ vid) ["SAI_NEXT_HOP_GROUP_ATTR_TYPE"; zs gtype] "Screate" settle ;;;
  let* ok := wait_rid vid 12000 in
  ret (if ok then (Some vid, dlb_push_created vid NHG d) else (None, d)).

Definition nh_alive (nh_oid : string) : M bool :=
  if negb (starts "oid:" nh_oid) then ret false
  else
    let* there := has_keys "ASIC_DB" ("ASIC_STATE:SAI_OBJECT_TYPE_NEXT_HOP:" +:+ nh_oid) in
    if negb there then ret false
    else has_rid (List.last (split_sep "oid:" nh_oid) "").

Definition add_member (d : Dlb) (gvid nh_oid : string) (n settle : Z) : M (option string * Dlb) :=
  let* alive := nh_alive nh_oid in
  if negb alive then raise (RuntimeError ("refusing to inject next hop " +:+ nh_oid))
  else
    let vid := member_vid d n in
    push (NHG_MEMBER +:+ ":oid:" +:+ vid)
      ["SAI_NEXT_HOP_GROUP_MEMBER_ATTR_NEXT_HOP_GROUP_ID"; "oid:" +:+ gvid;
       "SAI_NEXT_HOP_GROUP_MEMBER_ATTR_NEXT_HOP_ID"; nh_oid] "Screate" settle ;;;
    let* ok := wait_rid vid 12000 in
    ret (if ok then (Some vid, dlb_push_created vid NHG_MEMBER d) else (None, d)).

Definition remove (d : Dlb) (vid sai_type : string) (settle : Z) : M (bool * Dlb) :=
  let* there := has_rid vid in
  if negb there then ret (false, d)
  else
    push (sai_type +:+ ":oid:" +:+ vid) [] "Dremove" settle ;;;
    let* still := has_rid vid in
    ret (negb still, dlb_drop_created vid d).

(** the loop runs over a copy of the list; a failed removal is only logged *)
Definition dlb_cleanup (d : Dlb) : M Dlb :=
  for_each (rev (dl_created d)) (fun vt =>
    quietly (remove d (fst vt) (snd vt) 3000 ;;; ret tt)) ;;;
  ret (mkDlb [] (dl_slot d)).

Definition NH_KEY : string := "SAI_OBJECT_TYPE_NEXT_HOP:".

(** a loop tested at its end: look, then give up at the deadline *)
Fixpoint nh_loop (fuel : nat) (deadline : Z) (ip : string) : M (option string) :=
  match fuel with
  | O => hang
  | S f =>
      let* keys := db_keys "ASIC_DB" "ASIC_STATE:SAI_OBJECT_TYPE_NEXT_HOP:*" in
      let* hit := first_m (fun k =>
          let* a := hget "ASIC_DB" k "SAI_NEXT_HOP_ATTR_IP" in
          ret (if bool_decide (a = Some ip) then Some (List.last (split_sep NH_KEY k) "") else None)) keys in
      match hit with
      | Some oid => ret (Some oid)
      | None => let* t := now in
                if deadline <=? t then ret None else sleep 1000 ;;; nh_loop f deadline ip
      end
  end.
Definition nh_by_ip (ip : string) (timeout : Z) : M (option string) :=
  let* t0 := now in nh_loop (poll_fuel timeout 1000) (t0 + timeout) ip.

(** ** Chip tables *)

Section Chip.
Context (chip_cmd : string -> M string).

Definition lt_failed (o : string) : bool := contains "ERROR" o || contains "Failed to execute" o.

Definition traverse (table : string) : M (list Entry) :=
  let* o := chip_cmd ("lt " +:+ table +:+ " traverse -l") in
  if lt_failed o then ret [] else lift (parse_entries o).

Definition lookup_entry (table : string) (keys : list (string * string)) : M (option Entry) :=
  let* o := chip_cmd ("lt " +:+ table +:+ " lookup "
                      +:+ join " " (map (fun kv => fst kv +:+ "=" +:+ snd kv) keys)) in
  if lt_failed o then ret None
  else let* ents := lift (parse_entries o) in ret (hd_error ents).

Definition counts : M (pydict string Z) :=
  map_m (fun t => let* es := traverse t in ret (t, Z.of_nat (length es)))
    ["ECMP_OVERLAY"; "ECMP_UNDERLAY"; "DLB_ECMP"].
Definition overlay : M (list Entry) := traverse "ECMP_OVERLAY".
Definition underlay : M (list Entry) := traverse "ECMP_UNDERLAY".
Definition dlb_ecmp : M (list Entry) := traverse "DLB_ECMP".

Definition port_override (port_id : string) : M (option pyval) :=
  let* e := lookup_entry "DLB_ECMP_PORT_CONTROL" [("PORT_ID", port_id)] in
  ret (match e with None => None | Some e => dget "OVERRIDE" e end).

Definition watched_queues : M (list pyval) :=
  let* ents := traverse "TM_PFC_AWARE_DLB" in
  ret (match ents with
       | [] => []
       | e :: _ =>
           match dget "PFC_UC_Q[]" e with
           | Some (VList l) => l
           | _ => omap (fun k => if starts "PFC_UC_Q_" k then dget k e else None) (sorted_strs (dkeys e))
           end
       end).

Definition quality_map : M (list (pyval * option pyval * pyval)) :=
  let* ents := traverse "DLB_QUALITY_MAP" in
  ret (omap (fun e => match dget "QUANTIZED_AVG_PORT_LOADING" e, dget "QUALITY" e with
                      | Some l, Some q => Some (l, dget "QUANTIZED_AVG_TM_QUEUE_SIZE" e, q)
                      | _, _ => None
                      end) ents).
End Chip.

(** ** The queues the engine should watch *)

Definition DLB_PFC_NUM_COS : nat := 4.
Definition DLB_PFC_MAX_UC_Q : Z := 8.

(** the priorities of a comma-separated list; [int] of digits *)
Definition parse_prios (raw : string) : gset Z :=
  list_to_set (omap (fun x => if isdigit (strip x) then py_int x else None) (split_on ","%char raw)).

(** [{port: (priorities, map name)}] *)
Definition pfc_config : M (pydict string (gset Z * string)) :=
  let* keys := db_keys "CONFIG_DB" "PORT_QOS_MAP|*" in
  fold_m (fun acc key =>
    let* h := db_hgetall "CONFIG_DB" key in
    let prios := parse_prios (strip (or_empty (dget "pfc_enable" h))) in
    if bool_decide (prios = ∅) then ret acc
    else
      match cut "|"%char key with
      | None => raise IndexError
      | Some (_, port) => ret (dset port (prios, key_last (strip_chars "[]" (or_empty (dget "pfc_to_queue_map" h)))) acc)
      end) keys [].

(** the queue of a priority: the preview, the port's map, the identity *)
Definition queue_of (remap : list ((string * Z) * Z)) (pmap : pydict string string) (port : string) (p : Z)
  : outcome Z :=
  match dget (port, p) remap with
  | Some q => Val q
  | None => match dget (zs p) pmap with
            | Some s => match py_int s with Some q => Val q | None => Exc (ValueError s) end
            | None => Val p
            end
  end.

Definition add_queue (q : Z) (qs : gset Z) : gset Z :=
  if (0 <=? q) && (q <? DLB_PFC_MAX_UC_Q) then {[q]} ∪ qs else qs.

Definition turn_on (cfg : pydict string (gset Z * string)) (pp : string * Z) : pydict string (gset Z * string) :=
  let '(port, prio) := pp in
  let '(prios, mapname) := default (∅, "") (dget port cfg) in
  dset port (prios ∪ {[prio]}, mapname) cfg.

Definition lossless_queues (off on : list (string * Z)) (remap : list ((string * Z) * Z)) : M (gset Z) :=
  let* cfg := pfc_config in
  fold_m (fun qs (pc : string * (gset Z * string)) =>
    let '(port, (prios, mapname)) := pc in
    let* pmap := (if nonempty mapname then db_hgetall "CONFIG_DB" ("PFC_PRIORITY_TO_QUEUE_MAP|" +:+ mapname)
                  else ret []) in
    fold_m (fun qs p =>
      if bool_decide ((port, p) ∈ off) then ret qs
      else let* q := lift (queue_of remap pmap port p) in ret (add_queue q qs)) (elements prios) qs)
    (fold_left turn_on on cfg) ∅.

(** the four queues: lossless ones in ascending order, then the smallest others *)
Definition all_queues : list Z := map Z.of_nat (List.seq 0 (Z.to_nat DLB_PFC_MAX_UC_Q)).
Definition watched_core (lossless : Z -> bool) : list Z :=
  fold_left (fun acc q =>
      if (DLB_PFC_NUM_COS <=? length acc)%nat then acc
      else if lossless q then acc else acc ++ [q]) all_queues
    (take DLB_PFC_NUM_COS (List.filter lossless all_queues)).
Definition watched_of (lossless : gset Z) : option (list Z) :=
  if bool_decide (lossless = ∅) then None
  else
    let cosq := watched_core (fun q => bool_decide (q ∈ lossless)) in
    if (length cosq =? DLB_PFC_NUM_COS)%nat then Some cosq else None.

Definition expected_watched (off on : list (string * Z)) (remap : list ((string * Z) * Z)) : M (option (list Z)) :=
  let* l := lossless_queues off on remap in ret (watched_of l).
End Dlb.

Example parse_ex :
  parse_entries (join (s1 lf) ["Table X: 2 entries"; "    ID=1,Q[0]=3"; "  Q[1]=0x4(4)"; ""; "    ID=2"; " Q[0-7]=5"]) =
  Val [[("ID", VInt 1); ("Q_0", VInt 3); ("Q[]", VList [VInt 3; VInt 4]); ("Q_1", VInt 4)];
       [("ID", VInt 2); ("Q_0-7", VInt 5); ("Q[]", VList [VInt 5])]].
Proof. vm_compute. reflexivity. Qed.
