(* ===== verification/DlbFacts.v ===== *)
(** * Facts about the DLB operations

    Which queues the engine is expected to watch, that object ids do not
    collide, that nothing is injected without its guard, and that the waits
    end. *)

From S2P Require Import Prelude PyStr PyStrFacts PyVal Device DeviceFacts Toy CliParse Cli CliFacts Loopback Dlb.

(** ** The watched queues *)

Lemma pad_loop (f : Z -> bool) l : forall acc, (length acc <= 4)%nat ->
  fold_left (fun acc q =>
      if (DLB_PFC_NUM_COS <=? length acc)%nat then acc
      else if f q then acc else acc ++ [q]) l acc
  = take 4 (acc ++ List.filter (fun q => negb (f q)) l).
Proof.
  induction l as [|q l IH]; intros acc Hl; cbn [fold_left List.filter].
  - rewrite app_nil_r, take_ge; [done | lia].
  - unfold DLB_PFC_NUM_COS at 2. destruct (4 <=? length acc)%nat eqn:E.
    + apply Nat.leb_le in E. rewrite IH by done. by rewrite !take_app_le by lia.
    + apply Nat.leb_gt in E. destruct (f q); cbn [negb]; [by apply IH|].
      rewrite IH by (rewrite length_app; simpl; lia). by rewrite <-app_assoc.
Qed.

Lemma watched_core_spec f :
  watched_core f = take 4 (List.filter f all_queues ++ List.filter (fun q => negb (f q)) all_queues).
Proof.
  unfold watched_core. rewrite pad_loop by (rewrite length_take; unfold DLB_PFC_NUM_COS; lia).
  unfold DLB_PFC_NUM_COS. rewrite !take_app, take_take, length_take, Nat.min_id. do 2 f_equal. lia.
Qed.

Lemma filter_split_length {A} (f : A -> bool) l :
  length (List.filter f l ++ List.filter (fun q => negb (f q)) l) = length l.
Proof.
  rewrite length_app. induction l as [|x l IH]; [done|]. cbn [List.filter].
  destruct (f x); cbn [negb length]; lia.
Qed.

Lemma filter_split_perm {A} (f : A -> bool) l :
  List.filter f l ++ List.filter (fun q => negb (f q)) l ≡ₚ l.
Proof.
  induction l as [|x l IH]; [done|]. cbn [List.filter]. destruct (f x); cbn [negb].
  - simpl. by rewrite IH.
  - by rewrite <-Permutation_middle, IH.
Qed.

(** The queues the engine is expected to watch.  For every non-empty set of
    lossless queues the padding loop gives the first four of: the lossless
    queues in ascending order, then the others in ascending order.  They are
    four different queues of the engine, and all lossless queues are among
    them when there are at most four. *)
Theorem watched_of_spec (lossless : gset Z) :
  lossless <> ∅ ->
  let f q := bool_decide (q ∈ lossless) in
  exists l, watched_of lossless = Some l
    /\ l = take 4 (List.filter f all_queues ++ List.filter (fun q => negb (f q)) all_queues)
    /\ length l = 4%nat /\ NoDup l /\ (forall q, q ∈ l -> 0 <= q < DLB_PFC_MAX_UC_Q)
    /\ ((length (List.filter f all_queues) <= 4)%nat ->
        forall q, q ∈ lossless -> 0 <= q < DLB_PFC_MAX_UC_Q -> q ∈ l).
Proof.
  intros Hne f. set (l := watched_core f). exists l.
  assert (l = take 4 (List.filter f all_queues ++ List.filter (fun q => negb (f q)) all_queues)) as Hl
    by apply watched_core_spec.
  pose proof (filter_split_perm f all_queues) as Hp.
  assert (length l = 4%nat) as Hlen.
  { rewrite Hl, length_take, filter_split_length. reflexivity. }
  assert (forall q, q ∈ all_queues <-> 0 <= q < DLB_PFC_MAX_UC_Q) as Hq.
  { intros q. unfold all_queues, DLB_PFC_MAX_UC_Q. rewrite list_elem_of_fmap. split.
    - intros (n & -> & Hn%elem_of_seq). simpl in Hn. lia.
    - intros ?. exists (Z.to_nat q). split; [lia|]. apply elem_of_seq. simpl. lia. }
  split; [|split; [done|split; [done|split; [|split]]]].
  - unfold watched_of. rewrite bool_decide_false by done. fold f. cbv zeta. fold l. by rewrite Hlen.
  - rewrite Hl. eapply sublist_NoDup; [|apply sublist_take]. rewrite Hp.
    apply (bool_decide_unpack _). vm_compute. exact I.
  - intros q Hin. apply Hq. rewrite <-Hp. rewrite Hl in Hin. apply elem_of_take in Hin as (i & Hi & _). by eapply list_elem_of_lookup_2.
  - intros Hle q Hin Hr. rewrite Hl, take_app, (take_ge (List.filter f all_queues)) by done. apply elem_of_app. left.
    rewrite list_elem_of_In, filter_In, <-list_elem_of_In, Hq. split; [done|]. by apply bool_decide_true.
Qed.

Lemma watched_of_spec_witness :
  watched_of {[3; 4; 9]} = Some [3; 4; 0; 1].
Proof.
  destruct (watched_of_spec {[3; 4; 9]}) as (l & E & Hl & _).
  - intros Hc. assert ((3 : Z) ∈ (∅ : gset Z)) by (rewrite <-Hc; set_solver). set_solver.
  - rewrite E, Hl. vm_compute. reflexivity.
Defined.

(** ** Object ids *)

Lemma hexz_inj a b : 0 <= a -> 0 <= b -> hexz a = hexz b -> a = b.
Proof.
  intros Ha Hb. unfold hexz. rewrite !(proj2 (Z.ltb_ge _ _)) by lia. intros E.
  pose proof (hex_of_hex a Ha). pose proof (hex_of_hex b Hb). congruence.
Qed.

(** Object ids do not collide.  Up to the 2^24-th [Dlb] object of a
    session, ids built for different objects, kinds or indices (below 256) are
    different texts, and bits 48 and up of an id hold its SAI object type. *)
Theorem vids_distinct (s1 s2 n1 n2 : Z) :
  0 <= s1 < 2 ^ 24 -> 0 <= s2 < 2 ^ 24 -> 0 <= n1 < 256 -> 0 <= n2 < 256 ->
  let d s := fst (dlb_init s) in
  (group_vid (d s1) n1 = group_vid (d s2) n2 -> s1 = s2 /\ n1 = n2)
  /\ (member_vid (d s1) n1 = member_vid (d s2) n2 -> s1 = s2 /\ n1 = n2)
  /\ group_vid (d s1) n1 <> member_vid (d s2) n2
  /\ Z.shiftr (VID_NHG + dl_slot (d s1) + n1) 48 = 5
  /\ Z.shiftr (VID_MBR + dl_slot (d s1) + n1) 48 = 31.
Proof.
  intros H1 H2 H3 H4 d. unfold d, dlb_init, group_vid, member_vid. cbn [fst dl_slot].
  unfold VID_NHG, VID_MBR. change (2 ^ 24) with 16777216 in *.
  rewrite !Z.shiftr_div_pow2 by lia. change (2 ^ 48) with 281474976710656.
  split; [intros E%sapp_inv_head%hexz_inj; lia|]. split; [intros E%sapp_inv_head%hexz_inj; lia|].
  split; [intros E%sapp_inv_head%hexz_inj; lia|]. split; symmetry.
  - apply Z.div_unique with (r := 49152 + (s1 + 1) * 256 + n1); lia.
  - apply Z.div_unique with (r := 49408 + (s1 + 1) * 256 + n1); lia.
Qed.

Lemma vids_distinct_witness :
  group_vid (fst (dlb_init 0)) 1 <> member_vid (fst (dlb_init 1)) 2
  /\ group_vid (fst (dlb_init 0)) 1 = "0x500000000c101".
Proof.
  split; [|reflexivity]. destruct (vids_distinct 0 1 1 2) as (_ & _ & Hne & _); try lia. exact Hne.
Defined.

(** ** Injection discipline *)

(** a command that pushes an operation on syncd's queue *)
Definition injects (c : call) : bool := starts ("redis-cli -n 1 LPUSH " +:+ ASIC_Q) (call_cmd c).
(** the run from [w] to [w'] pushed an operation *)
Definition injected `{Device} (w w' : World) : Prop :=
  exists l c, w_trace w' = w_trace w ++ l /\ c ∈ l /\ injects c = true.

Section Guards.
Context `{Device} `{ShellEnv} `{!NativeShell}.

#[local] Notation silent := (steps (emits (fun c => injects c = false))).

Lemma silent_not_injected {A} (m : M A) w : silent m -> ~ injected w (snd (m w)).
Proof.
  intros Hm (l & c & Hl & Hc & Hi). destruct (Hm w) as (l' & Hl' & HF).
  rewrite Hl in Hl'. apply app_inv_head in Hl' as <-.
  eapply Forall_forall in HF; [|done]. congruence.
Qed.

Lemma silent_run cmd cont check t stdin :
  starts ("redis-cli -n 1 LPUSH " +:+ ASIC_Q) cmd = false -> silent (run_full cmd cont check t stdin).
Proof. intros ?. by apply emits_run. Qed.

Lemma silent_llen k : silent (llen k).
Proof. unfold llen. apply steps_bind; [apply _ | by apply silent_run | intros; apply steps_ret, _]. Qed.
Lemma silent_db_keys db p : silent (db_keys db p).
Proof. unfold db_keys. apply steps_bind; [apply _ | by apply silent_run | intros; apply steps_ret, _]. Qed.
Lemma silent_has_rid v : silent (has_rid v).
Proof.
  unfold has_rid, rid. apply steps_bind; [apply _ | | intros; apply steps_ret, _].
  apply steps_bind; [apply _ | by apply silent_run | intros; apply steps_ret, _].
Qed.
#[local] Hint Resolve silent_llen silent_db_keys silent_has_rid : steps.

Lemma silent_both_empty : silent both_empty.
Proof. unfold both_empty. steps_go. Qed.
#[local] Hint Resolve silent_both_empty : steps.
Lemma silent_quiesce t s : silent (quiesce t s).
Proof. unfold quiesce. steps_go. Qed.
Lemma silent_nh_alive o : silent (nh_alive o).
Proof. unfold nh_alive, has_keys. steps_go. Qed.
Lemma silent_reap t : silent (reap_response t).
Proof.
  unfold reap_response. apply steps_poll_until; [apply _ | auto with steps |].
  apply steps_bind; [apply _ | auto with steps | intros n]. case_match; [|apply steps_ret, _].
  apply steps_bind; [apply _ | by apply silent_run | intros ?]. steps_go.
Qed.
Lemma silent_wait_rid v t : silent (wait_rid v t).
Proof. unfold wait_rid. apply steps_poll_until; [apply _ | auto with steps.. ]. Qed.
#[local] Hint Resolve silent_quiesce silent_nh_alive silent_reap silent_wait_rid : steps.

Lemma injected_app w1 w2 w3 :
  emits (fun c => injects c = false) w1 w2 -> injected w1 w3 ->
  (exists l, w_trace w3 = w_trace w2 ++ l) -> injected w2 w3.
Proof.
  intros (l0 & E0 & F0) (l & c & Hl & Hc & Hi) [l2 Hl2].
  rewrite Hl2, E0, <-app_assoc in Hl. apply app_inv_head in Hl as <-.
  apply elem_of_app in Hc as [Hc|Hc]; [eapply Forall_forall in F0; [|done]; congruence|].
  exists l2, c. done.
Qed.

(** an operation after a silent prefix injects only when the prefix returned
    and the rest injects *)
Lemma injected_bind {A B} (m : M A) (k : A -> M B) w :
  silent m -> (forall a, steps (emits (fun _ => True)) (k a)) ->
  injected w (snd (bind m k w)) ->
  exists a w1, m w = (Val a, w1) /\ injected w1 (snd (k a w1)).
Proof.
  intros Hm Hk Hi. pose proof (silent_not_injected m w Hm) as Hn. pose proof (Hm w) as Hs.
  unfold bind in Hi. destruct (m w) as [[a|e|] w1]; cbn [snd] in *; [|done|done].
  exists a, w1. split; [done|]. eapply injected_app; [done..|].
  destruct (Hk a w1) as (l & Hl & _). eauto.
Qed.

#[local] Notation noisy := (steps (emits (fun _ => True))).
Lemma silent_noisy {A} (m : M A) : silent m -> noisy m.
Proof. by apply emits_impl. Qed.

Lemma any_push key f op settle : noisy (push key f op settle).
Proof.
  unfold push. apply steps_bind; [apply _ | apply silent_noisy; auto with steps | intros []; cbn [negb]];
    [|apply silent_noisy; steps_go].
  apply steps_bind; [apply _ | by apply emits_run | intros ?]. apply silent_noisy. steps_go.
Qed.

Lemma while_inr {S A} fuel dl (body : S -> M (S + A)) : forall s w a w',
  while_before fuel dl body s w = (Val (inr a), w') -> exists s' w1, body s' w1 = (Val (inr a), w').
Proof.
  induction fuel as [|f IH]; intros s w a w' E; cbn [while_before] in E; [done|].
  run_inv. case_match; [|by run_inv]. run_inv. case_match; [eauto|]. unfold ret in *. simplify_eq. eauto.
Qed.

Lemma quiesce_true t s w w' : quiesce t s w = (Val true, w') -> exists w1, both_empty w1 = (Val true, w').
Proof.
  unfold quiesce. intros E. run_inv. case_match; simplify_eq.
  match goal with H : while_before _ _ _ _ _ = _ |- _ => apply while_inr in H as (s' & w1 & E1) end.
  run_inv. case_match; unfold ret in *; [|by run_inv]. simplify_eq. break_hyps. subst. eauto.
Qed.

(** a push is preceded by a look at two empty queues *)
Lemma injected_push key f op settle w :
  injected w (snd (push key f op settle w)) ->
  exists w1 w2, both_empty w1 = (Val true, w2) /\ quiesce 40000 3 w = (Val true, w2).
Proof.
  intros Hi. unfold push in Hi. apply injected_bind in Hi as (q & w2 & E & Hi).
  - destruct q; cbn [negb] in Hi; [apply quiesce_true in E as Hq; destruct Hq as [w1 E1]; eauto|].
    exfalso. eapply silent_not_injected; [|exact Hi]. steps_go.
  - auto with steps.
  - intros a. destruct a; cbn [negb]; [|apply silent_noisy; steps_go].
    apply steps_bind; [apply _ | by apply emits_run | intros ?]. apply silent_noisy. steps_go.
Qed.

Lemma injected_before {A B} (m : M A) (k : A -> M B) w :
  noisy m -> (forall a, silent (k a)) -> injected w (snd (bind m k w)) -> injected w (snd (m w)).
Proof.
  intros Hm Hk. unfold bind. destruct (Hm w) as (l1 & E1 & _).
  destruct (m w) as [[a|e|] w1]; cbn [snd] in *; [|done|done].
  intros (l & c & El & Hc & Hi). destruct (Hk a w1) as (l2 & E2 & F2).
  rewrite El, E1, <-app_assoc in E2. apply app_inv_head in E2 as ->.
  apply elem_of_app in Hc as [Hc|Hc]; [exists l1, c; done|].
  eapply Forall_forall in F2; [|done]. congruence.
Qed.

(** both queues were just seen empty when [push] went on from [w] to [w2] *)
Definition quiet_from (w w2 : World) : Prop :=
  quiesce 40000 3 w = (Val true, w2) /\ exists w1, both_empty w1 = (Val true, w2).

Lemma injected_push_then {B} key f op settle (k : unit -> M B) w :
  (forall a, silent (k a)) -> injected w (snd (bind (push key f op settle) k w)) -> exists w2, quiet_from w w2.
Proof.
  intros Hk (w1 & w2 & E1 & E2)%injected_before%injected_push; [exists w2; split; eauto | apply any_push | done].
Qed.

(** C8: nothing is injected unguarded.  An operation that pushes on syncd's
    queue did so after both queues were seen empty; adding a member moreover
    only after its next hop was found alive, and removing an object only after
    the object was found in the id table. *)
Theorem injection_guarded (d : Dlb) (w : World) :
  (forall ty n settle, injected w (snd (create_group d ty n settle w)) -> exists w2, quiet_from w w2)
  /\ (forall g nh n settle, injected w (snd (add_member d g nh n settle w)) ->
      exists w1 w2, nh_alive nh w = (Val true, w1) /\ quiet_from w1 w2)
  /\ (forall vid ty settle, injected w (snd (remove d vid ty settle w)) ->
      exists w1 w2, has_rid vid w = (Val true, w1) /\ quiet_from w1 w2).
Proof.
  assert (forall B key f op settle (k : unit -> M B), (forall a, silent (k a)) ->
    noisy (bind (push key f op settle) k)) as Hn.
  { intros. apply steps_bind; [apply _ | apply any_push | intros; by apply silent_noisy]. }
  split; [|split].
  - intros ty n settle. apply injected_push_then. intros ?. steps_go.
  - intros g nh n settle Hi. apply injected_bind in Hi as ([] & w1 & E & Hi); [| |auto with steps|].
    + cbn [negb] in Hi. apply injected_push_then in Hi as [w2 Hq]; [eauto | intros ?; steps_go].
    + cbn [negb] in Hi. destruct Hi as (l & c & El & Hc & _). cbn in El.
      exfalso. destruct l; [by apply elem_of_nil in Hc|]. apply (f_equal length) in El.
      rewrite length_app in El. simpl in El. lia.
    + intros []; cbn [negb]; [apply Hn; intros ?; steps_go | apply steps_raise, _].
  - intros vid ty settle Hi. apply injected_bind in Hi as ([] & w1 & E & Hi); [| |auto with steps|].
    + cbn [negb] in Hi. apply injected_push_then in Hi as [w2 Hq]; [eauto | intros ?; steps_go].
    + cbn [negb] in Hi. destruct Hi as (l & c & El & Hc & _). cbn in El.
      exfalso. destruct l; [by apply elem_of_nil in Hc|]. apply (f_equal length) in El.
      rewrite length_app in El. simpl in El. lia.
    + intros []; cbn [negb]; [apply Hn; intros ?; steps_go | apply steps_ret, _].
Qed.
End Guards.

(** a switch whose queues are empty and which knows every object *)
Definition idle_device : Device :=
  table_device (fun c => ok_out (if starts "redis-cli -n 1 LLEN" c then "0"
                                 else if starts "redis-cli -n 1 hget" c then "oid:0x1" else "")).

Lemma injection_guarded_witness :
  let d := mkDlb [("0x1", NHG)] 0 in
  let w := @world idle_device 0 cli_init in
  exists w1 w2, @has_rid idle_device plain_shell "0x1" w = (Val true, w1) /\ @quiet_from idle_device plain_shell w1 w2.
Proof.
  intros d w. apply (proj2 (proj2 (@injection_guarded idle_device plain_shell plain_native d w)) "0x1" NHG 3000).
  exists (w_trace (snd (@remove idle_device plain_shell d "0x1" NHG 3000 w))).
  assert (existsb injects (w_trace (snd (@remove idle_device plain_shell d "0x1" NHG 3000 w))) = true) as Hx
    by (vm_compute; reflexivity).
  apply existsb_exists in Hx as (c & Hc & Hi). exists c. split; [reflexivity|]. split; [|exact Hi].
  by apply list_elem_of_In.
Defined.

(** ** Termination and cleanup *)

Section Waits.
Context `{Device} `{ShellEnv} `{!TimeLaws}.

Lemma total_llen k : total (llen k).
Proof. unfold llen. total_go. Qed.
Lemma total_has_rid v : total (has_rid v).
Proof. unfold has_rid, rid. total_go. Qed.
#[local] Hint Resolve total_llen total_has_rid total_db_keys total_hget : total.
Lemma total_both_empty : total both_empty.
Proof. unfold both_empty. total_go. Qed.
#[local] Hint Resolve total_both_empty : total.

Lemma total_quiesce timeout stable : total (quiesce timeout stable).
Proof.
  unfold quiesce. eapply total_ext; [intros w; apply bind_assoc|].
  apply total_bind; [|intros []; apply total_ret].
  apply total_while; [lia | intros s; total_go |].
  intros s w s' E. unfold bind in *. pose proof (proj2 total_both_empty w) as Ht. unfold time_mono in Ht.
  destruct (both_empty w) as [[e|e|] w1]; cbn [fst snd] in *; try done.
  destruct (e && (stable <=? s + 1)); [done|]. cbn.
  pose proof (sleep_advances 400 (w_dev w1) ltac:(lia)). cbn in *. lia.
Qed.
#[local] Hint Resolve total_quiesce : total.

Lemma total_reap t : total (reap_response t).
Proof. unfold reap_response. total_go. Qed.
#[local] Hint Resolve total_reap : total.
Lemma total_push key f op settle : 0 <= settle -> total (push key f op settle).
Proof. intros ?. unfold push. total_go. Qed.
Lemma total_wait_rid v t : total (wait_rid v t).
Proof. unfold wait_rid. total_go. Qed.
Lemma total_nh_alive o : total (nh_alive o).
Proof. unfold nh_alive, has_keys. total_go. Qed.
#[local] Hint Resolve total_push total_wait_rid total_nh_alive : total.

Lemma total_remove d vid t settle : 0 <= settle -> total (remove d vid t settle).
Proof. intros ?. unfold remove. total_go. Qed.

(** one look of [nh_by_ip] *)
Definition nh_look (ip : string) : M (option string) :=
  let* keys := db_keys "ASIC_DB" "ASIC_STATE:SAI_OBJECT_TYPE_NEXT_HOP:*" in
  first_m (fun k =>
      let* a := hget "ASIC_DB" k "SAI_NEXT_HOP_ATTR_IP" in
      ret (if bool_decide (a = Some ip) then Some (List.last (split_sep NH_KEY k) "") else None)) keys.
Lemma total_nh_look ip : total (nh_look ip).
Proof. unfold nh_look. total_go. Qed.

Lemma nh_loop_ends ip : forall fuel dl w, dl - dev_now (w_dev w) <= (Z.of_nat fuel - 1) * 1000 -> (0 < fuel)%nat ->
  fst (nh_loop fuel dl ip w) <> Hang.
Proof.
  induction fuel as [|f IH]; intros dl w Hf Hpos; [lia|].
  assert (nh_loop (S f) dl ip w = bind (nh_look ip) (fun hit => match hit with
      | Some oid => ret (Some oid)
      | None => let* t := now in if dl <=? t then ret None else sleep 1000 ;;; nh_loop f dl ip
      end) w) as -> by (unfold nh_look; by rewrite bind_assoc).
  destruct (total_nh_look ip) as [Hh Ht]. specialize (Hh w). specialize (Ht w). unfold time_mono in Ht.
  unfold bind at 1. destruct (nh_look ip w) as [[[o|]|e|] w1]; cbn [fst snd] in *; try done.
  unfold bind, now. destruct (dl <=? dev_now (w_dev w1)) eqn:E; [done|]. bool_prop. unfold sleep at 1.
  pose proof (sleep_advances 1000 (w_dev w1) ltac:(lia)). destruct f as [|f]; [cbn in *; lia|].
  apply IH; cbn [w_dev]; lia.
Qed.

(** The waits of a DLB object end.  On a clock that advances while
    sleeping, every operation that talks to syncd returns or raises: creating,
    adding, removing, and the search for a next hop, whatever the switch
    answers. *)
Theorem dlb_waits_end (d : Dlb) (w : World) (settle : Z) :
  0 <= settle ->
  (forall ty n, fst (create_group d ty n settle w) <> Hang)
  /\ (forall g nh n, fst (add_member d g nh n settle w) <> Hang)
  /\ (forall vid ty, fst (remove d vid ty settle w) <> Hang)
  /\ (forall ip timeout, 0 <= timeout -> fst (nh_by_ip ip timeout w) <> Hang).
Proof.
  intros Hs. split; [|split; [|split]].
  - intros ty n. assert (total (create_group d ty n settle)) as [Hh _] by (unfold create_group; total_go).
    apply Hh.
  - intros g nh n. assert (total (add_member d g nh n settle)) as [Hh _] by (unfold add_member; total_go).
    apply Hh.
  - intros vid ty. by apply total_remove.
  - intros ip timeout Ht. unfold nh_by_ip, bind, now. apply nh_loop_ends; unfold poll_fuel; [|lia].
    rewrite Nat2Z.inj_add, Z2Nat.id by (apply Z.div_pos; lia).
    pose proof (Z.div_mod timeout 1000 ltac:(lia)). pose proof (Z.mod_pos_bound timeout 1000 ltac:(lia)). lia.
Qed.

(** the operation raises nothing but what [except Exception] catches *)
Definition catchable {A} (m : M A) : Prop :=
  forall w, match fst (m w) with Exc e => caught e = true | _ => True end.

Lemma catchable_ret {A} (a : A) : catchable (ret a).
Proof. intros w. exact I. Qed.
Lemma catchable_bind {A B} (m : M A) (k : A -> M B) :
  catchable m -> (forall a, catchable (k a)) -> catchable (bind m k).
Proof.
  intros Hm Hk w. specialize (Hm w). unfold bind. destruct (m w) as [[a|e|] w1]; [apply Hk | done | done].
Qed.
Lemma catchable_run cmd cont t stdin : catchable (run_full cmd cont false t stdin).
Proof. intros w. by destruct (run_nocheck_val cmd cont t stdin w) as (r & w' & ->). Qed.
Lemma catchable_sleep t : catchable (sleep t).
Proof. intros w. exact I. Qed.
Lemma catchable_while {S A} fuel dl (body : S -> M (S + A)) : (forall s, catchable (body s)) ->
  forall s, catchable (while_before fuel dl body s).
Proof.
  intros Hb. induction fuel as [|f IH]; intros s; cbn [while_before]; [done|].
  apply catchable_bind; [done|]. intros t. case_match; [|apply catchable_ret].
  apply catchable_bind; [apply Hb|]. intros []; [apply IH | apply catchable_ret].
Qed.
Lemma catchable_llen k : catchable (llen k).
Proof. apply catchable_bind; [apply catchable_run | intros; apply catchable_ret]. Qed.
Lemma catchable_has_rid v : catchable (has_rid v).
Proof.
  apply catchable_bind; [|intros; apply catchable_ret].
  apply catchable_bind; [apply catchable_run | intros; apply catchable_ret].
Qed.
Lemma catchable_both_empty : catchable both_empty.
Proof.
  apply catchable_bind; [apply catchable_llen | intros a]. case_match; [|apply catchable_ret].
  apply catchable_bind; [apply catchable_llen | intros; apply catchable_ret].
Qed.
Lemma catchable_push key f op settle : catchable (push key f op settle).
Proof.
  apply catchable_bind.
  - apply catchable_bind; [done | intros t0]. apply catchable_bind; [|intros; apply catchable_ret].
    apply catchable_while. intros s. apply catchable_bind; [apply catchable_both_empty | intros e].
    case_match; [apply catchable_ret|]. apply catchable_bind; [apply catchable_sleep | intros; apply catchable_ret].
  - intros []; cbn [negb].
    + apply catchable_bind; [apply catchable_run | intros _].
      apply catchable_bind; [|intros _; apply catchable_sleep].
      apply catchable_bind; [done | intros t0]. apply catchable_bind; [|intros; apply catchable_ret].
      apply catchable_while. intros s. apply catchable_bind.
      * apply catchable_bind; [apply catchable_llen | intros n]. case_match; [|apply catchable_ret].
        apply catchable_bind; [apply catchable_run | intros _].
        apply catchable_bind; [apply catchable_llen | intros _; apply catchable_ret].
      * intros []; [apply catchable_ret|].
        apply catchable_bind; [apply catchable_sleep | intros; apply catchable_ret].
    + apply catchable_bind; [apply catchable_llen | intros _].
      by apply catchable_bind; [apply catchable_llen | intros _ w].
Qed.
Lemma catchable_remove d vid t settle : catchable (remove d vid t settle).
Proof.
  apply catchable_bind; [apply catchable_has_rid | intros []; cbn [negb]; [|apply catchable_ret]].
  apply catchable_bind; [apply catchable_push | intros _].
  apply catchable_bind; [apply catchable_has_rid | intros; apply catchable_ret].
Qed.

(** the question whether an object still exists *)
Definition probe (vid : string) : call :=
  Call None ("redis-cli -n 1 hget VIDTORID " +:+ shlex_quote ("oid:" +:+ vid)) 30000 None.

Lemma remove_asks `{!LiveShell} d vt w : exists w' l,
  quietly (remove d (fst vt) (snd vt) 3000 ;;; ret tt) w = (Val tt, w')
  /\ w_trace w' = w_trace w ++ probe (fst vt) :: l.
Proof.
  assert (total (remove d (fst vt) (snd vt) 3000)) as [Hh _] by by apply total_remove.
  assert (catchable (remove d (fst vt) (snd vt) 3000)) as Hc by apply catchable_remove.
  specialize (Hh w). specialize (Hc w).
  assert (exists l, w_trace (snd (remove d (fst vt) (snd vt) 3000 w)) = w_trace w ++ probe (fst vt) :: l) as [l Hl].
  { destruct (run_live ("redis-cli -n 1 hget VIDTORID " +:+ shlex_quote ("oid:" +:+ fst vt)) None 30000 None w)
      as (r & d' & E).
    match type of E with _ = (Val _, ?W) => set (w1 := W) in * end.
    assert (exists b, has_rid (fst vt) w = (Val b, w1)) as [b Eb].
    { eexists. unfold has_rid, rid. rewrite bind_assoc, (bind_step _ _ _ _ _ E). reflexivity. }
    unfold remove. rewrite (bind_step _ _ _ _ _ Eb).
    match goal with |- context [if negb b then ?x else ?y] =>
      assert (steps (emits (fun _ => True)) (if negb b then x else y)) as Hn end.
    { destruct b; cbn [negb]; [|apply steps_ret, _].
      apply steps_bind; [apply _ | apply any_push | intros _]. apply silent_noisy.
      apply steps_bind; [apply _ | apply silent_has_rid | intros; apply steps_ret, _]. }
    destruct (Hn w1) as (l & -> & _). exists l. cbn [w_trace w1]. by rewrite <-app_assoc. }
  unfold quietly, try_except, bind.
  destruct (remove d (fst vt) (snd vt) 3000 w) as [[[]|e|] w1]; cbn [fst snd] in *; [|rewrite Hc|done];
    exists w1, l; done.
Qed.

(** [cleanup] always completes.  Whatever the switch answers, it returns, it
    asked for every object it created whether it still exists, the last
    created first, and the object it returns records nothing left to reap. *)
Theorem dlb_cleanup_completes `{!LiveShell} (d : Dlb) (w : World) :
  exists w' l, dlb_cleanup d w = (Val (mkDlb [] (dl_slot d)), w')
    /\ w_trace w' = w_trace w ++ l
    /\ map (fun vt => probe (fst vt)) (rev (dl_created d)) `sublist_of` l.
Proof.
  unfold dlb_cleanup. revert w. induction (rev (dl_created d)) as [|vt vts IH]; intros w.
  { exists w, []. split; [done|]. split; [by rewrite app_nil_r | constructor]. }
  destruct (remove_asks d vt w) as (w1 & l1 & E1 & Ht1). destruct (IH w1) as (w' & l & E & Ht & Hs).
  exists w', (probe (fst vt) :: l1 ++ l). split; [|split].
  - cbn [for_each]. rewrite bind_assoc. by rewrite (bind_step _ _ _ _ _ E1).
  - by rewrite Ht, Ht1, <-app_assoc.
  - cbn [map]. apply sublist_skip. by apply sublist_inserts_l.
Qed.
End Waits.

Lemma dlb_waits_end_witness :
  let d := mkDlb [("0x1", NHG)] 0 in
  fst (@nh_by_ip idle_device plain_shell "10.0.0.1" 20000 (@world idle_device 0 cli_init)) <> Hang.
Proof.
  intros d.
  apply (@dlb_waits_end idle_device plain_shell (table_time _) d (@world idle_device 0 cli_init) 5000); lia.
Defined.

Lemma dlb_cleanup_completes_witness :
  let d := mkDlb [("0x1", NHG); ("0x2", NHG_MEMBER)] 0 in
  let w := @world idle_device 0 cli_init in
  exists w' l, @dlb_cleanup idle_device plain_shell d w = (Val (mkDlb [] 0), w') /\ w_trace w' = w_trace w ++ l
    /\ [probe "0x2"; probe "0x1"] `sublist_of` l.
Proof.
  intros d w. exact (@dlb_cleanup_completes idle_device plain_shell (table_time _) plain_live d w).
Defined.
