(* ===== verification/LtParse.v ===== *)
(** * The dump of a chip table (the parser of framework/dlb.py)

    A dump shows each field of an entry as a name, with or without an index or
    a range of indices, and a value in one of several notations.  Here a field
    is data, [lt_field] its text, and the parser is shown to give back, for
    every layout of the texts on lines, dictionaries that hold exactly the
    fields of the entries. *)

From S2P Require Import Prelude PyStr PyStrFacts PyVal Device DeviceFacts Toy CliParse Cli CliFacts Loopback Dlb.

(** ** Fields and their texts *)

Inductive Index := Whole | At (i : Z) | Span (lo hi : Z).
(** the notations of a value: a decimal number, a hexadecimal one, a
    hexadecimal one with its decimal value, any other text *)
Inductive Shown := Dec (z : Z) | Hex (n : Z) | HexDec (digits : string) (z : Z) | Text (s : string).
Record LtField := mkField { f_name : string; f_index : Index; f_shown : Shown }.

Definition idx_text (x : Index) : string :=
  match x with Whole => "" | At i => zs i | Span lo hi => zs lo +:+ "-" +:+ zs hi end.
Definition indexed (f : LtField) : bool := match f_index f with Whole => false | _ => true end.
Definition shown_text (v : Shown) : string :=
  match v with
  | Dec z => zs z
  | Hex n => "0x" +:+ hex n
  | HexDec ds z => "0x" +:+ ds +:+ "(" +:+ zs z +:+ ")"
  | Text s => s
  end.
Definition lt_label (f : LtField) : string :=
  f_name f +:+ (if indexed f then "[" +:+ idx_text (f_index f) +:+ "]" else "").
Definition lt_field (f : LtField) : string := lt_label f +:+ "=" +:+ shown_text (f_shown f).
(** what the field stands for in the dictionary of its entry *)
Definition lt_key (f : LtField) : string := f_name f +:+ (if indexed f then "_" +:+ idx_text (f_index f) else "").
Definition lt_value (f : LtField) : pyval :=
  match f_shown f with Dec z => VInt z | Hex n => VInt n | HexDec _ z => VInt z | Text s => VStr s end.

(** the characters of a value *)
Definition shown_char (c : ascii) : bool := (33 <=? code c)%nat && (code c <=? 126)%nat && negb (Ascii.eqb c ",").
Definition shown_ok (v : Shown) : bool :=
  match v with
  | Dec _ => true
  | Hex n => 0 <=? n
  | HexDec ds _ => nonempty ds && str_forall is_hex ds
  | Text s => str_forall shown_char s
              && match s with String c _ => negb (is_digit c) && negb (Ascii.eqb c "-") | "" => true end
  end.
Definition field_ok (f : LtField) : bool := nonempty (f_name f) && str_forall is_word (f_name f) && shown_ok (f_shown f).

(** ** One token *)

Lemma zs_class (p : ascii -> bool) z : (forall c, implb (is_digit c || Ascii.eqb c "-") (p c) = true) -> str_forall p (zs z) = true.
Proof.
  intros Hp. assert (forall s, str_forall is_digit s = true -> str_forall p s = true) as Hd.
  { apply class_incl. intros c. specialize (Hp c). by destruct (is_digit c). }
  destruct (Z_lt_le_dec z 0) as [Hz|Hz]; [|by apply Hd, zs_digits].
  destruct z as [| |q]; try lia. rewrite zs_neg. cbn [str_forall]. apply andb_true_iff. split; [exact (Hp "-"%char)|].
  pose proof (str_of_uint0_digits (N.to_uint (Npos q))) as Hu. unfold isdigit in Hu.
  apply andb_true_iff in Hu as [_ Hu]. by apply Hd.
Qed.
Lemma idx_class (p : ascii -> bool) x : (forall c, implb (is_digit c || Ascii.eqb c "-") (p c) = true) -> str_forall p (idx_text x) = true.
Proof.
  intros Hp. destruct x as [|i|lo hi]; cbn [idx_text]; [done | by apply zs_class|].
  rewrite !str_forall_app, !zs_class by done. pose proof (Hp "-"%char) as Hm. change (p "-"%char = true) in Hm.
  cbn [str_forall andb]. by rewrite Hm.
Qed.
Lemma idx_nonempty x : x <> Whole -> nonempty (idx_text x) = true.
Proof.
  assert (forall z, nonempty (zs z) = true) as Hz by (intros z; pose proof (zs_token z) as Ht; by apply andb_true_iff in Ht as [? _]).
  destruct x as [|i|lo hi]; intros Hx; cbn [idx_text]; [done | apply Hz|]. specialize (Hz lo). by destruct (zs lo).
Qed.

Lemma shown_chars v : shown_ok v = true -> str_forall shown_char (shown_text v) = true.
Proof.
  destruct v as [z|n|ds z|s]; cbn [shown_ok shown_text]; intros Hv.
  - apply zs_class. by apply ascii_all.
  - change ("0x" +:+ ?x) with (String "0" (String "x" x)). cbn [str_forall]. change (shown_char "0") with true. change (shown_char "x") with true.
    cbn [andb]. generalize (hex_digits n). apply class_incl. by apply ascii_all.
  - apply andb_true_iff in Hv as [_ Hv]. rewrite !str_forall_app. rewrite (zs_class shown_char) by by apply ascii_all.
    assert (str_forall shown_char ds = true) as -> by (revert Hv; apply class_incl; by apply ascii_all). reflexivity.
  - by apply andb_true_iff in Hv as [? _].
Qed.
Lemma field_chars f : field_ok f = true -> str_forall shown_char (lt_field f) = true.
Proof.
  unfold field_ok, lt_field, lt_label. intros [[_ Hn]%andb_true_iff Hv]%andb_true_iff.
  rewrite !str_forall_app, shown_chars by done. assert (str_forall shown_char (f_name f) = true) as -> by (revert Hn; apply class_incl; by apply ascii_all).
  destruct (indexed f); cbn [andb]; [|done]. rewrite !str_forall_app, idx_class by by apply ascii_all. reflexivity.
Qed.
Lemma chars_nospace s : str_forall shown_char s = true -> str_forall is_nospace s = true.
Proof. apply class_incl. by apply ascii_all. Qed.

(** a value is read back from its notation *)
Lemma hexdec_none s : match s with String c _ => negb (Ascii.eqb c "0") | "" => true end = true -> hexdec s = None.
Proof. unfold hexdec. destruct s as [|c s]; [done|]. cbn [starts]. intros Hc%negb_true_iff. rewrite Ascii.eqb_sym in Hc. by rewrite Hc. Qed.
Lemma lt_val_dec z : lt_val (zs z) = Val (VInt z).
Proof.
  unfold lt_val. rewrite (strip_id _ (zs_nospace z)).
  assert (starts "0x" (zs z) = false) as Hx.
  { destruct (starts "0x" (zs z)) eqn:E; [|done]. apply starts_spec in E as [t E].
    pose proof (zs_no_char "x" z eq_refl ltac:(done)) as Hn. by rewrite E in Hn. }
  unfold hexdec. rewrite Hx, zs_unsigned. by rewrite py_int_zs.
Qed.
Lemma lt_val_hex n : 0 <= n -> lt_val ("0x" +:+ hex n) = Val (VInt n).
Proof.
  intros Hn. pose proof (hex_digits n) as Hd. unfold lt_val.
  assert (str_forall is_nospace ("0x" +:+ hex n) = true) as Hs by (apply (hexdig_nospace (hex n)) in Hd; exact Hd).
  rewrite (strip_id _ Hs). change ("0x" +:+ hex n) with (String "0" (String "x" (hex n))) in *.
  assert (hexdec (String "0" (String "x" (hex n))) = None) as ->.
  { unfold hexdec. cbn [starts str_drop]. rewrite span_all; [by destruct (hex n)|]. revert Hd. apply class_incl. by apply ascii_all. }
  change (isdigit (lstrip_chars "-" (String "0" (String "x" (hex n))))) with false.
  change (starts "0x" (String "0" (String "x" (hex n)))) with (starts "" (hex n)).
  assert (starts "" (hex n) = true) as -> by by destruct (hex n).
  unfold py_int16. rewrite (strip_id _ Hs). change (Ascii.eqb "0" "-") with false. change (Ascii.eqb "0" "+") with false. cbn iota.
  assert (starts "0x" (String "0" (String "x" (hex n))) = true) as -> by by destruct (hex n).
  cbn [orb str_drop]. rewrite underscores_ok_none, replace_char_none, hex_of_hex by (done || by apply hexdig_no). done.
Qed.
Lemma zs_minus q : zs (Z.neg q) = String "-" (zs (Z.pos q)).
Proof. by rewrite zs_neg, (zs_nonneg (Z.pos q)) by done. Qed.
Lemma lt_val_hexdec ds z : nonempty ds = true -> str_forall is_hex ds = true -> lt_val ("0x" +:+ ds +:+ "(" +:+ zs z +:+ ")") = Val (VInt z).
Proof.
  intros Hne Hd. unfold lt_val. rewrite strip_id.
  2:{ rewrite !str_forall_app, zs_nospace. assert (str_forall is_nospace ds = true) as -> by (revert Hd; apply class_incl; by apply ascii_all). done. }
  assert (hexdec ("0x" +:+ ds +:+ "(" +:+ zs z +:+ ")") = Some z) as ->; [|done].
  unfold hexdec. change ("0x" +:+ ?x) with (String "0" (String "x" x)). cbn [starts str_drop].
  change (starts "" ?x) with true. cbn iota. change ("(" +:+ ?x) with (String "(" x). rewrite span_stop by done.
  destruct ds as [|d ds]; [done|].
  assert (forall s r, isdigit s = true -> span is_digit (s +:+ String ")" r) = (s, String ")" r)) as Hs.
  { intros s r [_ H]%andb_true_iff. by rewrite span_stop. }
  change (?x +:+ ")") with (x +:+ String ")" "").
  destruct (Z_lt_le_dec z 0) as [Hz|Hz].
  - destruct z as [| |q]; try lia. rewrite zs_minus. pose proof (zs_isdigit (Z.pos q) ltac:(lia)) as Hu.
    change (String "-" ?x +:+ ?y) with (String "-" (x +:+ y)). cbn iota. rewrite (Hs _ _ Hu).
    pose proof (py_int_zs (Z.pos q)) as Hp. rewrite py_int_digits in Hp by done. destruct (zs (Z.pos q)); [done|]. by rewrite Hp.
  - pose proof (zs_isdigit z Hz) as Hu. pose proof (py_int_zs z) as Hp. rewrite py_int_digits in Hp by done.
    pose proof Hu as [Hn Hdz]%andb_true_iff. destruct (zs z) as [|c s] eqn:Ez; [done|].
    change (String c s +:+ ?y) with (String c (s +:+ y)). cbn [str_forall] in Hdz. apply andb_true_iff in Hdz as [Hc _].
    assert (c <> "-"%char) as Hcm by by intros ->.
    assert ((match String c (s +:+ String ")" "") with String "-" r' => (-1, r') | _ => (1, String c (s +:+ String ")" "")) end)
      = (1, String c s +:+ String ")" "")) as -> by (destruct c as [[] [] [] [] [] [] [] []]; done).
    rewrite (Hs _ _ Hu), Hp. cbn [option_map]. f_equal. lia.
Qed.
Lemma lt_val_text s : shown_ok (Text s) = true -> lt_val s = Val (VStr s).
Proof.
  cbn [shown_ok]. intros [Hc Hh]%andb_true_iff. unfold lt_val. rewrite strip_id by by apply chars_nospace.
  destruct s as [|c s]; [done|]. apply andb_true_iff in Hh as [Hd%negb_true_iff Hm%negb_true_iff].
  assert (Ascii.eqb c "0" = false) as H0 by (destruct (Ascii.eqb_spec c "0") as [->|]; done).
  rewrite hexdec_none by by rewrite H0.
  assert (lstrip_chars "-" (String c s) = String c s) as ->.
  { unfold lstrip_chars. apply lstrip_by_id. unfold char_in. cbn. by rewrite Hm. }
  unfold isdigit. cbn [nonempty str_forall]. rewrite Hd. cbn [andb]. cbn [starts]. rewrite Ascii.eqb_sym, H0. done.
Qed.
Lemma lt_val_shown f : field_ok f = true -> lt_val (shown_text (f_shown f)) = Val (lt_value f).
Proof.
  unfold field_ok, lt_value. intros [_ Hv]%andb_true_iff. destruct (f_shown f) as [z|n|ds z|s]; cbn [shown_text].
  - apply lt_val_dec.
  - apply lt_val_hex. cbn in Hv. by bool_prop.
  - apply andb_true_iff in Hv as [? ?]. by apply lt_val_hexdec.
  - by apply lt_val_text.
Qed.

(** the token's parts: name, index and text *)
Lemma field_re_field f : field_ok f = true -> field_re (lt_field f) = Some (f_name f, shown_text (f_shown f)).
Proof.
  unfold field_ok, lt_field, lt_label. intros [[Hne Hn]%andb_true_iff _]%andb_true_iff. unfold field_re.
  destruct (indexed f) eqn:Ei.
  - replace ((f_name f +:+ "[" +:+ idx_text (f_index f) +:+ "]") +:+ "=" +:+ shown_text (f_shown f))
      with (f_name f +:+ String "[" (idx_text (f_index f) +:+ String "]" (String "=" (shown_text (f_shown f)))))
      by (by rewrite !sapp_assoc).
    rewrite span_stop by done. destruct (f_name f) as [|c s]; [done|].
    rewrite cut_app; [done|]. apply idx_class. by apply ascii_all.
  - rewrite sapp_nil_r. change ("=" +:+ ?x) with (String "=" x). rewrite span_stop by done. by destruct (f_name f).
Qed.
Lemma strip_brackets t : nonempty t = true -> str_forall (fun c => negb (char_in c "[]")) t = true ->
  strip_chars "[]" ("[" +:+ t +:+ "]") = t.
Proof.
  intros Hne Ht. unfold strip_chars, strip_by. destruct t as [|c t]; [done|].
  change ("[" +:+ String c t +:+ "]") with (String "[" (String c (t +:+ "]"))).
  assert (char_in c "[]" = false) as Hc by (cbn [str_forall] in Ht; by apply andb_true_iff in Ht as [?%negb_true_iff _]).
  change (lstrip_by (fun c => char_in c "[]") (String "[" ?x)) with (lstrip_by (fun c => char_in c "[]") x).
  rewrite lstrip_by_id by done. change (String c (t +:+ "]")) with (String c t +:+ s1 "]"). rewrite rstrip_by_snoc.
  change (char_in "]" "[]") with true. by apply rstrip_by_id.
Qed.
Lemma field_index_field f : field_ok f = true ->
  field_index (f_name f) (lt_field f) = if indexed f then Some (idx_text (f_index f)) else None.
Proof.
  unfold field_ok. intros [[_ Hn]%andb_true_iff _]%andb_true_iff. unfold field_index, lt_field.
  change ("=" +:+ ?x) with (String "=" x). rewrite cut_app.
  2:{ unfold lt_label. rewrite str_forall_app. assert (str_forall (not_char "=") (f_name f) = true) as -> by (revert Hn; apply class_incl; by apply ascii_all).
      destruct (indexed f); [|done]. rewrite !str_forall_app, idx_class by by apply ascii_all. done. }
  unfold lt_label. destruct (indexed f) eqn:Ei.
  - destruct (String.eqb_spec (f_name f +:+ "[" +:+ idx_text (f_index f) +:+ "]") (f_name f)) as [E|_].
    { apply (f_equal slen) in E. rewrite !slen_app in E. cbn in E. lia. }
    rewrite str_drop_app, strip_brackets.
    + by rewrite idx_nonempty by (unfold indexed in Ei; by destruct (f_index f)).
    + apply idx_nonempty. unfold indexed in Ei. by destruct (f_index f).
    + apply idx_class. by apply ascii_all.
  - by rewrite sapp_nil_r, String.eqb_refl.
Qed.

(** what a field does to the parser's state *)
Definition put_field (f : LtField) (cur : Entry) : Entry :=
  let cur := dset (lt_key f) (lt_value f) cur in
  if indexed f then add_list (f_name f +:+ "[]") (lt_value f) cur else cur.
Definition step_field (st : list Entry * Entry) (f : LtField) : list Entry * Entry :=
  if dmem (lt_key f) (snd st) then (fst st ++ [snd st], put_field f []) else (fst st, put_field f (snd st)).
Lemma add_token_field st f : field_ok f = true -> add_token st (lt_field f) = Val (step_field st f).
Proof.
  intros Hf. destruct st as [es cur]. unfold add_token, step_field, put_field. cbn [fst snd].
  rewrite (strip_id _ (chars_nospace _ (field_chars f Hf))), field_re_field, lt_val_shown, field_index_field by done. cbv zeta.
  unfold lt_key. destruct (indexed f); rewrite ?sapp_nil_r; by match goal with |- context [dmem ?k cur] => destruct (dmem k cur) end.
Qed.

(** ** The entries *)

(** a dictionary that holds the fields of an entry and nothing else: each
    under its own key, and under [name[]] the values of the indexed fields of
    the name, in order *)
Definition values_of (nm : string) (e : list LtField) : list pyval :=
  map lt_value (List.filter (fun f => indexed f && String.eqb (f_name f) nm) e).
Record holds (r : Entry) (e : list LtField) : Prop := {
  holds_fields : forall f, f ∈ e -> dget (lt_key f) r = Some (lt_value f);
  holds_lists : forall nm, dget (nm +:+ "[]") r = match values_of nm e with [] => None | vs => Some (VList vs) end;
  holds_only : forall k, (forall f, f ∈ e -> k <> lt_key f) -> (forall nm, k <> nm +:+ "[]") -> dget k r = None
}.

Lemma key_plain f nm : field_ok f = true -> lt_key f <> nm +:+ "[]".
Proof.
  unfold field_ok, lt_key. intros [[_ Hn]%andb_true_iff _]%andb_true_iff E.
  assert (str_forall (not_char "[") (nm +:+ "[]") = true) as Hb; [|by rewrite str_forall_app, andb_false_r in Hb].
  rewrite <-E, str_forall_app. assert (str_forall (not_char "[") (f_name f) = true) as -> by (revert Hn; apply class_incl; by apply ascii_all).
  destruct (indexed f); [|done]. rewrite str_forall_app, idx_class by by apply ascii_all. done.
Qed.
Lemma sapp_inj_tail a : forall b c, a +:+ c = b +:+ c -> a = b.
Proof.
  induction a as [|x a IH]; intros [|y b] c E; [done| | |].
  - apply (f_equal slen) in E. change ("" +:+ c) with c in E. change (String y b +:+ c) with (String y (b +:+ c)) in E. cbn [slen] in E. rewrite slen_app in E. lia.
  - apply (f_equal slen) in E. change ("" +:+ c) with c in E. change (String x a +:+ c) with (String x (a +:+ c)) in E. cbn [slen] in E. rewrite slen_app in E. lia.
  - change (String x a +:+ c) with (String x (a +:+ c)) in E. change (String y b +:+ c) with (String y (b +:+ c)) in E. injection E as -> E. f_equal. by eapply IH.
Qed.
Lemma values_snoc nm e f : values_of nm (e ++ [f]) = values_of nm e ++ (if indexed f && String.eqb (f_name f) nm then [lt_value f] else []).
Proof. unfold values_of. rewrite List.filter_app, map_app. cbn [List.filter]. by case_match. Qed.
Lemma add_list_get k k' v (e : Entry) : dget k' (add_list k v e) =
  if decide (k' = k) then Some (VList (match dget k e with Some (VList l) => l ++ [v] | _ => [v] end)) else dget k' e.
Proof.
  unfold add_list. case_decide as Hk; [subst k'|]; repeat case_match; rewrite ?dget_dset_eq, ?dget_dset_ne by done; done.
Qed.
Lemma put_holds f cur e : field_ok f = true -> Forall (fun g => field_ok g = true) e -> holds cur e -> lt_key f ∉ map lt_key e ->
  holds (put_field f cur) (e ++ [f]).
Proof.
  intros Hf He [Hfs Hls Hon] Hk. rewrite Forall_forall in He. unfold put_field.
  set (c1 := dset (lt_key f) (lt_value f) cur).
  assert (forall nm, dget (nm +:+ "[]") c1 = dget (nm +:+ "[]") cur) as Hl.
  { intros nm. unfold c1. apply dget_dset_ne. intros E. by apply (key_plain f nm Hf). }
  assert (forall k, k <> f_name f +:+ "[]" -> dget k (if indexed f then add_list (f_name f +:+ "[]") (lt_value f) c1 else c1) = dget k c1) as Hne.
  { intros k Hkn. destruct (indexed f); [|done]. rewrite add_list_get. by rewrite decide_False. }
  split.
  - intros g Hg. apply elem_of_app in Hg as [Hg| ->%list_elem_of_singleton].
    + rewrite Hne by by apply key_plain, He. unfold c1. rewrite dget_dset_ne; [by apply Hfs|].
      intros E. apply Hk. rewrite <-E. by apply list_elem_of_fmap_2.
    + rewrite Hne by by apply key_plain. unfold c1. by rewrite dget_dset_eq.
  - intros nm. rewrite values_snoc. destruct (indexed f) eqn:Ei; cbn [andb]; [|by rewrite app_nil_r, Hl].
    rewrite add_list_get. destruct (String.eqb_spec (f_name f) nm) as [->|Hnm].
    + rewrite decide_True, Hl, Hls by done. by destruct (values_of nm e).
    + rewrite decide_False by (intros E%sapp_inj_tail; congruence). by rewrite app_nil_r, Hl.
  - intros k Hkf Hkl. rewrite Hne by done. unfold c1. rewrite dget_dset_ne.
    + apply Hon; [|done]. intros g Hg. apply Hkf. apply elem_of_app. by left.
    + apply Hkf. apply elem_of_app. right. by left.
Qed.
Lemma holds_nil : holds [] [].
Proof. split; [by intros f ?%elem_of_nil | done | done]. Qed.
Lemma holds_mem f cur e : field_ok f = true -> holds cur e -> lt_key f ∉ map lt_key e -> dmem (lt_key f) cur = false.
Proof.
  intros Hf [_ _ Hon] Hk. unfold dmem. rewrite Hon; [done | | intros; by apply key_plain].
  intros g Hg E. apply Hk. rewrite E. by apply list_elem_of_fmap_2.
Qed.

(** the fields of one entry *)
Lemma add_new fs : forall cl cur e, Forall (fun g => field_ok g = true) (e ++ fs) -> NoDup (map lt_key (e ++ fs)) -> holds cur e ->
  exists cur', fold_left step_field fs (cl, cur) = (cl, cur') /\ holds cur' (e ++ fs).
Proof.
  induction fs as [|f fs IH]; intros cl cur e Hok Hnd Hc; [exists cur; by rewrite app_nil_r|].
  pose proof Hok as [He [Hf _]%Forall_cons]%Forall_app.
  assert (lt_key f ∉ map lt_key e) as Hk.
  { rewrite map_app in Hnd. apply NoDup_app in Hnd as (_ & Hd & _). intros Hin. apply (Hd _ Hin). left. }
  cbn [fold_left]. unfold step_field at 2. cbn [fst snd]. rewrite (holds_mem f cur e) by done.
  replace (e ++ f :: fs) with ((e ++ [f]) ++ fs) in * by by rewrite <-app_assoc. apply IH; [done..|]. by apply put_holds.
Qed.

(** an entry: fields with distinct keys, the first of which is [k0] *)
Definition entry_of (k0 : string) (e : list LtField) : Prop :=
  (exists f fs, e = f :: fs /\ lt_key f = k0) /\ NoDup (map lt_key e) /\ Forall (fun f => field_ok f = true) e.
Lemma add_entries k0 es : Forall (entry_of k0) es -> forall cl cur e, entry_of k0 e -> holds cur e ->
  exists rs cur', fold_left step_field (concat es) (cl, cur) = (cl ++ rs, cur') /\ Forall2 holds (rs ++ [cur']) (e :: es).
Proof.
  induction 1 as [|e' es He' Hes IH]; intros cl cur e He Hc.
  - exists [], cur. rewrite app_nil_r. split; [done|]. cbn [app]. by apply Forall2_cons.
  - cbn [concat]. rewrite fold_left_app. pose proof He' as ((f & fs & -> & Hk) & Hnd & Hok).
    assert (dmem (lt_key f) cur = true) as Hm.
    { destruct He as ((g & gs & -> & Hg) & _). unfold dmem. rewrite Hk, <-Hg, (holds_fields _ _ Hc g); [done | by left]. }
    cbn [fold_left]. unfold step_field at 3. cbn [fst snd]. rewrite Hm.
    destruct (add_new fs (cl ++ [cur]) (put_field f []) [f]) as (c1 & E1 & H1); [done | done | |].
    { apply (put_holds f [] []); [by apply Forall_cons in Hok as [? _] | done | apply holds_nil | by intros ?%elem_of_nil]. }
    rewrite E1. destruct (IH (cl ++ [cur]) c1 (f :: fs) He' H1) as (rs & cur' & E & Hrs). exists (cur :: rs), cur'.
    rewrite E, <-app_assoc. split; [done|]. cbn. by constructor.
Qed.

(** ** The layouts *)

(** the line of a group of fields *)
Definition fields_line (g : list LtField) : string := "    " +:+ join "," (map lt_field g).
(** lines of one or more comma-separated fields, and lines that carry none *)
Inductive rendered : list string -> list LtField -> Prop :=
| rendered_nil : rendered [] []
| rendered_skip l ls fs :
    line l = true -> skip_line (strip l) = true -> rendered ls fs -> rendered (l :: ls) fs
| rendered_fields g ls fs :
    g <> [] -> contains "traversed" (join "," (map lt_field g)) = false ->
    rendered ls fs -> rendered (fields_line g :: ls) (g ++ fs).

Lemma join_forall p sep l : str_forall p sep = true -> Forall (fun s => str_forall p s = true) l ->
  str_forall p (join sep l) = true.
Proof.
  intros Hs. induction 1 as [|x l Hx Hl IH]; [done|]. destruct l as [|y l]; [done|].
  rewrite join_cons by done. by rewrite !str_forall_app, Hx, Hs, IH.
Qed.
Lemma fields_forall (p : ascii -> bool) g :
  (forall c, implb (shown_char c) (p c) = true) -> Forall (fun f => field_ok f = true) g ->
  Forall (fun s => str_forall p s = true) (map lt_field g).
Proof.
  intros Hp Hg. apply Forall_map. eapply Forall_impl; [exact Hg|]. intros f Hf. cbn.
  generalize (field_chars f Hf). by apply class_incl.
Qed.
Lemma add_tokens fs st : Forall (fun f => field_ok f = true) fs ->
  fold_outcome add_token (map lt_field fs) st = Val (fold_left step_field fs st).
Proof.
  intros Hf. revert st. induction Hf as [|f fs Hf _ IH]; intros st; [done|].
  cbn [map fold_outcome fold_left]. rewrite add_token_field by done. apply IH.
Qed.
Lemma add_fields_line g st : g <> [] -> Forall (fun f => field_ok f = true) g ->
  contains "traversed" (join "," (map lt_field g)) = false ->
  add_line st (fields_line g) = Val (fold_left step_field g st).
Proof.
  intros Hne Hg Ht. set (s := join "," (map lt_field g)) in *.
  assert (str_forall is_nospace s = true) as Hs.
  { apply join_forall; [done|]. apply fields_forall; [by apply ascii_all | done]. }
  unfold add_line, fields_line. fold s. change (strip ("    " +:+ s)) with (strip s). rewrite (strip_id _ Hs).
  assert (forall t, starts t s = true -> str_forall is_nospace t = true) as Hst.
  { intros t [u Hu]%starts_spec. rewrite Hu, str_forall_app in Hs. by apply andb_true_iff in Hs as [? _]. }
  assert (skip_line s = false) as ->.
  { unfold skip_line. rewrite Ht. assert (nonempty s = true) as ->.
    { unfold s. destruct g as [|f g]; [done|]. apply Forall_inv in Hg. unfold field_ok in Hg.
      assert (exists c t, lt_field f = String c t) as (c & t & Ef).
      { unfold lt_field, lt_label. destruct (f_name f) as [|c t]; [done|]. by eexists c, _. }
      cbn [map]. rewrite Ef. by destruct g. }
    destruct (starts "Table " s) eqn:E1; [by apply Hst in E1|].
    destruct (starts "lt " s) eqn:E2; [by apply Hst in E2|]. done. }
  unfold s. change "," with (s1 ",") at 1. rewrite split_on_join; [by apply add_tokens | by destruct g|].
  apply fields_forall; [by apply ascii_all | done].
Qed.
Lemma fold_lines ls fs : rendered ls fs -> Forall (fun f => field_ok f = true) fs -> forall st,
  fold_outcome add_line ls st = Val (fold_left step_field fs st) /\ Forall (fun s => line s = true) ls.
Proof.
  induction 1 as [|l ls fs Hl Hsk Hr IH|g ls fs Hne Ht Hr IH]; intros Hf st; [done| |].
  - destruct (IH Hf st) as [E Hls]. split; [|by constructor].
    cbn [fold_outcome]. unfold add_line. by rewrite Hsk.
  - apply Forall_app in Hf as [Hg Hf]. destruct (IH Hf (fold_left step_field g st)) as [E Hls]. split.
    + cbn [fold_outcome]. rewrite add_fields_line by done. by rewrite fold_left_app.
    + constructor; [|done]. unfold line, fields_line. change (nonempty ("    " +:+ ?x)) with true.
      cbn [andb]. rewrite str_forall_app. apply andb_true_iff. split; [done|].
      apply join_forall; [done|]. apply fields_forall; [by apply ascii_all | done].
Qed.

(** C13: the parser of chip tables reads every layout.  However the fields of
    the entries are shown (plain, with an index or with a range of indices; in
    decimal, hexadecimal, both or as text) and laid out on lines (one by one,
    several separated by commas, with headers and blank lines between them),
    the parser gives back one dictionary per entry, which holds each field's
    value under its own key, the values of the indexed fields of a name in
    order under [name[]], and nothing else; entries are told apart only by the
    reappearance of their first field. *)
Theorem parse_entries_layouts (k0 : string) (es : list (list LtField)) (ls : list string) :
  Forall (entry_of k0) es -> rendered ls (concat es) ->
  exists rs, parse_entries (join (s1 lf) ls) = Val rs /\ Forall2 holds rs es.
Proof.
  intros Hes Hr. assert (Forall (fun f => field_ok f = true) (concat es)) as Hf.
  { clear Hr. induction Hes as [|e es (_ & _ & Hf) Hes IH]; [constructor | by apply Forall_app]. }
  destruct (fold_lines _ _ Hr Hf ([], [])) as [E Hl]. unfold parse_entries. rewrite splitlines_join, E by done. clear E Hr Hl Hf.
  destruct Hes as [|e es He Hes]; [by exists []|]. cbn [concat]. rewrite fold_left_app.
  pose proof He as ((f & fs & -> & _) & Hnd & Hok).
  destruct (add_new (f :: fs) [] [] [] Hok Hnd holds_nil) as (cur & Ec & Hc).
  match type of Ec with ?x = _ => match goal with |- context [fold_left step_field (concat es) ?y] => change y with x; rewrite Ec; clear Ec end end.
  destruct (add_entries k0 es Hes [] cur (f :: fs) He Hc) as (rs & cur' & -> & Hrs). cbn [app].
  exists (rs ++ [cur']). split; [|done]. destruct cur' as [|x cur']; [|done]. exfalso.
  apply Forall2_length in Hrs as Hlen. assert (exists e, holds [] e /\ exists g gs, e = g :: gs) as (e & He' & g & gs & ->).
  { apply Forall2_app_inv_l in Hrs as (l1 & l2 & _ & Hl2 & El). inversion Hl2 as [|? e' ? ? Hh Hnil]; subst. inversion Hnil; subst.
    exists e'. split; [done|]. assert (e' ∈ (f :: fs) :: es) as Hin by (rewrite El; apply elem_of_app; right; by left).
    apply elem_of_cons in Hin as [->|Hin]; [eauto|]. rewrite Forall_forall in Hes. destruct (Hes _ Hin) as ((g & gs & -> & _) & _). eauto. }
  pose proof (holds_fields _ _ He' g ltac:(by left)). done.
Qed.

(** two entries with every notation: plain, indexed and range fields, decimal,
    hexadecimal, both and text *)
Lemma parse_entries_layouts_witness :
  exists r1 r2, parse_entries (join (s1 lf) ["Table DLB_ECMP: 2 entries"; "    ID=1,Q[0]=-3,Q[1]=0xA(10)"; "    MODE=SPRAY,HOP[0-511]=0x1f"; "    "; "    ID=2"])
    = Val [r1; r2]
  /\ dget "Q[]" r1 = Some (VList [VInt (-3); VInt 10]) /\ dget "Q_1" r1 = Some (VInt 10) /\ dget "HOP_0-511" r1 = Some (VInt 31)
  /\ dget "MODE" r1 = Some (VStr "SPRAY") /\ dget "ID" r2 = Some (VInt 2) /\ dget "Q[]" r2 = None.
Proof.
  set (e1 := [mkField "ID" Whole (Dec 1); mkField "Q" (At 0) (Dec (-3)); mkField "Q" (At 1) (HexDec "A" 10);
              mkField "MODE" Whole (Text "SPRAY"); mkField "HOP" (Span 0 511) (Hex 31)]).
  set (e2 := [mkField "ID" Whole (Dec 2)]).
  destruct (parse_entries_layouts "ID" [e1; e2]
    ["Table DLB_ECMP: 2 entries"; "    ID=1,Q[0]=-3,Q[1]=0xA(10)"; "    MODE=SPRAY,HOP[0-511]=0x1f"; "    "; "    ID=2"]) as (rs & E & Hrs).
  - repeat constructor; first [by eexists _, _ | apply (bool_decide_unpack _); vm_compute; exact I | reflexivity].
  - apply rendered_skip; [reflexivity..|].
    apply (rendered_fields (take 3 e1) _ (drop 3 e1 ++ e2)); [done | reflexivity |].
    apply (rendered_fields (drop 3 e1) _ e2); [done | reflexivity |].
    apply rendered_skip; [reflexivity..|].
    apply (rendered_fields e2 _ []); [done | reflexivity | apply rendered_nil].
  - destruct rs as [|r1 [|r2 [|]]]; [inversion Hrs | inversion Hrs as [|? ? ? ? _ Hx]; inversion Hx | | inversion Hrs as [|? ? ? ? _ Hx]; inversion Hx as [|? ? ? ? _ Hy]; inversion Hy].
    exists r1, r2. split; [exact E|]. apply Forall2_cons_1 in Hrs as [H1 Hx]. apply Forall2_cons_1 in Hx as [H2 _].
    split; [exact (holds_lists _ _ H1 "Q")|].
    split; [exact (holds_fields _ _ H1 (mkField "Q" (At 1) (HexDec "A" 10)) ltac:(apply list_elem_of_In; simpl; tauto))|].
    split; [exact (holds_fields _ _ H1 (mkField "HOP" (Span 0 511) (Hex 31)) ltac:(apply list_elem_of_In; simpl; tauto))|].
    split; [exact (holds_fields _ _ H1 (mkField "MODE" Whole (Text "SPRAY")) ltac:(apply list_elem_of_In; simpl; tauto))|].
    split; [exact (holds_fields _ _ H2 (mkField "ID" Whole (Dec 2)) ltac:(apply list_elem_of_In; simpl; tauto))|].
    exact (holds_lists _ _ H2 "Q").
Defined.

(** reading one element of an array from an entry *)
Lemma field_at_indexed r e f i : holds r e -> f ∈ e -> f_index f = At i -> field_at (Some r) (f_name f) i = Some (lt_value f).
Proof.
  intros Hr Hf Hi. unfold field_at. pose proof (holds_fields _ _ Hr f Hf) as Hd. unfold lt_key, indexed in Hd. rewrite Hi in Hd. cbn [idx_text] in Hd.
  by rewrite Hd.
Qed.
