(* ===== verification/Bytes.v ===== *)
(** * Byte strings

    A [bytes] object is a list of integers from 0 to 255; [struct]'s unsigned
    big-endian fields, slices and searches. *)

From S2P Require Import Prelude PyStr PyStrFacts Device Dut Topology.

(** ** Packing *)

(** the [n] big-endian bytes of a number *)
Fixpoint be_bytes (n : nat) (v : Z) : list Z :=
  match n with O => [] | S n' => be_bytes n' (v / 256) ++ [v mod 256] end.
(** [struct.pack] of an unsigned field of [n] bytes *)
Definition pack (n : nat) (v : Z) : outcome (list Z) :=
  if (0 <=? v) && (v <? 256 ^ Z.of_nat n) then Val (be_bytes n v) else Exc StructError.
(** [bytes([v])] *)
Definition byte1 (v : Z) : outcome (list Z) :=
  if (0 <=? v) && (v <? 256) then Val [v] else Exc (ValueError "bytes must be in range(0, 256)").

(** [[f(x) for x in l]] where [f] may raise *)
Fixpoint omap_list {A B} (f : A -> outcome B) (l : list A) : outcome (list B) :=
  match l with
  | [] => Val []
  | x :: l' => obind (f x) (fun y => obind (omap_list f l') (fun ys => Val (y :: ys)))
  end.

(** the value of big-endian bytes: [struct.unpack] of one unsigned field *)
Definition be_val (l : list Z) : Z := fold_left (fun a b => a * 256 + b) l 0.

(** [data[off:off+n]] for numbers that may be far beyond the end *)
Definition slice (off n : Z) (data : list Z) : list Z :=
  let rest := drop (Z.to_nat (Z.min off (Z.of_nat (length data)))) data in
  take (Z.to_nat (Z.min n (Z.of_nat (length rest)))) rest.

(** [struct.unpack_from] of an unsigned field of [n] bytes; [None] for
    [struct.error] *)
Definition unpack_from (n off : Z) (data : list Z) : option Z :=
  if off + n <=? Z.of_nat (length data) then Some (be_val (slice off n data)) else None.

(** [bytearray] slice assignment [b[i:j] = v]: the length may change *)
Definition slice_set (i j : nat) (v b : list Z) : list Z := take i b ++ v ++ drop j b.

Fixpoint is_prefix (p l : list Z) : bool :=
  match p, l with
  | [], _ => true
  | x :: p', y :: l' => (x =? y) && is_prefix p' l'
  | _ :: _, [] => false
  end.
(** [p in l] *)
Fixpoint is_infix (p l : list Z) : bool :=
  is_prefix p l || match l with [] => false | _ :: l' => is_infix p l' end.

(** the white space of C's [isspace] *)
Definition is_cspace (c : ascii) : bool := ((9 <=? code c)%nat && (code c <=? 13)%nat) || Ascii.eqb c " ".

(** [bytes.fromhex]: pairs of digits, white space between them *)
Fixpoint fromhex_go (fuel : nat) (s : string) : option (list Z) :=
  match fuel with
  | O => None
  | S f =>
      match lstrip_by is_cspace s with
      | "" => Some []
      | String a (String b s') =>
          match hex_val a, hex_val b with
          | Some x, Some y => option_map (cons (16 * x + y)) (fromhex_go f s')
          | _, _ => None
          end
      | _ => None
      end
  end.
Definition fromhex (s : string) : outcome (list Z) :=
  match fromhex_go (S (slen s)) s with
  | Some l => Val l
  | None => Exc (ValueError "non-hexadecimal number found in fromhex() arg")
  end.
(** [b.hex()] *)
Definition bytes_hex (l : list Z) : string :=
  fold_right (fun b s => String (hex_digit (b / 16)) (String (hex_digit (b mod 16)) s)) "" l.

Example fromhex_ex : (fromhex "00deAD", fromhex "0 0", fromhex "123", bytes_hex [0; 222; 173]) =
  (Val [0; 222; 173], Exc (ValueError "non-hexadecimal number found in fromhex() arg"),
   Exc (ValueError "non-hexadecimal number found in fromhex() arg"), "00dead").
Proof. reflexivity. Qed.

(** ** Facts *)

Definition is_byte (b : Z) : Prop := 0 <= b < 256.

Lemma be_bytes_length n v : length (be_bytes n v) = n.
Proof. revert v. induction n as [|n IH]; intros v; [done|]. cbn [be_bytes]. rewrite length_app, IH. simpl. lia. Qed.

Lemma pack_val n v l : pack n v = Val l -> 0 <= v < 256 ^ Z.of_nat n /\ l = be_bytes n v.
Proof. unfold pack. case_match; [|done]. intros. simplify_eq. bool_prop. split; [lia|done]. Qed.

Lemma pack_ok n v : 0 <= v < 256 ^ Z.of_nat n -> pack n v = Val (be_bytes n v).
Proof.
  intros Hv. unfold pack. by rewrite (proj2 (Z.leb_le _ _)), (proj2 (Z.ltb_lt _ _)) by lia.
Qed.


Lemma pow_succ n : 256 ^ Z.of_nat (S n) = 256 * 256 ^ Z.of_nat n.
Proof. rewrite Nat2Z.inj_succ, Z.pow_succ_r by lia. lia. Qed.

Lemma be_val_app a b acc :
  fold_left (fun a b => a * 256 + b) (a ++ b) acc =
  fold_left (fun a b => a * 256 + b) b (fold_left (fun a b => a * 256 + b) a acc).
Proof. apply fold_left_app. Qed.

Lemma be_val_bytes n v : 0 <= v < 256 ^ Z.of_nat n -> be_val (be_bytes n v) = v.
Proof.
  unfold be_val. revert v. induction n as [|n IH]; intros v Hv.
  - change (256 ^ Z.of_nat 0) with 1 in Hv. simpl. lia.
  - rewrite pow_succ in Hv. cbn [be_bytes]. rewrite be_val_app, IH.
    + simpl. pose proof (Z.div_mod v 256 ltac:(lia)). lia.
    + split; [apply Z.div_pos | apply Z.div_lt_upper_bound]; lia.
Qed.

Lemma be_bytes_byte n v : Forall is_byte (be_bytes n v).
Proof.
  revert v. induction n as [|n IH]; intros v; cbn [be_bytes]; [constructor|].
  apply Forall_app. split; [apply IH|]. constructor; [|constructor].
  unfold is_byte. pose proof (Z.mod_pos_bound v 256). lia.
Qed.

(** the part of a message between a prefix and a suffix *)
Lemma slice_mid pre x rest off n :
  off = Z.of_nat (length pre) -> n = Z.of_nat (length x) -> slice off n (pre ++ x ++ rest) = x.
Proof.
  intros -> ->. unfold slice.
  rewrite (Z.min_l (Z.of_nat (length pre))) by (rewrite length_app; lia).
  rewrite Nat2Z.id, drop_app_length.
  rewrite (Z.min_l (Z.of_nat (length x))) by (rewrite length_app; lia).
  by rewrite Nat2Z.id, take_app_length.
Qed.

Lemma unpack_mid pre n v rest off :
  off = Z.of_nat (length pre) -> 0 <= v < 256 ^ Z.of_nat n ->
  unpack_from (Z.of_nat n) off (pre ++ be_bytes n v ++ rest) = Some v.
Proof.
  intros -> Hv. unfold unpack_from. rewrite !length_app, be_bytes_length.
  rewrite (proj2 (Z.leb_le _ _)) by lia.
  rewrite (slice_mid pre (be_bytes n v) rest) by (rewrite ?be_bytes_length; lia).
  by rewrite be_val_bytes.
Qed.

Lemma is_prefix_spec p l : is_prefix p l = true <-> exists t, l = p ++ t.
Proof.
  revert l. induction p as [|x p IH]; intros l; cbn [is_prefix app].
  - split; [by exists l | done].
  - destruct l as [|y l]; [split; [done | intros [t E]; done]|].
    rewrite andb_true_iff, IH, Z.eqb_eq. split.
    + intros [-> [t ->]]. by exists t.
    + intros [t E]. injection E as -> ->. eauto.
Qed.

Lemma is_infix_spec p l : is_infix p l = true <-> exists a b, l = a ++ p ++ b.
Proof.
  induction l as [|y l IH]; cbn [is_infix]; rewrite orb_true_iff, is_prefix_spec.
  - split; [intros [[t E]|]; [exists [], t; done | done]|].
    intros (a & b & E). left. exists b. destruct a; [done | discriminate E].
  - rewrite IH. split.
    + intros [[t E]|(a & b & ->)]; [by exists [], t | by exists (y :: a), b].
    + intros ([|z a] & b & E); [left; by exists b | right]. injection E as -> ->. by exists a, b.
Qed.
