(* ===== verification/Bgp.v ===== *)
(** * The BGP speaker (servers/bgp_speaker.py)

    Message construction, reassembly of messages from the socket, and the
    session: the thread of [_run] and the calls of the owner ([announce],
    [withdraw], [stop]) are interleaved step by step.  Bytes are integers from
    0 to 255; the network is the list of what successive [recv] calls meet. *)

From S2P Require Import Prelude PyStr PyStrFacts Device Dut Topology Bytes.

Definition MARKER : list Z := List.repeat 255 16.
Definition OPEN : Z := 1.
Definition UPDATE : Z := 2.
Definition NOTIFICATION : Z := 3.
Definition KEEPALIVE : Z := 4.

(** ** Addresses *)

(** one part of an address as [inet_aton] reads it: decimal, octal or hexadecimal *)
Definition aton_part (s : string) : option Z :=
  if starts "0x" s || starts "0X" s then hex_of (str_drop 2 s)
  else if negb (nonempty s) then None
  else if starts "0" s then digits_base 8 0 s
  else digits_base 10 0 s.

(** [socket.inet_aton]: the last part fills the bytes that are left *)
Definition inet_aton (ip : string) : outcome (list Z) :=
  match mapM aton_part (split_on "."%char ip) with
  | Some [a] => if a <? 2 ^ 32 then Val (be_bytes 4 a) else Exc (OSError "illegal IP address string")
  | Some [a; b] => if (a <? 256) && (b <? 2 ^ 24) then Val (a :: be_bytes 3 b) else Exc (OSError "illegal IP address string")
  | Some [a; b; c] =>
      if (a <? 256) && (b <? 256) && (c <? 2 ^ 16) then Val (a :: b :: be_bytes 2 c)
      else Exc (OSError "illegal IP address string")
  | Some [a; b; c; d] =>
      if (a <? 256) && (b <? 256) && (c <? 256) && (d <? 256) then Val [a; b; c; d]
      else Exc (OSError "illegal IP address string")
  | _ => Exc (OSError "illegal IP address string")
  end.

(** [_prefix2nlri]: the host bits are not cleared *)
Definition prefix2nlri (prefix : string) : outcome (list Z) :=
  match split_on "/"%char prefix with
  | [net; p] =>
      match py_int p with
      | None => Exc (ValueError p)
      | Some plen =>
          obind (inet_aton net) (fun octets =>
          obind (byte1 plen) (fun b =>
          Val (b ++ take (Z.to_nat ((plen + 7) / 8)) octets)))
      end
  | _ => Exc (ValueError "unpack")
  end.

(** [_msg] *)
Definition bgp_msg (mtype : Z) (body : list Z) : outcome (list Z) :=
  obind (pack 2 (19 + Z.of_nat (length body))) (fun l =>
  obind (pack 1 mtype) (fun t => Val (MARKER ++ l ++ t ++ body))).

Definition AS_TRANS : Z := 23456.

Definition open_msg (router_id : string) (my_as hold_time : Z) : outcome (list Z) :=
  obind (inet_aton router_id) (fun bgp_id =>
  obind (pack 4 my_as) (fun as4 =>
  let cap_mp := [1; 4; 0; 1; 0; 1] in
  let cap_as4 := [65; 4] ++ as4 in
  let opt := [2; Z.of_nat (length cap_mp)] ++ cap_mp ++ [2; Z.of_nat (length cap_as4)] ++ cap_as4 in
  let as2 := if my_as <=? 0xFFFF then my_as else AS_TRANS in
  obind (pack 2 as2) (fun a2 =>
  obind (pack 2 hold_time) (fun h =>
  bgp_msg OPEN ([4] ++ a2 ++ h ++ bgp_id ++ [Z.of_nat (length opt)] ++ opt))))).

Definition keepalive_msg : outcome (list Z) := bgp_msg KEEPALIVE [].

Definition update_announce (my_as : Z) (prefix nexthop : string) : outcome (list Z) :=
  obind (pack 4 my_as) (fun as4 =>
  obind (inet_aton nexthop) (fun nh =>
  let attrs := [0x40; 1; 1; 0] ++ ([0x40; 2; 6; 2; 1] ++ as4) ++ ([0x40; 3; 4] ++ nh) in
  obind (prefix2nlri prefix) (fun nlri =>
  obind (pack 2 0) (fun w =>
  obind (pack 2 (Z.of_nat (length attrs))) (fun al =>
  bgp_msg UPDATE (w ++ al ++ attrs ++ nlri)))))).

Definition update_withdraw (prefix : string) : outcome (list Z) :=
  obind (prefix2nlri prefix) (fun withdrawn =>
  obind (pack 2 (Z.of_nat (length withdrawn))) (fun wl =>
  obind (pack 2 0) (fun al => bgp_msg UPDATE (wl ++ withdrawn ++ al)))).

(** ** Receiving *)

(** what one [recv] meets: bytes, a timeout, the end of the stream, an error *)
Inductive rx := Chunk (b : list Z) | Timeout | Closed | SockErr.

(** the bytes, [None], or a call that waits for ever *)
Inductive got (A : Type) := Got (a : A) | Gone | Blocked.
Arguments Got {A} a.
Arguments Gone {A}.
Arguments Blocked {A}.

(** [_recv_n]: [recv(k)] returns at most [k] bytes and leaves the others *)
Fixpoint recv_n (n : nat) (buf : list Z) (net : list rx) : got (list Z) * list rx :=
  if (n <=? length buf)%nat then (Got buf, net)
  else
    match net with
    | [] => (Blocked, [])
    | Timeout :: net' => recv_n n buf net'
    | SockErr :: net' | Closed :: net' | Chunk [] :: net' => (Gone, net')
    | Chunk b :: net' =>
        let k := (n - length buf)%nat in
        if (length b <=? k)%nat then recv_n n (buf ++ b) net'
        else (Got (buf ++ take k b), Chunk (drop k b) :: net')
    end.

Definition unpack2 (l : list Z) : Z := match l with [a; b] => a * 256 + b | _ => 0 end.

Definition recv_msg (net : list rx) : got (Z * list Z) * list rx :=
  match recv_n 19 [] net with
  | (Got hdr, net) =>
      let len := unpack2 (take 2 (drop 16 hdr)) in
      let mtype := nth 18 hdr 0 in
      if 19 <? len then
        match recv_n (Z.to_nat (len - 19)) [] net with
        | (Got body, net) => (Got (mtype, body), net)
        | (Gone, net) => (Gone, net)
        | (Blocked, net) => (Blocked, net)
        end
      else (Got (mtype, []), net)
  | (Gone, net) => (Gone, net)
  | (Blocked, net) => (Blocked, net)
  end.

(** ** The session *)

(** what the peer is sent *)
Inductive out_msg := SOpen | SKeepalive | SAnnounce (prefix nexthop : string) | SWithdraw (prefix : string).

(** where the thread is: about to test [_stop], between marking the session
    established and copying the routes, sending the copy, or ended *)
Inductive phase := Looping | Copying | Dumping (todo : list (string * string)) | Ended.

Record PyBgpPeer := mkPeer {
  bp_as : Z;
  bp_router_id : string;
  bp_hold : Z;
  advertise : list (string * string);
  got_open : bool;
  established : bool;
  last_ka : Z;
  stopping : bool;
  bp_phase : phase;
  last_error : option string;
  bp_sent : list out_msg
}.

Definition encode (p : PyBgpPeer) (m : out_msg) : outcome (list Z) :=
  match m with
  | SOpen => open_msg (bp_router_id p) (bp_as p) (bp_hold p)
  | SKeepalive => keepalive_msg
  | SAnnounce pre nh => update_announce (bp_as p) pre nh
  | SWithdraw pre => update_withdraw pre
  end.

Definition set_phase (ph : phase) (p : PyBgpPeer) : PyBgpPeer :=
  mkPeer (bp_as p) (bp_router_id p) (bp_hold p) (advertise p) (got_open p) (established p) (last_ka p)
    (stopping p) ph (last_error p) (bp_sent p).
Definition set_adv (a : list (string * string)) (p : PyBgpPeer) : PyBgpPeer :=
  mkPeer (bp_as p) (bp_router_id p) (bp_hold p) a (got_open p) (established p) (last_ka p)
    (stopping p) (bp_phase p) (last_error p) (bp_sent p).
Definition set_open (p : PyBgpPeer) : PyBgpPeer :=
  mkPeer (bp_as p) (bp_router_id p) (bp_hold p) (advertise p) true (established p) (last_ka p)
    (stopping p) (bp_phase p) (last_error p) (bp_sent p).
Definition set_est (b : bool) (p : PyBgpPeer) : PyBgpPeer :=
  mkPeer (bp_as p) (bp_router_id p) (bp_hold p) (advertise p) (got_open p) b (last_ka p)
    (stopping p) (bp_phase p) (last_error p) (bp_sent p).
Definition set_ka (t : Z) (p : PyBgpPeer) : PyBgpPeer :=
  mkPeer (bp_as p) (bp_router_id p) (bp_hold p) (advertise p) (got_open p) (established p) t
    (stopping p) (bp_phase p) (last_error p) (bp_sent p).
Definition set_stop (p : PyBgpPeer) : PyBgpPeer :=
  mkPeer (bp_as p) (bp_router_id p) (bp_hold p) (advertise p) (got_open p) (established p) (last_ka p)
    true (bp_phase p) (last_error p) (bp_sent p).
Definition set_err (e : string) (p : PyBgpPeer) : PyBgpPeer :=
  mkPeer (bp_as p) (bp_router_id p) (bp_hold p) (advertise p) (got_open p) (established p) (last_ka p)
    (stopping p) (bp_phase p) (Some e) (bp_sent p).
Definition add_sent (m : out_msg) (p : PyBgpPeer) : PyBgpPeer :=
  mkPeer (bp_as p) (bp_router_id p) (bp_hold p) (advertise p) (got_open p) (established p) (last_ka p)
    (stopping p) (bp_phase p) (last_error p) (bp_sent p ++ [m]).

(** the [finally] of [_run] *)
Definition end_run (p : PyBgpPeer) : PyBgpPeer := set_phase Ended (set_est false p).

(** [sendall] of a message: sent, an [OSError] of the socket ([ok] false), or
    an exception while building it *)
Inductive send_result := Sent (p : PyBgpPeer) | NotSent | Raised.
Definition send (ok : bool) (m : out_msg) (p : PyBgpPeer) : send_result :=
  match encode p m with
  | Val _ => if ok then Sent (add_sent m p) else NotSent
  | Exc (OSError _) => NotSent
  | _ => Raised
  end.

Definition ka_interval (p : PyBgpPeer) : Z := Z.max (bp_hold p / 3) 5.

(** the keepalive at the top of a round; [None] when the socket is broken *)
Definition ka_due (t : Z) (ok : bool) (p : PyBgpPeer) : option PyBgpPeer :=
  if ka_interval p <=? t - last_ka p then
    match send ok SKeepalive p with Sent p' => Some (set_ka t p') | _ => None end
  else Some p.

(** the message of a round *)
Definition on_msg (mtype : Z) (body : list Z) (ok : bool) (p : PyBgpPeer) : PyBgpPeer :=
  if mtype =? OPEN then
    let p := set_open p in
    match send ok SKeepalive p with
    | Sent p' => p'
    | _ => end_run (set_err "OSError()" p)
    end
  else if mtype =? KEEPALIVE then
    if got_open p && negb (established p) then set_phase Copying (set_est true p) else p
  else if mtype =? NOTIFICATION then
    let '(code, sub) := match body with c :: s :: _ => (c, s) | _ => (0, 0) end in
    end_run (set_err ("NOTIFICATION code=" +:+ zs code +:+ " sub=" +:+ zs sub) p)
  else p.

(** one round of the loop of [_run]: the time, whether the keepalive and the
    answer could be sent, and the message received ([None]: the stream ended) *)
Definition round (t : Z) (ok1 : bool) (m : option (Z * list Z)) (ok2 : bool) (p : PyBgpPeer) : PyBgpPeer :=
  if stopping p then end_run p
  else match ka_due t ok1 p with
       | None => end_run p
       | Some p1 => match m with
                    | None => end_run p1
                    | Some (mtype, body) => on_msg mtype body ok2 p1
                    end
       end.

(** one route of [_send_all_announce] *)
Definition dump_one (ok : bool) (p : PyBgpPeer) (r : string * string) (todo : list (string * string)) : PyBgpPeer :=
  match send ok (SAnnounce (fst r) (snd r)) p with
  | Sent p' => set_phase (Dumping todo) p'
  | NotSent => set_phase (Dumping todo) p
  | Raised => end_run (set_err "error" p)
  end.

(** the state after a call of the owner that sends; an exception while building
    the message leaves the list changed *)
Definition owner_send (ok : bool) (m : out_msg) (p : PyBgpPeer) : PyBgpPeer :=
  if established p then match send ok m p with Sent p' => p' | _ => p end else p.
Definition announce (pre nh : string) (ok : bool) (p : PyBgpPeer) : PyBgpPeer :=
  owner_send ok (SAnnounce pre nh) (set_adv (advertise p ++ [(pre, nh)]) p).
Definition withdraw (pre : string) (ok : bool) (p : PyBgpPeer) : PyBgpPeer :=
  owner_send ok (SWithdraw pre)
    (set_adv (List.filter (fun r => negb (String.eqb (fst r) pre)) (advertise p)) p).

Inductive event :=
| ERound (t : Z) (ok1 : bool) (m : option (Z * list Z)) (ok2 : bool)
| ECopy
| EDump (ok : bool)
| EAnnounce (prefix nexthop : string) (ok : bool)
| EWithdraw (prefix : string) (ok : bool)
| EStop.

(** a step of the thread is possible in its phase only; the owner may call at
    any time *)
Definition bgp_step (p : PyBgpPeer) (e : event) : option PyBgpPeer :=
  match e, bp_phase p with
  | ERound t ok1 m ok2, Looping => Some (round t ok1 m ok2 p)
  | ECopy, Copying => Some (set_phase (Dumping (advertise p)) p)
  | EDump _, Dumping [] => Some (set_phase Looping p)
  | EDump ok, Dumping (r :: todo) => Some (dump_one ok p r todo)
  | EAnnounce pre nh ok, _ => Some (announce pre nh ok p)
  | EWithdraw pre ok, _ => Some (withdraw pre ok p)
  | EStop, _ => Some (set_stop p)
  | _, _ => None
  end.

Fixpoint bgp_run (p : PyBgpPeer) (es : list event) : option PyBgpPeer :=
  match es with
  | [] => Some p
  | e :: es' => match bgp_step p e with Some p' => bgp_run p' es' | None => None end
  end.

(** the session once the socket is connected and the OPEN is sent *)
Definition peer_connected (my_as : Z) (router_id : string) (hold : Z) (adv : list (string * string)) : PyBgpPeer :=
  mkPeer my_as router_id hold adv false false 0 false Looping None [SOpen].

(** ** The command line of [--serve] *)

(** the routes of the fourth argument *)
Definition parse_advertise (arg : string) : list (string * string) :=
  omap (fun pair => match cut ","%char pair with
                    | Some (p, nh) => Some (strip p, strip nh)
                    | None => None
                    end) (split_on ";"%char arg).

(** what a command line asks for *)
Inductive serve_cmd := CQuit | CSkip | CAnnounce (p nh : string) | CWithdraw (p : string) | CErr.
Definition parse_cmd (l : string) : serve_cmd :=
  match split_ws (strip l) with
  | [] => CSkip
  | "quit" :: _ => CQuit
  | "announce" :: p :: nh :: _ => CAnnounce p nh
  | "withdraw" :: p :: _ => CWithdraw p
  | _ => CErr
  end.

