(* ===== verification/BgpFacts.v ===== *)
(** * Facts about the BGP speaker

    Messages are reassembled from any segmentation of the stream, UPDATE
    messages decode to the route they were built from, and what the peer was
    sent agrees with the advertised routes unless the owner withdraws while
    the initial routes are being sent. *)

From S2P Require Import Prelude PyStr PyStrFacts Device Dut Topology Bytes Bgp.

(** ** Bytes *)

Lemma unpack2_be v : 0 <= v < 65536 -> unpack2 (be_bytes 2 v) = v.
Proof.
  intros Hv. unfold unpack2. cbn [be_bytes app].
  rewrite (Z.mod_small (v / 256)) by (split; [apply Z.div_pos | apply Z.div_lt_upper_bound]; lia).
  pose proof (Z.div_mod v 256 ltac:(lia)). lia.
Qed.

(** ** Reassembly *)

(** the stream still to come, of a network that neither ends nor fails *)
Definition flat (net : list rx) : list Z := concat (map (fun r => match r with Chunk b => b | _ => [] end) net).
Definition plain (net : list rx) : Prop :=
  Forall (fun r => match r with Chunk (_ :: _) | Timeout => True | _ => False end) net.

Lemma recv_n_spec n net : forall buf,
  plain net -> (length buf <= n)%nat -> (n - length buf <= length (flat net))%nat ->
  exists net', recv_n n buf net = (Got (buf ++ take (n - length buf) (flat net)), net')
    /\ plain net' /\ flat net' = drop (n - length buf) (flat net).
Proof.
  induction net as [|r net IH]; intros buf Hp Hle Hlen; cbn [recv_n];
    (destruct (n <=? length buf)%nat eqn:E;
      [apply Nat.leb_le in E; replace (n - length buf)%nat with 0%nat by lia;
       rewrite take_0, drop_0, app_nil_r; eauto | apply Nat.leb_gt in E]).
  { cbn in Hlen. lia. }
  apply Forall_cons in Hp as [Hr Hp]. destruct r as [[|c b]| | |]; try done; cbn [flat map concat] in *.
  - fold (flat net) in *. destruct (length (c :: b) <=? n - length buf)%nat eqn:Eb.
    + apply Nat.leb_le in Eb. destruct (IH (buf ++ c :: b) Hp) as (net' & E' & Hp' & Hf').
      { rewrite length_app. lia. }
      { rewrite length_app in *. lia. }
      exists net'. rewrite E'. rewrite length_app in *. split; [|split; [done|]].
      * rewrite take_app, <-app_assoc, (take_ge (c :: b)) by lia.
        by replace (n - length buf - length (c :: b))%nat with (n - (length buf + length (c :: b)))%nat by lia.
      * rewrite Hf', drop_app. rewrite (drop_ge (c :: b)) by lia.
        by replace (n - length buf - length (c :: b))%nat with (n - (length buf + length (c :: b)))%nat by lia.
    + apply Nat.leb_gt in Eb. eexists. split; [|split].
      * by rewrite take_app_le by lia.
      * constructor; [|done]. destruct (drop (n - length buf) (c :: b)) eqn:Ed; [|done].
        apply (f_equal length) in Ed. rewrite length_drop in Ed. simpl in *. lia.
      * cbn [flat map concat]. fold (flat net). by rewrite drop_app_le by lia.
  - apply (IH buf Hp Hle Hlen).
Qed.

(** C30: messages survive segmentation.  However the bytes of a message are cut
    into chunks, delayed by timeouts and followed by the bytes of later
    messages, [recv_msg] returns the message's type and body and leaves exactly
    the later bytes. *)
Theorem recv_msg_reassembles (mtype : Z) (body m rest : list Z) (net : list rx) :
  bgp_msg mtype body = Val m -> plain net -> flat net = m ++ rest ->
  exists net', recv_msg net = (Got (mtype, body), net') /\ plain net' /\ flat net' = rest.
Proof.
  intros Hm Hp Hf. unfold bgp_msg, obind in Hm.
  destruct (pack 2 _) as [lb| |] eqn:El; [|done|done]. destruct (pack 1 mtype) as [tb| |] eqn:Et; [|done|done].
  injection Hm as <-. apply pack_val in El as [Hl ->]. apply pack_val in Et as [Ht ->].
  change (256 ^ Z.of_nat 2) with 65536 in Hl. change (256 ^ Z.of_nat 1) with 256 in Ht.
  set (len := 19 + Z.of_nat (length body)) in *.
  assert (be_bytes 1 mtype = [mtype]) as Hb1 by (cbn; by rewrite Z.mod_small by lia).
  rewrite Hb1 in Hf.
  set (hdr := MARKER ++ be_bytes 2 len ++ [mtype]).
  assert (flat net = hdr ++ body ++ rest) as Hf' by (rewrite Hf; unfold hdr; by rewrite <-!app_assoc).
  assert (length hdr = 19%nat) as Hh by (unfold hdr; by rewrite !length_app, be_bytes_length).
  destruct (recv_n_spec 19 net []) as (net1 & E1 & Hp1 & Hf1); [done|simpl; lia| |].
  { rewrite Hf', !length_app, Hh. simpl. lia. }
  cbn [length app] in E1, Hf1. rewrite Nat.sub_0_r in E1, Hf1. rewrite Hf' in E1, Hf1.
  rewrite take_app_length' in E1 by done. rewrite drop_app_length' in Hf1 by done.
  unfold recv_msg. rewrite E1.
  assert (take 2 (drop 16 hdr) = be_bytes 2 len) as -> by (unfold hdr; reflexivity).
  assert (nth 18 hdr 0 = mtype) as -> by reflexivity.
  rewrite unpack2_be by (unfold len; lia).
  destruct (19 <? len) eqn:Eg; bool_prop.
  - destruct (recv_n_spec (Z.to_nat (len - 19)) net1 []) as (net2 & E2 & Hp2 & Hf2); [done|simpl; lia| |].
    { rewrite Hf1, length_app. unfold len. simpl. lia. }
    cbn [length app] in E2, Hf2. rewrite Nat.sub_0_r in E2, Hf2. rewrite Hf1 in E2, Hf2.
    replace (Z.to_nat (len - 19)) with (length body) in E2, Hf2 by (unfold len; lia).
    rewrite take_app_length in E2. rewrite drop_app_length in Hf2.
    exists net2. replace (Z.to_nat (len - 19)) with (length body) by (unfold len; lia). by rewrite E2.
  - assert (body = []) as -> by (destruct body; [done|]; unfold len in *; simpl in *; lia).
    exists net1. done.
Qed.

Lemma recv_msg_reassembles_witness :
  exists net', recv_msg [Chunk (List.repeat 255 10); Timeout; Chunk (List.repeat 255 6 ++ [0]); Chunk [21; 3; 6]; Chunk [2; 9; 9]]
    = (Got (NOTIFICATION, [6; 2]), net') /\ plain net' /\ flat net' = [9; 9].
Proof.
  apply (recv_msg_reassembles NOTIFICATION [6; 2] (MARKER ++ [0; 21; 3; 6; 2]) [9; 9]);
    [reflexivity | repeat constructor | reflexivity].
Defined.

(** ** UPDATE messages *)

(** a decoder after RFC 4271: prefixes, attributes with a one-byte length *)
Fixpoint decode_prefixes (fuel : nat) (l : list Z) : option (list (Z * list Z)) :=
  match fuel, l with
  | _, [] => Some []
  | O, _ => None
  | S f, p :: l' =>
      let n := Z.to_nat ((p + 7) / 8) in
      if (p <=? 32) && (n <=? length l')%nat
      then option_map (cons (p, take n l')) (decode_prefixes f (drop n l')) else None
  end.
Fixpoint decode_attrs (fuel : nat) (l : list Z) : option (list (Z * Z * list Z)) :=
  match fuel, l with
  | _, [] => Some []
  | S f, fl :: ty :: n :: l' =>
      if (Z.to_nat n <=? length l')%nat
      then option_map (cons (fl, ty, take (Z.to_nat n) l')) (decode_attrs f (drop (Z.to_nat n) l')) else None
  | _, _ => None
  end.
(** the withdrawn prefixes, the attributes and the announced prefixes *)
Definition decode_update (body : list Z) : option (list (Z * list Z) * list (Z * Z * list Z) * list (Z * list Z)) :=
  let wl := Z.to_nat (unpack2 (take 2 body)) in
  let r := drop 2 body in
  let al := Z.to_nat (unpack2 (take 2 (drop wl r))) in
  let r2 := drop 2 (drop wl r) in
  match decode_prefixes (length body) (take wl r), decode_attrs (length body) (take al r2),
        decode_prefixes (length body) (drop al r2) with
  | Some w, Some a, Some n => Some (w, a, n)
  | _, _, _ => None
  end.

Lemma inet_aton_length ip l : inet_aton ip = Val l -> length l = 4%nat.
Proof.
  unfold inet_aton. destruct (mapM _ _) as [[|a [|b [|c [|d [|]]]]]|]; try done; case_match; try done; intros; by simplify_eq.
Qed.

Lemma plen_bytes plen : 0 <= plen <= 32 -> (Z.to_nat ((plen + 7) / 8) <= 4)%nat.
Proof. intros. assert ((plen + 7) / 8 < 5) by (apply Z.div_lt_upper_bound; lia). lia. Qed.

Lemma prefix2nlri_val net plen o :
  str_forall (not_char "/") net = true -> inet_aton net = Val o -> 0 <= plen <= 32 ->
  prefix2nlri (net +:+ "/" +:+ zs plen) = Val (plen :: take (Z.to_nat ((plen + 7) / 8)) o).
Proof.
  intros Hn Ho Hp. unfold prefix2nlri. change ("/" +:+ zs plen) with (String "/" (zs plen)).
  rewrite split_on_app, split_on_none by (done || by apply zs_no_char). rewrite py_int_zs.
  unfold obind. rewrite Ho. unfold byte1. by rewrite (proj2 (Z.leb_le _ _)), (proj2 (Z.ltb_lt _ _)) by lia.
Qed.

Lemma decode_one plen o f : 0 <= plen <= 32 -> length o = 4%nat ->
  decode_prefixes (S f) (plen :: take (Z.to_nat ((plen + 7) / 8)) o)
  = Some [(plen, take (Z.to_nat ((plen + 7) / 8)) o)].
Proof.
  intros Hp Ho. pose proof (plen_bytes plen Hp). cbn [decode_prefixes].
  rewrite (proj2 (Z.leb_le _ _)) by lia. rewrite length_take, Nat.min_l by lia. rewrite Nat.leb_refl. cbn [andb].
  rewrite take_take, Nat.min_id, drop_ge by (rewrite length_take; lia). by destruct f.
Qed.

Lemma bgp_msg_ok t body : 0 <= t < 256 -> Z.of_nat (length body) < 65000 -> exists m, bgp_msg t body = Val m.
Proof.
  intros Ht Hl. unfold bgp_msg. rewrite (pack_ok 2) by (change (256 ^ Z.of_nat 2) with 65536; lia).
  rewrite (pack_ok 1) by (change (256 ^ Z.of_nat 1) with 256; lia). cbn [obind]. eauto.
Qed.

(** the NLRI of a prefix *)
Definition nlri_of (plen : Z) (o : list Z) : Z * list Z := (plen, take (Z.to_nat ((plen + 7) / 8)) o).
Definition nlri_bytes (plen : Z) (o : list Z) : list Z := plen :: snd (nlri_of plen o).

Lemma announce_body my_as net plen nexthop o nh :
  0 <= my_as < 2 ^ 32 -> str_forall (not_char "/") net = true -> inet_aton net = Val o ->
  inet_aton nexthop = Val nh -> 0 <= plen <= 32 ->
  update_announce my_as (net +:+ "/" +:+ zs plen) nexthop =
  bgp_msg UPDATE ([0; 0; 0; 20] ++ [0x40; 1; 1; 0] ++ [0x40; 2; 6; 2; 1] ++ be_bytes 4 my_as ++ [0x40; 3; 4] ++ nh
                  ++ nlri_bytes plen o).
Proof.
  intros Ha Hn Ho Hh Hp. pose proof (inet_aton_length _ _ Hh) as Hl.
  unfold update_announce. rewrite (pack_ok 4) by (change (256 ^ Z.of_nat 4) with (2 ^ 32); lia).
  rewrite Hh. cbn [obind]. rewrite (prefix2nlri_val _ _ _ Hn Ho Hp). cbn [obind].
  rewrite !length_app, be_bytes_length, Hl. cbn [length]. rewrite !pack_ok by done. cbn [obind].
  by f_equal.
Qed.

Lemma withdraw_body net plen o :
  str_forall (not_char "/") net = true -> inet_aton net = Val o -> 0 <= plen <= 32 ->
  update_withdraw (net +:+ "/" +:+ zs plen) =
  bgp_msg UPDATE (be_bytes 2 (Z.of_nat (length (nlri_bytes plen o))) ++ nlri_bytes plen o ++ [0; 0]).
Proof.
  intros Hn Ho Hp. pose proof (inet_aton_length _ _ Ho) as Hl. pose proof (plen_bytes plen Hp).
  unfold update_withdraw. rewrite (prefix2nlri_val _ _ _ Hn Ho Hp). cbn [obind].
  fold (nlri_bytes plen o). rewrite !pack_ok; [done|done|].
  unfold nlri_bytes, nlri_of. cbn [snd length]. rewrite length_take. change (256 ^ Z.of_nat 2) with 65536. lia.
Qed.

(** C36: an UPDATE carries the route it was built from.  For an address, a prefix
    length up to 32, a next hop and a 4-byte AS number, the message of
    [_update_announce] decodes to no withdrawal, the three attributes (IGP
    origin, a path of that one AS, the next hop) and the one prefix; the
    message of [_update_withdraw] to the one withdrawn prefix and nothing else. *)
Theorem update_roundtrip (my_as plen : Z) (net nexthop : string) (o nh : list Z) :
  0 <= my_as < 2 ^ 32 -> str_forall (not_char "/") net = true -> inet_aton net = Val o ->
  inet_aton nexthop = Val nh -> 0 <= plen <= 32 ->
  (exists body m, update_announce my_as (net +:+ "/" +:+ zs plen) nexthop = Val m /\ bgp_msg UPDATE body = Val m
    /\ decode_update body = Some ([], [(0x40, 1, [0]); (0x40, 2, [2; 1] ++ be_bytes 4 my_as); (0x40, 3, nh)],
                                  [nlri_of plen o]))
  /\ (exists body m, update_withdraw (net +:+ "/" +:+ zs plen) = Val m /\ bgp_msg UPDATE body = Val m
    /\ decode_update body = Some ([nlri_of plen o], [], [])).
Proof.
  intros Ha Hn Ho Hh Hp. pose proof (inet_aton_length _ _ Ho) as Hl. pose proof (inet_aton_length _ _ Hh) as Hl'.
  pose proof (plen_bytes plen Hp) as Hb. assert (length (nlri_bytes plen o) <= 5)%nat as Hnl.
  { unfold nlri_bytes, nlri_of. cbn [snd length]. rewrite length_take. lia. }
  split.
  - rewrite (announce_body _ _ _ _ _ nh) by done. eexists. match goal with |- exists m, bgp_msg UPDATE ?b = _ /\ _ =>
      destruct (bgp_msg_ok UPDATE b) as [m Hm] end; [done | rewrite !length_app, be_bytes_length, Hl'; cbn [length]; lia |].
    exists m. split; [exact Hm|]. split; [exact Hm|].
    pose proof (be_bytes_length 4 my_as) as Has. remember (be_bytes 4 my_as) as as4 eqn:Eas. clear Eas Hm Ha.
    destruct as4 as [|a1 [|a2 [|a3 [|a4 []]]]]; try done. destruct nh as [|n1 [|n2 [|n3 [|n4 []]]]]; try done.
    match goal with |- decode_update ?b = Some ([], ?ats, _) =>
      assert (decode_update b = match decode_prefixes (S (23 + length (nlri_bytes plen o))) (nlri_bytes plen o) with
                                | Some n => Some ([], ats, n) | None => None end) as -> by reflexivity end.
    unfold nlri_bytes, nlri_of. cbn [snd]. by rewrite decode_one.
  - rewrite (withdraw_body _ _ o) by done. eexists. match goal with |- exists m, bgp_msg UPDATE ?b = _ /\ _ =>
      destruct (bgp_msg_ok UPDATE b) as [m Hm] end; [done | rewrite !length_app, be_bytes_length; cbn [length]; lia |].
    exists m. split; [exact Hm|]. split; [exact Hm|]. clear Hm.
    set (l := nlri_bytes plen o) in *. unfold decode_update.
    rewrite take_app_length' by by rewrite be_bytes_length.
    rewrite drop_app_length' by by rewrite be_bytes_length.
    rewrite unpack2_be by lia. rewrite Nat2Z.id, take_app_length, drop_app_length. cbn [take drop unpack2].
    change (Z.to_nat (0 * 256 + 0)) with 0%nat. cbn [take drop].
    rewrite length_app, be_bytes_length. cbn [Nat.add].
    unfold l, nlri_bytes, nlri_of. cbn [snd]. by rewrite decode_one.
Qed.

Lemma update_roundtrip_witness :
  exists body m, update_announce 65002 "10.251.0.0/24" "10.80.3.3" = Val m /\ bgp_msg UPDATE body = Val m
    /\ decode_update body = Some ([], [(0x40, 1, [0]); (0x40, 2, [2; 1; 0; 0; 253; 234]); (0x40, 3, [10; 80; 3; 3])],
                                  [(24, [10; 251; 0])]).
Proof.
  apply (update_roundtrip 65002 24 "10.251.0.0" "10.80.3.3" [10; 251; 0; 0] [10; 80; 3; 3]); [lia|reflexivity..|lia].
Defined.

(** ** The routes the peer holds *)

(** the table a receiver builds from what it is sent *)
Definition rib_step (rib : gmap string string) (m : out_msg) : gmap string string :=
  match m with
  | SAnnounce pre nh => <[pre := nh]> rib
  | SWithdraw pre => delete pre rib
  | _ => rib
  end.
Definition rib (sent : list out_msg) : gmap string string := fold_left rib_step sent ∅.
(** the table the list of advertised routes stands for *)
Definition routes (adv : list (string * string)) : gmap string string :=
  fold_left (fun m r => <[fst r := snd r]> m) adv ∅.

Lemma rib_snoc l m : rib (l ++ [m]) = rib_step (rib l) m.
Proof. unfold rib. by rewrite fold_left_app. Qed.
Lemma routes_snoc l r : routes (l ++ [r]) = <[fst r := snd r]> (routes l).
Proof. unfold routes. by rewrite fold_left_app. Qed.

Lemma routes_withdraw pre adv :
  routes (List.filter (fun r => negb (String.eqb (fst r) pre)) adv) = delete pre (routes adv).
Proof.
  induction adv as [|[p nh] adv IH] using rev_ind; [symmetry; apply delete_empty|].
  rewrite List.filter_app, routes_snoc. cbn [List.filter fst snd]. destruct (String.eqb p pre) eqn:E; cbn [negb].
  - apply String.eqb_eq in E as ->. by rewrite app_nil_r, IH, delete_insert_eq.
  - apply String.eqb_neq in E. rewrite routes_snoc, IH. cbn [fst snd]. by rewrite delete_insert_ne by done.
Qed.

(** ** Sessions without interference *)

(** whether the message of a route can be built *)
Definition can_send (p : PyBgpPeer) (m : out_msg) : Prop := exists l, encode p m = Val l.

(** the owner leaves the session alone from the moment it is established until
    the initial routes are sent; nothing that is sent is lost *)
Definition undisturbed (p : PyBgpPeer) (e : event) : Prop :=
  match e with
  | EAnnounce pre nh ok => ok = true /\ can_send p (SAnnounce pre nh) /\ bp_phase p = Looping
  | EWithdraw pre ok => ok = true /\ can_send p (SWithdraw pre) /\ bp_phase p = Looping
  | EDump ok => ok = true
  | _ => True
  end.

Inductive session (init : PyBgpPeer) : PyBgpPeer -> Prop :=
| session_start : session init init
| session_step p e p' :
    session init p -> undisturbed p e -> bgp_step p e = Some p' -> session init p'.

(** what relates the routes sent with the list in each phase *)
Definition synced (p : PyBgpPeer) : Prop :=
  match bp_phase p with
  | Looping => rib (bp_sent p) = if established p then routes (advertise p) else ∅
  | Copying => established p = true /\ rib (bp_sent p) = ∅
  | Dumping todo => established p = true /\
      exists sent, advertise p = sent ++ todo /\ rib (bp_sent p) = routes sent
  | Ended => True
  end.

Definition sendable (p : PyBgpPeer) : Prop :=
  forall r, r ∈ advertise p -> can_send p (SAnnounce (fst r) (snd r)).

(** nothing but the list decides what can be sent *)
Definition same_id (p q : PyBgpPeer) : Prop :=
  bp_as p = bp_as q /\ bp_router_id p = bp_router_id q /\ bp_hold p = bp_hold q.

Lemma same_id_send p q m : same_id p q -> can_send p m -> can_send q m.
Proof.
  unfold same_id. intros (E1 & E2 & E3) [l Hl]. exists l. unfold encode in *. by rewrite <-E1, <-E2, <-E3.
Qed.

Lemma send_ok m p : can_send p m -> send true m p = Sent (add_sent m p).
Proof. intros [l Hl]. unfold send. by rewrite Hl. Qed.

Lemma send_ka ok p : send ok SKeepalive p = if ok then Sent (add_sent SKeepalive p) else NotSent.
Proof. reflexivity. Qed.

Lemma rib_keepalive p : rib (bp_sent (add_sent SKeepalive p)) = rib (bp_sent p).
Proof. cbn [bp_sent add_sent]. by rewrite rib_snoc. Qed.

Lemma synced_end p : synced (end_run p).
Proof. exact I. Qed.

Lemma synced_ka t ok p p' :
  bp_phase p = Looping -> synced p -> ka_due t ok p = Some p' ->
  bp_phase p' = Looping /\ synced p' /\ advertise p' = advertise p /\ same_id p p'.
Proof.
  intros Hph Hs. unfold ka_due. rewrite send_ka. case_match; [|intros; simplify_eq; done].
  destruct ok; [|done]. intros; simplify_eq. split; [done|]. split; [|done].
  unfold synced in *. cbn [bp_phase set_ka add_sent established advertise bp_sent] in *. rewrite Hph in *.
  by rewrite rib_snoc.
Qed.

Lemma synced_round t ok1 m ok2 p :
  bp_phase p = Looping -> synced p ->
  synced (round t ok1 m ok2 p) /\ advertise (round t ok1 m ok2 p) = advertise p /\ same_id p (round t ok1 m ok2 p).
Proof.
  intros Hph Hs. unfold round. destruct (stopping p); [done|].
  assert (forall q, same_id p q -> advertise q = advertise p ->
    synced (end_run q) /\ advertise (end_run q) = advertise p /\ same_id p (end_run q)) as Hend by done.
  destruct (ka_due t ok1 p) as [p1|] eqn:Ek; [|done].
  apply synced_ka in Ek as (Hph1 & Hs1 & Ha1 & Hid1); [|done..].
  destruct m as [[mt body]|]; [|by apply Hend]. unfold on_msg.
  destruct (mt =? OPEN).
  - rewrite send_ka. destruct ok2; [|by apply Hend]. split; [|done].
    unfold synced in *. cbn [bp_phase set_open add_sent established advertise bp_sent] in *. rewrite Hph1 in *.
    by rewrite rib_snoc.
  - destruct (mt =? KEEPALIVE).
    + destruct (got_open p1 && negb (established p1)) eqn:E; [|done]. split; [|done].
      apply andb_true_iff in E as [_ E%negb_true_iff]. unfold synced in *.
      cbn [bp_phase set_phase set_est established bp_sent] in *. rewrite Hph1, E in Hs1. done.
    + destruct (mt =? NOTIFICATION); [|done]. destruct body as [|c [|s b]]; by apply Hend.
Qed.

Lemma sendable_same p q : same_id p q -> advertise q = advertise p -> sendable p -> sendable q.
Proof. intros Hid Ha Hs r Hr. rewrite Ha in Hr. by eapply same_id_send, Hs. Qed.

Lemma session_inv init p :
  synced init -> sendable init -> session init p -> synced p /\ sendable p.
Proof.
  intros Hi Hsi. induction 1 as [|p e p' _ [Hs Hb] Hu E]; [done|]. destruct e as [t ok1 m ok2| |ok|pre nh ok|pre ok|]; cbn [bgp_step] in E.
  - destruct (bp_phase p) eqn:Hph; try done. injection E as <-.
    destruct (synced_round t ok1 m ok2 p Hph Hs) as (? & Ha & Hid). split; [done|]. by eapply sendable_same.
  - destruct (bp_phase p) eqn:Hph; try done. injection E as <-. split; [|done].
    unfold synced in *. rewrite Hph in Hs. cbn [bp_phase set_phase established advertise bp_sent].
    destruct Hs as [He Hr]. split; [done|]. by exists [].
  - cbn [undisturbed] in Hu. subst ok. destruct (bp_phase p) as [| |[|r todo]|] eqn:Hph; try done; injection E as <-.
    + split; [|done]. unfold synced in *. rewrite Hph in Hs. cbn [bp_phase set_phase established advertise bp_sent].
      destruct Hs as (He & sent & Ha & Hr). by rewrite He, Ha, app_nil_r.
    + unfold synced in Hs. rewrite Hph in Hs. destruct Hs as (He & sent & Ha & Hr).
      assert (can_send p (SAnnounce (fst r) (snd r))) as Hc by (apply Hb; rewrite Ha; apply elem_of_app; right; left).
      unfold dump_one. rewrite send_ok by done. split; [|done].
      unfold synced. cbn [bp_phase set_phase add_sent established advertise bp_sent].
      split; [done|]. exists (sent ++ [r]). rewrite <-app_assoc. split; [done|].
      by rewrite rib_snoc, routes_snoc, Hr.
  - destruct Hu as (-> & Hc & Hph). injection E as <-. unfold announce, owner_send.
    change (established (set_adv _ p)) with (established p).
    assert (sendable (set_adv (advertise p ++ [(pre, nh)]) p)) as Hb'.
    { intros r [Hr|Hr%list_elem_of_singleton]%elem_of_app; [by apply Hb | by subst]. }
    unfold synced in Hs. rewrite Hph in Hs. destruct (established p) eqn:He.
    + rewrite send_ok by done. split; [|done]. unfold synced.
      cbn [bp_phase set_adv add_sent established advertise bp_sent]. rewrite Hph, He.
      by rewrite rib_snoc, routes_snoc, Hs.
    + split; [|done]. unfold synced. cbn [bp_phase set_adv established bp_sent]. by rewrite Hph, He.
  - destruct Hu as (-> & Hc & Hph). injection E as <-. unfold withdraw, owner_send.
    change (established (set_adv _ p)) with (established p).
    match goal with |- context [set_adv ?l p] => assert (sendable (set_adv l p)) as Hb' end.
    { intros r Hr. apply Hb. cbn [advertise set_adv] in Hr.
      apply list_elem_of_In, filter_In in Hr as [Hr _]. by apply list_elem_of_In. }
    unfold synced in Hs. rewrite Hph in Hs. destruct (established p) eqn:He.
    + rewrite send_ok by done. split; [|done]. unfold synced.
      cbn [bp_phase set_adv add_sent established advertise bp_sent]. rewrite Hph, He.
      by rewrite rib_snoc, routes_withdraw, Hs.
    + split; [|done]. unfold synced. cbn [bp_phase set_adv established bp_sent]. by rewrite Hph, He.
  - injection E as <-. done.
Qed.

Fixpoint undisturbed_run (p : PyBgpPeer) (es : list event) : Prop :=
  match es with
  | [] => True
  | e :: es' => undisturbed p e
                /\ match bgp_step p e with Some p' => undisturbed_run p' es' | None => True end
  end.

Lemma session_run init es : forall p p',
  session init p -> undisturbed_run p es -> bgp_run p es = Some p' -> session init p'.
Proof.
  induction es as [|e es IH]; intros p p' Hs Hu E; cbn [undisturbed_run bgp_run] in *; [by simplify_eq|].
  destruct Hu as [Hu Hes]. destruct (bgp_step p e) as [q|] eqn:Eq; [|done].
  eapply IH; [by eapply session_step | done..].
Qed.

(** C3: the peer holds the advertised routes.  In every state a session can reach
    while the owner does not interfere with the initial transfer, an
    established session that is back in its loop has sent exactly the routes
    of its list: announcements and withdrawals before, between and after keep
    the receiver's table equal to it. *)
Theorem routes_in_sync (my_as hold : Z) (router_id : string) (adv : list (string * string)) (p : PyBgpPeer) :
  let init := peer_connected my_as router_id hold adv in
  sendable init -> session init p -> established p = true -> bp_phase p = Looping ->
  rib (bp_sent p) = routes (advertise p).
Proof.
  intros init Hi Hr He Hph. destruct (session_inv init p) as [Hs _]; [done..|].
  unfold synced in Hs. by rewrite Hph, He in Hs.
Qed.

Lemma routes_in_sync_witness :
  let init := peer_connected 65002 "10.99.1.2" 90 [("10.251.0.0/24", "10.80.3.3")] in
  let es := [ERound 100 true (Some (OPEN, [])) true; ERound 101 true (Some (KEEPALIVE, [])) true;
             ECopy; EDump true; EDump true; EAnnounce "10.252.0.0/24" "10.80.3.3" true] in
  exists p, bgp_run init es = Some p /\ rib (bp_sent p) = routes (advertise p).
Proof.
  intros init es. eexists. split; [vm_compute; reflexivity|].
  apply (routes_in_sync 65002 90 "10.99.1.2" [("10.251.0.0/24", "10.80.3.3")]).
  - intros r ->%list_elem_of_singleton. eexists. reflexivity.
  - apply (session_run init es init); [apply session_start| |vm_compute; reflexivity].
    vm_compute. repeat split; eexists; reflexivity.
  - reflexivity.
  - reflexivity.
Defined.

(** A withdrawal can be lost.  When the owner withdraws a route after the
    thread copied the list and before it sent the route, the withdrawal is sent
    first and the route after it: the session is established and its list
    empty, and the peer holds the route. *)
Theorem withdraw_race :
  exists p, bgp_run (peer_connected 65002 "10.99.1.2" 90 [("10.251.0.0/24", "10.80.3.3")])
      [ERound 100 true (Some (OPEN, [])) true; ERound 101 true (Some (KEEPALIVE, [])) true; ECopy;
       EWithdraw "10.251.0.0/24" true; EDump true; EDump true] = Some p
    /\ established p = true /\ bp_phase p = Looping /\ advertise p = []
    /\ rib (bp_sent p) = {["10.251.0.0/24" := "10.80.3.3"]}.
Proof.
  eexists. split; [vm_compute; reflexivity|]. split; [done|]. split; [done|]. split; [done|].
  vm_compute. reflexivity.
Qed.

(** ** What is sent is a BGP message *)

Lemma hex_val_range c d : hex_val c = Some d -> 0 <= d.
Proof. unfold hex_val, is_digit. intros E. repeat case_match; simplify_eq; break_hyps; bool_prop; rewrite ?Nat.leb_le in *; lia. Qed.
Lemma hex_of_nonneg s n : hex_of s = Some n -> 0 <= n.
Proof.
  unfold hex_of. destruct (nonempty s); [|done]. assert (forall acc, 0 <= acc -> hex_of_go acc s = Some n -> 0 <= n) as H; [|by apply H].
  induction s as [|c s IH]; intros acc Ha E; cbn [hex_of_go] in E; [by simplify_eq|].
  destruct (hex_val c) as [d|] eqn:Ed; [|done]. apply hex_val_range in Ed. apply (IH (16 * acc + d)); [lia | done].
Qed.
Lemma digits_base_nonneg b s n : 0 <= b -> forall acc, 0 <= acc -> digits_base b acc s = Some n -> 0 <= n.
Proof.
  intros Hb. induction s as [|c s IH]; intros acc Ha E; cbn [digits_base] in E; [by simplify_eq|].
  destruct (hex_val c) as [d|] eqn:Ed; [|done]. apply hex_val_range in Ed. destruct (d <? b); [|done]. apply (IH (b * acc + d)); [nia | done].
Qed.
Lemma aton_part_nonneg s n : aton_part s = Some n -> 0 <= n.
Proof. unfold aton_part. intros E. repeat case_match; try done; first [by eapply hex_of_nonneg | by eapply (digits_base_nonneg _ _ _ _ 0 _ E)]. Unshelve. all: lia. Qed.

Lemma bytes_cons b l : is_byte b -> Forall is_byte l -> Forall is_byte (b :: l).
Proof. by constructor. Qed.
Lemma bytes_app l l' : Forall is_byte l -> Forall is_byte l' -> Forall is_byte (l ++ l').
Proof. intros. by apply Forall_app. Qed.
Lemma inet_aton_bytes ip l : inet_aton ip = Val l -> Forall is_byte l.
Proof.
  unfold inet_aton. destruct (mapM aton_part _) as [ps|] eqn:E; [|done].
  apply mapM_Some in E. assert (Forall (fun n => 0 <= n) ps) as Hp.
  { clear -E. induction E; constructor; [by eapply aton_part_nonneg | done]. }
  destruct ps as [|a [|b [|c [|d [|]]]]]; try done; rewrite ?Forall_cons in Hp; break_hyps; case_match; try done; intros; simplify_eq;
    break_hyps; bool_prop;
    repeat match goal with |- Forall _ (_ :: _) => apply bytes_cons | |- Forall _ [] => apply Forall_nil_2 | |- is_byte _ => unfold is_byte; lia || (apply Z.mod_pos_bound; lia) end.
Qed.
Lemma pack_bytes n v l : pack n v = Val l -> Forall is_byte l /\ length l = n.
Proof. intros [_ ->]%pack_val. split; [apply be_bytes_byte | apply be_bytes_length]. Qed.
Lemma prefix2nlri_bytes p l : prefix2nlri p = Val l -> Forall is_byte l /\ (1 <= length l <= 5)%nat.
Proof.
  unfold prefix2nlri. destruct (split_on _ p) as [|net [|q [|]]]; try done. destruct (py_int q) as [plen|]; [|done].
  intros (o & Ho & (b & Hb & E)%obind_val)%obind_val. simplify_eq. unfold byte1 in Hb. case_match; [|done]. simplify_eq. bool_prop.
  pose proof (inet_aton_length _ _ Ho). apply inet_aton_bytes in Ho. split.
  - apply bytes_app; [|by apply Forall_take]. constructor; [|done]. unfold is_byte. break_hyps. bool_prop. lia.
  - rewrite length_app, length_take. cbn [length]. lia.
Qed.

(** the bytes of a message put together from byte strings and constants *)
Ltac bytes_go := repeat match goal with
  | |- Forall _ (_ ++ _) => apply bytes_app | |- Forall _ (_ :: _) => apply bytes_cons
  | |- Forall _ [] => apply Forall_nil_2 | |- Forall _ _ => assumption end; unfold is_byte; lia.

(** a message: marker, its own length, type, body *)
Definition bgp_message (mtype : Z) (l : list Z) : Prop :=
  Forall is_byte l /\ (19 <= length l <= 4096)%nat /\ take 16 l = MARKER /\
  unpack2 (take 2 (drop 16 l)) = Z.of_nat (length l) /\ nth 18 l 0 = mtype.
Definition type_of (m : out_msg) : Z :=
  match m with SOpen => OPEN | SKeepalive => KEEPALIVE | SAnnounce _ _ | SWithdraw _ => UPDATE end.

Lemma bgp_msg_message t body l : bgp_msg t body = Val l -> Forall is_byte body -> (length body <= 4077)%nat -> bgp_message t l.
Proof.
  unfold bgp_msg. intros (a & Ha & (b & Hb & E)%obind_val)%obind_val Hbody Hl.
  assert (MARKER ++ a ++ b ++ body = l) as <- by congruence. clear E.
  pose proof (pack_bytes _ _ _ Ha) as [Hab Hal]. pose proof (pack_bytes _ _ _ Hb) as [Hbb Hbl].
  apply pack_val in Ha as [Hr ->]. apply pack_val in Hb as [Hr2 ->]. unfold bgp_message.
  assert (length MARKER = 16%nat) as Hm by done. split; [|split; [|split; [|split]]].
  - assert (Forall is_byte MARKER) as HM by (unfold MARKER; cbn [List.repeat]; bytes_go). bytes_go.
  - rewrite !length_app, Hm, Hal, Hbl. lia.
  - by rewrite take_app_length'.
  - rewrite drop_app_length' by done. rewrite take_app_length' by done. rewrite unpack2_be by done. rewrite !length_app, Hm, Hal, Hbl. lia.
  - rewrite app_nth2, Hm by (rewrite Hm; lia). rewrite app_nth2, Hal by (rewrite Hal; lia). rewrite app_nth1 by (rewrite Hbl; lia).
    change (256 ^ Z.of_nat 1) with 256 in Hr2. cbn [Nat.sub be_bytes app nth]. by apply Z.mod_small.
Qed.

(** C37: whatever the session sends is a well-formed BGP message.  When
    building a message does not raise, for any addresses, AS number, hold time
    and prefix, it consists of bytes, begins with the marker, is between 19
    and 4096 bytes long, carries its own length and has the type of what is
    sent. *)
Theorem messages_well_formed (p : PyBgpPeer) (m : out_msg) (l : list Z) :
  encode p m = Val l -> bgp_message (type_of m) l.
Proof.
  destruct m as [| |pre nh|pre]; cbn [encode type_of].
  - unfold open_msg. intros (id & Hid & (as4 & H4 & (a2 & H2 & (h & Hh & E)%obind_val)%obind_val)%obind_val)%obind_val.
    pose proof (inet_aton_length _ _ Hid). apply inet_aton_bytes in Hid. apply pack_bytes in H4 as [B4 L4], H2 as [B2 L2], Hh as [Bh Lh].
    apply (bgp_msg_message _ _ _ E).
    + rewrite !length_app, L4. cbn [length Nat.add Z.of_nat]. bytes_go.
    + rewrite !length_app. cbn [length]. lia.
  - intros E. by apply (bgp_msg_message _ _ _ E); [|simpl; lia].
  - unfold update_announce. intros (as4 & H4 & (o & Ho & (n & Hn & (w & Hw & (al & Hal & E)%obind_val)%obind_val)%obind_val)%obind_val)%obind_val.
    pose proof (inet_aton_length _ _ Ho). apply inet_aton_bytes in Ho. apply pack_bytes in H4 as [B4 L4], Hw as [Bw Lw], Hal as [Bl Ll].
    apply prefix2nlri_bytes in Hn as [Bn Ln]. apply (bgp_msg_message _ _ _ E); [bytes_go|]. rewrite !length_app. cbn [length]. lia.
  - unfold update_withdraw. intros (n & Hn & (w & Hw & (al & Hal & E)%obind_val)%obind_val)%obind_val.
    apply pack_bytes in Hw as [Bw Lw], Hal as [Bl Ll]. apply prefix2nlri_bytes in Hn as [Bn Ln].
    apply (bgp_msg_message _ _ _ E); [bytes_go|]. rewrite !length_app. lia.
Qed.
Lemma messages_well_formed_witness :
  exists l, encode (mkPeer 65002 "10.80.3.3" 180 [] false false 0 false Looping None []) (SAnnounce "10.251.0.0/24" "10.80.3.3") = Val l /\
  bgp_message UPDATE l /\ length l = 47%nat.
Proof.
  eexists. split; [vm_compute; reflexivity|]. split; [|reflexivity].
  apply (messages_well_formed (mkPeer 65002 "10.80.3.3" 180 [] false false 0 false Looping None []) (SAnnounce "10.251.0.0/24" "10.80.3.3")).
  vm_compute. reflexivity.
Defined.
