(* ===== verification/BgpHold.v ===== *)
(** * The hold timer of the peer (servers/bgp_speaker.py)

    The loop of [_run] looks at the clock only when it comes round, and
    between two rounds it waits for a message of the peer.  Here the messages
    of a run are stamped with the time of their round, and the peer's hold
    timer is shown never to run out as long as the peer lets the loop come
    round often enough. *)

From S2P Require Import Prelude PyStr PyStrFacts Device Dut Topology Bytes Bgp BgpFacts.

(** the time of a round, and the messages a step has sent *)
Definition round_time (e : event) : option Z := match e with ERound t _ _ _ => Some t | _ => None end.
Definition round_times (es : list event) : list Z := omap round_time es.
Definition newly_sent (p p' : PyBgpPeer) : list out_msg := drop (length (bp_sent p)) (bp_sent p').

(** the messages of the rounds of a run, stamped *)
Fixpoint stamped (p : PyBgpPeer) (es : list event) : list (Z * out_msg) :=
  match es with
  | [] => []
  | e :: es' =>
      match bgp_step p e with
      | None => []
      | Some p' => match round_time e with Some t => map (pair t) (newly_sent p p') | None => [] end ++ stamped p' es'
      end
  end.

(** each round comes at most [d] after the one before *)
Fixpoint paced (d : Z) (ts : list Z) : Prop :=
  match ts with
  | t :: (t' :: _) as ts' => t <= t' <= t + d /\ paced d ts'
  | _ => True
  end.

Lemma bgp_run_app es es' : forall p, bgp_run p (es ++ es') = p ← bgp_run p es; bgp_run p es'.
Proof. induction es as [|e es IH]; intros p; [done|]. cbn [app bgp_run]. destruct (bgp_step p e); [apply IH | done]. Qed.

Lemma stamped_app es es' : forall p q, bgp_run p es = Some q -> stamped p (es ++ es') = stamped p es ++ stamped q es'.
Proof.
  induction es as [|e es IH]; intros p q; cbn [app bgp_run stamped]; [by intros [= ->]|].
  destruct (bgp_step p e) as [p'|]; [|done]. intros Hr. by rewrite (IH _ _ Hr), app_assoc.
Qed.

Lemma stamped_times es : forall p k m, (k, m) ∈ stamped p es -> k ∈ round_times es.
Proof.
  unfold round_times. induction es as [|e es IH]; intros p k m; cbn [stamped]; [by intros ?%not_elem_of_nil|].
  destruct (bgp_step p e) as [p'|]; [|by intros ?%not_elem_of_nil]. cbn [omap list_omap].
  destruct (round_time e) as [t|]; intros [Hin|Hin]%elem_of_app; try (by apply not_elem_of_nil in Hin).
  - apply list_elem_of_fmap in Hin as (? & [= -> _] & _). left.
  - right. by eapply IH.
  - by eapply IH.
Qed.

(** ** What a step does to the clock of the keepalives *)

Definition same_clock (p q : PyBgpPeer) : Prop := last_ka q = last_ka p /\ bp_hold q = bp_hold p.

Lemma send_clock ok m p q : send ok m p = Sent q -> same_clock p q /\ bp_phase q = bp_phase p.
Proof. unfold send. destruct (encode p m) as [?|[]|]; try done. destruct ok; [|done]. by intros [= <-]. Qed.

Lemma owner_clock ok m p : same_clock p (owner_send ok m p) /\ bp_phase (owner_send ok m p) = bp_phase p.
Proof.
  unfold owner_send. destruct (established p); [|done]. destruct (send ok m p) eqn:E; [by apply send_clock in E | done..].
Qed.

Lemma other_clock p e p' : round_time e = None -> bgp_step p e = Some p' ->
  same_clock p p' /\ (bp_phase p = Ended -> bp_phase p' = Ended).
Proof.
  destruct e as [| | ok | pre nh ok | pre ok |]; cbn [round_time bgp_step]; [done| | | | |]; intros _.
  - destruct (bp_phase p) eqn:Ep; try done. by intros [= <-].
  - destruct (bp_phase p) as [| | [|r todo] |] eqn:Ep; try done; intros [= <-]; [done|]. split; [|done].
    unfold dump_one. destruct (send _ _ _) eqn:E; [|done|done]. apply send_clock in E as [Hc _]. exact Hc.
  - intros [= <-]. unfold announce. set (q := set_adv _ p). destruct (owner_clock ok (SAnnounce pre nh) q) as [Hc ->]. done.
  - intros [= <-]. unfold withdraw. set (q := set_adv _ p). destruct (owner_clock ok (SWithdraw pre) q) as [Hc ->]. done.
  - by intros [= <-].
Qed.

Lemma on_msg_clock mtype body ok p : same_clock p (on_msg mtype body ok p)
  /\ exists new, bp_sent (on_msg mtype body ok p) = bp_sent p ++ new.
Proof.
  unfold on_msg.
  destruct (mtype =? OPEN).
  { rewrite send_ka. destruct ok; (split; [done|]); eexists; [done | symmetry; apply app_nil_r]. }
  assert (exists new, bp_sent p = bp_sent p ++ new) by (exists []; by rewrite app_nil_r).
  destruct (mtype =? KEEPALIVE); [by destruct (got_open p && negb (established p))|].
  destruct (mtype =? NOTIFICATION); [|done]. by destruct body as [|? [|]].
Qed.

(** a round that does not end the session leaves a keepalive younger than the
    interval: the one it sent, or the one before *)
Lemma round_clock t ok1 m ok2 p :
  let p' := round t ok1 m ok2 p in
  bp_phase p' <> Ended ->
  bp_hold p' = bp_hold p
  /\ (last_ka p' = t /\ SKeepalive ∈ newly_sent p p' \/ last_ka p' = last_ka p /\ t - last_ka p < ka_interval p).
Proof.
  intros p'. unfold p', round, ka_due. destruct (stopping p); [done|].
  destruct (ka_interval p <=? t - last_ka p) eqn:Ei; bool_prop.
  - rewrite send_ka. destruct ok1; [|done]. destruct m as [[ty body]|]; [|done]. intros _.
    set (q := set_ka t (add_sent SKeepalive p)).
    destruct (on_msg_clock ty body ok2 q) as ([Hk Hh] & new & Hs). rewrite Hh, Hk. split; [done|]. left. split; [done|].
    unfold newly_sent. rewrite Hs. unfold q. cbn [bp_sent set_ka add_sent].
    rewrite <- app_assoc, drop_app_length. left.
  - destruct m as [[ty body]|]; [|done]. intros _. destruct (on_msg_clock ty body ok2 p) as ([-> ->] & _). split; [done|]. right. split; [done | lia].
Qed.

Lemma ended_no_round es : forall p q, bgp_run p es = Some q -> bp_phase p = Ended -> round_times es = [] /\ bp_phase q = Ended.
Proof.
  unfold round_times. induction es as [|e es IH]; intros p q; cbn [bgp_run]; [by intros [= ->]|].
  destruct (bgp_step p e) as [p'|] eqn:Es; [|done]. intros Hr He. cbn [omap list_omap]. destruct (round_time e) as [t|] eqn:Et.
  - destruct e; try done. cbn [bgp_step] in Es. by rewrite He in Es.
  - destruct (other_clock _ _ _ Et Es) as [_ Hk]. by apply (IH _ _ Hr), Hk.
Qed.

(** along a run that is followed by a round, the last keepalive on record is
    one that was sent, or there was none yet *)
Lemma clock_inv init es : last_ka init = 0 -> forall p, bgp_run init es = Some p -> bp_phase p <> Ended ->
  bp_hold p = bp_hold init /\ (last_ka p = 0 \/ (last_ka p, SKeepalive) ∈ stamped init es).
Proof.
  intros H0. induction es as [|e es IH] using rev_ind; intros p; [intros [= <-] _; auto|].
  rewrite bgp_run_app. destruct (bgp_run init es) as [q|] eqn:Eq; [|done]. cbn [mbind option_bind bgp_run].
  destruct (bgp_step q e) as [q'|] eqn:Es; [|done]. intros [= ->] Hn.
  rewrite (stamped_app _ _ _ _ Eq). cbn [stamped]. rewrite Es, app_nil_r.
  assert (bp_phase q <> Ended) as Hq.
  { intros He. assert (bgp_run q [e] = Some p) as Hr by (cbn [bgp_run]; by rewrite Es). by destruct (ended_no_round _ _ _ Hr He). }
  destruct (IH _ eq_refl Hq) as [Hh Hk]. destruct (round_time e) as [t|] eqn:Et.
  - destruct e as [t' ok1 m ok2| | | | |]; try done. injection Et as ->. cbn [bgp_step] in Es.
    destruct (bp_phase q) eqn:Ep; try done. injection Es as <-.
    destruct (round_clock t ok1 m ok2 q Hn) as [-> [[-> Hin]|[-> _]]]; (split; [done|]).
    + right. apply elem_of_app. right. by apply (list_elem_of_fmap_2 (pair t)).
    + destruct Hk as [Hk|Hk]; [by left|]. right. apply elem_of_app. by left.
  - destruct (other_clock _ _ _ Et Es) as [[Hk' Hh'] _]. rewrite Hk', Hh', app_nil_r. by split.
Qed.

Lemma paced_app d ts ts' : paced d (ts ++ ts') -> paced d ts'.
Proof. induction ts as [|t ts IH]; [done|]. cbn [app paced]. destruct (ts ++ ts') eqn:E; [by destruct ts, ts' | by intros [_ ?]; apply IH]. Qed.
Lemma paced_le d ts t ts' : forall z, paced d (z :: ts ++ t :: ts') -> z <= t.
Proof.
  induction ts as [|w ts IH]; intros z; cbn [app paced]; [lia|]. intros [Hz Hp]. specialize (IH w Hp). lia.
Qed.
Lemma paced_before d ts t ts' k : paced d (ts ++ t :: ts') -> k ∈ ts -> k <= t.
Proof. intros Hp (a & b & ->)%list_elem_of_split. rewrite <- app_assoc in Hp. by apply paced_app, paced_le in Hp. Qed.

(** C5: the peer's hold timer does not run out.  In any interleaving of the
    thread, the owner's calls and the failures of the socket in which the
    rounds of the loop come at most [d] seconds apart, where the keepalive
    interval and [d] together are within the hold time [h] the two sides
    settled on: whenever the loop comes round again, a keepalive sent before
    that is younger than [h].  (With the default hold time of 90 seconds the
    interval is 30, and a peer that sends a keepalive every 30 seconds leaves
    [d] = 30, so [h] may be anything from 60.) *)
Theorem hold_timer_safe (my_as hold h d : Z) (router_id : string) (adv : list (string * string))
    (es1 mid es2 : list event) (t t' : Z) (ok1 ok1' ok2 ok2' : bool) (m m' : option (Z * list Z)) (p : PyBgpPeer) :
  let init := peer_connected my_as router_id hold adv in
  let es := es1 ++ ERound t ok1 m ok2 :: mid ++ ERound t' ok1' m' ok2' :: es2 in
  bgp_run init es = Some p ->
  paced d (round_times es) -> Forall (fun t => ka_interval init <= t) (round_times es) ->
  round_times mid = [] -> ka_interval init + d <= h ->
  exists k, (k, SKeepalive) ∈ stamped init (es1 ++ [ERound t ok1 m ok2]) /\ k <= t /\ t' - k < h.
Proof.
  intros init es Hr Hp Ht Hmid Hd. unfold es in *.
  rewrite bgp_run_app in Hr. destruct (bgp_run init es1) as [p1|] eqn:E1; [|done]. cbn [mbind option_bind bgp_run] in Hr.
  destruct (bgp_step p1 (ERound t ok1 m ok2)) as [p2|] eqn:E2; [|done].
  rewrite bgp_run_app in Hr. destruct (bgp_run p2 mid) as [p3|] eqn:E3; [|done]. cbn [mbind option_bind bgp_run] in Hr.
  assert (bp_phase p2 <> Ended) as H2.
  { intros He. destruct (ended_no_round _ _ _ E3 He) as [_ H3]. cbn [bgp_step] in Hr. by rewrite H3 in Hr. }
  assert (bgp_run init (es1 ++ [ERound t ok1 m ok2]) = Some p2) as E12.
  { rewrite bgp_run_app, E1. cbn [mbind option_bind bgp_run]. by rewrite E2. }
  destruct (clock_inv init (es1 ++ [ERound t ok1 m ok2]) eq_refl p2 E12 H2) as [Hh2 Hk].
  assert (bp_phase p1 = Looping /\ p2 = round t ok1 m ok2 p1) as [Hl ->].
  { cbn [bgp_step] in E2. destruct (bp_phase p1); try done. by injection E2 as <-. }
  destruct (clock_inv init es1 eq_refl p1 E1 ltac:(by rewrite Hl)) as [Hh1 _].
  destruct (round_clock t ok1 m ok2 p1 H2) as [_ Hc].
  assert (ka_interval p1 = ka_interval init) as Hi by (unfold ka_interval; by rewrite Hh1).
  unfold round_times in *. rewrite omap_app in Hp, Ht. cbn [omap list_omap round_time] in Hp, Ht.
  rewrite omap_app in Hp. rewrite Hmid in Hp. cbn [app omap list_omap round_time] in Hp.
  apply Forall_app in Ht as [_ Ht]. apply Forall_cons in Ht as [Ht _].
  assert (t <= t' <= t + d) as Hn by (apply paced_app in Hp; by destruct Hp).
  set (k := last_ka (round t ok1 m ok2 p1)) in *.
  assert (t - k < ka_interval init /\ (k, SKeepalive) ∈ stamped init (es1 ++ [ERound t ok1 m ok2])) as [Hy Hin].
  { assert (0 < ka_interval init) by (unfold ka_interval; lia).
    destruct Hc as [[-> _]|[-> Hlt]], Hk as [Hk|Hk]; try (split; [lia | done]); lia. }
  exists k. split; [done|]. split; [|lia].
  apply stamped_times in Hin. unfold round_times in Hin. rewrite omap_app in Hin. cbn [omap list_omap round_time] in Hin.
  apply elem_of_app in Hin as [Hin|Hin]; [by eapply paced_before | apply list_elem_of_singleton in Hin; lia].
Qed.

(** a session at 1000: the peer's OPEN, its keepalives every 30 seconds, a route
    announced and a second one withdrawn between rounds *)
Lemma hold_timer_safe_witness :
  let init := peer_connected 65002 "10.99.1.2" 90 [("10.251.0.0/24", "10.80.3.3")] in
  let es1 := [ERound 1000 true (Some (OPEN, [])) true; ERound 1001 true (Some (KEEPALIVE, [])) true; ECopy; EDump true; EDump true] in
  let mid := [EAnnounce "10.252.0.0/24" "10.80.3.3" true; EWithdraw "10.251.0.0/24" true] in
  exists k, (k, SKeepalive) ∈ stamped init (es1 ++ [ERound 1029 true (Some (KEEPALIVE, [])) true]) /\ k <= 1029 /\ 1058 - k < 60.
Proof.
  intros init es1 mid.
  eapply (hold_timer_safe 65002 90 60 30 "10.99.1.2" [("10.251.0.0/24", "10.80.3.3")] es1 mid [] 1029 1058 true true true true
    (Some (KEEPALIVE, [])) (Some (KEEPALIVE, []))).
  - vm_compute. reflexivity.
  - vm_compute. intuition discriminate.
  - vm_compute. repeat constructor; discriminate.
  - reflexivity.
  - vm_compute. discriminate.
Defined.

(** A hold time under 8 seconds defeats the keepalives: the interval is never
    under 5 seconds, so with a hold time of 3 and rounds a second apart a
    round finds no keepalive younger than the hold time. *)
Example ex_short_hold :
  let init := peer_connected 65002 "10.99.1.2" 3 [] in
  let es := map (fun t => ERound t true (Some (UPDATE, [])) true) [1000; 1001; 1002; 1003; 1004] in
  exists p, bgp_run init es = Some p /\ bp_phase p = Looping /\ stamped init es = [(1000, SKeepalive)].
Proof. eexists. vm_compute. done. Qed.
