(* ===== verification/Breakout.v ===== *)
(** * Dynamic port breakout (framework/breakout.py)

    Splitting and merging ports, and the names and lanes of the ports a split
    gives.  The table shell of the chip is a library outside the repository:
    [ChipTab] is its interface. *)

From S2P Require Import Prelude PyStr PyStrFacts PyVal Device DeviceFacts Toy CliParse Cli CliFacts Worker Profile Dut Topology Loopback Dlb.

(** the chip's table shell: whether it works, the chip port of a port, a raw
    command, forgetting cached answers, reading a table, and bytes to cells *)
Class ChipTab `{Device} := {
  ct_available : M bool;
  ct_port_id : string -> M Z;
  ct_cmd : string -> M string;
  ct_invalidate : M unit;
  ct_traverse : string -> M (list Entry);
  ct_has_table : string -> M bool;
  ct_cells : Z -> Z
}.

(** [parse_mode]: a count, an [x], a speed that ends in [G] *)
Definition parse_mode (mode : string) : outcome (Z * string) :=
  match span is_digit mode with
  | (String _ _ as n, String "x" r) =>
      match span is_digit r with
      | (String _ _ as spd, String "G" _) =>
          match uint_of n with Some k => Val (k, spd +:+ "G") | None => Exc (ValueError mode) end
      | _ => Exc (ValueError mode)
      end
  | _ => Exc (ValueError mode)
  end.

(** the lanes of a port, as integers; blank parts are left out *)
Definition parse_lanes (s : string) : outcome (list Z) :=
  map_outcome (fun x => match py_int x with Some z => Val z | None => Exc (ValueError x) end)
    (List.filter (fun x => nonempty (strip x)) (split_on ","%char s)).

(** [str(int(spd[:-1]) * 1000)] *)
Definition speed_str (spd : string) : outcome string :=
  match py_int (str_take (slen spd - 1) spd) with
  | Some g => Val (zs (g * 1000))
  | None => Exc (ValueError spd)
  end.

(** [Ethernet<base + i*per>] with its [per] lanes *)
Definition subport (base per : Z) (lanes : list Z) (speed : string) (i : nat) : string * list Z * string :=
  let p := Z.to_nat per in
  ("Ethernet" +:+ zs (base + Z.of_nat i * per), take p (drop (i * p) lanes), speed).

Definition expect_subports (parent parent_lanes mode : string) : outcome (list (string * list Z * string)) :=
  obind (parse_mode mode) (fun ns =>
  let '(n, spd) := ns in
  obind (parse_lanes parent_lanes) (fun lanes =>
  if n =? 0 then Exc ZeroDivisionError
  else
    let per := Z.of_nat (length lanes) / n in
    match trailing_digits parent with
    | None => Exc (AttributeError "group")
    | Some b =>
        match py_int b with
        | None => Exc (ValueError b)
        | Some base =>
            obind (speed_str spd) (fun speed =>
            Val (map (subport base per lanes speed) (List.seq 0 (Z.to_nat n))))
        end
    end)).

(** [re.findall(r"Ethernet\d+", text)]; the fuel is the length of the text *)
Fixpoint find_ports (fuel : nat) (s : string) : list string :=
  match fuel, s with
  | O, _ | _, "" => []
  | S f, String _ s' =>
      if starts "Ethernet" s then
        match span is_digit (str_drop 8 s) with
        | (String _ _ as ds, r) => ("Ethernet" +:+ ds) :: find_ports f r
        | _ => find_ports f s'
        end
      else find_ports f s'
  end.
Definition ports_in (text : string) : list string := sorted_strs (remove_dups (find_ports (slen text) text)).

Section Breakout.
Context `{Device} `{ShellEnv}.

(** [platform_modes]: the modes platform.json declares for the port *)
Definition platform_modes (d : Dut) (port_name : string) : M pyval :=
  let* r := sh_run ("cat /usr/share/sonic/device/" +:+ d_platform d +:+ "/platform.json 2>/dev/null") in
  if negb (nonempty (strip (out r))) then ret (VDict [])
  else match json_loads (out r) with
       | None => ret (VDict [])
       | Some (VDict data) =>
           match default (VDict []) (dget "interfaces" data) with
           | VDict intfs =>
               let p := default (VDict []) (dget port_name intfs) in
               if negb (py_bool p) then ret (VDict [])
               else match p with
                    | VDict pd => ret (default (VDict []) (dget "breakout_modes" pd))
                    | _ => raise (AttributeError "get")
                    end
           | _ => raise (AttributeError "get")
           end
       | Some _ => raise (AttributeError "get")
       end.

Definition current_mode (port : string) : M (option string) :=
  hget "CONFIG_DB" ("BREAKOUT_CFG|" +:+ port) "brkout_mode".
Definition port_entry (port : string) : M (pydict string string) := db_hgetall "CONFIG_DB" ("PORT|" +:+ port).

Definition drive_cmd (port mode : string) : string :=
  "echo y | config interface breakout " +:+ port +:+ " '" +:+ mode +:+ "' -y".
Definition res_text (r : Result) : Z * string := (rc r, out r +:+ err r).
Definition drive (port mode : string) : M (Z * string) :=
  let base := drive_cmd port mode in
  let* r := cli_run base 180000 in
  let '(c, text) := res_text r in
  if negb (c =? 0) && (contains "Dependenc" text || contains "dependenc" text) then
    let* r := cli_run (replace_all " -y" " -f -y" base) 180000 in ret (res_text r)
  else ret (c, text).

(** a hash is there *)
Definition row_there (db key : string) : M bool :=
  let* h := db_hgetall db key in ret (match h with [] => false | _ => true end).

Definition wait_ports (names : list string) (timeout interval : Z) : M bool :=
  poll_until timeout interval
    (let* cfg := all_m (fun n => row_there "CONFIG_DB" ("PORT|" +:+ n)) names in
     let* app := all_m (fun n => row_there "APPL_DB" ("PORT_TABLE:" +:+ n)) names in
     ret (cfg && app)).

Definition gone (names : list string) (timeout interval : Z) : M bool :=
  poll_until timeout interval
    (let* there := any_m (fun n => row_there "CONFIG_DB" ("PORT|" +:+ n)) names in ret (negb there)).

Record SplitRes := mkSplit {
  sp_ok : bool;
  sp_text : string;
  sp_subports : list (string * list Z * string);
  sp_mode : option string;
  sp_port : pydict string string
}.

Section Driver.
Context `{!ChipTab} (has_chip : bool).

Definition invalidate : M unit := when has_chip ct_invalidate.

Definition split (port mode : string) (timeout : Z) : M SplitRes :=
  let* pre_mode := current_mode port in
  let* pre_port := port_entry port in
  let* subs := lift (expect_subports port (or_empty (dget "lanes" pre_port)) mode) in
  let* '(c, text) := drive port mode in
  if negb (c =? 0) then ret (mkSplit false (last_chars 400 text) subs pre_mode pre_port)
  else
    let* ok := wait_ports (map (fun s => fst (fst s)) subs) timeout 2000 in
    invalidate ;;;
    ret (mkSplit ok (last_chars 400 text) subs pre_mode pre_port).

(** every member of the group, the verdict of the last one *)
Definition merge (port mode : string) (timeout : Z) : M (bool * string) :=
  let* ct := drive port mode in
  let* '(c, text) :=
    (if negb (fst ct =? 0) && contains "port group" (snd ct)
     then fold_m (fun _ peer => drive peer mode) (ports_in (snd ct)) ct
     else ret ct) in
  let* ok := (if c =? 0 then wait_ports [port] timeout 2000 else ret false) in
  invalidate ;;;
  ret (ok, last_chars 400 text).

Definition chip_loopback (port_name : string) (on : bool) : M Z :=
  let* ok := (if has_chip then ct_available else ret false) in
  if negb ok then raise (RuntimeError "chip lt diag unavailable; cannot loopback subport")
  else
    let* pid := ct_port_id port_name in
    ct_cmd ("lt PC_PORT update PORT_ID=" +:+ zs pid +:+ " LOOPBACK_MODE="
            +:+ (if on then "PC_LPBK_MAC" else "PC_LPBK_NONE")) ;;;
    ret pid.
End Driver.
End Breakout.

(** ** The ports of a split *)

Lemma parse_lanes_join (lanes : list Z) :
  parse_lanes (join "," (map zs lanes)) = Val lanes.
Proof.
  unfold parse_lanes. destruct lanes as [|z lanes]; [done|].
  change "," with (s1 ",") at 1. rewrite split_on_join; [|done|].
  2: { apply Forall_map, Forall_forall. intros x _. by apply zs_no_char. }
  generalize (z :: lanes). clear. intros l. induction l as [|x l IH]; [done|].
  cbn [map List.filter]. rewrite (strip_id _ (zs_nospace x)).
  pose proof (zs_token x) as Ht. unfold token in Ht. apply andb_true_iff in Ht as [-> _].
  cbn [map_outcome]. rewrite py_int_zs. by rewrite IH.
Qed.

Lemma take_drop_concat {A} (p n : nat) (l : list A) : length l = (n * p)%nat ->
  concat (map (fun i => take p (drop (i * p) l)) (List.seq 0 n)) = l.
Proof.
  revert l. induction n as [|n IH]; intros l Hl; [by destruct l|].
  cbn [List.seq map concat]. rewrite Nat.mul_0_l, drop_0. rewrite <-(take_drop p l) at 2. f_equal.
  rewrite <-seq_shift, map_map. rewrite <-(IH (drop p l)) at 1 by (rewrite length_drop, Hl; lia).
  f_equal. apply map_ext. intros i. by rewrite drop_drop.
Qed.

Lemma parse_mode_print (n g : Z) (rest : string) :
  0 <= n -> 0 <= g -> parse_mode (zs n +:+ "x" +:+ zs g +:+ "G" +:+ rest) = Val (n, zs g +:+ "G").
Proof.
  intros Hn Hg. unfold parse_mode. change ("x" +:+ ?t) with (String "x" t). change ("G" +:+ rest) with (String "G" rest).
  rewrite span_stop by (done || by apply zs_digits). rewrite span_stop by (done || by apply zs_digits).
  pose proof (zs_isdigit n Hn) as H1. pose proof (zs_isdigit g Hg) as H2. pose proof (py_int_digits _ H1) as H3.
  rewrite py_int_zs in H3. unfold isdigit in H1, H2.
  destruct (zs n) eqn:E1; [done|]. destruct (zs g) eqn:E2; [done|]. by rewrite <-H3.
Qed.

Lemma speed_str_print g : speed_str (zs g +:+ "G") = Val (zs (g * 1000)).
Proof.
  unfold speed_str. rewrite slen_app. cbn [slen]. rewrite Nat.add_sub, str_take_app. by rewrite py_int_zs.
Qed.

(** A split partitions its port.  For a port with a numbered name and a mode
    of [n] ports whose lanes divide evenly, the subports [expect_subports]
    derives take the parent's lanes in order, [per] each and none left out,
    are named by the parent's number plus the offset of their first lane, so
    that no two names are equal, and the first keeps the parent's number. *)
Theorem split_partitions (parent rest : string) (n g base : Z) (per : nat) (lanes : list Z) :
  trailing_digits parent = Some (zs base) -> 0 < n -> 0 <= g ->
  (0 < per)%nat -> length lanes = (Z.to_nat n * per)%nat ->
  exists subs,
    expect_subports parent (join "," (map zs lanes)) (zs n +:+ "x" +:+ zs g +:+ "G" +:+ rest) = Val subs
    /\ length subs = Z.to_nat n
    /\ concat (map (fun s => snd (fst s)) subs) = lanes
    /\ Forall (fun s => length (snd (fst s)) = per /\ snd s = zs (g * 1000)) subs
    /\ NoDup (map (fun s => fst (fst s)) subs)
    /\ (forall i s, subs !! i = Some s -> fst (fst s) = "Ethernet" +:+ zs (base + Z.of_nat i * Z.of_nat per)).
Proof.
  intros Hd Hn Hg Hper Hlen. unfold expect_subports. rewrite parse_mode_print by lia. cbn [obind].
  rewrite parse_lanes_join. cbn [obind]. rewrite (proj2 (Z.eqb_neq n 0)) by lia. rewrite Hd, py_int_zs, speed_str_print.
  cbn [obind]. assert (Z.of_nat (length lanes) / n = Z.of_nat per) as ->.
  { rewrite Hlen, Nat2Z.inj_mul, Z2Nat.id, Z.mul_comm by lia. apply Z.div_mul. lia. }
  eexists. split; [reflexivity|]. rewrite !map_map. split; [by rewrite length_map, length_seq|].
  unfold subport. rewrite Nat2Z.id. cbn [fst snd]. split; [by apply take_drop_concat|]. split; [|split].
  - apply Forall_map, Forall_forall. intros i [_ Hi]%elem_of_seq. cbn. split; [|done].
    rewrite length_take, length_drop, Hlen. nia.
  - apply NoDup_ListNoDup. apply Finite.Injective_map_NoDup; [|apply List.seq_NoDup].
    intros i j E%sapp_inv_head%zs_inj. nia.
  - intros i s Hs. apply list_lookup_fmap_Some in Hs as (j & -> & Hj). apply lookup_seq in Hj as [-> _]. done.
Qed.

Lemma split_partitions_witness :
  exists subs, expect_subports "Ethernet88" "81,82,83,84,85,86,87,88" "4x200G[100G]" = Val subs
    /\ map (fun s => fst (fst s)) subs = ["Ethernet88"; "Ethernet90"; "Ethernet92"; "Ethernet94"].
Proof.
  destruct (split_partitions "Ethernet88" "[100G]" 4 200 88 2 [81; 82; 83; 84; 85; 86; 87; 88])
    as (subs & E & Hl & _ & _ & _ & Hn); [reflexivity|lia|lia|lia|reflexivity|].
  exists subs. split; [exact E|]. destruct subs as [|a [|b [|c [|d []]]]]; try done. cbn [map].
  rewrite (Hn 0%nat a), (Hn 1%nat b), (Hn 2%nat c), (Hn 3%nat d) by done. reflexivity.
Defined.

(** more ports than lanes: every subport has the parent's name and no lane *)
Example split_too_many :
  expect_subports "Ethernet0" "1,2" "4x100G" =
  Val [("Ethernet0", [], "100000"); ("Ethernet0", [], "100000"); ("Ethernet0", [], "100000"); ("Ethernet0", [], "100000")].
Proof. reflexivity. Qed.
