(* ===== verification/BufAudit.v ===== *)
(** * Configuration against chip tables (framework/bufaudit.py)

    Each audit walks the bindings of CONFIG_DB and compares them with the
    entries of a chip table; what is missing is the list of texts the tests
    print, and [report] is the message of their assertions.  The text of an
    exception ([str(e)] in [pid_map]) is a parameter. *)

From S2P Require Import Prelude PyStr PyStrFacts PyVal Device DeviceFacts Toy CliParse Cli CliFacts Dut Topology Loopback Dlb Breakout.

(** [int(str(v).strip())], or 0 *)
Definition int0 (v : option pyval) : Z :=
  match v with
  | Some v => match py_int (strip (py_str v)) with Some n => n | None => 0 end
  | None => 0
  end.
(** ... of a field of a hash *)
Definition int0_s (v : option string) : Z :=
  match v with Some s => match py_int (strip s) with Some n => n | None => 0 end | None => 0 end.

Fixpoint z_range (a : Z) (k : nat) : list Z := match k with O => [] | S k' => a :: z_range (a + 1) k' end.

Definition expand_idx (idx_expr : string) : list Z :=
  let s := strip idx_expr in
  match cut "-"%char s with
  | Some (a, b) =>
      if isdigit a && isdigit b then
        match py_int a, py_int b with Some x, Some y => z_range x (Z.to_nat (y + 1 - x)) | _, _ => [] end
      else []
  | None => if isdigit s then match py_int s with Some n => [n] | None => [] end else []
  end.

(** [(v or "").strip("[]").split("|")[-1]] *)
Definition ref_name (v : option string) : string := key_last (strip_chars "[]" (or_empty v)).

(** [re.match(r"Ethernet\d+$", s)] *)
Definition ethernet_name (s : string) : bool := starts "Ethernet" s && isdigit (str_drop 8 s).

(** [repr] of a value of an entry and of a list *)
Fixpoint repr_val (v : pyval) : string :=
  match v with
  | VStr s => repr_str s
  | VList l => "[" +:+ join ", " (map repr_val l) +:+ "]"
  | VDict d => "{" +:+ join ", " (map (fun kv => repr_str (fst kv) +:+ ": " +:+ repr_val (snd kv)) d) +:+ "}"
  | v => py_str v
  end.
(** [str] of a field that may be absent, [e.get(name)] *)
Definition str_val (v : pyval) : string := match v with VStr s => s | v => repr_val v end.
Definition entry_field (name : string) (e : Entry) : pyval := default VNone (dget name e).
Definition repr_seq (l : list pyval) : string := repr_val (VList l).

(** what is wrong with a binding *)
Definition at_pg (port : string) (idx : Z) : string := port +:+ "/pg" +:+ zs idx.
Definition at_q (port : string) (idx : Z) : string := port +:+ "/q" +:+ zs idx.
Definition cells_off (what : string) (got want : Z) : string := "(" +:+ what +:+ zs got +:+ "c want~" +:+ zs want +:+ "c)".

(** the entries of a table by port and index *)
Definition Index : Type := pydict (pyval * pyval) Entry.
Definition index_entry (pid_field idx_field : string) (acc : Index) (e : Entry) : Index :=
  match dget pid_field e, dget idx_field e with
  | Some p, Some i => if bool_decide (p = VNone) || bool_decide (i = VNone) then acc else dset (p, i) e acc
  | _, _ => acc
  end.
Definition index (entries : list Entry) (pid_field idx_field : string) : Index :=
  fold_left (index_entry pid_field idx_field) entries [].

Definition MultiIndex : Type := pydict (pyval * pyval) (list Entry).
Definition index_multi (entries : list Entry) (pid_field idx_field : string) : MultiIndex :=
  fold_left (fun acc e =>
    match dget pid_field e, dget idx_field e with
    | Some p, Some i =>
        if bool_decide (p = VNone) || bool_decide (i = VNone) then acc
        else dset (p, i) (default [] (dget (p, i) acc) ++ [e]) acc
    | _, _ => acc
    end) entries [].

(** ** The loops: a row is passed over, right, or wrong *)

Inductive verdict := Skip | Right | Wrong (text : string).

Definition audit {A} (judge : A -> verdict) (rows : list A) : list string * Z :=
  fold_left (fun acc r =>
    match judge r with
    | Skip => acc
    | Right => (fst acc, snd acc + 1)
    | Wrong m => (fst acc ++ [m], snd acc + 1)
    end) rows ([], 0).

(** the chip port of a port *)
Definition Pids : Type := pydict string Z.
Definition Row : Type := (string * Z * string).

Definition judge_pg (profs : pydict string (pydict string string)) (ents : Index) (cells : Z -> Z) (pid : Pids)
    (r : Row) : verdict :=
  let '(port, idx, prof) := r in
  match dget port pid with
  | None => Skip
  | Some p =>
      let xoff := int0_s (dget "xoff" (default [] (dget prof profs))) in
      if xoff <=? 0 then Skip
      else
        let ent := default [] (dget (VInt p, VInt idx) ents) in
        let got := int0 (dget "HEADROOM_LIMIT_CELLS" ent) in
        let want := cells xoff in
        if bool_decide (ent = []) || (got =? 0) then Wrong (at_pg port idx +:+ "(not programmed)")
        else if 2 <? Z.abs (got - want) then Wrong (at_pg port idx +:+ cells_off "" got want) else Right
  end.

Definition judge_queue (profs : pydict string (pydict string string)) (ents : Index) (cells : Z -> Z) (pid : Pids)
    (r : Row) : verdict :=
  let '(port, idx, prof) := r in
  match dget port pid with
  | None => Skip
  | Some p =>
      let pr := default [] (dget prof profs) in
      let st := int0_s (dget "static_th" pr) in
      let mn := int0_s (dget "size" pr) in
      if (st <=? 0) && (mn <=? 0) then Skip
      else
        let ent := default [] (dget (VInt p, VInt idx) ents) in
        if bool_decide (ent = []) then Wrong (at_q port idx +:+ "(no entry)")
        else if 0 <? st then
          let '(got, want) := (int0 (dget "SHARED_LIMIT_CELLS_STATIC" ent), cells st) in
          if 2 <? Z.abs (got - want) then Wrong (at_q port idx +:+ cells_off "static " got want) else Right
        else
          let '(got, want) := (int0 (dget "MIN_GUARANTEE_CELLS" ent), cells mn) in
          if 2 <? Z.abs (got - want) then Wrong (at_q port idx +:+ cells_off "min " got want) else Right
  end.

Definition sched_mode (e : Entry) : string := str_val (entry_field "SCHED_MODE" e).
Definition is_sp (e : Entry) : bool := String.eqb (sched_mode e) "SP".

Definition judge_sched (scheds : pydict string (pydict string string)) (ents : MultiIndex) (pid : Pids) (r : Row) : verdict :=
  let '(port, idx, name) := r in
  match dget port pid with
  | None => Skip
  | Some p =>
      let s := default [] (dget name scheds) in
      let stype := upper (or_empty (dget "type" s)) in
      let weight := int0_s (dget "weight" s) in
      let dwrr := String.eqb stype "DWRR" in
      if negb (dwrr || String.eqb stype "STRICT") || (dwrr && (weight <=? 1)) then Skip
      else
        let rows := default [] (dget (VInt p, VInt idx) ents) in
        match rows with
        | [] => Wrong (at_q port idx +:+ "(no node)")
        | _ =>
            let '(ok, got, want) :=
              if dwrr then (existsb (fun e => int0 (dget "WEIGHT" e) =? weight) rows, map (entry_field "WEIGHT") rows, zs weight)
              else (existsb is_sp rows, map (fun e => VStr (sched_mode e)) rows, "SP") in
            if ok then Right else Wrong (at_q port idx +:+ "(" +:+ repr_seq got +:+ " want " +:+ want +:+ ")")
        end
  end.

Definition judge_wred (wp : pydict string (pydict string string)) (ents : Index) (pid : Pids) (r : Row) : verdict :=
  let '(port, idx, name) := r in
  match dget port pid with
  | None => Skip
  | Some p =>
      let ent := default [] (dget (VInt p, VInt idx) ents) in
      if bool_decide (ent = []) then Wrong (at_q port idx +:+ "(no entry)")
      else if negb (contains "ecn_none" (lower (or_empty (dget "ecn" (default [] (dget name wp))))))
              && negb (int0 (dget "ECN" ent) =? 1)
      then Wrong (at_q port idx +:+ "(ECN=" +:+ str_val (entry_field "ECN" ent) +:+ ")") else Right
  end.

(** a PORT_QOS_MAP row: the port and its [pfc_enable] *)
Definition judge_pfc (ents : pydict pyval Entry) (pid : Pids) (r : string * string) : verdict :=
  let '(port, enable) := r in
  match dget port pid with
  | None => Skip
  | Some p =>
      if negb (nonempty (strip enable)) then Skip
      else
        let e := default [] (dget (VInt p) ents) in
        if bool_decide (e = []) then Wrong (port +:+ "(no PC_PFC entry)")
        else if negb (int0 (dget "ENABLE_TX" e) =? 1) || negb (int0 (dget "ENABLE_RX" e) =? 1)
        then Wrong (port +:+ "(tx=" +:+ str_val (entry_field "ENABLE_TX" e) +:+ ",rx=" +:+ str_val (entry_field "ENABLE_RX" e) +:+ ")") else Right
  end.

Section Audit.
Context `{Device} `{ShellEnv} `{!ChipTab}.

(** [{k.split("|", 1)[1]: hash}] of a table; the keys come from a pattern with a bar *)
Definition table_rows (table : string) : M (pydict string (pydict string string)) :=
  let* keys := db_keys "CONFIG_DB" (table +:+ "|*") in
  fold_m (fun acc k =>
    match cut "|"%char k with
    | None => raise IndexError
    | Some (_, n) => let* h := db_hgetall "CONFIG_DB" k in ret (dset n h acc)
    end) keys [].

Definition profiles := table_rows "BUFFER_PROFILE".
Definition wred_profiles := table_rows "WRED_PROFILE".
Definition schedulers := table_rows "SCHEDULER".

Definition binding_rows (table field : string) : M (list Row) :=
  let* keys := db_keys "CONFIG_DB" (table +:+ "|*") in
  fold_m (fun acc k =>
    match split_on "|"%char k with
    | _ :: port :: idx :: _ =>
        if negb (ethernet_name port) then ret acc
        else
          let* v := hget "CONFIG_DB" k field in
          let val := ref_name v in
          ret (if nonempty val then acc ++ map (fun i => (port, i, val)) (expand_idx idx) else acc)
    | _ => ret acc
    end) keys [].

(** the chip ports that resolve, and the ports that do not with the reason *)
Definition pid_map (str_exn : exn -> string) (ports : list string) : M (Pids * list (string * string)) :=
  fold_m (fun acc p =>
    try_except (let* i := ct_port_id p in ret (dset p i (fst acc), snd acc))
               (fun e => ret (fst acc, snd acc ++ [(p, str_take 60 (str_exn e))]))) (sorted_strs ports) ([], []).

Definition config_ports : M (list string) :=
  let* keys := db_keys "CONFIG_DB" "PORT|Ethernet*" in
  map_m (fun k => match cut "|"%char k with Some (_, n) => ret n | None => raise IndexError end) keys.

Definition audit_pg_headroom (pid : Pids) : M (list string * Z) :=
  let* profs := profiles in
  let* es := ct_traverse "TM_ING_THD_PORT_PRI_GRP" in
  let* rows := binding_rows "BUFFER_PG" "profile" in
  ret (audit (judge_pg profs (index es "PORT_ID" "TM_PRI_GRP_ID") ct_cells pid) rows).

Definition audit_queue_thresholds (pid : Pids) : M (list string * Z) :=
  let* t := ct_has_table "TM_THD_UC_Q" in
  if negb t then ret ([], 0)
  else
    let* profs := profiles in
    let* es := ct_traverse "TM_THD_UC_Q" in
    let* rows := binding_rows "BUFFER_QUEUE" "profile" in
    ret (audit (judge_queue profs (index es "PORT_ID" "TM_UC_Q_ID") ct_cells pid) rows).

Definition audit_queue_schedulers (pid : Pids) : M (list string * Z) :=
  let* scheds := schedulers in
  let* es := ct_traverse "TM_SCHEDULER_NODE" in
  let* rows := binding_rows "QUEUE" "scheduler" in
  ret (audit (judge_sched scheds (index_multi es "PORT_ID" "TM_SCHEDULER_NODE_ID") pid) rows).

Definition audit_wred (pid : Pids) : M (list string * Z) :=
  let* t := ct_has_table "TM_WRED_UC_Q" in
  if negb t then ret ([], 0)
  else
    let* wp := wred_profiles in
    let* es := ct_traverse "TM_WRED_UC_Q" in
    let* rows := binding_rows "QUEUE" "wred_profile" in
    ret (audit (judge_wred wp (index es "PORT_ID" "TM_UC_Q_ID") pid) rows).

Definition pfc_index (es : list Entry) : pydict pyval Entry :=
  fold_left (fun acc e => match dget "PORT_ID" e with
                          | Some p => if bool_decide (p = VNone) then acc else dset p e acc
                          | None => acc end) es [].

Definition audit_pfc (pid : Pids) : M (list string * Z) :=
  let* t := ct_has_table "PC_PFC" in
  if negb t then ret ([], 0)
  else
    let* es := ct_traverse "PC_PFC" in
    let* keys := db_keys "CONFIG_DB" "PORT_QOS_MAP|Ethernet*" in
    let* rows := fold_m (fun acc k =>
        match cut "|"%char k with
        | None => raise IndexError
        | Some (_, port) =>
            match dget port pid with
            | None => ret acc
            | Some _ => let* v := hget "CONFIG_DB" k "pfc_enable" in ret (acc ++ [(port, or_empty v)])
            end
        end) keys [] in
    ret (audit (judge_pfc (pfc_index es) pid) rows).

Definition AUDITS : list (string * (Pids -> M (list string * Z))) :=
  [("lossless PG headroom", audit_pg_headroom);
   ("egress queue thresholds", audit_queue_thresholds);
   ("queue schedulers", audit_queue_schedulers);
   ("queue WRED/ECN", audit_wred);
   ("port PFC enable", audit_pfc)].
End Audit.

(** the message of an assertion, with the first [show] of the missing ones;
    the dash of the text is its UTF-8 bytes *)
Definition EM_DASH : string := String (ascii_of_nat 226) (String (ascii_of_nat 128) (s1 (ascii_of_nat 148))).
Definition report (kind : string) (missing : list string) (checked : Z) (show : nat) (extra : string) : string :=
  ns (length missing) +:+ "/" +:+ zs checked +:+ " " +:+ kind +:+ " present in CONFIG_DB were NOT programmed "
  +:+ "to the chip: " +:+ repr_seq (map VStr (take show missing))
  +:+ (if (show <? length missing)%nat then " (+" +:+ ns (length missing - show) +:+ " more)" else "")
  +:+ ". Config plane accepted every one of them " +:+ EM_DASH +:+ " this is the silent "
  +:+ "bulk-config event-loss class. " +:+ extra.

Example report_ex :
  report "queue schedulers" ["Ethernet0/q1(no node)"; "Ethernet0/q2(['RR'] want SP)"] 5 1 "" =
  "2/5 queue schedulers present in CONFIG_DB were NOT programmed to the chip: ['Ethernet0/q1(no node)'] (+1 more). Config plane accepted every one of them "
  +:+ EM_DASH +:+ " this is the silent bulk-config event-loss class. ".
Proof. vm_compute. reflexivity. Qed.
Example judge_sched_ex :
  judge_sched [("s", [("type", "dwrr"); ("weight", "80")])]
    (index_multi [[("PORT_ID", VInt 1); ("TM_SCHEDULER_NODE_ID", VInt 3); ("WEIGHT", VInt 1)];
                  [("PORT_ID", VInt 1); ("TM_SCHEDULER_NODE_ID", VInt 3); ("WEIGHT", VStr "7")];
                  [("PORT_ID", VInt 1); ("TM_SCHEDULER_NODE_ID", VInt 3)]] "PORT_ID" "TM_SCHEDULER_NODE_ID")
    [("Ethernet0", 1)] ("Ethernet0", 3, "s") = Wrong "Ethernet0/q3([1, '7', None] want 80)".
Proof. vm_compute. reflexivity. Qed.

(** ** The verdicts *)

Definition is_skip (v : verdict) : bool := match v with Skip => true | _ => false end.
Definition wrongs (v : verdict) : list string := match v with Wrong m => [m] | _ => [] end.

(** an audit lists every wrong row, in order, and counts the rows judged *)
Lemma audit_spec {A} (judge : A -> verdict) rows :
  audit judge rows = (flat_map (fun r => wrongs (judge r)) rows,
                      Z.of_nat (length (List.filter (fun r => negb (is_skip (judge r))) rows))).
Proof.
  unfold audit. enough (forall acc, fold_left (fun acc r =>
    match judge r with
    | Skip => acc
    | Right => (fst acc, snd acc + 1)
    | Wrong m => (fst acc ++ [m], snd acc + 1)
    end) rows acc = (fst acc ++ flat_map (fun r => wrongs (judge r)) rows,
      snd acc + Z.of_nat (length (List.filter (fun r => negb (is_skip (judge r))) rows)))) as He by apply He.
  induction rows as [|r rows IH]; intros [ms n]; cbn [fold_left flat_map List.filter].
  - by rewrite app_nil_r, Z.add_0_r.
  - destruct (judge r) as [| |m]; cbn [wrongs is_skip negb app length]; rewrite IH; cbn [fst snd]; f_equal;
      rewrite <-?app_assoc, ?Nat2Z.inj_succ; (done || lia).
Qed.

(** the entry a table holds for a port and an index: the last one *)
Definition entry_for (pid_field idx_field : string) (p i : pyval) (e : Entry) : bool :=
  bool_decide (dget pid_field e = Some p) && bool_decide (dget idx_field e = Some i).

Lemma index_get entries pf xf p i :
  p <> VNone -> i <> VNone ->
  dget (p, i) (index entries pf xf) = last (List.filter (entry_for pf xf p i) entries).
Proof.
  intros Hp Hi. unfold index. induction entries as [|e es IH] using rev_ind; [done|].
  rewrite fold_left_app, List.filter_app. cbn [fold_left List.filter]. unfold index_entry at 1. unfold entry_for at 2.
  destruct (dget pf e) as [q|] eqn:Eq, (dget xf e) as [j|] eqn:Ej;
    try (rewrite ?bool_decide_false by done; cbn [andb]; rewrite ?andb_false_r, app_nil_r; exact IH).
  destruct (decide ((q, j) = (p, i))) as [Heq|Hne].
  - injection Heq as -> ->.
    rewrite (bool_decide_false (p = VNone)), (bool_decide_false (i = VNone)), !bool_decide_true by done.
    cbn [andb orb]. by rewrite dget_dset_eq, last_snoc.
  - replace (bool_decide (Some q = Some p) && bool_decide (Some j = Some i)) with false
      by (symmetry; apply andb_false_iff; rewrite !bool_decide_eq_false; destruct (decide (q = p)); [right|left]; congruence).
    rewrite app_nil_r. case_match; [exact IH|]. rewrite dget_dset_ne by congruence. exact IH.
Qed.

(** The headroom audit has no false green and no false red.  It reports
    nothing wrong exactly when, for every expanded binding of a known port to a
    profile with a positive [xoff], the last entry of the chip table for that
    port and priority group has a non-zero headroom within two cells of the
    profile's; and its count is the number of those bindings. *)
Theorem pg_audit_exact (profs : pydict string (pydict string string)) (es : list Entry)
    (cells : Z -> Z) (pid : Pids) (rows : list Row) :
  let res := audit (judge_pg profs (index es "PORT_ID" "TM_PRI_GRP_ID") cells pid) rows in
  let xoff prof := int0_s (dget "xoff" (default [] (dget prof profs))) in
  let judged (r : Row) := let '(port, _, prof) := r in dmem port pid && (0 <? xoff prof) in
  (fst res = [] <->
   forall port idx prof p, (port, idx, prof) ∈ rows -> dget port pid = Some p -> 0 < xoff prof ->
     exists e, last (List.filter (entry_for "PORT_ID" "TM_PRI_GRP_ID" (VInt p) (VInt idx)) es) = Some e
       /\ int0 (dget "HEADROOM_LIMIT_CELLS" e) <> 0
       /\ Z.abs (int0 (dget "HEADROOM_LIMIT_CELLS" e) - cells (xoff prof)) <= 2)
  /\ snd res = Z.of_nat (length (List.filter judged rows)).
Proof.
  intros res xoff judged. unfold res. rewrite audit_spec. cbn [fst snd].
  set (judge := judge_pg profs (index es "PORT_ID" "TM_PRI_GRP_ID") cells pid).
  split.
  - assert (flat_map (fun r => wrongs (judge r)) rows = [] <-> forall r, r ∈ rows -> wrongs (judge r) = []) as ->.
    { clear. induction rows as [|r rows IH]; cbn [flat_map]; [split; [by intros _ r Hr%not_elem_of_nil | done]|].
      rewrite app_nil, IH. split.
      - intros [Hr Hrs] x [->|Hx]%elem_of_cons; auto.
      - intros Ha. split; [apply Ha; left | intros x Hx; apply Ha; by right]. }
    assert (forall port idx prof, wrongs (judge (port, idx, prof)) = [] <->
      forall p, dget port pid = Some p -> 0 < xoff prof ->
      exists e, last (List.filter (entry_for "PORT_ID" "TM_PRI_GRP_ID" (VInt p) (VInt idx)) es) = Some e
       /\ int0 (dget "HEADROOM_LIMIT_CELLS" e) <> 0
       /\ Z.abs (int0 (dget "HEADROOM_LIMIT_CELLS" e) - cells (xoff prof)) <= 2) as Hj.
    { intros port idx prof. unfold judge, judge_pg. cbv zeta. fold (xoff prof).
      destruct (dget port pid) as [p|] eqn:Ep; [|by split].
      destruct (xoff prof <=? 0) eqn:Ex; [apply Z.leb_le in Ex; split; [intros _ q Hq Hx; lia | done]|].
      apply Z.leb_gt in Ex. rewrite index_get by done.
      destruct (last _) as [e|] eqn:El; cbn [from_option id];
        [|rewrite bool_decide_true by done; split; [done | intros Ha; destruct (Ha p eq_refl Ex) as (e & E' & _); congruence]].
      destruct (bool_decide _) eqn:Ee; cbn [orb].
      { apply bool_decide_eq_true in Ee as ->. split; [done|]. intros Ha.
        destruct (Ha p eq_refl Ex) as (e' & E' & Hnz & _). rewrite El in E'. by injection E' as <-. }
      destruct (int0 (dget "HEADROOM_LIMIT_CELLS" e) =? 0) eqn:E0.
      { apply Z.eqb_eq in E0. split; [done|]. intros Ha.
        destruct (Ha p eq_refl Ex) as (e' & E' & Hnz & _). rewrite El in E'. by injection E' as <-. }
      apply Z.eqb_neq in E0. destruct (2 <? _) eqn:E2.
      - apply Z.ltb_lt in E2. split; [done|]. intros Ha.
        destruct (Ha p eq_refl Ex) as (e' & E' & _ & Hle). rewrite El in E'. injection E' as <-. lia.
      - apply Z.ltb_ge in E2. split; [|done]. intros _ q Hq _. injection Hq as <-. exists e. done. }
    split.
    + intros Ha port idx prof p Hin Hp Hx. apply (Hj port idx prof); [by apply Ha | done..].
    + intros Ha [[port idx] prof] Hin. apply Hj. intros p. by apply Ha.
  - f_equal. f_equal. apply List.filter_ext. intros [[port idx] prof]. unfold judge, judge_pg, judged. fold (xoff prof).
    unfold dmem. destruct (dget port pid); [|done]. rewrite Z.leb_antisym. destruct (0 <? xoff prof); cbn [negb andb]; [|done].
    repeat case_match; done.
Qed.

Lemma pg_audit_exact_witness :
  let es := [[("PORT_ID", VInt 1); ("TM_PRI_GRP_ID", VInt 3); ("HEADROOM_LIMIT_CELLS", VInt 801)]] in
  fst (audit (judge_pg [("prof", [("xoff", "203200")])] (index es "PORT_ID" "TM_PRI_GRP_ID") (fun b => b / 254)
         [("Ethernet0", 1)]) [("Ethernet0", 3, "prof")]) = [].
Proof.
  intros es.
  apply (pg_audit_exact [("prof", [("xoff", "203200")])] es (fun b => b / 254) [("Ethernet0", 1)] [("Ethernet0", 3, "prof")]).
  intros port idx prof p Hin Hp _. apply list_elem_of_singleton in Hin. injection Hin as -> -> ->.
  vm_compute in Hp. injection Hp as <-. eexists. split; [vm_compute; reflexivity|].
  split; [vm_compute; discriminate | vm_compute; discriminate].
Defined.
