(* ===== verification/Lossless.v ===== *)
(** * Lossless priority groups (framework/lossless.py)

    Building one lossless priority group on a port through the product CLI,
    with read-backs as verdicts and undo steps, and schedulers and queue
    bindings.  An undo step is an operation of the session.  The texts kept
    for the post-mortem are left out of the steps. *)

From S2P Require Import Prelude PyStr PyStrFacts PyVal Device DeviceFacts Toy CliParse Cli CliFacts Worker Profile Dut Topology Loopback Gcu Qos Dlb Breakout BufAudit.

(** a regular-expression test [(^|\s)flag(\s|,)]: the flag as a word *)
Fixpoint flag_from (flag s : string) (at_start : bool) : bool :=
  match s with
  | "" => false
  | String c s' =>
      (at_start && starts flag s
         && match str_drop (slen flag) s with String d _ => is_space d || Ascii.eqb d "," | "" => false end)
      || flag_from flag s' (is_space c)
  end.
Definition has_flag (flag help : string) : bool := flag_from flag help true.

Section Lossless.
Context `{Device} `{ShellEnv}.

(** [queue] is always [pg]; [pool] and [pool_created] are never assigned after
    the constructor *)
Record LosslessBuild := mkBuild {
  lb_port : string;
  lb_pg : Z;
  lb_dscp : Z;
  lb_tc : string;
  lb_profile : option string;
  lb_xoff : option Z;
  lb_size : option Z;
  lb_maps : list (string * string);
  lb_steps : list (string * bool);
  lb_undo : list (M unit)
}.

Definition add_step (s : string) (ok : bool) (b : LosslessBuild) : LosslessBuild :=
  mkBuild (lb_port b) (lb_pg b) (lb_dscp b) (lb_tc b) (lb_profile b) (lb_xoff b) (lb_size b)
    (lb_maps b) (lb_steps b ++ [(s, ok)]) (lb_undo b).
Definition add_map (t name : string) (b : LosslessBuild) : LosslessBuild :=
  mkBuild (lb_port b) (lb_pg b) (lb_dscp b) (lb_tc b) (lb_profile b) (lb_xoff b) (lb_size b)
    (lb_maps b ++ [(t, name)]) (lb_steps b) (lb_undo b).
(** [defer] *)
Definition defer (fn : M unit) (b : LosslessBuild) : LosslessBuild :=
  mkBuild (lb_port b) (lb_pg b) (lb_dscp b) (lb_tc b) (lb_profile b) (lb_xoff b) (lb_size b)
    (lb_maps b) (lb_steps b) (lb_undo b ++ [fn]).
Definition set_buffer (prof : string) (xoff size : Z) (b : LosslessBuild) : LosslessBuild :=
  mkBuild (lb_port b) (lb_pg b) (lb_dscp b) (lb_tc b) (Some prof) (Some xoff) (Some size)
    (lb_maps b) (lb_steps b) (lb_undo b).

(** [undo] *)
Definition build_undo (b : LosslessBuild) : M unit := for_each (rev (lb_undo b)) quietly.

Definition help_flags (cmd : string) : M string :=
  let* r := sh_run ("config " +:+ cmd +:+ " --help") in
  ret (if rc r =? 0 then out r else "").

Definition pfc_enabled_set (port : string) : M (gset Z) :=
  let* raw := hget "CONFIG_DB" ("PORT_QOS_MAP|" +:+ port) "pfc_enable" in
  ret (parse_prios (or_empty raw)).

Definition pfcwd_blocked (port : string) : M bool := row_there "CONFIG_DB" ("PFC_WD|" +:+ port).

Definition pick_pfc_port (topo : Topology) (roles : list string) : M (option Port * string) :=
  let cands := omap (fun r => match topo_port topo r with Val p => Some p | _ => None end) roles in
  let* clean := first_m (fun p => let* b := pfcwd_blocked (p_name p) in
                                  ret (if b then None else Some p)) cands in
  ret (match clean with
       | Some p => (Some p, "clean")
       | None => match cands with c :: _ => (Some c, "all-blocked") | [] => (None, "no-candidate") end
       end).

Definition pick_pg (port : string) (prefer : Z) : M (Z * string) :=
  let* enabled := pfc_enabled_set port in
  let cands := prefer :: List.filter (fun p => negb (p =? prefer)) [3; 4; 2; 1; 5] in
  match find (fun p => bool_decide (p ∈ enabled)) cands with
  | Some p => ret (p, "existing-pfc")
  | None =>
      let* fresh := first_m (fun p => let* b := row_there "CONFIG_DB" ("BUFFER_PG|" +:+ port +:+ "|" +:+ zs p) in
                                      ret (if b then None else Some p)) cands in
      ret (match fresh with Some p => (p, "fresh") | None => (prefer, "conflicted") end)
  end.

(** [_int0(h.get(a)) or _int0(h.get(b))] *)
Definition int_or (a b : string) (h : pydict string string) : Z :=
  let x := match dget a h with Some s => default 0 (py_int s) | None => 0 end in
  if x =? 0 then match dget b h with Some s => default 0 (py_int s) | None => 0 end else x.

Definition threshold (static_th_bytes dynamic_th : option Z) : string :=
  match static_th_bytes, dynamic_th with
  | Some s, None => if s =? 0 then "--dynamic-th 1" else "--static-th " +:+ zs s
  | _, Some d => "--dynamic-th " +:+ zs d
  | None, None => "--dynamic-th 1"
  end.

(** the default maps carry the code point to the class and the class to the queue *)
Definition check_default_maps (b : LosslessBuild) : M LosslessBuild :=
  let* got_tc := hget "CONFIG_DB" "DSCP_TO_TC_MAP|default" (zs (lb_dscp b)) in
  let b := add_step "default_dscp_to_tc" (bool_decide (got_tc = Some (lb_tc b))) b in
  let* got_q := hget "CONFIG_DB" "TC_TO_QUEUE_MAP|default" (lb_tc b) in
  ret (add_step "default_tc_to_queue" (bool_decide (got_q = Some (zs (lb_pg b)))) b).

(** a group that is bound already is only recorded *)
Definition adopt_existing (b : LosslessBuild) (existing : pydict string string) : M LosslessBuild :=
  let prof := ref_name (dget "profile" existing) in
  let* ph := db_hgetall "CONFIG_DB" ("BUFFER_PROFILE|" +:+ prof) in
  let b := set_buffer prof (int_or "xoff" "headroom" ph) (int_or "size" "min_th" ph) b in
  let b := add_step "bind_pg" true b in
  let* on := pfc_enabled_set (lb_port b) in
  ret (add_step "pfc_on" (bool_decide (lb_pg b ∈ on)) b).

(** the undo steps *)
Definition del_profile (prof : string) : M unit :=
  config_raw ("buffer profile del " +:+ prof) ;;; ret tt.
Definition del_group (port : string) (pg : Z) : M unit :=
  config_raw ("interface buffer priority-group lossless del " +:+ port +:+ " " +:+ zs pg) ;;; ret tt.

(** the two commands of a build *)
Definition create_cmd (prof : string) (headroom_bytes min_bytes : Z) (static_th_bytes dynamic_th : option Z) (xon_offset : Z) : string :=
  "buffer profile add " +:+ prof +:+ " --headroom " +:+ zs headroom_bytes
  +:+ " --xon-offset " +:+ zs xon_offset +:+ " --min-th " +:+ zs min_bytes
  +:+ " " +:+ threshold static_th_bytes dynamic_th.
Definition bind_cmd (port : string) (pg : Z) (prof : string) : string :=
  "interface buffer priority-group lossless add " +:+ port +:+ " " +:+ zs pg +:+ " " +:+ prof.

Definition build_lossless (port : string) (dscp pg headroom_bytes min_bytes : Z)
    (static_th_bytes dynamic_th : option Z) (xon_offset : Z) (prefix : string) : M LosslessBuild :=
  let* _ := lift (tc_name pg) in
  let* pm := pick_pg port pg in
  let pg := fst pm in
  let* tc := lift (tc_name pg) in
  let b := add_step "pick_pg" true (mkBuild port pg dscp tc None None None [] [] []) in
  let* b := check_default_maps b in
  let pg_key := "BUFFER_PG|" +:+ port +:+ "|" +:+ zs pg in
  let* existing := db_hgetall "CONFIG_DB" pg_key in
  match existing with
  | _ :: _ => adopt_existing b existing
  | [] =>
      let prof := prefix +:+ "_prof" in
      config_raw (create_cmd prof headroom_bytes min_bytes static_th_bytes dynamic_th xon_offset) ;;;
      let* ok_prof := row_there "CONFIG_DB" ("BUFFER_PROFILE|" +:+ prof) in
      let b := add_step "create_profile" ok_prof b in
      if negb ok_prof then ret b
      else
        let b := defer (del_profile prof) b in
        let* ph := db_hgetall "CONFIG_DB" ("BUFFER_PROFILE|" +:+ prof) in
        let xoff := int_or "xoff" "headroom" ph in
        let size := int_or "size" "min_th" ph in
        let b := set_buffer prof (if xoff =? 0 then headroom_bytes else xoff)
                   (if size =? 0 then min_bytes else size) b in
        config_raw (bind_cmd port pg prof) ;;;
        let* landed := poll_tries 8 1000 (row_there "CONFIG_DB" pg_key) in
        let b := add_step "bind_pg" landed b in
        let b := if landed
                 then defer (del_group port pg) b
                 else b in
        let* pfc_ok := poll_tries 6 1000 (let* on := pfc_enabled_set port in ret (bool_decide (pg ∈ on))) in
        let b := add_step "pfc_on" pfc_ok b in
        sleep 3000 ;;;
        ret b
  end.

(** [flag(f)]: the long or the short spelling the help text has *)
Definition find_flag (help f : string) : option string :=
  find (fun cand => has_flag cand help) ["--" +:+ f; "-" +:+ f].

Definition opt_arg (help f v : string) : string :=
  match find_flag help f with Some fl => " " +:+ fl +:+ " " +:+ v | None => "" end.

(** the rate options; [pir] brings a default [pbs] *)
Definition rate_args (help : string) (pir pbs : option string) : string :=
  let a := match pir with Some v => opt_arg help "pir" v | None => "" end in
  let pbs := match pir, pbs with Some _, None => Some "8192" | _, _ => pbs end in
  let a := a +:+ match pbs with Some v => opt_arg help "pbs" v | None => "" end in
  if nonempty a then a +:+ opt_arg help "meter-type" "bytes" else a.

(** up to eight deletions until the row is gone *)
Definition del_scheduler (name : string) : M unit :=
  poll_tries 8 500
    (let* there := row_there "CONFIG_DB" ("SCHEDULER|" +:+ name) in
     if negb there then ret true else config_raw ("scheduler del " +:+ name) ;;; ret false) ;;;
  ret tt.

(** whether it landed, how to undo it, and the text of the failure *)
Definition make_scheduler (name mode : string) (weight pir pbs : option string) : M (bool * M unit * string) :=
  let key := "SCHEDULER|" +:+ name in
  let* old := row_there "CONFIG_DB" key in
  when old (config_raw ("scheduler del " +:+ name) ;;; sleep 1000) ;;;
  let base := "scheduler add " +:+ name +:+ " -t " +:+ mode
              +:+ match weight with Some w => " -w " +:+ w | None => "" end in
  let* h := help_flags "scheduler add" in
  let extra := rate_args h pir pbs in
  let* '(c, r) := config_raw (base +:+ extra) in
  let text := strip (out r +:+ err r) in
  let* '(c, text) :=
    (match (if negb (c =? 0) && contains "cir" (lower text) then find_flag h "cir" else None) with
     | Some cir =>
         let retry := base +:+ " " +:+ cir +:+ " 0" +:+ opt_arg h "cbs" "0" +:+ extra in
         let* '(c, r) := config_raw retry in ret (c, strip (out r +:+ err r))
     | None => ret (c, text)
     end) in
  let* landed := row_there "CONFIG_DB" key in
  if negb landed then
    let t := last_chars 300 text in
    ret (false, ret tt, if nonempty t then t else "rc=" +:+ zs c +:+ ", no CLI output")
  else ret (true, del_scheduler name, "").

(** the scheduler rebuilt with the full meter parameter set *)
Definition rebuild_cmd (sched : string) (h : pydict string string) : string :=
  "scheduler add " +:+ sched
  +:+ (if truthy (dget "type" h) then " -t " +:+ or_empty (dget "type" h) else "")
  +:+ (if isdigit (or_empty (dget "weight" h)) then " -w " +:+ or_empty (dget "weight" h) else "")
  +:+ " -m bytes -cr 1 -cs 8192 -pr 100000000 -ps 8192".

Definition bind_queue (port q : string) (sched wred : option string) : M (bool * M unit) :=
  let cmd := "port-queue add " +:+ port +:+ " " +:+ q
             +:+ (if truthy sched then " -s " +:+ or_empty sched else "")
             +:+ (if truthy wred then " -w " +:+ or_empty wred else "") in
  let bound := row_there "CONFIG_DB" ("QUEUE|" +:+ port +:+ "|" +:+ q) in
  let* '(_, r) := config_raw cmd in
  let text := last_chars 200 (out r +:+ err r) in
  let* landed := poll_tries 5 1000 bound in
  let* landed :=
    (if negb landed && truthy sched && contains "requires cir and cbs" text then
       let s := or_empty sched in
       let* h := db_hgetall "CONFIG_DB" ("SCHEDULER|" +:+ s) in
       config_raw ("scheduler del " +:+ s) ;;;
       sleep 1000 ;;;
       config_raw (rebuild_cmd s h) ;;;
       config_raw cmd ;;;
       poll_tries 5 1000 bound
     else ret landed) in
  ret (if landed then (true, config_raw ("port-queue del " +:+ port +:+ " " +:+ q) ;;; ret tt) else (false, ret tt)).

Definition pick_ingress_pool : M (option string) :=
  let* keys := db_keys "CONFIG_DB" "BUFFER_POOL|*" in
  first_m (fun k =>
    let* h := db_hgetall "CONFIG_DB" k in
    let t := default "ingress" (dget "type" h) in
    if bool_decide (t ∈ ["ingress"; "both"]) then
      match cut "|"%char k with Some (_, n) => ret (Some n) | None => raise IndexError end
    else ret None) keys.

Definition cli_map (b : LosslessBuild) (cmd table name : string) : M LosslessBuild :=
  let* '(c, _) := config_raw cmd in
  let b := add_step ("map:" +:+ table) (c =? 0) b in
  if c =? 0 then
    let b := add_map table name b in
    match split_ws cmd with
    | grp :: _ => ret (defer (config_raw (grp +:+ " del " +:+ name) ;;; ret tt) b)
    | [] => raise IndexError
    end
  else ret b.

(** ** The undo list of a build *)

Definition step_ok (s : string) (b : LosslessBuild) : bool :=
  existsb (fun p => String.eqb (fst p) s && snd p) (lb_steps b).

(** what a build looks at, one look after the other from [w] on: the group's
    row, which exists already or not; and then the profile's row in the world
    the creating command has left, and, when it is there, the group's row, up
    to eight times from the world the binding command has left *)
Inductive looked (port : string) (pg : Z) (prof create : string) : World -> bool -> bool -> bool -> Prop :=
| looked_taken w row fields w1 :
    db_hgetall "CONFIG_DB" ("BUFFER_PG|" +:+ port +:+ "|" +:+ zs pg) w = (Val (row :: fields), w1) ->
    looked port pg prof create w true false false
| looked_refused w w1 c w2 w3 :
    db_hgetall "CONFIG_DB" ("BUFFER_PG|" +:+ port +:+ "|" +:+ zs pg) w = (Val [], w1) ->
    config_raw create w1 = (Val c, w2) ->
    row_there "CONFIG_DB" ("BUFFER_PROFILE|" +:+ prof) w2 = (Val false, w3) ->
    looked port pg prof create w false false false
| looked_made w w1 c w2 w3 row w4 c2 w5 landed w6 :
    db_hgetall "CONFIG_DB" ("BUFFER_PG|" +:+ port +:+ "|" +:+ zs pg) w = (Val [], w1) ->
    config_raw create w1 = (Val c, w2) ->
    row_there "CONFIG_DB" ("BUFFER_PROFILE|" +:+ prof) w2 = (Val true, w3) ->
    db_hgetall "CONFIG_DB" ("BUFFER_PROFILE|" +:+ prof) w3 = (Val row, w4) ->
    config_raw (bind_cmd port pg prof) w4 = (Val c2, w5) ->
    poll_tries 8 1000 (row_there "CONFIG_DB" ("BUFFER_PG|" +:+ port +:+ "|" +:+ zs pg)) w5 = (Val landed, w6) ->
    looked port pg prof create w false true landed.

Lemma check_maps_adds b w b' w' : check_default_maps b w = (Val b', w') ->
  exists x y, b' = add_step "default_tc_to_queue" y (add_step "default_dscp_to_tc" x b).
Proof. unfold check_default_maps. intros R. run_inv. eauto. Qed.

(** C35: [build_lossless] defers the deletion of exactly the objects that it
    saw land.  After the choice of the group and the look at the default maps,
    the build looks at CONFIG_DB ([looked]): the deletion of the profile is
    deferred when its row was there right after the creating command, whatever
    that command returned, and the deletion of the binding when one of the
    read-backs after the binding command found its row.  A group that was
    bound before is never undone.  [undo] removes the binding before the
    profile it refers to, and goes on when a deletion raises. *)
Theorem build_undo_exact port dscp pg hr mn st dy xo prefix w b w' :
  build_lossless port dscp pg hr mn st dy xo prefix w = (Val b, w') ->
  let prof := prefix +:+ "_prof" in
  exists how wa b0 b1 w0 taken created bound,
    pick_pg port pg w = (Val (lb_pg b, how), wa) /\ check_default_maps b0 wa = (Val b1, w0) /\
    looked port (lb_pg b) prof (create_cmd prof hr mn st dy xo) w0 taken created bound /\
    step_ok "create_profile" b = created /\ step_ok "bind_pg" b = taken || bound /\
    lb_undo b = (if created then [del_profile prof] else []) ++ (if bound then [del_group port (lb_pg b)] else []) /\
    build_undo b = for_each ((if bound then [del_group port (lb_pg b)] else [])
                             ++ (if created then [del_profile prof] else [])) quietly.
Proof.
  intros R prof. unfold build_lossless in R. run_inv. unfold lift in *. simplify_eq.
  match goal with R : pick_pg _ _ _ = (Val ?x, _) |- _ => destruct x as [pg' how] end. cbn [fst] in *.
  match goal with R : check_default_maps _ _ = _ |- _ => pose proof (check_maps_adds _ _ _ _ R) as (x & y & ->) end.
  match goal with R : match ?e with _ => _ end _ = _ |- _ => destruct e as [|row fields] eqn:Ex; [|unfold adopt_existing in R] end; run_inv.
  - match goal with R : (if negb ?c then _ else _) _ = _ |- _ => destruct c eqn:Ec end; cbn [negb] in *; run_inv.
    + match goal with R : poll_tries 8 _ _ _ = (Val ?c, _) |- _ => destruct c eqn:El end;
        eexists how, _, _, _, _, false, true, _; (split; [done|]); (split; [done|]); (split; [by eapply looked_made|]); done.
    + eexists how, _, _, _, _, false, false, false. split; [done|]. split; [done|]. split; [by eapply looked_refused|]. done.
  - eexists how, _, _, _, _, true, false, false. split; [done|]. split; [done|]. split; [by eapply looked_taken|]. done.
Qed.

End Lossless.

Example has_flag_ex :
  map (fun f => has_flag f "Usage: x [OPTIONS] -pr, --pir INTEGER  rate") ["--pir"; "-pir"; "-pr"; "--pi"] =
  [true; false; true; false].
Proof. reflexivity. Qed.

(** a switch whose CONFIG_DB gets the profile and then the binding *)
Definition lossless_dev : Device := state_device (fun c (s : Z) =>
  let m := call_cmd c in
  if contains "buffer profile add" m then (ok_out "", 1)
  else if contains "lossless add" m then (ok_out "", 2)
  else if contains "BUFFER_PROFILE|" m && (1 <=? s) then (ok_out ("xoff" +:+ s1 lf +:+ "203200"), s)
  else if contains "BUFFER_PG|" m && (2 <=? s) then (ok_out ("profile" +:+ s1 lf +:+ "FVTLL_prof"), s)
  else if contains "PORT_QOS_MAP|" m && (2 <=? s) then (ok_out ("pfc_enable" +:+ s1 lf +:+ "3"), s)
  else (ok_out "", s)).

(** the build on this switch creates the profile and binds the group; both
    were seen in CONFIG_DB *)
Lemma build_undo_exact_witness :
  exists (b : @LosslessBuild lossless_dev) w' w0,
  @build_lossless lossless_dev plain_shell "Ethernet0" 26 3 203200 4318 None (Some 1) 131072 "FVTLL"
    (@world lossless_dev (0, 0) (put_swp_os false cli_init)) = (Val b, w') /\
  @looked lossless_dev plain_shell "Ethernet0" 3 "FVTLL_prof" (create_cmd "FVTLL_prof" 203200 4318 None (Some 1) 131072) w0 false true true /\
  lb_undo b = [@del_profile lossless_dev plain_shell "FVTLL_prof"; @del_group lossless_dev plain_shell "Ethernet0" 3].
Proof.
  assert (X : match fst (@build_lossless lossless_dev plain_shell "Ethernet0" 26 3 203200 4318 None (Some 1) 131072 "FVTLL"
                           (@world lossless_dev (0, 0) (put_swp_os false cli_init))) with
              | Val x => Some (step_ok "create_profile" x, step_ok "bind_pg" x, lb_pg x)
              | _ => None
              end = Some (true, true, 3)) by (vm_compute; reflexivity).
  destruct (@build_lossless lossless_dev plain_shell "Ethernet0" 26 3 203200 4318 None (Some 1) 131072 "FVTLL"
    (@world lossless_dev (0, 0) (put_swp_os false cli_init))) as [[b|e|] w'] eqn:E; [|discriminate X..].
  cbn [fst] in X. injection X as H1 H2 H3.
  destruct (@build_undo_exact lossless_dev plain_shell _ _ _ _ _ _ _ _ _ _ _ _ E)
    as (how & wa & b0 & b1 & w0 & taken & created & bound & _ & _ & Hl & Hc & Hb & Hu & _).
  rewrite H1 in Hc. rewrite H2 in Hb. rewrite H3 in Hu, Hl. subst created.
  assert (taken = false) as -> by (inversion Hl; done). cbn [orb] in Hb. subst bound.
  exists b, w', w0. split; [reflexivity|]. split; [exact Hl | exact Hu].
Defined.
