(* ===== verification/Sflow.v ===== *)
(** * Packet collectors (responders/collector.py)

    The capture filter of a collector and the sFlow v5 parser.  A captured
    packet is what the parser reads of it: the payload of its UDP layer, [None]
    when it has none.  The sniffer itself and the decoding of frames are a
    third-party library's. *)

From S2P Require Import Prelude PyStr PyStrFacts Device Dut Topology Bytes.

(** the filter of [PacketCollector] *)
Definition collector_bpf (bpf : option string) (inbound : bool) : option string :=
  if inbound then
    match bpf with
    | Some b => if nonempty b then Some ("inbound and (" +:+ b +:+ ")") else Some "inbound"
    | None => Some "inbound"
    end
  else bpf.

(** [SflowCollector]: the filter and the signatures *)
Record SflowCollector := mkSflow { sf_iface : string; sf_bpf : option string; sf_sig : list (list Z) }.

(** one signature: a MAC address or hexadecimal text *)
Definition sig_bytes (s : string) : outcome (list Z) := fromhex (replace_all "-" "" (replace_all ":" "" s)).

Definition sflow_init (iface : string) (port : Z) (sig : list string) : outcome SflowCollector :=
  obind (omap_list sig_bytes sig) (fun sg =>
  Val (mkSflow iface (collector_bpf (Some ("udp dst port " +:+ zs port)) false) sg)).

(** ** Parsing *)

Definition u32 : Z -> list Z -> option Z := unpack_from 4.

(** a standard flow sample or expanded flow sample *)
Definition is_flow (stype : Z) : bool :=
  (Z.shiftr stype 12 =? 0) && ((Z.land stype 0xFFF =? 1) || (Z.land stype 0xFFF =? 3)).

Definition matches_sig (sig : list (list Z)) (body : list Z) : bool := forallb (fun s => is_infix s body) sig.

(** the sample loop: [data] from offset [off] on, at most [k] samples *)
Fixpoint samples_go (k : nat) (sig : list (list Z)) (data : list Z) (off n : Z) : Z :=
  match k with
  | O => n
  | S k' =>
      if Z.of_nat (length data) <? off + 8 then n
      else
        let stype := default 0 (u32 off data) in
        let slen := default 0 (u32 (off + 4) data) in
        let body := slice (off + 8) slen data in
        samples_go k' sig data (off + 8 + slen)
          (if is_flow stype && matches_sig sig body then n + 1 else n)
  end.

(** [_flow_samples]: a read beyond the end counts nothing *)
Definition flow_samples (sig : list (list Z)) (data : list Z) : Z :=
  if Z.of_nat (length data) <? 28 then 0
  else
    match u32 0 data with
    | Some 5 =>
        match u32 4 data with
        | Some atype =>
            let off := 8 + (if atype =? 2 then 16 else 4) + 12 in
            match u32 off data with
            | Some nsamples => samples_go (Z.to_nat (Z.min nsamples 4096)) sig data (off + 4) 0
            | None => 0
            end
        | None => 0
        end
    | _ => 0
    end.

(** [sample_count]: a payload seen before is skipped *)
Fixpoint count_go (sig : list (list Z)) (seen : list (list Z)) (n : Z) (packets : list (option (list Z))) : Z :=
  match packets with
  | [] => n
  | None :: ps | Some [] :: ps => count_go sig seen n ps
  | Some d :: ps =>
      if bool_decide (d ∈ seen) then count_go sig seen n ps
      else count_go sig (d :: seen) (n + flow_samples sig d) ps
  end.
Definition sample_count (c : SflowCollector) (packets : list (option (list Z))) : Z :=
  count_go (sf_sig c) [] 0 packets.

(** ** Datagrams as an agent sends them *)

Record Sample := mkSample { sa_type : Z; sa_body : list Z }.
Record Datagram := mkDatagram {
  dg_v6 : bool;
  dg_agent : list Z;    (* 4 or 16 bytes *)
  dg_ids : list Z;      (* sub-agent, sequence number, uptime *)
  dg_samples : list Sample
}.

Definition sample_wire (s : Sample) : list Z :=
  be_bytes 4 (sa_type s) ++ be_bytes 4 (Z.of_nat (length (sa_body s))) ++ sa_body s.
Definition datagram_wire (d : Datagram) : list Z :=
  be_bytes 4 5 ++ be_bytes 4 (if dg_v6 d then 2 else 1) ++ dg_agent d ++ dg_ids d
  ++ be_bytes 4 (Z.of_nat (length (dg_samples d))) ++ concat (map sample_wire (dg_samples d)).

Definition sample_wf (s : Sample) : Prop :=
  0 <= sa_type s < 256 ^ Z.of_nat 4 /\ Z.of_nat (length (sa_body s)) < 256 ^ Z.of_nat 4.
Definition datagram_wf (d : Datagram) : Prop :=
  length (dg_agent d) = (if dg_v6 d then 16 else 4)%nat /\ length (dg_ids d) = 12%nat /\
  Z.of_nat (length (dg_samples d)) < 256 ^ Z.of_nat 4 /\ Forall sample_wf (dg_samples d).

(** the flow samples that carry every signature *)
Definition wanted_sample (sig : list (list Z)) (s : Sample) : bool :=
  is_flow (sa_type s) && matches_sig sig (sa_body s).
Definition wanted_samples (sig : list (list Z)) (l : list Sample) : Z :=
  Z.of_nat (length (List.filter (wanted_sample sig) l)).

Lemma wanted_samples_cons sig s l :
  wanted_samples sig (s :: l) = (if wanted_sample sig s then 1 else 0) + wanted_samples sig l.
Proof. unfold wanted_samples. cbn [List.filter]. destruct (wanted_sample sig s); cbn [length]; lia. Qed.

Lemma samples_step sig k pre s more n : sample_wf s ->
  samples_go (S k) sig (pre ++ sample_wire s ++ more) (Z.of_nat (length pre)) n =
  samples_go k sig ((pre ++ sample_wire s) ++ more) (Z.of_nat (length (pre ++ sample_wire s)))
    (if wanted_sample sig s then n + 1 else n).
Proof.
  intros [Ht Hl]. rewrite <-(app_assoc pre). cbn [samples_go].
  set (data := pre ++ sample_wire s ++ more).
  set (t4 := be_bytes 4 (sa_type s)). set (l4 := be_bytes 4 (Z.of_nat (length (sa_body s)))).
  assert (length t4 = 4%nat /\ length l4 = 4%nat) as [Et El] by (split; apply be_bytes_length).
  assert (data = pre ++ t4 ++ (l4 ++ sa_body s ++ more)) as D1 by (unfold data, sample_wire; by rewrite <-!app_assoc).
  assert (data = (pre ++ t4) ++ l4 ++ (sa_body s ++ more)) as D2 by (by rewrite D1, <-!app_assoc).
  assert (data = (pre ++ t4 ++ l4) ++ sa_body s ++ more) as D3 by (by rewrite D1, <-!app_assoc).
  assert (u32 (Z.of_nat (length pre)) data = Some (sa_type s)) as ->.
  { rewrite D1. by apply (unpack_mid pre 4). }
  assert (u32 (Z.of_nat (length pre) + 4) data = Some (Z.of_nat (length (sa_body s)))) as ->.
  { rewrite D2. apply (unpack_mid (pre ++ t4) 4); [rewrite length_app; lia | lia]. }
  cbn [default]. replace (slice _ _ data) with (sa_body s).
  2: { rewrite D3. symmetry. apply slice_mid; [rewrite !length_app; lia | done]. }
  assert (length data = (length pre + 8 + length (sa_body s) + length more)%nat) as Ed
    by (rewrite D1, !length_app; lia).
  rewrite (proj2 (Z.ltb_ge (Z.of_nat (length data)) _)) by lia. 
  assert (length (sample_wire s) = (8 + length (sa_body s))%nat) as Es by (unfold sample_wire; rewrite !length_app; fold t4 l4; lia).
  rewrite length_app, Es. unfold wanted_sample. f_equal. unfold id. lia.
Qed.

Lemma samples_go_spec sig : forall k ss pre tail n,
  Forall sample_wf ss -> (k <= length ss)%nat ->
  samples_go k sig (pre ++ concat (map sample_wire ss) ++ tail) (Z.of_nat (length pre)) n
  = n + wanted_samples sig (take k ss).
Proof.
  induction k as [|k IH]; intros ss pre tail n Hw Hk; [unfold wanted_samples; simpl; lia|].
  destruct ss as [|s ss]; [simpl in Hk; lia|]. apply Forall_cons in Hw as [Hs Hw].
  cbn [map concat take]. rewrite wanted_samples_cons, <-(app_assoc (sample_wire s)), samples_step by done.
  rewrite IH by (simpl in *; done || lia). destruct (wanted_sample sig s); lia.
Qed.

Lemma flow_samples_spec sig d tail : datagram_wf d ->
  flow_samples sig (datagram_wire d ++ tail) = wanted_samples sig (take 4096 (dg_samples d)).
Proof.
  intros (Ha & Hi & Hn & Hw). unfold flow_samples, datagram_wire.
  set (b5 := be_bytes 4 5). set (at4 := be_bytes 4 (if dg_v6 d then 2 else 1)).
  set (n4 := be_bytes 4 (Z.of_nat (length (dg_samples d)))). set (body := concat (map sample_wire (dg_samples d))).
  set (data := _ ++ tail). set (pre := b5 ++ at4 ++ dg_agent d ++ dg_ids d).
  assert (data = pre ++ n4 ++ body ++ tail) as D by (unfold data, pre; by rewrite <-!app_assoc).
  assert (length b5 = 4%nat /\ length at4 = 4%nat /\ length n4 = 4%nat) as (E5 & Ea & En) by (split_and!; apply be_bytes_length).
  assert (Z.of_nat (length pre) = 8 + (if dg_v6 d then 16 else 4) + 12) as Ep.
  { unfold pre. rewrite !length_app, E5, Ea, Ha, Hi. destruct (dg_v6 d); lia. }
  rewrite (proj2 (Z.ltb_ge (Z.of_nat (length data)) _)) by (rewrite D, !length_app; destruct (dg_v6 d); lia).
  assert (u32 0 data = Some 5) as -> by (apply (unpack_mid [] 4 5); done).
  assert (u32 4 data = Some (if dg_v6 d then 2 else 1)) as ->.
  { replace data with (b5 ++ at4 ++ (dg_agent d ++ dg_ids d ++ n4 ++ body ++ tail)) by (unfold data; by rewrite <-!app_assoc).
    apply (unpack_mid b5 4); [lia | destruct (dg_v6 d); lia]. }
  replace (8 + (if (if dg_v6 d then 2 else 1) =? 2 then 16 else 4) + 12) with (Z.of_nat (length pre))
    by (rewrite Ep; by destruct (dg_v6 d)).
  assert (u32 (Z.of_nat (length pre)) data = Some (Z.of_nat (length (dg_samples d)))) as ->.
  { rewrite D. apply (unpack_mid pre 4); [done | lia]. }
  replace (Z.of_nat (length pre) + 4) with (Z.of_nat (length (pre ++ n4))) by (rewrite length_app; lia).
  rewrite D, (app_assoc pre). unfold body.
  rewrite samples_go_spec by (done || lia). f_equal.
  destruct (Z.min_spec (Z.of_nat (length (dg_samples d))) 4096) as [[? ->]|[? ->]].
  - rewrite Nat2Z.id, !take_ge by lia. done.
  - done.
Qed.

(** ** Counting over a capture *)

Definition sum_Z (l : list Z) : Z := fold_right Z.add 0 l.

Lemma sum_Z_perm l l' : Permutation l l' -> sum_Z l = sum_Z l'.
Proof. induction 1; simpl; lia. Qed.

(** the payloads that are looked at, in order *)
Fixpoint fresh (seen : list (list Z)) (packets : list (option (list Z))) : list (list Z) :=
  match packets with
  | [] => []
  | Some (b :: d) :: ps => if decide (b :: d ∈ seen) then fresh seen ps else (b :: d) :: fresh ((b :: d) :: seen) ps
  | _ :: ps => fresh seen ps
  end.

Lemma count_go_fresh sig ps : forall seen n,
  count_go sig seen n ps = n + sum_Z (map (flow_samples sig) (fresh seen ps)).
Proof.
  induction ps as [|[[|b d]|] ps IH]; intros seen n; cbn [count_go fresh map sum_Z fold_right]; [lia | apply IH | | apply IH].
  case_decide as E; [rewrite bool_decide_true by done; apply IH|].
  rewrite bool_decide_false by done. rewrite IH. cbn [map sum_Z fold_right]. fold (sum_Z (map (flow_samples sig) (fresh ((b :: d) :: seen) ps))). lia.
Qed.

Lemma elem_fresh x ps : forall seen, x ∈ fresh seen ps <-> Some x ∈ ps /\ x <> [] /\ x ∉ seen.
Proof.
  induction ps as [|[[|b d]|] ps IH]; intros seen; cbn [fresh].
  - set_solver.
  - rewrite IH, elem_of_cons. split; [naive_solver|]. intros ([?|?] & ? & ?); [congruence|done].
  - case_decide as E.
    + rewrite IH, elem_of_cons. split; [naive_solver|]. intros ([?|?] & ? & ?); [congruence|done].
    + rewrite elem_of_cons, IH, !elem_of_cons. destruct (decide (x = b :: d)); naive_solver.
  - rewrite IH, elem_of_cons. naive_solver.
Qed.

Lemma fresh_nodup ps : forall seen, NoDup (fresh seen ps).
Proof.
  induction ps as [|[[|b d]|] ps IH]; intros seen; cbn [fresh]; try apply IH; [constructor|].
  case_decide; [apply IH|]. constructor; [|apply IH]. rewrite elem_fresh, elem_of_cons. tauto.
Qed.

Lemma datagram_wire_nonempty d : datagram_wire d <> [].
Proof. unfold datagram_wire. cbn. discriminate. Qed.

(** C29: the count does not depend on how the datagrams were captured.  In any
    order, with any packet seen twice by the capture and with packets without a
    UDP payload in between, [sample_count] is the number of flow samples and
    expanded flow samples, over the distinct datagrams, that contain every
    signature; counter samples and other formats are never counted, and of a
    datagram only the first 4096 samples are looked at. *)
Theorem sample_count_exact (c : SflowCollector) (ds : list Datagram) (packets : list (option (list Z))) :
  Forall datagram_wf ds -> NoDup (map datagram_wire ds) ->
  (forall d, d ∈ ds -> Some (datagram_wire d) ∈ packets) ->
  (forall p, Some p ∈ packets -> p = [] \/ exists d, d ∈ ds /\ p = datagram_wire d) ->
  sample_count c packets =
  sum_Z (map (fun d => wanted_samples (sf_sig c) (take 4096 (dg_samples d))) ds).
Proof.
  intros Hw Hnd Hin Hout. unfold sample_count. rewrite count_go_fresh.
  assert (Permutation (fresh [] packets) (map datagram_wire ds)) as Hp.
  { apply NoDup_Permutation; [apply fresh_nodup | done |]. intros x. rewrite elem_fresh, list_elem_of_fmap. split.
    - intros (Hx & Hne & _). destruct (Hout x Hx) as [?|(d & Hd & ->)]; [done | by exists d].
    - intros (d & -> & Hd). split_and!; [by apply Hin | apply datagram_wire_nonempty | apply not_elem_of_nil]. }
  rewrite (sum_Z_perm _ _ (Permutation_map _ Hp)), map_map, Z.add_0_l. f_equal.
  apply map_ext_in. intros d Hd. rewrite Forall_forall in Hw.
  rewrite <-(app_nil_r (datagram_wire d)). apply flow_samples_spec, Hw. by apply list_elem_of_In.
Qed.

Lemma sample_count_exact_witness :
  let mac := [0; 222; 173; 190; 239; 1] in
  let d1 := mkDatagram false [127; 0; 0; 1] (List.repeat 0 12)
              [mkSample 1 (0 :: 7 :: mac); mkSample 2 mac; mkSample 3 mac; mkSample 1 [1; 2]; mkSample 4097 mac] in
  let d2 := mkDatagram true (List.repeat 9 16) (List.repeat 1 12) [mkSample 1 mac] in
  sample_count (mkSflow "lo" None [mac])
    [Some (datagram_wire d2); None; Some (datagram_wire d1); Some (datagram_wire d2); Some []] = 3.
Proof.
  intros mac d1 d2.
  rewrite (sample_count_exact (mkSflow "lo" None [mac]) [d1; d2]); [reflexivity | | | |].
  - repeat first [reflexivity | apply Forall_nil | apply Forall_cons; split | split | (vm_compute; congruence)].
  - apply (bool_decide_unpack _). vm_compute. exact I.
  - intros d. set_solver.
  - intros p. set_solver.
Defined.

Example sflow_init_ex :
  sflow_init "lo" 6343 ["00:de:ad"] = Val (mkSflow "lo" (Some "udp dst port 6343") [[0; 222; 173]]).
Proof. reflexivity. Qed.
Example short_v6_ex : flow_samples [] (be_bytes 4 5 ++ be_bytes 4 2 ++ List.repeat 0 20) = 0.
Proof. reflexivity. Qed.
