(* ===== verification/Servers.v ===== *)
(** * On-box servers (servers/base.py, dhcp_server.py, mock_aaa.py, collectors.py)

    The datagram servers share one loop, [ThreadServer._serve]: every received
    datagram is recorded, the subclass's [on_datagram] may answer, and an
    exception it raises is swallowed.  What a subclass must provide is the
    class [DatagramServer]; the theorems about the loop hold for each of its
    instances.  Sockets and threads are the operating system's. *)

From S2P Require Import Prelude PyStr PyStrFacts Device Dut Topology Bytes.

(** ** The loop *)

Definition addr := (string * Z)%type.

Class DatagramServer (St : Type) := {
  on_datagram : list Z -> addr -> St -> outcome (option (list Z)) * St
}.

(** what a [recvfrom] meets: a datagram, a timeout, an error of the socket *)
Inductive dgram := Dgram (data : list Z) (from : addr) | RecvTimeout | RecvError.

Section Serve.
Context {St : Type} `{DatagramServer St}.

Record Server := mkServer {
  sv_requests : list (list Z * addr);
  sv_sent : list (list Z * addr);
  sv_state : St
}.

(** one datagram *)
Definition serve_one (data : list Z) (a : addr) (s : Server) : Server :=
  let reqs := sv_requests s ++ [(data, a)] in
  let '(r, st) := on_datagram data a (sv_state s) in
  mkServer reqs
    (match r with
     | Val (Some (b :: l)) => sv_sent s ++ [(b :: l, a)]
     | _ => sv_sent s
     end) st.

(** [_serve] until the socket fails or [stop] is seen *)
Fixpoint serve (net : list dgram) (s : Server) : Server :=
  match net with
  | [] | RecvError :: _ => s
  | RecvTimeout :: net' => serve net' s
  | Dgram data a :: net' => serve net' (serve_one data a s)
  end.

(** the datagrams received before the socket failed *)
Fixpoint received (net : list dgram) : list (list Z * addr) :=
  match net with
  | [] | RecvError :: _ => []
  | RecvTimeout :: net' => received net'
  | Dgram data a :: net' => (data, a) :: received net'
  end.

Lemma serve_one_requests data a s : sv_requests (serve_one data a s) = sv_requests s ++ [(data, a)].
Proof. unfold serve_one. by destruct (on_datagram data a (sv_state s)). Qed.

(** no datagram is lost, whatever [on_datagram] does with the others *)
Lemma serve_requests net s : sv_requests (serve net s) = sv_requests s ++ received net.
Proof.
  revert s. induction net as [|[data a| |] net IH]; intros s; simpl; rewrite ?app_nil_r; auto.
  by rewrite IH, serve_one_requests, <-app_assoc.
Qed.
End Serve.
Arguments Server St : clear implicits.
Arguments mkServer {St} _ _ _.

(** ** servers/dhcp_server.py *)

Definition MAGIC : list Z := [0x63; 0x82; 0x53; 0x63].

(** [_parse_options]; the index of the length byte may be beyond the end *)
Fixpoint parse_go (fuel : nat) (data : list Z) (opts : pydict Z (list Z)) : outcome (pydict Z (list Z)) :=
  match fuel with
  | O => Hang
  | S f =>
      match data with
      | [] => Val opts
      | code :: rest =>
          if code =? 255 then Val opts
          else if code =? 0 then parse_go f rest opts
          else match rest with
               | [] => Exc IndexError
               | ln :: rest' => parse_go f (drop (Z.to_nat ln) rest') (dset code (take (Z.to_nat ln) rest') opts)
               end
      end
  end.
Definition parse_options (data : list Z) : outcome (pydict Z (list Z)) := parse_go (S (length data)) data [].

Record RelayInfo := mkRelay { ri_giaddr : string; ri_msgtype : Z; ri_option82 : option string; ri_mac : string }.
Record MockDhcpServer := mkDhcp { dh_server_ip : string; dh_offered_ip : string; dh_relayed : list RelayInfo }.

(** [bytes(int(x) for x in ip.split("."))] *)
Definition octet (x : string) : outcome Z :=
  match py_int x with
  | Some v => if (0 <=? v) && (v <? 256) then Val v else Exc (ValueError "bytes must be in range(0, 256)")
  | None => Exc (ValueError x)
  end.
Definition ip_bytes (ip : string) : outcome (list Z) := omap_list octet (split_on "."%char ip).
Definition dotted (l : list Z) : string := join "." (map zs l).

Definition set_byte (i : nat) (v : Z) (b : list Z) : list Z := slice_set i (S i) [v] b.

(** [_build_reply]: an address with other than four parts shifts the fields *)
Definition build_reply (s : MockDhcpServer) (xid chaddr : list Z) (giaddr : string) (msgtype : Z) : outcome (list Z) :=
  let pkt := set_byte 2 6 (set_byte 1 1 (set_byte 0 2 (List.repeat 0 240))) in
  let pkt := slice_set 4 8 xid pkt in
  obind (ip_bytes (dh_offered_ip s)) (fun yi =>
  let pkt := slice_set 16 20 yi pkt in
  obind (ip_bytes giaddr) (fun gi =>
  let pkt := slice_set 24 28 gi pkt in
  let pkt := slice_set 28 34 chaddr pkt in
  let pkt := slice_set 236 240 MAGIC pkt in
  obind (byte1 msgtype) (fun mt =>
  obind (ip_bytes (dh_server_ip s)) (fun sid =>
  Val (pkt ++ ([53; 1] ++ mt) ++ ([54; 4] ++ sid) ++ [255]))))).

Definition dhcp_on_datagram (data : list Z) (_ : addr) (s : MockDhcpServer) : outcome (option (list Z)) * MockDhcpServer :=
  if (Z.of_nat (length data) <? 240) || negb (bool_decide (slice 236 4 data = MAGIC)) then (Val None, s)
  else if negb (nth 0 data 0 =? 1) then (Val None, s)
  else
    let xid := slice 4 4 data in
    let giaddr := dotted (slice 24 4 data) in
    let chaddr := slice 28 6 data in
    match parse_options (drop 240 data) with
    | Val opts =>
        match default [0] (dget 53 opts) with
        | [] => (Exc IndexError, s)
        | msgtype :: _ =>
            let info := mkRelay giaddr msgtype
                          (match dget 82 opts with Some (b :: o) => Some (bytes_hex (b :: o)) | _ => None end)
                          (bytes_hex chaddr) in
            let s := mkDhcp (dh_server_ip s) (dh_offered_ip s) (dh_relayed s ++ [info]) in
            (obind (build_reply s xid chaddr giaddr (if msgtype =? 1 then 2 else 5)) (fun r => Val (Some r)), s)
        end
    | Exc e => (Exc e, s)
    | Hang => (Hang, s)
    end.
#[export] Instance dhcp_server : DatagramServer MockDhcpServer := {| on_datagram := dhcp_on_datagram |}.

(** ** servers/mock_aaa.py: RADIUS, and servers/collectors.py: syslog and traps *)

Definition radius_on_datagram (data : list Z) (_ : addr) (reqs : list (list Z)) : outcome (option (list Z)) * list (list Z) :=
  if Z.of_nat (length data) <? 20 then (Val None, reqs)
  else if negb (nth 0 data 0 =? 1) then (Val None, reqs)
  else (Val (Some ([2; nth 1 data 0; 0; 20] ++ slice 4 16 data)), reqs ++ [data]).
Record MockRadiusServer := mkRadius { access_requests : list (list Z) }.
#[export] Instance radius_server : DatagramServer MockRadiusServer :=
  {| on_datagram data a s := let '(r, l) := radius_on_datagram data a (access_requests s) in (r, mkRadius l) |}.

(** [data.decode(errors="replace")] of ASCII bytes *)
Definition decode_ascii (data : list Z) : string :=
  fold_right (fun b s => String (ascii_of_nat (Z.to_nat b)) s) "" data.
Record SyslogServer := mkSyslog { messages : list string }.
#[export] Instance syslog_server : DatagramServer SyslogServer :=
  {| on_datagram data _ s := (Val None, mkSyslog (messages s ++ [decode_ascii data])) |}.
Definition syslog_has (substr : string) (s : SyslogServer) : bool := existsb (contains substr) (messages s).

Record SnmpTrapServer := mkTraps { traps : list (list Z * addr) }.
#[export] Instance trap_server : DatagramServer SnmpTrapServer :=
  {| on_datagram data a s := (Val None, mkTraps (traps s ++ [(data, a)])) |}.

(** ** DHCP options *)

(** an option as a client writes it, after some padding *)
Definition opt_wire (o : nat * (Z * list Z)) : list Z :=
  List.repeat 0 (fst o) ++ fst (snd o) :: Z.of_nat (length (snd (snd o))) :: snd (snd o).
Definition opts_wire (os : list (nat * (Z * list Z))) : list Z := concat (map opt_wire os).
Definition opt_wf (o : nat * (Z * list Z)) : Prop := 0 < fst (snd o) < 255.

Lemma parse_go_pad n f l opts : parse_go (n + f) (List.repeat 0 n ++ l) opts = parse_go f l opts.
Proof. induction n as [|n IH]; [done|]. cbn [Nat.add List.repeat app parse_go]. exact IH. Qed.

Lemma parse_go_opt f o l opts : opt_wf o ->
  parse_go (fst o + S f) (opt_wire o ++ l) opts = parse_go f l (dset (fst (snd o)) (snd (snd o)) opts).
Proof.
  intros Ho. unfold opt_wire, opt_wf in *. rewrite <-app_assoc, parse_go_pad. cbn [app parse_go].
  rewrite (proj2 (Z.eqb_neq _ 255)), (proj2 (Z.eqb_neq _ 0)) by lia.
  by rewrite Nat2Z.id, drop_app_length, take_app_length.
Qed.

Lemma opt_wire_length o : length (opt_wire o) = (fst o + 2 + length (snd (snd o)))%nat.
Proof. unfold opt_wire. rewrite length_app, repeat_length. simpl. lia. Qed.

Lemma parse_go_opts os : forall f rest opts, Forall opt_wf os -> (length (opts_wire os) < f)%nat ->
  parse_go f (opts_wire os ++ 255 :: rest) opts =
  Val (fold_left (fun d p => dset (fst p) (snd p) d) (map snd os) opts).
Proof.
  induction os as [|o os IH]; intros f rest opts Hw Hf.
  - destruct f as [|f]; [simpl in Hf; lia | done].
  - apply Forall_cons in Hw as [Ho Hw]. unfold opts_wire in Hf. cbn [map concat] in Hf.
    fold (opts_wire os) in Hf. rewrite length_app, opt_wire_length in Hf.
    replace f with (fst o + S (f - fst o - 1))%nat by lia.
    unfold opts_wire at 1. cbn [map concat fold_left]. fold (opts_wire os).
    rewrite <-app_assoc, parse_go_opt by done. apply IH; [done | lia].
Qed.

(** the parser always ends *)
Lemma parse_options_total data : parse_options data <> Hang.
Proof.
  unfold parse_options. assert (length data < S (length data))%nat as Hl by lia. revert Hl.
  generalize (S (length data)). intros f. generalize (@nil (Z * list Z)). revert data.
  induction f as [|f IH]; intros data opts Hl; [lia|]. destruct data as [|c rest]; cbn [parse_go]; [done|].
  simpl in Hl. case_match; [done|]. case_match; [apply IH; lia|]. destruct rest as [|ln rest]; [done|].
  apply IH. rewrite length_drop. simpl in Hl. lia.
Qed.

(** ** One exchange with a relay *)

Lemma omap_octets l : Forall is_byte l -> omap_list octet (map zs l) = Val l.
Proof.
  induction l as [|b l IH]; intros Hl; [done|]. apply Forall_cons in Hl as [Hb Hl]. unfold is_byte in Hb.
  cbn [map omap_list]. unfold octet at 1. rewrite py_int_zs.
  rewrite (proj2 (Z.leb_le _ _)), (proj2 (Z.ltb_lt _ _)) by lia. cbn [andb obind]. by rewrite IH.
Qed.

Lemma ip_bytes_dotted l : l <> [] -> Forall is_byte l -> ip_bytes (dotted l) = Val l.
Proof.
  intros Hne Hl. unfold ip_bytes, dotted. change "." with (s1 "."%char). rewrite split_on_join.
  - by apply omap_octets.
  - by destruct l.
  - apply Forall_map, Forall_true. intros z. by apply zs_no_char.
Qed.

(** a request: a BOOTREQUEST header with any hardware type and address length,
    the number of relays that forwarded it and the address of the first *)
Definition request (htype hlen hops : Z) (xid fill giaddr chaddr fill2 : list Z) (os : list (nat * (Z * list Z))) (tail : list Z) : list Z :=
  ([1; htype; hlen; hops] ++ xid ++ fill ++ giaddr ++ chaddr ++ fill2 ++ MAGIC) ++ opts_wire os ++ 255 :: tail.

Definition reply_wire (xid yiaddr giaddr chaddr server : list Z) (t : Z) : list Z :=
  ([2; 1; 6; 0] ++ xid ++ List.repeat 0 8 ++ yiaddr ++ List.repeat 0 4 ++ giaddr ++ chaddr
   ++ List.repeat 0 202 ++ MAGIC) ++ [53; 1; t; 54; 4] ++ server ++ [255].

(** lists of known length, element by element *)
Ltac open_list l H :=
  repeat (let x := fresh "x" in destruct l as [|x l]; [try discriminate H | first [discriminate H | injection H as H]]).

Lemma build_reply_wire s xid chaddr giaddr t yi sid :
  length xid = 4%nat -> length giaddr = 4%nat -> length chaddr = 6%nat -> Forall is_byte giaddr ->
  0 <= t < 256 -> ip_bytes (dh_offered_ip s) = Val yi -> length yi = 4%nat ->
  ip_bytes (dh_server_ip s) = Val sid ->
  build_reply s xid chaddr (dotted giaddr) t = Val (reply_wire xid yi giaddr chaddr sid t).
Proof.
  intros Hx Hg Hc Hb Ht Hyi Hy Hsid. unfold build_reply. rewrite Hyi, Hsid.
  rewrite ip_bytes_dotted by (done || by destruct giaddr).
  unfold byte1. rewrite (proj2 (Z.leb_le 0 t)), (proj2 (Z.ltb_lt t 256)) by lia. cbn [obind andb].
  open_list xid Hx. open_list giaddr Hg. open_list chaddr Hc. open_list yi Hy. reflexivity.
Qed.

(** C31: one exchange with a DHCP relay.  For every BOOTREQUEST, forwarded by any
    number of relays and with any hardware type and address length, with any padding between its options, repeated options and bytes after the end
    mark, whose message type is not empty, the server records the relay's
    address, the message type, the relay agent option and the client's address
    as they were sent, and answers with a BOOTREPLY of the same transaction,
    client and relay that carries the offered address; the server's own option
    parser reads the reply type (an offer for a discover, otherwise an
    acknowledgement) and the server identifier from it. *)
Theorem dhcp_exchange s htype hlen hops xid fill giaddr chaddr fill2 os tail a t v yi sid :
  length xid = 4%nat -> length fill = 16%nat -> length giaddr = 4%nat -> length chaddr = 6%nat ->
  length fill2 = 202%nat -> Forall is_byte giaddr -> Forall opt_wf os ->
  let opts := dict_of (map snd os) in
  dget 53 opts = Some (t :: v) ->
  ip_bytes (dh_offered_ip s) = Val yi -> length yi = 4%nat ->
  ip_bytes (dh_server_ip s) = Val sid -> length sid = 4%nat ->
  let kind := if t =? 1 then 2 else 5 in
  let reply := reply_wire xid yi giaddr chaddr sid kind in
  dhcp_on_datagram (request htype hlen hops xid fill giaddr chaddr fill2 os tail) a s =
    (Val (Some reply),
     mkDhcp (dh_server_ip s) (dh_offered_ip s)
       (dh_relayed s ++ [mkRelay (dotted giaddr) t
          (match dget 82 opts with Some (b :: o) => Some (bytes_hex (b :: o)) | _ => None end)
          (bytes_hex chaddr)])) /\
  length reply = 250%nat /\
  parse_options (drop 240 reply) = Val [(53, [kind]); (54, sid)].
Proof.
  intros Hx Hf Hg Hc Hf2 Hb Hw opts Ht Hyi Hy Hsid Hs kind reply.
  assert (0 <= kind < 256) as Hk by (unfold kind; case_match; lia). split; [|split].
  - unfold dhcp_on_datagram, request.
    set (hdr := [1; htype; hlen; hops] ++ xid ++ fill ++ giaddr ++ chaddr ++ fill2 ++ MAGIC).
    assert (length hdr = 240%nat) as Hh by (unfold hdr; rewrite !length_app; simpl; lia).
    set (data := hdr ++ opts_wire os ++ 255 :: tail).
    rewrite (proj2 (Z.ltb_ge (Z.of_nat (length data)) 240)) by (unfold data; rewrite length_app; lia).
    set (more := opts_wire os ++ 255 :: tail) in *.
    assert (slice 236 4 data = MAGIC) as ->.
    { replace data with (([1; htype; hlen; hops] ++ xid ++ fill ++ giaddr ++ chaddr ++ fill2) ++ MAGIC ++ more)
        by (unfold data, hdr; by rewrite <-!app_assoc).
      apply slice_mid; rewrite ?length_app; simpl; lia. }
    assert (slice 4 4 data = xid) as ->.
    { unfold data, hdr. rewrite <-!app_assoc. apply slice_mid; [done | lia]. }
    assert (slice 24 4 data = giaddr) as ->.
    { replace data with (([1; htype; hlen; hops] ++ xid ++ fill) ++ giaddr ++ (chaddr ++ fill2 ++ MAGIC ++ more))
        by (unfold data, hdr; by rewrite <-!app_assoc).
      apply slice_mid; rewrite ?length_app; simpl; lia. }
    assert (slice 28 6 data = chaddr) as ->.
    { replace data with (([1; htype; hlen; hops] ++ xid ++ fill ++ giaddr) ++ chaddr ++ (fill2 ++ MAGIC ++ more))
        by (unfold data, hdr; by rewrite <-!app_assoc).
      apply slice_mid; rewrite ?length_app; simpl; lia. }
    replace (drop 240 data) with more by (unfold data; by rewrite drop_app_length').
    unfold parse_options, more. rewrite parse_go_opts by (done || rewrite length_app; lia).
    fold (dict_of (map snd os)). fold opts. rewrite Ht. cbn [default bool_decide negb orb].
    rewrite bool_decide_true by done. cbn -[build_reply]. unfold id. cbn -[build_reply].
    fold kind. by rewrite (build_reply_wire (mkDhcp _ _ _) xid chaddr giaddr kind yi sid).
  - unfold reply, reply_wire. rewrite !length_app, !repeat_length. simpl. lia.
  - unfold reply, reply_wire. open_list xid Hx. open_list yi Hy. open_list giaddr Hg. open_list chaddr Hc. open_list sid Hs.
    reflexivity.
Qed.

Lemma dhcp_exchange_witness :
  let s := mkDhcp "10.99.1.1" "10.99.1.100" [] in
  let q := request 1 6 1 [1; 2; 3; 4] (List.repeat 0 16) [10; 80; 1; 1] [0; 17; 34; 51; 68; 85] (List.repeat 0 202)
             [(0%nat, (53, [1])); (2%nat, (82, [1; 2; 7; 8])); (1%nat, (55, []))] [0; 0] in
  dhcp_on_datagram q ("10.80.1.1", 67) s =
  (Val (Some (reply_wire [1; 2; 3; 4] [10; 99; 1; 100] [10; 80; 1; 1] [0; 17; 34; 51; 68; 85] [10; 99; 1; 1] 2)),
   mkDhcp "10.99.1.1" "10.99.1.100" [mkRelay "10.80.1.1" 1 (Some "01020708") "001122334455"]).
Proof.
  intros s q.
  refine (proj1 (dhcp_exchange s 1 6 1 [1; 2; 3; 4] (List.repeat 0 16) [10; 80; 1; 1] [0; 17; 34; 51; 68; 85] (List.repeat 0 202)
             [(0%nat, (53, [1])); (2%nat, (82, [1; 2; 7; 8])); (1%nat, (55, []))] [0; 0] ("10.80.1.1", 67) 1 []
             [10; 99; 1; 100] [10; 99; 1; 1] _ _ _ _ _ _ _ _ _ _ _ _));
    repeat first [reflexivity | apply Forall_nil | apply Forall_cons; split | split | (vm_compute; congruence)].
Defined.

(** an option whose length byte is missing: the datagram is recorded by the
    loop, nothing is answered and the server goes on *)
Example truncated_option_ex :
  let bad := ([1; 1; 6; 0] ++ List.repeat 0 232 ++ MAGIC) ++ [53] in
  let s := mkServer [] [] (mkDhcp "10.99.1.1" "10.99.1.100" []) in
  (dhcp_on_datagram bad ("x", 1) (sv_state s)).1 = Exc IndexError /\
  sv_requests (serve [Dgram bad ("x", 1); RecvTimeout; Dgram [] ("y", 2); RecvError; Dgram [] ("z", 3)] s)
  = [(bad, ("x", 1)); ([], ("y", 2))].
Proof. split; reflexivity. Qed.
Example radius_ex :
  (radius_on_datagram ([1; 42; 0; 20] ++ List.repeat 7 16) ("x", 1) []).1 = Val (Some ([2; 42; 0; 20] ++ List.repeat 7 16)).
Proof. reflexivity. Qed.
