(* ===== verification/PfcPkt.v ===== *)
(** * PFC and RoCEv2 frames (framework/pfcpkt.py)

    The layers of scapy are values: a frame is its Ethernet header and its
    payload, a UDP packet the fields that the code sets. *)

From S2P Require Import Prelude PyStr PyStrFacts Device Dut Topology Bytes.

Definition PFC_DST : string := "01:80:c2:00:00:01".
Definition PFC_ETHERTYPE : Z := 0x8808.
Definition PFC_OPCODE : Z := 0x0101.
Definition ROCE_UDP_DPORT : Z := 4791.
Definition BTH_OPCODE_RC_SEND : Z := 0x04.
Definition BTH_OPCODE_CNP : Z := 0x81.

Record EthFrame := mkEth { ef_dst : string; ef_src : string; ef_type : Z; ef_payload : list Z }.
Record UdpPacket := mkUdp {
  up_dmac : string; up_smac : string; up_src : string; up_dst : string; up_tos : Z;
  up_sport : Z; up_dport : Z; up_payload : list Z
}.

(** [vec |= (1 << int(p))]: a negative shift count raises *)
Fixpoint class_vector (priorities : list Z) (vec : Z) : outcome Z :=
  match priorities with
  | [] => Val vec
  | p :: ps => if p <? 0 then Exc (ValueError "negative shift count")
               else class_vector ps (Z.lor vec (Z.shiftl 1 p))
  end.

Definition quantum (vec quanta : Z) (i : nat) : outcome (list Z) :=
  pack 2 (if Z.testbit vec (Z.of_nat i) then quanta else 0).

Definition pfc_body (priorities : list Z) (quanta : Z) : outcome (list Z) :=
  obind (class_vector priorities 0) (fun vec =>
  obind (pack 2 PFC_OPCODE) (fun op =>
  obind (pack 2 vec) (fun v =>
  obind (omap_list (quantum vec quanta) (List.seq 0 8)) (fun qs =>
  Val (op ++ v ++ concat qs ++ List.repeat 0 28))))).

Definition pfc_frame (priorities : list Z) (quanta : Z) (src : string) : outcome EthFrame :=
  obind (pfc_body priorities quanta) (fun body => Val (mkEth PFC_DST src PFC_ETHERTYPE body)).

(** [n.to_bytes(3, "big")] *)
Definition to_bytes3 (n : Z) : outcome (list Z) :=
  if (0 <=? n) && (n <? 2 ^ 24) then Val (be_bytes 3 n) else Exc OverflowError.

(** [_bth] *)
Definition bth (opcode dqpn psn : Z) : outcome (list Z) :=
  obind (pack 1 opcode) (fun o =>
  obind (pack 2 0xFFFF) (fun k =>
  obind (to_bytes3 dqpn) (fun q =>
  obind (to_bytes3 psn) (fun s => Val (o ++ [0] ++ k ++ [0] ++ q ++ [0] ++ s))))).

Definition rocev2_pkt (src_mac dst_mac src_ip dst_ip : string) (dscp dqpn : Z) (payload : nat) : outcome UdpPacket :=
  obind (bth BTH_OPCODE_RC_SEND dqpn 0) (fun b =>
  Val (mkUdp dst_mac src_mac src_ip dst_ip (Z.shiftl dscp 2) 0xC0DE ROCE_UDP_DPORT (b ++ List.repeat 0x5a payload))).
Definition cnp_pkt (src_mac dst_mac src_ip dst_ip : string) (dscp dqpn : Z) : outcome UdpPacket :=
  obind (bth BTH_OPCODE_CNP dqpn 0) (fun b =>
  Val (mkUdp dst_mac src_mac src_ip dst_ip (Z.shiftl dscp 2) 0xC0DE ROCE_UDP_DPORT (b ++ List.repeat 0 16))).

(** ** The frame a receiver decodes *)

Record PfcDecoded := mkPfc { pd_opcode : Z; pd_vector : Z; pd_quanta : list Z }.
Definition pfc_decode (body : list Z) : PfcDecoded :=
  mkPfc (be_val (slice 0 2 body)) (be_val (slice 2 2 body))
    (map (fun i => be_val (slice (4 + 2 * Z.of_nat i) 2 body)) (List.seq 0 8)).

Lemma class_vector_neg ps : forall vec, Exists (fun p => p < 0) ps -> class_vector ps vec = Exc (ValueError "negative shift count").
Proof.
  induction ps as [|p ps IH]; intros vec He; [by apply Exists_nil in He|]. cbn [class_vector].
  destruct (p <? 0) eqn:E; [done|]. apply IH. apply Exists_cons in He as [?|?]; [bool_prop; lia | done].
Qed.

Lemma class_vector_bits ps : forall vec, Forall (fun p => 0 <= p) ps -> 0 <= vec ->
  exists v, class_vector ps vec = Val v /\ 0 <= v /\
    forall i, 0 <= i -> Z.testbit v i = Z.testbit vec i || bool_decide (i ∈ ps).
Proof.
  induction ps as [|p ps IH]; intros vec Hp Hv; cbn [class_vector].
  - exists vec. split_and!; [done..|]. intros i _. by rewrite bool_decide_false, orb_false_r by apply not_elem_of_nil.
  - apply Forall_cons in Hp as [Hp Hps]. rewrite (proj2 (Z.ltb_ge _ _)) by lia.
    destruct (IH (Z.lor vec (Z.shiftl 1 p)) Hps) as (v & -> & Hv' & Hb).
    { apply Z.lor_nonneg. split; [done|]. apply Z.shiftl_nonneg. lia. }
    exists v. split_and!; [done..|]. intros i Hi. rewrite Hb, Z.lor_spec by done.
    rewrite Z.shiftl_mul_pow2, Z.mul_1_l, Z.pow2_bits_eqb by lia.
    rewrite <-orb_assoc. f_equal. rewrite (bool_decide_ext (i ∈ p :: ps) (i = p \/ i ∈ ps)) by apply elem_of_cons.
    rewrite bool_decide_or. f_equal. destruct (Z.eqb_spec p i); [by rewrite bool_decide_true | by rewrite bool_decide_false].
Qed.

Lemma bits_below v n : 0 <= v -> 0 <= n -> (forall i, n <= i -> Z.testbit v i = false) -> v < 2 ^ n.
Proof.
  intros Hv Hn Hb. destruct (Z_lt_le_dec v (2 ^ n)) as [|Hge]; [done|]. exfalso.
  assert (0 < v) as Hpos by (pose proof (Z.pow_pos_nonneg 2 n); lia).
  specialize (Hb (Z.log2 v)). rewrite Z.bit_log2 in Hb by done.
  assert (n <= Z.log2 v) by (apply Z.log2_le_pow2; lia). by specialize (Hb H).
Qed.

Lemma bits_above v n i : 0 <= n -> n <= i -> 0 <= v < 2 ^ n -> Z.testbit v i = false.
Proof.
  intros Hn Hi Hv. destruct (Z.eq_dec v 0) as [->|]; [apply Z.bits_0|].
  apply Z.bits_above_log2; [lia|]. apply Z.log2_lt_pow2; [lia|].
  apply Z.lt_le_trans with (2 ^ n); [lia | by apply Z.pow_le_mono_r].
Qed.

Lemma omap_list_val {A B} (f : A -> outcome B) (g : A -> B) l :
  (forall x, x ∈ l -> f x = Val (g x)) -> omap_list f l = Val (map g l).
Proof.
  induction l as [|x l IH]; intros Hf; [done|]. cbn [omap_list map]. rewrite Hf by left. cbn [obind].
  rewrite IH by (intros; apply Hf; by right). done.
Qed.

(** The pause frame says what was asked.  With priorities of the class
    vector's 16 bits the frame is built, has 48 bytes of payload, and a receiver
    reads opcode 0x0101, the class vector whose bits are exactly the requested
    priorities, and for each of the eight classes the requested quanta when the
    class is enabled and 0 otherwise; a priority of 16 or more and a negative
    one raise, so a frame never pauses other classes than the requested ones. *)
Theorem pfc_frame_exact (ps : list Z) (quanta : Z) (src : string) :
  0 <= quanta < 65536 ->
  (Forall (fun p => 0 <= p < 16) ps ->
     exists body, pfc_frame ps quanta src = Val (mkEth PFC_DST src PFC_ETHERTYPE body) /\
       length body = 48%nat /\ pd_opcode (pfc_decode body) = PFC_OPCODE /\
       (forall i, 0 <= i -> Z.testbit (pd_vector (pfc_decode body)) i = bool_decide (i ∈ ps)) /\
       pd_quanta (pfc_decode body) =
         map (fun i => if bool_decide (Z.of_nat i ∈ ps) then quanta else 0) (List.seq 0 8)) /\
  (Exists (fun p => p < 0) ps -> pfc_frame ps quanta src = Exc (ValueError "negative shift count")) /\
  (Forall (fun p => 0 <= p) ps -> Exists (fun p => 16 <= p) ps -> pfc_frame ps quanta src = Exc StructError).
Proof.
  intros Hq. unfold pfc_frame, pfc_body. split_and!.
  - intros Hps. destruct (class_vector_bits ps 0) as (v & -> & Hv & Hb); [|done|].
    { eapply Forall_impl; [exact Hps|]. simpl. lia. }
    assert (forall i, 0 <= i -> Z.testbit v i = bool_decide (i ∈ ps)) as Hbits
      by (intros i Hi; by rewrite Hb, Z.bits_0 by done).
    assert (v < 2 ^ 16) as Hlt.
    { apply bits_below; [done..|]. intros i Hi. rewrite Hbits by lia. apply bool_decide_false. intros Hin.
      rewrite Forall_forall in Hps. specialize (Hps i Hin). simpl in Hps. lia. }
    cbn [obind]. rewrite (pack_ok 2 PFC_OPCODE) by (unfold PFC_OPCODE; lia). rewrite (pack_ok 2 v) by lia. cbn [obind].
    rewrite (omap_list_val _ (fun i => be_bytes 2 (if Z.testbit v (Z.of_nat i) then quanta else 0))).
    2: { intros i _. unfold quantum. apply pack_ok. case_match; lia. }
    cbn [obind]. eexists. split; [done|].
    set (q := fun i => if Z.testbit v (Z.of_nat i) then quanta else 0).
    assert (forall i, 0 <= q i < 256 ^ Z.of_nat 2) as Hqi by (intros i; unfold q; case_match; lia).
    split; [reflexivity|]. unfold pfc_decode. cbn [pd_opcode pd_vector pd_quanta].
    split; [reflexivity|]. split.
    + intros i Hi. rewrite <-Hbits by done. f_equal. by apply (be_val_bytes 2).
    + rewrite (map_ext (fun i => if bool_decide (Z.of_nat i ∈ ps) then quanta else 0) q)
        by (intros i; unfold q; by rewrite Hbits by lia).
      cbn [map List.seq]. repeat (apply (f_equal2 cons); [apply (be_val_bytes 2), Hqi |]). done.
  - intros He. by rewrite class_vector_neg.
  - intros Hp He. destruct (class_vector_bits ps 0) as (v & -> & Hv & Hb); [done..|]. cbn [obind].
    rewrite (pack_ok 2 PFC_OPCODE) by (unfold PFC_OPCODE; lia). cbn [obind].
    assert (pack 2 v = Exc StructError) as ->; [|done]. unfold pack.
    destruct (v <? 256 ^ Z.of_nat 2) eqn:E; [|by rewrite andb_false_r]. bool_prop. exfalso.
    apply Exists_exists in He as (p & Hin & Hge). rewrite Forall_forall in Hp. specialize (Hp p Hin). simpl in Hp.
    specialize (Hb p Hp). rewrite (bits_above v 16 p), Z.bits_0, bool_decide_true in Hb by (done || lia). done.
Qed.

Lemma pfc_frame_exact_witness :
  exists body, pfc_frame [3; 4; 3] 0xFFFF "00:de:ad:0f:c0:01" =
    Val (mkEth PFC_DST "00:de:ad:0f:c0:01" PFC_ETHERTYPE body) /\ length body = 48%nat /\
    pd_quanta (pfc_decode body) = [0; 0; 0; 65535; 65535; 0; 0; 0].
Proof.
  destruct (proj1 (pfc_frame_exact [3; 4; 3] 0xFFFF "00:de:ad:0f:c0:01" ltac:(lia))) as (body & Hf & Hl & _ & _ & Hq).
  - repeat (constructor; [lia|]). constructor.
  - exists body. split_and!; [exact Hf | exact Hl | rewrite Hq; reflexivity].
Defined.

Example bth_ex : bth BTH_OPCODE_CNP 0x11 0 = Val [0x81; 0; 255; 255; 0; 0; 0; 0x11; 0; 0; 0; 0].
Proof. reflexivity. Qed.
Example bth_overflow_ex : bth BTH_OPCODE_CNP (2 ^ 24) 0 = Exc OverflowError.
Proof. reflexivity. Qed.
