(* ===== verification/Counters.v ===== *)
(** * Port, queue and buffer counters (framework/counters.py, the readers of
    framework/pfcpkt.py and framework/qmeasure.py)

    The chip's counters are read from the text of its diagnostic shell, the
    others from COUNTERS_DB. *)

From S2P Require Import Prelude PyStr PyStrFacts PyVal Device DeviceFacts Toy CliParse Cli CliFacts Worker Profile Dut Topology Bytes Loopback.

(** ** The chip's text *)

(** [\b] between two characters *)
Definition word_boundary (a b : option ascii) : bool :=
  let w o := match o with Some c => is_word c | None => false end in xorb (w a) (w b).
Fixpoint last_char (s : string) : option ascii :=
  match s with "" => None | String c "" => Some c | String _ s' => last_char s' end.
Definition head_char (s : string) : option ascii := match s with "" => None | String c _ => Some c end.

Definition is_num (c : ascii) : bool := is_digit c || Ascii.eqb c ",".

(** what follows [metric.port]: a word boundary, no colon, a colon, white
    space and the group of digits and commas *)
Definition after_metric (prev : option ascii) (s : string) : option string :=
  if word_boundary prev (head_char s) then
    match cut ":" s with
    | Some (_, rest) => let g := fst (span is_num (lstrip rest)) in if nonempty g then Some g else None
    | None => None
    end
  else None.

(** [re.search] of the metric's pattern *)
Fixpoint metric_group (lit s : string) : option string :=
  match (if starts lit s then after_metric (last_char lit) (str_drop (slen lit) s) else None) with
  | Some g => Some g
  | None => match s with "" => None | String _ s' => metric_group lit s' end
  end.

(** [grab]: 0 when the metric is absent; a group of commas alone raises *)
Definition grab (port text metric : string) : outcome Z :=
  match metric_group (metric +:+ "." +:+ port) text with
  | None => Val 0
  | Some g => match py_int (replace_char "," "" g) with Some n => Val n | None => Exc (ValueError g) end
  end.

(** [grab(a) or grab(b) or grab(c)] *)
Fixpoint grab_first (port text : string) (metrics : list string) : outcome Z :=
  match metrics with
  | [] => Val 0
  | [m] => grab port text m
  | m :: ms => obind (grab port text m) (fun v => if v =? 0 then grab_first port text ms else Val v)
  end.

Record ChipCounters := mkChip { ch_rx_pkt : Z; ch_tx_pkt : Z; ch_rx_ipv4 : Z; ch_rx_byt : Z }.
Definition chip_sub (a b : ChipCounters) : ChipCounters :=
  mkChip (ch_rx_pkt a - ch_rx_pkt b) (ch_tx_pkt a - ch_tx_pkt b) (ch_rx_ipv4 a - ch_rx_ipv4 b) (ch_rx_byt a - ch_rx_byt b).

Definition parse_chip (port text : string) : outcome ChipCounters :=
  obind (grab_first port text ["MIB_RPKT"; "CLMIB_RPKT"; "RX_PKT"]) (fun rx =>
  obind (grab_first port text ["MIB_TPKT"; "CLMIB_TPKT"; "TX_PKT"]) (fun tx =>
  obind (grab port text "RX_PKT_IPV4") (fun v4 =>
  obind (grab port text "RX_BYT") (fun byt => Val (mkChip rx tx v4 byt))))).

Section Chip.
Context `{Device} `{ShellEnv}.
(** [ChipCounters.read] and [ChipCounters.clear] *)
Definition chip_read (b : BcmShell) (port : string) : M ChipCounters :=
  let* text := bsh_cmd b ("show c " +:+ port) in lift (parse_chip port text).
Definition chip_clear (b : BcmShell) : M unit :=
  bsh_cmd b (if truthy (b_pbm b) then "clear c " +:+ or_empty (b_pbm b) else "clear c") ;;; ret tt.
End Chip.

(** ** COUNTERS_DB *)

(** a field that looks like an integer; several signs make [int] raise *)
Definition stat_int (v : string) : outcome (option Z) :=
  if isdigit (lstrip_chars "-" v) then
    match py_int v with Some n => Val (Some n) | None => Exc (ValueError v) end
  else Val None.

(** [{f: int(h[f]) for f in fields if ...}] *)
Fixpoint pick_fields (h : pydict string string) (fields : list string) (acc : pydict string Z) : outcome (pydict string Z) :=
  match fields with
  | [] => Val acc
  | f :: fs =>
      match dget f h with
      | None => pick_fields h fs acc
      | Some v => obind (stat_int v) (fun o =>
                  pick_fields h fs (match o with Some n => dset f n acc | None => acc end))
      end
  end.

Definition SAI_PORT_FIELDS : list (string * string) :=
  [("tx_ucast", "SAI_PORT_STAT_IF_OUT_UCAST_PKTS"); ("rx_ucast", "SAI_PORT_STAT_IF_IN_UCAST_PKTS");
   ("tx_all", "SAI_PORT_STAT_IF_OUT_PKTS"); ("rx_all", "SAI_PORT_STAT_IF_IN_PKTS");
   ("tx_drop", "SAI_PORT_STAT_IF_OUT_DISCARDS"); ("rx_drop", "SAI_PORT_STAT_IF_IN_DISCARDS")].

Definition port_vals_step (h : pydict string string) (acc : outcome (pydict string Z)) (kv : string * string) : outcome (pydict string Z) :=
  obind acc (fun d =>
  match dget (snd kv) h with
  | None => Val (dset (fst kv) 0 d)
  | Some v => match py_int v with Some n => Val (dset (fst kv) n d) | None => Exc (ValueError v) end
  end).
(** [_i] *)
Definition digits_or0 (h : pydict string string) (f : string) : Z :=
  match dget f h with Some v => if isdigit v then default 0 (py_int v) else 0 | None => 0 end.
(** the totals are synthesized when the image does not collect them *)
Definition port_values (h : pydict string string) : outcome (pydict string Z) :=
  obind (fold_left (port_vals_step h) SAI_PORT_FIELDS (Val [])) (fun d =>
  let d := if dmem "SAI_PORT_STAT_IF_IN_PKTS" h then d
           else dset "rx_all" (digits_or0 h "SAI_PORT_STAT_IF_IN_UCAST_PKTS" + digits_or0 h "SAI_PORT_STAT_IF_IN_NON_UCAST_PKTS") d in
  let d := if dmem "SAI_PORT_STAT_IF_OUT_PKTS" h then d
           else dset "tx_all" (digits_or0 h "SAI_PORT_STAT_IF_OUT_UCAST_PKTS" + digits_or0 h "SAI_PORT_STAT_IF_OUT_NON_UCAST_PKTS") d in
  Val d).
(** [PortCounters.__sub__] *)
Definition port_sub (a b : pydict string Z) : pydict string Z :=
  map (fun kv => (fst kv, default 0 (dget (fst kv) a) - default 0 (dget (fst kv) b))) SAI_PORT_FIELDS.

Section Db.
Context `{Device} `{ShellEnv}.

Definition name_map (map_name : string) : M (pydict string string) :=
  let* o := db "COUNTERS_DB" ("HGETALL " +:+ map_name) in
  ret (if starts "{" (strip o) then match literal_eval o with Some d => d | None => [] end else []).

Definition counters_row (oid : string) : M (pydict string string) := db_hgetall "COUNTERS_DB" ("COUNTERS:" +:+ oid).

(** the loop of [queue_stats] and of [pg_stats] over a name map *)
Definition indexed_stats (map_name port : string) (fields : list string) : M (pydict Z (pydict string Z)) :=
  let* m := name_map map_name in
  fold_m (fun acc kv =>
    let '(p, _, q) := partition ":" (fst kv) in
    if negb (String.eqb p port) || negb (isdigit q) then ret acc
    else
      let* h := counters_row (snd kv) in
      let* row := lift (pick_fields h fields []) in
      let* i := lift (match py_int q with Some n => Val n | None => Exc (ValueError q) end) in
      ret (dset i row acc)) m [].

Definition queue_stats (port : string) (fields : list string) : M (pydict Z (pydict string Z)) :=
  indexed_stats "COUNTERS_QUEUE_NAME_MAP" port fields.
Definition pg_stats (port : string) (fields : list string) : M (pydict Z (pydict string Z)) :=
  indexed_stats "COUNTERS_PG_NAME_MAP" port fields.

Definition buffer_pool_stats : M (pydict string (pydict string Z)) :=
  let* m := name_map "COUNTERS_BUFFER_POOL_NAME_MAP" in
  fold_m (fun acc kv =>
    let* h := counters_row (snd kv) in
    let* row := lift (pick_fields h (dkeys h) []) in
    ret (dset (fst kv) row acc)) m [].

(** [PortCounters.read] *)
Definition port_counters (port : string) : M (pydict string Z) :=
  let* oid := db "COUNTERS_DB" ("HGET COUNTERS_PORT_NAME_MAP " +:+ port) in
  if negb (nonempty oid) then ret (map (fun kv => (fst kv, 0)) SAI_PORT_FIELDS)
  else let* h := counters_row oid in lift (port_values h).

(** [pfc_counters]: -1 for a counter the image does not collect *)
Definition pfc_grab (h : pydict string string) (dir : string) : outcome (list Z) :=
  omap_list (fun i => match dget ("SAI_PORT_STAT_PFC_" +:+ ns i +:+ "_" +:+ dir +:+ "_PKTS") h with
                   | None => Val (-1)
                   | Some v => obind (stat_int v) (fun o => Val (default (-1) o))
                   end) (List.seq 0 8).
Definition pfc_counters (port : string) : M (option (list Z * list Z)) :=
  let* oid := db "COUNTERS_DB" ("HGET COUNTERS_PORT_NAME_MAP " +:+ port) in
  if negb (nonempty oid) then ret None
  else
    let* h := counters_row oid in
    let* rx := lift (pfc_grab h "RX") in
    let* tx := lift (pfc_grab h "TX") in
    ret (Some (rx, tx)).

(** framework/qmeasure.py *)
Definition queue_oids (port : string) : M (pydict Z string) :=
  let* m := db_hgetall "COUNTERS_DB" "COUNTERS_QUEUE_NAME_MAP" in
  ret (fold_left (fun acc kv =>
    match nth_error (split_on ":" (fst kv)) 1 with
    | Some q => if starts (port +:+ ":") (fst kv) && isdigit q
                then match py_int q with Some i => dset i (snd kv) acc | None => acc end else acc
    | None => acc
    end) m []).
Definition queue_stat (oid field : string) : M Z :=
  let* h := counters_row oid in
  match dget field h with
  | None => ret 0
  | Some v => let* o := lift (stat_int v) in ret (default 0 o)
  end.
End Db.
