(* ===== verification/Traffic.v ===== *)
(** * Traffic and copy-to-CPU collectors (framework/traffic.py, collector.py)

    Sending and sniffing are the packet library's and the kernel's: a [Nic]
    gives their effects on the device.  The loopbacks, counters and static FDB
    entries around them are the framework's. *)

From S2P Require Import Prelude PyStr PyStrFacts PyVal Device DeviceFacts Toy CliParse Cli CliFacts Worker Profile Dut Topology Loopback Obj LoopbackFacts Counters.

(** the packet library: [None] for [nic_send] when it is not installed *)
Class Nic `{Device} := {
  pkt : Type;
  scapy : bool;
  udp_probe : string -> string -> string -> string -> pkt;   (* dst, src, ip, payload *)
  nic_send : pkt -> string -> Z -> Z -> dev -> dev;          (* packet, interface, count, interval (ms) *)
  sniff_start : string -> option string -> dev -> dev;
  sniff_stop : dev -> list pkt * dev
}.

Section Traffic.
Context `{Device} `{ShellEnv} `{!Nic}.

Definition nic_do {A} (f : dev -> A * dev) : M A := fun w =>
  let '(a, d) := f (w_dev w) in (Val a, mkWorld d (w_trace w) (w_cli w) (w_lb w)).

(** ** [Capture] *)

Record Capture := mkCap { cap_iface : string; cap_bpf : option string; cap_on : bool; cap_packets : list pkt }.
Definition capture (iface : string) (bpf : option string) (inbound : bool) : Capture :=
  mkCap iface (if inbound then Some (if truthy bpf then "inbound and (" +:+ or_empty bpf +:+ ")" else "inbound") else bpf)
    false [].
Definition cap_enter (c : Capture) : M Capture :=
  if scapy then
    nic_do (fun d => (tt, sniff_start (cap_iface c) (cap_bpf c) d)) ;;;
    sleep 200 ;;; ret (mkCap (cap_iface c) (cap_bpf c) true (cap_packets c))
  else ret c.
Definition cap_exit (c : Capture) : M Capture :=
  if cap_on c then
    sleep 300 ;;;
    let* l := nic_do sniff_stop in
    ret (mkCap (cap_iface c) (cap_bpf c) (cap_on c) l)
  else ret c.
(** [_safe]: a predicate that raises does not match *)
Definition safe_pred (pred : pkt -> outcome bool) (p : pkt) : bool :=
  match pred p with Val b => b | _ => false end.
Definition cap_match (pred : pkt -> outcome bool) (c : Capture) : list pkt :=
  List.filter (safe_pred pred) (cap_packets c).

(** ** [Traffic] *)

Context `{CliEnv} `{WorkerEnv} `{DutEnv} `{LbEnv}.

Definition loop (p : Port) : M unit := enable p None false true ;;; wait_learn_ready p 12000 ;;; ret tt.
Definition unloop (p : Port) : M unit := disable p.

Definition carrier_cmd (name : string) : string := "cat /sys/class/net/" +:+ name +:+ "/carrier 2>/dev/null".
Definition wait_carrier (p : Port) (timeout : Z) : M bool :=
  poll_until timeout 300 (let* r := sh_run (carrier_cmd (p_name p)) in ret (String.eqb (strip (out r)) "1")).

Definition send (p : Port) (k : pkt) (count inter : Z) : M unit :=
  if negb scapy then ret tt
  else wait_carrier p 6000 ;;; nic_do (fun d => (tt, nic_send k (p_name p) count inter d)).

Definition tr_counters (p : Port) : M (pydict string Z) := port_counters (p_name p).
Definition chip_counters (p : Port) : M ChipCounters := let* b := lb_bcm p in chip_read lb_bsh b.
Definition clear_chip_counters : M unit := chip_clear lb_bsh.
Definition tr_default_vlan : string := prof_str (d_profile lb_dut) "default_vlan" "1000".

Definition forward_edb (p_in p_out : Port) (k : pkt) (count : Z) : M ChipCounters :=
  enable p_in (Some "edb") false true ;;;
  enable p_out (Some "edb") true true ;;;
  try_finally
    (let* base := chip_counters p_out in
     send p_in k count 0 ;;;
     sleep 800 ;;;
     let* after := chip_counters p_out in
     ret (chip_sub after base))
    (disable p_out ;;; disable p_in).

(** ** [smoke_check] *)

Definition SMOKE_DST : string := "00:aa:bb:cc:dd:01".
Definition SMOKE_N : Z := 50.
(** [n * 0.9] *)
Definition SMOKE_MIN : Z := 45.
Definition smoke_ok (total : Z) : bool := (SMOKE_MIN <=? total) && (total <? 1000000).

(** one read of the polling loop, left when the total is reached *)
Definition smoke_round (p_in : Port) (total : Z) : M (Z + Z) :=
  if total <? SMOKE_MIN then
    sleep 400 ;;;
    let* c := chip_counters p_in in ret (inl (total + ch_rx_pkt c))
  else ret (inr total).
(** the frames counted in one try *)
Definition smoke_try (p_in : Port) (k : pkt) : M Z :=
  clear_chip_counters ;;;
  send p_in k SMOKE_N 0 ;;;
  let* t0 := now in
  let* r := while_before (poll_fuel 3000 400) (t0 + 3000) (smoke_round p_in) 0 in
  let total := match r with inl t => t | inr t => t end in
  sleep 400 ;;;
  let* c := chip_counters p_in in ret (total + ch_rx_pkt c).
Fixpoint smoke_tries (n : nat) (p_in : Port) (k : pkt) : M bool :=
  match n with
  | O => ret false
  | S n' => let* total := smoke_try p_in k in
            if smoke_ok total then ret true else sleep 1000 ;;; smoke_tries n' p_in k
  end.
Definition smoke_payload : string := "SMOKE" +:+ Nat.iter 40 (String "x"%char) "".
Definition smoke_check (p_in p_out : Port) : M bool :=
  if negb scapy then ret true
  else
    fdb_static_add tr_default_vlan SMOKE_DST (p_name p_out) true ;;;
    try_finally (smoke_tries 2 p_in (udp_probe SMOKE_DST "00:de:ad:be:ef:01" "1.1.1.1" smoke_payload))
      (fdb_static_del tr_default_vlan SMOKE_DST ;;; ret tt).
End Traffic.
Arguments Capture {_ _}.

(** ** framework/collector.py *)

Definition PROBE_SMAC : string := "00:de:ad:be:ef:01".

(** the templates, filled in *)
Definition fp_install (sdk gid eid bcm smac : string) : outcome (list string) :=
  if String.eqb sdk "sdk6" then Val [
    "fp group create " +:+ gid +:+ " pri 1 qset SrcMac InPort";
    "fp entry create " +:+ gid +:+ " " +:+ eid;
    "fp qual " +:+ eid +:+ " SrcMac " +:+ smac +:+ " ffffffffffff";
    "fp qual " +:+ eid +:+ " InPort " +:+ bcm +:+ " 0xffffffff";
    "fp action add " +:+ eid +:+ " CopyToCpu 0 0";
    "fp entry install " +:+ eid]
  else if String.eqb sdk "sdklt" then Val [
    "lt FP_ING_GRP_TEMPLATE insert FP_ING_GRP_TEMPLATE_ID=" +:+ gid +:+ " ...";
    "lt FP_ING_RULE insert FP_ING_RULE_ID=" +:+ eid +:+ " ...";
    "lt FP_ING_POLICY insert FP_ING_POLICY_ID=" +:+ eid +:+ " COPY_TO_CPU=1 ...";
    "lt FP_ING_ENTRY insert FP_ING_ENTRY_ID=" +:+ eid +:+ " ..."]
  else if String.eqb sdk "remove" then Val [  (* iterating over the inner dictionary gives its keys *)
    "sdk6"; "sdklt"]
  else Exc (KeyError sdk).
Definition fp_remove (sdk gid eid : string) : outcome (list string) :=
  if String.eqb sdk "sdk6" then Val ["fp entry remove " +:+ eid; "fp entry destroy " +:+ eid; "fp group destroy " +:+ gid]
  else if String.eqb sdk "sdklt" then Val ["lt FP_ING_ENTRY delete FP_ING_ENTRY_ID=" +:+ eid]
  else Exc (KeyError sdk).

(** [re.search(r"Id\s*=\s*(0x[0-9a-fA-F]+)", out)] *)
Definition hex_char (c : ascii) : bool := match hex_val c with Some _ => true | None => false end.
Definition id_here (s : string) : option string :=
  if starts "Id" s then
    match lstrip (str_drop 2 s) with
    | String "=" r =>
        let r := lstrip r in
        if starts "0x" r then
          let h := fst (span hex_char (str_drop 2 r)) in if nonempty h then Some ("0x" +:+ h) else None
        else None
    | _ => None
    end
  else None.
Fixpoint mirror_id (s : string) : option string :=
  match id_here s with
  | Some i => Some i
  | None => match s with "" => None | String _ s' => mirror_id s' end
  end.

Section Collectors.
Context `{Device} `{ShellEnv} `{WorkerEnv} `{DutEnv}.
Variables (bsh : BcmShell) (dut : Dut).

(** [MirrorCollector]: [_mid] and [_src] *)
Record MirrorCollector := mkMirror { mc_mid : option string; mc_src : option string }.
Definition mirror_enable (p : Port) : OM MirrorCollector unit :=
  let! b := olift (lift (bcm_of dut p)) in
  olift (bsh_cmd bsh "mirror init") ;!;
  let! o := olift (bsh_cmd bsh "mirror dest create destport=cpu0") in
  match mirror_id o with
  | None => oraise (RuntimeError ("mirror dest create failed (no Id): " +:+ last_chars 120 o))
  | Some m =>
      omod (fun _ => mkMirror (Some m) (Some b)) ;!;
      olift (bsh_cmd bsh ("mirror dest add id=" +:+ m +:+ " srcport=" +:+ b +:+ " mode=Egress") ;;; ret tt)
  end.
Definition mirror_disable : OM MirrorCollector unit :=
  let! c := oget in
  owhen (truthy (mc_src c)) (olift (quietly (bsh_cmd bsh ("mirror port " +:+ or_empty (mc_src c) +:+ " mode=off") ;;; ret tt))) ;!;
  owhen (truthy (mc_mid c)) (olift (bsh_cmd bsh ("mirror dest destroy id=" +:+ or_empty (mc_mid c)) ;;; ret tt)) ;!;
  omod (fun _ => mkMirror None None).

(** [Collector] with its default group and entry; the state is [_active] *)
Definition collector_enable (sdk : string) (p : Port) (smac : string) : OM (list Port) unit :=
  let! b := olift (lift (bcm_of dut p)) in
  let! cmds := olift (lift (fp_install sdk "63" "6300" b (replace_all ":" "" smac))) in
  olift (for_each cmds (fun c => bsh_cmd bsh c ;;; ret tt)) ;!;
  omod (fun active => active ++ [p]).
Definition collector_disable (sdk : string) : OM (list Port) unit :=
  let! cmds := olift (lift (fp_remove sdk "63" "6300")) in
  olift (for_each cmds (fun c => quietly (bsh_cmd bsh c ;;; ret tt))) ;!;
  omod (fun _ => []).
End Collectors.

(** ** What the traffic helpers leave behind *)

Section Facts.
Context `{Device} `{ShellEnv} `{!Nic} `{CliEnv} `{WorkerEnv} `{DutEnv} `{LbEnv} `{!TimeLaws}.
(** sending and sniffing do not turn the clock back *)
Context (nic_time : forall k i n t d, dev_now d <= dev_now (nic_send k i n t d)).

(** an operation that never raises *)
Definition noexc {A} (m : M A) : Prop := forall w e w', m w <> (Exc e, w').
Lemma noexc_bind {A B} (m : M A) (k : A -> M B) : noexc m -> (forall a, noexc (k a)) -> noexc (bind m k).
Proof.
  intros Hm Hk w e w' E. unfold bind in E. destruct (m w) as [[a|e1|] w1] eqn:E1; [by eapply Hk | by eapply Hm | done].
Qed.
Lemma noexc_keeps {A} (m : M A) : keeps_lb m -> noexc m.
Proof. intros Hm w e w' E. destruct (Hm w) as (a & w1 & E1 & _). congruence. Qed.
Lemma noexc_while {S A} fuel dl (body : S -> M (S + A)) s : (forall s, noexc (body s)) -> noexc (while_before fuel dl body s).
Proof.
  intros Hb. revert s. induction fuel as [|f IH]; intros s; [by intros w e w'|]. cbn [while_before].
  intros w e w' E. unfold bind at 1, now in E. case_match; [|done].
  eapply (noexc_bind (body s)); [apply Hb | | exact E]. intros [s'|a]; [apply IH | by intros ? ? ?].
Qed.

(** a wait that ends and does not raise keeps the tables *)
Lemma keeps_poll timeout ms chk : 0 < ms -> total chk -> keeps_lb chk -> keeps_lb (poll_until timeout ms chk).
Proof.
  intros Hms Ht Hk w. pose proof (total_poll_until timeout ms chk Hms Ht) as [Hh _].
  assert (noexc (poll_until timeout ms chk)) as Hn.
  { unfold poll_until. intros w0 e w1 E. unfold bind at 1, now in E. eapply noexc_bind; [| |exact E].
    - apply noexc_while. intros _. apply noexc_bind; [by apply noexc_keeps|]. intros []; by intros ? ? ?.
    - by intros ? ? ? ?. }
  assert (steps same_lb (poll_until timeout ms chk)) as Hs.
  { apply steps_poll_until; [apply _ | auto with steps|]. intros w0. destruct (Hk w0) as (a & w1 & E & Hl). by rewrite E. }
  specialize (Hh w). specialize (Hn w). specialize (Hs w). unfold same_lb in Hs.
  destruct (poll_until timeout ms chk w) as [[b|e|] w']; [by exists b, w' | by destruct (Hn e w') | done].
Qed.
Lemma keeps_oper_up p : keeps_lb (wait_oper_up p).
Proof.
  apply keeps_poll; [lia | |].
  - apply total_bind; [apply total_run_full | intros; apply total_ret].
  - apply keeps_bind; [apply keeps_run | intros; apply keeps_ret].
Qed.
Lemma keeps_when c m : keeps_lb m -> keeps_lb (when c m).
Proof. destruct c; [done | intros _; apply keeps_ret]. Qed.

(** enabling a loopback puts it on record, disabling takes it off *)
Lemma enable_lb p m d up b w : bcm_of lb_dut p = Val b ->
  exists w', enable p m d up w = (Val tt, w') /\
    w_lb w' = put_touched (put_on (dset p ((if truthy m then or_empty m else lb_mode), d)) (w_lb w)).
Proof.
  intros Hb. unfold enable, lb_set, lb_bcm, lift. set (mode := if truthy m then _ else _).
  assert (keeps_lb (chip_ ("port " +:+ b +:+ " lb=" +:+ mode) ;;;
    when d (chip_ ("port " +:+ b +:+ " discard=all")) ;;; when up (wait_oper_up p ;;; ret tt))) as Hk.
  { apply keeps_bind; [apply keeps_chip_|]. intros _. apply keeps_bind; [apply keeps_when, keeps_chip_|]. intros _.
    apply keeps_when, keeps_bind; [apply keeps_oper_up | intros; apply keeps_ret]. }
  destruct (keeps_unit _ w Hk) as (w1 & E & Hl). clear Hk. unfold bind in *. rewrite Hb.
  destruct (chip_ ("port " +:+ b +:+ " lb=" +:+ mode) w) as [[] w2]; [|done..]. unfold ret at 1.
  destruct (when d (chip_ ("port " +:+ b +:+ " discard=all")) w2) as [[] w3]; [|done..].
  rewrite E. eexists. split; [reflexivity|]. cbn [w_lb]. by rewrite Hl.
Qed.
Lemma disable_lb p b w : bcm_of lb_dut p = Val b ->
  exists w', disable p w = (Val tt, w') /\ w_lb w' = put_on (ddel p) (w_lb w).
Proof.
  intros Hb. unfold disable, lb_bcm, lift, get_lb. set (dc := match dget p (lb_on (w_lb w)) with Some (_, d) => d | None => false end).
  assert (keeps_lb (when dc (chip_ ("port " +:+ b +:+ " discard=none")) ;;; chip_ ("port " +:+ b +:+ " lb=none"))) as Hk.
  { apply keeps_bind; [apply keeps_when, keeps_chip_ | intros _; apply keeps_chip_]. }
  destruct (keeps_unit _ w Hk) as (w1 & E & Hl). unfold bind in *. rewrite Hb. fold dc.
  destruct (when dc (chip_ ("port " +:+ b +:+ " discard=none")) w) as [[] w3]; [|done..].
  rewrite E. eexists. split; [reflexivity|]. cbn [w_lb]. by rewrite Hl.
Qed.

Lemma total_bsh b c : total (bsh_cmd b c).
Proof.
  unfold bsh_cmd, sock_cmd. destruct (String.eqb (b_access b) "socket");
    (apply total_bind; [apply total_run_full | intros; apply total_ret]).
Qed.
Lemma total_chip_ c : total (chip_ c).
Proof. apply total_bind; [apply total_bsh | intros; apply total_ret]. Qed.
Lemma grab_ends port text m : grab port text m <> Hang.
Proof. unfold grab. by repeat case_match. Qed.
Lemma grab_first_ends port text ms : grab_first port text ms <> Hang.
Proof.
  induction ms as [|m [|m2 ms] IH]; [done | apply grab_ends|]. cbn [grab_first].
  pose proof (grab_ends port text m). destruct (grab port text m) as [v|e|]; [|done..]. cbn [obind]. by case_match.
Qed.
Lemma parse_chip_ends port text : parse_chip port text <> Hang.
Proof.
  unfold parse_chip. pose proof (grab_first_ends port text ["MIB_RPKT"; "CLMIB_RPKT"; "RX_PKT"]).
  pose proof (grab_first_ends port text ["MIB_TPKT"; "CLMIB_TPKT"; "TX_PKT"]).
  pose proof (grab_ends port text "RX_PKT_IPV4"). pose proof (grab_ends port text "RX_BYT").
  repeat (destruct (grab_first _ _ _) || destruct (grab _ _ _); [|done..]; cbn [obind]). done.
Qed.
Lemma total_chip_counters p b : bcm_of lb_dut p = Val b -> total (chip_counters p).
Proof.
  intros Hb. unfold chip_counters, lb_bcm, chip_read, lift. apply total_bind; [split; [by rewrite Hb|]; intros w; unfold time_mono; simpl; lia|].
  intros c. apply total_bind.
  - apply total_bsh.
  - intros text. split; [|intros w; unfold time_mono; simpl; lia]. intros w. simpl.
    apply parse_chip_ends.
Qed.
Lemma same_lb_chip_counters p : steps same_lb (chip_counters p).
Proof.
  unfold chip_counters, chip_read, bsh_cmd, sock_cmd. steps_go; by intros w.
Qed.
Lemma total_send p k n t : total (send p k n t).
Proof.
  unfold send. case_match; [apply total_ret|]. apply total_bind.
  - apply total_poll_until; [lia|]. apply total_bind; [apply total_run_full | intros; apply total_ret].
  - intros _. split; [done|]. intros w. apply nic_time.
Qed.
Lemma same_lb_send p k n t : steps same_lb (send p k n t).
Proof.
  unfold send, wait_carrier. case_match; [auto with steps|]. apply steps_bind; [apply _ | |by intros ? ?].
  apply steps_poll_until; [apply _ | auto with steps|]. steps_go.
Qed.

(** C20: the forwarding probe leaves no loopback behind.  Whatever the frame,
    the counters and their parsing do, [forward_edb] ends; when it ends (with
    the counter difference or with an exception) neither of its ports is on
    the loopback record any more and every other port's record is what it was,
    so the egress port that was put in loopback with its ingress discarded
    cannot feed the next test. *)
Theorem forward_edb_unloops p_in p_out k count a b w :
  dwf (lb_on (w_lb w)) -> bcm_of lb_dut p_in = Val a -> bcm_of lb_dut p_out = Val b ->
  exists r w', forward_edb p_in p_out k count w = (r, w') /\ r <> Hang /\
    dget p_in (lb_on (w_lb w')) = None /\ dget p_out (lb_on (w_lb w')) = None /\
    (forall q, q <> p_in -> q <> p_out -> dget q (lb_on (w_lb w')) = dget q (lb_on (w_lb w))) /\
    lb_touched (w_lb w') = true.
Proof.
  intros Hw Ha Hb. unfold forward_edb.
  destruct (enable_lb p_in (Some "edb") false true a w Ha) as (w1 & E1 & L1). rewrite (bind_step _ _ _ _ _ E1).
  destruct (enable_lb p_out (Some "edb") true true b w1 Hb) as (w2 & E2 & L2). rewrite (bind_step _ _ _ _ _ E2).
  set (body := let* base := chip_counters p_out in _).
  assert (total body) as Ht.
  { unfold body. apply total_bind; [by eapply total_chip_counters|]. intros base. apply total_bind; [apply total_send|].
    intros _. apply total_bind; [apply total_sleep; lia|]. intros _.
    apply total_bind; [by eapply total_chip_counters | intros; apply total_ret]. }
  assert (steps same_lb body) as Hs.
  { unfold body. apply steps_bind; [apply _ | apply same_lb_chip_counters|]. intros base.
    apply steps_bind; [apply _ | apply same_lb_send|]. intros _. apply steps_bind; [apply _ | auto with steps|]. intros _.
    apply steps_bind; [apply _ | apply same_lb_chip_counters | auto with steps]. }
  destruct Ht as [Hh _]. specialize (Hh w2). specialize (Hs w2). unfold same_lb in Hs.
  unfold try_finally. destruct (body w2) as [r w3]. cbn [fst snd] in *.
  destruct (disable_lb p_out b w3 Hb) as (w4 & E4 & L4). destruct (disable_lb p_in a w4 Ha) as (w5 & E5 & L5).
  assert ((disable p_out ;;; disable p_in) w3 = (Val tt, w5)) as -> by (by rewrite (bind_step _ _ _ _ _ E4)).
  exists r, w5. split; [by destruct r|]. split; [done|].
  rewrite L5, L4, Hs, L2, L1. cbn [w_lb put_on put_touched lb_on lb_touched].
  set (d := dset p_out ("edb", true) (dset p_in ("edb", false) (lb_on (w_lb w)))) in *.
  assert (dwf d) as Hd by (unfold d; auto with fvt).
  split; [apply dget_ddel_eq; auto with fvt|]. split; [|split; [|done]].
  - destruct (decide (p_out = p_in)) as [->|Hne]; [apply dget_ddel_eq; auto with fvt|].
    rewrite dget_ddel_ne by done. by apply dget_ddel_eq.
  - intros q Hi Ho. rewrite !dget_ddel_ne by done. unfold d. by rewrite !dget_dset_ne.
Qed.
End Facts.

(** ** Examples *)

Definition quiet_device : Device := table_device (fun _ => ok_out "").
Definition toy_nic : @Nic quiet_device :=
  {| pkt := list string; scapy := true; udp_probe a b c d := [a; b; c; d]; nic_send _ _ _ _ d := d;
     sniff_start _ _ d := d; sniff_stop d := ([], d) |}.

Lemma forward_edb_unloops_witness :
  let w := @world quiet_device 0 cli_init in
  let p1 := mkPort "Ethernet0" (Some "cd1") None true in
  let p2 := mkPort "Ethernet4" (Some "cd2") None true in
  exists r w', @forward_edb quiet_device plain_shell toy_nic serial no_bcm_env toy_lb p1 p2 ["probe"] 50 w = (r, w') /\ r <> Hang /\
    dget p1 (lb_on (w_lb w')) = None /\ dget p2 (lb_on (w_lb w')) = None /\
    (forall q, q <> p1 -> q <> p2 -> dget q (lb_on (w_lb w')) = dget q (lb_on (w_lb w))) /\
    lb_touched (w_lb w') = true.
Proof.
  intros w p1 p2.
  apply (@forward_edb_unloops quiet_device plain_shell toy_nic serial no_bcm_env toy_lb _
    ltac:(simpl; intros; lia) p1 p2 ["probe"] 50 "cd1" "cd2" w); [apply dwf_nil | reflexivity | reflexivity].
Defined.

Example ex_capture : cap_bpf (@capture quiet_device toy_nic "Ethernet0" (Some "arp") true) = Some "inbound and (arp)".
Proof. reflexivity. Qed.
Example ex_mirror_id : mirror_id "Mirror destination: Id = 0x1aG" = Some "0x1a".
Proof. reflexivity. Qed.
