(* ===== verification/L3.v ===== *)
(** * L3 probes and the VRF hairpin (framework/l3probe.py, vrfhairpin.py)

    Two routed ports of the device in loopback, or two VRFs of it, play two
    routers.  The packet library builds the frames ([L3Nic]); the frames that
    come out are counted on the egress port of the chip. *)

From S2P Require Import Prelude PyStr PyStrFacts PyVal Device DeviceFacts Toy CliParse Cli CliFacts Worker Profile Dut Topology Loopback Obj LoopbackFacts Counters Traffic.

(** the frames of the probes: destination and source MAC, then the packet *)
Class L3Nic `{Nic} := {
  ip_pkt : option string -> pyval -> pyval -> string -> Z -> Z -> Z -> pkt;   (* rmac, smac, src, dst, ttl, tos, sport *)
  ip6_pkt : option string -> pyval -> pyval -> string -> Z -> Z -> pkt        (* rmac, smac, src, dst, ttl, sport *)
}.

Definition NH_MAC : string := "00:11:22:33:44:aa".

(** [a[k]] of a subnet of the profile, in a text *)
Definition sub_field (sub : pyval) (k : string) : outcome pyval :=
  match sub with
  | VDict d => role_of d k
  | _ => Exc (TypeError "subscript")
  end.
Definition sub_cidr (sub : pyval) : outcome string :=
  obind (sub_field sub "dut") (fun a => obind (sub_field sub "prefix") (fun l => Val (py_str a +:+ "/" +:+ py_str l))).

Section Probe.
Context `{Device} `{ShellEnv} `{CliEnv} `{WorkerEnv} `{DutEnv} `{LbEnv} `{!Nic} `{!L3Nic}.

Definition router_mac : M (option string) :=
  let* d := db_hgetall "CONFIG_DB" "DEVICE_METADATA|localhost" in ret (dget "mac" d).

Definition v6_flag (net : string) : string := if contains ":" net then "-6 " else "".

Definition reset_l3 (dut : Dut) (ports : list Port) (routes : list string) : M unit :=
  for_each ports (fun p => quietly (disable p)) ;;;
  for_each routes (fun net => sh_run ("ip " +:+ v6_flag net +:+ "route del " +:+ net) ;;; ret tt) ;;;
  for_each ports (fun p => let* b := lift (bcm_of dut p) in chip_ ("mirror port " +:+ b +:+ " mode=off")) ;;;
  chip_ "clear c".

Definition first_part (c : ascii) (s : string) : string := match cut c s with Some (a, _) => a | None => s end.
Definition wait_route (dst_net : string) (tries : nat) : M bool :=
  poll_tries tries 500
    (let* r := sh_run ("ip " +:+ v6_flag dst_net +:+ "route show " +:+ dst_net) in
     ret (contains (first_part "/"%char dst_net) (out r))).

(** the frames the chip sent on a port since the last read *)
Definition tx_read (dut : Dut) (p : Port) : M Z :=
  let* b := lift (bcm_of dut p) in let* c := chip_read lb_bsh b in ret (ch_tx_pkt c).
(** reads are added up until [n * 0.9] frames or the deadline *)
Definition tx_round (dut : Dut) (p : Port) (n total : Z) : M (Z + Z) :=
  if total * 10 <? n * 9 then
    sleep 400 ;;; let* t := tx_read dut p in ret (inl (total + t))
  else ret (inr total).
Definition tx_count (dut : Dut) (p : Port) (n timeout : Z) : M Z :=
  let* t0 := now in
  let* r := while_before (poll_fuel timeout 400) (t0 + timeout) (tx_round dut p n) 0 in
  sleep 400 ;;;
  let* t := tx_read dut p in
  ret (match r with inl total => total | inr total => total end + t).

Definition inject (k : pkt) (iface : string) (n : Z) : M unit :=
  nic_do (fun d => (tt, nic_send k iface n 0 d)).
Definition tx_delta (dut : Dut) (p_out : Port) (k : pkt) (iface : string) (n settle : Z) : M Z :=
  chip_clear lb_bsh ;;; inject k iface n ;;; tx_count dut p_out n (Z.max settle 1000 + 2000).

(** ** [TwoPortL3] *)

Record TwoPortL3 := mkTwo {
  tw_in : Port; tw_out : Port; tw_nh : pyval; tw_sub_in : pyval; tw_sub_out : pyval; tw_rmac : option string
}.
Definition n6 (v6 : bool) : string := if v6 then "-6 " else "".
Definition two_enter (dut : Dut) (topo : Topology) (l3up : string -> string -> M Port) (v6 : bool) : M TwoPortL3 :=
  let* p0 := lift (l3_port topo 0) in
  let* p1 := lift (l3_port topo 1) in
  let* sub_in := lift (topo_subnet topo (if v6 then "v6b" else "c")) in
  let* sub_out := lift (topo_subnet topo (if v6 then "v6a" else "d")) in
  reset_l3 dut [p0; p1] [] ;;;
  let* c_in := lift (sub_cidr sub_in) in
  let* p_in := l3up (p_name p0) c_in in
  let* c_out := lift (sub_cidr sub_out) in
  let* p_out := l3up (p_name p1) c_out in
  let* nh := lift (sub_field sub_out "peer") in
  sh_run ("ip " +:+ n6 v6 +:+ "neigh replace " +:+ py_str nh +:+ " lladdr " +:+ NH_MAC +:+ " dev " +:+ p_name p_out) ;;;
  let* mac := router_mac in
  ret (mkTwo p_in p_out nh sub_in sub_out mac).
Definition two_exit (dut : Dut) (topo : Topology) (v6 : bool) (t : TwoPortL3) : M unit :=
  let* p0 := lift (l3_port topo 0) in
  let* p1 := lift (l3_port topo 1) in
  sh_run ("ip " +:+ n6 v6 +:+ "neigh del " +:+ py_str (tw_nh t) +:+ " dev " +:+ p_name (tw_out t)) ;;;
  reset_l3 dut [p0; p1] [].

(** an absent source port is 1234, the type of service holds the DSCP *)
Definition make_pkt (topo : Topology) (v6 : bool) (t : TwoPortL3) (dst : string) (ttl : Z) (dscp : option Z) (sport : Z)
  : outcome pkt :=
  obind (sub_field (tw_sub_in t) "peer") (fun src =>
  let sport := if sport =? 0 then 1234 else sport in
  Val (if v6 then ip6_pkt (tw_rmac t) (topo_mac topo "src") src dst ttl sport
       else ip_pkt (tw_rmac t) (topo_mac topo "src") src dst ttl
              (match dscp with Some v => Z.shiftl v 2 | None => 0 end) sport)).
Definition two_forward_tx (dut : Dut) (topo : Topology) (v6 : bool) (t : TwoPortL3) (dst : string) (ttl n : Z) : M Z :=
  let* k := lift (make_pkt topo v6 t dst ttl None 0) in
  tx_delta dut (tw_out t) k (p_name (tw_in t)) n 1000.

(** ** [VrfHairpin] *)

Record VrfHairpin := mkVrf {
  vh_vrfs : list string;
  vh_bound : list (Port * string * string);
  vh_routes : list (string * string * string * string)
}.
Definition vrf_init : VrfHairpin := mkVrf [] [] [].
Definition put_vrfs (l : list string) (v : VrfHairpin) : VrfHairpin := mkVrf l (vh_bound v) (vh_routes v).
Definition put_bound (l : list (Port * string * string)) (v : VrfHairpin) : VrfHairpin := mkVrf (vh_vrfs v) l (vh_routes v).
Definition put_routes (l : list (string * string * string * string)) (v : VrfHairpin) : VrfHairpin := mkVrf (vh_vrfs v) (vh_bound v) l.

(** [r.err or r.out] *)
Definition err_or_out (r : Result) : string := if nonempty (err r) then err r else out r.

Definition add_vrf (name : string) : OM VrfHairpin unit :=
  let! cr := olift (config_raw ("vrf add " +:+ name)) in
  if negb (fst cr =? 0) then oraise (AssertionError ("config vrf add " +:+ name +:+ " failed: " +:+ err_or_out (snd cr)))
  else omod (fun v => put_vrfs (vh_vrfs v ++ [name]) v).

Definition left_vlan (dv : Z) (name : string) : M bool :=
  let* there := has_keys "CONFIG_DB" ("VLAN_MEMBER|Vlan" +:+ zs dv +:+ "|" +:+ name) in ret (negb there).
(** what [bind] does before the loopback: the reason of a failure, or none *)
Definition bind_port (topo : Topology) (vrf : string) (p : Port) (cidr : string) (tries : nat) : M (option string) :=
  let name := p_name p in
  let dv := t_default_vlan topo in
  config_raw ("vlan member del " +:+ zs dv +:+ " " +:+ name) ;;;
  poll_tries tries 300 (left_vlan dv name) ;;;
  let* '(rc, r) := config_raw ("interface vrf bind " +:+ name +:+ " " +:+ vrf) in
  if negb (rc =? 0) then ret (Some ("vrf bind: " +:+ err_or_out r))
  else
    let* bound := poll_tries 15 300
      (let* row := db_hgetall "CONFIG_DB" ("INTERFACE|" +:+ name) in
       ret (bool_decide (dget "vrf_name" row = Some vrf))) in
    if negb bound then ret (Some "interface vrf_name not set in CONFIG_DB")
    else
      let* '(rc, r) := config_raw ("interface ip add " +:+ name +:+ " " +:+ cidr) in
      if negb (rc =? 0) then ret (Some ("ip add: " +:+ err_or_out r))
      else intf_startup name ;;; ret None.
Definition vrf_bind (topo : Topology) (vrf : string) (p : Port) (cidr : string) : OM VrfHairpin (bool * string) :=
  let! why := olift (bind_port topo vrf p cidr 20) in
  match why with
  | Some why => oret (false, why)
  | None =>
      olift (enable p None false true) ;!;
      omod (fun v => put_bound (vh_bound v ++ [(p, vrf, cidr)]) v) ;!;
      oret (true, "")
  end.

Definition vrf_route (vrf dst_net nh port_name nh_mac : string) : OM VrfHairpin unit :=
  olift (neigh_set nh nh_mac port_name) ;!;
  olift (sh_run ("ip route replace " +:+ dst_net +:+ " via " +:+ nh +:+ " vrf " +:+ vrf)) ;!;
  omod (fun v => put_routes (vh_routes v ++ [(vrf, dst_net, nh, port_name)]) v).
Definition vrf_leak (dst_net from_vrf nh : string) (egress : Port) (nh_mac : string) : OM VrfHairpin unit :=
  olift (neigh_set nh nh_mac (p_name egress)) ;!;
  olift (sh_run ("ip route replace " +:+ dst_net +:+ " via " +:+ nh +:+ " dev " +:+ p_name egress +:+ " vrf " +:+ from_vrf)) ;!;
  omod (fun v => put_routes (vh_routes v ++ [(from_vrf, dst_net, nh, p_name egress)]) v).
Definition vrf_wait_route (vrf dst_net : string) (tries : nat) : M bool :=
  poll_tries tries 500
    (let* r := sh_run ("ip route show " +:+ dst_net +:+ " vrf " +:+ vrf) in
     ret (contains (first_part "/"%char dst_net) (out r))).

Definition vrf_forward_tx (dut : Dut) (k : pkt) (in_port egress : Port) (n timeout : Z) : M Z :=
  chip_clear lb_bsh ;;; inject k (p_name in_port) n ;;; tx_count dut egress n timeout.
Definition vrf_no_forward_tx (dut : Dut) (k : pkt) (in_port egress : Port) (n settle : Z) : M Z :=
  chip_clear lb_bsh ;;; inject k (p_name in_port) n ;;;
  let* t0 := now in
  let* r := while_before (poll_fuel settle 500) (t0 + settle)
    (fun total => sleep 500 ;;; let* t := tx_read dut egress in ret (inl (A := Z) (B := Z) (total + t))) 0 in
  ret (match r with inl t => t | inr t => t end).

Definition vrf_cleanup (topo : Topology) : OM VrfHairpin unit :=
  let! v := oget in
  olift (for_each (rev (vh_routes v)) (fun x =>
    let '(vrf, dst, nh, port_name) := x in
    sh_run ("ip route del " +:+ dst +:+ " vrf " +:+ vrf) ;;; neigh_del nh port_name)) ;!;
  omod (put_routes []) ;!;
  olift (for_each (rev (vh_bound v)) (fun x =>
    let '(p, vrf, cidr) := x in
    quietly (disable p) ;;;
    config_raw ("interface ip remove " +:+ p_name p +:+ " " +:+ cidr) ;;;
    config_raw ("interface vrf unbind " +:+ p_name p) ;;;
    config_raw ("vlan member add -u " +:+ zs (t_default_vlan topo) +:+ " " +:+ p_name p) ;;; ret tt)) ;!;
  omod (put_bound []) ;!;
  olift (for_each (rev (vh_vrfs v)) (fun vrf => config_raw ("vrf del " +:+ vrf) ;;; ret tt)) ;!;
  omod (put_vrfs []).
End Probe.
