(* ===== verification/L3Facts.v ===== *)
(** * The VRF hairpin unwinds

    Whatever the test does with the object, and whatever raised half-way,
    every port it put in loopback is in its books, and a clean-up that
    completes leaves no loopback that was not there before. *)

From S2P Require Import Prelude PyStr PyStrFacts PyVal Device DeviceFacts Toy CliParse Cli CliFacts CliFrame Worker Profile Dut Topology Loopback Obj LoopbackFacts Counters Traffic L3.

Section Facts.
Context `{Device} `{ShellEnv} `{CliEnv} `{WorkerEnv} `{DutEnv} `{LbEnv} `{!TimeLaws}.

(** the adapter and the shell leave the loopback record alone *)
Lemma same_lb_config_raw a : steps same_lb (config_raw a).
Proof. apply frame_config_raw; auto with steps; apply _. Qed.
Lemma same_lb_intf_startup p : steps same_lb (intf_startup p).
Proof. apply frame_intf_startup; auto with steps; apply _. Qed.
Lemma same_lb_neigh_set a b c : steps same_lb (neigh_set a b c).
Proof. apply frame_neigh_set; auto with steps; apply _. Qed.
Lemma same_lb_neigh_del a b : steps same_lb (neigh_del a b).
Proof. apply frame_neigh_del; auto with steps; apply _. Qed.
#[local] Hint Resolve same_lb_config_raw same_lb_intf_startup same_lb_neigh_set same_lb_neigh_del : steps.

Lemma total_config_raw a : total (config_raw a).
Proof. unfold config_raw, config_raw_r. apply total_bind; [apply (total_config_n_any 0) | intros; apply total_ret]. Qed.
Lemma total_intf_startup p : total (intf_startup p).
Proof.
  unfold intf_startup. apply total_bind; [apply total_run_full|]. intros r.
  case_match; [apply total_ret | apply (total_config_n_any 0)].
Qed.
#[local] Hint Resolve total_config_raw total_intf_startup total_has_keys total_db_hgetall total_sh_run : total.

Lemma total_bind_port topo vrf p cidr n : total (bind_port topo vrf p cidr n).
Proof. unfold bind_port, left_vlan. total_go. Qed.
Lemma same_lb_bind_port topo vrf p cidr n : steps same_lb (bind_port topo vrf p cidr n).
Proof. unfold bind_port, left_vlan. frame_go. Qed.

(** ** Operations on the record *)

Definition on_lb (q : Port) (w : World) : option (string * bool) := dget q (lb_on (w_lb w)).

(** ports are only taken off the record *)
Definition shrinks (w w' : World) : Prop :=
  dwf (lb_on (w_lb w)) -> dwf (lb_on (w_lb w')) /\ forall q, on_lb q w' = None \/ on_lb q w' = on_lb q w.
#[local] Instance shrinks_pre : PreOrder shrinks.
Proof.
  split; [intros w Hd; auto|]. intros w1 w2 w3 Ha Hb Hd. destruct (Ha Hd) as [Hd2 Hq]. destruct (Hb Hd2) as [Hd3 Hq'].
  split; [done|]. intros q. destruct (Hq' q) as [|E]; [auto|]. rewrite E. apply Hq.
Qed.
Lemma same_shrinks {A} (m : M A) : steps same_lb m -> steps shrinks m.
Proof. intros Hm w Hd. unfold on_lb. rewrite (Hm w). auto. Qed.
Lemma disable_shrinks p : steps shrinks (quietly (disable p)).
Proof.
  intros w. destruct (bcm_of lb_dut p) as [b|e|] eqn:Eb.
  - destruct (disable_lb p b w Eb) as (w' & E & L). unfold quietly, try_except. rewrite E. simpl. intros Hd. unfold on_lb.
    rewrite L. cbn [put_on lb_on]. split; [auto with fvt|]. intros q. destruct (decide (q = p)) as [->|Hne].
    + left. by apply dget_ddel_eq.
    + right. by apply dget_ddel_ne.
  - unfold quietly, try_except, disable, lb_bcm, lift, bind. rewrite Eb. case_match; cbn; intros Hd; auto.
  - unfold quietly, try_except, disable, lb_bcm, lift, bind. rewrite Eb. cbn. intros Hd. auto.
Qed.
Lemma int_setting_ends e bp k d : int_setting e bp k d <> Hang.
Proof. unfold int_setting. by repeat case_match. Qed.
Lemma bcm_of_ends dut p : bcm_of dut p <> Hang.
Proof.
  unfold bcm_of. case_match; [done|]. pose proof (int_setting_ends bcm_offset (sub_dict "bcm_port" (d_profile dut)) "offset" (-1)).
  pose proof (int_setting_ends bcm_divisor (sub_dict "bcm_port" (d_profile dut)) "divisor" 1).
  destruct (int_setting bcm_offset _ _ _); destruct (int_setting bcm_divisor _ _ _); try done.
  repeat case_match; congruence.
Qed.
Lemma total_disable p : total (quietly (disable p)).
Proof.
  unfold quietly. apply total_try; [|intros; apply total_ret]. unfold disable, lb_bcm. apply total_bind.
  { split; [intros w; apply bcm_of_ends | intros w; unfold time_mono; simpl; lia]. }
  intros b. apply total_bind; [split; [done | intros w; unfold time_mono; simpl; lia]|]. intros s.
  apply total_bind; [apply total_when, total_chip_|]. intros _.
  apply total_bind; [apply total_chip_|]. intros _. split; [done | intros w; unfold time_mono; simpl; lia].
Qed.

(** taking every bound port down *)
Definition unbind_port (topo : Topology) (x : Port * string * string) : M unit :=
  let '(p, vrf, cidr) := x in
  quietly (disable p) ;;;
  config_raw ("interface ip remove " +:+ p_name p +:+ " " +:+ cidr) ;;;
  config_raw ("interface vrf unbind " +:+ p_name p) ;;;
  config_raw ("vlan member add -u " +:+ zs (t_default_vlan topo) +:+ " " +:+ p_name p) ;;; ret tt.
Lemma unbind_shrinks topo x : steps shrinks (unbind_port topo x).
Proof.
  destruct x as [[p vrf] cidr]. apply steps_bind; [apply _ | apply disable_shrinks|]. intros _. apply same_shrinks. steps_go.
Qed.
Lemma total_unbind topo x : total (unbind_port topo x).
Proof. destruct x as [[p vrf] cidr]. apply total_bind; [apply total_disable|]. intros _. total_go. Qed.
Lemma unbind_off topo p vrf cidr w u w' :
  dwf (lb_on (w_lb w)) -> (exists b, bcm_of lb_dut p = Val b) -> unbind_port topo (p, vrf, cidr) w = (Val u, w') -> on_lb p w' = None.
Proof.
  intros Hd [b Hb] E. unfold unbind_port in E. apply bind_val in E as ([] & w1 & E1 & E2).
  destruct (disable_lb p b w Hb) as (w1' & E1' & L). unfold quietly, try_except in E1. rewrite E1' in E1. simplify_eq.
  match type of E2 with ?m _ = _ => assert (steps same_lb m) as Hs by steps_go end.
  specialize (Hs w1). rewrite E2 in Hs. unfold same_lb in Hs. cbn [snd] in Hs. unfold on_lb. rewrite Hs, L. by apply dget_ddel_eq.
Qed.
Lemma unbind_all_off topo l : forall w u w',
  dwf (lb_on (w_lb w)) -> (forall x, x ∈ l -> exists b, bcm_of lb_dut (fst (fst x)) = Val b) ->
  for_each l (unbind_port topo) w = (Val u, w') -> forall x, x ∈ l -> on_lb (fst (fst x)) w' = None.
Proof.
  induction l as [|y l IH]; intros w u w' Hd Hb E x Hx; [by apply elem_of_nil in Hx|].
  cbn [for_each] in E. apply bind_val in E as ([] & w1 & E1 & E2).
  pose proof (unbind_shrinks topo y w) as Hs. rewrite E1 in Hs. destruct (Hs Hd) as [Hd1 _].
  assert (forall z, z ∈ l -> exists b, bcm_of lb_dut (fst (fst z)) = Val b) as Hbl by (intros; apply Hb; by constructor).
  apply elem_of_cons in Hx as [->|Hx]; [|by apply (IH w1 u w')].
  destruct y as [[p vrf] cidr]. cbn [fst].
  assert (on_lb p w1 = None) as Hn by (eapply unbind_off; [exact Hd | apply (Hb (p, vrf, cidr)); constructor | exact E1]).
  assert (steps shrinks (for_each l (unbind_port topo))) as Hr by (apply steps_for_each; [apply _ | intros; apply unbind_shrinks]).
  specialize (Hr w1). rewrite E2 in Hr. cbn [snd] in Hr. destruct (Hr Hd1) as [_ Hq]. destruct (Hq p) as [|Eq]; [done | by rewrite Eq].
Qed.

(** ** The object *)

Inductive vrf_op :=
| OpAdd (name : string)
| OpBind (vrf : string) (p : Port) (cidr : string)
| OpRoute (vrf dst nh port_name mac : string)
| OpLeak (dst vrf nh : string) (egress : Port) (mac : string)
| OpCleanup.
Definition vrf_step (topo : Topology) (o : vrf_op) : OM VrfHairpin unit :=
  match o with
  | OpAdd n => add_vrf n
  | OpBind vrf p cidr => vrf_bind topo vrf p cidr ;!; oret tt
  | OpRoute vrf dst nh port mac => vrf_route vrf dst nh port mac
  | OpLeak dst vrf nh p mac => vrf_leak dst vrf nh p mac
  | OpCleanup => vrf_cleanup topo
  end.

(** the object and the device after any operations, whatever their outcomes,
    and whatever else the test does that does not change a loopback *)
Inductive reached (topo : Topology) (d0 : pydict Port (string * bool)) : VrfHairpin -> World -> Prop :=
| reached_new w : lb_on (w_lb w) = d0 -> reached topo d0 vrf_init w
| reached_op o v w r v' w' : reached topo d0 v w -> vrf_step topo o v w = (Val (r, v'), w') -> reached topo d0 v' w'
| reached_test v w w' : reached topo d0 v w -> same_lb w w' -> reached topo d0 v w'.

Definition booked (d0 : pydict Port (string * bool)) (v : VrfHairpin) (w : World) : Prop :=
  dwf (lb_on (w_lb w)) /\
  (forall x, x ∈ vh_bound v -> exists b, bcm_of lb_dut (fst (fst x)) = Val b) /\
  (forall q, on_lb q w = None \/ on_lb q w = dget q d0 \/ q ∈ map (fun x => fst (fst x)) (vh_bound v)).

Lemma booked_same d0 v v' w w' : booked d0 v w -> same_lb w w' -> vh_bound v' = vh_bound v -> booked d0 v' w'.
Proof. intros (Hd & Hb & Hq) Hl Hv. unfold booked, on_lb in *. by rewrite Hl, Hv. Qed.
Lemma booked_shrink d0 v w w' : booked d0 v w -> shrinks w w' -> booked d0 v w'.
Proof.
  intros (Hd & Hb & Hq) Hs. destruct (Hs Hd) as [Hd' Hq']. split; [done|]. split; [done|].
  intros q. destruct (Hq' q) as [| ->]; auto.
Qed.

(** an operation whose outcome is not [Hang], from a booked state, leaves a
    booked state *)
Definition books {A} d0 (m : OM VrfHairpin A) : Prop := forall v w, booked d0 v w ->
  exists r v' w', m v w = (Val (r, v'), w') /\ r <> Hang /\ booked d0 v' w'.
Lemma books_bind {A B} d0 (m : OM VrfHairpin A) (k : A -> OM VrfHairpin B) :
  books d0 m -> (forall a, books d0 (k a)) -> books d0 (obnd m k).
Proof.
  intros Hm Hk v w Hv. destruct (Hm v w Hv) as (r & v1 & w1 & E & Hr & Hv1).
  destruct r as [a|e|]; [|by rewrite (obnd_exc _ _ _ _ _ _ _ E); eauto 10 | done].
  rewrite (obnd_val _ _ _ _ _ _ _ E). by apply Hk.
Qed.
Lemma books_lift {A} d0 (m : M A) : total m -> steps shrinks m -> books d0 (olift m).
Proof.
  intros [Hh _] Hs v w Hv. specialize (Hh w). specialize (Hs w). unfold olift.
  destruct (m w) as [[a|e|] w']; [| |done]; do 3 eexists; (split; [reflexivity|]); (split; [done|]);
    by eapply booked_shrink.
Qed.
Lemma books_same {A} d0 (m : M A) : total m -> steps same_lb m -> books d0 (olift m).
Proof. intros. apply books_lift; [done | by apply same_shrinks]. Qed.
Lemma books_ret {A} d0 (a : A) : books d0 (oret a).
Proof. intros v w Hv. by do 3 eexists. Qed.
Lemma books_raise {A} d0 e : books d0 (oraise (A := A) e).
Proof. intros v w Hv. by do 3 eexists. Qed.
Lemma books_mod d0 f : (forall v, vh_bound (f v) = vh_bound v) -> books d0 (omod f).
Proof. intros Hf v w Hv. do 3 eexists. split; [reflexivity|]. split; [done|]. by eapply booked_same. Qed.

Lemma books_add_vrf d0 n : books d0 (add_vrf n).
Proof.
  apply books_bind; [apply books_same; auto with total steps|]. intros [c r]. simpl.
  case_match; [apply books_raise | by apply books_mod].
Qed.
Lemma books_route d0 a b c d e : books d0 (vrf_route a b c d e).
Proof.
  apply books_bind; [apply books_same; [apply total_run_full | auto with steps]|]. intros _.
  apply books_bind; [apply books_same; [apply total_run_full | apply same_lb_run]|]. intros _. by apply books_mod.
Qed.
Lemma books_leak d0 a b c p e : books d0 (vrf_leak a b c p e).
Proof.
  apply books_bind; [apply books_same; [apply total_run_full | auto with steps]|]. intros _.
  apply books_bind; [apply books_same; [apply total_run_full | apply same_lb_run]|]. intros _. by apply books_mod.
Qed.

(** binding: the loopback and its entry come together, and only after
    everything else succeeded *)
Lemma vrf_bind_spec topo vrf p cidr v w :
  exists r v' w', vrf_bind topo vrf p cidr v w = (Val (r, v'), w') /\ r <> Hang /\
    ((r = Val (true, "") /\ v' = put_bound (vh_bound v ++ [(p, vrf, cidr)]) v /\ (exists b, bcm_of lb_dut p = Val b) /\
      lb_on (w_lb w') = dset p (lb_mode, false) (lb_on (w_lb w)))
     \/ ((forall s, r <> Val (true, s)) /\ v' = v /\ same_lb w w')).
Proof.
  unfold vrf_bind. destruct (total_bind_port topo vrf p cidr 20) as [Hh _]. specialize (Hh w).
  pose proof (same_lb_bind_port topo vrf p cidr 20 w) as Hl.
  destruct (bind_port topo vrf p cidr 20 w) as [[why|e|] w1] eqn:E; [| |done]; cbn [snd] in Hl; unfold same_lb in Hl.
  2: { rewrite (obnd_lift_exc _ _ _ _ _ _ E). do 3 eexists. split; [reflexivity|]. split; [done|]. right. by repeat split. }
  rewrite (obnd_lift _ _ _ _ _ _ E). destruct why as [why|].
  { do 3 eexists. split; [reflexivity|]. split; [done|]. right. by repeat split. }
  destruct (bcm_of lb_dut p) as [b|e|] eqn:Eb; [| |by apply bcm_of_ends in Eb].
  - destruct (enable_lb p None false true b w1 Eb) as (w2 & E2 & L2). rewrite (obnd_lift _ _ _ _ _ _ E2).
    do 3 eexists. split; [reflexivity|]. split; [done|]. left. repeat split; [by exists b|]. rewrite L2. cbn. by rewrite Hl.
  - erewrite (obnd_lift_exc _ _ _ _ e); [|unfold enable, lb_set, lb_bcm, lift, bind; rewrite Eb; reflexivity].
    do 3 eexists. split; [reflexivity|]. split; [done|]. right. by repeat split.
Qed.
Lemma books_vrf_bind d0 topo vrf p cidr : books d0 (vrf_bind topo vrf p cidr).
Proof.
  intros v w Hv. destruct (vrf_bind_spec topo vrf p cidr v w) as (r & v' & w' & E & Hr & [(-> & -> & Hb & L)|(_ & -> & Hl)]).
  2: { do 3 eexists. split; [exact E|]. split; [done|]. by eapply booked_same. }
  do 3 eexists. split; [exact E|]. split; [done|]. destruct Hv as (Hd & Hbs & Hq). unfold booked, on_lb in *. rewrite L.
  split; [auto with fvt|]. cbn [put_bound vh_bound]. split.
  - intros x [Hx| ->%list_elem_of_singleton]%elem_of_app; auto.
  - intros q. rewrite map_app, elem_of_app. destruct (decide (q = p)) as [->|Hne].
    + right. right. right. cbn. by apply list_elem_of_singleton.
    + rewrite dget_dset_ne by done. destruct (Hq q) as [|[|]]; auto.
Qed.

(** cleaning up *)
Lemma vrf_cleanup_spec topo d0 v w : booked d0 v w ->
  exists r v' w', vrf_cleanup topo v w = (Val (r, v'), w') /\ r <> Hang /\ booked d0 v' w' /\
    (r = Val tt -> v' = vrf_init).
Proof.
  intros Hv. unfold vrf_cleanup. erewrite obnd_val by reflexivity.
  set (m1 := for_each (rev (vh_routes v)) _). assert (total m1) as [T1 _].
  { apply total_for_each. intros [[[? ?] ?] ?]. unfold neigh_del. total_go. }
  assert (steps same_lb m1) as S1 by (apply steps_for_each; [apply _|]; intros [[[? ?] ?] ?]; steps_go).
  specialize (T1 w). specialize (S1 w).
  destruct (m1 w) as [[[]|e|] w1] eqn:E1; [| |done].
  2: { rewrite (obnd_lift_exc _ _ _ _ _ _ E1). do 3 eexists. split; [reflexivity|]. repeat split; try done; by eapply booked_same. }
  rewrite (obnd_lift _ _ _ _ _ _ E1). erewrite obnd_val by reflexivity.
  set (v1 := put_routes [] v). assert (booked d0 v1 w1) as Hv1 by (by eapply booked_same).
  change (for_each (rev (vh_bound v)) _) with (for_each (rev (vh_bound v)) (unbind_port topo)).
  assert (total (for_each (rev (vh_bound v)) (unbind_port topo))) as [T2 _] by (apply total_for_each; intros; apply total_unbind).
  assert (steps shrinks (for_each (rev (vh_bound v)) (unbind_port topo))) as S2
    by (apply steps_for_each; [apply _ | intros; apply unbind_shrinks]).
  specialize (T2 w1). specialize (S2 w1).
  destruct (for_each (rev (vh_bound v)) (unbind_port topo) w1) as [[[]|e|] w2] eqn:E2; [| |done]; cbn [snd] in S2.
  2: { rewrite (obnd_lift_exc _ _ _ _ _ _ E2). do 3 eexists. split; [reflexivity|]. repeat split; try done; by eapply booked_shrink. }
  rewrite (obnd_lift _ _ _ _ _ _ E2). erewrite obnd_val by reflexivity.
  assert (booked d0 (put_bound [] v1) w2) as Hv2.
  { destruct Hv1 as (Hd & Hb & Hq). pose proof (S2 Hd) as [Hd2 Hq2]. split; [done|]. split; [intros x Hx; by apply elem_of_nil in Hx|].
    intros q. destruct (Hq2 q) as [|Eq]; [auto|]. destruct (Hq q) as [Hn|[He|(x & -> & Hx)%list_elem_of_fmap]];
      [left; by rewrite Eq | right; left; by rewrite Eq|]. left.
    eapply (unbind_all_off topo (rev (vh_bound v)) w1); [done | | exact E2|].
    - intros y Hy. apply Hb. apply list_elem_of_In, in_rev, list_elem_of_In in Hy. done.
    - apply list_elem_of_In. rewrite <- in_rev. by apply list_elem_of_In. }
  set (m3 := for_each (rev (vh_vrfs v)) _). assert (total m3) as [T3 _] by (unfold m3; total_go).
  assert (steps same_lb m3) as S3 by (unfold m3; steps_go). specialize (T3 w2). specialize (S3 w2).
  destruct (m3 w2) as [[[]|e|] w3] eqn:E3; [| |done].
  - rewrite (obnd_lift _ _ _ _ _ _ E3). do 3 eexists. split; [reflexivity|]. repeat split; try done; by eapply booked_same.
  - rewrite (obnd_lift_exc _ _ _ _ _ _ E3). do 3 eexists. split; [reflexivity|]. repeat split; try done; by eapply booked_same.
Qed.

Lemma books_step topo d0 o : books d0 (vrf_step topo o).
Proof.
  destruct o; simpl; [apply books_add_vrf | | apply books_route | apply books_leak|].
  - apply books_bind; [apply books_vrf_bind | intros; apply books_ret].
  - intros v w Hv. destruct (vrf_cleanup_spec topo d0 v w Hv) as (r & v' & w' & E & Hr & Hv' & _). by do 3 eexists.
Qed.
Lemma reached_booked topo d0 v w : dwf d0 -> reached topo d0 v w -> booked d0 v w.
Proof.
  intros Hd. induction 1 as [w Hw | o v w r v' w' _ IH E | v w w' _ IH Hl].
  - unfold booked, on_lb. rewrite Hw. repeat split; [done | intros x Hx; by apply elem_of_nil in Hx | auto].
  - destruct (books_step topo d0 o v w IH) as (r2 & v2 & w2 & E2 & _ & Hv). congruence.
  - by eapply booked_same.
Qed.

(** C19: the VRF hairpin is reversible as far as loopbacks go.  After any
    sequence of VRF creations, bindings, routes, leaks and clean-ups, with any
    outcome each (a binding that was refused, an exception of the adapter
    half-way), and whatever else the test did to the device, [cleanup] ends;
    a loopback that is then on record was on record before the object was
    made or is still in the object's books for the next [cleanup]; and when
    [cleanup] did not raise, the books are empty, so no loopback is left. *)
Theorem hairpin_unwinds topo d0 v w : dwf d0 -> reached topo d0 v w ->
  exists r v' w', vrf_cleanup topo v w = (Val (r, v'), w') /\ r <> Hang /\
    (forall q m, dget q (lb_on (w_lb w')) = Some m ->
       dget q d0 = Some m \/ q ∈ map (fun x => fst (fst x)) (vh_bound v')) /\
    (r = Val tt -> v' = vrf_init).
Proof.
  intros Hd Hr. destruct (vrf_cleanup_spec topo d0 v w) as (r & v' & w' & E & Hh & (_ & _ & Hq) & Hv); [by eapply reached_booked|].
  exists r, v', w'. split; [done|]. split; [done|]. split; [|done]. intros q m Hm.
  destruct (Hq q) as [Hn|[He|Hb]]; unfold on_lb in *; [congruence | left; congruence | auto].
Qed.
End Facts.

(** ** Examples *)

(** a community device that has the port in Vrf-A, and one that refuses *)
Definition vrf_device : Device := table_device (fun c =>
  if contains "HGETALL 'INTERFACE|" c then ok_out "{'vrf_name': 'Vrf-A'}" else ok_out "").
Definition refusing_device : Device := table_device (fun c =>
  if contains "vrf bind" c then Exited 1 "" "busy" else ok_out "").
Definition hairpin_port : Port := mkPort "Ethernet0" (Some "cd1") None true.
Definition hairpin_topo : Topology := mkTopo [] [] [] [] [] [] [] 1000 1000 [] [] [].
Definition swss : CliEnv := {| cli_syncd := "syncd" |}.
Definition after_bind (D : Device) (d : @dev D) : outcome (bool * string) * VrfHairpin * World :=
  match @vrf_bind D plain_shell serial no_bcm_env toy_lb hairpin_topo "Vrf-A" hairpin_port "10.0.0.1/24"
          vrf_init (@world D d community_cli) with
  | (Val (r, v), w) => (r, v, w)
  | (_, w) => (Val (false, "ended early"), vrf_init, w)
  end.

Example ex_bind_ok : let '(r, v, w) := after_bind vrf_device 0 in
  r = Val (true, "") /\ vh_bound v = [(hairpin_port, "Vrf-A", "10.0.0.1/24")] /\
  dget hairpin_port (lb_on (w_lb w)) = Some ("mac", false).
Proof. vm_compute. auto. Qed.

(** a refused binding has already taken the port out of the default VLAN, and
    the clean-up does not know about it *)
Example ex_bind_half : let '(r, v, w) := after_bind refusing_device 0 in
  r = Val (false, "vrf bind: busy") /\
  existsb (fun c => contains "vlan member del 1000 Ethernet0" (call_cmd c)) (w_trace w) = true /\
  let w' := snd (@vrf_cleanup refusing_device plain_shell serial no_bcm_env toy_lb hairpin_topo v w) in
  existsb (fun c => contains "vlan member add" (call_cmd c)) (w_trace w') = false.
Proof. vm_compute. auto. Qed.

Lemma hairpin_unwinds_witness :
  let D := vrf_device in
  let '(r0, v, w) := after_bind D 0 in
  exists r v' w', @vrf_cleanup D plain_shell serial no_bcm_env toy_lb hairpin_topo v w = (Val (r, v'), w') /\ r <> Hang /\
    (forall q m, dget q (lb_on (w_lb w')) = Some m ->
       dget q [] = Some m \/ q ∈ map (fun x => fst (fst x)) (vh_bound v')) /\
    (r = Val tt -> v' = vrf_init).
Proof.
  intros D. destruct (after_bind D 0) as [[r0 v] w] eqn:E.
  apply (@hairpin_unwinds D plain_shell serial no_bcm_env toy_lb _ hairpin_topo [] v w); [apply dwf_nil|].
  apply (reached_op hairpin_topo [] (OpBind "Vrf-A" hairpin_port "10.0.0.1/24") vrf_init (@world D 0 community_cli) (Val tt));
    [by apply reached_new|].
  unfold vrf_step. erewrite obnd_val; [reflexivity|]. unfold after_bind in E.
  vm_compute in E. vm_compute. injection E as <- <- <-. reflexivity.
Defined.
