(* ===== verification/QMeasure.v ===== *)
(** * Queue-level traffic measurement (framework/qmeasure.py) *)

From S2P Require Import Prelude PyStr PyStrFacts PyVal Device DeviceFacts Toy CliParse Cli CliFacts CliFrame Worker Profile Dut Topology Loopback LoopbackFacts Counters Traffic L3 L3Facts.

Definition STORM_CAP : Z := 100000.
Definition QPOLL : nat := 16.
Definition QUEUE_PACKETS : string := "SAI_QUEUE_STAT_PACKETS".

(** [max(grew, key=grew.get)]: the first queue with the largest growth *)
Definition dominant (grew : pydict Z Z) : option Z :=
  match grew with
  | [] => None
  | (q, v) :: rest => Some (fst (fold_left (fun best x => if snd best <? snd x then x else best) rest (q, v)))
  end.
(** [max(grew.values())] of a non-empty dictionary *)
Definition peak (grew : pydict Z Z) : Z := fold_right (fun x m => Z.max (snd x) m) 0 grew.
Definition total_growth (grew : pydict Z Z) : Z := fold_right (fun x s => snd x + s) 0 grew.
(** [{q: cur[q] - base[q] for q in cand if cur[q] - base[q] > 0}] *)
Definition growth (base cur : pydict Z Z) : pydict Z Z :=
  omap (fun x => let d := snd x - default 0 (dget (fst x) base) in if 0 <? d then Some (fst x, d) else None) cur.

Section QMeasure.
Context `{Device} `{ShellEnv} `{CliEnv} `{WorkerEnv} `{DutEnv} `{LbEnv} `{!Nic}.

Definition ipv6_cmd (p : Port) (v : string) : string := "sysctl -qw net.ipv6.conf." +:+ p_name p +:+ ".disable_ipv6=" +:+ v.
(** the window around the test's measurement *)
Definition classified_egress {A} (p_in p_out : Port) (body : M A) : M A :=
  for_each [p_in; p_out] (fun p => sh_run (ipv6_cmd p "1") ;;; ret tt) ;;;
  loop p_out ;;;
  try_finally body
    (unloop p_out ;;; for_each [p_in; p_out] (fun p => sh_run (ipv6_cmd p "0") ;;; ret tt)).

Definition read_queues (field : string) (cand : pydict Z string) : M (pydict Z Z) :=
  map_m (fun x => let* v := queue_stat (snd x) field in ret (fst x, v)) cand.
(** [lower]: given, or half of [count] *)
Definition reached (count : Z) (lower : option Z) (grew : pydict Z Z) : bool :=
  match grew with
  | [] => false
  | _ => match lower with None => count <=? 2 * peak grew | Some l => l <=? peak grew end
  end.
(** polling only waits: the reading that counts comes after it *)
Fixpoint poll_growth (n : nat) (field : string) (cand : pydict Z string) (base : pydict Z Z) (count : Z) (lower : option Z) : M unit :=
  match n with
  | O => ret tt
  | S n' =>
      sleep 1000 ;;;
      let* cur := read_queues field cand in
      if reached count lower (growth base cur) then ret tt else poll_growth n' field cand base count lower
  end.

Definition measure_window (p_in : Port) (k : pkt) (field : string) (cand : pydict Z string) (count : Z) (lower : option Z)
    : M (pydict Z Z) :=
  let* base := read_queues field cand in
  send p_in k count 0 ;;;
  poll_growth QPOLL field cand base count lower ;;;
  sleep 1000 ;;;
  let* cur := read_queues field cand in
  let grew := growth base cur in
  if total_growth grew <=? STORM_CAP then ret grew
  else raise (AssertionError ("loop storm suspected: total " +:+ zs (total_growth grew) +:+ " > cap " +:+ zs STORM_CAP)).
Definition inject_measure (p_in p_out : Port) (k : pkt) (dst_mac : string) (count : Z) (measure_out : bool)
    (field : string) (lower : option Z) (vlan : option string) : M (pydict Z Z) :=
  let p_meas := if measure_out then p_out else p_in in
  let* cand := queue_oids (p_name p_meas) in
  match cand with
  | [] => raise (PytestFail ("no queue oid for " +:+ p_name p_meas +:+ " in COUNTERS_QUEUE_NAME_MAP (queue flex counters not exposed)"))
  | _ =>
      let vid := match vlan with None => tr_default_vlan | Some v => v end in
      fdb_static_add vid dst_mac (p_name p_out) true ;;;
      try_finally (measure_window p_in k field cand count lower) (fdb_static_del vid dst_mac ;;; ret tt)
  end.
End QMeasure.

(** ** What a measurement may report *)

Lemma growth_pos base cur q v : (q, v) ∈ growth base cur -> 0 < v.
Proof.
  unfold growth. intros (x & Hx & E)%list_elem_of_omap. destruct (Z.ltb_spec 0 (snd x - default 0 (dget (fst x) base))); by simplify_eq.
Qed.
Lemma fold_best rest : forall best,
  let r := fold_left (fun best x => if snd best <? snd x then x else best) rest best in
  (r = best \/ r ∈ rest) /\ snd best <= snd r /\ forall x, x ∈ rest -> snd x <= snd (r : Z * Z).
Proof.
  induction rest as [|x rest IH]; intros best; cbn [fold_left].
  - split; [auto|]. split; [done|]. intros x Hx. by apply elem_of_nil in Hx.
  - destruct (IH (if snd best <? snd x then x else best)) as (Hr & Hb & Hm).
    set (r := fold_left _ rest _) in *. destruct (Z.ltb_spec (snd best) (snd x)).
    + split; [right; destruct Hr as [->|]; [constructor | by constructor]|]. split; [lia|].
      intros y [->|Hy]%elem_of_cons; auto.
    + split; [destruct Hr; [auto | right; by constructor]|]. split; [done|].
      intros y [->|Hy]%elem_of_cons; [lia | auto].
Qed.
(** the dominant queue is one of those that grew, and none grew more *)
Lemma dominant_max grew q : dominant grew = Some q ->
  exists v, (q, v) ∈ grew /\ forall q' v', (q', v') ∈ grew -> v' <= v.
Proof.
  destruct grew as [|[q0 v0] rest]; [done|]. cbn [dominant]. intros [= <-].
  destruct (fold_best rest (q0, v0)) as (Hr & Hb & Hm). set (r := fold_left _ rest _) in *.
  exists (snd r). rewrite <- surjective_pairing. split; [destruct Hr as [->|]; [constructor | by constructor]|].
  intros q' v' [E|Hx]%elem_of_cons; [by simplify_eq | exact (Hm _ Hx)].
Qed.

(** the set-up and the clean-up leave the loopback record of the egress port
    empty whatever the measurement does *)
Section Facts.
Context `{Device} `{ShellEnv} `{CliEnv} `{WorkerEnv} `{DutEnv} `{LbEnv} `{!Nic} `{!TimeLaws}.
Lemma window_unloops {A} p_in p_out (body : M A) b w r w' : bcm_of lb_dut p_out = Val b ->
  (forall v, dwf (lb_on (w_lb v)) -> dwf (lb_on (w_lb (snd (body v))))) -> dwf (lb_on (w_lb w)) ->
  classified_egress p_in p_out body w = (r, w') -> r <> Hang ->
  dget p_out (lb_on (w_lb w')) = None.
Proof.
  intros Hb Hbody Hd E Hr. unfold classified_egress in E.
  assert (forall v, keeps_lb (for_each [p_in; p_out] (fun p => sh_run (ipv6_cmd p v) ;;; ret tt))) as Hk.
  { intros v. apply keeps_for_each. intros p. apply keeps_bind; [apply keeps_run | intros; apply keeps_ret]. }
  destruct (keeps_unit _ w (Hk "1")) as (w1 & E1 & L1). rewrite (bind_step _ _ _ _ _ E1) in E. unfold loop in E.
  destruct (enable_lb p_out None false true b w1 Hb) as (w2 & E2 & L2).
  assert (dwf (lb_on (w_lb w2))) as Hd2 by (rewrite L2, L1; cbn; by apply dwf_dset).
  assert (exists w3, (enable p_out None false true ;;; wait_learn_ready p_out 12000 ;;; ret tt) w1 = (Val tt, w3) /\ w_lb w3 = w_lb w2) as (w3 & E3 & L3).
  { assert (keeps_lb (wait_learn_ready p_out 12000)) as Hkl.
    { unfold wait_learn_ready, lb_bcm. intros v. unfold lift, bind at 1. rewrite Hb. revert v. apply keeps_bind.
      - apply keeps_poll; [lia | |].
        + apply total_bind; [apply total_bsh | intros; apply total_ret].
        + apply keeps_bind; [apply keeps_chip | intros; apply keeps_ret].
      - intros []; [apply keeps_ret|]. apply keeps_bind; [apply keeps_chip_|]. intros _.
        apply keeps_bind; [apply keeps_chip | intros; apply keeps_ret]. }
    destruct (Hkl w2) as (a & w3' & E3 & L3). exists w3'. rewrite (bind_step _ _ _ _ _ E2), (bind_step _ _ _ _ _ E3). done. }
  rewrite (bind_step _ _ _ _ _ E3) in E. unfold try_finally in E. specialize (Hbody w3). rewrite L3 in Hbody. specialize (Hbody Hd2).
  destruct (body w3) as [rb w4]. cbn [snd] in Hbody.
  assert (exists w5, (unloop p_out ;;; for_each [p_in; p_out] (fun p => sh_run (ipv6_cmd p "0") ;;; ret tt)) w4 = (Val tt, w5)
    /\ w_lb w5 = put_on (ddel p_out) (w_lb w4)) as (w5 & E5 & L5).
  { destruct (disable_lb p_out b w4 Hb) as (w5 & E5 & L5). destruct (keeps_unit _ w5 (Hk "0")) as (w6 & E6 & L6).
    exists w6. unfold unloop. rewrite (bind_step _ _ _ _ _ E5), E6. split; [done | congruence]. }
  destruct rb as [a|e|]; [| |by simplify_eq]; rewrite E5 in E; simplify_eq; rewrite L5; by apply dget_ddel_eq.
Qed.
End Facts.

(** ** Bounds of a measurement *)

Lemma growth_sum grew : (forall q v, (q, v) ∈ grew -> 0 < v) ->
  0 <= total_growth grew /\ forall q v, (q, v) ∈ grew -> v <= total_growth grew.
Proof.
  induction grew as [|[q0 v0] grew IH]; intros Hp; cbn [total_growth fold_right snd].
  - split; [lia|]. intros q v Hx. by apply elem_of_nil in Hx.
  - destruct IH as [H0 Hm]; [intros q v Hx; by apply (Hp q), list_elem_of_further|]. fold (total_growth grew).
    assert (0 < v0) by (apply (Hp q0); constructor). split; [lia|].
    intros q v [E|Hx]%elem_of_cons; [simplify_eq; lia|]. specialize (Hm _ _ Hx). lia.
Qed.
Lemma growth_under grew m : (forall q v, (q, v) ∈ grew -> v <= m) -> total_growth grew <= m * Z.of_nat (length grew).
Proof.
  induction grew as [|[q0 v0] grew IH]; intros Hm; cbn [total_growth fold_right snd length]; [lia|]. fold (total_growth grew).
  assert (v0 <= m) by (apply (Hm q0); constructor). specialize (IH (fun q v Hx => Hm q v (list_elem_of_further _ _ _ Hx))). lia.
Qed.
Lemma growth_queues base cur : dwf cur -> dwf (growth base cur).
Proof.
  unfold dwf, dkeys, growth. induction cur as [|[q v] cur IH]; intros Hd; [constructor|].
  cbn [map fst] in Hd. apply NoDup_cons in Hd as [Hn Hd]. cbn [omap list_omap fst snd].
  destruct (0 <? _); [|by apply IH]. cbn [map fst]. apply NoDup_cons. split; [|by apply IH].
  intros Hin. apply Hn. clear -Hin. apply list_elem_of_fmap in Hin as ([q' v'] & -> & Hx).
  apply list_elem_of_omap in Hx as ([q2 v2] & Hx & E). cbn in E. destruct (0 <? _); [|done]. simplify_eq.
  apply list_elem_of_fmap. by exists (q', v2).
Qed.

Section Bounds.
Context `{Device} `{ShellEnv} `{CliEnv} `{WorkerEnv} `{DutEnv} `{LbEnv} `{!Nic}.

Lemma queue_oids_queues port w m w' : queue_oids port w = (Val m, w') -> dwf m.
Proof.
  unfold queue_oids. intros E. run_inv. match goal with |- dwf (fold_left ?f ?l _) =>
    assert (forall acc, dwf acc -> dwf (fold_left f l acc)) as Hf; [|apply Hf, dwf_nil] end.
  match goal with R : _ = (Val a, _) |- _ => clear R end.
  induction a as [|kv m' IH]; intros acc Ha; [done|]. cbn [fold_left]. apply IH.
  repeat match goal with |- dwf (match ?x with _ => _ end) => destruct x end; auto with fvt.
Qed.
Lemma read_queues_keys field cand : forall w m w', read_queues field cand w = (Val m, w') -> dkeys m = dkeys cand.
Proof.
  unfold read_queues, dkeys. induction cand as [|[q o] cand IH]; intros w m w' E; cbn [map_m] in E; run_inv; [done|].
  cbn [map fst]. f_equal. by eapply IH.
Qed.

(** what the window lets through *)
Lemma window_bounds p_in k field cand count lower w grew w' : dwf cand ->
  measure_window p_in k field cand count lower w = (Val grew, w') ->
  total_growth grew <= STORM_CAP /\ dwf grew /\ forall q v, (q, v) ∈ grew -> 0 < v.
Proof.
  intros Hc E. unfold measure_window in E. run_inv. destruct (Z.leb_spec (total_growth (growth a a3)) STORM_CAP); [|done].
  run_inv. split; [done|]. split; [|intros q v Hx; by eapply growth_pos]. apply growth_queues. unfold dwf.
  match goal with R : read_queues _ _ _ = (Val a3, _) |- _ => by rewrite (read_queues_keys _ _ _ _ _ R) end.
Qed.

Lemma finally_val {A} (m : M A) f w a w' : try_finally m f w = (Val a, w') ->
  exists w1 u, m w = (Val a, w1) /\ f w1 = (Val u, w').
Proof.
  unfold try_finally. destruct (m w) as [[b|e|] w1]; try done; destruct (f w1) as [[u|e'|] w2] eqn:Ef; try done.
  intros. simplify_eq. eauto.
Qed.

(** C27: the bounds of a measurement.  A reading that [inject_measure] returns
    lists distinct queues with a growth between 1 and the storm cap each, no
    more than the cap together; the dominant queue is one of them and carries at
    least its equal share; and the last thing done was the removal of the static
    entry the frames were steered with. *)
Theorem measurement_bounds (p_in p_out : Port) (k : pkt) (mac : string) (count : Z) (mo : bool) (field : string)
    (lower : option Z) (vlan : option string) (w w' : World) (grew : pydict Z Z) :
  inject_measure p_in p_out k mac count mo field lower vlan w = (Val grew, w') ->
  dwf grew /\ (forall q v, (q, v) ∈ grew -> 1 <= v <= STORM_CAP) /\ total_growth grew <= STORM_CAP
  /\ (grew <> [] -> exists q v, dominant grew = Some q /\ (q, v) ∈ grew /\ total_growth grew <= v * Z.of_nat (length grew))
  /\ exists r w1, fdb_static_del (default tr_default_vlan vlan) mac w1 = (Val r, w').
Proof.
  intros E. unfold inject_measure in E. apply bind_val in E as (cand & w1 & E1 & E).
  apply queue_oids_queues in E1 as Hc. destruct cand as [|x cand]; [done|].
  apply bind_val in E as (u & w2 & _ & E). apply finally_val in E as (w3 & [] & E & Ef).
  apply window_bounds in E as (Ht & Hd & Hp); [|done]. destruct (growth_sum grew Hp) as [_ Hs].
  split; [done|]. split; [intros q v Hx; specialize (Hp _ _ Hx); specialize (Hs _ _ Hx); lia|]. split; [done|]. split.
  - intros Hne. destruct (dominant grew) as [q|] eqn:Eq; [|by destruct grew as [|[]]].
    destruct (dominant_max _ _ Eq) as (v & Hv & Hm). exists q, v. split; [done|]. split; [done|]. by apply growth_under.
  - apply bind_val in Ef as (r & w4 & Ef & [= <-]). exists r, w3. by destruct vlan.
Qed.
End Bounds.

(** ** A queue that counts *)

(** the counter of queue 3 rises by 200 in the first second *)
Definition counting_device : Device := clock_device (fun c t =>
  let cmd := call_cmd c in
  if contains "COUNTERS_QUEUE_NAME_MAP" cmd then ok_out "{'Ethernet4:3': 'oid:0x15', 'Ethernet4:4': 'oid:0x16'}"
  else if contains "COUNTERS:oid:0x15" cmd then ok_out (if t <? 1000 then "{'SAI_QUEUE_STAT_PACKETS': '7'}" else "{'SAI_QUEUE_STAT_PACKETS': '207'}")
  else if contains "COUNTERS:oid:0x16" cmd then ok_out "{'SAI_QUEUE_STAT_PACKETS': '12'}"
  else if contains "KEYS" cmd then ok_out "ASIC_STATE:SAI_OBJECT_TYPE_FDB_ENTRY:00:AA:BB:CC:DD:EE"
  else ok_out "").
Definition counting_nic : @Nic counting_device :=
  {| pkt := unit; scapy := true; udp_probe a b c d := tt; nic_send _ _ _ _ d := d;
     sniff_start _ _ d := d; sniff_stop d := ([], d) |}.
Notation counting_run :=
  (@inject_measure counting_device plain_shell swss toy_lb counting_nic (port_named "Ethernet0") (port_named "Ethernet4")
    tt "00:aa:bb:cc:dd:ee" 200 true QUEUE_PACKETS None (Some "2000") (@world counting_device 0 cli_init)) (only parsing).
Lemma counting_result : fst counting_run = Val [(3, 200)].
Proof. vm_compute. reflexivity. Qed.

Lemma counting_eq : counting_run = (Val [(3, 200)], snd counting_run).
Proof. generalize counting_result. destruct counting_run as [r w']. cbn [fst snd]. by intros ->. Qed.

Lemma measurement_bounds_witness : exists grew, fst counting_run = Val grew /\ total_growth grew <= STORM_CAP
  /\ exists q v, dominant grew = Some q /\ (q, v) ∈ grew /\ total_growth grew <= v * Z.of_nat (length grew).
Proof.
  exists [(3, 200)]. split; [exact counting_result|]. pose proof counting_eq as E.
  apply (@measurement_bounds counting_device plain_shell swss toy_lb counting_nic) in E as (_ & _ & Ht & Hd & _).
  split; [exact Ht | apply Hd; discriminate].
Defined.
