(* ===== verification/Links.v ===== *)
(** * Virtual links and the asymmetric hairpin (src/topo/)

    [Hairpin] puts two looped-back ports on different ingress VLANs,
    [VirtualLink] makes a front-panel port an L3 link to a static neighbour,
    [LocalPeerIP] holds a peer's address on a dummy interface and
    [NetnsBgpPeer] runs a BGP speaker in a network namespace.  Each keeps a
    list of what its clean-up has to undo. *)

From S2P Require Import Prelude PyStr PyStrFacts PyVal Device DeviceFacts Toy CliParse Cli CliFacts CliFrame Worker Profile Dut Topology Loopback Obj LoopbackFacts Hygiene Traffic.

Section Links.
Context `{Device} `{ShellEnv} `{CliEnv} `{WorkerEnv} `{DutEnv} `{LbEnv}.

(** ** [Hairpin] *)

Record HairpinCfg := mkHpCfg { hp_in : Port; hp_out : Port; hp_a : Z; hp_b : Z; hp_svi : option string }.
(** what is left to undo: commands, a static FDB entry, a chip L2 entry *)
Record Hairpin := mkHp { hp_undo : list string; hp_fdb : option (Z * string); hp_l2cpu : option (string * Z) }.
Definition hp_init : Hairpin := mkHp [] None None.
Definition hp_push (cmd : string) (h : Hairpin) : Hairpin := mkHp (hp_undo h ++ [cmd]) (hp_fdb h) (hp_l2cpu h).
Definition hp_set_fdb (x : option (Z * string)) (h : Hairpin) : Hairpin := mkHp (hp_undo h) x (hp_l2cpu h).
Definition hp_set_l2cpu (x : option (string * Z)) (h : Hairpin) : Hairpin := mkHp (hp_undo h) (hp_fdb h) x.

Section Hp.
Variables (dut : Dut) (c : HairpinCfg).
Let bsh := bcm_shell dut.
Let dv := prof_str (d_profile dut) "default_vlan" "1000".
Let ports := [hp_in c; hp_out c].

Definition hp_reset_pvid : M unit :=
  for_each ports (fun p =>
    let* b := lift (bcm_of dut p) in bsh_cmd bsh ("pvlan set " +:+ b +:+ " " +:+ dv) ;;; ret tt).

(** a command and its inverse, booked after it was given *)
Definition hp_do (cmd inverse : string) : OM Hairpin unit :=
  olift (config_raw cmd) ;!; omod (hp_push inverse).

Definition hp_setup : OM Hairpin unit :=
  olift hp_reset_pvid ;!;
  hp_do ("vlan add " +:+ zs (hp_a c)) ("vlan del " +:+ zs (hp_a c)) ;!;
  ofor ports (fun p =>
    hp_do ("vlan member del " +:+ dv +:+ " " +:+ p_name p) ("vlan member add -u " +:+ dv +:+ " " +:+ p_name p) ;!;
    hp_do ("vlan member add -u " +:+ zs (hp_a c) +:+ " " +:+ p_name p) ("vlan member del " +:+ zs (hp_a c) +:+ " " +:+ p_name p)) ;!;
  hp_do ("vlan add " +:+ zs (hp_b c)) ("vlan del " +:+ zs (hp_b c)) ;!;
  owhen (truthy (hp_svi c))
    (hp_do ("interface ip add Vlan" +:+ zs (hp_b c) +:+ " " +:+ or_empty (hp_svi c))
           ("interface ip remove Vlan" +:+ zs (hp_b c) +:+ " " +:+ or_empty (hp_svi c))) ;!;
  olift (for_each ports (fun p => intf_startup (p_name p) ;;; ret tt)) ;!;
  olift (enable (hp_in c) None false true) ;!;
  olift (enable (hp_out c) None false true).

(** [_set_pvid]: set, wait, read back, at most [tries] times *)
Fixpoint set_pvid_go (n : nat) (cd : string) (vid : Z) : M unit :=
  match n with
  | O => raise (RuntimeError ("unable to set " +:+ cd +:+ " PVID to " +:+ zs vid +:+ " (vlanorch keeps overwriting?)"))
  | S n' =>
      bsh_cmd bsh ("pvlan set " +:+ cd +:+ " " +:+ zs vid) ;;;
      sleep 400 ;;;
      let* o := bsh_cmd bsh ("pvlan show " +:+ cd) in
      if contains ("default VLAN is " +:+ zs vid) o then ret tt else set_pvid_go n' cd vid
  end.
Definition arm (tries : nat) : M unit :=
  let* i := lift (bcm_of dut (hp_in c)) in
  set_pvid_go tries i (hp_a c) ;;;
  let* o := lift (bcm_of dut (hp_out c)) in
  set_pvid_go tries o (hp_b c).

Definition fdb_to_out (mac : string) : OM Hairpin unit :=
  olift (fdb_static_add (zs (hp_a c)) mac (p_name (hp_out c)) true) ;!;
  omod (hp_set_fdb (Some (hp_a c, mac))) ;!;
  olift (poll_tries 20 400
    (let* ks := db_keys "ASIC_DB" "ASIC_STATE:SAI_OBJECT_TYPE_FDB_ENTRY:*" in
     ret (existsb (fun k => contains (upper mac) (upper k)) ks)) ;;; ret tt).

Definition punt_b_to_cpu (mac : string) : OM Hairpin unit :=
  let! o := olift (lift (bcm_of dut (hp_out c))) in
  olift (bsh_cmd bsh ("vlan add " +:+ zs (hp_b c) +:+ " pbm=" +:+ o +:+ ",cpu0")) ;!;
  olift (bsh_cmd bsh ("l2 add mac=" +:+ mac +:+ " vlan=" +:+ zs (hp_b c) +:+ " port=cpu0")) ;!;
  omod (hp_set_l2cpu (Some (mac, hp_b c))).

(** the entries are not forgotten, so a second teardown deletes them again *)
Definition hp_teardown : OM Hairpin unit :=
  let! h := oget in
  match hp_l2cpu h with
  | Some (mac, vid) =>
      olift (bsh_cmd bsh ("l2 del mac=" +:+ mac +:+ " vlan=" +:+ zs vid)) ;!;
      let! o := olift (lift (bcm_of dut (hp_out c))) in
      olift (bsh_cmd bsh ("vlan remove " +:+ zs vid +:+ " pbm=" +:+ o +:+ ",cpu0") ;;; ret tt)
  | None => oret tt
  end ;!;
  match hp_fdb h with
  | Some (vid, mac) => olift (fdb_static_del (zs vid) mac ;;; ret tt)
  | None => oret tt
  end ;!;
  olift hp_reset_pvid ;!;
  olift (disable (hp_in c)) ;!;
  olift (disable (hp_out c)) ;!;
  olift (for_each (rev (hp_undo h)) (fun cmd => config_raw cmd ;;; ret tt)) ;!;
  omod (fun h => mkHp [] (hp_fdb h) (hp_l2cpu h)).
End Hp.

(** ** [VirtualLink] *)

Record VirtualLink := mkVl {
  vl_port : Port; vl_dut_ip : string; vl_peer_ip : string; vl_prefix : Z; vl_peer_mac : string; vl_vlan : Z;
  vl_undo : list string
}.
Definition DEFAULT_PEER_MAC : string := "00:de:ad:be:ef:a2".
Definition vl_init (p : Port) (dut_ip peer_ip : string) (prefix : Z) (mac : string) (vlan : Z) : VirtualLink :=
  mkVl p dut_ip peer_ip prefix mac vlan [].
Definition vl_put (l : list string) (v : VirtualLink) : VirtualLink :=
  mkVl (vl_port v) (vl_dut_ip v) (vl_peer_ip v) (vl_prefix v) (vl_peer_mac v) (vl_vlan v) l.
Definition vl_push (cmd : string) (v : VirtualLink) : VirtualLink := vl_put (vl_undo v ++ [cmd]) v.
Definition vl_cidr (v : VirtualLink) : string := vl_dut_ip v +:+ "/" +:+ zs (vl_prefix v).

Definition vl_setup : OM VirtualLink unit :=
  let! v := oget in
  let p := p_name (vl_port v) in
  let! cr := olift (config_raw ("vlan member del " +:+ zs (vl_vlan v) +:+ " " +:+ p)) in
  owhen (fst cr =? 0) (omod (vl_push ("vlan member add -u " +:+ zs (vl_vlan v) +:+ " " +:+ p))) ;!;
  olift (config_check ("interface ip add " +:+ p +:+ " " +:+ vl_cidr v)) ;!;
  omod (vl_push ("interface ip remove " +:+ p +:+ " " +:+ vl_cidr v)) ;!;
  olift (intf_startup p) ;!;
  olift (enable (vl_port v) None false true) ;!;
  olift (sh_run ("ip neigh replace " +:+ vl_peer_ip v +:+ " lladdr " +:+ vl_peer_mac v +:+ " dev " +:+ p) ;;; ret tt).

Definition vl_teardown (dut : Dut) : OM VirtualLink unit :=
  let! v := oget in
  olift (sh_run ("ip neigh del " +:+ vl_peer_ip v +:+ " dev " +:+ p_name (vl_port v))) ;!;
  olift (disable (vl_port v)) ;!;
  olift (for_each (rev (vl_undo v)) (fun cmd => config_raw cmd ;;; ret tt)) ;!;
  omod (vl_put []) ;!;
  let! swp := olift is_switchport_os in
  olift (quietly (reset_port_to_l2 dut (vl_port v) (if swp then "1" else zs (vl_vlan v)) true)).

(** ** [LocalPeerIP] *)

Definition lp_dev (dev : string) : string := dev +:+ suffix.
Definition lp_setup (peer_ip : string) (prefix : Z) (dev : string) : M unit :=
  sh_run ("ip link add " +:+ lp_dev dev +:+ " type dummy") ;;;
  sh_run ("ip link set " +:+ lp_dev dev +:+ " up") ;;;
  sh_run ("ip addr add " +:+ peer_ip +:+ "/" +:+ zs prefix +:+ " dev " +:+ lp_dev dev) ;;; ret tt.
Definition lp_teardown (dev : string) : M unit := sh_run ("ip link del " +:+ lp_dev dev) ;;; ret tt.
End Links.

(** ** [NetnsBgpPeer] *)

(** a child process and its pipes; [proc_wait] is false on a timeout *)
Class Procs `{Device} := {
  proc : Type;
  proc_spawn : list string -> dev -> outcome proc * dev;
  proc_readline : proc -> dev -> outcome string * dev;
  proc_alive : proc -> dev -> bool * dev;
  proc_write : proc -> string -> dev -> outcome unit * dev;
  proc_wait : proc -> Z -> dev -> outcome bool * dev;
  proc_kill : proc -> dev -> outcome unit * dev;
  speaker_py : string
}.

Section Netns.
Context `{Device} `{ShellEnv} `{WorkerEnv} `{!Procs}.

Definition proc_do {A} (f : dev -> outcome A * dev) : M A := fun w =>
  let '(r, d) := f (w_dev w) in (r, mkWorld d (w_trace w) (w_cli w) (w_lb w)).
Definition proc_ask {A} (f : dev -> A * dev) : M A := proc_do (fun d => let '(a, d) := f d in (Val a, d)).

Record NetnsBgpPeer := mkNs {
  ns_dut_ip : string; ns_peer_ip : string; ns_peer_as : Z; ns_prefix : Z; ns_vrf : option string;
  ns_ns : string; ns_h : string; ns_p : string; ns_advertise : list (string * string); ns_proc : option proc
}.
Definition netns_peer (dut_ip peer_ip : string) (peer_as prefix : Z) (ns h p : string)
    (advertise : option (list (string * string))) (vrf : option string) : NetnsBgpPeer :=
  mkNs dut_ip peer_ip peer_as prefix vrf (ns +:+ suffix) (h +:+ suffix) (p +:+ suffix) (default [] advertise) None.
Definition ns_put (x : option proc) (n : NetnsBgpPeer) : NetnsBgpPeer :=
  mkNs (ns_dut_ip n) (ns_peer_ip n) (ns_peer_as n) (ns_prefix n) (ns_vrf n) (ns_ns n) (ns_h n) (ns_p n) (ns_advertise n) x.

Definition cleanup_link (n : NetnsBgpPeer) : M unit :=
  sh_run ("ip netns del " +:+ ns_ns n) ;;; sh_run ("ip link del " +:+ ns_h n) ;;; ret tt.
Definition setup_link (n : NetnsBgpPeer) : M unit :=
  let inside := "ip netns exec " +:+ ns_ns n +:+ " " in
  cleanup_link n ;;;
  sh_run ("ip netns add " +:+ ns_ns n) ;;;
  sh_run ("ip link add " +:+ ns_h n +:+ " type veth peer name " +:+ ns_p n) ;;;
  sh_run ("ip link set " +:+ ns_p n +:+ " netns " +:+ ns_ns n) ;;;
  when (truthy (ns_vrf n)) (sh_run ("ip link set dev " +:+ ns_h n +:+ " master " +:+ or_empty (ns_vrf n)) ;;; ret tt) ;;;
  sh_run ("ip addr add " +:+ ns_dut_ip n +:+ "/" +:+ zs (ns_prefix n) +:+ " dev " +:+ ns_h n) ;;;
  sh_run ("ip link set " +:+ ns_h n +:+ " up") ;;;
  sh_run (inside +:+ "ip addr add " +:+ ns_peer_ip n +:+ "/" +:+ zs (ns_prefix n) +:+ " dev " +:+ ns_p n) ;;;
  sh_run (inside +:+ "ip link set " +:+ ns_p n +:+ " up") ;;;
  sh_run (inside +:+ "ip link set lo up") ;;; ret tt.

Definition speaker_args (n : NetnsBgpPeer) : list string :=
  ["ip"; "netns"; "exec"; ns_ns n; "python3"; speaker_py; "--serve"; ns_dut_ip n; ns_peer_ip n; zs (ns_peer_as n);
   join ";" (map (fun x => fst x +:+ "," +:+ snd x) (ns_advertise n))].
Definition start_speaker : OM NetnsBgpPeer bool :=
  let! n := oget in
  let! q := olift (proc_do (proc_spawn (speaker_args n))) in
  omod (ns_put (Some q)) ;!;
  let! line := olift (proc_do (proc_readline q)) in
  oret (String.eqb (strip line) "ESTABLISHED").

(** [except (OSError, ValueError)] *)
Definition pipe_error (e : exn) : bool :=
  match e with OSError _ | ValueError _ => true | _ => false end.
Definition try_pipe {A} (m : M A) (h : M A) : M A := fun w =>
  match m w with
  | (Exc e, w') => if pipe_error e then h w' else (Exc e, w')
  | r => r
  end.

Definition send_line (n : NetnsBgpPeer) (line : string) : M unit :=
  match ns_proc n with
  | None => ret tt
  | Some q =>
      let* alive := proc_ask (proc_alive q) in
      when alive (try_pipe (proc_do (proc_write q (line +:+ s1 lf)) ;;; proc_do (proc_readline q) ;;; ret tt) (ret tt))
  end.
Definition ns_announce (n : NetnsBgpPeer) (prefix nexthop : string) : M unit :=
  send_line n ("announce " +:+ prefix +:+ " " +:+ nexthop).
Definition ns_withdraw (n : NetnsBgpPeer) (prefix : string) : M unit := send_line n ("withdraw " +:+ prefix).

Definition kill_speaker (q : proc) : M unit := fun w =>
  match proc_do (proc_kill q) w with
  | (Exc (OSError _), w') => (Val tt, w')
  | r => r
  end.
Definition stop_speaker : OM NetnsBgpPeer unit :=
  let! n := oget in
  match ns_proc n with
  | None => oret tt
  | Some q =>
      let! ended := olift (try_pipe
        (let* alive := proc_ask (proc_alive q) in
         when alive (proc_do (proc_write q ("quit" +:+ s1 lf))) ;;;
         proc_do (proc_wait q 3000)) (ret false)) in
      owhen (negb ended) (olift (kill_speaker q)) ;!;
      omod (ns_put None)
  end.
Definition ns_setup : OM NetnsBgpPeer unit := let! n := oget in olift (setup_link n).
Definition ns_teardown : OM NetnsBgpPeer unit :=
  stop_speaker ;!; let! n := oget in olift (cleanup_link n).
End Netns.

(** ** The asymmetric hairpin's guarantee *)

(** the documented line of [pvlan show]: Port cdN default VLAN is X; reading
    it changes no PVID *)
Class PvidLine `{Device} (b : BcmShell) (pvid : dev -> string -> string) : Prop := {
  line_bcmcmd : b_access b = "bcmcmd";
  line_digits : forall p d, isdigit (pvid d p) = true;
  line_show : forall p d, token p = true -> exists o d',
    dev_exec (Call (Some (b_syncd b)) ("bcmcmd 'pvlan show " +:+ p +:+ "'") 30000 None) d = (Exited 0 o "", d') /\
    rstrip_chars (s1 lf) o = "Port " +:+ p +:+ " default VLAN is " +:+ pvid d p /\ pvid d' = pvid d
}.

Lemma digits_no_space s : isdigit s = true -> str_forall (not_char " "%char) s = true.
Proof. unfold isdigit. intros [_ Hs]%andb_true_iff. by apply digits_no_char. Qed.

(** the text of a PVID is found in the line exactly when it begins the PVID *)
Lemma in_line p x v : str_forall (not_char " "%char) p = true -> isdigit x = true -> isdigit v = true ->
  contains ("default VLAN is " +:+ v) ("Port " +:+ p +:+ " default VLAN is " +:+ x) = true <-> starts v x = true.
Proof.
  intros Hp Hx%digits_no_space Hv. rewrite contains_spec, starts_spec. split.
  - intros (a & b & E).
    assert (split_on " "%char ("Port " +:+ p +:+ " default VLAN is " +:+ x) = ["Port"; p; "default"; "VLAN"; "is"; x]) as El.
    { change ("Port " +:+ p +:+ " default VLAN is " +:+ x) with
        ("Port" +:+ String " " (p +:+ String " " ("default" +:+ String " " ("VLAN" +:+ String " " ("is" +:+ String " " x))))).
      rewrite !split_on_app by (done || reflexivity). by rewrite (split_on_none _ x). }
    assert (split_on " "%char (a +:+ ("default VLAN is " +:+ v) +:+ b) =
      split_on " "%char (a +:+ "default") ++ ["VLAN"; "is"] ++ split_on " "%char (v +:+ b)) as Er.
    { replace (a +:+ ("default VLAN is " +:+ v) +:+ b) with
        ((a +:+ "default") +:+ String " " ("VLAN" +:+ String " " ("is" +:+ String " " (v +:+ b))))
        by (rewrite !sapp_assoc; reflexivity).
      rewrite split_on_app2, !(split_on_app _ "VLAN"), !(split_on_app _ "is") by reflexivity. done. }
    rewrite <- E, El in Er. pose proof (split_on_none " "%char x Hx) as Hsx.
    assert (split_on " "%char (v +:+ b) = [x]) as Hvb.
    { destruct (split_on " "%char (a +:+ "default")) as [|? [|? [|? [|? [|? [|? l]]]]]]; simplify_eq/=; try done.
      - destruct l; discriminate. }
    exists b. rewrite <- (join_split_on " "%char (v +:+ b)), Hvb. reflexivity.
  - intros (t & ->). exists ("Port " +:+ p +:+ " "), t. rewrite !sapp_assoc. reflexivity.
Qed.

Lemma vid_digits x : 0 <= x < 4096 -> ((slen (zs x) <=? 4)%nat && ((x <? 1000) || (slen (zs x) =? 4)%nat)) = true.
Proof. apply (Z_below_all (Z.to_nat 4096) (fun x => (slen (zs x) <=? 4)%nat && ((x <? 1000) || (slen (zs x) =? 4)%nat))). vm_compute. reflexivity. Qed.
Lemma vid_prefix v x : 1000 <= v < 4095 -> 0 <= x < 4096 -> starts (zs v) (zs x) = true -> x = v.
Proof.
  intros Hv Hx (t & Et)%starts_spec. pose proof (vid_digits v ltac:(lia)) as Dv. pose proof (vid_digits x Hx) as Dx.
  apply andb_true_iff in Dv as [_ Dv], Dx as [Dx%Nat.leb_le _]. rewrite (proj2 (Z.ltb_ge v 1000)) in Dv by lia. apply Nat.eqb_eq in Dv.
  pose proof (f_equal slen Et) as El. rewrite slen_app in El. apply zs_inj. rewrite Et.
  assert (slen t = 0%nat) as ->%slen_0 by lia. by rewrite sapp_nil_r.
Qed.

Section Arm.
Context `{Device} `{ShellEnv} `{!LiveShell} `{WorkerEnv} `{DutEnv} `{!TimeLaws}.
Context (dut : Dut) (pvid : dev -> string -> string) `{!PvidLine (bcm_shell dut) pvid}.
Let bsh := bcm_shell dut.

(** a chip command gives its output, whatever it is *)
Lemma bsh_val c w : exists o w', bsh_cmd bsh c w = (Val o, w').
Proof.
  unfold bsh_cmd. rewrite line_bcmcmd. cbn [String.eqb Ascii.eqb].
  set (c' := match (_ && _) with true => _ | false => _ end : string).
  destruct (run_nocheck_val ("bcmcmd '" +:+ c' +:+ "'") (Some (b_syncd bsh)) 30000 None w) as (r & w' & E).
  exists (out r), w'. exact (bind_step _ _ _ _ _ E).
Qed.

(** reading a PVID *)
Lemma show_pvid cd w : token cd = true -> exists w',
  bsh_cmd bsh ("pvlan show " +:+ cd) w = (Val ("Port " +:+ cd +:+ " default VLAN is " +:+ pvid (w_dev w) cd), w') /\
  pvid (w_dev w') = pvid (w_dev w).
Proof.
  intros Ht. destruct (line_show cd (w_dev w) Ht) as (o & d' & Ex & Ho & Hp).
  exists (mkWorld d' (w_trace w ++ [Call (Some (b_syncd bsh)) ("bcmcmd 'pvlan show " +:+ cd +:+ "'") 30000 None]) (w_cli w) (w_lb w)).
  split; [|exact Hp]. unfold bsh_cmd.
  replace (String.eqb (strip ("pvlan show " +:+ cd)) "clear c") with false
    by (symmetry; by apply (starts_strip "p" ("vlan show " +:+ cd) "")).
  rewrite andb_false_r, line_bcmcmd. change (String.eqb "bcmcmd" "socket") with false. cbn iota. rewrite <- Ho.
  unfold sh_run_in. refine (bind_step _ _ _ _ _ (run_ok _ _ false _ _ _ _ _ _ _)). exact Ex.
Qed.

Lemma token_no_space s : token s = true -> str_forall (not_char " "%char) s = true.
Proof.
  unfold token. intros [_ Hs]%andb_true_iff. revert Hs. apply str_forall_impl. intros a Ha.
  unfold not_char. destruct (Ascii.eqb_spec a " "); [by subst | done].
Qed.

Lemma set_pvid_spec n cd vid : token cd = true -> 0 <= vid -> forall w,
  exists r w', set_pvid_go dut (S n) cd vid w = (r, w') /\
    ((r = Val tt /\ starts (zs vid) (pvid (w_dev w') cd) = true) \/
     ((exists m, r = Exc (RuntimeError m)) /\ starts (zs vid) (pvid (w_dev w') cd) = false)).
Proof.
  intros Ht Hv. induction n as [|n IH]; intros w; cbn [set_pvid_go]; fold bsh.
  all: destruct (bsh_val ("pvlan set " +:+ cd +:+ " " +:+ zs vid) w) as (o & w1 & E1); rewrite (bind_step _ _ _ _ _ E1).
  all: set (w2 := snd (sleep 400 w1)); rewrite (bind_step _ _ tt w1 w2) by reflexivity.
  all: destruct (show_pvid cd w2 Ht) as (w3 & E3 & P3); rewrite (bind_step _ _ _ _ _ E3).
  all: pose proof (in_line cd (pvid (w_dev w2) cd) (zs vid) (token_no_space _ Ht) (line_digits (b := bsh) cd _) (zs_isdigit _ Hv)) as Hin.
  all: destruct (contains _ _); [exists (Val tt), w3; split; [done|]; left; rewrite P3; split; [done | by apply Hin]|].
  - eexists _, w3. split; [reflexivity|]. right. split; [by eexists|]. rewrite P3. apply not_true_is_false. intros Hs.
    apply Hin in Hs. discriminate.
  - apply IH.
Qed.

(** C23: the read-back of the hairpin's PVIDs.  For a port whose [pvlan show]
    line is the documented one, [_set_pvid] always ends; it returns exactly
    when, at its last reading, the decimal text of the VLAN begins the port's
    PVID, and raises [RuntimeError] otherwise.  For the four-digit VLANs the
    hairpin is used with this means that the port's PVID is the VLAN asked
    for; for a shorter one (100 against a PVID of 1000) it does not. *)
Theorem set_pvid_confirms tries cd vid w : token cd = true -> (0 < tries)%nat -> 1 <= vid < 4095 ->
  exists r w', set_pvid_go dut tries cd vid w = (r, w') /\
    (r = Val tt <-> starts (zs vid) (pvid (w_dev w') cd) = true) /\
    (r <> Val tt -> exists m, r = Exc (RuntimeError m)) /\
    (r = Val tt -> 1000 <= vid -> forall x, 0 <= x < 4096 -> pvid (w_dev w') cd = zs x -> x = vid).
Proof.
  intros Ht Hn Hv. destruct tries as [|n]; [lia|].
  destruct (set_pvid_spec n cd vid Ht ltac:(lia) w) as (r & w' & E & [[-> Hs]|[(m & ->) Hs]]); do 2 eexists; (split; [exact E|]).
  - rewrite Hs. split; [done|]. split; [done|].
    intros _ Hk x Hx Hp. rewrite Hp in Hs. apply (vid_prefix vid x); [lia | done | done].
  - rewrite Hs. split; [by split|]. split; [by eexists | done].
Qed.
End Arm.

(** ** Examples *)

(** the chip keeps 1000 whatever is set: 100 is taken for confirmed *)
Example ex_false_confirm :
  fst (@set_pvid_go (table_device (fun _ => ok_out "Port cd1 default VLAN is 1000")) plain_shell serial no_bcm_env toy_dut 20 "cd1" 100
         (@world (table_device _) 0 cli_init)) = Val tt.
Proof. vm_compute. reflexivity. Qed.

(** a chip on which the line is the documented one *)
Definition line_step (c : call) (s : gmap string string) : raw * gmap string string :=
  if starts "bcmcmd 'pvlan show " (call_cmd c) then
    let p := str_drop 19 (call_cmd c) in let p := str_take (slen p - 1) p in
    (ok_out ("Port " +:+ p +:+ " default VLAN is " +:+ toy_pvid s p), s)
  else toy_chip_step c s.
Definition line_chip : Device := state_device line_step.
Lemma line_chip_pvid : @PvidLine line_chip (@bcm_shell serial no_bcm_env toy_dut) (fun d => toy_pvid (fst d)).
Proof.
  split; [reflexivity | intros; apply toy_pvid_digits|]. intros p [s t] Ht.
  eexists _, (s, t). split; [|split; [|reflexivity]].
  - cbn [dev_exec line_chip state_device]. unfold line_step. cbn [call_cmd fst snd].
    assert (starts "bcmcmd 'pvlan show " ("bcmcmd 'pvlan show " +:+ p +:+ "'") = true) as -> by (apply starts_app).
    rewrite (str_drop_app "bcmcmd 'pvlan show "), take_quote. reflexivity.
  - cbn [fst]. set (x := toy_pvid s p). pose proof (toy_pvid_digits s p) as Hx. fold x in Hx.
    assert (rstrip_by (fun c => char_in c (s1 lf)) x = x) as Er.
    { apply rstrip_by_id. apply andb_true_iff in Hx as [_ Hd]. revert Hd. apply str_forall_impl. intros c Hc.
      enough (negb (is_digit c) || negb (char_in c (s1 lf)) = true) as Ho by by rewrite Hc in Ho.
      revert c Hc. intros c _. revert c. by apply ascii_all. }
    unfold rstrip_chars. change ("Port " +:+ p +:+ " default VLAN is " +:+ x) with (("Port " +:+ p) +:+ " default VLAN is " +:+ x).
    assert (x <> "") as Hne by (intros Hz; rewrite Hz in Hx; discriminate).
    assert (rstrip_by (fun c => char_in c (s1 lf)) (" default VLAN is " +:+ x) = " default VLAN is " +:+ x) as Es
      by (rewrite rstrip_by_app; rewrite Er; done).
    rewrite rstrip_by_app; rewrite Es; done.
Qed.

Lemma set_pvid_confirms_witness :
  let w := @world line_chip (∅, 0) cli_init in
  exists r w', @set_pvid_go line_chip plain_shell serial no_bcm_env toy_dut 20 "cd1" 2501 w = (r, w') /\
    (r = Val tt <-> starts (zs 2501) (toy_pvid (fst (w_dev w')) "cd1") = true) /\
    (r <> Val tt -> exists m, r = Exc (RuntimeError m)) /\
    (r = Val tt -> 1000 <= 2501 -> forall x, 0 <= x < 4096 -> toy_pvid (fst (w_dev w')) "cd1" = zs x -> x = 2501).
Proof.
  intros w. apply (@set_pvid_confirms line_chip plain_shell plain_live serial no_bcm_env toy_dut (fun d => toy_pvid (fst d))
    line_chip_pvid 20 "cd1" 2501 w); [reflexivity | lia | lia].
Defined.
