(* ===== verification/Fixtures.v ===== *)
(** * The fixtures (src/conftest.py)

    A generator fixture is a set-up and a tear-down; pytest runs the tear-down
    after the test whatever its outcome, unless the set-up raised
    ([with_fixture]).  The observation lane ([safe_lane]) does without the
    side effects. *)

From S2P Require Import Prelude PyStr PyStrFacts PyVal Device DeviceFacts Toy CliParse Cli CliFacts CliFrame Worker ConfigGuard Gcu Sentinel Profile Dut Topology Loopback Obj LoopbackFacts Hygiene Traffic L3 Links.

Class LaneEnv := { fvt_lane : option string }.

Section Fixtures.
Context `{Device} `{ShellEnv} `{CliEnv} `{WorkerEnv} `{DutEnv} `{LbEnv} `{!Nic} `{!L3Nic} `{SentinelEnv} `{LaneEnv}.
Variable topo : Topology.

Definition dut : Dut := lb_dut.
Definition fx_bsh : BcmShell := bcm_shell dut.
Definition safe_lane : bool := bool_decide (fvt_lane = Some "safe").
Definition no_dataplane_in_safe_lane : M unit :=
  if safe_lane then raise (PytestSkip "dataplane fixture disabled in safe lane (FVT_LANE=safe): run this test in the dataplane lane")
  else ret tt.

(** pytest: the tear-down belongs to a set-up that completed *)
Definition with_fixture {A B} (set_up : M A) (tear_down : A -> M unit) (test : A -> M B) : M B :=
  let* a := set_up in try_finally (test a) (tear_down a).

Definition TEST_ROLES : list string := ["a"; "b"; "c"; "d"; "e"; "f"; "g"; "h"].
(** the ports of the roles the device has *)
Definition role_ports_of : list Port := omap (fun r => match topo_port topo r with Val p => Some p | _ => None end) TEST_ROLES.
Definition dv_text : string := zs (t_default_vlan topo).
Definition member_key (vid name : string) : string := "VLAN_MEMBER|Vlan" +:+ vid +:+ "|" +:+ name.
Definition single_space (s : string) : string := replace_all "  " " " s.
Definition cfg (cmd : string) : M unit := config_raw cmd ;;; ret tt.
Definition gone_from (vid name : string) : M bool :=
  let* there := has_keys "CONFIG_DB" (member_key vid name) in ret (negb there).

(** ** Session fixtures *)

Definition lb_fixture_setup : M unit := if safe_lane then ret tt else force_clear_all ;;; ret tt.
Definition lb_fixture_teardown : M unit := if safe_lane then ret tt else cleanup ;;; force_clear_all ;;; ret tt.

Definition LOCAL_LOGIN : string := "config aaa authentication login local".

(** a port moved between the device's default VLAN and the worker's *)
Definition leave_vlan (vid : Z) (p : Port) : M unit :=
  cfg ("vlan member del " +:+ zs vid +:+ " " +:+ p_name p) ;;;
  poll_tries 20 300 (gone_from (zs vid) (p_name p)) ;;; ret tt.
Definition join_vlan (vid : Z) (p : Port) : M (Z * Result) :=
  let* flag := vlan_untagged_flag in
  config_raw ("vlan member add " +:+ flag +:+ " " +:+ zs vid +:+ " " +:+ p_name p).

Definition open_lane : M unit :=
  let base := t_base_default_vlan topo in
  let wdv := t_default_vlan topo in
  if wdv =? base then raise (AssertionError "wdv != base_dv")
  else
    cfg ("vlan add " +:+ zs wdv) ;;;
    for_each role_ports_of (fun p =>
      leave_vlan base p ;;;
      let* '(rc, r) := join_vlan wdv p in
      let* there := (if negb (rc =? 0) then ret false else has_keys "CONFIG_DB" (member_key (zs wdv) (p_name p))) in
      if there then ret tt
      else raise (PytestExit ("worker" +:+ zs wid +:+ " baseline failed: cannot move " +:+ p_name p))).
Definition close_lane : M unit :=
  let base := t_base_default_vlan topo in
  let wdv := t_default_vlan topo in
  for_each role_ports_of (fun p => leave_vlan wdv p ;;; join_vlan base p ;;; ret tt) ;;;
  cfg ("vlan del " +:+ zs wdv).

(** the canary reads the device for its warnings only *)
Definition canary : M unit :=
  let* swp := is_switchport_os in
  when swp
    (hget "CONFIG_DB" "STP|GLOBAL" "enabled" ;;;
     sh_run "grep -c 'removeBridgePort: Failed' /var/log/syslog" ;;; ret tt).

Definition suite_setup (st : SentState) : M SentState :=
  if safe_lane then sh_run LOCAL_LOGIN ;;; ret st
  else
    sh_run ("config save -y /tmp/dut_test_suite_baseline" +:+ suffix +:+ ".json") ;;;
    when (negb is_parallel)
      (sh_run "sonic-clear fdb all" ;;; sh_run LOCAL_LOGIN ;;; quietly clean_frr_orphan_routemaps) ;;;
    when (2 <=? wid) open_lane ;;;
    for_each role_ports_of (fun p => quietly (ensure_port_l2 (p_name p))) ;;;
    canary ;;;
    capture_baseline st.
Definition suite_teardown : M unit :=
  if safe_lane then ret tt
  else
    quietly (suite_reset dut topo) ;;;
    when (2 <=? wid) close_lane ;;;
    quietly (let* c := get_cli in for_each (elements (c_bridged c)) restore_port_l3) ;;;
    sh_run LOCAL_LOGIN ;;; ret tt.

Definition SNMP_PROBE : string := "snmpget -v2c -c public -t 2 -r 1 localhost 1.3.6.1.2.1.1.1.0".
Definition snmp_answers : M bool :=
  let* r := sh_run_in "snmp" SNMP_PROBE in
  ret (contains "STRING" (out r) || contains "1.3.6.1" (out r)).
(** the wait comes before each probe *)
Fixpoint snmp_wait (n : nat) : M unit :=
  match n with
  | O => ret tt
  | S n' => sleep 2000 ;;; let* ok := snmp_answers in if ok then ret tt else snmp_wait n'
  end.
Definition snmp_community_ready : M unit :=
  let* ok := snmp_answers in
  when (negb ok) (sh_run "config snmp community add public ro" ;;; snmp_wait 20).

(** the numbers at the end of the session, and the growth that is warned of *)
Definition l3_row_setup : M (Z * Z) := count_l3_rows.
Definition l3_row_teardown (n : Z * Z) : M (option Z) :=
  let* '(_, rif1) := count_l3_rows in
  ret (if snd n <? rif1 then Some (rif1 - snd n) else None).

(** ** Guards around every test *)

Definition untouch : M unit :=
  modify_lb (fun l => mkLb (lb_on l) (lb_flood_safe l) (lb_test_vlan l) (lb_held l) false).
Definition per_test_lb_guard : M unit :=
  let* l := get_lb in
  untouch ;;;
  quietly
    (match lb_held l with
     | _ :: _ => ret tt
     | [] =>
         when (lb_touched l)
           (let* cleared := force_clear_all in
            wait_cleared_down cleared 4000 ;;; ret tt)
     end).

(** the role ports that are routed, by name *)
Definition routed_role_ports : M (pydict string Port) :=
  let role := dict_of (map (fun p => (p_name p, p)) role_ports_of) in
  let* iface := db_keys "CONFIG_DB" "INTERFACE|Ethernet*" in
  ret (List.filter (fun x =>
    bool_decide ("INTERFACE|" +:+ fst x ∈ iface) ||
    existsb (starts ("INTERFACE|" +:+ fst x +:+ "|")) iface) role).
Definition try_or {A} (dflt : A) (m : M A) : M A := try_except m (fun _ => ret dflt).
(** whether the guard acts, and the ports that were routed before the test *)
Definition port_guard_setup : M (bool * list string) :=
  let* sw := (if safe_lane then ret false else is_switchport_os) in
  if sw then let* pre := try_or [] routed_role_ports in ret (true, dkeys pre) else ret (false, []).
Definition drifted (pre : list string) (held : list Port) (now : pydict string Port) : list Port :=
  map snd (List.filter (fun x =>
    negb (bool_decide (fst x ∈ pre)) && negb (bool_decide (fst x ∈ map p_name held))) now).
Definition port_guard_teardown (g : bool * list string) (st : SentState) (nodeid : string) : M SentState :=
  if negb (fst g) then ret st
  else
    try_or st
      (let* l := get_lb in
       let* now := routed_role_ports in
       match drifted (snd g) (dkeys (lb_held l)) now with
       | [] => ret st
       | ps =>
           for_each ps (fun p => quietly (reset_port_to_l2 dut p dv_text true)) ;;;
           ret (record_heal st nodeid (map p_name ps))
       end).

(** [gcu]: the checkpoint is deleted even when the rollback raises *)
Definition gcu_setup (cp : string) : M string := checkpoint cp.
Definition gcu_teardown (cp : string) : M unit :=
  try_finally (rollback cp ;;; ret tt) (delete_checkpoint cp ;;; ret tt).

(** ** [traffic] *)

Definition pvid_is (b vid : string) : M bool :=
  let* o := bsh_cmd fx_bsh ("pvlan show " +:+ b) in ret (contains ("default VLAN is " +:+ vid) o).
Fixpoint set_pvid_tries (n : nat) (b vid : string) : M unit :=
  match n with
  | O => ret tt
  | S n' =>
      bsh_cmd fx_bsh ("pvlan set " +:+ b +:+ " " +:+ vid) ;;; sleep 300 ;;;
      let* ok := pvid_is b vid in if ok then ret tt else set_pvid_tries n' b vid
  end.
Definition pvid_home (p : Port) : M unit :=
  let* b := lift (bcm_of dut p) in
  let* ok := pvid_is b dv_text in
  if ok then ret tt else set_pvid_tries 8 b dv_text.

(** back into the default VLAN: whether the configuration changed *)
Definition member_home (p : Port) : M bool :=
  disable p ;;;
  let* there := has_keys "CONFIG_DB" (member_key dv_text (p_name p)) in
  if there then ret false
  else
    let* flag := vlan_untagged_flag in
    let* '(rc, _) := config_raw ("vlan member add " +:+ flag +:+ " " +:+ dv_text +:+ " " +:+ p_name p) in
    when (negb (rc =? 0)) (reset_port_to_l2 dut p dv_text true) ;;; ret true.

Definition traffic_setup : M (list Port) :=
  no_dataplane_in_safe_lane ;;;
  let* ports := lift (pick_test_ports dut 2) in
  let* changed := map_m member_home ports in
  when (existsb (fun b => b) changed)
    (poll_tries 12 500 (all_m (fun p => has_keys "CONFIG_DB" (member_key dv_text (p_name p))) ports) ;;; sleep 1000) ;;;
  for_each ports pvid_home ;;;
  for_each ports (fun p => intf_startup (p_name p) ;;; ret tt) ;;;
  match ports with
  | p0 :: rest =>
      enable p0 None false true ;;;
      wait_learn_ready p0 12000 ;;;
      let* ok := match rest with
                 | p1 :: _ => smoke_check p0 p1
                 | [] => if scapy then raise IndexError else ret true
                 end in
      if ok then ret ports
      else raise (AssertionError "loopback hairpin link self-check failed: check oper status/STP (see docs/DEPLOY.md)")
  | [] => raise IndexError
  end.
(** [active]: the ports of the collector *)
Definition traffic_teardown (ports active : list Port) : M unit :=
  orun (collector_disable fx_bsh (d_sdk dut)) active ;;;
  for_each ports disable.

(** ** VLANs of the data-plane tests *)

Definition RIF_GLOB : string := "ASIC_STATE:SAI_OBJECT_TYPE_ROUTER_INTERFACE:*".
Definition real_home : bool := negb (String.eqb dv_text "1").
Definition svi (vid : string) (net : pyval) : outcome string :=
  obind (sub_field net "dut") (fun a => obind (sub_field net "prefix") (fun l =>
  Val ("Vlan" +:+ vid +:+ " " +:+ py_str a +:+ "/" +:+ py_str l))).
Fixpoint confirm_pvid (n : nat) (b vid : string) : M unit :=
  match n with
  | O => ret tt
  | S n' => let* ok := pvid_is b vid in
            if ok then ret tt else bsh_cmd fx_bsh ("pvlan set " +:+ b +:+ " " +:+ vid) ;;; sleep 300 ;;; confirm_pvid n' b vid
  end.
Record CoppCtx := mkCopp { cx_vid : string; cx_port : Port; cx_bcm : string; cx_flag : string; cx_svi : string }.
Definition copp_setup (ports : list Port) : M CoppCtx :=
  match ports with
  | [] => raise IndexError
  | p :: _ =>
      let* v := lift (topo_vlan topo "coppl3") in
      let vid := py_str v in
      let* net := lift (topo_subnet topo "coppl3") in
      let* before := db_keys "ASIC_DB" RIF_GLOB in
      cfg ("vlan add " +:+ vid) ;;;
      when real_home (cfg ("vlan member del " +:+ dv_text +:+ " " +:+ p_name p)) ;;;
      let* flag := vlan_untagged_flag in
      cfg (single_space ("vlan member add " +:+ flag +:+ " " +:+ vid +:+ " " +:+ p_name p)) ;;;
      let* s := lift (svi vid net) in
      cfg ("interface ip add " +:+ s) ;;;
      let* up := poll_tries 30 400 (let* ks := db_keys "ASIC_DB" RIF_GLOB in ret (length before <? length ks)%nat) in
      if negb up then raise (PytestFail ("SVI Vlan" +:+ vid +:+ " RIF not programmed to ASIC within 12s"))
      else
        let* b := lift (bcm_of dut p) in
        confirm_pvid 10 b vid ;;;
        ret (mkCopp vid p b flag s)
  end.
Definition copp_teardown (x : CoppCtx) : M unit :=
  bsh_cmd fx_bsh ("pvlan set " +:+ cx_bcm x +:+ " " +:+ dv_text) ;;;
  cfg ("interface ip remove " +:+ cx_svi x) ;;;
  cfg ("vlan member del " +:+ cx_vid x +:+ " " +:+ p_name (cx_port x)) ;;;
  when real_home (cfg (single_space ("vlan member add " +:+ cx_flag x +:+ " " +:+ dv_text +:+ " " +:+ p_name (cx_port x)))) ;;;
  cfg ("vlan del " +:+ cx_vid x).

(** the VLAN given to the test, and the one that was made *)
Definition l2_fwd_setup (ports : list Port) : M (pyval * option string) :=
  if caps_has (t_caps topo) "l2_home_forwarding" then ret (VInt (t_default_vlan topo), None)
  else
    let* v := lift (topo_vlan topo "l2fwd") in
    let vid := py_str v in
    let* flag := vlan_untagged_flag in
    cfg ("vlan add " +:+ vid) ;;;
    for_each ports (fun p =>
      let* '(rc, r) := config_raw (single_space ("vlan member add " +:+ flag +:+ " " +:+ vid +:+ " " +:+ p_name p)) in
      let* there := (if negb (rc =? 0) then ret false else has_keys "CONFIG_DB" (member_key vid (p_name p))) in
      if there then ret tt
      else raise (PytestFail ("l2_fwd_vlan precondition failed: cannot move " +:+ p_name p +:+ " into Vlan" +:+ vid))) ;;;
    for_each ports (fun p =>
      let* b := lift (bcm_of dut p) in poll_tries 15 400 (pvid_is b vid) ;;; ret tt) ;;;
    for_each ports (fun p => wait_learn_ready p 4000 ;;; ret tt) ;;;
    ret (v, Some vid).
Definition l2_fwd_teardown (ports : list Port) (x : pyval * option string) : M unit :=
  match snd x with
  | None => ret tt
  | Some vid =>
      for_each ports (fun p => cfg ("vlan member del " +:+ vid +:+ " " +:+ p_name p)) ;;;
      cfg ("vlan del " +:+ vid)
  end.

Definition flush : M unit := flush_fdb (Some dut) (Some topo).
Record L2Net := mkL2 { l2_vid : Z; l2_in : Port; l2_out : Port; l2_p3 : Port; l2_sink : Port }.
Definition four_distinct (l : list Port) : bool := (4 <=? length (remove_dups (map p_name l)))%nat.
Definition l2net_setup (ports : list Port) : M L2Net :=
  match ports with
  | p_in :: p_out :: _ =>
      let* p3 := lift (misc_port topo 0) in
      let* sink := lift (misc_port topo 1) in
      if negb (four_distinct [p_in; p_out; p3; sink])
      then raise (PytestSkip "need 4 distinct ports for scoped L2 dataplane tests")
      else
        for_each [p_in; p_out; p3; sink] (fun p => ensure_port_l2 (p_name p)) ;;;
        for_each [p3; sink] (fun p => intf_startup (p_name p) ;;; ret tt) ;;;
        let* vid := use_test_vlan 2000 [p_in; p_out; p3; sink] (t_default_vlan topo) in
        flush ;;; sleep 1000 ;;; ret (mkL2 vid p_in p_out p3 sink)
  | _ => raise IndexError
  end.
Definition l2net_teardown : M unit := drop_test_vlan ;;; flush.

Definition l2net_mod_setup : M L2Net :=
  no_dataplane_in_safe_lane ;;;
  caps_require (t_caps topo) "loopback" ;;;
  let* p_in := lift (topo_port topo "a") in
  let* p_out := lift (topo_port topo "b") in
  let* p3 := lift (misc_port topo 0) in
  let* sink := lift (misc_port topo 1) in
  if negb (four_distinct [p_in; p_out; p3; sink])
  then raise (PytestSkip "need 4 distinct ports for scoped L2 dataplane tests")
  else
    for_each [p_in; p_out; p3; sink] (fun p => ensure_port_l2 (p_name p) ;;; intf_startup (p_name p) ;;; ret tt) ;;;
    let* vid := use_test_vlan 2000 [p_in; p_out; p3; sink] (t_default_vlan topo) in
    enable p_in None false true ;;;
    hold p_in None ;;;
    flush ;;; sleep 1000 ;;; ret (mkL2 vid p_in p_out p3 sink).
Definition l2net_mod_teardown (n : L2Net) : M unit :=
  quietly (release (l2_in n) ;;; disable (l2_in n)) ;;;
  drop_test_vlan ;;; flush.
Definition l2net_clean_setup : M unit := flush.
Definition l2net_clean_teardown : M unit := flush.

(** ** Routed ports *)

(** from the default VLAN to an addressed port that is off the bridge *)
Definition leave_home (name : string) : M unit :=
  let* berth := (if real_home then ret false else is_switchport_os) in
  when (negb berth)
    (cfg ("vlan member del " +:+ dv_text +:+ " " +:+ name) ;;;
     poll_tries 20 300 (gone_from dv_text name) ;;; ret tt).
Definition route_port (name cidr : string) : M Port :=
  let p := port_named name in
  reset_port_to_l2 dut p dv_text true ;;;
  leave_home name ;;;
  config_check ("interface ip add " +:+ name +:+ " " +:+ cidr) ;;;
  intf_startup name ;;;
  let* off := wait_port_unbridged name 15000 in
  if negb off then raise (PytestFail ("port " +:+ name +:+ " still an ASIC bridge port before loopback enable"))
  else enable p None false true ;;; ret p.

(** [l3up]: the state is [created] *)
Definition l3up_setup : OM (list Port) unit := olift no_dataplane_in_safe_lane.
Definition l3up_make (name cidr : string) : OM (list Port) Port :=
  let! p := olift (route_port name cidr) in
  omod (fun created => created ++ [p]) ;!; oret p.
Definition l3up_teardown : OM (list Port) unit :=
  let! created := oget in
  olift (for_each (rev created) (fun p => quietly (reset_port_to_l2 dut p dv_text true))).

Record L3Net := mkL3 { l3_ports : list (Port * pyval); l3_rmac : option string }.
Definition l3net_spec : outcome (list (Port * pyval)) :=
  obind (l3_port topo 0) (fun a => obind (topo_subnet topo "c") (fun sa =>
  obind (l3_port topo 1) (fun b => obind (topo_subnet topo "d") (fun sb =>
  obind (misc_port topo 0) (fun c => obind (topo_subnet topo "e") (fun sc =>
  Val [(a, sa); (b, sb); (c, sc)])))))).
Definition l3net_setup : M L3Net :=
  no_dataplane_in_safe_lane ;;;
  caps_require (t_caps topo) "loopback" ;;;
  let* spec := lift l3net_spec in
  let* built := map_m (fun x =>
    let* cidr := lift (sub_cidr (snd x)) in
    let* p := route_port (p_name (fst x)) cidr in
    hold p None ;;; ret (p, snd x)) spec in
  let* mac := router_mac in
  ret (mkL3 built mac).
Definition l3net_teardown (n : L3Net) : M unit :=
  for_each (l3_ports n) (fun x =>
    quietly (release (fst x) ;;; disable (fst x) ;;; reset_port_to_l2 dut (fst x) dv_text true)).

(** [vrf_hairpin]: the clean-up also runs when the set-up raises *)
Definition on_error {S A} (m : OM S A) (f : OM S unit) : OM S A := fun s =>
  let* r := m s in
  match r with
  | (Exc e, s') => (f ;!; oraise e) s'
  | _ => ret r
  end.
Definition vrf_hairpin_setup : OM VrfHairpin unit :=
  olift no_dataplane_in_safe_lane ;!;
  olift (caps_require (t_caps topo) "loopback") ;!;
  let! mac := olift router_mac in
  if negb (truthy mac) then oraise (PytestSkip "router MAC (DEVICE_METADATA.mac) not found")
  else
    let! sub := olift (lift (topo_subnet topo "c")) in
    let! cidr := olift (lift (sub_cidr sub)) in
    let bind_in (vrf : string) (i : nat) : OM VrfHairpin unit :=
      let! p := olift (lift (l3_port topo i)) in
      let! r := vrf_bind topo vrf p cidr in
      if fst r then oret tt
      else oraise (AssertionError ("DEVICE DEFECT: bind " +:+ p_name p +:+ " to " +:+ vrf +:+ " failed: " +:+ snd r)) in
    on_error (add_vrf "Vrf-A" ;!; add_vrf "Vrf-B" ;!; bind_in "Vrf-A" 0%nat ;!; bind_in "Vrf-B" 1%nat) (vrf_cleanup topo).

(** [vlink]: the links made, in order *)
Definition vlink_make (pool : list Port) (idx : nat) (dut_ip peer_ip : string) (prefix : Z) (mac : string)
    : OM (list VirtualLink) unit :=
  match nth_error pool idx with
  | None => oraise IndexError
  | Some p =>
      fun created =>
        let* r := vl_setup (vl_init p dut_ip peer_ip prefix mac 1000) in
        match r with
        | (Val _, v) => ret (Val tt, created ++ [v])
        | (Exc e, _) => ret (Exc e, created)
        | (Hang, _) => hang
        end
  end.
Definition vlink_teardown (created : list VirtualLink) : M unit :=
  for_each (rev created) (fun v => quietly (orun (vl_teardown dut) v)).
End Fixtures.

(** ** [pytest_terminal_summary] *)

Definition last_of (l : list string) : option string := match rev l with x :: _ => Some x | [] => None end.
(** the line recorded for a failed test; a report without text has no last
    line *)
Definition issue_line (txt : string) : outcome string :=
  match find (fun l => contains "device issue" (lower l) || contains "crash" (lower l)) (splitlines txt) with
  | Some l => if nonempty (strip l) then Val (strip l)
              else match last_of (splitlines txt) with Some x => Val (str_take 200 x) | None => Exc IndexError end
  | None => match last_of (splitlines txt) with Some x => Val (str_take 200 x) | None => Exc IndexError end
  end.
Definition run_record (failed : list (string * string)) : outcome (option string) :=
  obind (map_outcome (fun f => obind (issue_line (snd f)) (fun l => Val (fst f, l))) failed) (fun issues =>
  Val (match issues with
       | [] => None
       | _ => Some (s1 lf +:+ "## Run record (" +:+ zs (Z.of_nat (length issues)) +:+ " failures/device issues)" +:+ s1 lf
                    +:+ String.concat "" (map (fun x => "- `" +:+ fst x +:+ "`" +:+ s1 lf +:+ "  - " +:+ snd x +:+ s1 lf) issues))
       end)).
Definition issues_file (worker : option string) : string :=
  "run_issues" +:+ (if truthy worker then "-w" +:+ or_empty worker else "") +:+ ".md".
