(* ===== verification/FixturesFacts.v ===== *)
(** * What the guards around a test guarantee

    A test that only uses the tracked loopback operations, with any outcomes,
    leaves no loopback and no isolation on record behind the guard, which has
    told the chip what undoes them; a routed port is put in loopback only
    behind the gate. *)

From S2P Require Import Prelude PyStr PyStrFacts PyVal Device DeviceFacts Toy CliParse Cli CliFacts CliFrame Worker Sentinel Profile Dut Topology Loopback Obj LoopbackFacts Hygiene Traffic L3 L3Facts Links Fixtures.

#[local] Hint Constants Opaque : steps.

Section Guard.
Context `{Device} `{ShellEnv} `{CliEnv} `{WorkerEnv} `{DutEnv} `{LbEnv} `{!TimeLaws}.

(** the flag the guard looks at is set whenever there is something to clear *)
Definition covered (w : World) : Prop :=
  lb_touched (w_lb w) = true \/ (lb_on (w_lb w) = [] /\ lb_flood_safe (w_lb w) = []).
Definition tracked (w w' : World) : Prop :=
  lb_held (w_lb w) = [] -> lb_held (w_lb w') = [] /\ (covered w -> covered w').
#[local] Instance tracked_pre : PreOrder tracked.
Proof.
  split; [by intros w|]. intros w1 w2 w3 Ha Hb Hh. destruct (Ha Hh) as [Hh2 Hc]. destruct (Hb Hh2) as [Hh3 Hc']. auto.
Qed.
Lemma same_tracked w w' : same_lb w w' -> tracked w w'.
Proof. unfold same_lb, tracked, covered. by intros ->. Qed.
Lemma tracked_same {A} (m : M A) : steps same_lb m -> steps tracked m.
Proof. intros Hm w. apply same_tracked, Hm. Qed.
Lemma tracked_run cmd cont check t stdin : steps tracked (run_full cmd cont check t stdin).
Proof. apply tracked_same, same_lb_run. Qed.
Lemma tracked_sleep t : steps tracked (sleep t).
Proof. by apply tracked_same. Qed.
Lemma tracked_cli f : steps tracked (modify_cli f).
Proof. by apply tracked_same. Qed.
#[local] Hint Resolve tracked_pre tracked_run tracked_sleep tracked_cli : steps.
Lemma tracked_chip_ c : steps tracked (chip_ c).
Proof. unfold chip_, chip, bsh_cmd, sock_cmd. frame_go. Qed.
Lemma tracked_chip c : steps tracked (chip c).
Proof. unfold chip, bsh_cmd, sock_cmd. frame_go. Qed.
Lemma tracked_lb_bcm p : steps tracked (lb_bcm p).
Proof. by apply tracked_same. Qed.
Lemma tracked_quietly m : steps tracked m -> steps tracked (quietly m).
Proof. intros Hm. apply steps_try; [apply _ | done | intros; apply steps_ret, _]. Qed.
Ltac tr_go := repeat first [match goal with |- steps _ (quietly _) => apply tracked_quietly end | progress frame_go].
Lemma tracked_config n c a : steps tracked (config_n n c a).
Proof. apply frame_config; auto with steps; apply _. Qed.
Lemma tracked_ensure n : steps tracked (ensure_port_l2 n).
Proof. unfold ensure_port_l2. tr_go; apply tracked_config. Qed.
Lemma tracked_startup p : steps tracked (intf_startup p).
Proof. apply frame_intf_startup; auto with steps; apply _. Qed.
#[local] Hint Resolve tracked_chip_ tracked_chip tracked_lb_bcm tracked_config tracked_ensure tracked_startup : steps.
Lemma tracked_swp : steps tracked lb_swp.
Proof. unfold lb_swp. tr_go; apply tracked_config. Qed.
Lemma tracked_oper p : steps tracked (wait_oper_up p).
Proof. unfold wait_oper_up, is_oper_up. tr_go. Qed.
Lemma tracked_learn p t : steps tracked (wait_learn_ready p t).
Proof. unfold wait_learn_ready. tr_go. Qed.
#[local] Hint Resolve tracked_swp tracked_oper tracked_learn : steps.

(** updates of the record *)
Lemma tracked_modify f : (forall l, lb_held l = [] -> lb_held (f l) = []) ->
  (forall l, lb_touched l = true \/ (lb_on l = [] /\ lb_flood_safe l = []) ->
     lb_touched (f l) = true \/ (lb_on (f l) = [] /\ lb_flood_safe (f l) = [])) -> steps tracked (modify_lb f).
Proof. intros Hh Hc w Hw. split; [by apply Hh | apply Hc]. Qed.
Lemma tracked_off p : steps tracked (modify_lb (put_on (ddel p))).
Proof. apply tracked_modify; simpl; [done|]. intros l [|[-> ?]]; auto. Qed.
Lemma tracked_unflood p : steps tracked (modify_lb (put_flood (ddel p))).
Proof. apply tracked_modify; simpl; [done|]. intros l [|[? ->]]; auto. Qed.
Lemma tracked_vlan v : steps tracked (modify_lb (put_test_vlan v)).
Proof. by apply tracked_modify. Qed.
Lemma tracked_touch : steps tracked (modify_lb put_touched).
Proof. apply tracked_modify; simpl; auto. Qed.
Lemma tracked_on_touch p x : steps tracked (modify_lb (put_on (dset p x)) ;;; modify_lb put_touched).
Proof. intros w Hw. split; [done | by left]. Qed.
Lemma tracked_on_touch_flood p x y :
  steps tracked (modify_lb (put_on (dset p x)) ;;; modify_lb put_touched ;;; modify_lb (put_flood (dset p y))).
Proof. intros w Hw. split; [done | by left]. Qed.
#[local] Hint Resolve tracked_off tracked_unflood tracked_vlan tracked_touch tracked_on_touch tracked_on_touch_flood : steps.

Lemma tracked_disable p : steps tracked (disable p).
Proof. unfold disable. tr_go. Qed.
Lemma tracked_enable p m d up : steps tracked (enable p m d up).
Proof. unfold enable, lb_set. tr_go. Qed.
Lemma tracked_flood p vid : steps tracked (enable_flood_safe p vid).
Proof. unfold enable_flood_safe, current_pvid. tr_go. Qed.
#[local] Hint Resolve tracked_disable tracked_enable tracked_flood : steps.
Lemma tracked_pop p : steps tracked (pop_flood p).
Proof. unfold pop_flood. tr_go. Qed.
#[local] Hint Resolve tracked_pop : steps.
Lemma tracked_undo_flood f : steps tracked (undo_flood f).
Proof. unfold undo_flood. tr_go. Qed.
#[local] Hint Resolve tracked_undo_flood : steps.
Lemma tracked_disable_flood p : steps tracked (disable_flood_safe p).
Proof. unfold disable_flood_safe. tr_go. Qed.
Lemma tracked_restore p : steps tracked (restore_pvid p).
Proof. unfold restore_pvid. tr_go. Qed.
#[local] Hint Resolve tracked_disable_flood : steps.
Lemma tracked_cleanup : steps tracked cleanup.
Proof. unfold cleanup. tr_go. Qed.
Lemma tracked_use_vlan vid ps r : steps tracked (use_test_vlan vid ps r).
Proof.
  unfold use_test_vlan, use_test_vlan_cfg, vlan_member_add, vlan_untagged_flag. tr_go; apply tracked_config.
Qed.
Lemma tracked_drop_vlan : steps tracked drop_test_vlan.
Proof. unfold drop_test_vlan. tr_go. Qed.

(** with nothing held, everything is cleared *)
Lemma force_clear_clean w : lb_held (w_lb w) = [] ->
  exists w', force_clear_all w = (Val (to_clear (w_lb w)), w') /\
    w_lb w' = mkLb [] [] (lb_test_vlan (w_lb w)) [] (lb_touched (w_lb w)).
Proof.
  intros Hh. unfold force_clear_all. rewrite (bind_step _ _ (w_lb w) w w) by done.
  destruct (keeps_unit _ w (keeps_for_each (lb_flood_safe (w_lb w)) _ (fun pf => keeps_undo_flood (snd pf)))) as (w1 & E1 & L1).
  rewrite (bind_step _ _ _ _ _ E1).
  set (w2 := mkWorld (w_dev w1) (w_trace w1) (w_cli w1) (put_flood (fun _ => []) (w_lb w1))).
  rewrite (bind_step _ _ tt w1 w2) by done.
  destruct (keeps_unit _ w2 (keeps_quietly _ (keeps_chip_ ("port " +:+ clear_range +:+ " lb=none")))) as (w3 & E3 & L3).
  rewrite (bind_step _ _ _ _ _ E3).
  set (w4 := mkWorld (w_dev w3) (w_trace w3) (w_cli w3) (put_on (fun _ => []) (w_lb w3))).
  rewrite (bind_step _ _ tt w3 w4) by done. rewrite (bind_step _ _ (w_lb w4) w4 w4) by done.
  assert (w_lb w4 = mkLb [] [] (lb_test_vlan (w_lb w)) [] (lb_touched (w_lb w))) as L4.
  { unfold w4. cbn [w_lb]. rewrite L3. unfold w2. cbn [w_lb]. rewrite L1. clear -Hh. revert Hh. destruct (w_lb w). simpl. by intros ->. }
  rewrite L4. cbn [lb_held for_each]. by exists w4.
Qed.
Lemma tracked_force_clear : steps tracked force_clear_all.
Proof.
  intros w Hh. destruct (force_clear_clean w Hh) as (w' & E & L). rewrite E. cbn [snd]. unfold covered. rewrite L. split; [done|]. intros _. by right.
Qed.
Lemma keeps_fold_m {A B} (f : B -> A -> M B) l : (forall b x, keeps_lb (f b x)) -> forall b, keeps_lb (fold_m f l b).
Proof.
  intros Hf. induction l as [|x l IH]; intros b; [apply keeps_ret|]. cbn [fold_m]. by apply keeps_bind.
Qed.
Lemma keeps_still_up names : keeps_lb (still_up names).
Proof.
  apply keeps_fold_m. intros acc n. apply keeps_bind; [|intros; apply keeps_ret].
  apply keeps_bind; [apply keeps_run | intros; apply keeps_ret].
Qed.

(** ** Tests *)

(** the loopback operations of the framework that the guard tracks *)
Inductive lb_op :=
| LbEnable (p : Port) (mode : option string) (discard up : bool)
| LbDisable (p : Port)
| LbFloodSafe (p : Port) (vid : Z)
| LbDisableFloodSafe (p : Port)
| LbRestorePvid (p : Port)
| LbTestVlan (vid : Z) (ports : list Port) (restore_vid : Z)
| LbDropTestVlan
| LbCleanup
| LbForceClear.
Definition lb_run (o : lb_op) : M unit :=
  match o with
  | LbEnable p m d up => enable p m d up
  | LbDisable p => disable p
  | LbFloodSafe p vid => enable_flood_safe p vid
  | LbDisableFloodSafe p => disable_flood_safe p
  | LbRestorePvid p => restore_pvid p
  | LbTestVlan vid ps r => use_test_vlan vid ps r ;;; ret tt
  | LbDropTestVlan => drop_test_vlan
  | LbCleanup => cleanup
  | LbForceClear => force_clear_all ;;; ret tt
  end.

(** what a test does: loopback operations with any outcomes, and anything that
    leaves the loopback record alone *)
Inductive test_run : World -> World -> Prop :=
| run_done w : test_run w w
| run_lb o w r w1 w2 : lb_run o w = (r, w1) -> test_run w1 w2 -> test_run w w2
| run_other w w1 w2 : same_lb w w1 -> test_run w1 w2 -> test_run w w2.

Lemma tracked_op o : steps tracked (lb_run o).
Proof.
  destruct o; simpl; [apply tracked_enable | apply tracked_disable | apply tracked_flood | apply tracked_disable_flood |
    apply tracked_restore | | apply tracked_drop_vlan | apply tracked_cleanup | ];
    (apply steps_bind; [apply _ | | intros; apply steps_ret, _]); [apply tracked_use_vlan | apply tracked_force_clear].
Qed.
Lemma run_tracked w w' : test_run w w' -> tracked w w'.
Proof.
  induction 1 as [w | o w r w1 w2 E _ IH | w w1 w2 Hs _ IH]; [done | |].
  - pose proof (tracked_op o w) as Ht. rewrite E in Ht. by etransitivity.
  - apply same_tracked in Hs. by etransitivity.
Qed.

Lemma noexc_wait_cleared ps t : noexc (wait_cleared_down ps t).
Proof.
  unfold wait_cleared_down. intros w e w' E. unfold bind at 1, now in E. eapply noexc_bind; [| |exact E].
  - apply noexc_while. intros pending. destruct pending; [by intros ? ? ?|].
    apply noexc_bind; [apply noexc_keeps, keeps_still_up|]. intros left. destruct left; by intros ? ? ?.
  - by intros ? ? ? ?.
Qed.
Lemma same_lb_wait_cleared ps t : steps same_lb (wait_cleared_down ps t).
Proof. unfold wait_cleared_down, still_up, is_oper_up. frame_go. Qed.
Lemma total_still_up names : total (still_up names).
Proof.
  unfold still_up, is_oper_up. apply total_fold_m. intros acc n. apply total_bind; [|intros; apply total_ret].
  apply total_bind; [apply total_run_full | intros; apply total_ret].
Qed.
Lemma total_wait_cleared ps t : total (wait_cleared_down ps t).
Proof.
  unfold wait_cleared_down. eapply total_ext; [intros w; apply bind_assoc|].
  apply total_bind; [|intros; apply total_ret]. apply total_while; [lia | |].
  - intros [|p l]; [apply total_ret|]. apply total_bind; [apply total_still_up|].
    intros []; [apply total_ret|]. apply total_bind; [apply total_sleep; lia | intros; apply total_ret].
  - intros [|p l] w s' E; [discriminate|]. unfold bind in *. pose proof (proj2 (total_still_up (p :: l)) w) as Ht. unfold time_mono in Ht.
    destruct (still_up (p :: l) w) as [[left|e|] w1]; cbn [fst snd] in *; try done. destruct left; [done|].
    cbn. pose proof (sleep_advances 300 (w_dev w1) ltac:(lia)). cbn in *. lia.
Qed.

(** the guard after any test, on the record *)
Lemma guard_record w w' : lb_held (w_lb w) = [] -> lb_on (w_lb w) = [] -> lb_flood_safe (w_lb w) = [] ->
  test_run w w' ->
  exists w2, per_test_lb_guard w' = (Val tt, w2) /\
    lb_on (w_lb w2) = [] /\ lb_flood_safe (w_lb w2) = [] /\ lb_held (w_lb w2) = [] /\ lb_touched (w_lb w2) = false.
Proof.
  intros Hh Ho Hf Hr. destruct (run_tracked w w' Hr Hh) as [Hh' Hc]. specialize (Hc (or_intror (conj Ho Hf))).
  unfold per_test_lb_guard. rewrite (bind_step _ _ (w_lb w') w' w') by done.
  set (w1 := mkWorld (w_dev w') (w_trace w') (w_cli w')
    (mkLb (lb_on (w_lb w')) (lb_flood_safe (w_lb w')) (lb_test_vlan (w_lb w')) (lb_held (w_lb w')) false)).
  rewrite (bind_step _ _ tt w' w1) by done. rewrite Hh'. destruct (lb_touched (w_lb w')) eqn:Et.
  - destruct (force_clear_clean w1 Hh') as (w2 & E2 & L2). unfold quietly, try_except, when.
    rewrite (bind_step _ _ _ _ _ E2).
    destruct (total_wait_cleared (to_clear (w_lb w1)) 4000) as [Ht _]. specialize (Ht w2).
    pose proof (noexc_wait_cleared (to_clear (w_lb w1)) 4000 w2) as Hn.
    pose proof (same_lb_wait_cleared (to_clear (w_lb w1)) 4000 w2) as Hl.
    destruct (wait_cleared_down (to_clear (w_lb w1)) 4000 w2) as [[l|e|] w3] eqn:E3; [|by destruct (Hn e w3)|done].
    rewrite (bind_step _ _ _ _ _ E3). exists w3. split; [done|]. unfold same_lb in Hl. cbn [snd] in Hl. rewrite Hl, L2. done.
  - exists w1. destruct Hc as [|[Ho' Hf']]; [congruence|]. done.
Qed.
(** *** What the guard tells the chip *)

(** the call that carries a command of the diagnostic shell *)
Definition diag_call (c : string) : call :=
  if String.eqb (b_access lb_bsh) "socket" then
    Call None ("docker exec -i " +:+ b_syncd lb_bsh +:+ " python3 -c "
               +:+ shlex_quote (with_quotes ("import base64; exec(base64.b64decode(`" +:+ b64encode SOCK_CLIENT +:+ "`))"))
               +:+ " " +:+ shlex_quote c) 30000 None
  else Call (Some (b_syncd lb_bsh)) ("bcmcmd '" +:+ c +:+ "'") 30000 None.
(** [m] completes, tells the chip [cs] in this order and nothing else *)
Definition tells (cs : list string) (m : M unit) : Prop :=
  forall w, exists w', m w = (Val tt, w') /\ w_trace w' = w_trace w ++ map diag_call cs /\ w_lb w' = w_lb w.

(** an isolation is taken back: the PVID the port had, and the isolation VLAN;
    the discard mode has neither, and the code prints None *)
Definition restore_cmds (f : FloodSafe) : list string :=
  match f with
  | FsPvid b iso orig => ["pvlan set " +:+ b +:+ " " +:+ orig; "vlan destroy " +:+ zs iso]
  | FsDiscard b => ["pvlan set " +:+ b +:+ " None"; "vlan destroy None"]
  end.
(** what the guard tells the chip: nothing when the test touched nothing *)
Definition guard_cmds (l : LbState) : list string :=
  if lb_touched l then flat_map (fun pf => restore_cmds (snd pf)) (lb_flood_safe l) ++ ["port " +:+ clear_range +:+ " lb=none"] else [].
(** a reading of a port's operational status *)
Definition oper_read (c : call) : Prop := exists name, c = Call None (oper_up_cmd name) 30000 None.

Section Tells.
Context `{!LiveShell}.

Lemma tells_chip c : String.eqb (strip c) "clear c" = false -> tells [c] (chip_ c).
Proof.
  intros Hc w. unfold chip_, chip, bsh_cmd. rewrite Hc, andb_false_r. unfold diag_call.
  destruct (String.eqb (b_access lb_bsh) "socket"); cbn [map].
  - unfold sock_cmd, sh_run.
    match goal with |- context [run_full ?c None false ?t None] => destruct (run_live c None t None w) as (r & d & E) end.
    rewrite !bind_assoc, (bind_step _ _ _ _ _ E). by eexists.
  - unfold sh_run_in.
    match goal with |- context [run_full ?c ?s false ?t None] => destruct (run_live c s t None w) as (r & d & E) end.
    rewrite !bind_assoc, (bind_step _ _ _ _ _ E). by eexists.
Qed.
Lemma tells_seq cs1 cs2 m1 m2 : tells cs1 m1 -> tells cs2 m2 -> tells (cs1 ++ cs2) (m1 ;;; m2).
Proof.
  intros Hm1 Hm2 w. destruct (Hm1 w) as (w1 & E1 & T1 & L1). destruct (Hm2 w1) as (w2 & E2 & T2 & L2).
  exists w2. rewrite (bind_step _ _ _ _ _ E1). split; [done|]. split; [by rewrite T2, T1, map_app, app_assoc | congruence].
Qed.
Lemma tells_quietly cs m : tells cs m -> tells cs (quietly m).
Proof. intros Hm w. destruct (Hm w) as (w' & E & Hw). exists w'. unfold quietly, try_except. by rewrite E. Qed.
Lemma tells_restore f : tells (restore_cmds f) (undo_flood f).
Proof.
  unfold undo_flood. apply tells_quietly.
  destruct f; apply (tells_seq [_] [_]); apply tells_chip; solve [apply (starts_strip "p" _ ""); done | apply (starts_strip "v" _ ""); done].
Qed.
Lemma tells_each l : tells (flat_map (fun pf => restore_cmds (snd pf)) l) (for_each (A := Port * FloodSafe) l (fun pf => undo_flood (snd pf))).
Proof.
  induction l as [|pf l IH]; [intros w; exists w; by rewrite app_nil_r|]. cbn [flat_map for_each]. apply tells_seq; [apply tells_restore | exact IH].
Qed.
Lemma force_clear_tells w : lb_held (w_lb w) = [] ->
  w_trace (snd (force_clear_all w)) = w_trace w ++ map diag_call (flat_map (fun pf => restore_cmds (snd pf)) (lb_flood_safe (w_lb w)) ++ ["port " +:+ clear_range +:+ " lb=none"]).
Proof.
  intros Hh. unfold force_clear_all. rewrite (bind_step _ _ (w_lb w) w w) by done.
  destruct (tells_each (lb_flood_safe (w_lb w)) w) as (w1 & E1 & T1 & L1). rewrite (bind_step _ _ _ _ _ E1).
  set (w2 := mkWorld (w_dev w1) (w_trace w1) (w_cli w1) (put_flood (fun _ => []) (w_lb w1))).
  rewrite (bind_step _ _ tt w1 w2) by done.
  destruct (tells_quietly _ _ (tells_chip ("port " +:+ clear_range +:+ " lb=none") (starts_strip "p" ("ort " +:+ clear_range +:+ " lb=none") "" eq_refl ltac:(done))) w2) as (w3 & E3 & T3 & L3).
  rewrite (bind_step _ _ _ _ _ E3).
  set (w4 := mkWorld (w_dev w3) (w_trace w3) (w_cli w3) (put_on (fun _ => []) (w_lb w3))).
  rewrite (bind_step _ _ tt w3 w4) by done. rewrite (bind_step _ _ (w_lb w4) w4 w4) by done.
  assert (lb_held (w_lb w4) = []) as -> by (unfold w4; cbn [w_lb put_on lb_held]; rewrite L3; unfold w2; cbn [w_lb put_flood lb_held]; by rewrite L1).
  cbn [for_each]. unfold bind, ret. cbn [snd w_trace]. unfold w4. cbn [w_trace]. rewrite T3. unfold w2. cbn [w_trace]. by rewrite T1, map_app, app_assoc.
Qed.
Lemma wait_cleared_reads ps t : steps (emits oper_read) (wait_cleared_down ps t).
Proof.
  assert (forall n, steps (emits oper_read) (is_oper_up n)) as Hup.
  { intros n. unfold is_oper_up. apply steps_bind; [apply _ | apply emits_run; by exists n | intros; apply steps_ret, _]. }
  unfold wait_cleared_down, still_up. frame_go.
Qed.
Lemma guard_tells w : lb_held (w_lb w) = [] ->
  exists reads, w_trace (snd (per_test_lb_guard w)) = w_trace w ++ map diag_call (guard_cmds (w_lb w)) ++ reads /\ Forall oper_read reads.
Proof.
  intros Hh. unfold per_test_lb_guard. rewrite (bind_step _ _ (w_lb w) w w) by done.
  set (w1 := mkWorld (w_dev w) (w_trace w) (w_cli w)
    (mkLb (lb_on (w_lb w)) (lb_flood_safe (w_lb w)) (lb_test_vlan (w_lb w)) (lb_held (w_lb w)) false)).
  rewrite (bind_step _ _ tt w w1) by done. rewrite Hh. unfold guard_cmds. destruct (lb_touched (w_lb w)).
  - destruct (force_clear_clean w1 Hh) as (w2 & E2 & _). pose proof (force_clear_tells w1 Hh) as T2. rewrite E2 in T2. cbn [snd] in T2.
    destruct (wait_cleared_reads (to_clear (w_lb w1)) 4000 w2) as (reads & T3 & Hr). exists reads. split; [|done].
    unfold when, quietly, try_except. rewrite (bind_step _ _ _ _ _ E2). unfold bind.
    destruct (wait_cleared_down (to_clear (w_lb w1)) 4000 w2) as [[l|e|] w3]; cbn [fst snd] in *; [| case_match |];
      unfold ret; cbn [snd]; rewrite T3, T2, <-app_assoc; done.
  - exists []. split; [by rewrite !app_nil_r | done].
Qed.
End Tells.

(** C21: a test cannot pass a loopback on to the next one.  From a state with
    nothing in loopback, isolated or held on record, let the test perform any
    sequence of the tracked loopback operations with any outcomes (an
    exception before the matching disable included) and do whatever else it
    likes to the device.  The guard that follows always completes, and then
    nothing is on record as looped or isolated and the flag is down again, so
    that the next test starts from the state this one started from.  When
    anything was on record the flag was up, and then the guard has told the
    chip, in this order and nothing else: for each isolated port, to set the
    PVID it had before and to destroy the isolation VLAN; and to end the
    loopback of every port of the worker's range.  After that it has only read
    the status of ports. *)
Theorem guard_clean w w' : lb_held (w_lb w) = [] -> lb_on (w_lb w) = [] -> lb_flood_safe (w_lb w) = [] ->
  test_run w w' ->
  exists w2, per_test_lb_guard w' = (Val tt, w2) /\
    lb_on (w_lb w2) = [] /\ lb_flood_safe (w_lb w2) = [] /\ lb_held (w_lb w2) = [] /\ lb_touched (w_lb w2) = false /\
    (lb_touched (w_lb w') = true \/ (lb_on (w_lb w') = [] /\ lb_flood_safe (w_lb w') = [])) /\
    (LiveShell -> exists reads, w_trace w2 = w_trace w' ++ map diag_call (guard_cmds (w_lb w')) ++ reads /\ Forall oper_read reads).
Proof.
  intros Hh Ho Hf Hr. destruct (guard_record w w' Hh Ho Hf Hr) as (w2 & E & Ho2 & Hf2 & Hh2 & Ht2). exists w2.
  destruct (run_tracked w w' Hr Hh) as [Hh' Hc]. split_and!; [done..| |].
  - apply Hc. right. done.
  - intros Hlive. destruct (guard_tells w' Hh') as (reads & T & Hrd). rewrite E in T. by exists reads.
Qed.
End Guard.

(** ** The gate in front of a routed port's loopback *)

Section Gate.
Context `{Device} `{ShellEnv} `{CliEnv} `{WorkerEnv} `{DutEnv} `{LbEnv} `{!TimeLaws}.
Variable topo : Topology.

Lemma same_lb_bsh b c : steps same_lb (bsh_cmd b c).
Proof. unfold bsh_cmd, sock_cmd. frame_go. Qed.
Lemma same_lb_config n c a : steps same_lb (config_n n c a).
Proof. apply frame_config; auto with steps; apply _. Qed.
#[local] Hint Resolve same_lb_bsh same_lb_config same_lb_config_raw same_lb_intf_startup : steps.
Lemma same_lb_ensure n : steps same_lb (ensure_port_l2 n).
Proof. unfold ensure_port_l2. frame_go. Qed.
Lemma same_lb_flag : steps same_lb vlan_untagged_flag.
Proof. unfold vlan_untagged_flag. frame_go. Qed.
Lemma same_lb_swp : steps same_lb is_switchport_os.
Proof. unfold is_switchport_os. frame_go. Qed.
Lemma same_lb_left bp : steps same_lb (left_l2 bp).
Proof. unfold left_l2, no_l2_membership. frame_go. Qed.
Lemma same_lb_unbridged n t : steps same_lb (wait_port_unbridged n t).
Proof. unfold wait_port_unbridged, bridge_port_of, db. frame_go; apply same_lb_left. Qed.
#[local] Hint Resolve same_lb_ensure same_lb_flag same_lb_swp same_lb_unbridged : steps.
Lemma same_lb_leave n : steps same_lb (leave_home topo n).
Proof. unfold leave_home, gone_from, cfg. frame_go. Qed.

(** the same for termination *)
Lemma total_config n c a : total (config_n (S (S (S n))) c a).
Proof. apply total_config_n_any. Qed.
#[local] Hint Resolve total_bsh total_config total_config_raw total_intf_startup total_has_keys total_db_hgetall total_sh_run
  total_db_keys total_hget total_sh_run_check : total.
Lemma total_swp : total is_switchport_os.
Proof. unfold is_switchport_os, is_switchport_os_r, config_depth. total_go. Qed.
#[local] Hint Resolve total_swp : total.
Lemma total_ensure n : total (ensure_port_l2 n).
Proof.
  unfold ensure_port_l2. apply total_ensure_port_l2_r; intros; apply (total_config 0).
Qed.
Lemma total_flag : total vlan_untagged_flag.
Proof. unfold vlan_untagged_flag. apply total_vlan_untagged_flag_r; intros; apply (total_config 0). Qed.
#[local] Hint Resolve total_ensure total_flag : total.
Lemma total_leave n : total (leave_home topo n).
Proof. unfold leave_home, gone_from, cfg. total_go. Qed.
Lemma total_unbridged n t : total (wait_port_unbridged n t).
Proof. unfold wait_port_unbridged, bridge_port_of, db, left_l2, no_l2_membership. total_go. Qed.

(** a reset takes the port off the record and changes nothing else of it *)
Lemma reset_lb p b v wait w : bcm_of lb_dut p = Val b ->
  exists r w', reset_port_to_l2 lb_dut p v wait w = (r, w') /\ r <> Hang /\ w_lb w' = put_on (ddel p) (w_lb w).
Proof.
  intros Hb. unfold reset_port_to_l2. rewrite (bind_step _ _ b w w) by (unfold lift; by rewrite Hb).
  destruct (disable_lb p b w Hb) as (w1 & E1 & L1).
  rewrite (bind_step _ _ tt w w1) by (unfold quietly, try_except; by rewrite E1).
  match goal with |- exists r w', ?m w1 = _ /\ _ => assert (total m) as [Ht _] by total_go; assert (steps same_lb m) as Hs by frame_go end.
  match goal with |- exists r w', ?m w1 = _ /\ _ => specialize (Ht w1); specialize (Hs w1); destruct (m w1) as [r w2] eqn:E end.
  exists r, w2. unfold same_lb in Hs. cbn [fst snd] in *. by rewrite Hs, L1.
Qed.

(** until the gate the port stays off the record *)
Definition gated {A} (p : Port) (Q : A -> World -> Prop) (m : M A) : Prop := forall w, on_lb p w = None ->
  exists r w', m w = (r, w') /\ match r with Val a => Q a w' | Exc _ => on_lb p w' = None | Hang => False end.
Lemma gated_seq {A B} p Q (m : M A) (k : A -> M B) :
  total m -> steps same_lb m -> (forall a, gated p Q (k a)) -> gated p Q (bind m k).
Proof.
  intros [Ht _] Hs Hk w Hw. specialize (Ht w). specialize (Hs w). unfold same_lb in Hs. unfold bind.
  destruct (m w) as [[a|e|] w1]; cbn [fst snd] in *; [|exists (Exc e), w1; unfold on_lb; by rewrite Hs | done].
  apply Hk. unfold on_lb. by rewrite Hs.
Qed.

(** what was read of ASIC_DB: a field of each of these keys, one key after the
    other, and what each reading satisfies *)
Inductive each_read (field : string) (P : option string -> Prop) : list string -> World -> World -> Prop :=
| each_nil w : each_read field P [] w w
| each_cons k ks w v w1 w2 : hget "ASIC_DB" k field w = (Val v, w1) -> P v -> each_read field P ks w1 w2 -> each_read field P (k :: ks) w w2.
Definition BRIDGE_PORTS : string := "ASIC_STATE:SAI_OBJECT_TYPE_BRIDGE_PORT:*".
Definition VLAN_MEMBERS : string := "ASIC_STATE:SAI_OBJECT_TYPE_VLAN_MEMBER:*".
Definition of_port : string := "SAI_BRIDGE_PORT_ATTR_PORT_ID".
Definition of_bridge_port : string := "SAI_VLAN_MEMBER_ATTR_BRIDGE_PORT_ID".
(** no VLAN member's reference is the last part of the bridge port's key *)
Definition no_member (bp : string) (w wb : World) : Prop :=
  exists members w1, db_keys "ASIC_DB" VLAN_MEMBERS w = (Val members, w1) /\
    each_read of_bridge_port (fun v => v <> Some (List.last (split_on ":"%char bp) "")) members w1 wb.
(** what was seen of the port, up to the world [wb]: it has no object id, so
    that nothing can be said; or no bridge port belongs to it; or one does, and
    at the last look, in [w5] and not before it was found, the bridge port had
    gone or no VLAN member's reference was the last part of its key *)
Definition seen_off (name : string) (wa wb : World) : Prop :=
  exists oid w1, db "COUNTERS_DB" ("HGET COUNTERS_PORT_NAME_MAP " +:+ name) wa = (Val oid, w1) /\
  if nonempty oid then
    exists keys w2, db_keys "ASIC_DB" BRIDGE_PORTS w1 = (Val keys, w2) /\
    (each_read of_port (fun v => v <> Some oid) keys w2 wb \/
     exists before k after w3 w4 w5, keys = before ++ k :: after /\
       each_read of_port (fun v => v <> Some oid) before w2 w3 /\ hget "ASIC_DB" k of_port w3 = (Val (Some oid), w4) /\
       dev_now (w_dev w4) <= dev_now (w_dev w5) /\
       exists there w6, db_keys "ASIC_DB" k w5 = (Val there, w6) /\ if there is [] then wb = w6 else no_member k w6 wb)
  else wb = w1.

Lemma each_all field (bad : string) ks : forall w wb,
  all_m (fun m => let* b := hget "ASIC_DB" m field in ret (negb (bool_decide (b = Some bad)))) ks w = (Val true, wb) ->
  each_read field (fun v => v <> Some bad) ks w wb.
Proof.
  induction ks as [|k ks IH]; intros w wb E; cbn [all_m] in E; [injection E as <-; constructor|].
  apply bind_val in E as (o & w1 & Eo & E). apply bind_val in Eo as (v & w2 & Ev & Eo). unfold ret in Eo. injection Eo as <- <-.
  destruct (decide (v = Some bad)) as [Hc|Hc]; [by rewrite bool_decide_true in E | rewrite bool_decide_false in E by done]. cbn [negb] in E.
  econstructor; [eassumption | done | by apply IH].
Qed.
Lemma each_first field oid ks : forall w r wb,
  first_m (fun k => let* p := hget "ASIC_DB" k field in ret (if bool_decide (p = Some oid) then Some k else None)) ks w = (Val r, wb) ->
  match r with
  | None => each_read field (fun v => v <> Some oid) ks w wb
  | Some k => exists before after w3, ks = before ++ k :: after /\ each_read field (fun v => v <> Some oid) before w w3 /\
      hget "ASIC_DB" k field w3 = (Val (Some oid), wb)
  end.
Proof.
  induction ks as [|k ks IH]; intros w r wb E; cbn [first_m] in E; [unfold ret in E; simplify_eq; constructor|].
  apply bind_val in E as (o & w1 & Eo & E). apply bind_val in Eo as (v & w2 & Ev & Eo). unfold ret in Eo. injection Eo as <- <-.
  destruct (decide (v = Some oid)) as [->|Hc]; [rewrite bool_decide_true in E by done | rewrite bool_decide_false in E by done].
  - unfold ret in E. simplify_eq. exists [], ks, w. split_and!; [done | constructor | eassumption].
  - apply IH in E. destruct r as [k'|]; [|by econstructor].
    destruct E as (before & after & w3 & -> & Hb & Hk). exists (k :: before), after, w3. split_and!; [done | by econstructor | done].
Qed.
Lemma poll_until_last timeout ms chk w wb : 0 < ms -> total chk -> poll_until timeout ms chk w = (Val true, wb) ->
  exists w1, dev_now (w_dev w) <= dev_now (w_dev w1) /\ chk w1 = (Val true, wb).
Proof.
  intros Hms [_ Hc] E. unfold poll_until in E. apply bind_val in E as (t0 & w0 & [= <- <-] & E). apply bind_val in E as (r & w2 & E & E2).
  destruct r as [|[]]; [done|]. unfold ret in E2. injection E2 as <-. revert E. generalize (dev_now (w_dev w) + timeout). intros dl.
  generalize (poll_fuel timeout ms). intros fuel. revert w. induction fuel as [|f IH]; intros w E; [done|]. cbn [while_before] in E.
  apply bind_val in E as (t1 & w1 & [= <- <-] & E). destruct (_ <? dl); [|done]. apply bind_val in E as (x & w1 & Eb & E).
  apply bind_val in Eb as (b & w3 & Ec & Eb). destruct b; [injection Eb as <- <-; injection E as <-; exists w; split; [lia | done]|].
  apply bind_val in Eb as ([] & w4 & Es & Eb). injection Eb as <- <-. apply IH in E as (w5 & Ht & E). exists w5. split; [|done].
  specialize (Hc w). rewrite Ec in Hc. unfold time_mono in Hc. cbn in Hc. unfold sleep in Es. injection Es as <-. cbn in Ht.
  pose proof (sleep_advances ms (w_dev w3) ltac:(lia)). lia.
Qed.
Lemma gate_seen name wa wb : wait_port_unbridged name 15000 wa = (Val true, wb) -> seen_off name wa wb.
Proof.
  unfold wait_port_unbridged. intros E. apply bind_val in E as (oid & w1 & Eo & E). exists oid, w1. split; [done|].
  destruct (nonempty oid); cbn [negb] in E; [|by injection E].
  unfold bridge_port_of in E. rewrite bind_assoc in E. apply bind_val in E as (keys & w2 & Ek & E). exists keys, w2. split; [done|].
  apply bind_val in E as (bp & w3 & Ef & E). apply each_first in Ef. destruct bp as [k|]; [|left; injection E as <-; done].
  right. destruct Ef as (before & after & w4 & -> & Hb & Hk). apply poll_until_last in E as (w5 & Ht & E); [|lia|].
  2:{ unfold left_l2, no_l2_membership. total_go. }
  exists before, k, after, w4, w3, w5. split_and!; [done..|]. unfold left_l2, has_keys in E. rewrite bind_assoc in E.
  apply bind_val in E as (there & w6 & Eh & E). exists there, w6. split; [done|]. destruct there as [|x there]; [by injection E|].
  unfold bind at 1, ret at 1 in E. cbn [negb] in E. unfold no_l2_membership in E. apply bind_val in E as (members & w7 & Em & E).
  exists members, w7. split; [done | by apply each_all].
Qed.

(** the loopback of the port was enabled right after it was seen off the
    bridge *)
Definition behind_gate (p : Port) (w' : World) : Prop :=
  exists wa wb, seen_off (p_name p) wa wb /\ on_lb p wb = None /\ enable p None false true wb = (Val tt, w').

(** C22: the gate in front of a routed port's loopback.  The factory of the L3
    fixtures always ends.  Either it returns the port, and its loopback was
    enabled straight after a look at ASIC_DB in which no bridge port belonged
    to the port, its bridge port had gone, or no VLAN member's reference was
    the last part of the bridge port's key (a port that has no object id
    cannot be judged and passes); or it raises, as it does when a bridge port
    stays to the time limit, and the port is not in loopback.  The loopback a
    previous test left on the port is gone either way.  ([gate_blind]: the
    last look never holds a port back, because references are whole ids.) *)
Theorem loopback_gated name cidr b w : bcm_of lb_dut (port_named name) = Val b -> dwf (lb_on (w_lb w)) ->
  exists r w', route_port topo name cidr w = (r, w') /\
    match r with
    | Val p => p = port_named name /\ behind_gate p w'
    | Exc _ => dget (port_named name) (lb_on (w_lb w')) = None
    | Hang => False
    end.
Proof.
  intros Hb Hd. unfold route_port. set (p := port_named name) in *.
  destruct (reset_lb p b (dv_text topo) true w Hb) as (r0 & w1 & E1 & Hr1 & L1).
  assert (on_lb p w1 = None) as Hoff by (unfold on_lb; rewrite L1; by apply dget_ddel_eq).
  unfold bind at 1, dut. rewrite E1. destruct r0 as [[]|e|]; [|by exists (Exc e), w1 | done]. revert w1 E1 L1 Hoff.
  intros w1 _ _. revert w1.
  change (gated p (fun q w' => q = p /\ behind_gate q w') (leave_home topo name ;;;
    config_check ("interface ip add " +:+ name +:+ " " +:+ cidr) ;;; intf_startup name ;;;
    let* off := wait_port_unbridged name 15000 in
    if negb off then raise (PytestFail ("port " +:+ name +:+ " still an ASIC bridge port before loopback enable"))
    else enable p None false true ;;; ret p)).
  apply gated_seq; [apply total_leave | apply same_lb_leave | intros _].
  apply gated_seq; [apply total_config | apply same_lb_config | intros _].
  apply gated_seq; [apply total_intf_startup | apply same_lb_intf_startup | intros _].
  intros w1 Hoff. destruct (total_unbridged name 15000) as [Ht _]. specialize (Ht w1).
  pose proof (same_lb_unbridged name 15000 w1) as Hs. unfold same_lb in Hs. unfold bind at 1.
  destruct (wait_port_unbridged name 15000 w1) as [[off|e|] w2] eqn:E2; cbn [fst snd] in *; [| |done].
  2: { exists (Exc e), w2. unfold on_lb. by rewrite Hs. }
  assert (on_lb p w2 = None) as Hoff2 by (unfold on_lb; by rewrite Hs).
  destruct off; cbn [negb]; [|by eexists _, w2].
  destruct (enable_lb p None false true b w2 Hb) as (w3 & E3 & _). rewrite (bind_step _ _ _ _ _ E3).
  exists (Val p), w3. split; [done|]. split; [done|]. exists w1, w2. split; [by apply gate_seen | done].
Qed.
End Gate.

(** the last part of a key holds no colon, and an id of ASIC_DB holds one *)
Lemma last_part_plain s : str_forall (not_char ":") (List.last (split_on ":"%char s) "") = true.
Proof.
  pose proof (split_on_none ":"%char) as Hn. induction s as [|c s IH]; [done|]. cbn [split_on].
  destruct (Ascii.eqb_spec c ":") as [->|Hc].
  - pose proof (split_on_nonnil ":"%char s). by destruct (split_on ":"%char s).
  - destruct (split_on ":"%char s) as [|x [|y l]]; cbn in *; [|by apply Ascii.eqb_neq in Hc; unfold not_char at 1; rewrite Hc|done].
    unfold not_char. apply Ascii.eqb_neq in Hc. by rewrite Hc.
Qed.
(** so a bridge port that stays with its members passes the gate: when every
    member's reference is an id, such as oid:0x3a, none is found *)
Lemma gate_blind `{Device} `{ShellEnv} bp w members w1 :
  db_keys "ASIC_DB" VLAN_MEMBERS w = (Val members, w1) ->
  (forall m w, m ∈ members -> exists v w', hget "ASIC_DB" m of_bridge_port w = (Val v, w') /\
     match v with Some s => str_forall (not_char ":") s = false | None => True end) ->
  exists w', no_l2_membership bp w = (Val true, w').
Proof.
  intros Ek Hm. unfold no_l2_membership. rewrite (bind_step _ _ _ _ _ Ek). clear Ek. revert w1 Hm.
  induction members as [|m members IH]; intros w1 Hm; [by exists w1|]. cbn [all_m].
  destruct (Hm m w1) as (v & w2 & E & Hv); [by left|]. rewrite bind_assoc, (bind_step _ _ _ _ _ E).
  unfold bind at 1, ret at 1. rewrite bool_decide_false; [cbn [negb]; apply IH; intros; apply Hm; by right|].
  intros ->. by rewrite last_part_plain in Hv.
Qed.

(** ** Examples *)

Definition some_port : Port := mkPort "Ethernet0" (Some "cd1") None true.

(** a test that isolates a port in loopback and raises before it undoes that;
    the chip is told to put everything back *)
Lemma guard_clean_witness :
  let w := @world quiet_device 0 cli_init in
  let w' := snd (@lb_run quiet_device plain_shell serial no_bcm_env toy_lb (LbFloodSafe some_port 3990) w) in
  dget some_port (lb_on (w_lb w')) = Some ("mac", false) /\
  @guard_cmds serial no_bcm_env toy_lb (w_lb w') = ["pvlan set cd1 1000"; "vlan destroy 3990"; "port all lb=none"] /\
  exists w2 reads, @per_test_lb_guard quiet_device plain_shell serial no_bcm_env toy_lb w' = (Val tt, w2) /\
    lb_on (w_lb w2) = [] /\ lb_flood_safe (w_lb w2) = [] /\
    w_trace w2 = w_trace w' ++ map (@diag_call serial no_bcm_env toy_lb) (@guard_cmds serial no_bcm_env toy_lb (w_lb w')) ++ reads.
Proof.
  intros w w'. split; [vm_compute; reflexivity|]. split; [vm_compute; reflexivity|].
  destruct (@guard_clean quiet_device plain_shell serial no_bcm_env toy_lb _ w w') as (w2 & E & Ho & Hf & _ & _ & _ & Hl);
    [done | done | done | eapply run_lb; [apply surjective_pairing | apply run_done] |].
  destruct (Hl plain_live) as (reads & T & _). exists w2, reads. split; [exact E|]. split; [exact Ho|]. split; [exact Hf | exact T].
Defined.

Definition routed_topo : Topology := mkTopo []
  [("c", VDict [("dut", VStr "10.0.0.1"); ("prefix", VInt 24); ("peer", VStr "10.0.0.2")]);
   ("d", VDict [("dut", VStr "10.0.1.1"); ("prefix", VInt 24); ("peer", VStr "10.0.1.2")]);
   ("e", VDict [("dut", VStr "10.0.2.1"); ("prefix", VInt 24); ("peer", VStr "10.0.2.2")])]
  [] [] [] [] [] 1000 1000 [] [("loopback", VBool true)]
  [("c", port_named "Ethernet0"); ("d", port_named "Ethernet4"); ("g", port_named "Ethernet8")].

(** a switch on which the one bridge port belongs to another port *)
Definition routed_switch : Device := table_device (fun c =>
  if contains "COUNTERS_PORT_NAME_MAP" c then ok_out "oid:0x1"
  else if contains "KEYS 'ASIC_STATE:SAI_OBJECT_TYPE_BRIDGE_PORT:*'" c then ok_out "ASIC_STATE:SAI_OBJECT_TYPE_BRIDGE_PORT:oid:0x3a"
  else if contains "HGETALL 'ASIC_STATE:SAI_OBJECT_TYPE_BRIDGE_PORT:oid:0x3a'" c then ok_out (of_port +:+ s1 lf +:+ "oid:0x2")
  else ok_out "").
Lemma loopback_gated_witness :
  let w := @world routed_switch 0 cli_init in
  let p := port_named "Ethernet0" in
  (exists w' wa wb, @route_port routed_switch plain_shell serial no_bcm_env toy_lb routed_topo "Ethernet0" "10.0.0.1/24" w = (Val p, w') /\
     @seen_off routed_switch plain_shell "Ethernet0" wa wb /\
     @enable routed_switch plain_shell serial no_bcm_env toy_lb p None false true wb = (Val tt, w'))
  /\ fst (@db routed_switch plain_shell "COUNTERS_DB" "HGET COUNTERS_PORT_NAME_MAP Ethernet0" w) = Val "oid:0x1".
Proof.
  intros w p. split; [|vm_compute; reflexivity].
  destruct (@loopback_gated routed_switch plain_shell serial no_bcm_env toy_lb _ routed_topo
    "Ethernet0" "10.0.0.1/24" "cd-1" w) as (r & w' & E & Hr); [vm_compute; reflexivity | apply dwf_nil |].
  assert (match fst (@route_port routed_switch plain_shell serial no_bcm_env toy_lb routed_topo "Ethernet0" "10.0.0.1/24" w) with
          | Val _ => true | _ => false end = true) as Hv by (vm_compute; reflexivity).
  rewrite E in Hv. destruct r as [q|e|]; [|discriminate Hv..]. destruct Hr as (-> & wa & wb & Hs & _ & He).
  exists w', wa, wb. split; [exact E|]. split; [exact Hs | exact He].
Defined.

(** a port that is a member of VLAN 1000 passes all the same *)
Definition bridged_switch : Device := table_device (fun c =>
  if contains "COUNTERS_PORT_NAME_MAP" c then ok_out "oid:0x1"
  else if contains "KEYS 'ASIC_STATE:SAI_OBJECT_TYPE_BRIDGE_PORT:" c then ok_out "ASIC_STATE:SAI_OBJECT_TYPE_BRIDGE_PORT:oid:0x3a"
  else if contains "HGETALL 'ASIC_STATE:SAI_OBJECT_TYPE_BRIDGE_PORT:oid:0x3a'" c then ok_out (of_port +:+ s1 lf +:+ "oid:0x1")
  else if contains "KEYS 'ASIC_STATE:SAI_OBJECT_TYPE_VLAN_MEMBER:" c then ok_out "ASIC_STATE:SAI_OBJECT_TYPE_VLAN_MEMBER:oid:0x27"
  else if contains "HGETALL 'ASIC_STATE:SAI_OBJECT_TYPE_VLAN_MEMBER:oid:0x27'" c then ok_out (of_bridge_port +:+ s1 lf +:+ "oid:0x3a")
  else ok_out "").
Example ex_bridged_passes :
  let w := @world bridged_switch 0 cli_init in
  fst (@hget bridged_switch plain_shell "ASIC_DB" "ASIC_STATE:SAI_OBJECT_TYPE_VLAN_MEMBER:oid:0x27" of_bridge_port w) = Val (Some "oid:0x3a")
  /\ fst (@wait_port_unbridged bridged_switch plain_shell "Ethernet0" 15000 w) = Val true.
Proof. split; vm_compute; reflexivity. Qed.

(** a test that only isolates a port does not set the flag: the guard leaves
    the isolation behind *)
Example ex_isolation_escapes :
  let w := snd (@isolate_pvid toy_chip plain_shell serial no_bcm_env toy_lb some_port 3990 (@world toy_chip (∅, 0) cli_init)) in
  let w2 := snd (@per_test_lb_guard toy_chip plain_shell serial no_bcm_env toy_lb w) in
  dkeys (lb_flood_safe (w_lb w2)) = [some_port].
Proof. vm_compute. reflexivity. Qed.

(** the shared L3 base fails at its second port: no tear-down runs, the first
    port stays held in loopback and the guard leaves it alone *)
Definition no_second_address : Device := table_device (fun c =>
  if contains "ip add Ethernet4" c then Exited 1 "" "refused" else ok_out "").
Definition dataplane_lane : LaneEnv := {| fvt_lane := None |}.
Example ex_half_base :
  let r := @l3net_setup no_second_address plain_shell serial no_bcm_env toy_lb dataplane_lane routed_topo
             (@world no_second_address 0 cli_init) in
  let w2 := snd (@per_test_lb_guard no_second_address plain_shell serial no_bcm_env toy_lb (snd r)) in
  (exists e, fst r = Exc e) /\ dkeys (lb_on (w_lb w2)) = [port_named "Ethernet0"] /\
  dkeys (lb_held (w_lb w2)) = [port_named "Ethernet0"].
Proof. vm_compute. eauto. Qed.

(** the default VLAN 1 is found in the PVID line of VLAN 1000 *)
Example ex_vlan1_home :
  fst (@pvid_is (table_device (fun _ => ok_out "Port cd1 default VLAN is 1000")) plain_shell serial no_bcm_env toy_lb "cd1" "1"
        (@world (table_device _) 0 cli_init)) = Val true.
Proof. vm_compute. reflexivity. Qed.
