(* ===== verification/SentinelReport.v ===== *)
(** * The report of the contamination analyzer (tools/analyze_sentinel.py)

    What [main] prints for a session's records: the baseline lines as they are
    read, then the four sections over the replay of the events. *)

From S2P Require Import Prelude PyStr PyStrFacts Device Dut Topology Sentinel.

(** [sorted(l, key=f)] for a key that is a text: stable *)
Fixpoint insert_on {A} (f : A -> string) (x : A) (l : list A) : list A :=
  match l with
  | [] => [x]
  | y :: l' => if String.leb (f x) (f y) then x :: l else y :: insert_on f x l'
  end.
Definition sort_on {A} (f : A -> string) (l : list A) : list A := fold_right (insert_on f) [] l.

(** [Counter(l)] and its [most_common()]: by count, the first seen first *)
Definition counter (l : list string) : pydict string Z :=
  fold_left (fun d k => dset k (default 0 (dget k d) + 1) d) l [].
Definition most_common (d : pydict string Z) : list (string * Z) := sort_by (fun x => - snd x) d.

Definition baseline_line (l : ReportLine) : option string :=
  match l with
  | RBaseline keys fdb neigh => Some ("baseline: " +:+ zs keys +:+ " cfg keys, fdb=" +:+ zs fdb +:+ ", neigh=" +:+ zs neigh)
  | _ => None
  end.
Definition leak_line (x : string * string) : string := "  " +:+ ljust 45 (fst x) +:+ "  created by  " +:+ snd x.
Definition cross_line (c : Cross) : string :=
  match c with
  | CrossModule k c r => "  " +:+ ljust 40 k +:+ "  " +:+ mod_of c +:+ "  ->removed in->  " +:+ mod_of r
  | RemovedBaseline k r => "  " +:+ ljust 40 k +:+ "  removed-baseline-key: removed by " +:+ r
  end.
(** the levels printed with a storm are those of its record *)
Definition storm_line (l : ReportLine) : option string :=
  match l with
  | RLeak r =>
      if (4 <? r_dfdb r) || (4 <? r_dneigh r)
      then Some ("  " +:+ r_node r +:+ "  dfdb=+" +:+ zs (r_dfdb r) +:+ " (fdb=" +:+ zs (r_fdb r) +:+ ")  dneigh=+" +:+ zs (r_dneigh r)
                 +:+ " (neigh=" +:+ zs (r_neigh r) +:+ ")")
      else None
  | _ => None
  end.
Definition benign_modules (b : list (string * (string * string))) : list (string * Z) :=
  most_common (counter (map (fun x => mod_of (fst (snd x))) b)).
Definition heading (title : string) (n : nat) (tail : string) : string := s1 lf +:+ "=== " +:+ title +:+ " : " +:+ ns n +:+ tail +:+ " ===".
Definition analyzer_lines (report : list ReportLine) : list string :=
  let a := replay (events report) in
  let leaks := a_out a in
  omap baseline_line report
  ++ heading "TRUE-LEAK (added, never removed until end)" (length leaks) "" :: map leak_line (sort_on snd leaks)
  ++ heading "CROSS-MODULE (added in A, removed in B)" (length (a_cross a)) "" :: map cross_line (a_cross a)
  ++ heading "STORM (dfdb/dneigh > 4)" (length (storms report)) "" :: omap storm_line report
  ++ heading "BENIGN module-scoped churn" (length (a_benign a)) " keys (created+removed same file)"
  :: map (fun x => "  " +:+ fst x +:+ ": " +:+ zs (snd x)) (benign_modules (a_benign a)).

Lemma sort_on_perm {A} (f : A -> string) l : sort_on f l ≡ₚ l.
Proof.
  induction l as [|x l IH]; [done|]. cbn [sort_on fold_right]. fold (sort_on f l). rewrite <- IH at 2. clear IH.
  induction (sort_on f l) as [|y m IH]; [done|]. cbn [insert_on]. destruct (String.leb _ _); [done|]. by rewrite IH, Permutation_swap.
Qed.
(** every leak of the replay has its line, and a storm's line is printed for
    each storm counted *)
Lemma leak_lines_exact report : map leak_line (sort_on snd (true_leak (events report))) ≡ₚ map leak_line (true_leak (events report)).
Proof. by rewrite sort_on_perm. Qed.
Lemma storm_lines_counted report : length (omap storm_line report) = length (storms report).
Proof.
  unfold storms. induction report as [|l report IH]; [done|]. destruct l as [| r |]; cbn [omap list_omap storm_line]; [done | | done].
  destruct ((4 <? r_dfdb r) || (4 <? r_dneigh r)); cbn [length]; by rewrite IH.
Qed.
(** the counts of the modules add up to the number of the heading *)
Lemma counter_total l : fold_right (fun x s => snd x + s) 0 (counter l) = Z.of_nat (length l).
Proof.
  unfold counter. induction l as [|k l IH] using rev_ind; [done|]. rewrite fold_left_app, length_app. cbn [fold_left length].
  set (d := fold_left (fun d k => dset k (default 0 (dget k d) + 1) d) l []) in *. rewrite Nat2Z.inj_add, <- IH. clearbody d. clear IH.
  assert (forall v, fold_right (fun x s => snd x + s) 0 (dset k v d) = fold_right (fun x s => snd x + s) 0 d - default 0 (dget k d) + v) as H; [|rewrite H; lia].
  intros v. induction d as [|[k' n] d IH]; cbn [dset dget]; [cbn; lia|].
  destruct (decide (k = k')) as [->|Hne]; cbn [fold_right snd]; [change (default 0 (Some n)) with n; lia|]. rewrite IH. lia.
Qed.
Lemma benign_total b : fold_right (fun x s => snd x + s) 0 (benign_modules b) = Z.of_nat (length b).
Proof.
  unfold benign_modules, most_common. rewrite <- (length_map (fun x => mod_of (fst (snd x))) b), <- counter_total.
  induction (counter _) as [|x d IH]; [done|]. cbn [sort_by fold_right]. fold (sort_by (fun x : string * Z => - snd x) d). rewrite <- IH. clear IH.
  induction (sort_by _ d) as [|y m IH]; [done|]. cbn [insert_by]. destruct (_ <=? _); cbn [fold_right]; lia.
Qed.
