(* ===== verification/SentinelFile.v ===== *)
(** * The sentinel's report file (framework/sentinel.py, tools/analyze_sentinel.py)

    The sentinel appends a line of JSON for each record; the analyzer reads
    the file line by line.  Between the two is text: what the analyzer works
    on is what the sentinel recorded. *)

From S2P Require Import Prelude PyStr PyStrFacts PyVal JsonFacts Device Dut Topology Sentinel SentinelReport.

(** ** Writing *)

Definition strs (l : list string) : pyval := VList (map VStr l).
(** [json.dumps] of a record *)
Definition record_json (l : ReportLine) : pyval :=
  match l with
  | RBaseline keys fdb neigh =>
      VDict [("event", VStr "baseline"); ("cfg_keys", VInt keys); ("fdb", VInt fdb); ("neigh", VInt neigh)]
  | RLeak r =>
      VDict ([("nodeid", VStr (r_node r)); ("added", strs (r_added r)); ("removed", strs (r_removed r));
              ("fdb", VInt (r_fdb r)); ("dfdb", VInt (r_dfdb r)); ("neigh", VInt (r_neigh r)); ("dneigh", VInt (r_dneigh r))]
             ++ match r_watched r with
                | [] => []
                | ws => [("watched_changed", VDict (map (fun w => (fst w, VDict [("was", VStr (fst (snd w))); ("now", VStr (snd (snd w)))])) ws))]
                end)
  | RHeal n ports => VDict [("event", VStr "heal"); ("nodeid", VStr n); ("ports", strs ports)]
  end.
Definition record_line (l : ReportLine) : string := json_line (record_json l) +:+ s1 lf.
Definition report_text (report : list ReportLine) : string := join "" (map record_line report).

(** ** Reading *)

(** the lines of a text file: a line feed, a carriage return or both *)
Fixpoint file_lines_go (s cur : string) : list string :=
  match s with
  | "" => if nonempty cur then [cur] else []
  | String c s' =>
      if Ascii.eqb c lf then cur :: file_lines_go s' ""
      else if Ascii.eqb c cr then
        cur :: match s' with String d s'' => if Ascii.eqb d lf then file_lines_go s'' "" else file_lines_go s' "" | "" => [] end
      else file_lines_go s' (cur +:+ s1 c)
  end.
Definition file_lines (s : string) : list string := file_lines_go s "".

(** [rec[k]], [rec.get(k, dflt)] *)
Definition rec_field (k : string) (d : pydict string pyval) : outcome pyval :=
  match dget k d with Some v => Val v | None => Exc (KeyError k) end.
Definition field_or (k : string) (dflt : pyval) (d : pydict string pyval) : pyval := default dflt (dget k d).

(** the shapes of the fields *)
Definition as_int (v : pyval) : outcome Z := match v with VInt z => Val z | _ => Exc (TypeError "int") end.
Definition as_str (v : pyval) : outcome string := match v with VStr s => Val s | _ => Exc (TypeError "str") end.
Fixpoint all_strs (l : list pyval) : outcome (list string) :=
  match l with
  | [] => Val []
  | VStr s :: l' => obind (all_strs l') (fun r => Val (s :: r))
  | _ => Exc (TypeError "str")
  end.
Definition as_strs (v : pyval) : outcome (list string) := match v with VList l => all_strs l | _ => Exc (TypeError "list") end.

(** a record as the analyzer sees it: a heal line has no keys and no growth *)
Definition read_record (d : pydict string pyval) : outcome ReportLine :=
  if bool_decide (dget "event" d = Some (VStr "baseline")) then
    obind (obind (rec_field "cfg_keys" d) as_int) (fun keys =>
    obind (obind (rec_field "fdb" d) as_int) (fun fdb =>
    obind (obind (rec_field "neigh" d) as_int) (fun neigh => Val (RBaseline keys fdb neigh))))
  else
    obind (obind (rec_field "nodeid" d) as_str) (fun nid =>
    obind (as_strs (field_or "added" (VList []) d)) (fun added =>
    obind (as_strs (field_or "removed" (VList []) d)) (fun removed =>
    obind (as_int (field_or "dfdb" (VInt 0) d)) (fun dfdb =>
    obind (as_int (field_or "dneigh" (VInt 0) d)) (fun dneigh =>
    obind (as_int (field_or "fdb" (VInt 0) d)) (fun fdb =>
    obind (as_int (field_or "neigh" (VInt 0) d)) (fun neigh =>
    Val (RLeak (mkLeak nid added removed fdb dfdb neigh dneigh []))))))))).

(** a line of the file, stripped *)
Definition read_line (l : string) : outcome (list ReportLine) :=
  let l := strip l in
  if negb (nonempty l) then Val []
  else match json_loads l with
       | None => Exc (ValueError l)
       | Some (VDict d) => obind (read_record d) (fun r => Val [r])
       | Some _ => Exc (AttributeError "get")
       end.
Fixpoint read_lines (ls : list string) : outcome (list ReportLine) :=
  match ls with
  | [] => Val []
  | l :: ls' => obind (read_line l) (fun r => obind (read_lines ls') (fun rs => Val (r ++ rs)))
  end.
Definition read_report (text : string) : outcome (list ReportLine) := read_lines (file_lines text).

(** [main]: what is printed *)
Definition analyzer_main (text : string) : outcome (list string) :=
  obind (read_report text) (fun report => Val (analyzer_lines report)).

(** ** What is written is read *)

(** what is left of a record once it is read: a heal line is an event without
    keys, and the watched fields are not looked at *)
Definition seen (l : ReportLine) : ReportLine :=
  match l with
  | RBaseline _ _ _ => l
  | RLeak r => RLeak (mkLeak (r_node r) (r_added r) (r_removed r) (r_fdb r) (r_dfdb r) (r_neigh r) (r_dneigh r) [])
  | RHeal n _ => RLeak (mkLeak n [] [] 0 0 0 0 [])
  end.

(** the watched keys of a record are keys of a dictionary *)
Definition record_wf (l : ReportLine) : Prop := match l with RLeak r => NoDup (map fst (r_watched r)) | _ => True end.

Lemma as_strs_strs l : as_strs (strs l) = Val l.
Proof. unfold as_strs, strs. induction l as [|s l IH]; [done|]. cbn [map all_strs]. by rewrite IH. Qed.
Lemma read_record_seen l d : record_json l = VDict d -> read_record d = Val (seen l).
Proof.
  destruct l as [keys fdb neigh | r | n ports]; cbn [record_json]; intros [= <-]; [done | | done].
  unfold read_record. set (tail := match r_watched r with [] => [] | _ => _ end).
  assert (dget "event" tail = None) as Ht by (unfold tail; by destruct (r_watched r)).
  cbn [app]. unfold rec_field, field_or. cbn [dget].
  repeat match goal with |- context [decide (?a = ?b)] => first [rewrite (decide_True (P := a = b)) by done | rewrite (decide_False (P := a = b)) by done] end.
  rewrite Ht. rewrite bool_decide_false by done. cbn [obind as_str default as_int from_option id]. by rewrite !as_strs_strs.
Qed.

(** the records are values whose text is one line *)
Lemma strs_ok l : json_ok (strs l) = true /\ no_floats (strs l) = true.
Proof. unfold strs. cbn [json_ok no_floats]. by induction l as [|s l [IH1 IH2]]. Qed.
Lemma watched_dict ws : json_ok (VDict (map (fun w => (fst w, VDict [("was", VStr (fst (snd w))); ("now", VStr (snd (snd w)))])) ws)) = bool_decide (NoDup (map fst ws))
  /\ no_floats (VDict (map (fun w => (fst w, VDict [("was", VStr (fst (snd w))); ("now", VStr (snd (snd w)))])) ws)) = true.
Proof.
  cbn [json_ok no_floats]. rewrite map_map. cbn [fst]. change (map (fun x => fst x) ws) with (map fst ws).
  split; [|by induction ws]. replace (forallb _ _) with true; [apply andb_true_r|]. symmetry. induction ws as [|w ws IH]; [done|].
  cbn [map forallb snd]. rewrite IH, andb_true_r. cbn [json_ok forallb snd andb map fst]. by rewrite bool_decide_true by (vm_compute; repeat constructor; set_solver).
Qed.
Lemma record_ok l : record_wf l -> json_ok (record_json l) = true /\ no_floats (record_json l) = true.
Proof.
  destruct l as [keys fdb neigh | r | n ports]; intros Hw; cbn [record_json].
  - by vm_compute.
  - destruct (strs_ok (r_added r)) as [Ha Ha'], (strs_ok (r_removed r)) as [Hr Hr'].
    pose proof (watched_dict (r_watched r)) as [Hd Hd']. cbn [record_wf] in Hw. rewrite bool_decide_true in Hd by done.
    destruct (r_watched r) as [|w ws].
    + cbn [json_ok no_floats forallb app snd map fst]. rewrite Ha, Ha', Hr, Hr'. by vm_compute.
    + set (W := VDict (map _ (w :: ws))) in *. clearbody W. cbn [json_ok no_floats forallb app snd map fst].
      rewrite Ha, Ha', Hr, Hr', Hd, Hd'. by vm_compute.
  - destruct (strs_ok ports) as [Hp Hp']. cbn [json_ok no_floats forallb snd map fst]. rewrite Hp, Hp'. by vm_compute.
Qed.

(** the text of a record: braces and no white space around them *)
Lemma dict_framed kv d : exists x, json_line (VDict (kv :: d)) = String "{" (x +:+ s1 "}").
Proof.
  exists (join ", " (map (member (json_print (fun _ => "") (fun _ => " ") 2)) (kv :: d))). reflexivity.
Qed.
Lemma record_dict l : exists kv d, record_json l = VDict (kv :: d).
Proof. destruct l; cbn [record_json app]; eauto. Qed.

(** a written line is the record it was written from *)
Lemma read_record_line l : record_wf l -> read_line (json_line (record_json l)) = Val [seen l].
Proof.
  intros Hw. destruct (record_dict l) as (kv & d & Hd). destruct (record_ok l Hw) as [Hok _].
  unfold read_line. pose proof (json_line_roundtrip _ Hok) as Hr. rewrite Hd in *.
  destruct (dict_framed kv d) as [x Hx]. rewrite Hx in *.
  assert (strip (String "{" (x +:+ s1 "}")) = String "{" (x +:+ s1 "}")) as -> by by apply strip_by_framed.
  cbn [nonempty negb]. rewrite Hr. by rewrite (read_record_seen l _ Hd).
Qed.

Lemma file_lines_step c s cur : not_newline c = true -> file_lines_go (String c s) cur = file_lines_go s (cur +:+ s1 c).
Proof. unfold not_newline. intros [H1%negb_true_iff H2%negb_true_iff]%andb_true_iff. unfold file_lines_go at 1. by rewrite H1, H2. Qed.
Lemma file_line l rest : forall cur, str_forall not_newline l = true -> file_lines_go (l +:+ String lf rest) cur = (cur +:+ l) :: file_lines_go rest "".
Proof.
  induction l as [|c l IH]; intros cur; cbn [str_forall String.append].
  - intros _. by rewrite sapp_nil_r.
  - intros [Hc Hl]%andb_true_iff. change (String c l +:+ ?x) with (String c (l +:+ x)). rewrite file_lines_step, IH by done. by rewrite sapp_assoc.
Qed.
Lemma file_lines_report report : Forall record_wf report ->
  file_lines (report_text report) = map (fun l => json_line (record_json l)) report.
Proof.
  unfold file_lines, report_text. induction 1 as [|l report Hw Hr IH]; [done|]. cbn [map].
  replace (join "" (record_line l :: map record_line report)) with (record_line l +:+ join "" (map record_line report))
    by (destruct report; [apply sapp_nil_r | by rewrite join_cons]).
  unfold record_line at 1. rewrite sapp_assoc. change (s1 lf +:+ ?x) with (String lf x).
  destruct (record_ok l Hw) as [_ Hn]. rewrite file_line by (by apply json_line_newline). by rewrite IH.
Qed.

Lemma read_report_seen report : Forall record_wf report -> read_report (report_text report) = Val (map seen report).
Proof.
  intros Hw. unfold read_report. rewrite file_lines_report by done. induction Hw as [|l report Hl Hw IH]; [done|].
  cbn [map read_lines]. rewrite read_record_line by done. cbn [obind]. by rewrite IH.
Qed.

(** reading loses nothing the analysis uses *)
Lemma seen_events report : events (map seen report) = events report.
Proof. unfold events. induction report as [|[] report IH]; cbn [map omap list_omap seen event_of]; by rewrite ?IH. Qed.
Lemma seen_lines report : analyzer_lines (map seen report) = analyzer_lines report.
Proof.
  unfold analyzer_lines. rewrite seen_events.
  assert (omap baseline_line (map seen report) = omap baseline_line report) as ->
    by (induction report as [|[] report IH]; cbn [map omap list_omap seen baseline_line]; by rewrite ?IH).
  assert (omap storm_line (map seen report) = omap storm_line report) as ->
    by (induction report as [|[] report IH]; cbn [map omap list_omap seen storm_line r_dfdb r_dneigh r_fdb r_neigh r_node Z.ltb Z.compare orb]; by rewrite ?IH).
  do 6 f_equal. assert (length (storms (map seen report)) = length (storms report)) as ->; [|done].
  unfold storms. induction report as [|[] report IH]; cbn [map omap list_omap seen r_dfdb r_dneigh]; [done | done | | exact IH].
  destruct (_ || _); cbn [length]; by rewrite IH.
Qed.

(** The analyzer, run on the file the sentinel wrote, prints the analysis of
    the sentinel's records. *)
Lemma analyzer_reads report : Forall record_wf report -> analyzer_main (report_text report) = Val (analyzer_lines report).
Proof. intros Hw. unfold analyzer_main. rewrite read_report_seen by done. cbn [obind]. by rewrite seen_lines. Qed.
