(* ===== verification/Session.v ===== *)
(** * A session of tests (the hooks of src/conftest.py)

    One test after another: the guards around it, whatever it does and however
    it ends, and the contamination sentinel's look at the device once all its
    finalizers have run; and what is written down at the end of the session.
    pytest itself is reduced to this: it reports the outcome of a test and goes
    on, unless the outcome is [pytest.exit]'s. *)

From S2P Require Import Prelude PyStr PyStrFacts PyVal Device DeviceFacts Toy CliParse Cli CliFacts CliFrame Worker Sentinel Profile Dut Topology SentinelReport JsonFacts SentinelFile Loopback Obj LoopbackFacts ConfigStore Hygiene Traffic L3 L3Facts Links Fixtures FixturesFacts.

(** ** The summary at the end ([pytest_terminal_summary]) *)

(** the text appended to the record of the run, when its file can be written,
    and the lines of the terminal; [failed] holds the failed tests and the texts
    of their reports, [dir] is the directory of the tests *)
Definition terminal_summary `{WorkerEnv} `{SentinelEnv} (dir : string) (writable : bool) (failed : list (string * string))
    (st : SentState) : outcome (option string * list string) :=
  obind (run_record failed) (fun block =>
  Val (match block with
       | None => (None, [])
       | Some _ =>
           (if writable then block else None,
            (if writable then ["[device-issues] recorded " +:+ ns (length failed) +:+ " entries to " +:+ dir +:+ "/" +:+ issues_file fvt_worker] else [])
            ++ summary_lines st)
       end)).

(** ** The session *)

(** a test: its node id, and all its set-ups and its call *)
Record TestItem `{Device} := mkItem { ti_node : string; ti_run : M unit }.

Section Session.
Context `{Device} `{ShellEnv} `{CliEnv} `{WorkerEnv} `{DutEnv} `{LbEnv} `{SentinelEnv} `{LaneEnv}.
Variable topo : Topology.

(** an outcome is reported, and the run goes on *)
Definition reported {A} (dflt : A) (m : M A) : M A := fun w =>
  match m w with
  | (Exc (PytestExit x), w') => (Exc (PytestExit x), w')
  | (Exc _, w') => (Val dflt, w')
  | r => r
  end.

(** [pytest_runtest_teardown], after the finalizers *)
Definition runtest_teardown (st : SentState) (nodeid : string) : M SentState :=
  if sentinel_on then try_except (check_after_test st nodeid) (fun _ => ret st) else ret st.

(** a test between its guards; the hook comes last *)
Definition test_protocol (st : SentState) (it : TestItem) : M SentState :=
  let* st1 := reported st
    (let* g := port_guard_setup topo in
     reported tt (ti_run it) ;;;
     port_guard_teardown topo g st (ti_node it)) in
  reported tt per_test_lb_guard ;;;
  runtest_teardown st1 (ti_node it).

Fixpoint run_session (st : SentState) (tests : list TestItem) : M SentState :=
  match tests with
  | [] => ret st
  | it :: rest => let* st' := test_protocol st it in run_session st' rest
  end.
End Session.

(** ** What the database's client owes the sentinel *)

(** the read-only commands of a snapshot besides the one that lists the keys *)
Definition LIST_KEYS : string := "sonic-db-cli CONFIG_DB KEYS '*'".
Definition snapshot_reads : list string :=
  ["sonic-db-cli ASIC_DB KEYS 'ASIC_STATE:SAI_OBJECT_TYPE_FDB_ENTRY:*'";
   "sonic-db-cli ASIC_DB KEYS 'ASIC_STATE:SAI_OBJECT_TYPE_NEIGHBOR_ENTRY:*'"]
  ++ map (fun k => "sonic-db-cli CONFIG_DB HGETALL '" +:+ k +:+ "'") WATCHED_KEYS.

Class KeyStore `{Device} (rows : dev -> gset string) : Prop := {
  (** the command that lists the keys prints each on a line of its own *)
  ks_keys : forall d, exists o d' ks, dev_exec (Call None LIST_KEYS 30000 None) d = (Exited 0 o "", d')
    /\ rows d' = rows d /\ rstrip_chars (s1 lf) o = join (s1 lf) ks /\ Forall (fun k => line k = true) ks
    /\ forall k, k ∈ rows d <-> k ∈ ks;
  ks_read : forall c d, c ∈ snapshot_reads -> rows (snd (dev_exec (Call None c 30000 None) d)) = rows d
}.

(** the keys the fingerprint leaves out *)
Definition volatile (k : string) : bool := existsb (fun p => starts p k) VOLATILE_PREFIXES.

Section Snapshots.
Context `{Device} `{ShellEnv} `{!LiveShell} (rows : dev -> gset string) `{!KeyStore rows}.

Definition keeps_rows {A} (m : M A) : Prop := forall w, exists a w', m w = (Val a, w') /\ rows (w_dev w') = rows (w_dev w).

Lemma spares_bind {A B} (m : M A) (k : A -> M B) : keeps_rows m -> (forall a, keeps_rows (k a)) -> keeps_rows (let* a := m in k a).
Proof.
  intros Hm Hk w. destruct (Hm w) as (a & w1 & E1 & R1). destruct (Hk a w1) as (b & w2 & E2 & R2).
  exists b, w2. rewrite (bind_step _ _ _ _ _ E1). split; [done | congruence].
Qed.
Lemma spares_ret {A} (a : A) : keeps_rows (ret a).
Proof. intros w. by exists a, w. Qed.
Lemma keeps_read c : c ∈ snapshot_reads -> keeps_rows (sh_run c).
Proof.
  intros Hc w. unfold sh_run. destruct (run_live c None 30000 None w) as (r & d & E). rewrite E. eexists _, _. split; [done|].
  revert E. rewrite run_full_native. unfold run_native. rewrite live. unfold bind, subprocess. pose proof (ks_read c (w_dev w) Hc) as Hr.
  destruct (dev_exec _ (w_dev w)) as [[rc o e|o] d']; cbn [snd] in Hr; intros [= _ <-]; exact Hr.
Qed.
Lemma keeps_map_m {A B} (f : A -> M B) l : (forall x, x ∈ l -> keeps_rows (f x)) -> keeps_rows (map_m f l).
Proof.
  induction l as [|x l IH]; intros Hf; [apply spares_ret|]. cbn [map_m]. apply spares_bind; [apply Hf; left|]. intros y.
  apply spares_bind; [apply IH; intros z Hz; apply Hf; by right|]. intros ys. apply spares_ret.
Qed.

Lemma keys_cfg w : exists ks w', sent_keys "CONFIG_DB" "*" w = (Val ks, w') /\ rows (w_dev w') = rows (w_dev w)
  /\ forall k, k ∈ ks <-> k ∈ rows (w_dev w) /\ volatile k = false.
Proof.
  destruct (ks_keys (w_dev w)) as (o & d & ks & E & Hr & Hj & Hl & Hk). unfold sent_keys, sh_run. change ("sonic-db-cli " +:+ "CONFIG_DB" +:+ " KEYS '" +:+ "*" +:+ "'") with LIST_KEYS.
  rewrite (bind_step _ _ _ _ _ (run_ok _ _ false _ _ _ _ _ _ E)). eexists _, _. split; [done|]. split; [done|]. intros k.
  rewrite elem_of_list_to_set, list_elem_of_In, filter_In, <- list_elem_of_In, Hk. unfold volatile.
  cbn [out result]. rewrite andb_true_iff, negb_true_iff. rewrite Hj, splitlines_join by done.
  assert (k ∈ ks -> nonempty k = true) as Hne by (intros Hin; rewrite Forall_forall in Hl; specialize (Hl k Hin); by apply andb_true_iff in Hl as [? _]).
  tauto.
Qed.

(** a snapshot holds the keys of the database, and takes nothing away *)
Lemma snapshot_rows w : exists s w', snapshot w = (Val s, w') /\ rows (w_dev w') = rows (w_dev w)
  /\ forall k, k ∈ sn_cfg s <-> k ∈ rows (w_dev w) /\ volatile k = false.
Proof.
  destruct (keys_cfg w) as (ks & w1 & E1 & R1 & Hk). unfold snapshot. rewrite (bind_step _ _ _ _ _ E1).
  assert (forall (g h : gset string) wt, keeps_rows (ret (mkSnap ks (Z.of_nat (size g)) (Z.of_nat (size h)) wt))) as Hret by (intros; apply spares_ret).
  assert (forall pat, "sonic-db-cli ASIC_DB KEYS '" +:+ pat +:+ "'" ∈ snapshot_reads -> keeps_rows (sent_keys "ASIC_DB" pat)) as Hsk.
  { intros pat Hp. apply spares_bind; [by apply keeps_read | intros; apply spares_ret]. }
  destruct (Hsk "ASIC_STATE:SAI_OBJECT_TYPE_FDB_ENTRY:*" ltac:(left) w1) as (g & w2 & E2 & R2).
  destruct (Hsk "ASIC_STATE:SAI_OBJECT_TYPE_NEIGHBOR_ENTRY:*" ltac:(right; left) w2) as (h & w3 & E3 & R3).
  assert (keeps_rows watched) as Hw.
  { unfold watched. apply keeps_map_m. intros k Hin. apply spares_bind; [|intros; apply spares_ret].
    apply keeps_read. unfold snapshot_reads. apply elem_of_app. right.
    by apply (list_elem_of_fmap_2 (fun k => "sonic-db-cli CONFIG_DB HGETALL '" +:+ k +:+ "'")). }
  destruct (Hw w3) as (wt & w4 & E4 & R4).
  rewrite (bind_step _ _ _ _ _ E2), (bind_step _ _ _ _ _ E3), (bind_step _ _ _ _ _ E4).
  eexists _, w4. split; [done|]. split; [congruence | exact Hk].
Qed.

(** the watched keys of a snapshot, in their order *)
Lemma map_m_keys {B} (f : string -> M (string * B)) l : (forall k w y w', f k w = (Val y, w') -> fst y = k) ->
  forall w ys w', map_m f l w = (Val ys, w') -> map fst ys = l.
Proof.
  intros Hf. induction l as [|k l IH]; intros w ys w'; cbn [map_m]; [by intros [= <- _]|].
  intros (y & w1 & Ey & E)%bind_val. apply bind_val in E as (zs & w2 & Ez & [= <- _]). cbn [map]. by rewrite (Hf _ _ _ _ Ey), (IH _ _ _ Ez).
Qed.
Lemma snapshot_watched w s w' : snapshot w = (Val s, w') -> map fst (sn_watched s) = WATCHED_KEYS.
Proof.
  unfold snapshot. intros (cfg & w1 & _ & E)%bind_val. apply bind_val in E as (g & w2 & _ & E). apply bind_val in E as (h & w3 & _ & E).
  apply bind_val in E as (ws & w4 & E & [= <- _]). cbn [sn_watched]. eapply map_m_keys; [|exact E].
  intros k wa y wb (r & wc & _ & [= <- _])%bind_val. done.
Qed.
Lemma watched_nodup prev cur : NoDup (map fst cur) -> NoDup (map fst (watched_changes prev cur)).
Proof.
  intros Hc. eapply sublist_NoDup; [exact Hc|]. clear Hc. unfold watched_changes. induction cur as [|[k v] cur IH]; [done|].
  cbn [omap list_omap map fst]. destruct (String.eqb _ _); [by constructor|]. cbn [map fst]. by constructor.
Qed.
Lemma attribute_wf st c n s : Forall record_wf (s_report st) -> map fst (sn_watched s) = WATCHED_KEYS -> Forall record_wf (s_report (attribute st c n s)).
Proof.
  intros Hw Hs. destruct (attribute_cases st c n s) as [[_ ->]|(_ & -> & _)]; [|done].
  apply Forall_app. split; [done|]. constructor; [|done]. cbn [record_wf leak_of r_watched]. apply watched_nodup. rewrite Hs.
  apply (bool_decide_unpack _). vm_compute. exact I.
Qed.
End Snapshots.

(** ** The leak map of a session *)

Section Leaks.
Context `{Device} `{ShellEnv} `{!LiveShell} `{CliEnv} `{WorkerEnv} `{DutEnv} `{LbEnv} `{SentinelEnv} `{LaneEnv}.
Context (rows : dev -> gset string) `{!KeyStore rows}.
Variable topo : Topology.

(** the keys of the database after each test *)
Fixpoint row_log (st : SentState) (tests : list TestItem) (w : World) : list (string * gset string) :=
  match tests with
  | [] => []
  | it :: rest =>
      match test_protocol topo st it w with
      | (Val st', w') => (ti_node it, rows (w_dev w')) :: row_log st' rest w'
      | _ => []
      end
  end.

(** the state of the sentinel after the guards: as it was, or with a heal line *)
Lemma port_guard_state g st n w st' w' : port_guard_teardown topo g st n w = (Val st', w') ->
  st' = st \/ exists ps, st' = record_heal st n ps.
Proof.
  unfold port_guard_teardown. destruct (fst g); cbn [negb]; [|by intros [= <- _]; left].
  unfold try_or, try_except, bind, get_lb, ret.
  destruct (routed_role_ports topo w) as [[now|e|] w1]; [|destruct (caught e); [intros [= <- _]; by left | done] | done].
  destruct (drifted _ _ now) as [|p ps]; [intros [= <- _]; by left|].
  destruct (for_each _ _ w1) as [[u|e|] w2]; [| destruct (caught e); [intros [= <- _]; by left | done] | done].
  intros [= <- _]. right. by eexists.
Qed.

(** one test: the guards may add a line, and the hook attributes a snapshot of
    the keys the test left *)
Lemma protocol_step st it w st' w' c :
  sentinel_on = true -> s_sh st = true -> s_clean st = Some c ->
  test_protocol topo st it w = (Val st', w') ->
  exists st1 s, (st1 = st \/ exists ps, st1 = record_heal st (ti_node it) ps)
    /\ st' = attribute st1 c (ti_node it) s /\ map fst (sn_watched s) = WATCHED_KEYS
    /\ forall k, k ∈ sn_cfg s <-> k ∈ rows (w_dev w') /\ volatile k = false.
Proof.
  intros Hon Hsh Hc. unfold test_protocol. unfold bind at 1.
  set (guarded := reported st _). destruct (guarded w) as [[st1|e|] w1] eqn:Eg; [|done|done].
  assert (st1 = st \/ exists ps, st1 = record_heal st (ti_node it) ps) as Hst.
  { revert Eg. unfold guarded, reported. unfold bind at 1. destruct (port_guard_setup topo w) as [[g|[]|] wa]; try done; try (by intros [= <- _]; left).
    unfold bind. destruct (ti_run it wa) as [[u|[]|] wb]; try done;
      destruct (port_guard_teardown topo g st (ti_node it) wb) as [[s1|[]|] wc] eqn:Et; try done; intros [= <- _];
      try (by left); by eapply port_guard_state. }
  unfold bind at 1. destruct (reported tt per_test_lb_guard w1) as [[u|e|] w2]; [|done|done].
  unfold runtest_teardown. rewrite Hon. unfold check_after_test. rewrite Hon. cbn [negb orb].
  assert (s_sh st1 = true /\ s_clean st1 = Some c) as [-> ->] by (destruct Hst as [->|[ps ->]]; done). cbn [negb].
  destruct (snapshot_rows rows w2) as (s & w3 & Es & Rs & Hs). unfold try_except, bind. rewrite Es. intros [= <- <-].
  exists st1, s. split; [done|]. split; [done|]. split; [by eapply snapshot_watched | by rewrite Rs].
Qed.

Lemma tested_inv tests : forall st w st' w' c0 l,
  sentinel_on = true -> s_sh st = true -> leaks_inv c0 l st -> Forall record_wf (s_report st) ->
  run_session topo st tests w = (Val st', w') ->
  exists l', leaks_inv c0 (l ++ l') st' /\ Forall record_wf (s_report st')
    /\ Forall2 (fun p r => fst p = fst r /\ forall k, k ∈ sn_cfg (snd p) <-> k ∈ snd r /\ volatile k = false) l' (row_log st tests w)
    /\ match last (row_log st tests w) with Some r => snd r = rows (w_dev w') | None => w' = w end.
Proof.
  induction tests as [|it tests IH]; intros st w st' w' c0 l Hon Hsh Hi Hwf; cbn [run_session row_log].
  { intros [= <- <-]. exists []. rewrite app_nil_r. split; [done|]. split; [done|]. split; [constructor | done]. }
  unfold bind. destruct (test_protocol topo st it w) as [[st1|e|] w1] eqn:Et; [|done|done]. intros Hr.
  pose proof Hi as (Hc & _ & _).
  destruct (protocol_step _ _ _ _ _ _ Hon Hsh Hc Et) as (st0 & s & Hor & -> & Hws & Hs).
  assert (leaks_inv c0 l st0 /\ s_sh st0 = true /\ Forall record_wf (s_report st0)) as (Hi0 & Hsh0 & Hw0).
  { destruct Hor as [->|[ps ->]]; [done|]. split; [by apply leaks_heal|]. split; [done|]. apply Forall_app. by repeat constructor. }
  pose proof (leaks_attribute c0 l st0 (ti_node it) s Hi0) as Hi1.
  destruct (IH (attribute st0 (last_cfg c0 l) (ti_node it) s) w1 st' w' c0 (l ++ [(ti_node it, s)]) Hon Hsh0 Hi1 (attribute_wf _ _ _ _ Hw0 Hws) Hr) as (l' & Hi' & Hw' & Hf & Hl).
  exists ((ti_node it, s) :: l'). rewrite <- app_assoc in Hi'. split; [done|]. split; [done|]. split; [by constructor|].
  rewrite last_cons. destruct (last (row_log _ tests w1)); [done | by rewrite Hl].
Qed.

(** the snapshots and the rows they were taken of *)
Lemma snaps_rows l log k :
  Forall2 (fun p r => fst p = fst r /\ forall k, k ∈ sn_cfg (snd p) <-> k ∈ snd r /\ volatile k = false) l log ->
  match last l, last log with
  | Some p, Some r => k ∈ sn_cfg (snd p) <-> k ∈ snd r /\ volatile k = false
  | None, None => True
  | _, _ => False
  end
  /\ (volatile k = false ->
      (exists p, p ∈ l /\ k ∉ sn_cfg (snd p)) <-> exists r : string * gset string, r ∈ log /\ k ∉ snd r).
Proof.
  induction 1 as [|p r l log [_ Hp] Hf [IHl IHa]].
  - split; [done|]. intros _. split; intros (? & ?%not_elem_of_nil & _); done.
  - split.
    + rewrite !last_cons. destruct (last l), (last log); done || apply Hp.
    + intros Hv. specialize (IHa Hv). setoid_rewrite elem_of_cons. specialize (Hp k). split.
      * intros (q & [->|Hq] & Hk); [exists r; split; [by left | tauto]|]. destruct IHa as [IHa _].
        destruct IHa as (r' & Hr' & Hk'); eauto.
      * intros (q & [->|Hq] & Hk); [exists p; split; [by left | tauto]|]. destruct IHa as [_ IHa].
        destruct IHa as (r' & Hr' & Hk'); eauto.
Qed.

(** C12: the leak map of a session is exact about the device.  A session runs
    any tests, which do anything to the device and end in any way; the guards
    around them may heal ports and write their lines between the sentinel's.
    When it has run, the analyzer can read the sentinel's report file, and what
    it reads has a key as TRUE-LEAK if and only if the key is in CONFIG_DB now
    and was not there at the baseline or after some test; the excluded keys are
    never reported.  What the analyzer prints are the lines of that analysis. *)
Theorem session_leaks (st0 st1 st' : SentState) (tests : list TestItem) (w w1 w' : World) :
  sentinel_on = true ->
  capture_baseline st0 w = (Val st1, w1) ->
  run_session topo st1 tests w1 = (Val st', w') ->
  exists report, read_report (report_text (s_report st')) = Val report
    /\ analyzer_main (report_text (s_report st')) = Val (analyzer_lines report)
    /\ forall k, is_Some (dget k (true_leak (events report)))
         <-> volatile k = false /\ k ∈ rows (w_dev w')
             /\ (k ∉ rows (w_dev w1) \/ exists r, r ∈ row_log st1 tests w1 /\ k ∉ snd r).
Proof.
  intros Hon Hb Hr. unfold capture_baseline in Hb. rewrite Hon in Hb. cbn [negb] in Hb.
  destruct (snapshot_rows rows w) as (b & wb & Es & Rb & Hbk). rewrite (bind_step _ _ _ _ _ Es) in Hb. injection Hb as <- <-.
  assert (forall k, k ∈ sn_cfg b <-> k ∈ rows (w_dev wb) /\ volatile k = false) as Hb' by (intros; by rewrite Rb). clear Hbk Rb.
  destruct (tested_inv tests (set_baseline st0 b) wb st' w' (sn_cfg b) [] Hon eq_refl (leaks_base st0 b) ltac:(by repeat constructor) Hr)
    as (l' & (_ & _ & Hk) & Hw & Hf & Hl).
  exists (map seen (s_report st')). split; [by apply read_report_seen|].
  split; [by rewrite analyzer_reads, seen_lines|]. intros k. rewrite seen_events.
  rewrite Hk. cbn [app]. clear Hk. set (log := row_log (set_baseline st0 b) tests wb) in *. clearbody log.
  destruct (snaps_rows l' log k Hf) as [Hlast Habs].
  assert (k ∈ last_cfg (sn_cfg b) l' <-> k ∈ rows (w_dev w') /\ volatile k = false) as ->.
  { unfold last_cfg. destruct (last l'), (last log) as [r|]; try done; [by rewrite Hlast, Hl | by subst w']. }
  unfold was_absent. rewrite Hb'. split.
  - intros [[Hin Hv] Ha]. split; [done|]. split; [done|]. rewrite <- (Habs Hv). tauto.
  - intros (Hv & Hin & Ha). split; [done|]. rewrite (Habs Hv). tauto.
Qed.
End Leaks.

(** ** Examples *)

(** a device that keeps a set of keys: [add K] and [del K] change it *)
Definition key_exec (c : call) (m : gset string) : raw * gset string :=
  if String.eqb (call_cmd c) LIST_KEYS then (ok_out (join (s1 lf) (elements (filter (fun k => line k = true) m))), m)
  else if starts "add " (call_cmd c) then (ok_out "", {[str_drop 4 (call_cmd c)]} ∪ m)
  else if starts "del " (call_cmd c) then (ok_out "", m ∖ {[str_drop 4 (call_cmd c)]})
  else (ok_out "", m).
Definition key_device : Device := state_device key_exec.
Definition key_rows (d : gset string * Z) : gset string := filter (fun k => line k = true) (fst d).

#[export] Program Instance key_store : @KeyStore key_device key_rows.
Next Obligation.
  intros d. eexists _, _, (elements (key_rows d)). split; [reflexivity|]. split; [done|].
  assert (Forall (fun k => line k = true) (elements (key_rows d))) as Hl.
  { apply Forall_forall. intros k Hk%elem_of_elements. unfold key_rows in Hk. by apply elem_of_filter in Hk as [? _]. }
  split; [by apply lines_no_trailing_lf|]. split; [done|]. intros k. by rewrite elem_of_elements.
Qed.
Next Obligation.
  intros c d Hc. unfold snapshot_reads in Hc. cbn [app map WATCHED_KEYS] in Hc. rewrite !elem_of_cons in Hc.
  destruct Hc as [->|[->|[->|[->|[->|[->|[->|Hn%elem_of_nil]]]]]]]; try done.
Qed.

Definition watching : SentinelEnv := {| fvt_sentinel := "1"; sentinel_report := "/tmp/fvt_sentinel.jsonl" |}.

Definition completed {A} (o : outcome A) : bool := match o with Val _ => true | _ => false end.
Definition value_of {A} (dflt : A) (o : outcome A) : A := match o with Val a => a | _ => dflt end.
Lemma completed_val {A B} (dflt : A) (r : outcome A * B) : completed (fst r) = true -> r = (Val (value_of dflt (fst r)), snd r).
Proof. by destruct r as [[]]. Qed.

(** the first test leaves a VLAN, the second cleans up after itself and fails,
    the third removes a key of the baseline *)
Lemma session_leaks_witness :
  let run c := sh_run (H := key_device) (H0 := plain_shell) c ;;; ret tt in
  let tests := [@mkItem key_device "a.py::t1" (run "add VLAN|Vlan9");
                @mkItem key_device "a.py::t2" (run "add ACL|x" ;;; run "del ACL|x" ;;; raise (AssertionError "lost frames"));
                @mkItem key_device "b.py::t3" (run "del PORT|Ethernet0")] in
  let w := @world key_device ({["PORT|Ethernet0"; "PORT|Ethernet4"]}, 0) cli_init in
  let r1 := @capture_baseline key_device plain_shell watching sent_init w in
  let st1 := value_of sent_init (fst r1) in
  let r2 := @run_session key_device plain_shell serial no_bcm_env toy_lb watching dataplane_lane routed_topo st1 tests (snd r1) in
  let st2 := value_of sent_init (fst r2) in
  exists report, read_report (report_text (s_report st2)) = Val report /\ is_Some (dget "VLAN|Vlan9" (true_leak (events report))).
Proof.
  intros run tests w r1 st1 r2 st2.
  destruct (@session_leaks key_device plain_shell _ serial no_bcm_env toy_lb watching dataplane_lane key_rows key_store routed_topo
           sent_init st1 st2 tests w (snd r1) (snd r2)) as (report & Hread & _ & Hk).
  - reflexivity.
  - apply (completed_val sent_init r1). vm_compute. reflexivity.
  - apply (completed_val sent_init r2). vm_compute. reflexivity.
  - exists report. split; [exact Hread|]. apply Hk.
    split; [reflexivity|]. split; [|left]; apply (bool_decide_unpack _); vm_compute; exact I.
Defined.

(** The summary returns before the sentinel's brief when nothing failed: a
    session that passes says nothing of the leaks it recorded. *)
Example ex_brief_lost :
  let st := mkSent true None 0 0 [] [mkLeak "a.py::t1" ["VLAN|Vlan9"] [] 0 0 0 0 []] [] [] in
  @summary_lines watching st <> [] /\ @terminal_summary serial watching "/fvt" true [] st = Val (None, []).
Proof. split; [vm_compute; discriminate | reflexivity]. Qed.
(** A report without a text ends the summary with an exception. *)
Example ex_no_text : @terminal_summary serial watching "/fvt" true [("a.py::t1", "")] sent_init = Exc IndexError.
Proof. reflexivity. Qed.
Example ex_summary :
  @terminal_summary serial watching "/fvt" true
    [("a.py::t1", "def t1():" +:+ s1 lf +:+ "  E Device issue: orchagent" +:+ s1 lf +:+ "a.py:3"); ("a.py::t2", "AssertionError")] sent_init
  = Val (Some (s1 lf +:+ "## Run record (2 failures/device issues)" +:+ s1 lf
               +:+ "- `a.py::t1`" +:+ s1 lf +:+ "  - E Device issue: orchagent" +:+ s1 lf
               +:+ "- `a.py::t2`" +:+ s1 lf +:+ "  - AssertionError" +:+ s1 lf),
         ["[device-issues] recorded 2 entries to /fvt/run_issues.md";
          "[sentinel] no cross-test state leaks detected (CONFIG_DB / dynamic FDB / neigh clean)"]).
Proof. vm_compute. reflexivity. Qed.
