(* ===== verification/Responders.v ===== *)
(** * Responders and child processes (responders/base.py, arp.py, collector.py;
    servers/base.py, bgp_peer.py, mock_aaa.py)

    A responder answers the frames of a sniffer thread; its counters and its
    list of what it saw are the object.  The sniffer, the frames' layers and
    the child processes are the packet library's and the operating system's. *)

From S2P Require Import Prelude PyStr PyStrFacts Device DeviceFacts Toy Dut Topology Loopback Obj Traffic Links Bytes Servers Sflow.

(** ** [Responder] *)

(** the sniffer thread: [sn_ready] is the presence of scapy's [stop_cb] *)
Class Sniffer `{Nic} := {
  sniffer : Type;
  sn_open : string -> option string -> dev -> sniffer * dev;
  sn_ready : sniffer -> dev -> bool * dev;
  sn_running : sniffer -> dev -> bool * dev;
  sn_has_thread : sniffer -> bool;
  sn_stop : sniffer -> dev -> outcome unit * dev;
  sn_join : sniffer -> Z -> dev -> outcome unit * dev
}.

(** what a subclass provides: the reply to a frame, with the state of the
    subclass, or an exception *)
Class Handler `{Nic} (St : Type) := { handle : pkt -> St -> outcome (option pkt) * St }.

Section Responder.
Context `{Device} `{!Nic} `{!Sniffer} {St : Type} `{!Handler St}.

Record Responder := mkResp { rs_iface : string; rs_bpf : option string; rs_sniffer : option sniffer; rs_replied : Z; rs_st : St }.
Definition responder (iface : string) (bpf cls_bpf : option string) (st : St) : Responder :=
  mkResp iface (if truthy bpf then bpf else cls_bpf) None 0 st.

(** [_on_pkt]: the reply is counted, then sent; an exception is swallowed *)
Definition on_pkt (p : pkt) : OM Responder unit := fun r =>
  match handle p (rs_st r) with
  | (Val (Some reply), st) =>
      (if scapy then nic_do (fun d => (tt, nic_send reply (rs_iface r) 1 0 d)) else ret tt) ;;;
      ret (Val tt, mkResp (rs_iface r) (rs_bpf r) (rs_sniffer r) (rs_replied r + 1) st)
  | (Hang, _) => hang
  | (_, st) => ret (Val tt, mkResp (rs_iface r) (rs_bpf r) (rs_sniffer r) (rs_replied r) st)
  end.
(** the frames of a capture, in order *)
Definition on_pkts (l : list pkt) : OM Responder unit := ofor l on_pkt.

Definition put_sniffer (x : option sniffer) (r : Responder) : Responder :=
  mkResp (rs_iface r) (rs_bpf r) x (rs_replied r) (rs_st r).
Definition resp_start : OM Responder unit :=
  if negb scapy then oret tt
  else
    let! r := oget in
    let! sn := olift (nic_do (sn_open (rs_iface r) (rs_bpf r))) in
    omod (put_sniffer (Some sn)) ;!;
    olift (let* t0 := now in
           while_before (poll_fuel 3000 50) (t0 + 3000)
             (fun _ : unit => let* ok := nic_do (sn_ready sn) in
                              if ok then ret (inr (A := unit) tt) else sleep 50 ;;; ret (inl tt)) tt ;;;
           sleep 200).
Definition resp_stop : OM Responder unit :=
  let! r := oget in
  omod (put_sniffer None) ;!;
  match rs_sniffer r with
  | None => oret tt
  | Some sn =>
      olift (quietly
        (let* running := nic_do (sn_running sn) in
         let* ready := (if running then nic_do (sn_ready sn) else ret false) in
         if ready then proc_do (sn_stop sn)
         else if sn_has_thread sn then proc_do (sn_join sn 2000) else ret tt))
  end.
End Responder.
Arguments Responder {_ _ _} St.

(** ** [ArpResponder] *)

(** the ARP layer of a frame: operation, sender and target addresses *)
Record Arp := mkArp { arp_op : Z; arp_psrc : string; arp_hwsrc : string; arp_pdst : string; arp_hwdst : string }.
Class ArpNic `{Nic} := {
  arp_of : pkt -> option Arp;
  arp_pkt : string -> string -> Arp -> pkt;           (* Ethernet destination and source, ARP layer *)
  gre_payload : pkt -> option (list Z);               (* the payload of a GRE layer *)
  ether_of : list Z -> option string                  (* the destination of a parsed frame *)
}.
Record ArpState := mkArpSt { as_peer_ip : string; as_peer_mac : string; as_seen : list (string * string); as_count : Z }.

Section Arp.
Context `{Device} `{!Nic} `{!ArpNic}.
(** the reply to a request for the peer's address *)
Definition arp_reply (st : ArpState) (a : Arp) : Arp := mkArp 2 (as_peer_ip st) (as_peer_mac st) (arp_psrc a) (arp_hwsrc a).
Definition arp_handle (p : pkt) (st : ArpState) : outcome (option pkt) * ArpState :=
  match arp_of p with
  | None => (Val None, st)
  | Some a =>
      if negb (arp_op a =? 1) || negb (String.eqb (arp_pdst a) (as_peer_ip st)) then (Val None, st)
      else (Val (Some (arp_pkt (arp_hwsrc a) (as_peer_mac st) (arp_reply st a))),
            mkArpSt (as_peer_ip st) (as_peer_mac st) (as_seen st ++ [(arp_psrc a, arp_hwsrc a)]) (as_count st + 1))
  end.
#[export] Instance arp_handler : Handler ArpState := {| handle := arp_handle |}.

(** [ErspanCollector.inner_frames]: the first offset at which the payload
    parses as a frame with a destination *)
Definition inner_frame (payload : list Z) : option (list Z) :=
  find (fun l => match ether_of l with Some d => nonempty d | None => false end)
    (map (fun off => skipn off payload) [0%nat; 8%nat; 12%nat]).
Definition inner_frames (packets : list pkt) : list (list Z) :=
  omap (fun p => match gre_payload p with Some l => inner_frame l | None => None end) packets.

(** the requests for the peer among the frames *)
Definition asks_peer (ip : string) (p : pkt) : option Arp :=
  match arp_of p with
  | Some a => if (arp_op a =? 1) && String.eqb (arp_pdst a) ip then Some a else None
  | None => None
  end.

(** Every request for the peer's address, and no other frame, is recorded and
    answered, in the order of arrival. *)
Lemma arp_answers (Hs : Sniffer) l : forall (r : Responder ArpState) w, exists r' w',
  on_pkts l r w = (Val (Val tt, r'), w') /\
  as_peer_ip (rs_st r') = as_peer_ip (rs_st r) /\
  as_seen (rs_st r') = as_seen (rs_st r) ++ map (fun a => (arp_psrc a, arp_hwsrc a)) (omap (asks_peer (as_peer_ip (rs_st r))) l) /\
  rs_replied r' = rs_replied r + Z.of_nat (length (omap (asks_peer (as_peer_ip (rs_st r))) l)).
Proof.
  induction l as [|p l IH]; intros r w.
  - exists r, w. split; [done|]. rewrite app_nil_r. repeat split; simpl; lia.
  - unfold on_pkts in *. cbn [ofor omap list_omap].
    assert (exists r1 w1, on_pkt p r w = (Val (Val tt, r1), w1) /\ as_peer_ip (rs_st r1) = as_peer_ip (rs_st r) /\
      match asks_peer (as_peer_ip (rs_st r)) p with
      | Some a => as_seen (rs_st r1) = as_seen (rs_st r) ++ [(arp_psrc a, arp_hwsrc a)] /\ rs_replied r1 = rs_replied r + 1
      | None => as_seen (rs_st r1) = as_seen (rs_st r) /\ rs_replied r1 = rs_replied r
      end) as (r1 & w1 & E1 & Hip & Hc).
    { unfold on_pkt, asks_peer. cbn [handle arp_handler]. unfold arp_handle. destruct (arp_of p) as [a|]; [|by do 2 eexists].
      destruct (arp_op a =? 1); cbn [negb orb andb]; [|by do 2 eexists].
      destruct (String.eqb (arp_pdst a) (as_peer_ip (rs_st r))); cbn [negb]; [|by do 2 eexists].
      unfold bind, nic_do. destruct scapy; do 2 eexists; (split; [reflexivity|]); done. }
    rewrite (obnd_val _ _ _ _ _ _ _ E1). destruct (IH r1 w1) as (r2 & w2 & E2 & Hip2 & Hs2 & Hr2).
    exists r2, w2. split; [exact E2|]. rewrite Hip2, Hs2, Hr2, Hip.
    destruct (asks_peer (as_peer_ip (rs_st r)) p) as [a|]; destruct Hc as [-> ->]; repeat split; cbn [map length]; rewrite <- ?app_assoc; try done; lia.
Qed.
End Arp.

(** ** Child processes *)

(** what [Procs] does not have: the end of a child, its output and the files *)
Class Daemons `{Procs} := {
  proc_terminate : proc -> dev -> unit * dev;
  proc_output : proc -> dev -> string * dev;
  mkstemp : string -> dev -> string * dev;             (* a new file with this text: its path *)
  path_exists : string -> dev -> bool * dev;
  unlink : string -> dev -> outcome unit * dev
}.

Section Process.
Context `{Device} `{!Procs} `{!Daemons}.

Record ProcessServer := mkProc { ps_argv : list string; ps_wait : Z; ps_proc : option proc }.
Definition process_start : OM ProcessServer unit :=
  let! s := oget in
  let! p := olift (proc_do (proc_spawn (ps_argv s))) in
  omod (fun s => mkProc (ps_argv s) (ps_wait s) (Some p)) ;!;
  olift (sleep (ps_wait s)) ;!;
  let! alive := olift (proc_ask (proc_alive p)) in
  if alive then oret tt
  else
    let! o := olift (proc_ask (proc_output p)) in
    oraise (RuntimeError ("server process failed to start: " +:+ join " " (ps_argv s) +:+ s1 lf +:+ last_chars 500 o)).
Definition process_stop : OM ProcessServer unit :=
  let! s := oget in
  match ps_proc s with
  | None => oret tt
  | Some p =>
      let! alive := olift (proc_ask (proc_alive p)) in
      owhen alive
        (olift (proc_ask (proc_terminate p)) ;!;
         let! ended := olift (proc_do (proc_wait p 3000)) in
         owhen (negb ended) (olift (proc_do (proc_kill p))))
  end.

(** [ExaBgpPeer] *)
Record ExaBgpPeer := mkExa {
  xb_dut_ip : string; xb_peer_ip : string; xb_peer_as : Z; xb_dut_as : Z;
  xb_advertise : list string; xb_nexthop : string; xb_conf : option string; xb_srv : option ProcessServer
}.
Definition exabgp_peer (dut_ip peer_ip : string) (peer_as dut_as : Z) (advertise : list string) (nexthop : option string) : ExaBgpPeer :=
  mkExa dut_ip peer_ip peer_as dut_as advertise (if truthy nexthop then or_empty nexthop else peer_ip) None None.
Definition EXABGP_CONF (dut_ip peer_ip : string) (peer_as dut_as : Z) (routes : string) : string :=
  let l := s1 lf in
  "neighbor " +:+ dut_ip +:+ " {" +:+ l
  +:+ "    router-id " +:+ peer_ip +:+ ";" +:+ l
  +:+ "    local-address " +:+ peer_ip +:+ ";" +:+ l
  +:+ "    local-as " +:+ zs peer_as +:+ ";" +:+ l
  +:+ "    peer-as " +:+ zs dut_as +:+ ";" +:+ l
  +:+ "    static {" +:+ l
  +:+ "        " +:+ routes +:+ l
  +:+ "    }" +:+ l +:+ "}" +:+ l.
Definition exabgp_conf (x : ExaBgpPeer) : string :=
  EXABGP_CONF (xb_dut_ip x) (xb_peer_ip x) (xb_peer_as x) (xb_dut_as x)
    (join (s1 lf +:+ "        ") (map (fun p => "route " +:+ p +:+ " next-hop " +:+ xb_nexthop x +:+ ";") (xb_advertise x))).
Definition exabgp_start : OM ExaBgpPeer unit := fun x =>
  let* path := proc_ask (mkstemp (exabgp_conf x)) in
  let x := mkExa (xb_dut_ip x) (xb_peer_ip x) (xb_peer_as x) (xb_dut_as x) (xb_advertise x) (xb_nexthop x) (Some path) (xb_srv x) in
  let* '(r, srv) := process_start (mkProc ["exabgp"; path] 4000 None) in
  ret (r, mkExa (xb_dut_ip x) (xb_peer_ip x) (xb_peer_as x) (xb_dut_as x) (xb_advertise x) (xb_nexthop x) (xb_conf x) (Some srv)).
Definition exabgp_stop : OM ExaBgpPeer unit :=
  let! x := oget in
  match xb_srv x with
  | Some srv => olift (orun process_stop srv)
  | None => oret tt
  end ;!;
  match xb_conf x with
  | Some path =>
      if nonempty path then
        let! there := olift (proc_ask (path_exists path)) in owhen there (olift (proc_do (unlink path)))
      else oret tt
  | None => oret tt
  end.
End Process.

(** ** [MockTacacsServer] *)

(** what an [accept] meets: a connection with what its [recv] gives, a
    timeout, an error of the listening socket *)
Inductive accepted := Conn (from : addr) (data : outcome (list Z)) | AcceptTimeout | AcceptError.
(** [_serve]: the connections recorded, and the exception that ended the thread *)
Fixpoint tacacs_serve (net : list accepted) (connections : list (addr * list Z)) : list (addr * list Z) * option exn :=
  match net with
  | [] | AcceptError :: _ => (connections, None)
  | AcceptTimeout :: net' => tacacs_serve net' connections
  | Conn a (Val data) :: net' => tacacs_serve net' (connections ++ [(a, data)])
  | Conn a (Exc e) :: _ => (connections, Some e)
  | Conn a Hang :: _ => (connections, None)
  end.

(** a connection that is reset while it is read ends the server: the requests
    after it are not recorded *)
Example ex_tacacs_reset :
  tacacs_serve [Conn ("10.0.0.1", 5000) (Exc (OSError "reset")); Conn ("10.0.0.1", 5001) (Val [192])] [] = ([], Some (OSError "reset")).
Proof. reflexivity. Qed.
