(* ===== verification/VlanChk.v ===== *)
(** * VLAN membership evidence (framework/vlanchk.py)

    Reading the port bitmaps of the chip's [vlan show] text. *)

From S2P Require Import Prelude PyStr PyStrFacts Device DeviceFacts Toy CliParse Cli CliFacts Worker Profile Dut Topology Loopback Verify.

(** ** Port lists *)

Definition is_az (c : ascii) : bool := is_lower c.

(** [^([a-z]+)(\d+)-\1?(\d+)$]: the class and the two numbers *)
Definition range_tok (tok : string) : option (string * Z * Z) :=
  let '(pre, r) := span is_az tok in
  let '(a, r) := span is_digit r in
  match r with
  | String c r =>
      let b := if starts pre r then str_drop (slen pre) r else r in
      if nonempty pre && nonempty a && Ascii.eqb c "-" && isdigit b
      then match py_int a, py_int b with Some x, Some y => Some (pre, x, y) | _, _ => None end
      else None
  | "" => None
  end.
(** [^[a-z]+\d+$] and [^[a-z]+$] *)
Definition port_tok (tok : string) : bool :=
  let '(pre, r) := span is_az tok in nonempty pre && isdigit r.
Definition class_tok (tok : string) : bool := nonempty tok && str_forall is_az tok.

Definition expand_tok (tok : string) : gset string :=
  let tok := strip tok in
  if negb (nonempty tok) || String.eqb tok "none" then ∅
  else match range_tok tok with
       | Some (pre, a, b) => list_to_set (range_names pre a (Z.to_nat (b - a + 1)))
       | None =>
           if port_tok tok then {[ tok ]}
           else if class_tok tok then {[ "*" +:+ tok ]} else ∅
       end.
(** [_expand] *)
Definition expand (seg : string) : gset string := ⋃ (map expand_tok (split_on ","%char seg)).

(** [_has] *)
Definition has_port (ports : gset string) (bcm : string) : bool :=
  bool_decide (bcm ∈ ports)
  || (let cls := fst (span is_az bcm) in nonempty cls && bool_decide ("*" +:+ cls ∈ ports)).

(** ** The text of [vlan show] *)

(** [^\s*vlan\s+<vid>\b] *)
Definition vlan_line (vid : string) (ln : string) : bool :=
  let r := lstrip ln in
  starts "vlan" r
  && (let r := str_drop 4 r in
      match r with
      | String c _ => is_space c && starts vid (lstrip r)
                      && match str_drop (slen vid) (lstrip r) with
                         | String d _ => negb (is_word d)
                         | "" => true
                         end
      | "" => false
      end).

(** the group of [<kw>\s+(.*?)\s*\(0x] *)
Fixpoint bitmap_group (kw s : string) : option string :=
  let here :=
    if starts kw s then
      match str_drop (slen kw) s with
      | String c _ as r =>
          if is_space c then
            match split_sep "(0x" (lstrip r) with a :: _ :: _ => Some (rstrip_by is_space a) | _ => None end
          else None
      | "" => None
      end
    else None in
  match here with
  | Some g => Some g
  | None => match s with "" => None | String _ s' => bitmap_group kw s' end
  end.

Section VlanChk.
Context `{Device} `{ShellEnv}.

Definition sai_member_model : M bool :=
  let* n := view_count "ASIC_DB" "ASIC_STATE:SAI_OBJECT_TYPE_VLAN_MEMBER:*" in ret (0 <? n).

(** [chip_member]: a VLAN the chip does not list has no members *)
Definition chip_member `{DutEnv} (dut : Dut) (b : BcmShell) (vid : Z) (p : Port) (untagged : option bool) : M bool :=
  let* o := bsh_cmd b ("vlan show " +:+ zs vid) in
  let* line :=
    match find (vlan_line (zs vid)) (splitlines o) with
    | Some l => ret (Some l)
    | None => let* o := bsh_cmd b "vlan show" in ret (find (vlan_line (zs vid)) (splitlines o))
    end in
  match line with
  | None => ret false
  | Some l =>
      let ports := expand (or_empty (bitmap_group "ports" l)) in
      let utg := expand (or_empty (bitmap_group "untagged" l)) in
      let* bcm := lift (bcm_of dut p) in
      if negb (has_port ports bcm) then ret false
      else ret (match untagged with
                | Some true => has_port utg bcm
                | Some false => negb (has_port utg bcm)
                | None => true
                end)
  end.
End VlanChk.

Example vlan_line_ex :
  map (vlan_line "110") ["vlan 110	ports cd1"; "  vlan 1105 ports"; "vlan110"; "vlan  110"] = [true; false; false; true].
Proof. reflexivity. Qed.
Example bitmap_group_ex :
  let l := "vlan 110 ports cd1,cd8-cd9 (0x00ff), untagged none (0x0)" in
  (bitmap_group "ports" l, bitmap_group "untagged" l) = (Some "cd1,cd8-cd9", Some "none").
Proof. reflexivity. Qed.
Example has_port_ex :
  map (has_port (expand "cd1, ge8-10,xe2-xe3,d3c,hg")) ["cd1"; "ge9"; "xe3"; "xe4"; "d3"; "hg77"; "cd10"] =
  [true; true; true; false; false; true; false].
Proof. vm_compute. reflexivity. Qed.

(** ** A bitmap in the chip's notation *)

Inductive item := One (pre : string) (n : Z) | Span (pre : string) (a b : Z) (long : bool) | Cls (pre : string) | Nothing.
Definition item_text (i : item) : string :=
  match i with
  | One pre n => pre +:+ zs n
  | Span pre a b long => pre +:+ zs a +:+ "-" +:+ (if long then pre else "") +:+ zs b
  | Cls pre => pre
  | Nothing => "none"
  end.
(** the ports an item stands for *)
Definition item_has (i : item) (pre : string) (n : Z) : Prop :=
  match i with
  | One p m => p = pre /\ m = n
  | Span p a b _ => p = pre /\ a <= n <= b
  | Cls p => p = pre
  | Nothing => False
  end.
Definition class_name (p : string) : Prop := nonempty p = true /\ str_forall is_az p = true.
Definition item_wf (i : item) : Prop :=
  match i with
  | One p n => class_name p /\ 0 <= n
  | Span p a b _ => class_name p /\ 0 <= a /\ 0 <= b
  | Cls p => class_name p /\ p <> "none"
  | Nothing => True
  end.

Lemma az_nodigit c : is_az c = true -> is_digit c = false.
Proof.
  enough (implb (is_az c) (negb (is_digit c)) = true) as Hi
    by (intros Hc; rewrite Hc in Hi; by apply negb_true_iff).
  revert c. by apply ascii_all.
Qed.
Lemma digit_noaz c : is_digit c = true -> is_az c = false.
Proof. intros Hd. destruct (is_az c) eqn:E; [|done]. by rewrite az_nodigit in Hd. Qed.

Lemma az_nospace s : str_forall is_az s = true -> str_forall is_nospace s = true.
Proof. apply class_incl. by apply ascii_all. Qed.
Lemma az_no c s : is_az c = false -> str_forall is_az s = true -> str_forall (not_char c) s = true.
Proof.
  intros Hc. apply str_forall_impl. intros d Hd. unfold not_char.
  destruct (Ascii.eqb d c) eqn:E; [|done]. bool_prop. congruence.
Qed.

(** a class name followed by anything that is no letter *)
Lemma span_az_num p n t : class_name p -> 0 <= n -> span is_az (p +:+ zs n +:+ t) = (p, zs n +:+ t).
Proof.
  intros [_ Hp] Hn. pose proof (zs_isdigit n Hn) as Hd. destruct (zs n) as [|c s]; [done|].
  unfold isdigit in Hd. cbn in Hd. apply andb_true_iff in Hd as [Hd _].
  apply span_stop; [done | by apply digit_noaz].
Qed.

Lemma span_digit_num n t : 0 <= n -> match t with String c _ => is_digit c = false | "" => True end ->
  span is_digit (zs n +:+ t) = (zs n, t).
Proof.
  intros Hn Ht. destruct t as [|c t]; [rewrite sapp_nil_r; by apply span_all, zs_digits|].
  apply span_stop; [by apply zs_digits | done].
Qed.

Lemma zs_nonempty n : nonempty (zs n) = true.
Proof. pose proof (zs_token n) as Ht. unfold token in Ht. by apply andb_true_iff in Ht as [? _]. Qed.

Lemma starts_az_digit p n : class_name p -> 0 <= n -> starts p (zs n) = false.
Proof.
  intros [Hne Hp] Hn. pose proof (zs_isdigit n Hn) as Hd. destruct p as [|c p]; [done|].
  destruct (zs n) as [|d s]; [done|]. unfold isdigit in Hd. cbn in Hd. apply andb_true_iff in Hd as [Hd _].
  cbn [starts]. cbn [str_forall] in Hp. apply andb_true_iff in Hp as [Hc _].
  destruct (Ascii.eqb c d) eqn:E; [|done]. bool_prop. subst. by rewrite az_nodigit in Hd.
Qed.

(** the set of names an item denotes *)
Definition item_set (i : item) : gset string :=
  match i with
  | One p n => {[ p +:+ zs n ]}
  | Span p a b _ => list_to_set (range_names p a (Z.to_nat (b - a + 1)))
  | Cls p => {[ "*" +:+ p ]}
  | Nothing => ∅
  end.

Lemma item_text_nospace i : item_wf i -> str_forall is_nospace (item_text i) = true.
Proof.
  destruct i as [p n|p a b l|p|]; cbn [item_wf item_text]; [| | |done].
  - intros [[_ Hp] _]. by rewrite str_forall_app, az_nospace, zs_nospace.
  - intros ([_ Hp] & _ & _). rewrite !str_forall_app, az_nospace, !zs_nospace by done.
    destruct l; rewrite ?(az_nospace p) by done; reflexivity.
  - intros [[_ Hp] _]. by apply az_nospace.
Qed.

Lemma item_text_comma i : item_wf i -> str_forall (not_char ",") (item_text i) = true.
Proof.
  assert (forall z, str_forall (not_char ",") (zs z) = true) as Hz by (intros; by apply zs_no_char).
  destruct i as [p n|p a b l|p|]; cbn [item_wf item_text]; [| | |done].
  - intros [[_ Hp] _]. by rewrite str_forall_app, az_no, Hz.
  - intros ([_ Hp] & _ & _). rewrite !str_forall_app, az_no, !Hz by done. destruct l; rewrite ?(az_no _ p) by done; reflexivity.
  - intros [[_ Hp] _]. by apply az_no.
Qed.

Lemma range_tok_span p a b l : class_name p -> 0 <= a -> 0 <= b ->
  range_tok (item_text (Span p a b l)) = Some (p, a, b).
Proof.
  intros Hp Ha Hb. cbn [item_text]. unfold range_tok. rewrite span_az_num by done.
  change ("-" +:+ ?x) with (String "-" x). rewrite span_digit_num by done.
  assert ((if starts p ((if l then p else "") +:+ zs b) then str_drop (slen p) ((if l then p else "") +:+ zs b)
           else (if l then p else "") +:+ zs b) = zs b) as ->.
  { destruct l; [by rewrite starts_app, str_drop_app|]. change ("" +:+ zs b) with (zs b). by rewrite starts_az_digit. }
  destruct Hp as [Hp _]. by rewrite Hp, zs_nonempty, zs_isdigit, !py_int_zs by done.
Qed.

Lemma range_tok_one p n : class_name p -> 0 <= n -> range_tok (p +:+ zs n) = None.
Proof.
  intros Hp Hn. unfold range_tok. rewrite <-(sapp_nil_r (zs n)), span_az_num by done.
  by rewrite span_digit_num by done.
Qed.

Lemma range_tok_class p : class_name p -> range_tok p = None.
Proof. intros [_ Hp]. unfold range_tok. by rewrite span_all by done. Qed.

Lemma port_tok_one p n : class_name p -> 0 <= n -> port_tok (p +:+ zs n) = true.
Proof.
  intros Hp Hn. unfold port_tok. rewrite <-(sapp_nil_r (zs n)), span_az_num by done.
  rewrite sapp_nil_r, zs_isdigit by done. by destruct Hp as [-> _].
Qed.

Lemma not_none p n t : class_name p -> 0 <= n -> String.eqb (p +:+ zs n +:+ t) "none" = false.
Proof.
  intros Hp Hn. destruct (String.eqb _ _) eqn:E; [|done]. bool_prop. exfalso.
  pose proof (span_az_num p n t Hp Hn) as Hs. rewrite E in Hs. cbn in Hs. injection Hs as _ Hz.
  pose proof (zs_nonempty n) as Hne. destruct (zs n); [done | discriminate Hz].
Qed.

Lemma app_nonempty p s : nonempty p = true -> nonempty (p +:+ s) = true.
Proof. by destruct p. Qed.

Lemma expand_tok_item i : item_wf i -> expand_tok (item_text i) = item_set i.
Proof.
  intros Hi. unfold expand_tok. rewrite strip_id by by apply item_text_nospace.
  destruct i as [p n|p a b l|p|]; cbn [item_wf item_set] in *; [| | |done].
  - destruct Hi as [Hp Hn]. cbn [item_text]. rewrite app_nonempty by apply Hp.
    rewrite <-(sapp_nil_r (zs n)), not_none, sapp_nil_r by done. cbn [negb orb].
    by rewrite range_tok_one, port_tok_one.
  - destruct Hi as (Hp & Ha & Hb). rewrite (range_tok_span p a b l) by done. cbn [item_text].
    rewrite app_nonempty by apply Hp. by rewrite not_none by done.
  - destruct Hi as [Hp Hn]. cbn [item_text]. rewrite range_tok_class by done.
    destruct Hp as [Hne Ha]. rewrite Hne, (proj2 (String.eqb_neq _ _)) by done. cbn [negb orb].
    unfold port_tok. rewrite span_all by done. unfold class_tok. rewrite Hne, Ha. by cbn.
Qed.

Lemma elem_range_names x p n k :
  x ∈ range_names p n k <-> exists m, n <= m < n + Z.of_nat k /\ x = p +:+ zs m.
Proof.
  revert n. induction k as [|k IH]; intros n; cbn [range_names].
  - split; [intros []%not_elem_of_nil | intros (m & ? & _); lia].
  - rewrite elem_of_cons, IH. split.
    + intros [->|(m & ? & ->)]; [exists n | exists m]; (split; [lia | done]).
    + intros (m & Hm & ->). destruct (decide (m = n)) as [->|]; [by left | right]. exists m. split; [lia | done].
Qed.

(** a port's class and number are determined by its name *)
Lemma port_name_inj p n q m : class_name p -> class_name q -> 0 <= n -> 0 <= m ->
  p +:+ zs n = q +:+ zs m -> p = q /\ n = m.
Proof.
  intros Hp Hq Hn Hm E. pose proof (span_az_num p n "" Hp Hn) as H1. pose proof (span_az_num q m "" Hq Hm) as H2.
  rewrite !sapp_nil_r in H1, H2. rewrite E, H2 in H1. injection H1 as -> Hz. split; [done | symmetry; by apply zs_inj].
Qed.

Lemma item_set_spec i p n : item_wf i -> class_name p -> 0 <= n ->
  (p +:+ zs n ∈ item_set i \/ "*" +:+ p ∈ item_set i) <-> item_has i p n.
Proof.
  intros Hi Hp Hn.
  assert (forall q m, class_name q -> "*" +:+ p <> q +:+ zs m) as Hstar.
  { intros q m [Hne Hq] E. destruct q as [|c q]; [done|]. cbn in E. injection E as <- _. done. }
  assert (forall q, "*" +:+ q <> p +:+ zs n) as Hstar2.
  { intros q E. destruct Hp as [Hne Hp]. destruct p as [|c p]; [done|]. cbn in E. injection E as <- _. done. }
  destruct i as [q m|q a b l|q|]; cbn [item_wf item_set item_has] in *.
  - destruct Hi as [Hq Hm]. rewrite !elem_of_singleton. split.
    + intros [E|E]; [|by apply Hstar in E]. apply port_name_inj in E; naive_solver.
    + intros [-> ->]. by left.
  - destruct Hi as (Hq & Ha & Hb). rewrite !elem_of_list_to_set, !elem_range_names. split.
    + intros [(m & Hm & E)|(m & Hm & E)]; [|by apply Hstar in E].
      apply port_name_inj in E as [-> ->]; [|done|done|done|lia]. split; [done | lia].
    + intros [-> ?]. left. exists n. split; [lia | done].
  - rewrite !elem_of_singleton. split.
    + intros [E|E]; [symmetry in E; by apply Hstar2 in E|]. by apply sapp_inv_head in E.
    + intros ->. by right.
  - set_solver.
Qed.

Lemma expand_items items : Forall item_wf items ->
  expand (join "," (map item_text items)) = ⋃ (map item_set items).
Proof.
  intros Hw. unfold expand. destruct items as [|i0 l]; [done|]. change "," with (s1 ","%char).
  rewrite split_on_join by (done || by apply Forall_map; eapply Forall_impl; [exact Hw|]; intros; apply item_text_comma).
  rewrite map_map. f_equal. apply map_ext_in. intros i Hi. apply expand_tok_item.
  rewrite Forall_forall in Hw. by apply Hw, list_elem_of_In.
Qed.

(** The bitmap reader is exact.  For every port list in the chip's notation
    (single ports, ranges with the class name on the right or without it, bare
    class names for all ports of a class, and [none]), a port is found in the
    expanded list iff one of the items stands for it. *)
Theorem expand_exact (items : list item) (p : string) (n : Z) :
  Forall item_wf items -> class_name p -> 0 <= n ->
  has_port (expand (join "," (map item_text items))) (p +:+ zs n) = true <->
  exists i, i ∈ items /\ item_has i p n.
Proof.
  intros Hw Hp Hn. rewrite expand_items by done. unfold has_port.
  assert (fst (span is_az (p +:+ zs n)) = p) as -> by (rewrite <-(sapp_nil_r (zs n)); by rewrite span_az_num).
  assert (nonempty p = true) as -> by apply Hp. cbn [andb]. rewrite orb_true_iff, !bool_decide_eq_true, !elem_of_union_list.
  rewrite Forall_forall in Hw. split.
  - intros [(X & (i & -> & Hi)%list_elem_of_fmap & Hx)|(X & (i & -> & Hi)%list_elem_of_fmap & Hx)];
      exists i; (split; [done|]); apply item_set_spec; auto.
  - intros (i & Hi & Hh). apply item_set_spec in Hh as [Hx|Hx]; [left | right | auto..];
      exists (item_set i); (split; [apply list_elem_of_fmap; eauto | done]).
Qed.

Lemma expand_exact_witness :
  has_port (expand "cd1,ge8-ge10,xe2-4,hg,none") "ge9" = true /\
  has_port (expand "cd1,ge8-ge10,xe2-4,hg,none") "cd2" = false.
Proof.
  set (items := [One "cd" 1; Span "ge" 8 10 true; Span "xe" 2 4 false; Cls "hg"; Nothing]).
  assert (Forall item_wf items) as Hw by (repeat (constructor; [repeat split; (reflexivity || lia || congruence)|]); constructor).
  split.
  - apply (expand_exact items "ge" 9 Hw); [done | lia |]. exists (Span "ge" 8 10 true).
    split; [by right; left | split; [reflexivity | lia]].
  - destruct (has_port _ _) eqn:E; [|reflexivity].
    apply (expand_exact items "cd" 2 Hw) in E as (i & Hi & Hh); [|done|lia].
    exfalso. unfold items in Hi. rewrite !elem_of_cons, elem_of_nil in Hi.
    destruct Hi as [->|[->|[->|[->|[->|[]]]]]]; simpl in Hh;
      [destruct Hh as [_ Hh] | destruct Hh as [Hh _] | destruct Hh as [Hh _] | | done]; discriminate Hh.

Defined.
