(* ===== verification/Catalog.v ===== *)
(** * The generated catalogues (tools/gen_catalog.py, catalog/coverage.py)

    Both group rows by domain, print a section per domain and totals over all
    of them.  The grouping is defined once; that the sections are a partition
    of the rows is what makes the totals right. *)

From S2P Require Import Prelude PyStr PyStrFacts Device Dut Topology.

(** ** Grouping: [groups.setdefault(key, []).append(x)] *)

Section Group.
Context {A : Type} (key : A -> string).
Definition group_add (g : pydict string (list A)) (x : A) : pydict string (list A) :=
  dset (key x) (default [] (dget (key x) g) ++ [x]) g.
Definition group_by (l : list A) : pydict string (list A) := fold_left group_add l [].

Lemma group_get l k : dget k (group_by l) =
  match List.filter (fun x => String.eqb (key x) k) l with [] => None | m => Some m end.
Proof.
  unfold group_by. induction l as [|x l IH] using rev_ind; [done|]. rewrite fold_left_app, List.filter_app. cbn [fold_left List.filter].
  unfold group_add at 1. destruct (String.eqb_spec (key x) k) as [Hk|Hk].
  - subst k. rewrite dget_dset_eq, IH. by destruct (List.filter _ l).
  - rewrite dget_dset_ne by done. by rewrite app_nil_r, IH.
Qed.
Lemma group_rows l k : default [] (dget k (group_by l)) = List.filter (fun x => String.eqb (key x) k) l.
Proof. rewrite group_get. by destruct (List.filter _ l). Qed.

(** the groups of a list of distinct keys that has every row's key *)
Lemma group_partition keys l : NoDup keys -> (forall x, x ∈ l -> key x ∈ keys) ->
  concat (map (fun k => default [] (dget k (group_by l))) keys) ≡ₚ l.
Proof.
  intros Hnd Hin. erewrite map_ext by apply group_rows. clear -Hnd Hin.
  revert l Hin. induction Hnd as [|k keys Hk Hnd IH]; intros l Hin.
  - destruct l as [|x l]; [done|]. exfalso. specialize (Hin x). apply elem_of_nil in Hin; [done | constructor].
  - cbn [map concat]. set (m := List.filter (fun x => negb (String.eqb (key x) k)) l).
    assert (forall k', k' ∈ keys -> List.filter (fun x => String.eqb (key x) k') l = List.filter (fun x => String.eqb (key x) k') m) as Hf.
    { intros k' Hk'. unfold m. clear -Hk Hk'. induction l as [|x l IH]; [done|]. cbn [List.filter].
      destruct (String.eqb_spec (key x) k), (String.eqb_spec (key x) k'); cbn [negb List.filter]; rewrite ?IH; try done.
      - exfalso. congruence.
      - destruct (String.eqb_spec (key x) k'); [congruence|done].
      - by destruct (String.eqb_spec (key x) k'). }
    rewrite (map_ext_in _ (fun k' => List.filter (fun x => String.eqb (key x) k') m)).
    2: { intros k' Hk'. apply Hf. by apply list_elem_of_In. }
    rewrite IH.
    + unfold m. clear. induction l as [|x l IH]; [done|]. cbn [List.filter]. destruct (String.eqb (key x) k); cbn [negb].
      * by rewrite <- app_comm_cons, IH.
      * by rewrite <- Permutation_middle, IH.
    + intros x Hx. unfold m in Hx. apply list_elem_of_In, List.filter_In in Hx as [Hx Hne]. apply list_elem_of_In in Hx.
      specialize (Hin x Hx). apply elem_of_cons in Hin as [E|]; [|done]. rewrite E, String.eqb_refl in Hne. done.
Qed.
End Group.

(** ** tools/gen_catalog.py *)

(** what the script reads of a syntax tree *)
Inductive Arg := ALit (n : nat) | AOther.              (* a list or tuple of [n] elements *)
Inductive Deco := DCall (attr : string) (args : list Arg) | DOther.
Record Func := mkFunc { fn_name : string; fn_doc : option string; fn_decos : list Deco }.
Record TestFile := mkFile { tf_name : string; tf_doc : option string; tf_funcs : list Func }.

Definition DOMAINS : list (string * list string) := [
  ("L2 switching", ["test_vlan"; "test_fdb"; "test_mac"; "test_lag"; "test_lacp"; "test_hairpin"; "test_loopback"; "test_storm_mtu"]);
  ("L3 routing", ["test_intf_ip"; "test_route"; "test_l3_"; "test_arp"; "test_ndp"; "test_vrf"; "test_pbr"; "test_ipv6"]);
  ("Routing protocols", ["test_bgp"; "test_ospf"; "test_bfd"; "test_routing_policy"]);
  ("ACL", ["test_acl"]);
  ("QoS", ["test_qos"; "test_queue_crm"]);
  ("CoPP/punt", ["test_copp"]);
  ("Mirroring/sampling", ["test_mirror"; "test_erspan"; "test_sflow"]);
  ("Counters/telemetry", ["test_counters"; "test_port_counters"; "test_stats"; "test_crm"; "test_gnmi"; "test_dynamic_entries"]);
  ("Tunneling", ["test_vxlan"]);
  ("Platform/system management", ["test_platform"; "test_transceiver"; "test_snmp"; "test_aaa"; "test_ssh"; "test_syslog"; "test_system_mgmt"; "test_ntp";
                                  "test_lldp"; "test_dhcp"; "test_auto_techsupport"; "test_gcu"; "test_config_wired"; "test_show_commands"]);
  ("SAI object ledger", ["test_sai_objects"]);
  ("Other", [])].

Definition domain_of (fname : string) : string :=
  match find (fun d => existsb (fun p => starts p fname) (snd d)) DOMAINS with Some d => fst d | None => "Other" end.
(** a docstring of white space only has no first line *)
Definition first_line (doc : option string) : outcome string :=
  if truthy doc then
    match splitlines (strip (or_empty doc)) with l :: _ => Val (strip l) | [] => Exc IndexError end
  else Val "".
Definition deco_count (d : Deco) : Z :=
  match d with
  | DCall attr (_ :: ALit n :: _) => if String.eqb attr "parametrize" then Z.max 1 (Z.of_nat n) else 1
  | _ => 1
  end.
Definition param_count (f : Func) : Z := fold_left (fun n d => n * deco_count d) (fn_decos f) 1.

(** a row of a file's table, and a file's section *)
Definition Case : Type := string * string * Z.
Record Entry := mkEntry { en_name : string; en_doc : string; en_cases : list Case }.
Definition case_of (f : Func) : outcome Case := obind (first_line (fn_doc f)) (fun d => Val (fn_name f, d, param_count f)).
Definition entry_of (t : TestFile) : outcome Entry :=
  obind (first_line (tf_doc t)) (fun d =>
  obind (map_outcome case_of (List.filter (fun f => starts "test_" (fn_name f)) (tf_funcs t))) (fun cs =>
  Val (mkEntry (tf_name t) d cs))).
Definition entries_of (files : list TestFile) : outcome (list Entry) :=
  obind (map_outcome entry_of files) (fun es =>
  Val (List.filter (fun e => match en_cases e with [] => false | _ => true end) es)).
Definition case_total (e : Entry) : Z := fold_right (fun c n => snd c + n) 0 (en_cases e).
Definition count_cases (es : list Entry) : Z := fold_right (fun e n => Z.of_nat (length (en_cases e)) + n) 0 es.
Definition count_expansions (es : list Entry) : Z := fold_right (fun e n => case_total e + n) 0 es.

Definition file_of (e : Entry) : string := domain_of (en_name e).
Definition sections (es : list Entry) : list (string * list Entry) :=
  omap (fun d => match dget (fst d) (group_by file_of es) with Some (e :: l) => Some (fst d, e :: l) | _ => None end) DOMAINS.

Definition entry_lines (e : Entry) : list string :=
  [s1 lf +:+ "### " +:+ en_name e +:+ " — " +:+ en_doc e +:+ s1 lf;
   "| Case | Expansions | Purpose |" +:+ s1 lf +:+ "|------|:---:|------|"]
  ++ map (fun c => "| " +:+ fst (fst c) +:+ " | " +:+ zs (snd c) +:+ " | " +:+ snd (fst c) +:+ " |") (en_cases e) ++ [""].
Definition section_lines (s : string * list Entry) : list string :=
  (s1 lf +:+ "## " +:+ fst s +:+ " (" +:+ zs (Z.of_nat (length (snd s))) +:+ " files / " +:+ zs (count_cases (snd s)) +:+ " functions)" +:+ s1 lf)
  :: concat (map entry_lines (snd s)).
Definition catalog_head (es : list Entry) : string :=
  let l := s1 lf in
  "# Test case catalog (auto-generated, do not hand-edit)" +:+ l +:+ l
  +:+ "> Generated: `python3 tools/gen_catalog.py`" +:+ l
  +:+ "> Scale: " +:+ zs (Z.of_nat (length es)) +:+ " files / " +:+ zs (count_cases es)
  +:+ " test functions (statically visible parametrization ~" +:+ zs (count_expansions es) +:+ ")" +:+ l
  +:+ "> Four verification depth levels: config->CONFIG_DB contract / orchagent->ASIC_DB / chip counts / data-plane traffic." +:+ l.
Definition catalog (files : list TestFile) : outcome string :=
  obind (entries_of files) (fun es =>
  Val (join (s1 lf) (catalog_head es :: concat (map section_lines (sections es))) +:+ s1 lf)).

Lemma domain_known f : domain_of f ∈ map fst DOMAINS.
Proof.
  unfold domain_of. destruct (find _ DOMAINS) as [d|] eqn:E.
  - apply find_some in E as [Hd _]. apply list_elem_of_In, in_map, Hd.
  - apply (bool_decide_unpack _). vm_compute. exact I.
Qed.
Lemma domains_distinct : NoDup (map fst DOMAINS).
Proof. apply (bool_decide_unpack _). vm_compute. exact I. Qed.
Lemma sections_rows es : concat (map snd (sections es)) ≡ₚ es.
Proof.
  rewrite <- (group_partition file_of (map fst DOMAINS) es domains_distinct) at 2 by (intros; apply domain_known).
  unfold sections. induction DOMAINS as [|d l IH]; [done|]. cbn [omap list_omap map concat].
  destruct (dget (fst d) (group_by file_of es)) as [[|e r]|]; cbn [default map concat snd]; by rewrite IH.
Qed.
Lemma count_cases_perm es es' : es ≡ₚ es' -> count_cases es = count_cases es' /\ count_expansions es = count_expansions es'.
Proof. induction 1; unfold count_cases, count_expansions in *; cbn [fold_right] in *; lia. Qed.
Lemma count_cases_concat l : count_cases (concat (map snd l)) = fold_right (fun s n => count_cases (snd s) + n) 0 (l : list (string * list Entry)).
Proof.
  induction l as [|s l IH]; [done|]. cbn [map concat fold_right]. rewrite <- IH. clear. unfold count_cases.
  induction (snd s) as [|e es IH]; cbn [app fold_right]; lia.
Qed.

(** The generated catalogue lists every test file with a test function
    exactly once, under one heading and under the domain of its name, and the
    scale printed at its top is the sum of the counts printed with the
    headings. *)
Theorem catalog_partition es :
  concat (map snd (sections es)) ≡ₚ es /\ NoDup (map fst (sections es)) /\
  (forall s e, s ∈ sections es -> e ∈ snd s -> domain_of (en_name e) = fst s) /\
  count_cases es = fold_right (fun s n => count_cases (snd s) + n) 0 (sections es) /\
  Z.of_nat (length es) = fold_right (fun s n => Z.of_nat (length (snd s)) + n) 0 (sections es).
Proof.
  pose proof (sections_rows es) as Hp. split; [done|]. split; [|split; [|split]].
  - assert (map fst (sections es) `sublist_of` map fst DOMAINS) as Hs.
    { unfold sections. induction DOMAINS as [|d l IH]; [constructor|]. cbn [omap list_omap map].
      destruct (dget (fst d) (group_by file_of es)) as [[|e r]|]; cbn [map fst]; by constructor. }
    exact (sublist_NoDup _ _ domains_distinct Hs).
  - intros s e (d & Hd & E)%list_elem_of_omap He. pose proof (group_rows file_of es (fst d)) as Hg.
    destruct (dget (fst d) (group_by file_of es)) as [[|e0 r]|]; simplify_eq. cbn [snd fst] in *. change (default [] (Some (e0 :: r))) with (e0 :: r) in Hg.
    rewrite Hg in He. apply list_elem_of_In, List.filter_In in He as [_ He]. by apply String.eqb_eq in He.
  - rewrite <- count_cases_concat. symmetry. by apply count_cases_perm.
  - rewrite <- Hp at 1. clear. induction (sections es) as [|s l IH]; [done|]. cbn [map concat fold_right]. rewrite length_app. lia.
Qed.

(** ** catalog/coverage.py: the coverage matrix *)

Record Feature := mkFeature {
  ft_id : string; ft_domain : string; ft_desc : string; ft_status : string;
  ft_traffic : bool; ft_pattern : option string; ft_module : string
}.
Definition implemented (f : Feature) : bool := (ft_status f =? "implemented")%string || (ft_status f =? "passing")%string.
Definition mark (status : string) : string :=
  default "?" (dget status [("implemented", "✓"); ("passing", "✓✓"); ("planned", "·"); ("skipped", "s")]).
Definition by_domain (feats : list Feature) : pydict string (list Feature) := group_by ft_domain feats.
Definition domains_of (feats : list Feature) : list string := sorted_strs (dkeys (by_domain feats)).
Definition count_if (p : Feature -> bool) (l : list Feature) : Z := Z.of_nat (length (List.filter p l)).
Definition rule (c : string) : string := Nat.iter 72 (fun s => c +:+ s) "".

Section Report.
(** [os.path.exists] of a path under the repository *)
Context (exists_file : string -> bool).
Definition feature_row (f : Feature) : string :=
  "  " +:+ mark (ft_status f) +:+ " [" +:+ (if ft_traffic f then "T" else " ") +:+ (if exists_file (ft_module f) then "M" else "-") +:+ " "
  +:+ (if truthy (ft_pattern f) then or_empty (ft_pattern f) else "-") +:+ "] " +:+ ljust 28 (ft_id f) +:+ " " +:+ ft_desc f.
Definition domain_lines (feats : list Feature) (dom : string) : list string :=
  let items := default [] (dget dom (by_domain feats)) in
  (s1 lf +:+ "[" +:+ dom +:+ "]  " +:+ zs (count_if implemented items) +:+ "/" +:+ zs (Z.of_nat (length items)) +:+ " implemented")
  :: map feature_row items.
Definition percent (feats : list Feature) : outcome Z :=
  let total := Z.of_nat (length feats) in
  if total =? 0 then Exc ZeroDivisionError else Val (count_if implemented feats * 100 / total).
Definition report (hwsku : string) (feats : list Feature) : outcome string :=
  obind (percent feats) (fun pc =>
  Val (join (s1 lf) (
    [rule "="; "SONiC feature coverage matrix  (hwsku=" +:+ hwsku +:+ ")"; rule "="]
    ++ concat (map (domain_lines feats) (domains_of feats))
    ++ [s1 lf +:+ rule "-";
        "Total: " +:+ zs (Z.of_nat (length feats)) +:+ " features | " +:+ zs (count_if implemented feats) +:+ " implemented | "
        +:+ zs (count_if ft_traffic feats) +:+ " traffic-involving | coverage " +:+ zs pc +:+ "%";
        "Legend: ✓=implemented ·=planned | T=traffic-involving M=module exists | A/B/C=verification mode"]))).
End Report.

(** the keys of a grouping are the keys of its rows *)
Lemma group_keys {A} (key : A -> string) l k : k ∈ dkeys (group_by key l) <-> exists x, x ∈ l /\ key x = k.
Proof.
  transitivity (is_Some (dget k (group_by key l))).
  { rewrite <- not_eq_None_Some, dget_None_keys. destruct (decide (k ∈ dkeys (group_by key l))); tauto. }
  rewrite group_get. split.
  - intros [m Hm]. destruct (List.filter _ l) as [|x r] eqn:E; [done|]. assert (List.In x (List.filter (fun x => String.eqb (key x) k) l)) as Hx by (rewrite E; by left).
    apply List.filter_In in Hx as [Hx Hk]. exists x. split; [by apply list_elem_of_In | by apply String.eqb_eq].
  - intros (x & Hx & <-). destruct (List.filter _ l) as [|y r] eqn:E; [|by eexists]. exfalso.
    assert (List.In x (List.filter (fun y => String.eqb (key y) (key x)) l)) as Hi by (apply List.filter_In; split; [by apply list_elem_of_In | apply String.eqb_refl]).
    by rewrite E in Hi.
Qed.
(** every feature's domain has a section, and the printed share is one *)
Lemma report_domains feats d : d ∈ domains_of feats <-> exists f, f ∈ feats /\ ft_domain f = d.
Proof. unfold domains_of. rewrite sorted_strs_elem. apply group_keys. Qed.
Lemma report_percent feats : match percent feats with Val pc => 0 <= pc <= 100 | Exc e => e = ZeroDivisionError /\ feats = [] | Hang => False end.
Proof.
  unfold percent, count_if. assert (length (List.filter implemented feats) <= length feats)%nat as Hl by apply List.filter_length_le.
  destruct (Z.eqb_spec (Z.of_nat (length feats)) 0) as [E|E].
  - split; [done|]. by destruct feats.
  - split; [apply Z.div_pos; lia|]. apply Z.div_le_upper_bound; lia.
Qed.
Example ex_report_empty : report (fun _ => true) "sku" [] = Exc ZeroDivisionError.
Proof. reflexivity. Qed.
