(* ===== verification/Tools.v ===== *)
(** * The command-line tools (tools/dutssh.py, cli_inventory.py, bcm_sock.py)

    They run outside the test session, so they do not use the device monad: a
    tool's effects are the processes it starts and the time it sleeps, and
    what the other side answers is an argument. *)

From S2P Require Import Prelude PyStr PyStrFacts Device Dut Topology Cli.

(** ** cli_inventory.py: the tree of the commands *)

Definition MAXDEPTH : nat := 4.

(** [line.split("Commands:", 1)[1]] *)
Definition after_commands (line : string) : string := join "Commands:" (tail (split_sep "Commands:" line)).
(** the loop over the lines of a [--help] output *)
Fixpoint read_commands (lines : list string) (in_cmds : bool) : list string :=
  match lines with
  | [] => []
  | line :: lines' =>
      if starts "Commands:" (strip line) then
        take 1 (split_ws (strip (after_commands line))) ++ read_commands lines' true
      else if in_cmds then
        if negb (nonempty (strip line)) then read_commands lines' true
        else if negb (starts " " line || starts (s1 tab) line) then []
        else take 1 (split_ws (strip line)) ++ read_commands lines' true
      else read_commands lines' false
  end.

Section Inventory.
(** the output of a command line with [--help]; [None] when running it raised *)
Context (help : list string -> option string).

Definition subcommands (path : list string) : list string :=
  match help path with Some o => read_commands (splitlines o) false | None => [] end.
(** [walk] with [left = MAXDEPTH - depth] levels to go: the leaves appended *)
Fixpoint walk (left : nat) (path : list string) : list string :=
  match left with
  | O => [join " " path]
  | S left' =>
      match subcommands path with
      | [] => [join " " path]
      | subs => concat (map (fun s => walk left' (path ++ [s])) subs)
      end
  end.
Definition inventory (roots : list string) : pydict string (list string) :=
  fold_left (fun result root => dset root (sorted_strs (remove_dups (walk MAXDEPTH [root]))) result) roots [].

(** the paths of the tree: every word is offered by the help of the words
    before it *)
Inductive offered (root : string) : list string -> Prop :=
| offered_root : offered root [root]
| offered_sub path s : offered root path -> (length path <= MAXDEPTH)%nat -> s ∈ subcommands path -> offered root (path ++ [s]).
Definition leaf (root : string) (path : list string) : Prop :=
  offered root path /\ (subcommands path = [] \/ length path = S MAXDEPTH).

Lemma walk_offered root left : forall path c,
  offered root path -> (length path + left)%nat = S MAXDEPTH -> c ∈ walk left path -> exists p, leaf root p /\ c = join " " p.
Proof.
  induction left as [|left IH]; intros path c Ho Hl Hc.
  - exists path. split; [split; [done | right; lia]|]. by apply list_elem_of_singleton.
  - cbn [walk] in Hc. destruct (subcommands path) as [|s0 subs] eqn:E.
    + exists path. split; [split; [done | by left]|]. by apply list_elem_of_singleton.
    + rewrite <- E in Hc. apply list_elem_of_In, in_concat in Hc as (l & Hl' & Hc). apply in_map_iff in Hl' as (s & <- & Hs).
      apply (IH (path ++ [s])); [|rewrite length_app; simpl; lia | by apply list_elem_of_In].
      constructor; [done | lia | by apply list_elem_of_In].
Qed.
(** the walk of a path has the walks of the paths under it *)
Lemma walk_covers root path : offered root path -> (length path <= S MAXDEPTH)%nat ->
  forall c, c ∈ walk (S MAXDEPTH - length path) path -> c ∈ walk MAXDEPTH [root].
Proof.
  induction 1 as [|path s Ho IH Hl Hs]; intros Hle c Hc; [done|].
  apply IH; [lia|]. rewrite length_app in Hc. cbn [length] in Hc.
  replace (S MAXDEPTH - length path)%nat with (S (S MAXDEPTH - (length path + 1)))%nat by lia. cbn [walk].
  destruct (subcommands path) as [|s0 subs] eqn:E; [by apply elem_of_nil in Hs|]. rewrite <- E in *.
  apply list_elem_of_In, in_concat. eexists. split; [apply in_map, list_elem_of_In, Hs|]. by apply list_elem_of_In.
Qed.
(** The inventory of a root is the set of the leaves of its tree: a path with
    no subcommands, or at the depth limit. *)
Lemma walk_exact root c : c ∈ walk MAXDEPTH [root] <-> exists p, leaf root p /\ c = join " " p.
Proof.
  split; [intros Hc; by apply (walk_offered root MAXDEPTH [root]); [constructor | |]|].
  intros (p & [Ho Hend] & ->).
  assert (length p <= S MAXDEPTH)%nat as Hle.
  { destruct Ho; cbn [length]; [unfold MAXDEPTH; lia|]. rewrite length_app. simpl. lia. }
  apply (walk_covers root p); [done..|]. destruct (S MAXDEPTH - length p)%nat eqn:E; cbn [walk]; [by constructor|].
  destruct Hend as [-> | Hend]; [by constructor|]. lia.
Qed.
End Inventory.

(** the lines of click's help, one command on the line of the heading, and a
    section after the commands *)
Example ex_read_commands :
  read_commands ["Usage: show [OPTIONS]"; ""; "Commands:"; "  vlan   Show VLAN"; ""; "  arp"; "Notes:"; "  never"] false = ["vlan"; "arp"] /\
  read_commands ["Commands: ip  Show IP"; "  ipv6"] false = ["ip"; "ipv6"].
Proof. split; reflexivity. Qed.

(** ** dutssh.py: a command on the device over ssh *)

(** what [expect] reports: the password prompt, the end of the child, the
    time limit; a child is what it reports in turn, its output and its exit
    status, [None] when a signal ended it *)
Inductive Event := Prompt | Eof | Timeout.
Record Child := mkChild { ch_event : nat -> Event; ch_before : string; ch_exit : option Z }.
Inductive Ending := Done (code : Z) (o : string) | AuthFailed | TimedOut.

(** the dialogue: the third prompt is a failed authentication *)
Fixpoint converse (left : nat) (c : Child) (i : nat) : Ending :=
  match ch_event c i with
  | Prompt => match left with O => AuthFailed | S left' => converse left' c (S i) end
  | Eof => Done (default 0 (ch_exit c)) (ch_before c)
  | Timeout => TimedOut
  end.

Section Ssh.
Context (HOST PASSWORD : string) (USERS : list string).
(** the [n]-th child started, on this command line *)
Context (spawn : nat -> string -> Child).

Definition SSH_OPTS : string :=
  "-o StrictHostKeyChecking=no -o UserKnownHostsFile=/dev/null "
  +:+ "-o PreferredAuthentications=password -o PubkeyAuthentication=no "
  +:+ "-o HostKeyAlgorithms=+ssh-rsa -o ConnectTimeout=10 -o LogLevel=ERROR".
(** the command lines started and the milliseconds slept *)
Record Term := mkTerm { started : list string; slept : Z }.
Definition ssh_line (user cmd : string) : string := "ssh " +:+ SSH_OPTS +:+ " " +:+ user +:+ "@" +:+ HOST +:+ " " +:+ shell_quote cmd.
Definition start_child (line : string) (t : Term) : Child * Term :=
  (spawn (length (started t)) line, mkTerm (started t ++ [line]) (slept t)).

(** [_run_once]: the users in turn; the error is that of the last one *)
Fixpoint run_once (users : list string) (cmd last_err : string) (t : Term) : (Z * string * string + string) * Term :=
  match users with
  | [] => (inr ("SSH connection failed (" +:+ last_err +:+ ")"), t)
  | user :: users' =>
      let '(c, t) := start_child (ssh_line user cmd) t in
      match converse 2 c 0 with
      | Done code o => (inl (code, o, user), t)
      | AuthFailed => run_once users' cmd "auth failed" t
      | TimedOut => run_once users' cmd "timeout" t
      end
  end.
(** the attempts from number [i] on; [last] is the error to raise *)
Fixpoint attempt (n : nat) (i : Z) (cmd last : string) (t : Term) : (Z * string * string + string) * Term :=
  match n with
  | O => (inr last, t)
  | S n' =>
      match run_once USERS cmd "" t with
      | (inl r, t) => (inl r, t)
      | (inr e, t) => attempt n' (i + 1) cmd e (mkTerm (started t) (slept t + (3 + i * 2) * 1000))
      end
  end.
Definition ssh_cmd (sudo : bool) (cmd : string) : string :=
  if sudo then "echo " +:+ PASSWORD +:+ " | sudo -S bash -lc " +:+ shell_quote cmd else cmd.
Definition dut_run (cmd : string) (sudo : bool) (attempts : nat) : Term -> (Z * string * string + string) * Term :=
  attempt attempts 0 (ssh_cmd sudo cmd) "".

(** the flags of the command line: the words left, [sudo], the attempts *)
Fixpoint ssh_flags (args : list string) (sudo : bool) (attempts : nat) : list string * bool * nat :=
  match args with
  | a :: args' =>
      if String.eqb a "--sudo" then ssh_flags args' true attempts
      else if String.eqb a "--once" then ssh_flags args' sudo 1
      else (args, sudo, attempts)
  | [] => (args, sudo, attempts)
  end.
Definition ssh_main (args : list string) : (Z * string * string + string) * Term :=
  let '(words, sudo, attempts) := ssh_flags args false 4 in
  dut_run (join " " words) sudo attempts (mkTerm [] 0).

(** The lines started are ssh to the users in turn, at most one per user and
    attempt; a result is that of the last of them, an error comes after all. *)
Lemma run_once_lines users cmd : forall e t r t', run_once users cmd e t = (r, t') ->
  exists k, started t' = started t ++ map (fun u => ssh_line u cmd) (take k users) /\ slept t' = slept t /\
  match r with
  | inl (_, _, u) => (k <= length users)%nat /\ last (take k users) = Some u
  | inr _ => k = length users
  end.
Proof.
  induction users as [|u users IH]; intros e t r t' E; cbn [run_once] in E.
  - simplify_eq. exists O. cbn [take map]. by rewrite app_nil_r.
  - destruct (start_child (ssh_line u cmd) t) as [c t1] eqn:Ec. unfold start_child in Ec. simplify_eq.
    assert (forall e t2, run_once users cmd e t2 = (r, t') -> started t2 = started t ++ [ssh_line u cmd] -> slept t2 = slept t ->
      exists k, started t' = started t ++ map (fun u => ssh_line u cmd) (take k (u :: users)) /\ slept t' = slept t /\
      match r with inl (_, _, u') => (k <= length (u :: users))%nat /\ last (take k (u :: users)) = Some u' | inr _ => k = length (u :: users) end) as Hrest.
    { intros e2 t2 E2 Hs2 Ht2. destruct (IH _ _ _ _ E2) as (k & Hk & Ht & Hr). exists (S k). rewrite Hk, Hs2, Ht, Ht2, <- app_assoc.
      split; [done|]. split; [done|]. destruct r as [[[code o] u']|]; cbn [length take]; [|lia]. destruct Hr as [Hle Hl]. split; [lia|].
      rewrite last_cons, Hl. done. }
    destruct (converse 2 _ 0) as [code o| |].
    + simplify_eq. exists 1%nat. repeat split. simpl. lia.
    + by eapply Hrest; [apply E | |].
    + by eapply Hrest; [apply E | |].
Qed.
Lemma attempt_lines n : forall i cmd lst t r t', attempt n i cmd lst t = (r, t') ->
  exists k, started t' = started t ++ map (fun u => ssh_line u cmd) (take k (concat (repeat USERS n))) /\
  match r with
  | inl (_, _, u) => (k <= n * length USERS)%nat /\ last (take k (concat (repeat USERS n))) = Some u
  | inr _ => k = (n * length USERS)%nat
  end.
Proof.
  induction n as [|n IH]; intros i cmd lst t r t' E; cbn [attempt] in E.
  - simplify_eq. exists O. by rewrite app_nil_r.
  - destruct (run_once USERS cmd "" t) as [r1 t1] eqn:E1. apply run_once_lines in E1 as (k & Hk & Ht & Hr). cbn [repeat concat].
    destruct r1 as [[[code o] u]|e].
    + simplify_eq. destruct Hr as [Hle Hl]. exists k. rewrite take_app_le by done. repeat split; [done | lia | done].
    + subst k. apply IH in E as (k & Hk2 & Hr). cbn [started] in Hk2. exists (length USERS + k)%nat.
      rewrite Hk2, Hk, take_ge, take_app_add, map_app, <- app_assoc by lia. split; [done|].
      destruct r as [[[code o] u]|]; [|lia]. destruct Hr as [Hle Hl]. split; [lia|]. by rewrite last_app, Hl.
Qed.
End Ssh.

(** ** bcm_sock.py: the chip's diagnostic shell over a unix socket *)

Definition PROMPTS : list string := ["BCM.0>"; "drivshell>"; "BCMLT.0>"].
(** what [recv] gives, and the milliseconds until it does *)
Inductive Recv := Chunk (wait : Z) (text : string) | Closed (wait : Z) | RecvTimeout.
(** the reading loop of one command: [left] milliseconds before the limit.
    The result has the text, whether the prompt was seen, and what is still
    to be received *)
Fixpoint read_reply (net : list Recv) (left : Z) (buf : string) : string * bool * list Recv :=
  if left <=? 0 then (buf, false, net) else
  match net with
  | Chunk w text :: net' =>
      let buf := buf +:+ text in
      if existsb (fun p => contains p buf) PROMPTS then (buf, true, net') else read_reply net' (left - w) buf
  | Closed _ :: _ | [] => (buf, false, net)
  | RecvTimeout :: net' => (buf, false, net')
  end.
Fixpoint sock_run (cmds : list string) (net : list Recv) : list string :=
  match cmds with
  | [] => []
  | _ :: cmds' => let '(buf, _, net') := read_reply net 5000 "" in buf :: sock_run cmds' net'
  end.
Definition bcm_sock_run (cmds : list string) (net : list Recv) : string := join (s1 lf) (sock_run cmds net).

(** a reply that comes after the limit of its command is taken for the reply
    of the next one *)
Example ex_sock_late : sock_run ["ps"; "version"] [RecvTimeout; Chunk 10 "ports BCM.0>"; Chunk 10 "6.5 BCM.0>"] = [""; "ports BCM.0>"].
Proof. reflexivity. Qed.

(** a time-out under one user starts the command again under the next one,
    with [--once] too *)
Example ex_once_twice :
  let t := snd (ssh_main "h" "p" ["admin"; "root"] (fun n _ => mkChild (fun _ => match n with O => Timeout | _ => Eof end) "" (Some 0)) ["--once"; "reboot"]) in
  started t = [ssh_line "h" "admin" "reboot"; ssh_line "h" "root" "reboot"].
Proof. reflexivity. Qed.
