(* ===== verification/LoopChip.v ===== *)
(** * The record and the chip

    What the loopback manager's tables promise about the chip: no port is in
    loopback on the chip that is not on the record, after any of its
    operations with any outcomes, so that the guard between two tests, which
    clears by the record, leaves no loopback on the chip. *)

From S2P Require Import Prelude PyStr PyStrFacts PyVal Device DeviceFacts Toy CliParse Cli CliFacts CliFrame Worker Profile Dut Loopback LoopbackFacts Topology Obj Traffic L3 L3Facts Links Fixtures FixturesFacts.

#[local] Hint Constants Opaque : steps.

(** the name of one port in the diagnostic shell: letters, digits at the end;
    a name without digits stands for every port of the kind *)
Definition plain (b : string) : bool :=
  str_forall is_word b && match str_rev b with String c _ => is_digit c | "" => false end.

(** ** A chip with a loopback state per port *)

(** [port <range> lb=<mode>] is the only command that changes a loopback, and
    [lb=none] ends it on every port of the range *)
Class LoopLaws `{Device} `{WorkerEnv} `{DutEnv} `{LbEnv}
    (looped : dev -> string -> bool) (covers : string -> string -> bool) : Prop := {
  loop_access : b_access lb_bsh = "bcmcmd";
  loop_range : token clear_range = true;
  covers_plain : forall b q, plain b = true -> covers b q = String.eqb b q;
  loop_on : forall rng v d q, token rng = true ->
    looped (snd (dev_exec (chip_call ("port " +:+ rng +:+ " lb=" +:+ v)) d)) q = true -> covers rng q = true \/ looped d q = true;
  loop_off : forall rng d q, token rng = true ->
    looped (snd (dev_exec (chip_call ("port " +:+ rng +:+ " lb=none")) d)) q = true -> covers rng q = false /\ looped d q = true;
  loop_other : forall c d, (forall rng v, token rng = true -> c <> "port " +:+ rng +:+ " lb=" +:+ v) ->
    looped (snd (dev_exec (chip_call c) d)) = looped d;
  loop_read : forall name d, looped (snd (dev_exec (Call None (oper_up_cmd name) 30000 None) d)) = looped d;
  loop_time : forall t d, looped (dev_sleep t d) = looped d
}.

Lemma plain_token b : plain b = true -> token b = true.
Proof.
  unfold plain, token. intros [Hw Hd]%andb_true_iff. apply andb_true_iff. split.
  - destruct b; [|done]. by cbn in Hd.
  - eapply str_forall_impl; [|exact Hw]. intros c Hc. enough (negb (is_word c) || is_nospace c = true) as Ho by by rewrite Hc in Ho.
    revert c Hc. intros c _. revert c. by apply ascii_all.
Qed.

(** a command that begins otherwise, or asks the port for something else, is
    no loopback command *)
Lemma not_lb_word c : starts "port " c = false -> forall rng v, c <> "port " +:+ rng +:+ " lb=" +:+ v.
Proof. intros Hc rng v ->. by rewrite starts_app in Hc. Qed.
Lemma not_lb_arg b arg : token b = true -> starts "lb=" arg = false ->
  forall rng v, token rng = true -> "port " +:+ b +:+ " " +:+ arg <> "port " +:+ rng +:+ " lb=" +:+ v.
Proof.
  intros Hb Ha rng v Hr E. change ("port " +:+ b +:+ String " " arg = "port " +:+ rng +:+ String " " ("lb=" +:+ v)) in E.
  apply (f_equal (str_drop 5)) in E. rewrite !(str_drop_app "port ") in E. apply (f_equal (cut " "%char)) in E.
  rewrite !cut_app in E; [|by apply token_no_space..]. injection E as -> ->. by rewrite starts_app in Ha.
Qed.

Section Chip.
Context `{Device} `{ShellEnv} `{!LiveShell} `{CliEnv} `{WorkerEnv} `{DutEnv} `{LbEnv} `{!TimeLaws}.
Context (looped : dev -> string -> bool) (covers : string -> string -> bool) `{!LoopLaws looped covers}.

(** ** Operations that leave the loopbacks alone *)

Definition calm (w w' : World) : Prop := looped (w_dev w') = looped (w_dev w).
#[local] Instance calm_pre : PreOrder calm.
Proof. split; unfold calm; [intros ?; done | intros ???; congruence]. Qed.

(** a chip command that is not the bare counter reset *)
Definition sendable_cmd (c : string) : Prop := exists a s, c = String a s /\ is_space a = false /\ a <> "c"%char.
Lemma chip_dev c w : sendable_cmd c -> w_dev (snd (chip c w)) = snd (dev_exec (chip_call c) (w_dev w)).
Proof.
  intros (a & s & -> & Ha & Hc). destruct (chip_run (String a s) w (starts_strip a s "" Ha Hc) loop_access) as [o ->]. done.
Qed.
Lemma chip__dev c w : sendable_cmd c -> w_dev (snd (chip_ c w)) = snd (dev_exec (chip_call c) (w_dev w)).
Proof.
  intros Hc. rewrite <- (chip_dev c w Hc). unfold chip_, bind. destruct (keeps_chip c w) as (o & w' & -> & _). done.
Qed.
Lemma calm_chip c : sendable_cmd c -> (forall rng v, token rng = true -> c <> "port " +:+ rng +:+ " lb=" +:+ v) -> steps calm (chip c).
Proof. intros Hc Hn w. unfold calm. rewrite chip_dev by done. by apply loop_other. Qed.
Lemma calm_chip_ c : sendable_cmd c -> (forall rng v, token rng = true -> c <> "port " +:+ rng +:+ " lb=" +:+ v) -> steps calm (chip_ c).
Proof. intros. apply steps_bind; [apply _ | by apply calm_chip | intros; apply steps_ret, _]. Qed.
Lemma calm_sleep t : steps calm (sleep t).
Proof. intros w. apply loop_time. Qed.
Lemma calm_lb f : steps calm (modify_lb f).
Proof. by intros w. Qed.
Lemma calm_bcm p : steps calm (lb_bcm p).
Proof. by intros w. Qed.
Lemma calm_read n : steps calm (is_oper_up n).
Proof.
  intros w. unfold is_oper_up, sh_run. unfold bind at 1. rewrite run_full_native. unfold run_native. rewrite live. unfold bind, subprocess.
  pose proof (loop_read n (w_dev w)) as Hr. destruct (dev_exec _ (w_dev w)) as [[] d]; exact Hr.
Qed.
#[local] Hint Resolve calm_pre calm_sleep calm_lb calm_bcm calm_read : steps.

(** the commands of the manager, one by one *)
Lemma calm_discard b v : token b = true -> steps calm (chip_ ("port " +:+ b +:+ " discard=" +:+ v)).
Proof.
  intros Hb. apply calm_chip_; [by eexists _, _|]. intros rng v'. apply (not_lb_arg b ("discard=" +:+ v)); [done | reflexivity].
Qed.
Lemma calm_word c : sendable_cmd c -> starts "port " c = false -> steps calm (chip_ c).
Proof. intros Hc Hs. apply calm_chip_; [done|]. intros rng v _. by apply not_lb_word. Qed.
Lemma calm_pvlan_set b v : steps calm (chip_ ("pvlan set " +:+ b +:+ " " +:+ v)).
Proof. apply calm_word; [by eexists _, _ | reflexivity]. Qed.
Lemma calm_vlan_destroy v : steps calm (chip_ ("vlan destroy " +:+ v)).
Proof. apply calm_word; [by eexists _, _ | reflexivity]. Qed.
Lemma calm_vlan_create v : steps calm (chip_ ("vlan create " +:+ v)).
Proof. apply calm_word; [by eexists _, _ | reflexivity]. Qed.
Lemma calm_pvid b : steps calm (current_pvid b).
Proof.
  unfold current_pvid. apply steps_bind; [apply _ | | intros; apply steps_ret, _].
  apply calm_chip; [by eexists _, _|]. intros rng v _. by apply not_lb_word.
Qed.
Lemma calm_oper p : steps calm (wait_oper_up p).
Proof. unfold wait_oper_up. steps_go. Qed.
Lemma calm_quietly m : steps calm m -> steps calm (quietly m).
Proof. intros Hm. apply steps_try; [apply _ | done | intros; apply steps_ret, _]. Qed.
Lemma calm_undo f : steps calm (undo_flood f).
Proof. unfold undo_flood. apply calm_quietly. apply steps_bind; [apply _ | apply calm_pvlan_set | intros; apply calm_vlan_destroy]. Qed.
#[local] Hint Resolve calm_pvid calm_oper calm_undo calm_pvlan_set calm_vlan_destroy calm_vlan_create : steps.
Lemma calm_wait_cleared ps t : steps calm (wait_cleared_down ps t).
Proof. unfold wait_cleared_down, still_up. steps_go. Qed.

(** ** Loopbacks set and ended *)

Definition grows (b : string) (w w' : World) : Prop := forall q, looped (w_dev w') q = true -> q = b \/ looped (w_dev w) q = true.
#[local] Instance grows_pre b : PreOrder (grows b).
Proof. split; unfold grows; [intros w; auto|]. intros w1 w2 w3 H12 H23 q Hq. destruct (H23 q Hq); auto. Qed.
Lemma calm_grows {A} b (m : M A) : steps calm m -> steps (grows b) m.
Proof. intros Hm w q. rewrite (Hm w). auto. Qed.
Lemma lb_cmd_sendable b v : sendable_cmd ("port " +:+ b +:+ " lb=" +:+ v).
Proof. by eexists _, _. Qed.
Lemma grows_on b v : plain b = true -> steps (grows b) (chip_ ("port " +:+ b +:+ " lb=" +:+ v)).
Proof.
  intros Hb w q. rewrite chip__dev by apply lb_cmd_sendable. intros Hq.
  apply loop_on in Hq as [Hq|]; [|by right|by apply plain_token]. left. rewrite covers_plain in Hq by done. symmetry. by apply String.eqb_eq.
Qed.
(** ending the loopback of a port, or of a range *)
Lemma off_range rng w r w' : token rng = true -> chip_ ("port " +:+ rng +:+ " lb=none") w = (r, w') ->
  forall q, looped (w_dev w') q = true -> covers rng q = false /\ looped (w_dev w) q = true.
Proof.
  intros Ht E q Hq. pose proof (chip__dev ("port " +:+ rng +:+ " lb=none") w (lb_cmd_sendable rng "none")) as Hd.
  rewrite E in Hd. cbn [snd] in Hd. rewrite Hd in Hq. by apply loop_off in Hq.
Qed.

(** ** The invariant *)

(** a port of this worker whose chip port is one port *)
Definition mine (p : Port) : Prop :=
  match bcm_of lb_dut p with Val b => plain b = true /\ covers clear_range b = true | _ => True end.
Definition known (l : LbState) : list Port := dkeys (lb_on l) ++ dkeys (lb_flood_safe l) ++ dkeys (lb_held l).
(** every loopback of the chip is one of a port on the record *)
Definition on_record (w : World) : Prop := forall q, looped (w_dev w) q = true ->
  covers clear_range q = true /\ exists p m, dget p (lb_on (w_lb w)) = Some m /\ bcm_of lb_dut p = Val q.
Record safe (w : World) : Prop := {
  safe_chip : on_record w;
  safe_mine : forall p, p ∈ known (w_lb w) -> mine p;
  safe_flood : forall x, x ∈ lb_flood_safe (w_lb w) -> token (fs_bcm (snd x)) = true
}.
Definition saves (w w' : World) : Prop := safe w -> safe w'.
#[local] Instance saves_pre : PreOrder saves.
Proof. split; unfold saves; [intros w; auto | intros w1 w2 w3; auto]. Qed.

(** the tables the invariant reads are left alone *)
Definition same_tables (w w' : World) : Prop :=
  lb_on (w_lb w') = lb_on (w_lb w) /\ lb_flood_safe (w_lb w') = lb_flood_safe (w_lb w) /\ lb_held (w_lb w') = lb_held (w_lb w).
Lemma safe_same w w' : calm w w' -> same_tables w w' -> saves w w'.
Proof.
  intros Hc (Ho & Hf & Hh) [Hr Hm Hb]. split; unfold on_record, known in *; rewrite ?Hc, ?Ho, ?Hf, ?Hh; done.
Qed.
Lemma same_lb_tables w w' : same_lb w w' -> same_tables w w'.
Proof. unfold same_lb, same_tables. by intros ->. Qed.
Lemma calm_saves {A} (m : M A) : steps calm m -> steps same_lb m -> steps saves m.
Proof. intros Hc Hl w. apply safe_same; [apply Hc | apply same_lb_tables, Hl]. Qed.

Lemma dkeys_ddel {V} (p q : Port) (d : pydict Port V) : q ∈ dkeys (ddel p d) -> q ∈ dkeys d.
Proof.
  induction d as [|[k v] d IH]; [done|]. cbn [ddel]. case_decide; cbn [dkeys map fst]; [by right|].
  intros [->|Hq]%elem_of_cons; [left | right; by apply IH].
Qed.
Lemma dkeys_dset {V} (p q : Port) (v : V) d : q ∈ dkeys (dset p v d) -> q = p \/ q ∈ dkeys d.
Proof.
  induction d as [|[k u] d IH]; cbn [dset dkeys map fst]; [intros ->%list_elem_of_singleton; by left|].
  case_decide as Hd; cbn [map fst].
  - intros [->|Hq]%elem_of_cons; [by left | right; by right].
  - intros [->|Hq]%elem_of_cons; [right; left|]. destruct (IH Hq); [by left | right; by right].
Qed.
Lemma ddel_elem {V} (p : Port) (x : Port * V) d : x ∈ ddel p d -> x ∈ d.
Proof.
  induction d as [|[k v] d IH]; [done|]. cbn [ddel]. case_decide; [by right|].
  intros [->|Hq]%elem_of_cons; [left | right; by apply IH].
Qed.
Lemma dset_elem {V} (p : Port) (v : V) (x : Port * V) d : x ∈ dset p v d -> x = (p, v) \/ x ∈ d.
Proof.
  induction d as [|[k u] d IH]; cbn [dset]; [intros ->%list_elem_of_singleton; by left|].
  case_decide as Hd.
  - intros [->|Hq]%elem_of_cons; [by left | right; by right].
  - intros [->|Hq]%elem_of_cons; [right; left|]. destruct (IH Hq); [by left | right; by right].
Qed.

(** ** The operations *)

(** a loopback that comes with its entry on the record *)
Lemma safe_on p b x w w' : mine p -> bcm_of lb_dut p = Val b -> safe w -> grows b w w' ->
  lb_on (w_lb w') = dset p x (lb_on (w_lb w)) -> lb_held (w_lb w') = lb_held (w_lb w) ->
  (lb_flood_safe (w_lb w') = lb_flood_safe (w_lb w) \/
   exists f, lb_flood_safe (w_lb w') = dset p f (lb_flood_safe (w_lb w)) /\ fs_bcm f = b) -> safe w'.
Proof.
  intros Hm Hb [Hr Hk Hf] Hg Ho Hh Hfl. pose proof Hm as Hm2. unfold mine in Hm2. rewrite Hb in Hm2. destruct Hm2 as [Hpl Hcv].
  assert (forall r, r ∈ dkeys (lb_flood_safe (w_lb w')) -> r = p \/ r ∈ dkeys (lb_flood_safe (w_lb w))) as Hfk.
  { intros r. destruct Hfl as [->|(f & -> & _)]; [by right | apply dkeys_dset]. }
  split.
  - intros q Hq. rewrite Ho. destruct (Hg q Hq) as [->|Hq'].
    + split; [done|]. exists p, x. by rewrite dget_dset_eq.
    + destruct (Hr q Hq') as [Hc (p' & m & Hd & Hb')]. split; [done|].
      destruct (decide (p' = p)) as [->|Hne]; [exists p, x; by rewrite dget_dset_eq | exists p', m; by rewrite dget_dset_ne].
  - intros r. unfold known in *. rewrite Ho, Hh, !elem_of_app. intros [Hi|[Hi|Hi]].
    + apply dkeys_dset in Hi as [->|Hi]; [done | apply Hk; rewrite !elem_of_app; auto].
    + apply Hfk in Hi as [->|Hi]; [done | apply Hk; rewrite !elem_of_app; auto].
    + apply Hk. rewrite !elem_of_app. auto.
  - intros y. destruct Hfl as [->|(f & -> & Hfb)]; [apply Hf|]. intros [->|Hy]%dset_elem; [cbn; rewrite Hfb; by apply plain_token | by apply Hf].
Qed.

(** setting the loopback of a port, with the name of its chip port *)
Lemma lb_set_spec p b v w : bcm_of lb_dut p = Val b -> plain b = true ->
  exists w', lb_set p v w = (Val b, w') /\ w_lb w' = w_lb w /\ grows b w w'.
Proof.
  intros Hb Hp. destruct (keeps_unit (chip_ ("port " +:+ b +:+ " lb=" +:+ v)) w (keeps_chip_ _)) as (w1 & E & L).
  exists w1. split; [|split; [done|]].
  - unfold lb_set, lb_bcm, lift, bind. by rewrite Hb, E.
  - pose proof (grows_on b v Hp w) as Hg. by rewrite E in Hg.
Qed.
Lemma mine_bcm p b : mine p -> bcm_of lb_dut p = Val b -> plain b = true /\ covers clear_range b = true.
Proof. unfold mine. intros Hm E. by rewrite E in Hm. Qed.

Lemma saves_enable p m d up : mine p -> steps saves (enable p m d up).
Proof.
  intros Hm w Hs. destruct (bcm_of lb_dut p) as [b|e|] eqn:Hb.
  2,3: unfold enable, lb_set, lb_bcm, lift, bind; by rewrite Hb.
  destruct (mine_bcm p b Hm Hb) as [Hpl _]. pose proof (plain_token b Hpl) as Ht.
  destruct (enable_lb p m d up b w Hb) as (w' & E & L).
  apply (safe_on p b ((if truthy m then or_empty m else lb_mode), d) w _ Hm Hb Hs); rewrite ?E; cbn [snd]; rewrite ?L; auto.
  unfold enable in E. destruct (lb_set_spec p b (if truthy m then or_empty m else lb_mode) w Hb Hpl) as (w1 & E1 & _ & Hg).
  rewrite (bind_step _ _ _ _ _ E1) in E. etransitivity; [exact Hg|].
  match type of E with ?m0 w1 = _ => assert (steps calm m0) as Hc end.
  { steps_go. by apply calm_discard. }
  apply (calm_grows b) in Hc. specialize (Hc w1). by rewrite E in Hc.
Qed.

(** a loopback that ends with its entry *)
Lemma saves_disable p : mine p -> steps saves (disable p).
Proof.
  intros Hm w [Hr Hk Hf]. destruct (bcm_of lb_dut p) as [b|e|] eqn:Hb.
  2,3: unfold disable, lb_bcm, lift, bind; by rewrite Hb.
  destruct (mine_bcm p b Hm Hb) as [Hpl _]. pose proof (plain_token b Hpl) as Ht.
  destruct (disable_lb p b w Hb) as (w' & E & L). rewrite E. cbn [snd].
  assert (forall q, looped (w_dev w') q = true -> q <> b /\ looped (w_dev w) q = true) as Hoff.
  { unfold disable in E. rewrite (bind_step _ _ b w w) in E by (unfold lb_bcm, lift; by rewrite Hb).
    rewrite (bind_step _ _ (w_lb w) w w) in E by done.
    set (dc := match dget p (lb_on (w_lb w)) with Some (_, d) => d | None => false end) in E.
    destruct (keeps_unit (when dc (chip_ ("port " +:+ b +:+ " discard=none"))) w (keeps_when _ _ (keeps_chip_ _))) as (w1 & E1 & _).
    rewrite (bind_step _ _ _ _ _ E1) in E.
    destruct (keeps_unit (chip_ ("port " +:+ b +:+ " lb=none")) w1 (keeps_chip_ _)) as (w2 & E2 & _).
    rewrite (bind_step _ _ _ _ _ E2) in E. intros q Hq.
    assert (w_dev w' = w_dev w2) as Hd by (unfold modify_lb in E; by simplify_eq). rewrite Hd in Hq.
    apply (off_range b w1 _ w2 Ht E2) in Hq as [Hc Hq].
    assert (calm w w1) as Hcalm.
    { assert (steps calm (chip_ ("port " +:+ b +:+ " discard=none"))) as Hcd by by apply (calm_discard b "none").
      pose proof (steps_when _ dc _ Hcd w) as Hw. by rewrite E1 in Hw. }
    rewrite Hcalm in Hq. split; [|done]. intros ->. by rewrite covers_plain, String.eqb_refl in Hc. }
  split.
  - intros q Hq. destruct (Hoff q Hq) as [Hne Hq']. destruct (Hr q Hq') as [Hc (p' & m & Hd & Hb')]. split; [done|].
    exists p', m. rewrite L. cbn [put_on lb_on]. rewrite dget_ddel_ne; [done|]. intros ->. congruence.
  - intros r. rewrite L. unfold known. cbn [put_on lb_on lb_flood_safe lb_held]. intros Hi. apply Hk. unfold known.
    rewrite !elem_of_app in *. destruct Hi as [Hi%dkeys_ddel|]; auto.
  - rewrite L. exact Hf.
Qed.

(** entries that leave the table of isolations *)
Lemma saves_pop p : steps saves (pop_flood p).
Proof.
  intros w [Hr Hk Hf]. unfold pop_flood, bind, get_lb, modify_lb. cbn. split; cbn.
  - exact Hr.
  - intros r Hi. apply Hk. unfold known in *. cbn in Hi. rewrite !elem_of_app in *. destruct Hi as [|[Hi%dkeys_ddel|]]; auto.
  - intros x Hx%ddel_elem. by apply Hf.
Qed.
Lemma pop_value p w : pop_flood p w = (Val (dget p (lb_flood_safe (w_lb w))), snd (pop_flood p w)).
Proof. reflexivity. Qed.
Lemma undo_saves f : steps saves (undo_flood f).
Proof. apply calm_saves; [apply calm_undo|]. intros w. by destruct (keeps_unit _ w (keeps_undo_flood f)) as (w' & -> & ?). Qed.
Lemma saves_quietly m : steps saves m -> steps saves (quietly m).
Proof. intros Hm. apply steps_try; [apply _ | done | intros; apply steps_ret, _]. Qed.
Lemma saves_disable_flood p : mine p -> steps saves (disable_flood_safe p).
Proof.
  intros Hm. unfold disable_flood_safe. apply steps_bind; [apply _ | apply saves_pop|]. intros f.
  apply steps_bind; [apply _ | | intros; by apply saves_disable]. destruct f; [apply undo_saves | apply steps_ret, _].
Qed.
Lemma saves_restore p : steps saves (restore_pvid p).
Proof.
  intros w Hs. unfold restore_pvid. rewrite (bind_step _ _ _ _ _ (pop_value p w)). set (w1 := snd (pop_flood p w)).
  pose proof (saves_pop p w Hs) as Hs1. fold w1 in Hs1. destruct (dget p (lb_flood_safe (w_lb w))) as [f|] eqn:E; [|exact Hs1].
  assert (token (fs_bcm f) = true) as Ht. { apply dget_Some_elem in E. by apply (safe_flood w Hs (p, f)). }
  destruct f as [b iso orig|b].
  - revert Hs1. generalize w1. apply (undo_saves (FsPvid b iso orig)).
  - revert Hs1. generalize w1. apply saves_quietly, calm_saves; [by apply (calm_discard b "none")|].
    intros w0. by destruct (keeps_unit _ w0 (keeps_chip_ ("port " +:+ b +:+ " discard=none"))) as (w' & -> & ?).
Qed.

Lemma saves_flood p vid : mine p -> steps saves (enable_flood_safe p vid).
Proof.
  intros Hm w Hs. destruct (bcm_of lb_dut p) as [b|e|] eqn:Hb.
  2,3: unfold enable_flood_safe, lb_bcm, lift, bind; by rewrite Hb.
  destruct (mine_bcm p b Hm Hb) as [Hpl _]. unfold enable_flood_safe. rewrite (bind_step _ _ b w w) by (unfold lb_bcm, lift; by rewrite Hb).
  set (iso := remap_vid vid). assert (keeps_lb (current_pvid b)) as K0 by (apply keeps_bind; [apply keeps_chip | intros; apply keeps_ret]).
  destruct (K0 w) as (orig & w0 & E0 & L0). pose proof (calm_pvid b w) as C0. rewrite E0 in C0. cbn [snd] in C0. rewrite (bind_step _ _ _ _ _ E0).
  destruct (keeps_unit (chip_ ("vlan create " +:+ zs iso)) w0 (keeps_chip_ _)) as (w1 & E1 & L1).
  pose proof (calm_vlan_create (zs iso) w0) as C1. rewrite E1 in C1. cbn [snd] in C1. rewrite (bind_step _ _ _ _ _ E1).
  destruct (keeps_unit (chip_ ("port " +:+ b +:+ " lb=" +:+ lb_mode)) w1 (keeps_chip_ _)) as (w2 & E2 & L2).
  pose proof (grows_on b lb_mode Hpl w1) as G2. rewrite E2 in G2. cbn [snd] in G2. rewrite (bind_step _ _ _ _ _ E2).
  destruct (keeps_unit (chip_ ("pvlan set " +:+ b +:+ " " +:+ zs iso)) w2 (keeps_chip_ _)) as (w3 & E3 & L3).
  pose proof (calm_pvlan_set b (zs iso) w2) as C3. rewrite E3 in C3. cbn [snd] in C3. rewrite (bind_step _ _ _ _ _ E3).
  destruct (keeps_oper_up p w3) as (u & w4 & E4 & L4). pose proof (calm_oper p w3) as C4. rewrite E4 in C4. cbn [snd] in C4.
  rewrite (bind_step _ _ _ _ _ E4). unfold bind, modify_lb. cbn [snd].
  apply (safe_on p b ("mac", false) w _ Hm Hb Hs); cbn [w_lb put_flood put_touched put_on lb_on lb_held lb_flood_safe].
  - intros q Hq. unfold calm in *. cbn [w_dev] in Hq. rewrite C4, C3 in Hq. apply G2 in Hq as [|Hq]; [by left|]. right. by rewrite C1, C0 in Hq.
  - by rewrite L4, L3, L2, L1, L0.
  - by rewrite L4, L3, L2, L1, L0.
  - right. eexists. split; [by rewrite L4, L3, L2, L1, L0 | done].
Qed.

(** the sweeps, over the ports on the record *)
Lemma known_mine w p : safe w -> p ∈ dkeys (lb_on (w_lb w)) \/ p ∈ dkeys (lb_flood_safe (w_lb w)) -> mine p.
Proof. intros Hs Hp. apply (safe_mine w Hs). unfold known. rewrite !elem_of_app. destruct Hp; auto. Qed.
Lemma saves_cleanup : steps saves cleanup.
Proof.
  intros w Hs. unfold cleanup. rewrite (bind_step _ _ (w_lb w) w w) by done.
  assert (steps saves (for_each (dkeys (lb_flood_safe (w_lb w))) (fun p => quietly (disable_flood_safe p)))) as H1'.
  { apply steps_for_each_in; [apply _|]. intros p Hp. apply saves_quietly, saves_disable_flood. eapply known_mine; eauto. }
  specialize (H1' w Hs). unfold bind at 1. destruct (for_each _ _ w) as [[u|e|] w1]; [|done..]. cbn [snd] in H1'.
  rewrite (bind_step _ _ (w_lb w1) w1 w1) by done.
  refine (steps_for_each_in saves _ _ _ w1 H1'). intros p Hp. apply saves_quietly, saves_disable. eapply known_mine; eauto.
Qed.

Lemma saves_reopen p v : mine p -> steps saves (lb_set p v ;;; modify_lb (put_on (dset p (v, false)))).
Proof.
  intros Hm w Hs. destruct (bcm_of lb_dut p) as [b|e|] eqn:Hb.
  2,3: unfold lb_set, lb_bcm, lift, bind; by rewrite Hb.
  destruct (mine_bcm p b Hm Hb) as [Hpl _]. destruct (lb_set_spec p b v w Hb Hpl) as (w1 & E1 & L1 & Hg). rewrite (bind_step _ _ _ _ _ E1).
  apply (safe_on p b (v, false) w _ Hm Hb Hs); cbn [modify_lb snd w_lb put_on lb_on lb_held lb_flood_safe]; rewrite ?L1; auto.
Qed.

(** the clearing of the range reaches every loopback, and the held ones are
    set again with their entries *)
Lemma force_clear_chip w : safe w ->
  safe (snd (force_clear_all w)) /\ (lb_held (w_lb w) = [] -> forall q, looped (w_dev (snd (force_clear_all w))) q = false).
Proof.
  intros Hs. unfold force_clear_all. rewrite (bind_step _ _ (w_lb w) w w) by done.
  destruct (keeps_unit _ w (keeps_for_each (lb_flood_safe (w_lb w)) _ (fun pf => keeps_undo_flood (snd pf)))) as (w1 & E1 & L1).
  assert (calm w w1) as C1.
  { assert (steps calm (for_each (lb_flood_safe (w_lb w)) (fun pf => undo_flood (snd pf)))) as Hc by steps_go.
    specialize (Hc w). by rewrite E1 in Hc. }
  rewrite (bind_step _ _ _ _ _ E1).
  set (w2 := mkWorld (w_dev w1) (w_trace w1) (w_cli w1) (put_flood (fun _ => []) (w_lb w1))). rewrite (bind_step _ _ tt w1 w2) by done.
  destruct (keeps_unit (chip_ ("port " +:+ clear_range +:+ " lb=none")) w2 (keeps_chip_ _)) as (w3 & E3 & L3).
  rewrite (bind_step _ _ tt w2 w3) by (unfold quietly, try_except; by rewrite E3).
  assert (forall q, looped (w_dev w3) q = false) as Hnone.
  { intros q. apply not_true_is_false. intros Hq. apply (off_range clear_range w2 _ w3 loop_range E3) in Hq as [Hc Hq].
    unfold calm in C1. cbn [w2 w_dev] in Hq. rewrite C1 in Hq. destruct (safe_chip w Hs q Hq) as [Hc' _]. congruence. }
  set (w4 := mkWorld (w_dev w3) (w_trace w3) (w_cli w3) (put_on (fun _ => []) (w_lb w3))). rewrite (bind_step _ _ tt w3 w4) by done.
  assert (lb_held (w_lb w4) = lb_held (w_lb w)) as Hh by (cbn [w4 w_lb put_on lb_held]; rewrite L3; cbn [w2 w_lb put_flood lb_held]; by rewrite L1).
  assert (safe w4) as Hs4.
  { split.
    - intros q Hq. cbn [w4 w_dev] in Hq. by rewrite Hnone in Hq.
    - intros p. unfold known. rewrite Hh. cbn [w4 w_lb put_on lb_on lb_flood_safe dkeys map app]. rewrite L3. cbn [w2 w_lb put_flood lb_flood_safe map app].
      intros Hp. apply (safe_mine w Hs). unfold known. rewrite !elem_of_app. auto.
    - intros x. cbn [w4 w_lb put_on lb_flood_safe]. rewrite L3. cbn [w2 w_lb put_flood lb_flood_safe]. intros Hx. by apply elem_of_nil in Hx. }
  rewrite (bind_step _ _ (w_lb w4) w4 w4) by done. rewrite Hh.
  set (m := for_each (lb_held (w_lb w)) _). assert (steps saves m) as Hm.
  { apply steps_for_each_in; [apply _|]. intros [p v] Hp. apply saves_quietly, saves_reopen. apply (safe_mine w Hs). unfold known.
    rewrite !elem_of_app. right. right. change p with (fst (p, v)). by apply list_elem_of_fmap_2. }
  specialize (Hm w4 Hs4). unfold bind. destruct (m w4) as [r w5] eqn:E5. cbn [snd] in Hm. split.
  - destruct r as [[]|e|]; exact Hm.
  - intros Hh0 q. unfold m in E5. rewrite Hh0 in E5. cbn in E5. injection E5 as <- <-. apply Hnone.
Qed.
Lemma saves_force_clear : steps saves force_clear_all.
Proof. intros w Hs. by apply force_clear_chip. Qed.

(** the test VLAN touches no table the invariant reads *)
#[local] Instance same_tables_pre : PreOrder same_tables.
Proof. split; [by intros w|]. intros w1 w2 w3 (A & B & C) (A' & B' & C'). repeat split; congruence. Qed.
Lemma tables_same {A} (m : M A) : steps same_lb m -> steps same_tables m.
Proof. intros Hm w. apply same_lb_tables, Hm. Qed.
Lemma tables_run cmd cont check t stdin : steps same_tables (run_full cmd cont check t stdin).
Proof. apply tables_same, same_lb_run. Qed.
Lemma tables_sleep t : steps same_tables (sleep t).
Proof. by apply tables_same. Qed.
Lemma tables_cli f : steps same_tables (modify_cli f).
Proof. by apply tables_same. Qed.
Lemma tables_vlan v : steps same_tables (modify_lb (put_test_vlan v)).
Proof. by intros w. Qed.
Lemma tables_touch : steps same_tables (modify_lb put_touched).
Proof. by intros w. Qed.
#[local] Hint Resolve same_tables_pre tables_run tables_sleep tables_cli tables_vlan tables_touch : steps.
Lemma tables_config n c a : steps same_tables (config_n n c a).
Proof. apply frame_config; auto with steps; apply _. Qed.
Lemma tables_startup p : steps same_tables (intf_startup p).
Proof. apply frame_intf_startup; auto with steps; apply _. Qed.
Lemma tables_chip c : steps same_tables (chip c).
Proof. unfold chip, bsh_cmd, sock_cmd. frame_go. Qed.
Lemma tables_chip_ c : steps same_tables (chip_ c).
Proof. unfold chip_, chip, bsh_cmd, sock_cmd. frame_go. Qed.
Lemma tables_bcm p : steps same_tables (lb_bcm p).
Proof. by intros w. Qed.
#[local] Hint Resolve tables_config tables_startup tables_chip tables_chip_ tables_bcm : steps.
Lemma tables_ensure n : steps same_tables (ensure_port_l2 n).
Proof. unfold ensure_port_l2. frame_go. Qed.
Lemma tables_swp : steps same_tables lb_swp.
Proof. unfold lb_swp. frame_go. Qed.
Lemma tables_learn p t : steps same_tables (wait_learn_ready p t).
Proof. unfold wait_learn_ready. frame_go. Qed.
#[local] Hint Resolve tables_ensure tables_swp tables_learn : steps.
Lemma tables_quietly m : steps same_tables m -> steps same_tables (quietly m).
Proof. intros Hm. apply steps_try; [apply _ | done | intros; apply steps_ret, _]. Qed.
Ltac tables_go := repeat first [match goal with |- steps _ (quietly _) => apply tables_quietly end | progress frame_go].
Lemma tables_use_vlan vid ps r : steps same_tables (use_test_vlan vid ps r).
Proof. unfold use_test_vlan, use_test_vlan_cfg, vlan_member_add, vlan_untagged_flag. tables_go. Qed.
Lemma tables_drop_vlan : steps same_tables drop_test_vlan.
Proof. unfold drop_test_vlan. tables_go. Qed.

(** ** A session of tests *)

(** the ports of an operation are this worker's; the VLAN operations also go
    through the switch's own configuration, which leaves loopbacks alone *)
Definition op_mine (o : lb_op) : Prop :=
  match o with
  | LbEnable p _ _ _ | LbDisable p | LbFloodSafe p _ | LbDisableFloodSafe p | LbRestorePvid p => mine p
  | _ => True
  end.
Definition op_calm (o : lb_op) (w w' : World) : Prop :=
  match o with LbTestVlan _ _ _ | LbDropTestVlan => calm w w' | _ => True end.
Lemma saves_op o w : op_mine o -> op_calm o w (snd (lb_run o w)) -> saves w (snd (lb_run o w)).
Proof.
  destruct o as [p m d up|p|p vid|p|p|vid ps r| | |]; cbn [op_mine op_calm lb_run]; intros Hm Hc.
  - by apply saves_enable.
  - by apply saves_disable.
  - by apply saves_flood.
  - by apply saves_disable_flood.
  - apply saves_restore.
  - apply safe_same; [done|]. assert (steps same_tables (use_test_vlan vid ps r ;;; ret tt)) as Ht; [|apply Ht].
    apply steps_bind; [apply _ | apply tables_use_vlan | intros; apply steps_ret, _].
  - apply safe_same; [done | apply tables_drop_vlan].
  - apply saves_cleanup.
  - assert (steps saves (force_clear_all ;;; ret tt)) as Ht; [|apply Ht].
    apply steps_bind; [apply _ | apply saves_force_clear | intros; apply steps_ret, _].
Qed.

(** a test: loopback operations with any outcomes, and anything else that
    leaves the record and the chip's loopbacks alone *)
Inductive chip_test : World -> World -> Prop :=
| test_done w : chip_test w w
| test_lb o w r w1 w2 : lb_run o w = (r, w1) -> op_mine o -> op_calm o w w1 -> chip_test w1 w2 -> chip_test w w2
| test_other w w1 w2 : same_lb w w1 -> calm w w1 -> chip_test w1 w2 -> chip_test w w2.
(** tests, each followed by the guard *)
Inductive session : World -> World -> Prop :=
| session_start w : session w w
| session_next w w1 w2 w3 r : session w w1 -> chip_test w1 w2 -> per_test_lb_guard w2 = (r, w3) -> session w w3.

Lemma test_saves w w' : chip_test w w' -> saves w w'.
Proof.
  induction 1 as [w | o w r w1 w2 E Hm Hc _ IH | w w1 w2 Hl Hc _ IH]; [done | |].
  - etransitivity; [|exact IH]. pose proof (saves_op o w Hm) as Hs. rewrite E in Hs. by apply Hs.
  - etransitivity; [|exact IH]. apply safe_same; [done | by apply same_lb_tables].
Qed.
Lemma test_is_run w w' : chip_test w w' -> test_run w w'.
Proof. induction 1; [by constructor | by eapply run_lb | by eapply run_other]. Qed.

(** nothing in loopback, on the record or on the chip *)
Definition clean (w : World) : Prop :=
  lb_held (w_lb w) = [] /\ lb_on (w_lb w) = [] /\ lb_flood_safe (w_lb w) = [] /\ forall q, looped (w_dev w) q = false.
Lemma clean_safe w : clean w -> safe w.
Proof.
  intros (Hh & Ho & Hf & Hn). split.
  - intros q. by rewrite Hn.
  - intros p. unfold known. rewrite Hh, Ho, Hf. intros Hp. by apply elem_of_nil in Hp.
  - intros x. rewrite Hf. intros Hx. by apply elem_of_nil in Hx.
Qed.
Lemma guard_chip w : safe w -> lb_held (w_lb w) = [] -> (lb_touched (w_lb w) = false -> lb_on (w_lb w) = []) ->
  forall q, looped (w_dev (snd (per_test_lb_guard w))) q = false.
Proof.
  intros Hs Hh Ht q. unfold per_test_lb_guard. rewrite (bind_step _ _ (w_lb w) w w) by done.
  set (w1 := mkWorld (w_dev w) (w_trace w) (w_cli w)
    (mkLb (lb_on (w_lb w)) (lb_flood_safe (w_lb w)) (lb_test_vlan (w_lb w)) (lb_held (w_lb w)) false)).
  rewrite (bind_step _ _ tt w w1) by done. assert (safe w1) as Hs1 by (revert Hs; by apply safe_same). rewrite Hh.
  destruct (lb_touched (w_lb w)).
  - destruct (force_clear_chip w1 Hs1) as [_ Hn]. specialize (Hn Hh q). unfold when.
    match goal with |- context [quietly ?m] => assert (looped (w_dev (snd (m w1))) q = false) as Hm end.
    { unfold bind at 1. destruct (force_clear_all w1) as [[ps|e|] w2]; [|done..]. cbn [snd] in Hn.
      assert (steps calm (wait_cleared_down ps 4000 ;;; ret tt)) as Hc.
      { apply steps_bind; [apply _ | apply calm_wait_cleared | intros; apply steps_ret, _]. }
      by rewrite (Hc w2). }
    unfold quietly, try_except. revert Hm. match goal with |- context [looped (w_dev (snd (?m w1))) q] => destruct (m w1) as [[u|e|] w2] end; [done| |done].
    intros Hm. by case_match.
  - apply not_true_is_false. intros Hq. destruct (safe_chip w1 Hs1 q Hq) as [_ (p & x & Hd & _)]. cbn in Hd. by rewrite Ht in Hd.
Qed.

(** C1: no loopback on the chip outlives its test.  On a chip where [port
    <range> lb=<mode>] is what sets and ends loopbacks, from a state with
    none, let any number of tests run, each performing any loopback operations
    on this worker's ports with any outcomes and each followed by the guard.
    Before every test, and after every guard, the record is empty and no port
    of the chip is in loopback; and in the middle of a test every port that
    is in loopback on the chip is on the record. *)
Theorem no_loop_outlives_test w0 w w' : clean w0 -> session w0 w -> chip_test w w' ->
  clean w /\ on_record w'.
Proof.
  intros Hc Hs Ht. assert (clean w) as Hw.
  { clear Ht. induction Hs as [w0|w0 w1 w2 w3 r _ IH Ht E]; [done|]. specialize (IH Hc) as Hc1.
    pose proof (test_saves w1 w2 Ht (clean_safe w1 Hc1)) as Hs2. destruct Hc1 as (Hh & Ho & Hf & _).
    destruct (run_tracked w1 w2 (test_is_run _ _ Ht) Hh) as [Hh2 Hcov]. specialize (Hcov (or_intror (conj Ho Hf))).
    assert (forall q, looped (w_dev w3) q = false) as Hn.
    { intros q. pose proof (guard_chip w2 Hs2 Hh2) as Hg. rewrite E in Hg. apply Hg. intros Hf0. destruct Hcov as [|[]]; [congruence | done]. }
    destruct (guard_record w1 w2 Hh Ho Hf (test_is_run _ _ Ht)) as (w4 & E4 & Ho4 & Hf4 & Hh4 & _).
    rewrite E in E4. injection E4 as -> ->. by split_and!. }
  split; [done|]. apply safe_chip. by apply (test_saves w w'); [|apply clean_safe].
Qed.
End Chip.

(** ** A chip *)

Definition loop_step (c : call) (s : gset string) : raw * gset string :=
  if starts "bcmcmd 'port " (call_cmd c) then
    let a := str_drop 13 (call_cmd c) in
    match cut " "%char (str_take (slen a - 1) a) with
    | Some (rng, arg) =>
        if starts "lb=" arg && token rng then
          (ok_out "", if negb (String.eqb (str_drop 3 arg) "none") then {[rng]} ∪ s
                      else if String.eqb rng "all" then ∅ else s ∖ {[rng]})
        else (ok_out "", s)
    | None => (ok_out "", s)
    end
  else (ok_out "up", s).
Definition loop_chip : Device := state_device loop_step.
Definition loop_on_chip (d : gset string * Z) (q : string) : bool := bool_decide (q ∈ fst d).
Definition loop_covers (rng q : string) : bool := String.eqb rng "all" || String.eqb rng q.

Lemma loop_step_lb rng v s cont t i : token rng = true ->
  loop_step (Call cont ("bcmcmd '" +:+ ("port " +:+ rng +:+ " lb=" +:+ v) +:+ "'") t i) s =
  (ok_out "", if negb (String.eqb v "none") then {[rng]} ∪ s else if String.eqb rng "all" then ∅ else s ∖ {[rng]}).
Proof.
  intros Ht. unfold loop_step. cbn [call_cmd].
  replace ("bcmcmd '" +:+ ("port " +:+ rng +:+ " lb=" +:+ v) +:+ "'") with ("bcmcmd 'port " +:+ (rng +:+ String " " ("lb=" +:+ v)) +:+ "'")
    by (cbn; by rewrite !sapp_assoc).
  rewrite starts_app. change (str_drop 13 ("bcmcmd 'port " +:+ ?x)) with x. cbv zeta.
  rewrite take_quote, cut_app by by apply token_no_space. by rewrite starts_app, Ht, (str_drop_app "lb=").
Qed.
Lemma loop_chip_laws : @LoopLaws loop_chip serial no_bcm_env toy_lb loop_on_chip loop_covers.
Proof.
  split.
  - reflexivity.
  - reflexivity.
  - intros b q Hb. unfold loop_covers. destruct (String.eqb_spec b "all") as [->|]; done.
  - intros rng v [s t] q Ht. cbn [dev_exec loop_chip state_device fst snd]. unfold chip_call. rewrite loop_step_lb by done. cbn [snd].
    unfold loop_on_chip, loop_covers. cbn [fst]. rewrite !bool_decide_eq_true, orb_true_iff, !String.eqb_eq. repeat case_match; set_solver.
  - intros rng [s t] q Ht. cbn [dev_exec loop_chip state_device fst snd]. unfold chip_call.
    change (" lb=none") with (" lb=" +:+ "none"). rewrite loop_step_lb by done.
    cbn [snd]. change (String.eqb "none" "none") with true. cbn [negb].
    unfold loop_on_chip, loop_covers. cbn [fst]. rewrite !bool_decide_eq_true. rewrite orb_false_iff, !String.eqb_neq.
    destruct (String.eqb_spec rng "all"); set_solver.
  - intros c [s t] Hc. cbn [dev_exec loop_chip state_device fst snd]. unfold chip_call, loop_step. cbn [call_cmd].
    destruct (starts "bcmcmd 'port " ("bcmcmd '" +:+ c +:+ "'")) eqn:E; [|done].
    change (starts "port " (c +:+ String squote "") = true) in E. apply starts_before in E; [|done]. apply starts_drop in E.
    set (c' := str_drop (slen "port ") c) in E.
    replace (str_drop 13 ("bcmcmd '" +:+ c +:+ "'")) with (c' +:+ "'") by (rewrite E; reflexivity).
    cbv zeta. rewrite take_quote. destruct (cut " "%char c') as [[rng arg]|] eqn:Ec; [|done].
    destruct (starts "lb=" arg && token rng) eqn:El; [|done]. exfalso. apply andb_true_iff in El as [El Ht]. apply starts_drop in El.
    apply cut_spec in Ec as [Ec _]. apply (Hc rng (str_drop (slen "lb=") arg) Ht). by rewrite E, Ec, El.
  - intros n [s t]. reflexivity.
  - intros t [s t']. reflexivity.
Qed.

(** two tests on this chip: the first raises with a port in loopback, the
    guard runs; the second has a port and a flood-safe port in loopback *)
Lemma no_loop_outlives_test_witness :
  let run := @lb_run loop_chip plain_shell serial no_bcm_env toy_lb in
  let guard := @per_test_lb_guard loop_chip plain_shell serial no_bcm_env toy_lb in
  let p := mkPort "Ethernet4" (Some "cd3") None true in
  let w0 := @world loop_chip (∅, 0) cli_init in
  let w1 := snd (run (LbEnable p None false true) w0) in
  let w2 := snd (guard w1) in
  let w3 := snd (run (LbEnable p (Some "edb") false true) w2) in
  loop_on_chip (w_dev w1) "cd3" = true /\ loop_on_chip (w_dev w3) "cd3" = true /\
  @clean loop_chip loop_on_chip w2 /\ @on_record loop_chip serial no_bcm_env toy_lb loop_on_chip loop_covers w3.
Proof.
  intros run guard p w0 w1 w2 w3. split; [vm_compute; reflexivity|]. split; [vm_compute; reflexivity|].
  assert (@mine serial no_bcm_env toy_lb loop_covers p) as Hm by (vm_compute; auto).
  apply (@no_loop_outlives_test loop_chip plain_shell _ serial no_bcm_env toy_lb _ loop_on_chip loop_covers loop_chip_laws w0 w2 w3).
  - repeat split.
  - eapply session_next; [apply session_start | eapply (test_lb _ _ (LbEnable p None false true)); [apply surjective_pairing | exact Hm | exact I | apply test_done] | apply surjective_pairing].
  - eapply (test_lb _ _ (LbEnable p (Some "edb") false true)); [apply surjective_pairing | exact Hm | exact I | apply test_done].
Defined.
