(* ===== verification/BgpServe.v ===== *)
(** * The BGP speaker as a process (servers/bgp_speaker.py, [--serve])

    [_serve_main] reads its routes from the command line, starts the session
    thread, reports whether the session came up and then obeys the lines of its
    standard input.  The thread and the main program are interleaved: a step of
    [Serve] is one of the thread's, the end of the wait for the session, or a
    line of input. *)

From S2P Require Import Prelude PyStr PyStrFacts Device Dut Topology Bytes Bgp BgpFacts.

(** ** The command line *)

(** [dut_ip local_ip my_as [adv]] *)
Definition serve_args (argv : list string) : outcome (string * string * Z * list (string * string)) :=
  match argv with
  | dut_ip :: local_ip :: my_as :: rest =>
      match py_int my_as with
      | None => Exc (ValueError my_as)
      | Some n => Val (dut_ip, local_ip, n,
                       match rest with a :: _ => if nonempty a then parse_advertise a else [] | [] => [] end)
      end
  | _ => Exc IndexError
  end.

(** ** Starting the session *)

(** [PyBgpPeer.__init__]; an empty router id stands for [None] *)
Definition py_bgp_peer (local_ip : string) (my_as : Z) (router_id : string) (hold : Z)
    (adv : list (string * string)) : PyBgpPeer :=
  mkPeer my_as (if nonempty router_id then router_id else local_ip) hold adv false false 0 false Looping None [].

(** [_run] up to its loop: what the socket raised, if anything, then the OPEN *)
Definition connect (failure : option string) (p : PyBgpPeer) : PyBgpPeer :=
  match failure with
  | Some e => end_run (set_err e p)
  | None => match send true SOpen p with
            | Sent p' => p'
            | _ => end_run (set_err "OSError()" p)
            end
  end.

(** ** The process *)

Inductive stage := Waiting | Serving | Finished (code : Z) | Crashed.

(** [sv_seen]: the event [wait_established] waits for was set at some moment of
    the wait, although the session may have ended since *)
Record Serve := mkServe {
  sv_peer : PyBgpPeer;
  sv_connected : bool;
  sv_seen : bool;
  sv_stage : stage;
  sv_out : list string
}.

Definition serve_start (local_ip : string) (my_as : Z) (adv : list (string * string)) : Serve :=
  mkServe (py_bgp_peer local_ip my_as "" 90 adv) false false Waiting [].
Definition serve_main (argv : list string) : outcome Serve :=
  obind (serve_args argv) (fun '(_, local_ip, my_as, adv) => Val (serve_start local_ip my_as adv)).

(** a step of the thread: the owner's part is played by the main program *)
Definition thread_event (e : event) : bool :=
  match e with ERound _ _ _ _ | ECopy | EDump _ => true | _ => false end.
Definition on_peer (f : PyBgpPeer -> PyBgpPeer) (s : Serve) : Serve :=
  let p := f (sv_peer s) in
  mkServe p (sv_connected s) (sv_seen s || established p) (sv_stage s) (sv_out s).
Definition to_stage (st : stage) (s : Serve) : Serve :=
  mkServe (sv_peer s) (sv_connected s) (sv_seen s) st (sv_out s).
Definition say (line : string) (s : Serve) : Serve :=
  mkServe (sv_peer s) (sv_connected s) (sv_seen s) (sv_stage s) (sv_out s ++ [line]).

(** [peer.stop(); return code] *)
Definition finish (code : Z) (s : Serve) : Serve := to_stage (Finished code) (on_peer set_stop s).

(** a call of the owner that raises: the session is up and the message cannot
    be built for another reason than a bad address *)
Definition raises (ok : bool) (m : out_msg) (p : PyBgpPeer) : bool :=
  established p && match send ok m p with Raised => true | _ => false end.

(** a call of the owner and its reply; an exception ends the program *)
Definition obey (f : PyBgpPeer -> PyBgpPeer) (ok : bool) (m : out_msg) (s : Serve) : Serve :=
  if raises ok m (sv_peer s) then to_stage Crashed (on_peer f s) else say "OK" (on_peer f s).

(** one line of standard input *)
Definition serve_line (l : string) (ok : bool) (s : Serve) : Serve :=
  match parse_cmd l with
  | CSkip => s
  | CQuit => finish 0 s
  | CAnnounce p nh => obey (announce p nh ok) ok (SAnnounce p nh) s
  | CWithdraw p => obey (withdraw p ok) ok (SWithdraw p) s
  | CErr => say "ERR" s
  end.

(** the end of [wait_established(25)] and its report *)
Definition failed_line (p : PyBgpPeer) : string := "FAILED " +:+ default "None" (last_error p).
Definition serve_report (s : Serve) : Serve :=
  if sv_seen s then to_stage Serving (say "ESTABLISHED" s)
  else finish 1 (say (failed_line (sv_peer s)) s).

Inductive serve_event :=
| VConnect (failure : option string)
| VThread (e : event)
| VReport
| VLine (l : string) (ok : bool)
| VEof.

Definition serve_step (s : Serve) (e : serve_event) : option Serve :=
  match e, sv_stage s with
  | VConnect f, _ => if sv_connected s then None
      else Some (mkServe (connect f (sv_peer s)) true (sv_seen s) (sv_stage s) (sv_out s))
  | VThread e, _ =>
      if sv_connected s && thread_event e
      then match bgp_step (sv_peer s) e with Some p => Some (on_peer (fun _ => p) s) | None => None end
      else None
  | VReport, Waiting => Some (serve_report s)
  | VLine l ok, Serving => Some (serve_line l ok s)
  | VEof, Serving => Some (finish 0 s)
  | _, _ => None
  end.

Fixpoint serve_run (s : Serve) (es : list serve_event) : option Serve :=
  match es with
  | [] => Some s
  | e :: es' => match serve_step s e with Some s' => serve_run s' es' | None => None end
  end.

(** ** What runs keep *)

(** the program's own steps, not the thread's *)
Definition of_thread (e : serve_event) : bool :=
  match e with VConnect _ | VThread _ => true | _ => false end.

Lemma round_keeps t ok1 m ok2 p : advertise (round t ok1 m ok2 p) = advertise p /\ same_id p (round t ok1 m ok2 p).
Proof.
  unfold round, ka_due, on_msg. rewrite !send_ka. destruct (stopping p); [done|].
  repeat case_match; simplify_eq/=; rewrite ?send_ka in *; repeat case_match; simplify_eq/=; done.
Qed.

Lemma dump_keeps ok p r todo : advertise (dump_one ok p r todo) = advertise p /\ same_id p (dump_one ok p r todo).
Proof. unfold dump_one, send. repeat case_match; simplify_eq; done. Qed.

(** a step of the thread changes neither the list nor the identity *)
Lemma thread_keeps p e p' : thread_event e = true -> bgp_step p e = Some p' ->
  advertise p' = advertise p /\ same_id p p'.
Proof.
  destruct e; try done; intros _ E; unfold bgp_step in E; repeat case_match; simplify_eq; try done.
  - apply round_keeps.
  - apply dump_keeps.
Qed.

Lemma connect_keeps f p : advertise (connect f p) = advertise p /\ same_id p (connect f p).
Proof. unfold connect, send. repeat case_match; simplify_eq; done. Qed.

Lemma same_id_trans p q r : same_id p q -> same_id q r -> same_id p r.
Proof. unfold same_id. intros (-> & -> & ->). done. Qed.

Lemma serve_thread_keeps s e s' : of_thread e = true -> serve_step s e = Some s' ->
  sv_out s' = sv_out s /\ sv_stage s' = sv_stage s /\ advertise (sv_peer s') = advertise (sv_peer s)
  /\ same_id (sv_peer s) (sv_peer s').
Proof.
  destruct e as [f|e| | |]; try done; intros _ E; unfold serve_step in E.
  - destruct (sv_connected s); [done|]. simplify_eq. cbn. split; [done|]. split; [done|]. apply connect_keeps.
  - destruct (sv_connected s && thread_event e) eqn:Et; [|done]. apply andb_true_iff in Et as [_ Et].
    destruct (bgp_step (sv_peer s) e) as [p|] eqn:Ep; [|done]. simplify_eq. cbn. split; [done|]. split; [done|].
    by apply (thread_keeps _ e).
Qed.

Lemma owner_send_keeps ok m p : advertise (owner_send ok m p) = advertise p /\ same_id p (owner_send ok m p).
Proof. unfold owner_send, send. repeat case_match; simplify_eq; done. Qed.

(** ** The specification of the process

    An abstract server: a list of routes, and a reply for each line. *)

(** what a line does to the list of routes, and its reply *)
Definition route_op (adv : list (string * string)) (l : string) : list (string * string) :=
  match parse_cmd l with
  | CAnnounce p nh => adv ++ [(p, nh)]
  | CWithdraw p => List.filter (fun r => negb (String.eqb (fst r) p)) adv
  | _ => adv
  end.
Definition reply (l : string) : option string :=
  match parse_cmd l with
  | CAnnounce _ _ | CWithdraw _ => Some "OK"
  | CErr => Some "ERR"
  | CSkip | CQuit => None
  end.
(** the lines a run has read *)
Definition line_of (e : serve_event) : option string := match e with VLine l _ => Some l | _ => None end.
Definition lines_of (es : list serve_event) : list string := omap line_of es.

Lemma obey_serving f ok m s : sv_stage (obey f ok m s) = Serving ->
  sv_out (obey f ok m s) = sv_out s ++ ["OK"] /\ sv_peer (obey f ok m s) = f (sv_peer s) /\ sv_stage s = Serving.
Proof. unfold obey. by destruct (raises _ _ _). Qed.

Lemma serve_line_spec l ok s : sv_stage (serve_line l ok s) = Serving ->
  sv_out (serve_line l ok s) = sv_out s ++ option_list (reply l)
  /\ advertise (sv_peer (serve_line l ok s)) = route_op (advertise (sv_peer s)) l
  /\ same_id (sv_peer s) (sv_peer (serve_line l ok s)).
Proof.
  unfold serve_line, reply, route_op. destruct (parse_cmd l) as [| |p nh|p|]; cbn [option_list]; rewrite ?app_nil_r; try by repeat split.
  - intros (-> & -> & _)%obey_serving. split; [done|].
    apply (owner_send_keeps ok (SAnnounce p nh) (set_adv (advertise (sv_peer s) ++ [(p, nh)]) (sv_peer s))).
  - intros (-> & -> & _)%obey_serving. split; [done|].
    apply (owner_send_keeps ok (SWithdraw p) (set_adv (List.filter _ (advertise (sv_peer s))) (sv_peer s))).
Qed.

Lemma serve_run_snoc es e : forall s s', serve_run s (es ++ [e]) = Some s' <->
  exists s1, serve_run s es = Some s1 /\ serve_step s1 e = Some s'.
Proof.
  induction es as [|e0 es IH]; intros s s'; cbn [app serve_run].
  - split; [|by intros (? & [= <-] & ->)]. destruct (serve_step s e) eqn:E; [|done]. intros [= ->]. eauto.
  - destruct (serve_step s e0) as [s0|]; [apply IH|]. split; [done | by intros (? & ? & _)].
Qed.

(** the stage a step leaves from, when the program serves after it *)
Lemma serving_from s e s' : serve_step s e = Some s' -> sv_stage s' = Serving ->
  sv_stage s = Serving \/ (e = VReport /\ sv_stage s = Waiting /\ s' = to_stage Serving (say "ESTABLISHED" s) /\ sv_seen s = true).
Proof.
  intros E Hs. destruct (of_thread e) eqn:Et.
  { left. apply serve_thread_keeps in E as (_ & Hst & _); [congruence | done]. }
  destruct e; try done; cbn [serve_step] in E; destruct (sv_stage s) eqn:Hst; try done; simplify_eq; auto.
  right. unfold serve_report in *. by destruct (sv_seen s).
Qed.

Lemma waiting_from s e s' : serve_step s e = Some s' -> sv_stage s' = Waiting -> of_thread e = true.
Proof.
  intros E Hs. destruct e; try done; cbn [serve_step] in E; destruct (sv_stage s) eqn:Hst; try done; simplify_eq.
  - exfalso. unfold serve_report in Hs. by destruct (sv_seen s).
  - exfalso. unfold serve_line, obey in Hs. destruct (parse_cmd l); simpl in Hs; try congruence; destruct (raises _ _ _); simpl in Hs; congruence.
Qed.

(** C4: the speaker process is an abstract route server.  Whatever the session
    thread does in between and whatever the socket loses, a process that still
    serves has printed ESTABLISHED and then exactly one reply for each
    non-blank line it read, OK for a command and ERR for anything else, and its
    list of routes is the one of the command line changed by the lines in
    order. *)
Theorem serve_refines (local_ip : string) (my_as : Z) (adv : list (string * string)) (es : list serve_event) (s : Serve) :
  serve_run (serve_start local_ip my_as adv) es = Some s -> sv_stage s = Serving ->
  sv_out s = "ESTABLISHED" :: omap reply (lines_of es)
  /\ advertise (sv_peer s) = fold_left route_op (lines_of es) adv.
Proof.
  intros E. cut (match sv_stage s with
    | Waiting => sv_out s = [] /\ lines_of es = [] /\ advertise (sv_peer s) = adv
    | Serving => sv_out s = "ESTABLISHED" :: omap reply (lines_of es) /\ advertise (sv_peer s) = fold_left route_op (lines_of es) adv
    | _ => True end); [by intros Hx Hs; rewrite Hs in Hx|].
  revert s E. induction es as [|e es IH] using rev_ind; intros s' E; [by injection E as <-|].
  apply serve_run_snoc in E as (s & E0 & E). specialize (IH s E0). unfold lines_of in *. rewrite omap_app.
  destruct (of_thread e) eqn:Et.
  { pose proof (serve_thread_keeps _ _ _ Et E) as (-> & -> & -> & _).
    replace (omap line_of [e]) with (@nil string) by by destruct e. by rewrite app_nil_r. }
  destruct (sv_stage s') eqn:Hs'; try done.
  { by rewrite (waiting_from _ _ _ E Hs') in Et. }
  destruct (serving_from _ _ _ E Hs') as [Hs|(-> & Hs & -> & _)]; rewrite Hs in IH.
  - destruct e as [| | |l ok|]; try done; cbn [serve_step] in E; rewrite Hs in E; try done; injection E as <-; [|done].
    destruct (serve_line_spec l ok s Hs') as (-> & -> & _). destruct IH as [-> ->].
    cbn [omap list_omap line_of]. rewrite fold_left_app, omap_app. cbn [fold_left omap list_omap]. by destruct (reply l).
  - destruct IH as (Ho & Hl & Ha). cbn [omap list_omap line_of]. rewrite app_nil_r, Hl. cbn. by rewrite Ho, Ha.
Qed.

Lemma serve_refines_witness : exists s,
  serve_run (serve_start "10.99.1.2" 65002 [("10.251.0.0/24", "10.80.3.3")])
    [VConnect None; VThread (ERound 100 true (Some (OPEN, [])) true); VThread (ERound 101 true (Some (KEEPALIVE, [])) true);
     VReport; VThread ECopy; VThread (EDump true); VLine "announce 10.252.0.0/24 10.80.3.3" true; VLine "  " true;
     VLine "show" true; VThread (EDump false); VLine "withdraw 10.251.0.0/24" false] = Some s
  /\ sv_out s = ["ESTABLISHED"; "OK"; "ERR"; "OK"] /\ advertise (sv_peer s) = [("10.252.0.0/24", "10.80.3.3")].
Proof.
  eexists. split; [vm_compute; reflexivity|].
  apply (serve_refines "10.99.1.2" 65002 [("10.251.0.0/24", "10.80.3.3")]
    [VConnect None; VThread (ERound 100 true (Some (OPEN, [])) true); VThread (ERound 101 true (Some (KEEPALIVE, [])) true);
     VReport; VThread ECopy; VThread (EDump true); VLine "announce 10.252.0.0/24 10.80.3.3" true; VLine "  " true;
     VLine "show" true; VThread (EDump false); VLine "withdraw 10.251.0.0/24" false]); vm_compute; reflexivity.
Defined.

(** A malformed prefix is answered with OK before the session is up and ends the
    process, without a reply, once it is. *)
Example ex_malformed_prefix :
  let up := [VConnect None; VThread (ERound 100 true (Some (OPEN, [])) true);
             VThread (ERound 101 true (Some (KEEPALIVE, [])) true); VReport] in
  option_map (fun s => (sv_stage s, sv_out s))
    (serve_run (serve_start "10.99.1.2" 65002 []) (up ++ [VLine "withdraw 10.251.0.0" true])) = Some (Crashed, ["ESTABLISHED"])
  /\ option_map (fun s => (sv_stage s, sv_out s))
    (serve_run (serve_start "10.99.1.2" 65002 []) (up ++ [VThread ECopy; VThread (EDump true);
       VThread (ERound 102 true None true); VLine "withdraw 10.251.0.0" true])) = Some (Serving, ["ESTABLISHED"; "OK"]).
Proof. split; vm_compute; reflexivity. Qed.

(** ** When the session is reported *)

(** the message types the thread received *)
Definition heard_of (e : serve_event) : option Z :=
  match e with VThread (ERound _ _ (Some (mtype, _)) _) => Some mtype | _ => None end.
Definition heard (es : list serve_event) : list Z := omap heard_of es.

Lemma bgp_opens p e p' : thread_event e = true -> bgp_step p e = Some p' -> got_open p' = true ->
  got_open p = true \/ heard_of (VThread e) = Some OPEN.
Proof.
  destruct e as [t ok1 m ok2| |ok| | |]; try done; intros _ E Ho; unfold bgp_step in E; repeat case_match; simplify_eq; auto.
  - unfold round, ka_due, on_msg in Ho. rewrite !send_ka in Ho.
    repeat case_match; simplify_eq/=; auto; rewrite ?send_ka in *; repeat case_match; simplify_eq/=; auto;
      right; f_equal; by apply Z.eqb_eq.
  - unfold dump_one, send in Ho. repeat case_match; simplify_eq/=; auto.
Qed.

Lemma bgp_establishes p e p' : thread_event e = true -> bgp_step p e = Some p' -> established p' = true ->
  established p = true \/ (got_open p = true /\ heard_of (VThread e) = Some KEEPALIVE).
Proof.
  destruct e as [t ok1 m ok2| |ok| | |]; try done; intros _ E Ho; unfold bgp_step in E; repeat case_match; simplify_eq; auto.
  - unfold round, ka_due, on_msg in Ho. rewrite !send_ka in Ho.
    repeat case_match; simplify_eq/=; auto; rewrite ?send_ka in *; repeat case_match; simplify_eq/=; auto;
      right; break_hyps; (split; [assumption|]); f_equal; by apply Z.eqb_eq.
  - unfold dump_one, send in Ho. repeat case_match; simplify_eq/=; auto.
Qed.

(** a call of the owner does not bring the session up *)
Definition quiet (f : PyBgpPeer -> PyBgpPeer) : Prop :=
  forall p, got_open (f p) = got_open p /\ established (f p) = established p.
Lemma quiet_send ok m p : got_open (owner_send ok m p) = got_open p /\ established (owner_send ok m p) = established p.
Proof. unfold owner_send, send. destruct (established p) eqn:E; repeat case_match; simplify_eq/=; done. Qed.
Lemma quiet_announce p nh ok : quiet (announce p nh ok).
Proof. intros q. apply (quiet_send ok (SAnnounce p nh) (set_adv _ q)). Qed.
Lemma quiet_withdraw p ok : quiet (withdraw p ok).
Proof. intros q. apply (quiet_send ok (SWithdraw p) (set_adv _ q)). Qed.

(** what a run has heard explains what the session shows *)
Definition explained (es : list serve_event) (s : Serve) : Prop :=
  (got_open (sv_peer s) = true -> OPEN ∈ heard es)
  /\ (sv_seen s || established (sv_peer s) = true -> sublist [OPEN; KEEPALIVE] (heard es))
  /\ ("ESTABLISHED" ∈ sv_out s -> sv_seen s = true).

Lemma explained_on_peer es f s : quiet f -> explained es s -> explained es (on_peer f s).
Proof.
  intros Hf (Ho & He & Hx). destruct (Hf (sv_peer s)) as [Eo Ee]. unfold explained, on_peer. cbn. rewrite Eo, Ee.
  split; [done|]. split; [|by intros ->%Hx]. destruct (sv_seen s), (established (sv_peer s)); auto.
Qed.
Lemma explained_say es l s : l <> "ESTABLISHED" \/ sv_seen s = true -> explained es s -> explained es (say l s).
Proof.
  intros Hl (Ho & He & Hx). split; [done|]. split; [done|]. cbn. intros [|<-%list_elem_of_singleton]%elem_of_app; [by apply Hx | by destruct Hl].
Qed.
Lemma explained_obey es f ok m s : quiet f -> explained es s -> explained es (obey f ok m s).
Proof.
  intros Hf Hs. unfold obey. pose proof (explained_on_peer es f s Hf Hs) as Hp. destruct (raises _ _ _); [exact Hp|].
  apply explained_say; [by left | done].
Qed.

Lemma explained_own es e s s' : of_thread e = false -> serve_step s e = Some s' -> explained es s -> explained es s'.
Proof.
  destruct e as [| | |l ok|]; try done; intros _ E Hs; cbn [serve_step] in E; destruct (sv_stage s); try done; injection E as <-.
  - unfold serve_report. destruct (sv_seen s) eqn:Es.
    + apply (explained_say es "ESTABLISHED" s); auto.
    + apply (explained_on_peer es set_stop (say (failed_line (sv_peer s)) s)); [done|]. apply explained_say; [by left | done].
  - unfold serve_line. destruct (parse_cmd l) as [| |p nh|p|].
    + by apply (explained_on_peer es set_stop s).
    + done.
    + apply explained_obey; [apply quiet_announce | done].
    + apply explained_obey; [apply quiet_withdraw | done].
    + apply explained_say; [by left | done].
  - by apply (explained_on_peer es set_stop s).
Qed.

Lemma sublist_grow (l k : list Z) x : sublist l k -> sublist l (k ++ [x]).
Proof. intros Hl. rewrite <-(app_nil_r l). apply sublist_app; [done | apply sublist_nil_l]. Qed.
Lemma sublist_last (x : Z) k y : x ∈ k -> sublist [x; y] (k ++ [y]).
Proof. intros Hx. apply (sublist_app [x] k [y] [y]); [|done]. by apply singleton_sublist_l. Qed.

Lemma connect_down f p : established p = false -> got_open (connect f p) = got_open p /\ established (connect f p) = false.
Proof. intros Hp. unfold connect, send. repeat case_match; simplify_eq/=; done. Qed.

Lemma explained_thread es e s s' : of_thread e = true -> serve_step s e = Some s' ->
  (sv_connected s = false -> established (sv_peer s) = false) -> explained es s -> explained (es ++ [e]) s'.
Proof.
  intros Et E Hc (Ho & He & Hx). unfold explained, heard. rewrite omap_app. fold (heard es).
  destruct e as [f|e| | |]; try done; cbn [serve_step] in E.
  - destruct (sv_connected s) eqn:Ec; [done|]. injection E as <-. cbn. rewrite app_nil_r.
    specialize (Hc eq_refl). rewrite Hc in He. destruct (connect_down f _ Hc) as [-> ->]. done.
  - destruct (sv_connected s && thread_event e) eqn:E1; [|done]. apply andb_true_iff in E1 as [_ E1].
    destruct (bgp_step (sv_peer s) e) as [p|] eqn:Ep; [|done]. injection E as <-. cbn [on_peer sv_peer sv_seen sv_out].
    assert (omap heard_of [VThread e] = option_list (heard_of (VThread e))) as -> by by cbn -[heard_of]; destruct (heard_of _).
    split; [|split].
    + intros Hp. apply elem_of_app. destruct (bgp_opens _ _ _ E1 Ep Hp) as [H1 | ->]; [left; auto | right; by left].
    + intros Hp. assert (sublist [OPEN; KEEPALIVE] (heard es) ->
        sublist [OPEN; KEEPALIVE] (heard es ++ option_list (heard_of (VThread e)))) as Hg.
      { intros Hg. destruct (heard_of _); cbn; [by apply sublist_grow | by rewrite app_nil_r]. }
      rewrite <-orb_assoc, orb_diag in Hp. apply orb_true_iff in Hp as [Hp|Hp]; [apply Hg, He; by rewrite Hp|].
      destruct (bgp_establishes _ _ _ E1 Ep Hp) as [H1 | [H1 ->]]; [apply Hg, He; by rewrite H1, orb_true_r | by apply sublist_last, Ho].
    + by intros ->%Hx.
Qed.

(** the session is not up before it is connected *)
Lemma unconnected_down s e s' : serve_step s e = Some s' ->
  (sv_connected s = false -> established (sv_peer s) = false) -> sv_connected s' = false -> established (sv_peer s') = false.
Proof.
  intros E Hs Hc. destruct e as [f|e| |l ok|]; cbn [serve_step] in E; repeat case_match; simplify_eq/=; break_hyps; try congruence; auto.
  - unfold serve_report in *. destruct (sv_seen s); auto.
  - unfold serve_line, obey in *. repeat case_match; cbn in *; auto.
    all: rewrite ?(proj2 (quiet_announce _ _ _ _)), ?(proj2 (quiet_withdraw _ _ _)); auto.
Qed.

(** C26: ESTABLISHED is never printed for a session that was not up.  If the
    process printed it, its thread received an OPEN and, later, a KEEPALIVE
    from the peer. *)
Theorem established_heard (local_ip : string) (my_as : Z) (adv : list (string * string)) (es : list serve_event) (s : Serve) :
  serve_run (serve_start local_ip my_as adv) es = Some s -> "ESTABLISHED" ∈ sv_out s ->
  sublist [OPEN; KEEPALIVE] (heard es).
Proof.
  intros E. cut ((sv_connected s = false -> established (sv_peer s) = false) /\ explained es s).
  { intros [_ (_ & He & Hx)] Hin. apply He. by rewrite (Hx Hin). }
  revert s E. induction es as [|e es IH] using rev_ind; intros s' E.
  - injection E as <-. split; [done|]. split; [done|]. split; [done|]. cbn. by intros ?%not_elem_of_nil.
  - apply serve_run_snoc in E as (s & E0 & E). destruct (IH s E0) as [Hc Hi].
    split; [by apply (unconnected_down s e)|]. destruct (of_thread e) eqn:Et; [by apply (explained_thread es e s)|].
    replace (explained (es ++ [e]) s') with (explained es s'); [by apply (explained_own es e s)|].
    unfold explained, heard. rewrite omap_app. replace (omap heard_of [e]) with (@nil Z) by by destruct e. by rewrite app_nil_r.
Qed.

Lemma established_heard_witness :
  let es := [VConnect None; VThread (ERound 100 true (Some (OPEN, [])) true); VThread (ERound 101 true (Some (KEEPALIVE, [])) true); VReport] in
  exists s, serve_run (serve_start "10.99.1.2" 65002 []) es = Some s /\ sublist [OPEN; KEEPALIVE] (heard es).
Proof.
  intros es. eexists. split; [vm_compute; reflexivity|].
  eapply (established_heard "10.99.1.2" 65002 [] es); [vm_compute; reflexivity | apply list_elem_of_singleton; reflexivity].
Defined.
