(* ===== verification/NetnsRoutes.v ===== *)
(** * The speaker in its namespace (topo/virtual_link.py with servers/bgp_speaker.py)

    [NetnsBgpPeer] starts the speaker as a child process and talks to it by
    lines of text: two programs of this repository on the two ends of a pipe.
    [Pipe] is the child as its parent sees it, [SpeakerProc] says that the
    child runs the modelled program, and the theorems say that the two sides
    agree on what the lines mean. *)

From S2P Require Import Prelude PyStr PyStrFacts PyVal Device DeviceFacts Toy Worker Dut Topology Obj Bytes Bgp BgpFacts BgpServe FieldHtml Links.

(** ** The text on the pipe *)

(** an address or prefix as the two sides exchange it *)
Definition word (s : string) : bool := token s && str_forall (not_char ";"%char) s && str_forall (not_char ","%char) s.
Definition words (r : string * string) : bool := word (fst r) && word (snd r).
Definition adv_text (adv : list (string * string)) : string := join ";" (map (fun x => fst x +:+ "," +:+ snd x) adv).

Lemma word_split s : word s = true ->
  token s = true /\ str_forall (not_char ";"%char) s = true /\ str_forall (not_char ","%char) s = true.
Proof. unfold word. by intros [[? ?]%andb_true_iff ?]%andb_true_iff. Qed.
Lemma word_token s : word s = true -> token s = true.
Proof. by intros (? & _)%word_split. Qed.
Lemma token_nospace s : token s = true -> str_forall is_nospace s = true.
Proof. unfold token. by intros [_ ?]%andb_true_iff. Qed.
Lemma words_split p nh : words (p, nh) = true -> word p = true /\ word nh = true.
Proof. unfold words. apply andb_true_iff. Qed.

(** the routes of the command line are read back *)
Lemma advertise_text adv : Forall (fun r => words r = true) adv -> parse_advertise (adv_text adv) = adv.
Proof.
  intros Ha. destruct adv as [|r0 adv0]; [done|]. remember (r0 :: adv0) as adv eqn:Eadv.
  unfold parse_advertise, adv_text. change ";" with (s1 ";"). rewrite split_on_join.
  - clear Eadv. induction Ha as [|[p nh] adv Hr Ha IH]; [done|]. apply words_split in Hr as [Hp Hn].
    cbn [map omap list_omap fst snd]. change ("," +:+ nh) with (String "," nh). rewrite cut_app.
    + rewrite !strip_id by (by apply token_nospace, word_token). cbn. f_equal. exact IH.
    + by apply word_split in Hp as (_ & _ & ?).
  - by subst.
  - apply Forall_map. eapply Forall_impl; [exact Ha|]. intros [p nh] Hr. apply words_split in Hr as [Hp Hn].
    apply word_split in Hp as (_ & Hp & _), Hn as (_ & Hn & _). cbn [fst snd]. by rewrite !str_forall_app, Hp, Hn.
Qed.

(** a command line of tokens, as [readline] gives it *)
Lemma strip_tokens l : l <> [] -> Forall (fun s => token s = true) l -> strip (join " " l +:+ s1 lf) = join " " l.
Proof.
  intros Hl Ht. unfold strip, strip_by.
  assert (forall l, l <> [] -> Forall (fun s => token s = true) l -> rstrip_by is_space (join " " l) = join " " l) as Hr.
  { clear. intros l Hl. induction l as [|x l IH]; [done|]. intros [Hx Ht]%Forall_cons.
    destruct (decide (l = [])) as [->|Hne]; [by apply rstrip_by_id, token_nospace|].
    rewrite join_cons by done. rewrite <-sapp_assoc, rstrip_by_app; rewrite IH by done; [done|].
    destruct l as [|y l]; [done|]. apply Forall_cons in Ht as [Hy _]. destruct y; [done|]. by destruct l. }
  destruct l as [|x l]; [done|]. destruct x as [|c x]; [apply Forall_cons in Ht as [? _]; done|].
  assert (exists t, join " " (String c x :: l) = String c t) as [t Et] by (destruct l; eexists; reflexivity).
  specialize (Hr _ Hl Ht). rewrite Et in *. apply Forall_cons in Ht as [Hc _]. apply token_nospace in Hc. cbn [str_forall] in Hc.
  apply andb_true_iff in Hc as [Hc _]. unfold is_nospace in Hc. apply negb_true_iff in Hc.
  change (String c t +:+ s1 lf) with (String c (t +:+ s1 lf)). rewrite lstrip_by_id by done.
  change (String c (t +:+ s1 lf)) with (String c t +:+ s1 lf). by rewrite rstrip_by_snoc.
Qed.

Lemma parse_tokens l : l <> [] -> Forall (fun s => token s = true) l ->
  parse_cmd (join " " l +:+ s1 lf) = match l with
    | [] => CSkip
    | "quit" :: _ => CQuit
    | "announce" :: p :: nh :: _ => CAnnounce p nh
    | "withdraw" :: p :: _ => CWithdraw p
    | _ => CErr
    end.
Proof. intros Hl Ht. unfold parse_cmd. by rewrite strip_tokens, split_ws_join. Qed.

(** ** What the parent asks for *)

Inductive request := RAnnounce (p nh : string) | RWithdraw (p : string).
Definition request_ok (r : request) : bool :=
  match r with RAnnounce p nh => token p && token nh | RWithdraw p => token p end.
Definition request_line (r : request) : string :=
  match r with RAnnounce p nh => "announce " +:+ p +:+ " " +:+ nh | RWithdraw p => "withdraw " +:+ p end.
Definition request_msg (r : request) : out_msg :=
  match r with RAnnounce p nh => SAnnounce p nh | RWithdraw p => SWithdraw p end.
(** the list of routes the parent means *)
Definition intended (adv : list (string * string)) (r : request) : list (string * string) :=
  match r with
  | RAnnounce p nh => adv ++ [(p, nh)]
  | RWithdraw p => List.filter (fun x => negb (String.eqb (fst x) p)) adv
  end.

Lemma request_parses r : request_ok r = true -> parse_cmd (request_line r +:+ s1 lf) =
  match r with RAnnounce p nh => CAnnounce p nh | RWithdraw p => CWithdraw p end.
Proof.
  destruct r as [p nh|p]; cbn [request_ok].
  - intros [Hp Hn]%andb_true_iff. apply (parse_tokens ["announce"; p; nh]); [done|]. by repeat constructor.
  - intros Hp. apply (parse_tokens ["withdraw"; p]); [done|]. by repeat constructor.
Qed.

Lemma request_understood adv r : request_ok r = true -> route_op adv (request_line r +:+ s1 lf) = intended adv r.
Proof. intros Hr. unfold route_op. rewrite request_parses by done. by destruct r. Qed.

(** ** The child as its parent sees it *)

(** the process, the lines written to it and not read yet, and the number of
    its lines the parent has read *)
Record Pipe := mkPipe { pi_serve : Serve; pi_in : list string; pi_read : nat }.

Inductive pipe_step : Pipe -> Pipe -> Prop :=
| pipe_thread s e s' inbox n : of_thread e = true -> serve_step s e = Some s' ->
    pipe_step (mkPipe s inbox n) (mkPipe s' inbox n)
| pipe_report s s' inbox n : serve_step s VReport = Some s' ->
    pipe_step (mkPipe s inbox n) (mkPipe s' inbox n)
| pipe_line s l ok s' inbox n : serve_step s (VLine l ok) = Some s' ->
    pipe_step (mkPipe s (l :: inbox) n) (mkPipe s' inbox n).
Definition pipe_steps : Pipe -> Pipe -> Prop := rtc pipe_step.

Definition running (p : Pipe) : Prop :=
  match sv_stage (pi_serve p) with Waiting | Serving => True | _ => False end.
Definition put_line (l : string) (p : Pipe) : Pipe := mkPipe (pi_serve p) (pi_in p ++ [l]) (pi_read p).
Definition take_line (p : Pipe) : Pipe := mkPipe (pi_serve p) (pi_in p) (S (pi_read p)).
(** what [readline] gives once the child has reached [p]: its next line, or
    nothing when it ended without another *)
Definition next_line (p : Pipe) (line : string) : Prop :=
  match sv_out (pi_serve p) !! pi_read p with
  | Some l => line = l +:+ s1 lf
  | None => line = "" /\ ~ running p
  end.

(** a line is there, or the child is about to write one *)
Definition due (p : Pipe) : Prop :=
  (pi_read p < length (sv_out (pi_serve p)))%nat \/
  (pi_read p = length (sv_out (pi_serve p)) /\
   (sv_stage (pi_serve p) = Waiting \/
    (sv_stage (pi_serve p) = Serving /\ exists l ls, pi_in p = l :: ls /\ is_Some (reply l)))).

(** the child of the command line of [speaker_args] is [serve_main]; it runs on
    while its parent does *)
Class SpeakerProc `{Device} `{!Procs} (view : proc -> dev -> Pipe) : Prop := {
  sp_spawn : forall ns args s d, serve_main args = Val s -> exists q d',
    proc_spawn (["ip"; "netns"; "exec"; ns; "python3"; speaker_py; "--serve"] ++ args) d = (Val q, d')
    /\ pipe_steps (mkPipe s [] 0) (view q d');
  sp_alive : forall q d, running (view q d) -> exists d',
    proc_alive q d = (true, d') /\ pipe_steps (view q d) (view q d');
  sp_write : forall q l d, running (view q d) -> str_forall (not_char lf) l = true -> exists d',
    proc_write q (l +:+ s1 lf) d = (Val tt, d') /\ pipe_steps (put_line (l +:+ s1 lf) (view q d)) (view q d');
  sp_readline : forall q d, due (view q d) -> exists line p d',
    proc_readline q d = (Val line, d') /\ pipe_steps (view q d) p /\ next_line p line
    /\ pipe_steps (take_line p) (view q d')
}.

(** ** Both sides agree *)

(** a property of the pipe that every step keeps *)
Definition stable (P : Pipe -> Prop) : Prop := forall p p', pipe_step p p' -> P p -> P p'.
Lemma stable_steps P p p' : stable P -> pipe_steps p p' -> P p -> P p'.
Proof. intros HP. induction 1; eauto. Qed.

(** the identity of the speaker: what decides how messages are built *)
Definition speaks (my_as : Z) (p : PyBgpPeer) : Prop := bp_as p = my_as.
Definition buildable (my_as : Z) (m : out_msg) : Prop :=
  match m with
  | SAnnounce p nh => exists l, update_announce my_as p nh = Val l
  | SWithdraw p => exists l, update_withdraw p = Val l
  | _ => True
  end.

(** the child serves, has answered everything, and its routes are [adv] *)
Record in_step (my_as : Z) (adv : list (string * string)) (p : Pipe) : Prop := {
  is_serving : sv_stage (pi_serve p) = Serving;
  is_empty : pi_in p = [];
  is_read : length (sv_out (pi_serve p)) = pi_read p;
  is_adv : advertise (sv_peer (pi_serve p)) = adv;
  is_as : speaks my_as (sv_peer (pi_serve p))
}.
(** a request is on its way, or answered and the answer not read *)
Definition asked (my_as : Z) (adv : list (string * string)) (r : request) (p : Pipe) : Prop :=
  sv_stage (pi_serve p) = Serving /\ speaks my_as (sv_peer (pi_serve p)) /\
  ((pi_in p = [request_line r +:+ s1 lf] /\ length (sv_out (pi_serve p)) = pi_read p /\ advertise (sv_peer (pi_serve p)) = adv)
   \/ (pi_in p = [] /\ length (sv_out (pi_serve p)) = S (pi_read p) /\ advertise (sv_peer (pi_serve p)) = intended adv r)).

Lemma speaks_same my_as p q : same_id p q -> speaks my_as p -> speaks my_as q.
Proof. unfold same_id, speaks. by intros (-> & _). Qed.

Lemma stable_in_step my_as adv : stable (in_step my_as adv).
Proof.
  intros p p' St [Hs He Hr Ha Has]. destruct St as [s e s' inbox n Ht E|s s' inbox n E|s l ok s' inbox n E]; cbn [pi_serve pi_in pi_read] in *.
  - destruct (serve_thread_keeps _ _ _ Ht E) as (Eo & Es & Ea & Hid). split; cbn; try congruence. by eapply speaks_same.
  - cbn [serve_step] in E. by rewrite Hs in E.
  - done.
Qed.

(** a request whose message can be built does not end the child *)
Lemma request_served my_as r ok s : request_ok r = true -> buildable my_as (request_msg r) -> speaks my_as (sv_peer s) ->
  sv_stage s = Serving -> sv_stage (serve_line (request_line r +:+ s1 lf) ok s) = Serving.
Proof.
  intros Hr Hb Has Hs. assert (raises ok (request_msg r) (sv_peer s) = false) as Hn.
  { unfold raises, send. destruct r; cbn [request_msg buildable encode] in *; destruct Hb as [l Hl];
      [unfold speaks in Has; rewrite Has, Hl | rewrite Hl]; destruct ok; apply andb_false_r. }
  unfold serve_line. rewrite request_parses by done. destruct r; cbn [request_msg] in Hn; unfold obey; by rewrite Hn.
Qed.

Lemma request_reply r : request_ok r = true -> reply (request_line r +:+ s1 lf) = Some "OK".
Proof. intros Hr. unfold reply. rewrite request_parses by done. by destruct r. Qed.

Lemma stable_asked my_as adv r : request_ok r = true -> buildable my_as (request_msg r) -> stable (asked my_as adv r).
Proof.
  intros Hr Hb p p' St (Hs & Has & Hc). destruct St as [s e s' inbox n Ht E|s s' inbox n E|s l ok s' inbox n E]; unfold asked; cbn [pi_serve pi_in pi_read] in *.
  - destruct (serve_thread_keeps _ _ _ Ht E) as (-> & -> & -> & Hid). split; [done|]. split; [by eapply speaks_same | done].
  - cbn [serve_step] in E. by rewrite Hs in E.
  - destruct Hc as [([= -> ->] & Ho & Ha)|[? _]]; [|done]. cbn [serve_step] in E. rewrite Hs in E. injection E as <-.
    pose proof (request_served my_as r ok s Hr Hb Has Hs) as Hs'. destruct (serve_line_spec _ _ _ Hs') as (Eo & Ea & Hid).
    split; [done|]. split; [by eapply speaks_same|]. right. split; [done|].
    rewrite Eo, Ea, request_reply, request_understood by done. cbn [option_list]. rewrite length_app, Ho, Ha. cbn. split; [lia | done].
Qed.

Lemma asked_put my_as adv r p : in_step my_as adv p -> asked my_as adv r (put_line (request_line r +:+ s1 lf) p).
Proof. intros [Hs He Hr Ha Has]. split; [done|]. split; [done|]. left. cbn. by rewrite He. Qed.

Lemma asked_due my_as adv r p : request_ok r = true -> asked my_as adv r p -> due p.
Proof.
  intros Hr (Hs & _ & [(He & Ho & _)|(_ & Ho & _)]); [right | left; lia]. split; [done|]. right. split; [done|].
  eexists _, _. split; [exact He|]. rewrite request_reply by done. by eexists.
Qed.

Lemma answered_take my_as adv r p line : asked my_as adv r p -> next_line p line -> in_step my_as (intended adv r) (take_line p).
Proof.
  intros (Hs & Has & Hc) Hl. destruct Hc as [(_ & Ho & _)|(He & Ho & Ha)].
  - unfold next_line in Hl. rewrite lookup_ge_None_2 in Hl by lia. destruct Hl as [_ Hl]. exfalso. apply Hl. unfold running. by rewrite Hs.
  - split; cbn [take_line pi_serve pi_in pi_read]; assumption.
Qed.

(** ** Starting *)

(** what the parent can see before it reads the first line *)
Definition starting (my_as : Z) (adv : list (string * string)) (p : Pipe) : Prop :=
  pi_in p = [] /\ pi_read p = 0%nat /\ advertise (sv_peer (pi_serve p)) = adv /\ speaks my_as (sv_peer (pi_serve p)) /\
  match sv_stage (pi_serve p) with
  | Waiting => sv_out (pi_serve p) = []
  | Serving => sv_out (pi_serve p) = ["ESTABLISHED"]
  | Finished _ => exists t, sv_out (pi_serve p) = ["FAILED " +:+ t]
  | Crashed => False
  end.

Lemma stable_starting my_as adv : stable (starting my_as adv).
Proof.
  intros p p' St (He & Hr & Ha & Has & Hs). destruct St as [s e s' inbox n Ht E|s s' inbox n E|s l ok s' inbox n E]; unfold starting; cbn [pi_serve pi_in pi_read] in *.
  - destruct (serve_thread_keeps _ _ _ Ht E) as (-> & -> & -> & Hid). repeat (split; [done|]). split; [by eapply speaks_same | done].
  - cbn [serve_step] in E. destruct (sv_stage s) eqn:Est; try done. injection E as <-.
    unfold serve_report. destruct (sv_seen s); repeat (split; [done|]); cbn; rewrite Hs; [done|]. by eexists.
  - done.
Qed.

Lemma starting_due my_as adv p : starting my_as adv p -> due p.
Proof.
  intros (_ & Hr & _ & _ & Hs). unfold due. rewrite Hr. destruct (sv_stage (pi_serve p)) eqn:Est; try done.
  - right. rewrite Hs. auto.
  - left. rewrite Hs. cbn. lia.
  - left. destruct Hs as [t ->]. cbn. lia.
Qed.

Lemma failed_not_up t : String.eqb (strip (("FAILED " +:+ t) +:+ s1 lf)) "ESTABLISHED" = false.
Proof.
  unfold strip, strip_by. change (("FAILED " +:+ t) +:+ s1 lf) with (String "F" ("AILED " +:+ t +:+ s1 lf)).
  rewrite lstrip_by_id by done. by destruct (rstrip_head is_space "F" ("AILED " +:+ t +:+ s1 lf) eq_refl) as [u ->].
Qed.

Lemma started_take my_as adv p line : starting my_as adv p -> next_line p line ->
  String.eqb (strip line) "ESTABLISHED" = true -> in_step my_as adv (take_line p).
Proof.
  intros (He & Hr & Ha & Has & Hs) Hl Hup. unfold next_line in Hl. rewrite Hr in Hl.
  destruct (sv_stage (pi_serve p)) eqn:Est; [..|done].
  - rewrite Hs in Hl. destruct Hl as [-> _]. done.
  - split; cbn; try done. by rewrite Hs, Hr.
  - destruct Hs as [t Hs]. rewrite Hs in Hl. cbn in Hl. subst line. by rewrite failed_not_up in Hup.
Qed.

Section Agree.
Context `{Device} `{ShellEnv} `{WorkerEnv} `{!Procs} (view : proc -> dev -> Pipe) `{!SpeakerProc view}.

Definition do_request (n : NetnsBgpPeer) (r : request) : M unit :=
  match r with RAnnounce p nh => ns_announce n p nh | RWithdraw p => ns_withdraw n p end.
Lemma do_request_line n r : do_request n r = send_line n (request_line r).
Proof. by destruct r. Qed.

Lemma token_no_lf s : token s = true -> str_forall (not_char lf) s = true.
Proof.
  intros Hs%token_nospace. revert Hs. apply str_forall_impl. intros c. unfold is_nospace, not_char.
  destruct (Ascii.eqb_spec c lf) as [->|]; done.
Qed.
Lemma request_one_line r : request_ok r = true -> str_forall (not_char lf) (request_line r) = true.
Proof.
  destruct r as [p nh|p]; cbn [request_ok request_line]; intros Hr; rewrite !str_forall_app.
  - apply andb_true_iff in Hr as [Hp Hn]. by rewrite (token_no_lf p), (token_no_lf nh).
  - by rewrite (token_no_lf p).
Qed.

(** one request: sent, understood, answered *)
Lemma request_agreed my_as adv n q r w : ns_proc n = Some q -> request_ok r = true -> buildable my_as (request_msg r) ->
  in_step my_as adv (view q (w_dev w)) ->
  exists w', do_request n r w = (Val tt, w') /\ in_step my_as (intended adv r) (view q (w_dev w')).
Proof.
  intros Hq Hr Hb Hi. rewrite do_request_line. unfold send_line. rewrite Hq.
  assert (forall p, in_step my_as adv p -> running p) as Hrun by (intros p [Hs _ _ _ _]; unfold running; by rewrite Hs).
  destruct (sp_alive q (w_dev w)) as (d1 & E1 & S1); [by apply Hrun|].
  apply (stable_steps _ _ _ (stable_in_step my_as adv)) in S1; [|done].
  destruct (sp_write q (request_line r) d1) as (d2 & E2 & S2); [by apply Hrun | by apply request_one_line|].
  apply (stable_steps _ _ _ (stable_asked my_as adv r Hr Hb)) in S2; [|by apply asked_put].
  destruct (sp_readline q d2) as (line & p & d3 & E3 & S3 & Hl & S4); [by eapply asked_due|].
  apply (stable_steps _ _ _ (stable_asked my_as adv r Hr Hb)) in S3; [|done].
  apply (stable_steps _ _ _ (stable_in_step my_as (intended adv r))) in S4; [|by apply (answered_take _ _ _ _ line)].
  unfold proc_ask, proc_do, bind, when, try_pipe. rewrite E1. cbn [w_dev]. rewrite E2. cbn [w_dev]. rewrite E3. eexists. split; [reflexivity|]. exact S4.
Qed.

Lemma requests_agreed my_as n q rs : ns_proc n = Some q -> forall adv w,
  Forall (fun r => request_ok r = true /\ buildable my_as (request_msg r)) rs ->
  in_step my_as adv (view q (w_dev w)) ->
  exists w', for_each rs (do_request n) w = (Val tt, w') /\ in_step my_as (fold_left intended rs adv) (view q (w_dev w')).
Proof.
  intros Hq. induction rs as [|r rs IH]; intros adv w Hrs Hi; [by exists w|].
  apply Forall_cons in Hrs as [[Hr Hb] Hrs]. destruct (request_agreed my_as adv n q r w) as (w1 & E1 & Hi1); [done..|].
  destruct (IH (intended adv r) w1 Hrs Hi1) as (w2 & E2 & Hi2). exists w2. split; [|done].
  cbn [for_each]. unfold bind. by rewrite E1.
Qed.

Lemma speaker_argv n : Forall (fun r => words r = true) (ns_advertise n) ->
  serve_args [ns_dut_ip n; ns_peer_ip n; zs (ns_peer_as n); adv_text (ns_advertise n)]
  = Val (ns_dut_ip n, ns_peer_ip n, ns_peer_as n, ns_advertise n).
Proof.
  intros Ha. unfold serve_args. rewrite py_int_zs, advertise_text by done.
  destruct (ns_advertise n) as [|[p nh] l]; [done|]. apply Forall_cons in Ha as [Hr _]. apply words_split in Hr as [[Hp _]%word_split _].
  unfold adv_text. destruct p as [|c p]; [done|]. by destruct l.
Qed.

Lemma started n w n1 w1 : Forall (fun r => words r = true) (ns_advertise n) ->
  start_speaker n w = (Val (Val true, n1), w1) ->
  exists q, n1 = ns_put (Some q) n /\ in_step (ns_peer_as n) (ns_advertise n) (view q (w_dev w1)).
Proof.
  intros Ha E. set (s0 := serve_start (ns_peer_ip n) (ns_peer_as n) (ns_advertise n)).
  destruct (sp_spawn (ns_ns n) [ns_dut_ip n; ns_peer_ip n; zs (ns_peer_as n); adv_text (ns_advertise n)] s0 (w_dev w)) as (q & d1 & E1 & S1).
  { unfold serve_main. by rewrite speaker_argv. }
  apply (stable_steps _ _ _ (stable_starting (ns_peer_as n) (ns_advertise n))) in S1; [|done].
  destruct (sp_readline q d1) as (line & p & d2 & E2 & S2 & Hl & S3); [by eapply starting_due|].
  apply (stable_steps _ _ _ (stable_starting (ns_peer_as n) (ns_advertise n))) in S2; [|done].
  unfold start_speaker, oget, olift, omod, obnd, oret, ret, bind, proc_do in E.
  change (speaker_args n) with (["ip"; "netns"; "exec"; ns_ns n; "python3"; speaker_py; "--serve"] ++
    [ns_dut_ip n; ns_peer_ip n; zs (ns_peer_as n); adv_text (ns_advertise n)]) in E.
  rewrite E1 in E. cbn [w_dev] in E. rewrite E2 in E. injection E as Hup <- <-. exists q. split; [done|].
  apply (stable_steps _ _ _ (stable_in_step (ns_peer_as n) (ns_advertise n))) in S3; [done|]. by eapply started_take.
Qed.

(** C2: the namespaced peer and its speaker agree.  Once [start_speaker] has
    reported the session, any sequence of [announce] and [withdraw] calls with
    routes that can be encoded completes; after it the speaker is alive and
    serving, no request or answer is left on the pipe, and the speaker's list of
    routes is the peer's own list changed by the calls in order, whatever the
    session thread and the socket did meanwhile. *)
Theorem routes_agree (n n1 : NetnsBgpPeer) (w w1 : World) (rs : list request) :
  Forall (fun r => words r = true) (ns_advertise n) ->
  Forall (fun r => request_ok r = true /\ buildable (ns_peer_as n) (request_msg r)) rs ->
  start_speaker n w = (Val (Val true, n1), w1) ->
  exists q w2, ns_proc n1 = Some q /\ for_each rs (do_request n1) w1 = (Val tt, w2)
    /\ in_step (ns_peer_as n) (fold_left intended rs (ns_advertise n)) (view q (w_dev w2)).
Proof.
  intros Ha Hrs E. destruct (started n w n1 w1 Ha E) as (q & -> & Hi).
  destruct (requests_agreed (ns_peer_as n) (ns_put (Some q) n) q rs eq_refl _ w1 Hrs Hi) as (w2 & E2 & Hi2).
  by exists q, w2.
Qed.
End Agree.

(** ** A child to run *)

Section ToyChild.
(** the thread's steps until the report, and after it *)
Definition up_events : list serve_event :=
  [VConnect None; VThread (ERound 100 true (Some (OPEN, [])) true); VThread (ERound 101 true (Some (KEEPALIVE, [])) true)].
Definition own_event (e : serve_event) : bool := of_thread e || match e with VReport => true | _ => false end.

Lemma own_steps es : forall s s' inbox n, Forall (fun e => own_event e = true) es -> serve_run s es = Some s' ->
  pipe_steps (mkPipe s inbox n) (mkPipe s' inbox n).
Proof.
  induction es as [|e es IH]; intros s s' inbox n Hes E; cbn [serve_run] in E; [injection E as <-; constructor|].
  apply Forall_cons in Hes as [He Hes]. destruct (serve_step s e) as [s1|] eqn:E1; [|done].
  eapply rtc_l; [|by apply IH]. unfold own_event in He. apply orb_true_iff in He as [He|He]; [by apply (pipe_thread s e)|].
  destruct e; try done. by apply pipe_report.
Qed.

(** run these steps, if the process can make them all *)
Definition try_steps (es : list serve_event) (p : Pipe) : Pipe :=
  match serve_run (pi_serve p) es with Some s => mkPipe s (pi_in p) (pi_read p) | None => p end.
Lemma try_own es p : Forall (fun e => own_event e = true) es -> pipe_steps p (try_steps es p).
Proof. intros Hes. unfold try_steps. destruct p as [s i n]; cbn. destruct (serve_run s es) eqn:E; [by eapply own_steps | constructor]. Qed.

(** the child reads a line, if it serves *)
Definition child_line (p : Pipe) : Pipe :=
  match pi_in p with
  | l :: ls => match serve_step (pi_serve p) (VLine l true) with Some s => mkPipe s ls (pi_read p) | None => p end
  | [] => p
  end.
Lemma child_line_steps p : pipe_steps p (child_line p).
Proof.
  destruct p as [s [|l ls] n]; unfold child_line; cbn [pi_in pi_serve pi_read]; [constructor|].
  destruct (serve_step s (VLine l true)) as [s'|] eqn:E; [|constructor]. apply rtc_once. by apply (pipe_line s l true).
Qed.
(** the child goes on until it has written a line *)
Definition advance (p : Pipe) : Pipe :=
  if (pi_read p <? length (sv_out (pi_serve p)))%nat then p else child_line (try_steps [VReport] p).
Lemma advance_steps p : pipe_steps p (advance p).
Proof.
  unfold advance. destruct (_ <? _)%nat; [constructor|].
  transitivity (try_steps [VReport] p); [apply try_own; by repeat constructor | apply child_line_steps].
Qed.
Definition line_at (p : Pipe) : string :=
  match sv_out (pi_serve p) !! pi_read p with Some l => l +:+ s1 lf | None => "" end.

Lemma obey_line f ok m s : (exists l, sv_out (obey f ok m s) = sv_out s ++ [l]) \/ sv_stage (obey f ok m s) = Crashed.
Proof. unfold obey. destruct (raises _ _ _); [by right | left; by eexists]. Qed.
Lemma serve_line_writes l ok s : is_Some (reply l) ->
  (exists o, sv_out (serve_line l ok s) = sv_out s ++ [o]) \/ sv_stage (serve_line l ok s) = Crashed.
Proof.
  unfold reply, serve_line. intros [o Ho]. destruct (parse_cmd l); try done; try apply obey_line. left. by eexists.
Qed.

Lemma advance_writes p : due p -> next_line (advance p) (line_at (advance p)).
Proof.
  intros [Hlt|(He & Hd)]; unfold advance.
  - rewrite (proj2 (Nat.ltb_lt _ _) Hlt). unfold next_line, line_at. destruct (lookup_lt_is_Some_2 _ _ Hlt) as [l ->]. done.
  - rewrite (proj2 (Nat.ltb_ge _ _)) by lia. destruct p as [s ls n]. cbn [pi_serve pi_in pi_read] in *.
    assert (forall p x o, pi_read p = n -> sv_out (pi_serve p) = sv_out s ++ o :: x -> next_line p (line_at p)) as Hn.
    { intros p x o Hr Ho. unfold next_line, line_at. rewrite Ho, Hr, He, list_lookup_middle by done. done. }
    destruct Hd as [Hs|(Hs & l & ls' & -> & Hl)]; unfold try_steps; cbn [serve_run serve_step pi_serve pi_in pi_read]; rewrite Hs.
    + assert (exists o, sv_out (serve_report s) = sv_out s ++ [o]) as [o Ho] by (unfold serve_report; destruct (sv_seen s); by eexists).
      destruct ls as [|l ls]; cbn [child_line pi_in pi_serve pi_read]; [by eapply Hn|].
      destruct (sv_stage (serve_report s)) eqn:Er; cbn [serve_step]; rewrite Er; try (by eapply Hn).
      assert (exists x, sv_out (serve_line l true (serve_report s)) = sv_out (serve_report s) ++ x) as [x Hx].
      { unfold serve_line, obey. destruct (parse_cmd l); repeat case_match; cbn; (by eexists) || (exists []; by rewrite app_nil_r). }
      eapply (Hn _ x o); cbn [pi_serve pi_read]; [done|]. by rewrite Hx, Ho, <-app_assoc.
    + cbn [child_line pi_in pi_serve pi_read serve_step]. rewrite Hs.
      destruct (serve_line_writes l true s Hl) as [[o Ho]|Hc]; [by eapply Hn|].
      unfold next_line, line_at, running. cbn [pi_serve pi_read]. rewrite Hc. destruct (_ !! n); [done | by split; [|intros []]].
Qed.
End ToyChild.

(** a device whose only process is the child: its state is the pipe *)
Definition child_device : Device :=
  {| dev := Pipe; dev_exec c d := (Exited 0 "" "", d); dev_sleep t d := d; dev_now d := 0 |}.
#[export] Instance child_procs : @Procs child_device := {|
  proc := unit;
  proc_spawn args d := match serve_main (drop 7 args) with
    | Val s => (Val tt, try_steps up_events (mkPipe s [] 0))
    | Exc e => (Exc e, d)
    | Hang => (Hang, d)
    end : outcome unit * @dev child_device;
  proc_readline _ d := let p := advance d in (Val (line_at p), take_line p) : outcome string * @dev child_device;
  proc_alive _ d := (match sv_stage (pi_serve d) with Waiting | Serving => true | _ => false end, d) : bool * @dev child_device;
  proc_write _ t d := (Val tt, put_line t d) : outcome unit * @dev child_device;
  proc_wait _ _ d := (Val true, d) : outcome bool * @dev child_device;
  proc_kill _ d := (Val tt, d) : outcome unit * @dev child_device;
  speaker_py := "bgp_speaker.py" |}.

Definition child_view : @proc child_device child_procs -> @dev child_device -> Pipe := fun _ d => d.
#[export] Instance child_speaks : @SpeakerProc child_device child_procs child_view.
Proof.
  unfold child_view. split.
  - intros ns args s d Hs. eexists tt, _. split; [cbn; by rewrite drop_0, Hs|]. apply try_own. by repeat constructor.
  - intros [] d Hr. exists d. split; [|constructor]. cbn. unfold running in Hr. by destruct (sv_stage _).
  - intros [] l d Hr Hl. eexists. split; [reflexivity|]. constructor.
  - intros [] d Hd. eexists _, (advance d), _. split; [reflexivity|]. split; [apply advance_steps|].
    split; [by apply advance_writes|]. constructor.
Qed.

#[local] Existing Instance child_device.
#[local] Existing Instance plain_shell.
#[local] Instance first_worker : WorkerEnv := {| fvt_worker := None |}.
Definition toy_peer : NetnsBgpPeer :=
  netns_peer "10.99.1.1" "10.99.1.2" 65002 24 "bgpns" "veth-h" "veth-p" (Some [("10.251.0.0/24", "10.80.3.3")]) None.
Definition toy_start : World := world (mkPipe (serve_start "" 0 []) [] 0) cli_init.
Definition toy_requests : list request := [RAnnounce "10.252.0.0/24" "10.80.3.3"; RWithdraw "10.251.0.0/24"].

Lemma toy_up : match fst (start_speaker toy_peer toy_start) with Val (Val b, _) => b | _ => false end = true.
Proof. vm_compute. reflexivity. Qed.

Lemma routes_agree_witness : exists n1 w1 q w2,
  start_speaker toy_peer toy_start = (Val (Val true, n1), w1) /\ ns_proc n1 = Some q
  /\ for_each toy_requests (do_request n1) w1 = (Val tt, w2)
  /\ in_step 65002 [("10.252.0.0/24", "10.80.3.3")] (w_dev w2).
Proof.
  pose proof toy_up as Hup. destruct (start_speaker toy_peer toy_start) as [r w1] eqn:E. cbn [fst] in Hup.
  destruct r as [[[b| |] n1]| |]; try done. subst b.
  destruct (routes_agree child_view toy_peer n1 toy_start w1 toy_requests) as (q & w2 & Hq & E2 & Hi);
    [repeat constructor | | exact E | by eexists n1, w1, q, w2].
  repeat constructor; eexists; vm_compute; reflexivity.
Defined.
