(* ===== verification/Experiments.v ===== *)
(** * The hardware experiments (tools/: lbmatrix158, duallb158, lbtest32,
    hpdiag, hpdiag32, probe32, flood_degradation_stress)

    Scripts that put ports of the chip in loopback, send frames and print what
    the counters did.  A script is a run of programs; what it prints is the
    state of the run, so that a script that stops half way has printed its
    first lines.  The programs it asks for are on the trace, one call each. *)

From S2P Require Import Prelude PyStr PyStrFacts PyVal Device DeviceFacts Toy CliParse Cli CliFacts Dut Topology Loopback Obj Counters Traffic Sentinel Bytes.

(** [subprocess.run] of an argument list: its standard output, or the exception
    of a program that cannot be started *)
Class Programs `{Device} := { prog_run : list string -> dev -> outcome string * dev }.

Definition argv_call (argv : list string) : call := Call None (join " " argv) 0 None.

Section Base.
Context `{Device} `{!Programs}.

Definition run_prog (argv : list string) : M string := fun w =>
  let '(r, d) := prog_run argv (w_dev w) in (r, mkWorld d (w_trace w ++ [argv_call argv]) (w_cli w) (w_lb w)).

(** a script: the lines printed so far are its state *)
Definition Script (A : Type) : Type := OM (list string) A.
Definition run_ (argv : list string) : Script unit := olift (run_prog argv ;;; ret tt).
Definition print (line : string) : Script unit := omod (fun o => o ++ [line]).
Definition pause (ms : Z) : Script unit := olift (sleep ms).
Definition bcmcmd_argv (c : string) : list string := ["docker"; "exec"; "syncd"; "bcmcmd"; c].
Definition bcm (c : string) : Script string := olift (run_prog (bcmcmd_argv c)).
Definition bcm_ (c : string) : Script unit := let! _ := bcm c in oret tt.

(** the counter in the text of [show c], [absent] when it is not there *)
Definition reading (absent : Z) (metric port text : string) : outcome Z :=
  match metric_group (metric +:+ "." +:+ port) text with
  | None => Val absent
  | Some g => match py_int (replace_char "," "" g) with Some n => Val n | None => Exc (ValueError g) end
  end.
Definition ctr (p metric : string) : Script Z :=
  let! o := bcm ("show c " +:+ p) in olift (lift (reading 0 metric p o)).
Definition pvid_of (lit o : string) : string := default "?" (digits_after lit o).
(** [re.search(lit + r"(\d+)", o).group(1)] *)
Definition group1 (lit o : string) : outcome string :=
  match digits_after lit o with Some g => Val g | None => Exc (AttributeError "group") end.

(** the unix socket of the chip's shell, reached inside the container *)
Definition SOCK : string := "/var/run/sswsyncd/sswsyncd.socket".
Definition sock_py (t : Z) : string := join (s1 lf) (map with_quotes
  ["import socket,time,sys";
   "s=socket.socket(socket.AF_UNIX,socket.SOCK_STREAM);s.setblocking(True);s.settimeout(" +:+ zs t +:+ ")";
   "s.connect(`" +:+ SOCK +:+ "`);s.sendall(sys.argv[1].encode()+b`\n`);buf=b``;e=time.time()+" +:+ zs t;
   "while time.time()<e:";
   " try:c=s.recv(8192)";
   " except socket.timeout:break";
   " if not c or b`BCM.0>` in (buf:=buf+c):break";
   "s.close();sys.stdout.write(buf.decode(`utf-8`,`replace`))"]).
Definition sock_argv (c : string) : list string := ["docker"; "exec"; "-i"; "syncd"; "python3"; "-c"; sock_py 5; c].
Definition sbcm (c : string) : Script string := olift (run_prog (sock_argv c)).
Definition sbcm_ (c : string) : Script unit := let! _ := sbcm c in oret tt.
Definition sctr (p metric : string) : Script Z :=
  let! o := sbcm ("show c " +:+ p) in olift (lift (reading 0 metric p o)).

(** [sys.argv[1] if len(sys.argv) > 1 else dflt] *)
Definition arg1 (args : list string) (dflt : string) : string := match args with a :: _ => a | [] => dflt end.

(** ** lbmatrix158.py *)

Definition lbm_N : Z := 10.
Definition DMAC_BC : string := "ff:ff:ff:ff:ff:ff".
Definition DMAC_TO_CD1 : string := "00:11:22:33:44:b1".
Definition DMAC_TO_CD0 : string := "00:11:22:33:44:c0".
Definition lbm_send (dmac : string) : Script unit :=
  run_ ["python3"; "-c"; with_quotes ("from scapy.all import *;sendp(Ether(dst=`" +:+ dmac +:+ "`,src=`00:de:ad:be:ef:90`)/IP()/UDP()/Raw(b`x`*40),iface=`Ethernet1`,count=" +:+ zs lbm_N +:+ ",verbose=0)")].
Definition trial (mode dmac label : string) : Script unit :=
  bcm_ "clear c" ;!;
  bcm_ ("port cd0 lb=" +:+ mode) ;!;
  pause 1000 ;!;
  let! b0r := ctr "cd0" "MIB_RPKT" in
  let! b1t := ctr "cd1" "MIB_TPKT" in
  lbm_send dmac ;!;
  pause 1500 ;!;
  let! a0r := ctr "cd0" "MIB_RPKT" in
  let! a1t := ctr "cd1" "MIB_TPKT" in
  bcm_ "port cd0 lb=none" ;!;
  let d0r := a0r - b0r in
  let d1t := a1t - b1t in
  print ("  [" +:+ ljust 3 mode +:+ "] " +:+ ljust 22 label +:+ " cd0(loop)RX+" +:+ ljust 9 (zs d0r) +:+ " cd1 TX+" +:+ zs d1t
         +:+ (if 1000 <? d0r then " <==storm!" else "")).
Definition lbmatrix (args : list string) : Script unit :=
  bcm_ "vlan destroy 300" ;!;
  bcm_ "vlan create 300 pbm=cd0,cd1 ubm=cd0,cd1" ;!;
  bcm_ "pvlan set cd0 300" ;!;
  bcm_ "pvlan set cd1 300" ;!;
  bcm_ "l2 clear" ;!;
  bcm_ ("l2 add mac=" +:+ DMAC_TO_CD1 +:+ " vlan=300 port=cd1") ;!;
  bcm_ ("l2 add mac=" +:+ DMAC_TO_CD0 +:+ " vlan=300 port=cd0") ;!;
  let! o0 := bcm "pvlan show cd0" in
  let! v0 := olift (lift (group1 "is " o0)) in
  let! o1 := bcm "pvlan show cd1" in
  let! v1 := olift (lift (group1 "is " o1)) in
  print ("PVID cd0=" +:+ v0 +:+ " cd1=" +:+ v1) ;!;
  let mode := arg1 args "mac" in
  print ("=== loopback=" +:+ mode +:+ " ===") ;!;
  trial mode DMAC_BC "broadcast" ;!;
  trial mode DMAC_TO_CD1 "unicast->cd1(non-loop)" ;!;
  trial mode DMAC_TO_CD0 "unicast->cd0(self)" ;!;
  bcm_ "port cd0 lb=none" ;!;
  bcm_ ("l2 del mac=" +:+ DMAC_TO_CD1 +:+ " vlan=300") ;!;
  bcm_ ("l2 del mac=" +:+ DMAC_TO_CD0 +:+ " vlan=300") ;!;
  bcm_ "vlan destroy 300".

(** ** duallb158.py *)

Definition dual_send_to (dmac : string) : Script unit :=
  run_ ["python3"; "-c"; with_quotes ("from scapy.all import *;sendp(Ether(dst=`" +:+ dmac +:+ "`,src=`00:de:ad:be:ef:90`)/IP()/Raw(b`x`*40),iface=`Ethernet1`,count=10,verbose=0)")].
Definition dual_trial (x : string * string) : Script unit :=
  bcm_ "clear c" ;!;
  bcm_ "port cd0 lb=mac" ;!;
  bcm_ "port cd1 lb=mac" ;!;
  pause 1000 ;!;
  dual_send_to (fst x) ;!;
  pause 1500 ;!;
  let! c0r := ctr "cd0" "MIB_RPKT" in
  let! c2t := ctr "cd2" "MIB_TPKT" in
  bcm_ "port cd0 lb=none" ;!;
  bcm_ "port cd1 lb=none" ;!;
  print ("dst->" +:+ ljust 14 (snd x) +:+ ": cd0(in) RX+" +:+ zs c0r +:+ " | cd2 TX+" +:+ zs c2t +:+ " "
         +:+ (if 1000 <? c0r then "<==storm!" else "<==no storm")).
Definition duallb : Script unit :=
  bcm_ "vlan destroy 300" ;!;
  bcm_ "vlan create 300 pbm=cd0,cd1,cd2 ubm=cd0,cd1,cd2" ;!;
  bcm_ "pvlan set cd0 300" ;!;
  bcm_ "pvlan set cd1 300" ;!;
  bcm_ "pvlan set cd2 300" ;!;
  bcm_ "l2 clear" ;!;
  bcm_ "l2 add mac=00:11:22:33:44:b1 vlan=300 port=cd1" ;!;
  bcm_ "l2 add mac=00:11:22:33:44:b2 vlan=300 port=cd2" ;!;
  ofor [("00:11:22:33:44:b1", "cd1(LOOPED)"); ("00:11:22:33:44:b2", "cd2(non-loop)")] dual_trial ;!;
  bcm_ "pvlan set cd2 1000" ;!;
  bcm_ "pvlan set cd0 1000" ;!;
  bcm_ "pvlan set cd1 1000" ;!;
  bcm_ "vlan destroy 300" ;!;
  bcm_ "l2 clear".

(** ** lbtest32.py *)

Definition lbt_DST : string := "00:11:22:33:44:55".
Definition lbtest (args : list string) : Script unit :=
  let target := arg1 args "cd2" in
  sbcm_ "l2 clear" ;!;
  sbcm_ "vlan create 200 pbm=cd1,cd2 ubm=cd1,cd2" ;!;
  sbcm_ "pvlan set cd1 200" ;!;
  sbcm_ ("l2 add mac=" +:+ lbt_DST +:+ " vlan=200 port=" +:+ target) ;!;
  sbcm_ "port cd1 lb=phy" ;!;
  sbcm_ "clear c" ;!;
  pause 1000 ;!;
  let! l2 := sbcm "l2 show" in
  let dst_line := map strip (List.filter (contains "11:22:33:44:55") (splitlines l2)) in
  print ("l2: dst->" +:+ target +:+ ": " +:+ repr_list (take 1 dst_line)) ;!;
  run_ ["python3"; "-c"; with_quotes ("from scapy.all import *;sendp(Ether(dst=`" +:+ lbt_DST +:+ "`,src=`02:02:02:02:02:02`)/IP()/Raw(b`x`*30),iface=`Ethernet4`,count=" +:+ zs lbm_N +:+ ",verbose=0)")] ;!;
  pause 1500 ;!;
  let! c1r := sctr "cd1" "CLMIB_RPKT" in
  let! c1t := sctr "cd1" "CLMIB_TPKT" in
  let! c2r := sctr "cd2" "CLMIB_RPKT" in
  let! c2t := sctr "cd2" "CLMIB_TPKT" in
  sbcm_ "port cd1 lb=none" ;!;
  print ("target=" +:+ target +:+ " sent=" +:+ zs lbm_N +:+ ": cd1 RX=" +:+ zs c1r +:+ " TX=" +:+ zs c1t
         +:+ " | cd2 RX=" +:+ zs c2r +:+ " TX=" +:+ zs c2t) ;!;
  sbcm_ "pvlan set cd1 1" ;!;
  sbcm_ ("l2 del mac=" +:+ lbt_DST +:+ " vlan=200") ;!;
  sbcm_ "vlan destroy 200".

(** ** hpdiag.py and hpdiag32.py: two ports in loopback on different VLANs *)

Definition int_arg (args : list string) (dflt : Z) : outcome Z :=
  match args with
  | a :: _ => match py_int a with Some n => Val n | None => Exc (ValueError a) end
  | [] => Val dflt
  end.
Definition hp_send (src iface : string) (n : Z) : Script unit :=
  run_ ["python3"; "-c"; with_quotes ("from scapy.all import *;sendp(Ether(dst=`00:11:22:33:44:55`,src=`" +:+ src +:+ "`)/IP()/UDP()/Raw(b`x`*40),iface=`" +:+ iface +:+ "`,count=" +:+ zs n +:+ ",verbose=0)")].
(** a dictionary of readings, in the order of its comprehension *)
Definition readings (read : string -> string -> Script Z) (metrics : list string) : Script (list Z) :=
  (fix go (l : list (string * string)) : Script (list Z) :=
     match l with
     | [] => oret []
     | (p, m) :: l' => let! v := read p m in let! vs := go l' in oret (v :: vs)
     end) (flat_map (fun p => map (fun m => (p, m)) metrics) ["cd0"; "cd1"]).
Definition delta (a b : list Z) (i : nat) : string := zs (nth i a 0 - nth i b 0).

Definition hpdiag (args : list string) : Script unit :=
  let! n := olift (lift (int_arg args 20)) in
  bcm_ "port cd0 lb=mac" ;!; bcm_ "port cd1 lb=mac" ;!;
  bcm_ "pvlan set cd1 120" ;!;
  let! p0 := bcm "pvlan show cd0" in
  let! p1 := bcm "pvlan show cd1" in
  print ("PVID before send: cd0=" +:+ pvid_of "default VLAN is " p0 +:+ " cd1=" +:+ pvid_of "default VLAN is " p1) ;!;
  pause 1000 ;!;
  let! b := readings ctr ["MIB_RPKT"; "MIB_TPKT"] in
  hp_send "00:de:ad:be:ef:01" "Ethernet1" n ;!;
  pause 1500 ;!;
  let! a := readings ctr ["MIB_RPKT"; "MIB_TPKT"] in
  bcm_ "port cd0 lb=none" ;!; bcm_ "port cd1 lb=none" ;!;
  let! q0 := bcm "pvlan show cd0" in
  let! q1 := bcm "pvlan show cd1" in
  print ("PVID after send:  cd0=" +:+ pvid_of "default VLAN is " q0 +:+ " cd1=" +:+ pvid_of "default VLAN is " q1) ;!;
  print ("sent=" +:+ zs n) ;!;
  print ("  cd0: RX +" +:+ delta a b 0 +:+ "  TX +" +:+ delta a b 1) ;!;
  print ("  cd1: RX +" +:+ delta a b 2 +:+ "  TX +" +:+ delta a b 3) ;!;
  bcm_ "pvlan set cd1 110".

(** [text.strip().split(chr(10))[-2:]] *)
Definition last_lines (text : string) : list string :=
  let l := split_on lf (strip text) in drop (length l - 2) l.
Definition hpdiag32 : Script unit :=
  sbcm_ "vlan create 110 pbm=cd0,cd1 ubm=cd0,cd1" ;!;
  sbcm_ "vlan create 120 pbm=cd1,cpu0" ;!;
  sbcm_ "pvlan set cd0 110" ;!; sbcm_ "pvlan set cd1 120" ;!;
  let! f := sbcm "l2 add mac=00:11:22:33:44:55 vlan=110 port=cd1" in
  print ("l2 fwd: " +:+ repr_list (last_lines f)) ;!;
  let! c := sbcm "l2 add mac=00:11:22:33:44:55 vlan=120 port=cpu0" in
  print ("l2 cpu: " +:+ repr_list (last_lines c)) ;!;
  sbcm_ "port cd0 lb=phy" ;!; sbcm_ "port cd1 lb=phy" ;!;
  let! p0 := sbcm "pvlan show cd0" in
  let! p1 := sbcm "pvlan show cd1" in
  print ("PVID: cd0=" +:+ pvid_of "default VLAN is " p0 +:+ " cd1=" +:+ pvid_of "default VLAN is " p1) ;!;
  pause 1000 ;!;
  let! b := readings sctr ["CLMIB_RPKT"] in
  hp_send "00:de:ad:be:ef:01" "Ethernet0" lbm_N ;!;
  pause 1500 ;!;
  let! a := readings sctr ["CLMIB_RPKT"] in
  sbcm_ "port cd0 lb=none" ;!; sbcm_ "port cd1 lb=none" ;!;
  print ("sent=" +:+ zs lbm_N) ;!;
  print ("  cd0: RX +" +:+ delta a b 0) ;!;
  print ("  cd1: RX +" +:+ delta a b 1) ;!;
  sbcm_ "pvlan set cd0 1" ;!; sbcm_ "pvlan set cd1 1" ;!;
  sbcm_ "l2 del mac=00:11:22:33:44:55 vlan=110" ;!; sbcm_ "l2 del mac=00:11:22:33:44:55 vlan=120" ;!;
  sbcm_ "vlan destroy 110" ;!; sbcm_ "vlan destroy 120".

(** ** probe32.py *)

Definition probe_DST : string := "00:aa:bb:cc:dd:ee".
Definition probe_py (t : Z) : string := join (s1 lf) (map with_quotes
  ["import socket,time;s=socket.socket(socket.AF_UNIX,socket.SOCK_STREAM);s.setblocking(True);s.settimeout(" +:+ zs t +:+ ");s.connect(`" +:+ SOCK +:+ "`);s.sendall(__import__(`sys`).argv[1].encode()+b`\n`);buf=b``;e=time.time()+" +:+ zs t;
   "while time.time()<e:";
   " try:c=s.recv(8192)";
   " except socket.timeout:break";
   " if not c or b`BCM.0>` in (buf:=buf+c):break";
   "s.close();__import__(`sys`).stdout.write(buf.decode(`utf-8`,`replace`))"]).
Definition probe_argv (c : string) : list string := ["docker"; "exec"; "-i"; "syncd"; "python3"; "-c"; probe_py 5; c].
Definition pbcm (c : string) : Script string := olift (run_prog (probe_argv c)).
Definition rpkt : Script Z := let! o := pbcm "show c cd0" in olift (lift (reading (-1) "CLMIB_RPKT" "cd0" o)).
Definition fdb_json : string := with_quotes ("[{`FDB_TABLE:Vlan1000:" +:+ probe_DST +:+ "`: {`port`: `Ethernet4`, `type`: `static`}, `OP`: `SET`}]").
Definition fdb_json_del : string := with_quotes ("[{`FDB_TABLE:Vlan1000:" +:+ probe_DST +:+ "`: {}, `OP`: `DEL`}]").
Definition swss_sh (text : string) : list string := ["docker"; "exec"; "-i"; "swss"; "bash"; "-c"; text].
(** [load] is the first field of /proc/loadavg *)
Definition probe32 (args : list string) (load : dev -> string) : Script unit :=
  let! count := olift (lift (int_arg args 10)) in
  run_ (swss_sh ("echo '" +:+ fdb_json +:+ "' > /tmp/f.json && swssconfig /tmp/f.json")) ;!;
  pause 3000 ;!;
  let! asic := olift (run_prog ["sonic-db-cli"; "ASIC_DB"; "KEYS"; "ASIC_STATE:SAI_OBJECT_TYPE_FDB_ENTRY:*"]) in
  print ("FDB in ASIC for AA:BB:CC:DD:EE: " +:+
         (if existsb (fun k => contains "AA:BB:CC:DD:EE" (upper k)) (splitlines asic) then "True" else "False")) ;!;
  run_ ["ip"; "link"; "set"; "Ethernet0"; "up"] ;!;
  (let! _ := pbcm "port cd0 lb=phy" in oret tt) ;!;
  pause 1000 ;!;
  let! b := rpkt in
  run_ ["python3"; "-c"; with_quotes ("from scapy.all import *;sendp(Ether(dst=`" +:+ probe_DST +:+ "`,src=`00:de:ad:be:ef:01`)/IP()/UDP()/Raw(b`x`*40),iface=`Ethernet0`,count=" +:+ zs count +:+ ",verbose=0)")] ;!;
  pause 1500 ;!;
  (let! _ := pbcm "port cd0 lb=none" in oret tt) ;!;
  let! a := rpkt in
  print ("count=" +:+ zs count +:+ " cd0 RPKT base=" +:+ zs b +:+ " after=" +:+ zs a +:+ " delta=" +:+ zs (a - b)) ;!;
  let! l := olift (fun w => (Val (load (w_dev w)), w)) in
  print ("load: " +:+ l) ;!;
  run_ (swss_sh ("echo '" +:+ fdb_json_del +:+ "' > /tmp/fd.json && swssconfig /tmp/fd.json")).

(** ** debug/flood_degradation_stress.py *)

Context `{!Nic} (flood_pkt : string -> pkt).
Definition flood_cmd (c : string) : string := with_quotes ("docker exec syncd bcmcmd `" +:+ c +:+ "`").
Definition sh_argv (c : string) : list string := ["/bin/sh"; "-c"; c].
Definition fbcm (c : string) : Script string := olift (run_prog (sh_argv (flood_cmd c))).
Definition fbcm_ (c : string) : Script unit := let! _ := fbcm c in oret tt.
Definition clearfdb : Script unit := run_ (sh_argv "sonic-clear fdb all").
Definition flood_N : nat := 50.
Definition hex2 (n : Z) : string := pad_to 2 (hex n).
Definition flood_mac (i : Z) : string :=
  "00:11:22:33:" +:+ hex2 (Z.land (Z.shiftr i 8) 0xff) +:+ ":" +:+ hex2 (Z.land i 0xff).
(** one round: whether the address was learned *)
Definition flood_round (i : Z) : Script bool :=
  fbcm_ "port cd2 lb=mac" ;!; fbcm_ "port cd4 lb=mac" ;!; pause 250 ;!;
  let mac := flood_mac i in
  olift (nic_do (fun d => (tt, nic_send (flood_pkt mac) "Ethernet3" 100 0 d))) ;!;
  pause 600 ;!;
  let! o := fbcm "l2 show" in
  let l2 := replace_char ":" "" (lower o) in
  let learned := contains (lower (replace_char ":" "" mac)) l2 in
  fbcm_ "port cd2 lb=none" ;!; fbcm_ "port cd4 lb=none" ;!;
  oret learned.
(** the rounds from [i] on: failures and the first of them *)
Fixpoint flood_rounds (n : nat) (i fails firstfail : Z) : Script (Z * Z) :=
  match n with
  | O => oret (fails, firstfail)
  | S n' =>
      let! learned := flood_round i in
      clearfdb ;!;
      if learned then flood_rounds n' (i + 1) fails firstfail
      else flood_rounds n' (i + 1) (fails + 1) (if firstfail <? 0 then i else firstfail)
  end.
Definition flood_stress (args : list string) : Script unit :=
  let mode := arg1 args "dedicated" in
  fbcm_ "port all lb=none" ;!; clearfdb ;!; pause 1000 ;!;
  (if String.eqb mode "dedicated" then
     fbcm_ "vlan create 2000" ;!; fbcm_ "vlan add 2000 pbm=cd2,cd4,cd6,cd8 ubm=cd2,cd4,cd6,cd8" ;!;
     fbcm_ "vlan create 3990" ;!;
     fbcm_ "pvlan set cd2 2000" ;!;
     fbcm_ "pvlan set cd4 3990"
   else fbcm_ "pvlan set cd4 3990") ;!;
  let! r := flood_rounds flood_N 0 0 (-1) in
  print ("RESULT mode=" +:+ mode +:+ ": " +:+ zs (Z.of_nat flood_N) +:+ " iters, fails=" +:+ zs (fst r) +:+ ", firstfail_at=" +:+ zs (snd r)) ;!;
  fbcm_ "port all lb=none" ;!;
  fbcm_ "pvlan set cd2 1000" ;!; fbcm_ "pvlan set cd4 1000" ;!;
  fbcm_ "vlan destroy 2000" ;!; fbcm_ "vlan destroy 3990" ;!;
  clearfdb.
End Base.
