(* ===== verification/ExperimentsFacts.v ===== *)
(** * What the hardware experiments leave behind

    An experiment asks for the same programs whatever the counters say.  The
    chip commands among them are interpreted on a chip with loopbacks, VLANs,
    port VLANs and addresses, and the ones for swssconfig on the static
    addresses of the switch; what an experiment that runs to its end leaves is
    then a function of what it found. *)

From S2P Require Import Prelude PyStr PyStrFacts PyVal Device DeviceFacts Toy Dut Topology Loopback Obj Counters Traffic Experiments.

(** ** A chip *)

(** [c_l2] are the addresses of the chip's own table, [c_fdb] the keys of the
    static addresses that swss was given *)
Record Chip := mkChipState { c_loop : gset string; c_vlans : gset string; c_pvid : gmap string string; c_l2 : gset (string * string);
  c_fdb : gset string }.

(** the first word of a text, and what follows it *)
Definition word1 (s : string) : string * string := match cut " " s with Some x => x | None => (s, "") end.

(** what a command asks of the chip *)
Inductive ChipOp :=
| Lb (p : string) (on : bool)
| VlanCreate (v : string)
| VlanDestroy (v : string)
| PvidSet (p v : string)
| L2Add (mac vlan : string)
| L2Del (mac vlan : string)
| L2Clear
| FdbSet (key : string)
| FdbDel (key : string)
| Other.
Definition chip_op (cmd : string) : ChipOp :=
  let '(obj, rest) := word1 cmd in
  let '(w1, args) := word1 rest in
  if String.eqb obj "port" then
    if starts "lb=" args then Lb w1 (negb (String.eqb args "lb=none")) else Other
  else
  let '(w2, rest) := word1 args in
  let w3 := fst (word1 rest) in
  if String.eqb obj "vlan" then
    if String.eqb w1 "create" then VlanCreate w2 else if String.eqb w1 "destroy" then VlanDestroy w2 else Other
  else if String.eqb obj "pvlan" then if String.eqb w1 "set" then PvidSet w2 w3 else Other
  else if String.eqb obj "l2" then
    if String.eqb w1 "add" then L2Add w2 w3 else if String.eqb w1 "del" then L2Del w2 w3
    else if String.eqb w1 "clear" then L2Clear else Other
  else Other.

Definition loop_op (s : gset string) (o : ChipOp) : gset string :=
  match o with Lb p on => if on then {[p]} ∪ s else s ∖ {[p]} | _ => s end.
Definition vlan_op (s : gset string) (o : ChipOp) : gset string :=
  match o with VlanCreate v => {[v]} ∪ s | VlanDestroy v => s ∖ {[v]} | _ => s end.
Definition pvid_op (m : gmap string string) (o : ChipOp) : gmap string string :=
  match o with PvidSet p v => <[p := v]> m | _ => m end.
Definition l2_op (s : gset (string * string)) (o : ChipOp) : gset (string * string) :=
  match o with L2Add m v => {[(m, v)]} ∪ s | L2Del m v => s ∖ {[(m, v)]} | L2Clear => ∅ | _ => s end.
Definition fdb_op (s : gset string) (o : ChipOp) : gset string :=
  match o with FdbSet k => {[k]} ∪ s | FdbDel k => s ∖ {[k]} | _ => s end.
Definition chip_step (c : Chip) (o : ChipOp) : Chip :=
  mkChipState (loop_op (c_loop c) o) (vlan_op (c_vlans c) o) (pvid_op (c_pvid c) o) (l2_op (c_l2 c) o) (fdb_op (c_fdb c) o).

(** the chip command of a program: by bcmcmd or through the socket *)
Definition chip_cmd (argv : list string) : option string :=
  match argv with
  | ["docker"; "exec"; "syncd"; "bcmcmd"; c] => Some c
  | ["docker"; "exec"; "-i"; "syncd"; "python3"; "-c"; _; c] => Some c
  | _ => None
  end.
(** swssconfig with a file of one row: the text between the single quotes *)
Definition swss_op (text : string) : option ChipOp :=
  match cut squote text with
  | Some (_, rest) =>
      match cut squote rest with
      | Some (json, run) =>
          if contains "swssconfig" run then
            match json_loads json with
            | Some (VList [VDict [(key, _); ("OP", VStr op)]]) =>
                if String.eqb op "SET" then Some (FdbSet key) else if String.eqb op "DEL" then Some (FdbDel key) else None
            | _ => None
            end
          else None
      | None => None
      end
  | None => None
  end.
Definition argv_op (argv : list string) : option ChipOp :=
  match argv with
  | ["docker"; "exec"; "-i"; "swss"; "bash"; "-c"; text] => swss_op text
  | _ => option_map chip_op (chip_cmd argv)
  end.
Definition chip_ops (l : list (list string)) : list ChipOp := omap argv_op l.
Definition effects (l : list (list string)) (c : Chip) : Chip := fold_left chip_step (chip_ops l) c.

(** each part of the chip by itself *)
Lemma steps_parts ops : forall c, fold_left chip_step ops c =
  mkChipState (fold_left loop_op ops (c_loop c)) (fold_left vlan_op ops (c_vlans c))
    (fold_left pvid_op ops (c_pvid c)) (fold_left l2_op ops (c_l2 c)) (fold_left fdb_op ops (c_fdb c)).
Proof. induction ops as [|o ops IH]; intros c; [by destruct c|]. cbn [fold_left]. by rewrite IH. Qed.

(** ** The programs a script asks for *)

Section Issues.
Context `{Device} `{!Programs}.

(** a run to the end asks for these programs, in this order *)
Definition issues {A} (m : Script A) (l : list (list string)) : Prop :=
  forall s w a s' w', m s w = (Val (Val a, s'), w') -> w_trace w' = w_trace w ++ map argv_call l.

Lemma issues_ret {A} (a : A) : issues (oret a) [].
Proof. intros s w b s' w' [= <- <- <-]. by rewrite app_nil_r. Qed.
Lemma issues_print l : issues (print l) [].
Proof. intros s w b s' w' [= <- <- <-]. by rewrite app_nil_r. Qed.
Lemma issues_pause t : issues (pause t) [].
Proof. intros s w b s' w' [= <- <- <-]. by rewrite app_nil_r. Qed.
Lemma issues_bind {A B} (m : Script A) (k : A -> Script B) l1 l2 :
  issues m l1 -> (forall a, issues (k a) l2) -> issues (obnd m k) (l1 ++ l2).
Proof.
  intros Hm Hk s w b s' w' E. apply obnd_inv in E as (a & s1 & w1 & E1 & E2).
  rewrite (Hk _ _ _ _ _ _ E2), (Hm _ _ _ _ _ E1), map_app. by rewrite app_assoc.
Qed.
Lemma issues_lift {A} (o : outcome A) : issues (olift (lift o)) [].
Proof. intros s w b s' w' (E & ->)%olift_inv. unfold lift in E. injection E as -> <-. by rewrite app_nil_r. Qed.
Lemma issues_ask {A} (f : World -> A) : issues (olift (fun w => (Val (f w), w))) [].
Proof. intros s w b s' w' ([= _ <-] & ->)%olift_inv. by rewrite app_nil_r. Qed.
Lemma issues_prog argv : issues (olift (run_prog argv)) [argv].
Proof.
  intros s w b s' w' (E & ->)%olift_inv. unfold run_prog in E. destruct (prog_run argv (w_dev w)) as [o d]. by injection E as _ <-.
Qed.
Lemma issues_run argv : issues (run_ argv) [argv].
Proof.
  intros s w b s' w' ((o & w1 & E & [= _ <-])%bind_val & ->)%olift_inv. unfold run_prog in E.
  destruct (prog_run argv (w_dev w)) as [r d]. by injection E as _ <-.
Qed.
Lemma issues_read {A} (m : Script string) (f : string -> outcome A) l :
  issues m l -> issues (let! o := m in olift (lift (f o))) l.
Proof. intros Hm. rewrite <-(app_nil_r l). apply issues_bind; [done | intros; apply issues_lift]. Qed.
End Issues.

Create HintDb issues.
#[export] Hint Resolve issues_ret issues_print issues_pause issues_lift issues_ask issues_prog issues_run : issues.
(** collect the programs of a script, in order *)
Ltac issues_go :=
  repeat first
    [ solve [eauto with issues]
    | progress unfold bcm_, bcm, sbcm_, sbcm, ctr, sctr, pbcm, rpkt
    | eapply issues_bind; [|intros ?] ].
(** interpret the programs on a chip *)
Ltac chip_go :=
  match goal with |- context [effects ?l ?c] =>
    let l' := eval lazy beta delta [String.append app] iota in l in
    let o := eval cbn in (chip_ops l') in
    let E := fresh in assert (chip_ops l = o) as E by reflexivity;
    unfold effects; rewrite E, steps_parts; clear E end.

Section Tidy.
Context `{Device} `{!Programs}.




(** ** What each experiment leaves *)


Lemma loops_back p (s : gset string) : ({[p]} ∪ s) ∖ {[p]} = s ∖ {[p]}.
Proof. set_solver. Qed.

End Tidy.


(** [lbmatrix158] leaves the two ports in the VLAN it has destroyed: it never
    sets their PVIDs back, as [duallb158] does. *)
Lemma lbmatrix_pvids `{Device} `{!Programs} args s w a s' w' : lbmatrix args s w = (Val (Val a, s'), w') ->
  exists l, w_trace w' = w_trace w ++ map argv_call l /\ forall c,
  c_pvid (effects l c) !! "cd0" = Some "300" /\ c_pvid (effects l c) !! "cd1" = Some "300" /\ "300" ∉ c_vlans (effects l c).
Proof.
  assert (exists l, issues (lbmatrix args) l /\ forall c,
    c_pvid (effects l c) !! "cd0" = Some "300" /\ c_pvid (effects l c) !! "cd1" = Some "300" /\ "300" ∉ c_vlans (effects l c)) as (l & Hl & Hc).
  { eexists. split; [unfold lbmatrix, trial, lbm_send; issues_go|]. intros c. unfold DMAC_TO_CD1, DMAC_TO_CD0. chip_go.
    cbn [c_pvid c_vlans fold_left pvid_op vlan_op]. split; [by simplify_map_eq|]. split; [by simplify_map_eq | set_solver]. }
  intros E. exists l. split; [by eapply Hl | done].
Qed.

(** ** A device for the scripts *)

(** answers by program; [broken] programs cannot be started *)
Definition lab (broken : string) : @Programs (table_device (fun _ => ok_out "")) :=
  {| prog_run argv d :=
       (if existsb (String.eqb broken) argv then Exc (OSError "No such file or directory")
        else if contains "pvlan show" (join " " argv) then Val "Port cd0 default VLAN is 300." else Val "", d) |}.
Definition lab_world : @World (table_device (fun _ => ok_out "")) := @world (table_device (fun _ => ok_out "")) 0 cli_init.
(** the lines printed, whether the script ended, and the chip commands *)
Definition lab_run (broken : string) (m : @Script (table_device (fun _ => ok_out "")) unit) : bool * list string * list string :=
  let '(r, w) := m [] lab_world in
  match r with
  | Val (Val _, o) => (true, o, map call_cmd (w_trace w))
  | Val (_, o) => (false, o, map call_cmd (w_trace w))
  | _ => (false, [], map call_cmd (w_trace w))
  end.





Example ex_duallb : lab_run "nothing" (@duallb _ (lab "nothing")) =
  (true, ["dst->cd1(LOOPED)   : cd0(in) RX+0 | cd2 TX+0 <==no storm"; "dst->cd2(non-loop) : cd0(in) RX+0 | cd2 TX+0 <==no storm"],
   snd (lab_run "nothing" (@duallb _ (lab "nothing")))).
Proof. vm_compute. reflexivity. Qed.

(** a program that cannot be started ends a script with its ports in loopback *)
Example ex_left_looped : let '(ended, _, cmds) := lab_run "python3" (@duallb _ (lab "python3")) in
  ended = false /\ existsb (contains "port cd0 lb=mac") cmds = true /\ existsb (contains "lb=none") cmds = false.
Proof. vm_compute. auto. Qed.
