(* ===== verification/TrapSweep.v ===== *)
(** * The trap sweep (tools/trap_sweep.py)

    Which protocol packets a switch copies to its CPU, one by one: a port is
    put in loopback, the packet is sent from its interface, and an inbound
    copy on the interface is the evidence. *)

From S2P Require Import Prelude PyStr PyStrFacts PyVal Device DeviceFacts Toy Dut Topology Loopback Obj Counters Traffic Experiments ExperimentsFacts.

(** [subprocess.Popen] and [wait] *)
Class Jobs `{Device} := {
  job : Type;
  job_start : list string -> dev -> outcome job * dev;
  job_wait : job -> dev -> outcome unit * dev
}.

(** name, category, capture filter, packet expression, whether the packet
    needs an address of the switch *)
Record Trap := mkTrap { t_name : string; t_cat : string; t_bpf : string; t_pkt : string; t_need_ip : bool }.
Definition trap (name cat bpf p : string) (need_ip : bool) : Trap := mkTrap name cat bpf (with_quotes p) need_ip.

Definition L2 : list Trap := [
  trap "lldp" "L2" "ether proto 0x88cc"
    "Ether(dst=`01:80:c2:00:00:0e`,src=`00:de:ad:be:ef:01`,type=0x88cc)/Raw(b`\x02\x07\x04`+b`x`*40)" false;
  trap "lacp" "L2" "ether proto 0x8809"
    "Ether(dst=`01:80:c2:00:00:02`,src=`00:de:ad:be:ef:02`,type=0x8809)/Raw(b`\x01\x01`+b`x`*40)" false;
  trap "eapol" "L2" "ether proto 0x888e"
    "Ether(dst=`01:80:c2:00:00:03`,src=`00:de:ad:be:ef:03`,type=0x888e)/Raw(b`\x01\x00`+b`x`*40)" false;
  trap "stp" "L2" "ether dst 01:80:c2:00:00:00"
    "Ether(dst=`01:80:c2:00:00:00`,src=`00:de:ad:be:ef:04`)/LLC()/Raw(b`\x00`*40)" false;
  trap "cdp" "L2" "ether dst 01:00:0c:cc:cc:cc"
    "Ether(dst=`01:00:0c:cc:cc:cc`,src=`00:de:ad:be:ef:05`)/LLC()/SNAP(OUI=0xc,code=0x2000)/Raw(b`x`*40)" false;
  trap "udld" "L2" "ether dst 01:00:0c:cc:cc:cc"
    "Ether(dst=`01:00:0c:cc:cc:cc`,src=`00:de:ad:be:ef:06`)/LLC()/SNAP(OUI=0xc,code=0x0111)/Raw(b`x`*40)" false;
  trap "arp_req_bc" "L2" "arp"
    "Ether(dst=`ff:ff:ff:ff:ff:ff`,src=`00:de:ad:be:ef:07`)/ARP(op=1,pdst=`1.2.3.4`)" false;
  trap "arp_req_uc" "L2" "arp"
    "Ether(dst=`00:11:22:33:44:55`,src=`00:de:ad:be:ef:08`)/ARP(op=1,pdst=`1.2.3.4`)" false;
  trap "arp_resp_bc" "L2" "arp"
    "Ether(dst=`ff:ff:ff:ff:ff:ff`,src=`00:de:ad:be:ef:09`)/ARP(op=2,pdst=`1.2.3.4`,psrc=`1.2.3.5`)" false;
  trap "arp_resp_uc" "L2" "arp"
    "Ether(dst=`00:11:22:33:44:55`,src=`00:de:ad:be:ef:0a`)/ARP(op=2,pdst=`1.2.3.4`,psrc=`1.2.3.5`)" false;
  trap "nd_ns_mc" "L2" "icmp6"
    "Ether(dst=`33:33:ff:00:00:01`,src=`00:de:ad:be:ef:0b`)/IPv6(dst=`ff02::1:ff00:1`)/ICMPv6ND_NS(tgt=`fe80::1`)" false;
  trap "nd_ns_uc" "L2" "icmp6"
    "Ether(dst=`00:11:22:33:44:55`,src=`00:de:ad:be:ef:0c`)/IPv6(dst=`fe80::1`)/ICMPv6ND_NS(tgt=`fe80::1`)" false;
  trap "nd_na_mc" "L2" "icmp6"
    "Ether(dst=`33:33:00:00:00:01`,src=`00:de:ad:be:ef:0d`)/IPv6(dst=`ff02::1`)/ICMPv6ND_NA(tgt=`fe80::2`)" false;
  trap "nd_na_uc" "L2" "icmp6"
    "Ether(dst=`00:11:22:33:44:55`,src=`00:de:ad:be:ef:0e`)/IPv6(dst=`fe80::2`)/ICMPv6ND_NA(tgt=`fe80::2`)" false].

Definition L3 (ip : string) : list Trap := [
  trap "bgp" "L3" "tcp port 179" ("Ether(src=`00:de:ad:be:ef:10`)/IP(dst=`" +:+ ip +:+ "`)/TCP(dport=179)") true;
  trap "ssh" "L3" "tcp port 22" ("Ether(src=`00:de:ad:be:ef:11`)/IP(dst=`" +:+ ip +:+ "`)/TCP(dport=22)") true;
  trap "ospf" "L3" "ip proto 89"
    "Ether(dst=`01:00:5e:00:00:05`,src=`00:de:ad:be:ef:12`)/IP(dst=`224.0.0.5`,proto=89)/Raw(b`x`*20)" false;
  trap "snmp" "L3" "udp port 161" ("Ether(src=`00:de:ad:be:ef:13`)/IP(dst=`" +:+ ip +:+ "`)/UDP(dport=161)") true;
  trap "dhcp" "L3" "udp port 67"
    "Ether(dst=`ff:ff:ff:ff:ff:ff`,src=`00:de:ad:be:ef:14`)/IP(dst=`255.255.255.255`)/UDP(sport=68,dport=67)" false;
  trap "ttl_err" "EXC" "icmp" ("Ether(src=`00:de:ad:be:ef:15`)/IP(dst=`" +:+ ip +:+ "`,ttl=1)/ICMP()") true;
  trap "ip2me" "L3" "icmp" ("Ether(src=`00:de:ad:be:ef:16`)/IP(dst=`" +:+ ip +:+ "`)/ICMP()") true;
  trap "igmp" "MC" "igmp"
    "Ether(dst=`01:00:5e:00:00:01`,src=`00:de:ad:be:ef:17`)/IP(dst=`224.0.0.1`,proto=2)/Raw(b`\x11`+b`x`*20)" false].

Inductive Verdict := PASS | FAIL | SKIP.
Definition verdict_str (v : Verdict) : string := match v with PASS => "PASS" | FAIL => "FAIL" | SKIP => "SKIP" end.
Definition verdict_eqb (a b : Verdict) : bool :=
  match a, b with PASS, PASS | FAIL, FAIL | SKIP, SKIP => true | _, _ => false end.
Definition Row := (string * string * Verdict)%type.

Section Sweep.
Context `{Device} `{!Programs} `{!Jobs}.
(** [NETDEV], [CDPORT], [LOCAL_IP]: an empty address is as good as none *)
Context (NETDEV CDPORT : string) (LOCAL_IP : option string).

Definition job_do {A} (f : dev -> outcome A * dev) : M A := fun w =>
  let '(r, d) := f (w_dev w) in (r, mkWorld d (w_trace w) (w_cli w) (w_lb w)).

Definition pcap : string := "/tmp/trapsweep.pcap".
Definition capture_argv (bpf : string) : list string :=
  ["timeout"; "4"; "tcpdump"; "-i"; NETDEV; "-Q"; "in"; "-c"; "3"; bpf; "-w"; pcap].
Definition inject_argv (p : string) : list string :=
  ["python3"; "-c"; "from scapy.all import *; sendp(" +:+ p +:+ ", iface='" +:+ NETDEV +:+ "', count=10, verbose=0)"].
Definition frames (text : string) : Z := Z.of_nat (length (List.filter (fun l => nonempty (strip l)) (splitlines text))).
Definition sniff_inject (bpf p : string) : Script Z :=
  run_ (sh_argv ("rm -f " +:+ pcap)) ;!;
  let! tp := olift (job_do (job_start (capture_argv bpf))) in
  pause 1000 ;!;
  run_ (inject_argv p) ;!;
  pause 1500 ;!;
  olift (job_do (job_wait tp)) ;!;
  let! o := olift (run_prog ["tcpdump"; "-r"; pcap]) in
  oret (frames o).

Definition traps : list Trap := if truthy LOCAL_IP then L2 ++ L3 (or_empty LOCAL_IP) else L2 ++ L3 "0.0.0.0".
Definition skipped (t : Trap) : bool := t_need_ip t && negb (truthy LOCAL_IP).
(** one line and one row per trap *)
Definition sweep_one (t : Trap) : Script Row :=
  if skipped t then
    print (ljust 10 (t_name t) +:+ " " +:+ ljust 5 (t_cat t) +:+ " SKIP   (needs local_ip)") ;!;
    oret (t_name t, t_cat t, SKIP)
  else
    bcm_ "clear c" ;!;
    let! n := sniff_inject (t_bpf t) (t_pkt t) in
    let res := if 0 <? n then PASS else FAIL in
    print (ljust 10 (t_name t) +:+ " " +:+ ljust 5 (t_cat t) +:+ " " +:+ ljust 6 (verdict_str res) +:+ " " +:+ zs n) ;!;
    oret (t_name t, t_cat t, res).
Fixpoint sweep (l : list Trap) : Script (list Row) :=
  match l with
  | [] => oret []
  | t :: l' => let! r := sweep_one t in let! rs := sweep l' in oret (r :: rs)
  end.
Definition tally (v : Verdict) (rows : list Row) : Z := Z.of_nat (length (List.filter (fun r => verdict_eqb (snd r) v) rows)).
Definition dashes : string := Nat.iter 34 (String "-"%char) "".
Definition sweep_main : Script (list Row) :=
  run_ ["ip"; "link"; "set"; NETDEV; "up"] ;!;
  bcm_ ("port " +:+ CDPORT +:+ " lb=mac") ;!;
  pause 1000 ;!;
  print (ljust 10 "trap" +:+ " " +:+ ljust 5 "cat" +:+ " " +:+ ljust 6 "result" +:+ " frames") ;!;
  print dashes ;!;
  let! rows := sweep traps in
  bcm_ ("port " +:+ CDPORT +:+ " lb=none") ;!;
  print dashes ;!;
  print ("summary: PASS=" +:+ zs (tally PASS rows) +:+ " FAIL=" +:+ zs (tally FAIL rows) +:+ " SKIP=" +:+ zs (tally SKIP rows)) ;!;
  oret rows.

(** ** What a finished sweep reports *)

(** a row says what it may about its trap *)
Definition row_of (t : Trap) (r : Row) : Prop :=
  fst r = (t_name t, t_cat t) /\ (snd r = SKIP <-> skipped t = true).

Lemma sweep_one_row t s w r s' w' : sweep_one t s w = (Val (Val r, s'), w') -> row_of t r /\ exists l, s' = s ++ [l].
Proof.
  unfold sweep_one, row_of. destruct (skipped t) eqn:Es.
  - intros (u & s1 & w1 & E1 & [= <- <- <-])%obnd_inv. injection E1 as _ <- _. split; [done | by eexists].
  - intros (u & s1 & w1 & E1 & E)%obnd_inv. apply obnd_inv in E as (n & s2 & w2 & E2 & E).
    apply obnd_inv in E as (u3 & s3 & w3 & E3 & [= <- <- <-]). injection E3 as _ <- _.
    split; [split; [done|]; cbn; by destruct (0 <? n)|].
    assert (s1 = s) as ->. { unfold bcm_, bcm in E1. apply obnd_inv in E1 as (? & ? & ? & (_ & ->)%olift_inv & [= _ <- _]). done. }
    assert (s2 = s) as ->; [|by eexists]. unfold sniff_inject, run_, pause in E2.
    repeat match goal with
    | X : obnd _ _ _ _ = _ |- _ => apply obnd_inv in X as (? & ? & ? & ? & ?)
    | X : olift _ _ _ = _ |- _ => apply olift_inv in X as [_ ->]
    | X : oret _ _ _ = _ |- _ => injection X as _ <- _
    end. done.
Qed.

Lemma sweep_rows l : forall s w rows s' w', sweep l s w = (Val (Val rows, s'), w') ->
  Forall2 row_of l rows /\ length s' = (length s + length l)%nat.
Proof.
  induction l as [|t l IH]; intros s w rows s' w' E; cbn [sweep] in E.
  - injection E as <- <- _. split; [constructor | cbn; lia].
  - apply obnd_inv in E as (r & s1 & w1 & E1 & E). apply obnd_inv in E as (rs & s2 & w2 & E2 & [= <- <- _]).
    apply sweep_one_row in E1 as (Hr & l1 & ->). apply IH in E2 as [Hrs Hl]. split; [by constructor|].
    rewrite Hl, length_app. cbn. lia.
Qed.

Lemma tally_all rows : tally PASS rows + tally FAIL rows + tally SKIP rows = Z.of_nat (length rows).
Proof.
  unfold tally. induction rows as [|[nc v] rows IH]; [done|]. cbn [List.filter snd length].
  destruct v; cbn [verdict_eqb length]; lia.
Qed.
Lemma tally_skip l rows : Forall2 row_of l rows -> tally SKIP rows = Z.of_nat (length (List.filter skipped l)).
Proof.
  unfold tally. induction 1 as [|t r l rows [_ Hr] _ IH]; [done|]. cbn [List.filter].
  destruct (skipped t) eqn:Es.
  - destruct Hr as [_ ->]; [|done]. cbn [verdict_eqb length]. lia.
  - destruct (snd r); cbn [verdict_eqb]; try exact IH. destruct Hr as [Hr _]. by specialize (Hr eq_refl).
Qed.

(** C25: what a finished sweep reports.  It has one row and one line for each of
    the 22 traps, in order; a trap is skipped exactly when it needs an address
    and none was given, which is five of them or none; the three tallies of
    the summary add up to 22; and the last program asked for ends the port's
    loopback. *)
Theorem sweep_complete s w rows s' w' : sweep_main s w = (Val (Val rows, s'), w') ->
  Forall2 row_of traps rows /\ length s' = (length s + 26)%nat
  /\ tally PASS rows + tally FAIL rows + tally SKIP rows = 22
  /\ tally SKIP rows = (if truthy LOCAL_IP then 0 else 5)
  /\ exists pre, w_trace w' = pre ++ [argv_call (bcmcmd_argv ("port " +:+ CDPORT +:+ " lb=none"))].
Proof.
  intros E. unfold sweep_main in E.
  apply obnd_inv in E as (u1 & s1 & w1 & E1 & E). apply obnd_inv in E as (u2 & s2 & w2 & E2 & E).
  apply obnd_inv in E as (u3 & s3 & w3 & E3 & E). apply obnd_inv in E as (u4 & s4 & w4 & [= <- <- <-] & E).
  apply obnd_inv in E as (u5 & s5 & w5 & [= <- <- <-] & E). apply obnd_inv in E as (rs & s6 & w6 & E6 & E).
  apply obnd_inv in E as (u7 & s7 & w7 & E7 & E). apply obnd_inv in E as (u8 & s8 & w8 & [= <- <- <-] & E).
  apply obnd_inv in E as (u9 & s9 & w9 & [= <- <- <-] & [= <- <- <-]).
  unfold run_, pause, bcm_, bcm in *. apply olift_inv in E1 as [_ ->], E3 as [_ ->].
  apply obnd_inv in E2 as (? & ? & ? & (_ & ->)%olift_inv & [= _ <- _]).
  apply obnd_inv in E7 as (o & ? & ? & (E7 & ->)%olift_inv & [= _ <- <-]).
  apply sweep_rows in E6 as [Hrows Hlen]. pose proof (Forall2_length _ _ _ Hrows) as Hl.
  assert (length traps = 22%nat /\ Z.of_nat (length (List.filter skipped traps)) = (if truthy LOCAL_IP then 0 else 5)) as [Ht Hs].
  { unfold traps, skipped. destruct (truthy LOCAL_IP) eqn:El; split; try reflexivity. }
  split; [done|]. split; [rewrite !length_app, Hlen, !length_app, Ht; cbn; lia|]. split; [rewrite tally_all; lia|].
  split; [by rewrite (tally_skip _ _ Hrows)|]. exists (w_trace w6). unfold run_prog in E7.
  destruct (prog_run _ _) as [r d]. by injection E7 as _ <-.
Qed.
End Sweep.

(** ** A device that copies ARP to its CPU *)

(** the capture shows a frame when the last packet was an ARP; a device whose
    [python3] is missing raises *)
Definition arp_lab (python : bool) : Device := {| dev := bool; dev_exec c d := (ok_out "", d); dev_sleep t d := d; dev_now d := 0 |}.
Definition arp_run (python : bool) (argv : list string) (d : bool) : outcome string * bool :=
  if existsb (String.eqb "python3") argv then
    if python then (Val "", existsb (contains "/ARP(") argv) else (Exc (OSError "No such file or directory: 'python3'"), d)
  else if existsb (String.eqb "-r") argv then (Val (if d then "12:00 ARP, Request" +:+ s1 lf else ""), d) else (Val "", d).
#[export] Instance arp_programs python : @Programs (arp_lab python) := @Build_Programs (arp_lab python) (arp_run python).
#[export] Instance arp_jobs python : @Jobs (arp_lab python) :=
  @Build_Jobs (arp_lab python) unit (fun _ d => (Val tt, d)) (fun _ d => (Val tt, d)).

Lemma sweep_result : match fst (@sweep_main (arp_lab true) _ _ "Ethernet1" "cd0" None [] (@world (arp_lab true) false cli_init)) with
  | Val (Val rows, out) => tally PASS rows = 4 /\ List.last out "" = "summary: PASS=4 FAIL=13 SKIP=5"
  | _ => False
  end.
Proof. vm_compute. split; reflexivity. Qed.

Lemma sweep_complete_witness : exists rows out w',
  @sweep_main (arp_lab true) _ _ "Ethernet1" "cd0" None [] (@world (arp_lab true) false cli_init) = (Val (Val rows, out), w')
  /\ tally PASS rows + tally FAIL rows + tally SKIP rows = 22 /\ tally SKIP rows = 5.
Proof.
  pose proof sweep_result as Hr.
  destruct (@sweep_main (arp_lab true) _ _ "Ethernet1" "cd0" None [] _) as [r w'] eqn:E. cbn [fst] in Hr.
  destruct r as [[[rows| |] out]| |]; [|contradiction..]. exists rows, out, w'. split; [exact eq_refl|].
  apply (@sweep_complete (arp_lab true) _ _ "Ethernet1" "cd0" None) in E as (_ & _ & Ht & Hs & _). split; [exact Ht | exact Hs].
Defined.

(** a program that cannot be started ends the sweep with the port in loopback *)
Example ex_sweep_looped :
  let '(r, w) := @sweep_main (arp_lab false) _ _ "Ethernet1" "cd0" None [] (@world (arp_lab false) false cli_init) in
  match r with Val (Exc _, _) => true | _ => false end = true
  /\ existsb (fun c => contains "lb=mac" (call_cmd c)) (w_trace w) = true
  /\ existsb (fun c => contains "lb=none" (call_cmd c)) (w_trace w) = false.
Proof. vm_compute. auto. Qed.
