(* ===== verification/Lifecycle.v ===== *)
(** * Starting and stopping servers and collectors (servers/base.py,
    servers/mock_aaa.py, responders/collector.py)

    [ThreadServer] and [MockTacacsServer] are the same machine: an owner that
    binds a socket, starts a thread and later stops it, and a thread that
    waits for one item at a time.  What an item does is the interface
    [Listener], with an instance for datagrams and one for TACACS+
    connections; the machine and its theorems are stated once. *)

From S2P Require Import Prelude PyStr PyStrFacts Device DeviceFacts Toy Dut Topology Loopback Obj Traffic Links Bytes Servers Sflow Responders.

(** ** The interface of a listener *)

(** [enrol] is what is recorded before the item is handled; [process] handles
    it, with the socket open or closed, and tells whether the thread goes on *)
Class Listener (Item St : Type) := {
  enrol : Item -> St -> St;
  process : bool -> Item -> St -> St * bool
}.

Section Machine.
Context {Item St : Type} `{!Listener Item St}.

(** where the thread is: not started, before the test of [_stop], in the wait
    for an item, at work on one, ended *)
Inductive where_ := Unborn | Checking | Receiving | Working (i : Item) | Gone.
Record Loop := mkLoop { lp_port : Z; lp_open : bool; lp_stop : bool; lp_at : where_; lp_st : St }.
Definition at_ (x : where_) (l : Loop) : Loop := mkLoop (lp_port l) (lp_open l) (lp_stop l) x (lp_st l).

(** what a wait gives: an item, a time-out, an error of the socket *)
Inductive waited := Got (i : Item) | Nothing | Broken.
Inductive levent :=
| LStart (bound : option Z)      (* the port the socket was bound to, [None] when [bind] raised *)
| LStop
| LCheck
| LWait (r : waited)
| LWork.

Definition new_loop (port : Z) (st : St) : Loop := mkLoop port false false Unborn st.
(** [start]: when [bind] raises the socket is kept, and no thread is started *)
Definition loop_start (bound : option Z) (l : Loop) : Loop :=
  match bound with
  | Some p => mkLoop p true (lp_stop l) Checking (lp_st l)
  | None => mkLoop (lp_port l) true (lp_stop l) (lp_at l) (lp_st l)
  end.
(** [stop]: the flag, then the socket; the join has its own time limit *)
Definition loop_stop (l : Loop) : Loop := mkLoop (lp_port l) false true (lp_at l) (lp_st l).

Definition life_step (l : Loop) (e : levent) : option Loop :=
  match e, lp_at l with
  | LStart b, Unborn | LStart b, Gone => Some (loop_start b l)
  | LStop, _ => Some (loop_stop l)
  | LCheck, Checking => Some (at_ (if lp_stop l then Gone else Receiving) l)
  | LWait (Got i), Receiving => Some (mkLoop (lp_port l) (lp_open l) (lp_stop l) (Working i) (enrol i (lp_st l)))
  | LWait Nothing, Receiving => Some (at_ Checking l)
  | LWait Broken, Receiving => Some (at_ Gone l)
  | LWork, Working i =>
      let '(st, go) := process (lp_open l) i (lp_st l) in
      Some (mkLoop (lp_port l) (lp_open l) (lp_stop l) (if go then Checking else Gone) st)
  | _, _ => None
  end.
Fixpoint loop_run (l : Loop) (es : list levent) : option Loop :=
  match es with
  | [] => Some l
  | e :: es' => match life_step l e with Some l' => loop_run l' es' | None => None end
  end.

(** the items a run received *)
Definition item_of (e : levent) : option Item := match e with LWait (Got i) => Some i | _ => None end.
Definition items (es : list levent) : list Item := omap item_of es.

Lemma loop_run_app es1 : forall es2 l l', loop_run l (es1 ++ es2) = Some l' <->
  exists l1, loop_run l es1 = Some l1 /\ loop_run l1 es2 = Some l'.
Proof.
  induction es1 as [|e es1 IH]; intros es2 l l'; cbn [app loop_run].
  - split; [eauto | by intros (? & [= <-] & ?)].
  - destruct (life_step l e) as [l0|]; [apply IH|]. split; [done | by intros (? & ? & _)].
Qed.

(** ** After [stop] *)

(** a stopped thread that waits may still be given the item it waits for *)
Definition may_get (l : Loop) : nat := match lp_at l with Receiving => 1 | _ => 0 end.

Lemma stopped_gets es : forall l l', lp_stop l = true -> loop_run l es = Some l' -> (length (items es) <= may_get l)%nat.
Proof.
  induction es as [|e es IH]; intros l l' Hs E; [cbn; lia|]. cbn [loop_run] in E.
  destruct (life_step l e) as [l1|] eqn:E1; [|done]. unfold items. cbn [omap list_omap]. fold (items es).
  assert (lp_stop l1 = true /\ (length (option_list (item_of e)) + may_get l1 <= may_get l)%nat) as [Hs1 Hm].
  { unfold life_step in E1. destruct e as [b| | |[i| |]|]; destruct (lp_at l) eqn:Ea; try done; simplify_eq; unfold may_get; rewrite ?Ea;
      try (destruct b); try (destruct (process _ _ _) as [st []]; simplify_eq); cbn; rewrite ?Hs, ?Ea; split; (done || lia). }
  specialize (IH l1 l' Hs1 E). destruct (item_of e); cbn in *; lia.
Qed.

(** ** What the state is *)

(** the items handled one after the other on an open socket *)
Definition in_turn (st : St) (l : list Item) : St := fold_left (fun st i => fst (process true i (enrol i st))) l st.
(** the state of a run that was not stopped: the last item may be in hand *)
Definition handled (st : St) (l : Loop) (got : list Item) : Prop :=
  match lp_at l with
  | Working i => lp_open l = true /\ exists before, got = before ++ [i] /\ lp_st l = enrol i (in_turn st before)
  | Checking | Receiving => lp_open l = true /\ lp_st l = in_turn st got
  | _ => lp_st l = in_turn st got
  end.

Lemma in_turn_snoc st l i : in_turn st (l ++ [i]) = fst (process true i (enrol i (in_turn st l))).
Proof. unfold in_turn. by rewrite fold_left_app. Qed.

Lemma handled_run port st es l : loop_run (new_loop port st) es = Some l -> LStop ∉ es -> handled st l (items es).
Proof.
  revert l. induction es as [|e es IH] using rev_ind; intros l E Hn; [by injection E as <-|].
  apply loop_run_app in E as (l1 & E1 & E). cbn [loop_run] in E. destruct (life_step l1 e) as [l2|] eqn:E2; [|done]. injection E as <-.
  specialize (IH l1 E1 (fun H => Hn (proj2 (elem_of_app _ _ _) (or_introl H)))).
  assert (e <> LStop) as He by (intros ->; apply Hn, elem_of_app; right; by left).
  unfold items. rewrite omap_app. fold (items es). unfold handled in *. unfold life_step in E2.
  destruct e as [b| | |[i| |]|]; try done; destruct (lp_at l1) eqn:Ea; try done; cbn [omap list_omap item_of]; rewrite ?app_nil_r;
    try (injection E2 as <-); try (destruct b); cbn [lp_at lp_open lp_st at_ loop_start];
    try (match goal with |- context [lp_stop l1] => destruct (lp_stop l1) end); rewrite ?Ea;
    try done; try (by destruct IH); try (by split).
  - destruct IH as [Ho Hst]. split; [done|]. exists (items es). by rewrite Hst.
  - destruct IH as (Ho & before & Hb & Hst). rewrite Hb. rewrite Ho, Hst in E2. rewrite in_turn_snoc.
    destruct (process true i _) as [st' []]; injection E2 as <-; done.
Qed.
End Machine.
Arguments where_ Item : clear implicits.
Arguments Loop Item St : clear implicits.
Arguments levent Item : clear implicits.

(** ** [ThreadServer] *)

Section Datagrams.
Context {St : Type} `{!DatagramServer St}.

(** a datagram is recorded, then answered; a closed socket sends nothing *)
#[export] Instance datagram_listener : Listener (list Z * addr) (Server St) := {|
  enrol i s := mkServer (sv_requests s ++ [i]) (sv_sent s) (sv_state s);
  process open i s :=
    let '(r, st) := on_datagram (fst i) (snd i) (sv_state s) in
    (mkServer (sv_requests s)
       (match r with
        | Val (Some (b :: l)) => if open then sv_sent s ++ [(b :: l, snd i)] else sv_sent s
        | _ => sv_sent s
        end) st, true)
|}.

(** the machine's turn is the one of [Servers.serve_one] *)
Lemma turn_serve i (s : Server St) : fst (process true i (enrol i s)) = serve_one (fst i) (snd i) s.
Proof. destruct i as [data a]. unfold serve_one. cbn. by destruct (on_datagram data a (sv_state s)). Qed.
Lemma in_turn_serve l : forall s : Server St, in_turn s l = serve (map (fun i => Dgram (fst i) (snd i)) l) s.
Proof. induction l as [|i l IH]; intros s; [done|]. cbn [in_turn fold_left map serve]. rewrite turn_serve. apply IH. Qed.

Lemma step_requests (l : Loop (list Z * addr) (Server St)) e l' : life_step l e = Some l' ->
  sv_requests (lp_st l') = sv_requests (lp_st l) ++ option_list (item_of e).
Proof.
  unfold life_step. destruct e as [b| | |[i| |]|]; destruct (lp_at l) eqn:Ea; intros E; simplify_eq;
    try (destruct b); cbn -[process enrol] in *; rewrite ?app_nil_r; try done.
  cbn in E. destruct (on_datagram _ _ _) as [r st]. by simplify_eq.
Qed.
Lemma run_requests es : forall (l l' : Loop (list Z * addr) (Server St)), loop_run l es = Some l' ->
  sv_requests (lp_st l') = sv_requests (lp_st l) ++ items es.
Proof.
  induction es as [|e es IH]; intros l l' E; cbn [loop_run] in E; [injection E as <-; by rewrite app_nil_r|].
  destruct (life_step l e) as [l1|] eqn:E1; [|done]. rewrite (IH _ _ E), (step_requests _ _ _ E1), <-app_assoc. f_equal.
  unfold items. cbn [omap list_omap]. by destruct (item_of e).
Qed.

(** C28: a server over its life.  However the owner's calls and the thread's
    steps are interleaved from a new server on: the requests recorded are the
    datagrams received, in order; once [stop] was called at most one more is
    received; and a server that was not stopped and has no datagram in hand is
    in the state of the sequential loop run on those datagrams, with the
    replies sent that loop sends. *)
Theorem server_life (port : Z) (st : St) (es : list (levent (list Z * addr))) (l : Loop (list Z * addr) (Server St)) :
  loop_run (new_loop port (mkServer [] [] st)) es = Some l ->
  sv_requests (lp_st l) = items es
  /\ (forall before after, es = before ++ LStop :: after -> (length (items after) <= 1)%nat)
  /\ (LStop ∉ es -> (forall i, lp_at l <> Working i) ->
      lp_st l = serve (map (fun i => Dgram (fst i) (snd i)) (items es)) (mkServer [] [] st)).
Proof.
  intros E. split; [by rewrite (run_requests _ _ _ E)|]. split.
  - intros before after ->. apply loop_run_app in E as (l1 & _ & E). cbn [loop_run] in E.
    replace (life_step l1 LStop) with (Some (loop_stop l1)) in E by (unfold life_step; by destruct (lp_at l1)).
    apply stopped_gets in E; [|done]. etransitivity; [exact E|]. unfold may_get, loop_stop. cbn. destruct (lp_at l1); lia.
  - intros Hn Hw. apply handled_run in E; [|done]. rewrite <-in_turn_serve. unfold handled in E.
    destruct (lp_at l) eqn:Ea; try done; try by destruct E. by destruct (Hw i).
Qed.
End Datagrams.

Lemma server_life_witness :
  let d := ([60; 49; 62], ("10.0.0.1", 514)) in
  let es := [LStart (Some 514); LCheck; LWait Nothing; LCheck; LWait (Got d); LWork; LCheck; LStop; LWait (Got d)] in
  exists l, loop_run (new_loop 0 (mkServer [] [] (mkSyslog []))) es = Some l /\ sv_requests (lp_st l) = [d; d]
    /\ (length (items (Item := list Z * addr) [LWait (Got d)]) <= 1)%nat.
Proof.
  intros d es. eexists. split; [vm_compute; reflexivity|].
  destruct (server_life 0 (mkSyslog []) es (mkLoop 514 false true (Working d)
    (mkServer [d; d] [] (mkSyslog [decode_ascii [60; 49; 62]])))) as (Hr & Hs & _); [vm_compute; reflexivity|].
  split; [exact Hr | exact (Hs (take 7 es) [LWait (Got d)] eq_refl)].
Defined.

(** [_stop] is never cleared: a server that is started again after [stop] ends
    before it receives anything *)
Example ex_restart : option_map lp_at (loop_run (new_loop 0 (mkServer [] [] (mkSyslog [])))
  [LStart (Some 514); LCheck; LWait Nothing; LStop; LCheck; LStart (Some 514); LCheck]) = Some Gone.
Proof. reflexivity. Qed.
(** a port in use: [start] raises, the socket stays open until [stop] *)
Example ex_port_in_use : option_map (fun l => (lp_open l, lp_at l)) (loop_run (new_loop 514 (mkServer [] [] (mkSyslog []))) [LStart None])
  = Some (true, Unborn).
Proof. reflexivity. Qed.

(** ** [MockTacacsServer] *)

(** a connection is recorded with what was read from it; an exception of the
    read closes the connection and ends the thread *)
#[export] Instance tacacs_listener : Listener (addr * outcome (list Z)) (list (addr * list Z)) := {|
  enrol i s := s;
  process open i s := match snd i with Val data => (s ++ [(fst i, data)], true) | _ => (s, false) end
|}.

(** what the accepts of the loop meet, as a list for [tacacs_serve] *)
Definition accepts (es : list (levent (addr * outcome (list Z)))) : list accepted :=
  omap (fun e => match e with
                 | LWait (Got (a, o)) => Some (Conn a o)
                 | LWait Nothing => Some AcceptTimeout
                 | LWait Broken => Some AcceptError
                 | _ => None
                 end) es.

(** from the test of [_stop] on, the machine that is not stopped and has
    nothing in hand records what the sequential loop does *)
Lemma tacacs_life es : forall l l', lp_at l = Checking \/ lp_at l = Receiving -> lp_stop l = false -> LStop ∉ es ->
  (forall b, LStart b ∉ es) -> loop_run l es = Some l' -> (forall i, lp_at l' <> Working i) ->
  lp_st l' = fst (tacacs_serve (accepts es) (lp_st l)).
Proof.
  induction es as [es IH] using (induction_ltof1 _ (@length _)); unfold ltof in IH.
  intros l l' Ha Hp Hn Hb E Hw. destruct es as [|e es]; [by injection E as <-|]. cbn [loop_run] in E.
  apply not_elem_of_cons in Hn as [He Hn]. assert (forall b, LStart b ∉ es) as Hb' by (intros b H; by apply (Hb b), list_elem_of_further).
  destruct Ha as [Ha|Ha]; destruct e as [b| | |[[a o]| |]|]; unfold life_step in E; rewrite ?Ha in E; try done.
  - rewrite Hp in E. exact (IH es ltac:(simpl; lia) (at_ Receiving l) l' (or_intror eq_refl) Hp Hn Hb' E Hw).
  - cbn [loop_run] in E. destruct es as [|e2 es]; [injection E as <-; by destruct (Hw (a, o))|].
    apply not_elem_of_cons in Hn as [He2 Hn2]. cbn [loop_run] in E. destruct e2 as [b| | |[]|]; unfold life_step in E; cbn [lp_at] in E; try done.
    assert (forall b, LStart b ∉ es) as Hb2 by (intros b H; by apply (Hb' b), list_elem_of_further).
    cbn [accepts omap list_omap]. fold (accepts es). cbn [process tacacs_listener fst snd enrol lp_st lp_open] in E.
    destruct o as [data|x|]; cbn in E.
    + match type of E with loop_run ?l1 _ = _ => exact (IH es ltac:(simpl; lia) l1 l' (or_introl eq_refl) Hp Hn2 Hb2 E Hw) end.
    + destruct es as [|e3 es]; [by injection E as <-|]. cbn [loop_run] in E. destruct e3 as [b| | |[]|]; unfold life_step in E; cbn [lp_at] in E; try done.
      * by destruct (Hb2 b); left.
      * by apply not_elem_of_cons in Hn2 as [].
    + destruct es as [|e3 es]; [by injection E as <-|]. cbn [loop_run] in E. destruct e3 as [b| | |[]|]; unfold life_step in E; cbn [lp_at] in E; try done.
      * by destruct (Hb2 b); left.
      * by apply not_elem_of_cons in Hn2 as [].
  - exact (IH es ltac:(simpl; lia) (at_ Checking l) l' (or_introl eq_refl) Hp Hn Hb' E Hw).
  - cbn [accepts omap list_omap tacacs_serve]. destruct es as [|e3 es]; [by injection E as <-|]. cbn [loop_run] in E.
    destruct e3 as [b| | |[]|]; unfold life_step in E; cbn [lp_at at_] in E; try done.
    + by destruct (Hb' b); left.
    + by apply not_elem_of_cons in Hn as [].
Qed.

(** ** [PacketCollector] *)

Section Collector.
Context `{Device} `{!Nic}.

Record PacketCollector := mkColl { pc_iface : string; pc_bpf : option string; pc_on : bool; pc_packets : list pkt }.
Definition packet_collector (iface : string) (bpf : option string) (inbound : bool) : PacketCollector :=
  mkColl iface (collector_bpf bpf inbound) false [].
Definition collector_start : OM PacketCollector unit :=
  let! c := oget in
  owhen scapy
    (omod (fun c => mkColl (pc_iface c) (pc_bpf c) true (pc_packets c)) ;!;
     olift (nic_do (fun d => (tt, sniff_start (pc_iface c) (pc_bpf c) d)) ;;; sleep 400)).
Definition collector_stop : OM PacketCollector unit :=
  let! c := oget in
  owhen (pc_on c)
    (olift (sleep 300) ;!;
     let! l := olift (nic_do sniff_stop) in
     omod (fun c => mkColl (pc_iface c) (pc_bpf c) false l)).
Definition erspan_collector (iface : string) : PacketCollector := packet_collector iface (Some "proto gre") true.

(** a stopped collector keeps its packets when it is stopped again *)
Lemma collector_stop_once c w u c' w' : collector_stop c w = (Val (Val u, c'), w') -> collector_stop c' w' = (Val (Val tt, c'), w').
Proof.
  unfold collector_stop, obnd, oget, owhen, omod, olift, oret, ret, nic_do, sleep, bind. cbn.
  destruct (pc_on c) eqn:Ec.
  - destruct (sniff_stop _) as [l d]. intros. by simplify_eq.
  - intros. simplify_eq. by rewrite Ec.
Qed.
End Collector.
