(* ===== verification/Transfer.v ===== *)
(** * File transfer and terminal dialogues (tools/dutssh.py, tools/bcmsh_run.py)

    [put] and [get] copy a file with scp under the candidate users in turn,
    whose lines are read back as bash reads them;
    [bcmsh_run] drives the chip's shell through a pseudo terminal. *)

From S2P Require Import Prelude PyStr PyStrFacts PyVal Device DeviceFacts Toy CliParse Cli Dut Topology Loopback Obj Traffic Links Bytes Servers Tools.

(** ** How bash reads the line of a copy *)

(** the words of a line made of plain characters, single quotes and escaped
    characters; [None] for anything else and for a quote left open *)
Definition put_char (cur : option string) (c : ascii) : option string := Some (or_empty cur +:+ s1 c).
Fixpoint sh_go (quoted : bool) (cur : option string) (s : string) : option (list string) :=
  match s with
  | "" => if quoted then None else Some (option_list cur)
  | String c s' =>
      if quoted then
        if Ascii.eqb c squote then sh_go false cur s' else sh_go true (put_char cur c) s'
      else if Ascii.eqb c " " then option_map (app (option_list cur)) (sh_go false None s')
      else if Ascii.eqb c squote then sh_go true (Some (or_empty cur)) s'
      else if Ascii.eqb c bslash then
        match s' with String d s'' => sh_go false (put_char cur d) s'' | "" => None end
      else if shell_safe c then sh_go false (put_char cur c) s'
      else None
  end.
Definition sh_words (s : string) : option (list string) := sh_go false None s.

Lemma put_char_app cur c t : Some (or_empty (put_char cur c) +:+ t) = Some (or_empty cur +:+ String c t).
Proof. unfold put_char. cbn [or_empty]. by rewrite sapp_assoc. Qed.
(** a word of plain characters *)
Definition safe_word (s : string) : bool := nonempty s && str_forall shell_safe s.
Lemma sh_safe w : forall cur s, str_forall shell_safe w = true -> w <> "" ->
  sh_go false cur (w +:+ s) = sh_go false (Some (or_empty cur +:+ w)) s.
Proof.
  induction w as [|c w IH]; intros cur s Hw Hne; [done|]. cbn [str_forall] in Hw. apply andb_true_iff in Hw as [Hc Hw].
  change (String c w +:+ s) with (String c (w +:+ s)). cbn [sh_go].
  assert (implb (shell_safe c) (negb (Ascii.eqb c " ") && negb (Ascii.eqb c squote) && negb (Ascii.eqb c bslash)) = true) as Hn
    by (clear; revert c; by apply ascii_all).
  rewrite Hc in Hn. cbn [implb] in Hn. destruct (Ascii.eqb c " "), (Ascii.eqb c squote), (Ascii.eqb c bslash); try done. rewrite Hc.
  destruct w as [|d w]; [by unfold put_char|]. rewrite IH by done. by rewrite put_char_app.
Qed.
(** what is quoted is read back whole, whatever it holds *)
Lemma sh_body x : forall w s, sh_go true (Some w) (replace_char squote ("'" +:+ s1 bslash +:+ "''") x +:+ "'" +:+ s) = sh_go false (Some (w +:+ x)) s.
Proof.
  induction x as [|c x IH]; intros w s; [by rewrite sapp_nil_r|]. cbn [replace_char].
  destruct (Ascii.eqb_spec c squote) as [->|Hc].
  - assert (forall y z, sh_go true (Some w) ((("'" +:+ s1 bslash +:+ "''") +:+ y) +:+ z) = sh_go true (Some (w +:+ s1 squote)) (y +:+ z)) as ->
      by reflexivity.
    rewrite IH, sapp_assoc. done.
  - change (String c ?y +:+ ?z) with (String c (y +:+ z)). cbn [sh_go]. rewrite (proj2 (Ascii.eqb_neq _ _) Hc).
    unfold put_char. cbn [or_empty]. rewrite IH, sapp_assoc. done.
Qed.
Lemma sh_quoted x cur s : sh_go false cur (shell_quote x +:+ s) = sh_go false (Some (or_empty cur +:+ x)) s.
Proof.
  unfold shell_quote. rewrite !sapp_assoc. change ("'" +:+ ?y) with (String squote y) at 1.
  change (sh_go false cur (String squote ?y)) with (sh_go true (Some (or_empty cur)) y). apply sh_body.
Qed.

(** ** dutssh.py: [put] and [get] *)

Section Scp.
Context (HOST PASSWORD : string) (USERS : list string).
Context (spawn : nat -> string -> Child).

(** the dialogue of a copy: every prompt is answered, however many there are;
    [None] when [fuel] prompts were not enough *)
Inductive CopyEnd := CopyExit (code : option Z) | CopyTimeout.
#[export] Instance CopyEnd_dec : EqDecision CopyEnd.
Proof. solve_decision. Defined.
Fixpoint copy_talk (fuel : nat) (c : Child) (i : nat) : option CopyEnd :=
  match ch_event c i with
  | Prompt => match fuel with O => None | S f => copy_talk f c (S i) end
  | Eof => Some (CopyExit (ch_exit c))
  | Timeout => Some CopyTimeout
  end.

Definition put_cmd (local remote user : string) : string :=
  "scp " +:+ SSH_OPTS +:+ " " +:+ shell_quote local +:+ " " +:+ user +:+ "@" +:+ HOST +:+ ":" +:+ shell_quote remote.
Definition get_cmd (remote local user : string) : string :=
  "scp " +:+ SSH_OPTS +:+ " " +:+ user +:+ "@" +:+ HOST +:+ ":" +:+ shell_quote remote +:+ " " +:+ shell_quote local.

(** the users in turn until a copy exits with 0: the result, the user it
    worked for or the error *)
Fixpoint copy_as (fuel : nat) (users : list string) (line : string -> string) (t : Term) : option (string + string) * Term :=
  match users with
  | [] => (Some (inr "scp failed"), t)
  | user :: users' =>
      let '(c, t) := start_child spawn (line user) t in
      match copy_talk fuel c 0 with
      | None => (None, t)
      | Some (CopyExit (Some 0)) => (Some (inl user), t)
      | Some _ => copy_as fuel users' line t
      end
  end.
Definition put (fuel : nat) (local remote : string) : Term -> option (string + string) * Term :=
  copy_as fuel USERS (put_cmd local remote).
Definition get (fuel : nat) (remote local : string) : Term -> option (string + string) * Term :=
  copy_as fuel USERS (get_cmd remote local).

(** [_q], which [put] and [get] use, is the quoting of framework/shell.py *)
Definition dutssh_q (s : string) : string := shell_quote s.

(** the entry of the script: what is asked of it *)
Inductive Request := Copied (r : option (string + string)) | Ran (r : Z * string * string + string) | BadUsage.
Definition dutssh_main (fuel : nat) (args : list string) : Request * Term :=
  match args with
  | "--put" :: a :: b :: _ => let '(r, t) := put fuel a b (mkTerm [] 0) in (Copied r, t)
  | "--get" :: a :: b :: _ => let '(r, t) := get fuel a b (mkTerm [] 0) in (Copied r, t)
  | "--put" :: _ | "--get" :: _ => (BadUsage, mkTerm [] 0)
  | _ => let '(r, t) := ssh_main HOST PASSWORD USERS spawn args in (Ran r, t)
  end.

(** a child stops asking *)
Definition settles (fuel : nat) (c : Child) : Prop := exists k, (k <= fuel)%nat /\ ch_event c k <> Prompt.
Lemma copy_talk_ends fuel c : forall i, (exists k, (i <= k <= i + fuel)%nat /\ ch_event c k <> Prompt) -> exists e, copy_talk fuel c i = Some e.
Proof.
  induction fuel as [|f IH]; intros i (k & Hk & He); cbn [copy_talk]; destruct (ch_event c i) eqn:Ei; eauto.
  - assert (k = i) as -> by lia. done.
  - apply IH. exists k. split; [|done]. destruct (decide (k = i)) as [->|]; [done | lia].
Qed.

(** the child asked for the password some times, then ended with status 0 *)
Definition copied (c : Child) : Prop :=
  exists k, (forall i, (i < k)%nat -> ch_event c i = Prompt) /\ ch_event c k = Eof /\ ch_exit c = Some 0.
Lemma copy_talk_end fuel c : forall i e, copy_talk fuel c i = Some e ->
  exists k, (i <= k)%nat /\ (forall j, (i <= j < k)%nat -> ch_event c j = Prompt) /\ ch_event c k <> Prompt
    /\ e = match ch_event c k with Eof => CopyExit (ch_exit c) | _ => CopyTimeout end.
Proof.
  induction fuel as [|f IH]; intros i e; cbn [copy_talk]; destruct (ch_event c i) eqn:Ei; intros E; try done;
    try (exists i; rewrite Ei; split_and!; [lia | intros; lia | done | by simplify_eq]).
  destruct (IH _ _ E) as (k & Hk & Hj & Hn & ->). exists k. split_and!; [lia | | done | done].
  intros j Hjk. destruct (decide (j = i)) as [->|]; [done | apply Hj; lia].
Qed.
Lemma copy_talk_copied fuel c e : copy_talk fuel c 0 = Some e -> copied c <-> e = CopyExit (Some 0).
Proof.
  intros E. destruct (copy_talk_end _ _ _ _ E) as (k & _ & Hj & Hn & ->). split.
  - intros (k' & Hp & He & Hx). assert (k' = k) as ->.
    { destruct (Nat.lt_trichotomy k k') as [Hlt|[->|Hlt]]; [by destruct Hn; apply Hp | done |].
      specialize (Hj k' ltac:(lia)). congruence. }
    by rewrite He, Hx.
  - intros Ek. exists k. split; [intros i Hi; apply Hj; lia|]. destruct (ch_event c k); [done| |done]. split; [done | congruence].
Qed.

(** ** What a copy is *)

Inductive Way := Put | Get.
Definition scp_copy (way : Way) : nat -> string -> string -> Term -> option (string + string) * Term :=
  match way with Put => put | Get => get end.
(** the words of the program: options, source and destination *)
Definition scp_argv (way : Way) (a b user : string) : list string :=
  "scp" :: split_ws SSH_OPTS ++
  match way with
  | Put => [a; user +:+ "@" +:+ HOST +:+ ":" +:+ b]
  | Get => [user +:+ "@" +:+ HOST +:+ ":" +:+ a; b]
  end.

Lemma read_opts s : sh_go false None ("scp " +:+ SSH_OPTS +:+ " " +:+ s) = option_map (app ("scp" :: split_ws SSH_OPTS)) (sh_go false None s).
Proof.
  transitivity (foldr (fun w r => option_map (app [w]) r) (sh_go false None s) ("scp" :: split_ws SSH_OPTS)); [reflexivity|].
  by destruct (sh_go false None s).
Qed.
Lemma read_remote cur user path s : safe_word user = true -> safe_word HOST = true ->
  sh_go false cur (user +:+ "@" +:+ HOST +:+ ":" +:+ shell_quote path +:+ s)
  = sh_go false (Some (or_empty cur +:+ user +:+ "@" +:+ HOST +:+ ":" +:+ path)) s.
Proof.
  unfold safe_word. intros [Hu Hus]%andb_true_iff [Hh Hhs]%andb_true_iff.
  rewrite sh_safe by (done || by intros ->). rewrite (sh_safe "@") by done. rewrite sh_safe by (done || by intros ->).
  rewrite (sh_safe ":") by done. rewrite sh_quoted. cbn [or_empty]. by rewrite !sapp_assoc.
Qed.
Lemma sh_space w s : sh_go false (Some w) (" " +:+ s) = option_map (app [w]) (sh_go false None s).
Proof. reflexivity. Qed.
Lemma sh_end w : sh_go false (Some w) "" = Some [w].
Proof. reflexivity. Qed.
#[local] Opaque sh_go split_ws SSH_OPTS shell_quote.
Lemma put_reads a b user : safe_word user = true -> safe_word HOST = true -> sh_words (put_cmd a b user) = Some (scp_argv Put a b user).
Proof.
  intros Hu Hh. unfold sh_words, put_cmd, scp_argv. rewrite read_opts, sh_quoted, sh_space, <-(sapp_nil_r (shell_quote b)).
  rewrite read_remote, sh_end by done. cbn [option_map]. by rewrite <-app_comm_cons.
Qed.
Lemma get_reads a b user : safe_word user = true -> safe_word HOST = true -> sh_words (get_cmd a b user) = Some (scp_argv Get a b user).
Proof.
  intros Hu Hh. unfold sh_words, get_cmd, scp_argv. rewrite read_opts, read_remote, sh_space, <-(sapp_nil_r (shell_quote b)) by done.
  rewrite sh_quoted, sh_end. cbn [option_map]. by rewrite <-app_comm_cons.
Qed.
#[local] Transparent sh_go split_ws SSH_OPTS shell_quote.

(** the copies of [users] in turn, the first as the [n]-th child *)
Lemma copy_turns fuel line : (forall n l, settles fuel (spawn n l)) -> forall users t, exists r k,
  copy_as fuel users line t = (Some r, mkTerm (started t ++ map line (take k users)) (slept t)) /\
  match r with
  | inl user => exists j, k = S j /\ users !! j = Some user /\ copied (spawn (length (started t) + j) (line user)) /\
      forall i u, (i < j)%nat -> users !! i = Some u -> ~ copied (spawn (length (started t) + i) (line u))
  | inr e => e = "scp failed" /\ k = length users /\
      forall i u, users !! i = Some u -> ~ copied (spawn (length (started t) + i) (line u))
  end.
Proof.
  intros Hset. induction users as [|u users IH]; intros t.
  - exists (inr "scp failed"), 0%nat. cbn. rewrite app_nil_r. split; [by destruct t | done].
  - cbn [copy_as]. unfold start_child. set (n := length (started t)). destruct (Hset n (line u)) as (k0 & Hk0 & He0).
    destruct (copy_talk_ends fuel (spawn n (line u)) 0) as [e Ee]; [exists k0; split; [lia | done]|].
    pose proof (copy_talk_copied fuel (spawn n (line u)) e Ee) as Hc. rewrite Ee.
    destruct (decide (e = CopyExit (Some 0))) as [->|Hne].
    + exists (inl u), 1%nat. split; [done|]. exists 0%nat. split; [done|]. split; [done|].
      rewrite Nat.add_0_r. split; [by apply Hc | lia].
    + destruct (IH (mkTerm (started t ++ [line u]) (slept t))) as (r & k & E & Hr). cbn [started slept] in *.
      rewrite length_app in *. cbn [length] in *. fold n in Hr. exists r, (S k). split.
      { replace (match e with CopyExit (Some 0) => _ | _ => _ end) with
          (copy_as fuel users line (mkTerm (started t ++ [line u]) (slept t))) by (by destruct e as [[[]|]|]).
        rewrite E. cbn [take map]. by rewrite <-app_assoc. }
      assert (forall i, (n + 1 + i)%nat = (n + S i)%nat) as Hsh by lia.
      destruct r as [user|e'].
      * destruct Hr as (j & -> & Hu & Hok & Hno). exists (S j). split; [done|]. split; [done|]. split; [by rewrite <-Hsh|].
        intros [|i] v Hlt Hv; [injection Hv as <-; rewrite Nat.add_0_r; by intros ?%Hc|]. rewrite <-Hsh. apply Hno; [lia | done].
      * destruct Hr as (-> & -> & Hno). split; [done|]. split; [done|].
        intros [|i] v Hv; [injection Hv as <-; rewrite Nat.add_0_r; by intros ?%Hc|]. rewrite <-Hsh. by apply Hno.
Qed.

(** C40: a file copy.  When every child stops asking for the password, [put] and
    [get] return.  They start one scp for each user in order, whose words, as
    bash reads the line, are the options, the source and the destination: the
    local path, and the user's path on the device, whatever characters the
    paths hold.  The result is the first user whose scp came to its end with
    status 0 after some prompts, and nothing is started after it; it is the
    error only when the scp of every user ended otherwise or was given up at
    its time limit. *)
Theorem copy_result (way : Way) (fuel : nat) (a b : string) (t : Term) :
  (forall n l, settles fuel (spawn n l)) -> safe_word HOST = true -> Forall (fun u => safe_word u = true) USERS ->
  exists r k lines, scp_copy way fuel a b t = (Some r, mkTerm (started t ++ lines) (slept t)) /\
  map sh_words lines = map (fun u => Some (scp_argv way a b u)) (take k USERS) /\
  match r with
  | inl user => exists j l, k = S j /\ USERS !! j = Some user /\ lines !! j = Some l /\ copied (spawn (length (started t) + j) l) /\
      forall i l, (i < j)%nat -> lines !! i = Some l -> ~ copied (spawn (length (started t) + i) l)
  | inr e => e = "scp failed" /\ k = length USERS /\
      forall i l, lines !! i = Some l -> ~ copied (spawn (length (started t) + i) l)
  end.
Proof.
  intros Hset Hh Hus. set (line := match way with Put => put_cmd a b | Get => get_cmd a b end).
  destruct (copy_turns fuel line Hset USERS t) as (r & k & E & Hr). exists r, k, (map line (take k USERS)).
  split; [by destruct way|]. split.
  - rewrite map_map. apply map_ext_in. intros u Hu%list_elem_of_In%elem_of_take. destruct Hu as (i & Hu & _).
    rewrite Forall_lookup in Hus. specialize (Hus _ _ Hu). destruct way; [by apply put_reads | by apply get_reads].
  - destruct r as [user|e].
    + destruct Hr as (j & -> & Hu & Hc & Hno). exists j, (line user). split_and!; [done | done | | done |].
      * rewrite list_lookup_fmap, lookup_take_lt by lia. by rewrite Hu.
      * intros i l Hi (u & -> & Hl)%list_lookup_fmap_Some. apply lookup_take_Some in Hl as [Hl _]. by apply Hno.
    + destruct Hr as (-> & -> & Hno). split_and!; [done..|]. intros i l (u & -> & Hl)%list_lookup_fmap_Some.
      apply lookup_take_Some in Hl as [Hl _]. by apply Hno.
Qed.
End Scp.

(** two users: the first is refused after a prompt, the second copies a file
    whose name has a space and a quote *)
Lemma copy_result_witness :
  let spawn n (_ : string) := mkChild (fun i => if (i =? 0)%nat then Prompt else Eof) "" (Some (if (n =? 0)%nat then 1 else 0)) in
  exists r k lines, scp_copy "10.0.0.1" ["admin"; "root"; "guest"] spawn Put 5 "it's a.json" "/tmp/a.json" (mkTerm [] 0)
    = (Some r, mkTerm ([] ++ lines) 0)
  /\ map sh_words lines = map (fun u => Some (scp_argv "10.0.0.1" Put "it's a.json" "/tmp/a.json" u)) (take k ["admin"; "root"; "guest"])
  /\ r = inl "root" /\ k = 2%nat.
Proof.
  intros spawn. destruct (copy_result "10.0.0.1" ["admin"; "root"; "guest"] spawn Put 5 "it's a.json" "/tmp/a.json" (mkTerm [] 0))
    as (r & k & lines & E & Hl & Hr); [intros n l; exists 1%nat; split; [lia | discriminate] | reflexivity | by repeat constructor |].
  exists r, k, lines. split; [exact E|]. split; [exact Hl|]. assert (r = inl "root") as -> by (vm_compute in E; congruence).
  split; [reflexivity|]. destruct Hr as (j & l & -> & Hj & _). destruct j as [|[|[|]]]; [discriminate Hj | reflexivity | discriminate Hj | discriminate Hj].
Defined.

(** a copy whose password is refused for ever is never given up: the loop has
    no limit of its own *)
Example ex_copy_asks : copy_talk 1000 (mkChild (fun _ => Prompt) "" None) 0 = None.
Proof. vm_compute. reflexivity. Qed.

(** ** bcmsh_run.py: the chip's shell on a pseudo terminal *)

(** [c.encode()] of ASCII text *)
Definition text_bytes (s : string) : list Z := map (fun c => Z.of_nat (nat_of_ascii c)) (list_ascii_of_string s).

(** the master end of a pseudo terminal with a child on the other *)
Class Pty `{Device} := {
  pty : Type;
  pty_fork : list string -> dev -> outcome pty * dev;
  pty_select : pty -> Z -> dev -> bool * dev;        (* readable within so many milliseconds *)
  pty_recv : pty -> dev -> outcome (list Z) * dev;   (* at most 4096 bytes *)
  pty_send : pty -> list Z -> dev -> outcome unit * dev;
  pty_close : pty -> dev -> outcome unit * dev;
  pty_wait : pty -> dev -> outcome unit * dev
}.

Section Bcmsh.
Context `{Device} `{!Pty} (SYNCD : string) (fuel : nat).

Definition pty_do {A} (f : dev -> outcome A * dev) : M A := fun w =>
  let '(r, d) := f (w_dev w) in (r, mkWorld d (w_trace w) (w_cli w) (w_lb w)).
Definition pty_ask {A} (f : dev -> A * dev) : M A := pty_do (fun d => let '(a, d) := f d in (Val a, d)).
(** [except OSError] *)
Definition on_oserror {A} (m : M A) (h : M A) : M A := fun w =>
  match m w with
  | (Exc (OSError _), w') => h w'
  | r => r
  end.

(** [_read]: until [end_], which moves on while data arrives; [None] from the
    read is the break of the loop *)
Fixpoint read_until (n : nat) (fd : pty) (end_ : Z) (buf : list Z) : M (list Z) :=
  let* t := now in
  if end_ <=? t then ret buf
  else match n with
  | O => hang
  | S n' =>
      let* r := pty_ask (pty_select fd 200) in
      if r then
        let* chunk := on_oserror (let* b := pty_do (pty_recv fd) in ret (Some b)) (ret None) in
        match chunk with
        | None | Some [] => ret buf
        | Some b => let* t := now in read_until n' fd (t + 500) (buf ++ b)
        end
      else read_until n' fd end_ buf
  end.
Definition bcmsh_read (fd : pty) (timeout : Z) : M string :=
  let* t := now in
  let* b := read_until fuel fd (t + timeout) [] in ret (decode_ascii b).

Definition CR : list Z := [13].
Definition bcmsh_argv : list string := ["docker"; "exec"; "-it"; SYNCD; "bcmsh"].
(** the commands in turn: the text each was answered with *)
Fixpoint bcmsh_cmds (fd : pty) (cmds : list string) : M (list string) :=
  match cmds with
  | [] => ret []
  | c :: cmds' =>
      pty_do (pty_send fd (text_bytes c ++ CR)) ;;;
      let* o := bcmsh_read fd 2000 in
      let* os := bcmsh_cmds fd cmds' in ret (o :: os)
  end.
Definition bcmsh_session (fd : pty) (cmds : list string) (settle : Z) : M string :=
  sleep settle ;;;
  let* banner := bcmsh_read fd 2000 in
  pty_do (pty_send fd CR) ;;;
  let* prompt := bcmsh_read fd 1500 in
  let* os := bcmsh_cmds fd cmds in
  pty_do (pty_send fd (text_bytes "exit" ++ CR)) ;;;
  bcmsh_read fd 500 ;;;
  ret (join "" (banner :: prompt :: os)).
Definition bcmsh_run (cmds : list string) (settle : Z) : M string :=
  let* fd := pty_do (pty_fork bcmsh_argv) in
  try_finally (bcmsh_session fd cmds settle)
    (on_oserror (pty_do (pty_close fd)) (ret tt) ;;; on_oserror (pty_do (pty_wait fd)) (ret tt)).
Definition bcmsh_main (args : list string) : M string :=
  bcmsh_run (match args with [] => ["version"] | _ => args end) 2000.

(** whatever happens in the session, the terminal is closed and the child
    waited for before the run ends *)
Lemma bcmsh_closed cmds settle w r w' : bcmsh_run cmds settle w = (r, w') -> r <> Hang ->
  (exists e, r = Exc e /\ exists w1, pty_do (pty_fork bcmsh_argv) w = (Exc e, w1)) \/
  exists fd w1 u w2, on_oserror (pty_do (pty_close fd)) (ret tt) w1 = (u, w2) /\
    (u = Val tt -> exists r2, on_oserror (pty_do (pty_wait fd)) (ret tt) w2 = (r2, w')).
Proof.
  unfold bcmsh_run, bind at 1. intros E Hr. destruct (pty_do (pty_fork bcmsh_argv) w) as [[fd|e|] w0].
  - right. unfold try_finally in E. destruct (bcmsh_session fd cmds settle w0) as [rs w1].
    assert (rs <> Hang) as Hn by (intros ->; by simplify_eq). exists fd, w1. unfold bind in E.
    destruct (on_oserror (pty_do (pty_close fd)) (ret tt) w1) as [u w2]. exists u, w2. split; [done|]. intros ->.
    destruct (on_oserror (pty_do (pty_wait fd)) (ret tt) w2) as [r2 w3]. exists r2.
    destruct rs; [| |done]; destruct r2; simplify_eq; done.
  - left. simplify_eq. eauto.
  - by simplify_eq.
Qed.
End Bcmsh.
