(* ===== verification/Probes.v ===== *)
(** * The two interactive probes (tools/hw_loopback_probe.py, bcmsh_probe.py)

    Scripts that are run by hand: a straight line of calls of the packet
    library, and a dialogue through the expect library.  Both libraries are
    parameters; frames and their bytes are the packet library's. *)

From S2P Require Import Prelude PyStr PyStrFacts PyVal Device DeviceFacts Toy CliParse Cli Dut Topology Loopback Obj Traffic Links Bytes Servers Tools Transfer.

(** ** hw_loopback_probe.py *)

(** [m in b] of byte strings *)
Fixpoint bytes_in (m b : list Z) : bool :=
  bool_decide (take (length m) b = m) || match b with [] => false | _ :: b' => bytes_in m b' end.

(** a UDP datagram of the packet library, and the bytes of a frame *)
Class FrameLib `{Nic} := {
  udp_frame : string -> string -> string -> string -> Z -> Z -> list Z -> pkt;   (* MACs and addresses (dst, src), ports, payload *)
  frame_bytes : pkt -> list Z
}.

Section LoopbackProbe.
Context `{Device} `{!Nic} `{!FrameLib}.

Definition PROBE_SRC : string := "00:de:ad:be:ef:01".
Definition PROBE_MAGIC : list Z := text_bytes "HWLBPROBE".
Definition probe_pkt : pkt :=
  udp_frame "ff:ff:ff:ff:ff:ff" PROBE_SRC "1.1.1.1" "2.2.2.2" 1111 2222 (PROBE_MAGIC ++ List.repeat 120 32).

(** the line it prints and its exit status; [args] are the arguments *)
Definition hw_loopback_probe (args : list string) : M (string * Z) :=
  let iface := nth 0 args "Ethernet1" in
  let* n := match args with
            | _ :: a :: _ => match py_int a with Some n => ret n | None => raise (ValueError a) end
            | _ => ret 5
            end in
  nic_do (fun d => (tt, sniff_start iface (Some ("ether src " +:+ PROBE_SRC)) d)) ;;;
  sleep 500 ;;;
  nic_do (fun d => (tt, nic_send probe_pkt iface n 20 d)) ;;;
  sleep 800 ;;;
  let* results := nic_do sniff_stop in
  let got := List.filter (fun p => bytes_in PROBE_MAGIC (frame_bytes p)) results in
  ret ("iface=" +:+ iface +:+ " sent=" +:+ zs n +:+ " captured=" +:+ ns (length got) +:+ " -> "
       +:+ (match got with [] => "NO-CAPTURE" | _ => "LOOPBACK-OK" end),
       match got with [] => 1 | _ => 0 end).

(** What a capture sees (the docstring of framework/traffic.py's [Capture]):
    a sniffer also hears what its own host sends on the interface, unless the
    filter asks for inbound frames. *)
Class TxEcho (listening : dev -> option (string * option string)) (heard : dev -> list pkt) (passes : string -> pkt -> bool) : Prop := {
  echo_start : forall i f d, listening (sniff_start i f d) = Some (i, f);
  echo_wait : forall t d, listening (dev_sleep t d) = listening d /\ forall p, p ∈ heard d -> p ∈ heard (dev_sleep t d);
  echo_send : forall i f k n t d, listening d = Some (i, Some f) -> starts "inbound" f = false -> passes f k = true -> 0 < n ->
    k ∈ heard (nic_send k i n t d);
  echo_stop : forall d, fst (sniff_stop d) = heard d
}.

(** The probe cannot fail: its filter is not limited to inbound frames, so it
    hears its own frames and reports LOOPBACK-OK whether or not the port is in
    loopback. *)
Theorem probe_blind listening heard passes `{!TxEcho listening heard passes} iface w :
  passes ("ether src " +:+ PROBE_SRC) probe_pkt = true -> bytes_in PROBE_MAGIC (frame_bytes probe_pkt) = true ->
  exists out w', hw_loopback_probe [iface] w = (Val (out, 0), w').
Proof.
  intros Hp Hm. unfold hw_loopback_probe, nic_do, bind, ret, sleep. cbn [nth w_dev]. unfold bind, ret, sleep. cbn [w_dev].
  set (d1 := sniff_start _ _ (w_dev w)). set (d2 := dev_sleep 500 d1). set (d3 := nic_send probe_pkt iface 5 20 d2). set (d4 := dev_sleep 800 d3).
  assert (listening d2 = Some (iface, Some ("ether src " +:+ PROBE_SRC))) as Hl.
  { destruct (echo_wait 500 d1) as [E _]. unfold d2. rewrite E. apply echo_start. }
  assert (probe_pkt ∈ heard d4) as Hin by (apply echo_wait; eapply echo_send; [exact Hl | reflexivity | exact Hp | lia]).
  pose proof (echo_stop d4) as Hs. destruct (sniff_stop d4) as [rs d5]. cbn [fst] in Hs. subst rs.
  assert (In probe_pkt (List.filter (fun p => bytes_in PROBE_MAGIC (frame_bytes p)) (heard d4))) as Hf.
  { apply filter_In. split; [by apply list_elem_of_In | done]. }
  destruct (List.filter _ (heard d4)); [done|]. eauto.
Qed.
End LoopbackProbe.

(** a host that hears what it sends: the sniffer and the frames it heard *)
Definition hearing : Type := option (string * option string) * list (string * list Z).
Definition echo_device : Device := state_device (fun _ (s : hearing) => (ok_out "", s)).
Definition echo_send_nic (k : string * list Z) (i : string) (n _ : Z) (d : hearing * Z) : hearing * Z :=
  match fst (fst d) with
  | Some (j, Some f) =>
      if String.eqb i j && negb (starts "inbound" f) && String.eqb f ("ether src " +:+ fst k) && (0 <? n)
      then ((fst (fst d), snd (fst d) ++ [k]), snd d) else d
  | _ => d
  end.
Definition echo_open (i : string) (f : option string) (d : hearing * Z) : hearing * Z := ((Some (i, f), []), snd d).
Definition echo_results (d : hearing * Z) : list (string * list Z) * (hearing * Z) := (snd (fst d), d).
Definition echo_nic : @Nic echo_device :=
  @Build_Nic echo_device (string * list Z) true (fun _ src _ _ => (src, [])) echo_send_nic echo_open echo_results.
Definition echo_frames : @FrameLib echo_device echo_nic :=
  @Build_FrameLib echo_device echo_nic (fun _ src _ _ _ _ payload => (src, payload) : string * list Z) (snd : string * list Z -> list Z).
Definition echo_listening (d : hearing * Z) := fst (fst d).
Definition echo_heard (d : hearing * Z) := snd (fst d).
Definition echo_passes (f : string) (k : string * list Z) : bool := String.eqb f ("ether src " +:+ fst k).
#[export] Instance echo_tx : @TxEcho echo_device echo_nic echo_listening echo_heard echo_passes.
Proof.
  split; try done. intros i f k n t [[l h] c] Hl Hi Hf Hn. change (l = Some (i, Some f)) in Hl. subst l.
  change (String.eqb f ("ether src " +:+ fst k) = true) in Hf.
  change (k ∈ snd (fst (echo_send_nic k i n t ((Some (i, Some f), h), c)))). unfold echo_send_nic. cbn [fst snd].
  rewrite String.eqb_refl, Hi, Hf, (proj2 (Z.ltb_lt 0 n) Hn). cbn [negb andb fst snd]. apply elem_of_app. right. left.
Qed.

Lemma probe_blind_witness : exists out w',
  @hw_loopback_probe echo_device echo_nic echo_frames ["Ethernet1"] (@world echo_device ((None, []), 0) cli_init) = (Val (out, 0), w').
Proof. apply (@probe_blind echo_device echo_nic echo_frames _ _ _ echo_tx); reflexivity. Defined.

(** ** bcmsh_probe.py *)

(** a child under the expect library: a call may raise its TIMEOUT or EOF *)
Class Expect `{Device} := {
  child : Type;
  ex_spawn : string -> Z -> dev -> outcome child * dev;
  ex_expect : child -> list string -> option Z -> dev -> outcome unit * dev;   (* patterns, the call's own limit (ms) *)
  ex_send : child -> string -> dev -> outcome unit * dev;
  ex_sendline : child -> string -> dev -> outcome unit * dev;
  ex_read : child -> Z -> Z -> dev -> outcome string * dev;                    (* [read_nonblocking] *)
  ex_before : child -> dev -> option string;
  ex_control : child -> string -> dev -> outcome unit * dev;
  ex_close : child -> dev -> outcome unit * dev
}.

Section BcmshProbe.
Context `{Device} `{!Expect}.

Definition PROBE_OPTS : string :=
  "-tt -o StrictHostKeyChecking=no -o UserKnownHostsFile=/dev/null "
  +:+ "-o PreferredAuthentications=password -o PubkeyAuthentication=no "
  +:+ "-o HostKeyAlgorithms=+ssh-rsa -o LogLevel=ERROR".
Definition CR_TEXT : string := s1 cr.

(** the transcript that is printed *)
Definition bcmsh_probe (args : list string) : M string :=
  let HOST := nth 0 args "10.0.63.32" in
  let CMD := nth 1 args "version" in
  let* c := pty_do (ex_spawn ("ssh " +:+ PROBE_OPTS +:+ " admin@" +:+ HOST) 25000) in
  pty_do (ex_expect c ["[Pp]assword:"] None) ;;;
  pty_do (ex_sendline c "sonic") ;;;
  pty_do (ex_expect c ["\$"; "#"; ">"] (Some 15000)) ;;;
  pty_do (ex_sendline c "echo sonic | sudo -S docker exec syncd bash -c 'pkill -9 socat' 2>/dev/null; sleep 2") ;;;
  pty_do (ex_expect c ["\$"; "#"] (Some 10000)) ;;;
  pty_do (ex_sendline c "echo sonic | sudo -S docker exec -it syncd bcmsh") ;;;
  sleep 3000 ;;;
  pty_do (ex_send c CR_TEXT) ;;;
  sleep 2000 ;;;
  pty_do (ex_send c (CMD +:+ CR_TEXT)) ;;;
  sleep 3000 ;;;
  let* out := try_except (pty_do (ex_read c 8000 3000))
                (fun _ => fun w => (Val (or_empty (ex_before c (w_dev w))), w)) in
  pty_do (ex_control c "c") ;;;
  pty_do (ex_close c) ;;;
  ret out.
End BcmshProbe.
